(* ===== verification/_CoqProject ===== *)
-Q . S2P
Prelude.v
JsString.v
JsNumber.v
Json.v
WireFormat.v
ProtoRuntime.v
Codec.v
CommonMessages.v
HealthMessages.v
CacheMessages.v
MqMessages.v
ConfigMessages.v
ReferenceRuntime.v
MessageTheorems.v
Rpc.v
Services.v
Sdk.v
Contracts.v
SdkTheorems.v
SdkWitnesses.v
AdminApi.v
AdminApiTheorems.v
AdminState.v
AdminViews.v
AdminViewTheorems.v
AdminRender.v
AdminRenderTheorems.v
