(* ===== verification/Prelude.v ===== *)
(** * Verification of the TypeScript code of pgapp

    pgapp is a PostgreSQL-backed cache, message queue and config centre.  Its server is
    written in Rust; its TypeScript code is the SDK in [src/sdk/typescript] and the
    admin console in [src/apps/admin-ui].  This library models that TypeScript code and
    proves it correct against what the other side promises.

    ** The parts and how they interact

    - [gen/pgapp/v1/*.ts]: one message type per request and response, with a binary
      reader and writer, generated from the protocol definition and committed.
    - [gen/pgapp/v1/*.client.ts]: one client class per gRPC service; a method picks its
      description from the service table by index and calls the transport.
    - [index.ts]: the SDK.  [PGAppClient] holds the options and three clients
      ([CacheClient], [MQClient], [ConfigClient]) that build a request, call the generated
      client, and turn the response or the error into a result or a [PGAppError].
    - [App.tsx]: the admin console.  [fetchJson] and its variants call the Admin API with
      the stored token, [useAsyncData] loads data, and the views have handlers that send
      changes.

    ** Where each part is modelled

    - [Prelude]: strings as lists of UTF-16 code units, bytes, thrown values, the
      result monad with [Throw] and [OutOfFuel], integer ranges, the hint database.
    - [JsString], [JsNumber], [Json]: what the code uses of the language: decimal
      numerals, UTF-8 and UTF-16, [trim], [split], [join], [includes]; IEEE doubles with
      rounding, [String(x)], [Number(s)] and [+]; [JSON.stringify] and [JSON.parse].
    - [WireFormat]: varints, tags and length-delimited payloads.
    - [ProtoRuntime]: the interface of [@protobuf-ts/runtime] as a class
      [BinaryRuntime], what the package documents as the class [RuntimeLaws], the clauses
      every generated type repeats (read loop, unknown fields), and the encoding a
      field table prescribes ([encode_message]).
    - [Codec]: the lemmas that a written field is read back by its case of the
      switch; the interface [MessageType] and [LawfulMessage] of a message type;
      [toBinary] and [fromBinary].
    - [CommonMessages], [HealthMessages], [CacheMessages], [MqMessages],
      [ConfigMessages]: a module per message type of [common.ts], [health.ts], [cache.ts],
      [mq.ts], [config.ts] with its record, [create], [internalBinaryRead],
      [internalBinaryWrite] and its instance of [LawfulMessage].  A field whose name is taken
      in Rocq has an underscore ([exists_], [length_], [message_]); the field [unknown] holds
      the unknown fields, which the runtime keeps on the message object.
    - [ReferenceRuntime]: a runtime that satisfies [RuntimeLaws], so that the laws are
      consistent and the models evaluate.
    - [MessageTheorems]: the registry of all message types and the theorems on it.
    - [Rpc]: the interface of [@protobuf-ts/runtime-rpc] and the gRPC transport; a
      call is a computation on the state of the far end ([remote]); [TransportLaws] states
      what the transport documents, for metadata that gRPC carries unchanged (printable
      ASCII without outer blanks); [reference_transport] satisfies them.
    - [Services]: the service tables and the generated client classes.
    - [Sdk]: [index.ts], a module per class with its methods.
    - [Contracts]: what a far end promises per service (a handler per method at the
      path of the protocol definition), and a far end for given handlers.
    - [SdkTheorems], [SdkWitnesses]: the theorems on the SDK, and their application to
      a client of an in-memory far end.
    - [AdminApi], [AdminState], [AdminViews], [AdminRender]: [App.tsx]: requests and
      helpers, [useAsyncData] as a step relation, the state and handlers of the views,
      and the elements they render; the browser's [fetch] is the class [Browser].
    - [AdminApiTheorems], [AdminViewTheorems], [AdminRenderTheorems]: the theorems on
      them.

    ** What the theorems show

    - Messages: every well-formed message of the 78 types is written as the encoding its
      field table prescribes and read back as itself; reading terminates on every
      input; unknown fields survive; packed and unpacked numbers are read alike.
    - SDK: each client refines its service: a method with sendable arguments has the
      effect and the result of the handler at the method's path on the request with
      those arguments, under the metadata of the client's key and secret, for
      credentials gRPC can carry ([presentable]); failures arrive as [PGAppError] with
      their message and code, and it is stated which thrown values escape that.  The
      stream generator yields in order.  JSON payloads arrive intact.  Ids are exact up
      to 2^53, and odd ids beyond are taken for a neighbour.  Arguments that are not
      integers never reach the service.
    - Generated clients: every method is bound to the service method of its name and
      types.
    - Console: no stale data is shown; requests settle when [fetch] does and their
      errors are shown; the token, the editors, the scope list and the client form do what
      they say, and their requests have exactly the bodies stated; each view offers exactly
      its own handlers, none without a token; tables are rectangular.

    ** Bounds and fuel

    The read loops have fuel [length + 1]; every iteration reads a tag of at least one
    byte ([readLoop_settles] shows the fuel is enough for any input).  [Json.parse] has
    fuel [2 n + 2] for [n] characters, two levels of the grammar per character
    ([Json.parse_returns]).  A varint has at most ten bytes.  Messages are below
    [2 ^ 31] bytes, the length the runtime's 32-bit lengths can carry.  Numbers are IEEE
    doubles; 32-bit and 64-bit fields keep their ranges.

    ** What is not modelled

    - The Rust server, the other SDKs, the database and the scripts: the TypeScript
      code sees them through the contracts and [Browser].
    - The third-party packages beyond the laws stated for them; credentials gRPC cannot
      carry; interceptors of calls; deadlines and limits of the channel other than as
      failures of the far end; a consumer that leaves the stream generator early.
    - Requests of the console that never settle; thrown values whose properties are
      getters, and proxies.
    - React beyond the order of effects and state updates, keys and styles.  Handlers
      run without other handlers in between. *)

From Stdlib Require Import ZArith Lia Ascii String.
From stdpp Require Import base list numbers option strings.

(** Strings of the source are quoted with Rocq's own string syntax and
    turned into UTF-16 code units by [js] (see below). *)
Declare Scope js_scope.
Delimit Scope js_scope with js.
#[global] Open Scope Z_scope.

(** ** JavaScript strings and byte arrays

    A JavaScript string is a sequence of UTF-16 code units; a [Uint8Array] is a
    sequence of bytes.  Both are lists of integers, and the two ranges are the
    predicates [code_unit] and [is_byte]. *)
Definition jsstr := list Z.
Definition bytes := list Z.
Definition code_unit (u : Z) : Prop := 0 <= u < 65536.
Definition is_byte (b : Z) : Prop := 0 <= b < 256.

(** The code units of an ASCII literal of the source. *)
Definition js (s : string) : jsstr :=
  map (fun c => Z.of_nat (nat_of_ascii c)) (list_ascii_of_string s).

Lemma js_code_units s : Forall code_unit (js s).
Proof.
  unfold js. induction (list_ascii_of_string s) as [|c l IH]; constructor; [|done].
  pose proof (nat_ascii_bounded c). unfold code_unit. lia.
Qed.

(** ** Thrown values

    JavaScript can throw any value.  [PGAppError.from] and [errorMessage]
    distinguish them by the [message] property, by [instanceof Error] and by
    the string conversion, so these are what the model keeps.  The string conversion
    runs code of the value ([toString], or none for [Object.create(null)]), so
    it is a string or the value it throws.  Reading a property runs no code:
    getters and proxies are not modelled. *)
Inductive propval_ (T : Type) :=
  | PUndefined
  | PString (s : jsstr)
  | PNumber (z : Z)
  | POther (asString : T + jsstr).
Arguments PUndefined {T}.
Arguments PString {T} _.
Arguments PNumber {T} _.
Arguments POther {T} _.

Record errobj_ (T : Type) := mkErrobj {
  eo_message : propval_ T;
  eo_code : propval_ T;
  eo_isError : bool;
  eo_asString : T + jsstr
}.
Arguments mkErrobj {T} _ _ _ _.
Arguments eo_message {T} _.
Arguments eo_code {T} _.
Arguments eo_isError {T} _.
Arguments eo_asString {T} _.

Inductive thrown :=
  | ThrownObject (o : errobj_ thrown)
  | ThrownPrimitive (asString : jsstr)
  | ThrownNullish (asString : jsstr).
Abbreviation propval := (propval_ thrown).
Abbreviation errobj := (errobj_ thrown).

(** An error made by a constructor: [name] is the name its class gives it. *)
Definition error_of (name message : jsstr) (code : propval) : errobj :=
  {| eo_message := PString message; eo_code := code; eo_isError := true;
     eo_asString := inr (match message with [] => name | _ => name ++ js ": " ++ message end) |}.

(** [new Error(message)] and [new TypeError(message)] *)
Definition newError (message : jsstr) : thrown :=
  ThrownObject (error_of (js "Error") message PUndefined).
Definition TypeErrorOf (message : jsstr) : thrown :=
  ThrownObject (error_of (js "TypeError") message PUndefined).

(** ** Results

    Code that can throw returns [Ok] or [Throw].  [OutOfFuel] is the value of a
    loop whose fuel ran out; the termination theorems show it is never
    returned with the fuel the model uses. *)
Inductive result (A : Type) :=
  | Ok (a : A)
  | Throw (e : thrown)
  | OutOfFuel.
Arguments Ok {A} _.
Arguments Throw {A} _.
Arguments OutOfFuel {A}.

#[export] Instance result_ret : MRet result := fun A a => Ok a.
#[export] Instance result_bind : MBind result := fun A B f m =>
  match m with Ok a => f a | Throw e => Throw e | OutOfFuel => OutOfFuel end.
#[export] Instance result_fmap : FMap result := fun A B f m =>
  match m with Ok a => Ok (f a) | Throw e => Throw e | OutOfFuel => OutOfFuel end.

(** [try { m } catch (e) { h(e) }] *)
Definition try_catch {A} (m : result A) (h : thrown -> result A) : result A :=
  match m with Throw e => h e | _ => m end.

(** The computation came back, with a value or with an exception. *)
Definition returns {A} (m : result A) : Prop := m <> OutOfFuel.

Lemma bind_Ok_inv {A B} (m : result A) (f : A -> result B) b :
  (m ≫= f) = Ok b -> exists a, m = Ok a /\ f a = Ok b.
Proof. destruct m; cbn; intros; [eauto|congruence..]. Qed.

Lemma bind_returns {A B} (m : result A) (f : A -> result B) :
  returns m -> (forall a, m = Ok a -> returns (f a)) -> returns (m ≫= f).
Proof. unfold returns; destruct m; cbn; auto; congruence. Qed.

Lemma bind_assoc {A B C} (m : result A) (f : A -> result B) (g : B -> result C) :
  ((m ≫= f) ≫= g) = (m ≫= fun a => f a ≫= g).
Proof. by destruct m. Qed.

(** ** Automation *)
Create HintDb pgapp.
#[export] Hint Resolve bind_returns : pgapp.

(** Inverts every hypothesis [(m ≫= f) = Ok b]. *)
Ltac inv_bind :=
  repeat match goal with
  | H : (_ ≫= _) = Ok _ |- _ =>
      let a := fresh "a" in let E := fresh "E" in
      apply bind_Ok_inv in H as (a & E & H)
  | H : context [match ?p with pair _ _ => _ end] |- _ => is_var p; destruct p
  | H : Ok _ = Ok _ |- _ => injection H as H; subst
  end.

(** ** Lists and integers *)
Lemma firstn_length_app {A} (l k : list A) : firstn (length l) (l ++ k) = l.
Proof. induction l; cbn; [by destruct k|by f_equal]. Qed.

Lemma skipn_length_app {A} (l k : list A) : skipn (length l) (l ++ k) = k.
Proof. induction l; cbn; auto. Qed.

Lemma Zlength_app {A} (l k : list A) :
  Z.of_nat (length (l ++ k)) = Z.of_nat (length l) + Z.of_nat (length k).
Proof. rewrite length_app; lia. Qed.

Definition int32 (z : Z) : Prop := - 2 ^ 31 <= z < 2 ^ 31.
Definition uint32 (z : Z) : Prop := 0 <= z < 2 ^ 32.
Definition int64 (z : Z) : Prop := - 2 ^ 63 <= z < 2 ^ 63.
Definition uint64 (z : Z) : Prop := 0 <= z < 2 ^ 64.
