(* ===== verification/JsString.v ===== *)
(** * JavaScript strings: decimal numerals, UTF-8, trimming and splitting

    The parts of the language's strings that the sources use: decimal printing
    and parsing of integers, [TextEncoder.encode] (UTF-8 with replacement of
    lone surrogates) with the matching decoder, and [trim], [split], [includes]
    and [join] of the admin console. *)

From Stdlib Require Import ZArith Lia.
From stdpp Require Import base list numbers option strings.
From S2P Require Import Prelude.

Ltac Zify.zify_post_hook ::= Z.div_mod_to_equations.

(** ** Decimal numerals *)
Module Decimal.

Definition is_digit (u : Z) : bool := (48 <=? u) && (u <=? 57).

(** The digits of [n], in front of [acc]; [2 ^ fuel] bounds [n]. *)
Fixpoint digits_aux (fuel : nat) (n : Z) (acc : jsstr) : jsstr :=
  match fuel with
  | O => acc
  | S f =>
      let acc' := 48 + n mod 10 :: acc in
      if n <? 10 then acc' else digits_aux f (n / 10) acc'
  end.

Definition digits (n : Z) : jsstr := digits_aux (S (Z.to_nat (Z.log2 n))) n [].

(** The decimal numeral of an integer, as [String(z)] and [PbLong.toString]
    print it. *)
Definition of_Z (z : Z) : jsstr :=
  if z <? 0 then 45 :: digits (- z) else digits z.

Definition value_from (a : Z) (s : jsstr) : Z :=
  fold_left (fun a d => 10 * a + (d - 48)) s a.

Definition parse_digits (s : jsstr) : option Z :=
  match s with
  | [] => None
  | _ => if forallb is_digit s then Some (value_from 0 s) else None
  end.

(** An optional minus sign and at least one digit. *)
Definition parse (s : jsstr) : option Z :=
  match s with
  | 45 :: ds => Z.opp <$> parse_digits ds
  | _ => parse_digits s
  end.

Lemma digits_aux_value fuel n acc :
  0 <= n < 2 ^ Z.of_nat (S fuel) ->
  value_from 0 (digits_aux (S fuel) n acc) = value_from n acc.
Proof.
  revert n acc; induction fuel as [|fuel IH]; intros n acc Hn.
  - cbn. destruct (Z.ltb_spec n 10); [|lia].
    unfold value_from; cbn. f_equal. lia.
  - remember (S fuel) as k. cbn [digits_aux]. destruct (Z.ltb_spec n 10).
    + unfold value_from; cbn. f_equal. lia.
    + subst k. rewrite IH; [unfold value_from; cbn; f_equal; lia|].
      rewrite Nat2Z.inj_succ, Z.pow_succ_r in Hn by lia. lia.
Qed.

Lemma digits_aux_digit fuel n acc :
  0 <= n -> forallb is_digit acc = true ->
  forallb is_digit (digits_aux fuel n acc) = true.
Proof.
  revert n acc; induction fuel as [|fuel IH]; intros n acc Hn Hacc; cbn; [done|].
  assert (forallb is_digit (48 + n mod 10 :: acc) = true).
  { cbn. rewrite Hacc. unfold is_digit. lia. }
  destruct (n <? 10); [done|]. apply IH; [lia|done].
Qed.

Lemma digits_aux_nonempty fuel n acc : digits_aux (S fuel) n acc <> [].
Proof.
  revert n acc; induction fuel as [|fuel IH]; intros n acc.
  - cbn. by destruct (n <? 10).
  - remember (S fuel) as k. cbn [digits_aux]. destruct (n <? 10); [done|]. subst k. apply IH.
Qed.

Lemma digits_value n : 0 <= n -> value_from 0 (digits n) = n.
Proof.
  intros Hn. unfold digits. rewrite digits_aux_value; [done|].
  split; [done|]. rewrite Nat2Z.inj_succ, Z2Nat.id by apply Z.log2_nonneg.
  destruct (Z.eq_dec n 0) as [->|]; [done|]. apply Z.log2_spec; lia.
Qed.

Lemma digits_digit n : 0 <= n -> forallb is_digit (digits n) = true.
Proof. intros. by apply digits_aux_digit. Qed.

Lemma parse_digits_digits n : 0 <= n -> parse_digits (digits n) = Some n.
Proof.
  intros Hn. unfold parse_digits.
  pose proof (digits_aux_nonempty (Z.to_nat (Z.log2 n)) n []) as Hne.
  fold (digits n) in Hne. destruct (digits n) eqn:E; [done|]. rewrite <- E.
  by rewrite digits_digit, digits_value.
Qed.

Lemma digits_head n : 0 <= n -> exists d ds, digits n = d :: ds /\ 48 <= d <= 57.
Proof.
  intros Hn. pose proof (digits_digit n Hn) as Hd.
  pose proof (digits_aux_nonempty (Z.to_nat (Z.log2 n)) n []) as Hne.
  fold (digits n) in Hne. destruct (digits n) as [|d ds]; [done|].
  cbn in Hd. unfold is_digit in Hd. exists d, ds. split; [done|]. lia.
Qed.

(** No superfluous leading zero *)
Lemma digits_aux_head fuel n acc :
  0 < n < 2 ^ Z.of_nat (S fuel) -> exists d ds, digits_aux (S fuel) n acc = d :: ds /\ 49 <= d <= 57.
Proof.
  revert n acc; induction fuel as [|fuel IH]; intros n acc Hn.
  - cbn. destruct (Z.ltb_spec n 10); [|lia]. eexists _, _. split; [done|]. lia.
  - remember (S fuel) as k. cbn [digits_aux]. destruct (Z.ltb_spec n 10).
    + eexists _, _. split; [done|]. lia.
    + subst k. apply IH. rewrite Nat2Z.inj_succ, Z.pow_succ_r in Hn by lia. lia.
Qed.

Lemma digits_head_pos n : 0 < n -> exists d ds, digits n = d :: ds /\ 49 <= d <= 57.
Proof.
  intros Hn. apply digits_aux_head. split; [done|].
  rewrite Nat2Z.inj_succ, Z2Nat.id by apply Z.log2_nonneg. apply Z.log2_spec; lia.
Qed.

(** The digits of a number are those of its tenth and its last digit. *)
Lemma digits_aux_app fuel n acc acc' :
  digits_aux fuel n (acc ++ acc') = digits_aux fuel n acc ++ acc'.
Proof.
  revert n acc. induction fuel as [|fuel IH]; intros n acc; cbn [digits_aux]; [done|].
  rewrite app_comm_cons. by destruct (n <? 10).
Qed.

Lemma digits_aux_fuel f g n acc :
  0 <= n < 2 ^ Z.of_nat (S f) -> n < 2 ^ Z.of_nat (S g) ->
  digits_aux (S f) n acc = digits_aux (S g) n acc.
Proof.
  revert g n acc. induction f as [|f IH]; intros g n acc Hf Hg; cbn [digits_aux];
    destruct (Z.ltb_spec n 10) as [|H10]; try done; [cbn in Hf; lia|].
  destruct g as [|g]; [cbn in Hg; lia|].
  rewrite Nat2Z.inj_succ, Z.pow_succ_r in Hf, Hg by lia. apply IH; lia.
Qed.

Lemma log2_fuel n : 0 <= n -> n < 2 ^ Z.of_nat (S (Z.to_nat (Z.log2 n))).
Proof.
  intros Hn. rewrite Nat2Z.inj_succ, Z2Nat.id by apply Z.log2_nonneg.
  destruct (Z.eq_dec n 0) as [->|]; [done|]. apply Z.log2_spec; lia.
Qed.

Lemma digits_step n : 10 <= n -> digits n = digits (n / 10) ++ [48 + n mod 10].
Proof.
  intros Hn. unfold digits at 1. pose proof (log2_fuel n ltac:(lia)) as Hf.
  destruct (Z.to_nat (Z.log2 n)) as [|f]; [cbn in Hf; lia|].
  remember (S f) as k eqn:Ek. cbn [digits_aux]. destruct (Z.ltb_spec n 10); [lia|].
  change ([48 + n mod 10]) with ([] ++ [48 + n mod 10]). rewrite digits_aux_app. f_equal. subst k.
  apply digits_aux_fuel; [|apply log2_fuel; lia].
  rewrite Nat2Z.inj_succ, Z.pow_succ_r in Hf by lia. lia.
Qed.

Lemma digits_shift s j : 0 < s -> digits (s * 10 ^ Z.of_nat j) = digits s ++ repeat 48 j.
Proof.
  intros Hs. induction j as [|j IH]; [by rewrite Z.mul_1_r, app_nil_r|].
  pose proof (Z.pow_pos_nonneg 10 (Z.of_nat j) ltac:(lia) ltac:(lia)) as Hp.
  rewrite Nat2Z.inj_succ, Z.pow_succ_r by lia.
  replace (s * (10 * 10 ^ Z.of_nat j)) with (s * 10 ^ Z.of_nat j * 10) by lia.
  rewrite digits_step by nia. rewrite Z.div_mul, Z.mod_mul, IH by lia.
  by rewrite <- app_assoc, <- repeat_cons.
Qed.

Lemma digits_length n : 0 < n ->
  10 ^ (Z.of_nat (length (digits n)) - 1) <= n < 10 ^ Z.of_nat (length (digits n)).
Proof.
  induction n as [n IH] using (well_founded_induction (Z.lt_wf 0)). intros Hn.
  destruct (Z.lt_ge_cases n 10) as [H10|H10].
  - assert (digits n = [48 + n]) as ->; [|cbn; lia].
    unfold digits. cbn [digits_aux]. destruct (Z.ltb_spec n 10); [|lia]. do 2 f_equal. lia.
  - rewrite digits_step by done. specialize (IH (n / 10) ltac:(lia) ltac:(lia)).
    rewrite length_app. cbn [length]. rewrite Nat2Z.inj_add. change (Z.of_nat 1) with 1.
    set (l := Z.of_nat (length (digits (n / 10)))) in *.
    assert (0 < l).
    { destruct (Z.lt_ge_cases 0 l) as [|Hl]; [done|]. assert (10 ^ l <= 1); [|lia].
      replace l with 0 by lia. done. }
    replace (l + 1 - 1) with (Z.succ (l - 1)) by lia.
    change (l + 1) with (Z.succ l). rewrite !Z.pow_succ_r by lia. lia.
Qed.

Lemma parse_nonminus d ds : d <> 45 -> parse (d :: ds) = parse_digits (d :: ds).
Proof.
  intros Hd. unfold parse.
  destruct d as [|p|p]; try done. do 6 (destruct p as [p|p|]; try done).
Qed.

(** Printing and parsing decimal numerals are inverse. *)
Lemma parse_of_Z z : parse (of_Z z) = Some z.
Proof.
  unfold of_Z. destruct (Z.ltb_spec z 0) as [Hz|Hz].
  - change (Z.opp <$> parse_digits (digits (- z)) = Some z).
    rewrite parse_digits_digits by lia. cbn. f_equal. lia.
  - destruct (digits_head z Hz) as (d & ds & E & Hd). rewrite E.
    rewrite parse_nonminus by lia. rewrite <- E. by apply parse_digits_digits.
Qed.

#[export] Instance of_Z_inj : Inj (=) (=) of_Z.
Proof.
  intros x y Hxy. apply (inj Some). by rewrite <- !parse_of_Z, Hxy.
Qed.

Lemma of_Z_zero z : of_Z z = js "0" <-> z = 0.
Proof.
  split; [|by intros ->]. intros H. apply of_Z_inj. by rewrite H.
Qed.

End Decimal.

(** ** UTF-16 and UTF-8 *)
Module Utf.

Definition is_high (u : Z) : bool := (55296 <=? u) && (u <=? 56319).
Definition is_low (u : Z) : bool := (56320 <=? u) && (u <=? 57343).
Definition replacement : Z := 65533.

(** The code points of a string; a surrogate outside a pair is replaced by
    U+FFFD, as the conversion to a scalar value string does. *)
Fixpoint code_points (s : jsstr) : list Z :=
  match s with
  | [] => []
  | u :: rest =>
      if is_high u then
        match rest with
        | l :: rest' =>
            if is_low l
            then 65536 + (u - 55296) * 1024 + (l - 56320) :: code_points rest'
            else replacement :: code_points rest
        | [] => [replacement]
        end
      else if is_low u then replacement :: code_points rest
      else u :: code_points rest
  end.

(** Every unit in range and no surrogate outside a pair. *)
Fixpoint well_formed (s : jsstr) : bool :=
  match s with
  | [] => true
  | u :: rest =>
      if is_high u then
        match rest with
        | l :: rest' => is_low l && well_formed rest'
        | [] => false
        end
      else negb (is_low u) && (0 <=? u) && (u <? 65536) && well_formed rest
  end.

Definition utf8_of (c : Z) : bytes :=
  if c <? 128 then [c]
  else if c <? 2048 then [192 + c / 64; 128 + c mod 64]
  else if c <? 65536 then
    [224 + c / 4096; 128 + c / 64 mod 64; 128 + c mod 64]
  else
    [240 + c / 262144; 128 + c / 4096 mod 64; 128 + c / 64 mod 64; 128 + c mod 64].

(** [new TextEncoder().encode(s)] *)
Definition encode (s : jsstr) : bytes := flat_map utf8_of (code_points s).

Definition cont (b : Z) : bool := (128 <=? b) && (b <? 192).

(** The fatal decoder: malformed input has no code points. *)
Fixpoint decode_cps (bs : bytes) : option (list Z) :=
  match bs with
  | [] => Some []
  | b0 :: r =>
      if (0 <=? b0) && (b0 <? 128) then cons b0 <$> decode_cps r
      else if (194 <=? b0) && (b0 <? 224) then
        match r with
        | b1 :: r' =>
            if cont b1 then cons ((b0 - 192) * 64 + (b1 - 128)) <$> decode_cps r' else None
        | _ => None
        end
      else if (224 <=? b0) && (b0 <? 240) then
        match r with
        | b1 :: b2 :: r' =>
            let c := (b0 - 224) * 4096 + (b1 - 128) * 64 + (b2 - 128) in
            if cont b1 && cont b2 && (2048 <=? c) && negb (is_high c || is_low c)
            then cons c <$> decode_cps r' else None
        | _ => None
        end
      else if (240 <=? b0) && (b0 <? 245) then
        match r with
        | b1 :: b2 :: b3 :: r' =>
            let c := (b0 - 240) * 262144 + (b1 - 128) * 4096
                     + (b2 - 128) * 64 + (b3 - 128) in
            if cont b1 && cont b2 && cont b3 && (65536 <=? c) && (c <? 1114112)
            then cons c <$> decode_cps r' else None
        | _ => None
        end
      else None
  end.

Definition utf16_of (c : Z) : jsstr :=
  if c <? 65536 then [c]
  else [55296 + (c - 65536) / 1024; 56320 + (c - 65536) mod 1024].

(** [new TextDecoder("utf-8", { fatal: true }).decode(bs)] *)
Definition decode (bs : bytes) : option jsstr := flat_map utf16_of <$> decode_cps bs.

Definition scalar (c : Z) : Prop :=
  0 <= c < 1114112 /\ is_high c = false /\ is_low c = false.

Lemma decode_cps_utf8_of c rest :
  scalar c -> decode_cps (utf8_of c ++ rest) = cons c <$> decode_cps rest.
Proof.
  intros ((Hc & Hc') & Hh & Hl). unfold utf8_of.
  repeat match goal with |- context [c <? ?k] => destruct (Z.ltb_spec c k) end;
    cbn [app decode_cps];
    repeat match goal with
    | |- context [if ?b then _ else _] =>
        let E := fresh "E" in destruct b eqn:E;
        try (exfalso; unfold cont, is_high, is_low in *; lia)
    end; do 2 f_equal; lia.
Qed.

Lemma string_ind2 (P : jsstr -> Prop) :
  P [] -> (forall u, P [u]) ->
  (forall u v s, P s -> P (v :: s) -> P (u :: v :: s)) -> forall s, P s.
Proof.
  intros H0 H1 H2 s. enough (P s /\ forall u, P (u :: s)) by tauto.
  induction s as [|v s [IH IH']]; split; auto.
Qed.

Lemma code_points_scalar s :
  well_formed s = true -> Forall scalar (code_points s).
Proof.
  induction s as [|u|u v s IH IH'] using string_ind2; cbn; [constructor| |].
  - unfold scalar. destruct (is_high u) eqn:Eh, (is_low u) eqn:El; cbn; try done.
    intros. constructor; [|done]. repeat split; [lia..|done|done].
  - destruct (is_high u) eqn:Eh.
    + destruct (is_low v) eqn:Ev; [cbn|done]. intros Hs. constructor; [|auto].
      unfold scalar, is_high, is_low in *. lia.
    + destruct (is_low u) eqn:El; [done|]. cbn [negb andb]. intros Hs.
      constructor; [unfold scalar; repeat split; [lia..|done|done]|].
      apply IH'. by apply andb_prop in Hs as [_ Hs].
Qed.

Lemma utf16_code_points s :
  well_formed s = true -> flat_map utf16_of (code_points s) = s.
Proof.
  induction s as [|u|u v s IH IH'] using string_ind2; cbn; [done| |].
  - destruct (is_high u) eqn:Eh, (is_low u) eqn:El; cbn; try done.
    intros. unfold utf16_of. by destruct (Z.ltb_spec u 65536); [|lia].
  - destruct (is_high u) eqn:Eh.
    + destruct (is_low v) eqn:Ev; [cbn|done]. intros Hs. rewrite IH by done.
      unfold utf16_of, is_high, is_low in *.
      destruct (Z.ltb_spec (65536 + (u - 55296) * 1024 + (v - 56320)) 65536); [lia|].
      cbn. f_equal; [lia|f_equal; lia].
    + destruct (is_low u) eqn:El; [done|]. cbn [negb andb flat_map]. intros Hs.
      unfold utf16_of at 1. destruct (Z.ltb_spec u 65536); [|lia]. cbn [app]. f_equal.
      apply IH'. by apply andb_prop in Hs as [_ Hs].
Qed.

Lemma decode_cps_flat_map cs :
  Forall scalar cs -> decode_cps (flat_map utf8_of cs) = Some cs.
Proof.
  induction 1 as [|c cs Hc Hcs IH]; cbn [flat_map]; [done|].
  by rewrite decode_cps_utf8_of, IH.
Qed.

(** Decoding the UTF-8 encoding of a well-formed string gives it back. *)
Lemma decode_encode s : well_formed s = true -> decode (encode s) = Some s.
Proof.
  intros Hs. unfold decode, encode.
  rewrite decode_cps_flat_map by by apply code_points_scalar.
  cbn. by rewrite utf16_code_points.
Qed.

Lemma utf8_of_bytes c : 0 <= c < 1114112 -> Forall is_byte (utf8_of c).
Proof.
  intros Hc. unfold utf8_of.
  repeat case_match; repeat constructor; unfold is_byte in *; lia.
Qed.

Lemma well_formed_js_app s t :
  well_formed s = true -> well_formed t = true -> well_formed (s ++ t) = true.
Proof.
  revert t. induction s as [|u|u v s IH IH'] using string_ind2; cbn; [done| |].
  - destruct (is_high u); [done|]. intros t Hu Ht. by rewrite Ht.
  - intros t Hs Ht. destruct (is_high u).
    + apply andb_prop in Hs as [-> Hs]. by apply IH.
    + apply andb_prop in Hs as [-> Hs]. by apply (IH' t).
Qed.

End Utf.

(** ** The string methods of the admin console *)
Module Text.

(** WhiteSpace and LineTerminator of the ECMAScript grammar. *)
Definition is_space (u : Z) : bool :=
  ((9 <=? u) && (u <=? 13)) || (u =? 32) || (u =? 160) || (u =? 5760)
  || ((8192 <=? u) && (u <=? 8202)) || (u =? 8232) || (u =? 8233)
  || (u =? 8239) || (u =? 8287) || (u =? 12288) || (u =? 65279).

Fixpoint trimStart (s : jsstr) : jsstr :=
  match s with
  | [] => []
  | u :: r => if is_space u then trimStart r else s
  end.

Definition trim (s : jsstr) : jsstr := rev (trimStart (rev (trimStart s))).

(** [s.split(sep)] for a separator of one code unit. *)
Fixpoint split (sep : Z) (s : jsstr) : list jsstr :=
  match s with
  | [] => [[]]
  | u :: r =>
      match split sep r with
      | w :: ws => if u =? sep then [] :: w :: ws else (u :: w) :: ws
      | [] => [[u]]
      end
  end.

(** [ws.join(sep)] *)
Fixpoint join (sep : jsstr) (ws : list jsstr) : jsstr :=
  match ws with
  | [] => []
  | [w] => w
  | w :: rest => w ++ sep ++ join sep rest
  end.

Fixpoint startsWith (p s : jsstr) : bool :=
  match p, s with
  | [], _ => true
  | u :: p', v :: s' => (u =? v) && startsWith p' s'
  | _, [] => false
  end.

(** [s.includes(p)] *)
Fixpoint includes (p s : jsstr) : bool :=
  startsWith p s || match s with [] => false | _ :: r => includes p r end.

Lemma trimStart_head s : match trimStart s with u :: _ => is_space u = false | [] => True end.
Proof. induction s as [|u s IH]; cbn; [done|]. by destruct (is_space u) eqn:E. Qed.

Lemma trimStart_id s :
  (match s with u :: _ => is_space u = false | [] => True end) -> trimStart s = s.
Proof. destruct s; cbn; [done|]. by intros ->. Qed.

Lemma trimStart_suffix s : exists p, s = p ++ trimStart s.
Proof.
  induction s as [|u s [p IH]]; cbn; [by exists []|].
  destruct (is_space u); [exists (u :: p); cbn; by f_equal|by exists []].
Qed.

Lemma trimStart_rev_head s :
  (match s with u :: _ => is_space u = false | [] => True end) ->
  match rev (trimStart (rev s)) with u :: _ => is_space u = false | [] => True end.
Proof.
  intros Hs. destruct (trimStart_suffix (rev s)) as [p Hp].
  apply (f_equal (@rev Z)) in Hp. rewrite rev_involutive, rev_app_distr in Hp.
  destruct (rev (trimStart (rev s))); [done|]. by subst s.
Qed.

(** Trimming twice is trimming once. *)
Lemma trim_idempotent s : trim (trim s) = trim s.
Proof.
  unfold trim at 1. rewrite (trimStart_id (trim s)).
  - unfold trim. rewrite rev_involutive. f_equal. apply trimStart_id, trimStart_head.
  - apply trimStart_rev_head, trimStart_head.
Qed.

Lemma split_nonempty sep s : split sep s <> [].
Proof. destruct s; cbn; [done|]. repeat case_match; done. Qed.

(** Splitting and joining on the same separator give the string back. *)
Lemma join_split sep s : join [sep] (split sep s) = s.
Proof.
  induction s as [|u s IH]; cbn [split]; [done|].
  destruct (split sep s) as [|w ws] eqn:E; [by apply split_nonempty in E|].
  destruct (Z.eqb_spec u sep) as [->|].
  - change ([sep] ++ join [sep] (w :: ws) = sep :: s). by rewrite IH.
  - destruct ws as [|w' ws]; cbn [join app] in *; by rewrite <- IH.
Qed.

Lemma split_free sep s : Forall (fun w => sep ∉ w) (split sep s).
Proof.
  induction s as [|u s IH]; cbn [split]; [repeat constructor; by apply not_elem_of_nil|].
  destruct (split sep s) as [|w ws] eqn:E; [by apply split_nonempty in E|].
  apply Forall_cons in IH as [Hw Hws]. destruct (Z.eqb_spec u sep).
  - repeat (constructor; [|]); try done. apply not_elem_of_nil.
  - constructor; [|done]. by apply not_elem_of_cons.
Qed.

Lemma trimStart_forall (P : Z -> Prop) s : Forall P s -> Forall P (trimStart s).
Proof. induction 1 as [|u s Hu Hs IH]; cbn; [done|]. destruct (is_space u); [done|by constructor]. Qed.

Lemma trim_forall (P : Z -> Prop) s : Forall P s -> Forall P (trim s).
Proof. intros Hs. by apply Forall_rev, trimStart_forall, Forall_rev, trimStart_forall. Qed.

Lemma startsWith_prefix p s : startsWith p s = true <-> exists t, s = p ++ t.
Proof.
  revert s; induction p as [|u p IH]; intros s; cbn; [naive_solver|].
  destruct s as [|v s]; [naive_solver|].
  rewrite andb_true_iff, Z.eqb_eq, IH. naive_solver.
Qed.

(** [includes] is the existence of an occurrence. *)
Lemma includes_spec p s : includes p s = true <-> exists a b, s = a ++ p ++ b.
Proof.
  induction s as [|v s IH]; cbn [includes]; rewrite orb_true_iff, startsWith_prefix.
  - split.
    + intros [[t H]|]; [|done]. by exists [], t.
    + intros (a & b & H). left. destruct a; [eauto|done].
  - rewrite IH. split.
    + intros [[t H]|(a & b & H)]; [by exists [], t|exists (v :: a), b; cbn; by f_equal].
    + intros ([|u a] & b & H); cbn in H; [eauto|]. right. exists a, b. congruence.
Qed.

End Text.
