(* ===== verification/JsNumber.v ===== *)
(** * JavaScript numbers

    IEEE 754 binary64 values as the sources use them: [Number(s)] on the decimal
    strings of 64-bit fields, [String(n)] and template literals on numbers, [+],
    [===] and the truth test.  Rounding is to nearest, ties to even. *)

From Stdlib Require Import ZArith Lia.
From stdpp Require Import base list numbers option strings.
From S2P Require Import Prelude JsString.

(** [Finite m e] is the value [m * 2 ^ e].  The canonical form has [m] odd, or
    [m = 0] and [e = 0] for positive zero. *)
Inductive number :=
  | NaN
  | Infinity (neg : bool)
  | NegZero
  | Finite (m e : Z).

#[export] Instance number_eq_dec : EqDecision number.
Proof. solve_decision. Defined.

Module Num.

(** ** Canonical values *)
Fixpoint strip_pos (p : positive) (e : Z) : positive * Z :=
  match p with xO q => strip_pos q (e + 1) | _ => (p, e) end.

Definition mk (m e : Z) : number :=
  match m with
  | 0 => Finite 0 0
  | Zpos p => let '(q, k) := strip_pos p e in Finite (Zpos q) k
  | Zneg p => let '(q, k) := strip_pos p e in Finite (Zneg q) k
  end.

Definition opp (x : number) : number :=
  match x with
  | NaN => NaN
  | Infinity neg => Infinity (negb neg)
  | NegZero => Finite 0 0
  | Finite 0 _ => NegZero
  | Finite m e => Finite (- m) e
  end.

(** ** Rounding *)
Definition half_even (num den : Z) : Z :=
  let q := num / den in
  let r := num mod den in
  match 2 * r ?= den with
  | Lt => q
  | Gt => q + 1
  | Eq => if Z.even q then q else q + 1
  end.

(** The exponent of the most significant bit of [num / den]. *)
Definition ilog2 (num den : Z) : Z :=
  let l := Z.log2 num - Z.log2 den in
  if den * 2 ^ Z.max 0 l <=? num * 2 ^ Z.max 0 (- l) then l else l - 1.

(** The double nearest to the positive rational [num / den]. *)
Definition round_ratio (num den : Z) : number :=
  let e := Z.max (ilog2 num den - 52) (-1074) in
  let q := half_even (num * 2 ^ Z.max 0 (- e)) (den * 2 ^ Z.max 0 e) in
  if 2 ^ 1024 <=? q * 2 ^ Z.max 0 e then Infinity false else mk q e.

(** The double nearest to an integer. *)
Definition of_Z (z : Z) : number :=
  match z with
  | 0 => Finite 0 0
  | Zpos _ => round_ratio z 1
  | Zneg p => opp (round_ratio (Zpos p) 1)
  end.

(** The integer a number stands for, if it is integral. *)
Definition int_value (x : number) : option Z :=
  match x with
  | NegZero => Some 0
  | Finite m e => if 0 <=? e then Some (m * 2 ^ e) else None
  | _ => None
  end.

(** ** Operators *)
(** [x === y] *)
Definition eqb (x y : number) : bool :=
  match x, y with
  | NaN, _ | _, NaN => false
  | NegZero, Finite 0 _ | Finite 0 _, NegZero => true
  | _, _ => bool_decide (x = y)
  end.

(** [x + y] *)
Definition add (x y : number) : number :=
  match x, y with
  | NaN, _ | _, NaN => NaN
  | Infinity a, Infinity b => if Bool.eqb a b then Infinity a else NaN
  | Infinity a, _ | _, Infinity a => Infinity a
  | NegZero, y => y
  | x, NegZero => x
  | Finite m1 e1, Finite m2 e2 =>
      let e := Z.min e1 e2 in
      let m := m1 * 2 ^ (e1 - e) + m2 * 2 ^ (e2 - e) in
      let r := round_ratio (Z.abs m * 2 ^ Z.max 0 e) (2 ^ Z.max 0 (- e)) in
      if m =? 0 then Finite 0 0 else if m <? 0 then opp r else r
  end.

(** ** Number::toString *)
(** The number of decimal digits before the point of [num / den]; zero or
    negative below 1. *)
Fixpoint leading_zeros (fuel : nat) (num den : Z) : Z :=
  match fuel with
  | O => 0
  | S f => if den <=? num then 0 else 1 + leading_zeros f (num * 10) den
  end.

Definition point (num den : Z) : Z :=
  if den <=? num then Z.of_nat (length (Decimal.digits (num / den)))
  else 1 - leading_zeros 400 num den.

Definition round_dec (s k : Z) : number :=
  round_ratio (s * 10 ^ Z.max 0 k) (10 ^ Z.max 0 (- k)).

(** The least [k] and the closest [s] with [k] digits such that
    [s * 10 ^ (n - k)] rounds to [x = num / den]; returns [(s, k, n)]. *)
Fixpoint shortest (fuel : nat) (x : number) (num den n k : Z) : Z * Z * Z :=
  let a := num * 10 ^ Z.max 0 (k - n) in
  let b := den * 10 ^ Z.max 0 (n - k) in
  let lo := a / b in
  let ok s := (0 <? s) && bool_decide (round_dec s (n - k) = x) in
  let carry s := if s =? 10 ^ k then (10 ^ (k - 1), k, n + 1) else (s, k, n) in
  let nearer_lo := match 2 * (a mod b) ?= b with
                   | Lt => true | Gt => false | Eq => Z.even lo end in
  match fuel with
  | O => (lo, k, n)
  | S f =>
      if ok lo && (nearer_lo || negb (ok (lo + 1))) then carry lo
      else if ok (lo + 1) then carry (lo + 1)
      else shortest f x num den n (k + 1)
  end.

Definition signed (z : Z) : jsstr :=
  if z <? 0 then js "-" ++ Decimal.digits (- z) else js "+" ++ Decimal.digits z.

(** The layout of the digits of [s] with the point after [n] of them. *)
Definition layout (s k n : Z) : jsstr :=
  let ds := Decimal.digits s in
  if (k <=? n) && (n <=? 21) then ds ++ repeat 48 (Z.to_nat (n - k))
  else if (0 <? n) && (n <=? 21) then
    firstn (Z.to_nat n) ds ++ js "." ++ skipn (Z.to_nat n) ds
  else if (-6 <? n) && (n <=? 0) then js "0." ++ repeat 48 (Z.to_nat (- n)) ++ ds
  else
    match ds with
    | [d] => d :: js "e" ++ signed (n - 1)
    | d :: rest => d :: js "." ++ rest ++ js "e" ++ signed (n - 1)
    | [] => []
    end.

Definition positive_toString (m e : Z) : jsstr :=
  let num := m * 2 ^ Z.max 0 e in
  let den := 2 ^ Z.max 0 (- e) in
  let '(s, k, n) := shortest 17 (Finite m e) num den (point num den) 1 in
  layout s k n.

(** [String(x)] and [`${x}`].  An integer of magnitude at most [2 ^ 53] is the
    only integer that rounds to itself, so its digits are its own; the digit
    search is for the other values. *)
Definition toString (x : number) : jsstr :=
  match x with
  | NaN => js "NaN"
  | Infinity neg => if neg then js "-Infinity" else js "Infinity"
  | NegZero => js "0"
  | Finite m e =>
      match int_value x with
      | Some z =>
          if Z.abs z <=? 2 ^ 53 then Decimal.of_Z z
          else if m <? 0 then js "-" ++ positive_toString (- m) e
          else positive_toString m e
      | None =>
          if m <? 0 then js "-" ++ positive_toString (- m) e
          else positive_toString m e
      end
  end.

(** ** Number(s) *)
Fixpoint span_digits (s : jsstr) : jsstr * jsstr :=
  match s with
  | u :: r => if Decimal.is_digit u then let '(ds, t) := span_digits r in (u :: ds, t)
              else ([], s)
  | [] => ([], [])
  end.

(** [+], [-] or no sign, and the rest *)
Definition split_sign (s : jsstr) : bool * jsstr :=
  match s with
  | 45 :: r => (true, r)
  | 43 :: r => (false, r)
  | _ => (false, s)
  end.

(** An optional exponent part that ends the string. *)
Definition exponent (s : jsstr) : option Z :=
  match s with
  | [] => Some 0
  | u :: r =>
      if (u =? 101) || (u =? 69) then
        let '(neg, ds) := split_sign r in
        z ← Decimal.parse_digits ds; Some (if neg : bool then - z else z)
      else None
  end.

(** StrUnsignedDecimalLiteral without [Infinity] *)
Definition unsigned_decimal (s : jsstr) : option number :=
  let '(ip, r) := span_digits s in
  let '(fp, r) := match r with 46 :: r' => span_digits r' | _ => ([], r) end in
  match ip ++ fp with
  | [] => None
  | ds =>
      x ← exponent r;
      let v := Decimal.value_from 0 ds in
      Some (if v =? 0 then Finite 0 0 else round_dec v (x - Z.of_nat (length fp)))
  end.

Definition radix_digit (u : Z) : Z :=
  if Decimal.is_digit u then u - 48
  else if (97 <=? u) && (u <=? 102) then u - 87
  else if (65 <=? u) && (u <=? 70) then u - 55 else 99.

Definition radix_value (radix : Z) (ds : jsstr) : option Z :=
  match ds with
  | [] => None
  | _ => if forallb (fun u => radix_digit u <? radix) ds
         then Some (fold_left (fun a u => radix * a + radix_digit u) ds 0) else None
  end.

(** StringNumericLiteral on a trimmed string *)
Definition numeric_literal (s : jsstr) : number :=
  match s with
  | [] => Finite 0 0
  | 48 :: u :: r =>
      let radix := if (u =? 120) || (u =? 88) then 16
                   else if (u =? 111) || (u =? 79) then 8
                   else if (u =? 98) || (u =? 66) then 2 else 0 in
      if radix =? 0 then default NaN (unsigned_decimal s)
      else default NaN (of_Z <$> radix_value radix r)
  | _ =>
      let '(neg, r) := split_sign s in
      let v := if bool_decide (r = js "Infinity") then Some (Infinity false)
               else unsigned_decimal r in
      default NaN ((if neg then opp else id) <$> v)
  end.

(** [Number(s)].  A plain decimal numeral, the only form a 64-bit field has, is
    the integer it denotes, rounded; every other string goes through the
    grammar. *)
Definition of_string (s : jsstr) : number :=
  match Decimal.parse s with
  | Some 0 => if bool_decide (hd 0 s = 45) then NegZero else Finite 0 0
  | Some z => of_Z z
  | None => numeric_literal (Text.trim s)
  end.

(** ** Exactness on the safe integers *)
Fixpoint shift_pos (k : nat) (p : positive) : positive :=
  match k with O => p | S k' => xO (shift_pos k' p) end.

Lemma strip_pos_double p k e : strip_pos (shift_pos k p) e = strip_pos p (e + Z.of_nat k).
Proof.
  revert e; induction k as [|k IH]; intros e; cbn [shift_pos strip_pos].
  - f_equal; lia.
  - rewrite IH. f_equal; lia.
Qed.

Lemma shift_pos_value p k : Zpos (shift_pos k p) = Zpos p * 2 ^ Z.of_nat k.
Proof.
  induction k as [|k IH]; cbn [shift_pos]; [lia|].
  rewrite Pos2Z.inj_xO, IH, Nat2Z.inj_succ, Z.pow_succ_r by lia. lia.
Qed.

Lemma mk_shift p k e : 0 <= k -> mk (Zpos p * 2 ^ k) e = mk (Zpos p) (e + k).
Proof.
  intros Hk. rewrite <- (Z2Nat.id k) by done. rewrite <- shift_pos_value. cbn [mk].
  by rewrite strip_pos_double.
Qed.

Lemma half_even_1 q : half_even q 1 = q.
Proof. unfold half_even. by rewrite Z.div_1_r, Z.mod_1_r. Qed.

Lemma of_Z_pos_exact p : Zpos p <= 2 ^ 53 -> of_Z (Zpos p) = mk (Zpos p) 0.
Proof.
  intros Hp. destruct (Z.eq_dec (Zpos p) (2 ^ 53)) as [->|]; [reflexivity|].
  unfold of_Z, round_ratio, ilog2. change (Z.log2 1) with 0. rewrite Z.sub_0_r.
  pose proof (Z.log2_nonneg (Zpos p)) as Hl.
  assert (Z.log2 (Zpos p) <= 52).
  { enough (Z.log2 (Zpos p) < 53) by lia. apply Z.log2_lt_pow2; lia. }
  destruct (Z.log2_spec (Zpos p)) as [Hlo _]; [done|].
  set (l := Z.log2 (Zpos p)) in *.
  rewrite (Z.max_r 0 l), (Z.max_l 0 (- l)), Z.mul_1_l, Z.mul_1_r by lia.
  destruct (Z.leb_spec (2 ^ l) (Zpos p)); [|lia].
  rewrite (Z.max_l (l - 52)), (Z.max_l 0 (l - 52)), (Z.max_r 0 (- _)) by lia.
  change (1 * 2 ^ 0) with 1. change (2 ^ 0) with 1. rewrite half_even_1, Z.mul_1_r.
  destruct (Z.leb_spec (2 ^ 1024) (Zpos p * 2 ^ (- (l - 52)))) as [Hbig|_].
  - exfalso. assert (2 ^ (- (l - 52)) <= 2 ^ 52) by (apply Z.pow_le_mono_r; lia).
    assert (Zpos p * 2 ^ (- (l - 52)) <= 2 ^ 53 * 2 ^ 52) by nia.
    assert (2 ^ 53 * 2 ^ 52 < 2 ^ 1024) by reflexivity. lia.
  - rewrite mk_shift by lia. f_equal. lia.
Qed.

Lemma opp_mk p e : opp (mk (Zpos p) e) = mk (Zneg p) e.
Proof. cbn [mk]. by destruct (strip_pos p e). Qed.

(** Every integer of magnitude at most [2 ^ 53] is a number. *)
Lemma of_Z_exact z : Z.abs z <= 2 ^ 53 -> of_Z z = mk z 0.
Proof.
  destruct z as [|p|p]; intros Hz; [done|by apply of_Z_pos_exact|].
  change (of_Z (Zneg p)) with (opp (of_Z (Zpos p))).
  rewrite of_Z_pos_exact by lia. apply opp_mk.
Qed.

Lemma strip_pos_value p e q k :
  strip_pos p e = (q, k) -> e <= k /\ Zpos p * 2 ^ 0 = Zpos q * 2 ^ (k - e).
Proof.
  revert e; induction p as [p IH|p IH|]; intros e; cbn [strip_pos]; intros H.
  - injection H as <- <-. split; [lia|]. by rewrite Z.sub_diag.
  - apply IH in H as [He Hv]. split; [lia|].
    rewrite Pos2Z.inj_xO. replace (k - e) with (Z.succ (k - (e + 1))) by lia.
    rewrite Z.pow_succ_r by lia. lia.
  - injection H as <- <-. split; [lia|]. by rewrite Z.sub_diag.
Qed.

Lemma int_value_mk z : int_value (mk z 0) = Some z.
Proof.
  destruct z as [|p|p]; cbn [mk]; [done|..];
    destruct (strip_pos p 0) as [q k] eqn:E;
    apply strip_pos_value in E as [Hk Hv]; cbn [int_value];
    rewrite Z.sub_0_r in Hv; destruct (Z.leb_spec 0 k); try lia; f_equal; lia.
Qed.

Lemma mk_not_NegZero m e : mk m e <> NegZero.
Proof. destruct m; cbn; [done|..]; by destruct (strip_pos _ _). Qed.

Lemma int_value_of_Z z : Z.abs z <= 2 ^ 53 -> int_value (of_Z z) = Some z.
Proof. intros. by rewrite of_Z_exact, int_value_mk. Qed.

Lemma of_Z_safe_inj x y :
  Z.abs x <= 2 ^ 53 -> Z.abs y <= 2 ^ 53 -> of_Z x = of_Z y -> x = y.
Proof.
  intros Hx Hy H. apply (inj Some). by rewrite <- !int_value_of_Z, H.
Qed.

Lemma toString_mk z : Z.abs z <= 2 ^ 53 -> toString (mk z 0) = Decimal.of_Z z.
Proof.
  intros Hz. pose proof (int_value_mk z) as Hv.
  destruct (mk z 0) as [| | |m e] eqn:E; try done; cbn [toString].
  - by apply mk_not_NegZero in E.
  - rewrite Hv. by destruct (Z.leb_spec (Z.abs z) (2 ^ 53)); [|lia].
Qed.

(** Safe integers print as their decimal numeral. *)
Lemma toString_of_Z z : Z.abs z <= 2 ^ 53 -> toString (of_Z z) = Decimal.of_Z z.
Proof. intros. by rewrite of_Z_exact, toString_mk. Qed.

Lemma of_Z_head z : z = 0 \/ hd 0 (Decimal.of_Z z) = 45 <-> z <= 0.
Proof.
  unfold Decimal.of_Z. destruct (Z.ltb_spec z 0) as [|Hz]; [cbn; lia|].
  destruct (Decimal.digits_head z Hz) as (d & ds & -> & ?). cbn. lia.
Qed.

Lemma of_string_of_Z z : of_string (Decimal.of_Z z) = of_Z z.
Proof. unfold of_string. rewrite Decimal.parse_of_Z. by destruct z. Qed.

(** A number used as a 32-bit field: no two representations are equal. *)
Lemma of_Z_eqb_zero z : Z.abs z <= 2 ^ 53 -> eqb (of_Z z) (Finite 0 0) = (z =? 0).
Proof.
  intros Hz. rewrite of_Z_exact by done.
  destruct z as [|p|p]; cbn [mk]; [done|..]; by destruct (strip_pos p 0).
Qed.

Lemma mk_finite z : exists m e, mk z 0 = Finite m e /\ 0 <= e /\ m * 2 ^ e = z.
Proof.
  destruct (mk z 0) as [|b| |m e] eqn:E;
    try (destruct z; cbn in E; try (destruct (strip_pos _ _)); discriminate).
  pose proof (int_value_mk z) as H. rewrite E in H. cbn in H.
  destruct (Z.leb_spec 0 e); [|done]. injection H as H. by exists m, e.
Qed.

Lemma of_Z_signed s :
  (if s =? 0 then Finite 0 0 else if s <? 0 then opp (round_ratio (Z.abs s) 1) else round_ratio (Z.abs s) 1)
  = of_Z s.
Proof. by destruct s. Qed.

(** The sum of two safe integers is the nearest number to their sum. *)
Lemma add_of_Z x y : Z.abs x <= 2 ^ 53 -> Z.abs y <= 2 ^ 53 -> add (of_Z x) (of_Z y) = of_Z (x + y).
Proof.
  intros Hx Hy. rewrite !of_Z_exact by done.
  destruct (mk_finite x) as (m1 & e1 & -> & He1 & <-), (mk_finite y) as (m2 & e2 & -> & He2 & <-).
  cbn [add]. set (e := Z.min e1 e2). set (m := m1 * _ + m2 * _).
  assert (0 <= e) as He by lia.
  assert (m * 2 ^ e = m1 * 2 ^ e1 + m2 * 2 ^ e2) as Hm.
  { unfold m. rewrite Z.mul_add_distr_r, <- !Z.mul_assoc, <- !Z.pow_add_r by lia. do 2 f_equal; f_equal; lia. }
  pose proof (Z.pow_pos_nonneg 2 e ltac:(lia) He) as Hpos.
  rewrite <- Hm, <- of_Z_signed, Z.abs_mul, (Z.abs_eq (2 ^ e)) by lia.
  rewrite (Z.max_r 0 e), (Z.max_l 0 (- e)) by lia. change (2 ^ 0) with 1.
  replace (m * 2 ^ e =? 0) with (m =? 0) by (destruct (Z.eqb_spec m 0), (Z.eqb_spec (m * 2 ^ e) 0); nia).
  replace (m * 2 ^ e <? 0) with (m <? 0) by (destruct (Z.ltb_spec m 0), (Z.ltb_spec (m * 2 ^ e) 0); nia).
  done.
Qed.

(** ** Integers between 2^53 and 2^54: only the even ones are numbers *)
Lemma of_Z_above z : 2 ^ 53 <= z < 2 ^ 54 -> of_Z z = mk (2 * half_even z 2) 0.
Proof.
  intros Hz. destruct z as [|p|p]; [lia| |lia]. unfold of_Z, round_ratio, ilog2.
  rewrite (Z.log2_unique (Zpos p) 53) by lia. change (Z.log2 1) with 0.
  change (1 * 2 ^ Z.max 0 (53 - 0)) with (2 ^ 53). change (2 ^ Z.max 0 (- (53 - 0))) with 1.
  rewrite Z.mul_1_r. destruct (Z.leb_spec (2 ^ 53) (Zpos p)); [|lia].
  change (Z.max (53 - 0 - 52) (-1074)) with 1. change (2 ^ Z.max 0 (- 1)) with 1.
  change (1 * 2 ^ Z.max 0 1) with 2. change (2 ^ Z.max 0 1) with 2. rewrite Z.mul_1_r.
  assert (2 ^ 52 <= half_even (Zpos p) 2 <= 2 ^ 53) as Hq.
  { unfold half_even. destruct (_ ?= 2), (Z.even (Zpos p / 2)); lia. }
  assert (2 ^ 54 < 2 ^ 1024) by reflexivity.
  destruct (Z.leb_spec (2 ^ 1024) (half_even (Zpos p) 2 * 2)); [lia|].
  destruct (half_even (Zpos p) 2) as [|q|q]; [lia| |lia].
  rewrite Z.mul_comm. change 2 with (2 ^ 1) at 1. by rewrite mk_shift.
Qed.

Lemma half_even_double q : half_even (2 * q) 2 = q.
Proof. unfold half_even. rewrite (Z.mul_comm 2 q), Z.div_mul, Z.mod_mul by lia. done. Qed.

Lemma half_even_odd k : exists q, half_even (2 * k + 1) 2 = q /\ (q = k \/ q = k + 1).
Proof.
  unfold half_even. replace ((2 * k + 1) / 2) with k by lia.
  replace ((2 * k + 1) mod 2) with 1 by lia. cbn. destruct (Z.even k); eauto.
Qed.

Lemma of_Z_even v : 2 ^ 53 <= v < 2 ^ 54 -> Z.Even v -> of_Z v = mk v 0.
Proof. intros Hv [q ->]. by rewrite of_Z_above, half_even_double. Qed.

(** The number of an odd id is that of an even neighbour. *)
Lemma of_Z_odd z : 2 ^ 53 < z < 2 ^ 54 - 1 -> Z.Odd z ->
  exists v, Z.Even v /\ 2 ^ 53 <= v < 2 ^ 54 /\ Z.abs (v - z) = 1 /\ of_Z z = of_Z v.
Proof.
  intros Hz [k ->]. destruct (half_even_odd k) as (q & Hq & Hk). exists (2 * q).
  split; [by exists q|]. split; [lia|]. split; [lia|].
  rewrite of_Z_above by lia. rewrite Hq, of_Z_even by (lia || by exists q). done.
Qed.

Lemma of_Z_beyond u v : 2 ^ 54 <= u -> v < 2 ^ 54 -> of_Z u <> mk v 0.
Proof.
  intros Hu Hv. destruct u as [|p|p]; [lia| |lia]. unfold of_Z, round_ratio, ilog2.
  change (Z.log2 1) with 0. rewrite Z.sub_0_r.
  assert (54 <= Z.log2 (Zpos p)) as Hl by (apply Z.log2_le_pow2; lia).
  destruct (Z.log2_spec (Zpos p)) as [Hlo _]; [done|]. set (l := Z.log2 (Zpos p)) in *.
  rewrite (Z.max_r 0 l), (Z.max_l 0 (- l)), Z.mul_1_l, Z.mul_1_r by lia.
  destruct (Z.leb_spec (2 ^ l) (Zpos p)); [|lia].
  rewrite (Z.max_l (l - 52)), (Z.max_r 0 (l - 52)), (Z.max_l 0 (- _)) by lia.
  change (2 ^ 0) with 1. rewrite Z.mul_1_l, Z.mul_1_r.
  set (b := 2 ^ (l - 52)) in *. assert (4 <= b) by (apply (Z.pow_le_mono_r 2 2); lia).
  assert (2 ^ l = 2 ^ 52 * b) as Hb by (unfold b; rewrite <- Z.pow_add_r by lia; f_equal; lia).
  assert (2 ^ 52 <= half_even (Zpos p) b) as Hq.
  { assert (2 ^ 52 <= Zpos p / b) by (apply Z.div_le_lower_bound; lia).
    unfold half_even. destruct (_ ?= b), (Z.even (Zpos p / b)); lia. }
  destruct (2 ^ 1024 <=? _); [destruct v; cbn; [done|..]; by destruct (strip_pos _ _)|].
  destruct (half_even (Zpos p) b) as [|q|q]; [lia| |lia]. intros E. apply (f_equal int_value) in E.
  replace (l - 52) with (0 + (l - 52)) in E by lia. rewrite <- mk_shift, !int_value_mk in E by lia.
  injection E as E. fold b in E. nia.
Qed.

Lemma of_Z_even_inj u v : 0 < u -> Z.Even u -> 2 ^ 53 <= v < 2 ^ 54 -> Z.Even v ->
  of_Z u = of_Z v -> u = v.
Proof.
  intros Hu Hu2 Hv Hv2. rewrite (of_Z_even v) by done. intros E.
  destruct (Z.lt_ge_cases u (2 ^ 54)) as [Hlt|Hge]; [|by apply of_Z_beyond in E; [|done|lia]].
  assert (of_Z u = mk u 0) as Eu.
  { destruct (Z.le_gt_cases u (2 ^ 53)); [apply of_Z_exact; lia|apply of_Z_even; [lia|done]]. }
  rewrite Eu in E. apply (f_equal int_value) in E. rewrite !int_value_mk in E. by injection E.
Qed.

Lemma round_dec_pos s j : 0 < s -> 0 <= j -> round_dec s j = of_Z (s * 10 ^ j).
Proof.
  intros Hs Hj. unfold round_dec. rewrite (Z.max_r 0 j), (Z.max_l 0 (- j)) by lia.
  change (10 ^ 0) with 1. pose proof (Z.pow_pos_nonneg 10 j ltac:(lia) Hj).
  destruct (s * 10 ^ j) eqn:E; [nia|done|nia].
Qed.

(** The digit search on an even integer [v] with [n] digits ends with digits of
    [v] itself, up to trailing zeros. *)
Lemma shortest_even v n fuel k :
  2 ^ 53 <= v < 2 ^ 54 -> Z.Even v -> v < 10 ^ n -> 1 <= k <= n -> n - k < Z.of_nat fuel ->
  exists s k', shortest fuel (of_Z v) v 1 n k = (s, k', n) /\ 1 <= k' <= n /\ s * 10 ^ (n - k') = v.
Proof.
  intros Hv Hv2 Hn. revert k. induction fuel as [|fuel IH]; intros k Hk Hf; [lia|].
  cbn [shortest]. rewrite (Z.max_l 0 (k - n)), (Z.max_r 0 (n - k)), Z.mul_1_l by lia.
  change (10 ^ 0) with 1. rewrite Z.mul_1_r.
  pose proof (Z.pow_pos_nonneg 10 (n - k) ltac:(lia) ltac:(lia)) as Hb.
  set (b := 10 ^ (n - k)) in *. pose proof (Z.div_mod v b ltac:(lia)) as Hdm.
  pose proof (Z.mod_pos_bound v b Hb) as Hmod. set (lo := v / b) in *. set (r := v mod b) in *.
  destruct (Z.eq_dec r 0) as [Hr|Hr].
  - assert (0 < lo) by nia. assert (lo * b = v) as Hlo by lia.
    rewrite (round_dec_pos lo) by lia. fold b. rewrite Hlo, bool_decide_true by done.
    destruct (Z.ltb_spec 0 lo); [|lia]. rewrite Hr. cbn [andb].
    destruct (Z.compare_spec (2 * 0) b); [lia| |lia]. cbn [orb].
    assert (lo < 10 ^ k).
    { assert (10 ^ n = 10 ^ k * b) by (unfold b; rewrite <- Z.pow_add_r by lia; f_equal; lia). nia. }
    destruct (Z.eqb_spec lo (10 ^ k)); [lia|]. by exists lo, k.
  - assert (k <> n) as Hkn.
    { intros ->. apply Hr. unfold r, b. rewrite Z.sub_diag. apply Z.mod_1_r. }
    assert (Z.Even b) as Hb2.
    { exists (5 * 10 ^ (n - k - 1)). unfold b. replace (n - k) with (Z.succ (n - k - 1)) at 1 by lia.
      rewrite Z.pow_succ_r by lia. lia. }
    assert (forall s, s = lo \/ s = lo + 1 -> (0 <? s) && bool_decide (round_dec s (n - k) = of_Z v) = false) as Hno.
    { intros s Hs. destruct (Z.ltb_spec 0 s) as [Hpos|]; [|done]. apply bool_decide_false.
      rewrite round_dec_pos by lia. fold b. intros E. apply of_Z_even_inj in E; [|nia| |done..].
      - destruct Hs as [->| ->]; nia.
      - destruct Hb2 as [c ->]. exists (s * c). lia. }
    rewrite (Hno lo), (Hno (lo + 1)) by auto. cbn [andb]. apply IH; lia.
Qed.

(** Even integers up to 2^54 print as their own numeral. *)
Lemma toString_even v : 2 ^ 53 <= v < 2 ^ 54 -> Z.Even v -> toString (of_Z v) = Decimal.of_Z v.
Proof.
  intros Hv Hv2. rewrite of_Z_even by done. destruct (Z.eq_dec v (2 ^ 53)) as [->|Hne]; [reflexivity|].
  pose proof (of_Z_even v Hv Hv2) as Hof. pose proof (int_value_mk v) as Hi.
  destruct (mk_finite v) as (m & e & E & He & Hm). rewrite E in Hi |- *. unfold toString. rewrite Hi.
  destruct (Z.leb_spec (Z.abs v) (2 ^ 53)); [lia|].
  destruct (Z.ltb_spec m 0); [nia|]. unfold positive_toString.
  rewrite (Z.max_r 0 e), (Z.max_l 0 (- e)), Hm by lia. change (2 ^ 0) with 1.
  rewrite <- E, <- Hof. unfold point. destruct (Z.leb_spec 1 v); [|lia]. rewrite Z.div_1_r.
  pose proof (Decimal.digits_length v ltac:(lia)) as Hd.
  set (n := Z.of_nat (length (Decimal.digits v))) in *.
  assert (1 <= n <= 17) as Hn.
  { split; [|enough (n - 1 < 17) by lia; apply (Z.pow_lt_mono_r_iff 10); lia].
    destruct (Z.lt_ge_cases 0 n) as [|Hl]; [lia|]. replace n with 0 in Hd by lia.
    change (10 ^ 0) with 1 in Hd. lia. }
  destruct (shortest_even v n 17 1 Hv Hv2) as (s & k & -> & Hk & Hs); [lia..|].
  unfold layout. destruct (Z.leb_spec k n), (Z.leb_spec n 21); try lia. cbn [andb].
  rewrite <- Decimal.digits_shift by nia. rewrite Z2Nat.id by lia. rewrite Hs.
  unfold Decimal.of_Z. by destruct (Z.ltb_spec v 0); [lia|].
Qed.

End Num.
