(* ===== verification/Json.v ===== *)
(** * JSON values, [JSON.stringify] and [JSON.parse]

    The language's JSON functions, which the SDK uses for queue payloads and
    config snapshots and the admin console for its editors and request bodies. *)

From Stdlib Require Import ZArith Lia.
From stdpp Require Import base list numbers option strings.
From S2P Require Import Prelude JsString JsNumber.

(** An object is the list of its properties in enumeration order. *)
Inductive json :=
  | JNull
  | JBool (b : bool)
  | JNumber (n : number)
  | JString (s : jsstr)
  | JArray (l : list json)
  | JObject (l : list (jsstr * json)).

Fixpoint json_ind' (P : json -> Prop) (Hnull : P JNull) (Hbool : forall b, P (JBool b))
    (Hnum : forall n, P (JNumber n)) (Hstr : forall s, P (JString s))
    (Harr : forall l, Forall P l -> P (JArray l))
    (Hobj : forall l, Forall (fun p => P (snd p)) l -> P (JObject l)) (v : json) : P v :=
  let rec := json_ind' P Hnull Hbool Hnum Hstr Harr Hobj in
  match v with
  | JNull => Hnull
  | JBool b => Hbool b
  | JNumber n => Hnum n
  | JString s => Hstr s
  | JArray l => Harr l ((fix go l := match l return Forall P l with
                         | [] => Forall_nil_2 _
                         | x :: l => Forall_cons_2 _ _ _ (rec x) (go l) end) l)
  | JObject l => Hobj l ((fix go l := match l return Forall (fun p => P (snd p)) l with
                         | [] => Forall_nil_2 _
                         | x :: l => Forall_cons_2 _ _ _ (rec (snd x)) (go l) end) l)
  end.

Module Json.

(** ** Printing *)
Definition hex_digit (n : Z) : Z := if n <? 10 then 48 + n else 87 + n.
Definition hex4 (u : Z) : jsstr :=
  [hex_digit (u / 4096); hex_digit (u / 256 mod 16); hex_digit (u / 16 mod 16); hex_digit (u mod 16)].
Definition unicode_escape (u : Z) : jsstr := js "\u" ++ hex4 u.

Definition quote_unit (u : Z) : jsstr :=
  if u =? 8 then js "\b" else if u =? 9 then js "\t" else if u =? 10 then js "\n"
  else if u =? 12 then js "\f" else if u =? 13 then js "\r"
  else if (u =? 34) || (u =? 92) then [92; u]
  else if u <? 32 then unicode_escape u
  else [u].

(** QuoteJSONString; surrogates outside a pair are escaped. *)
Fixpoint quote_units (s : jsstr) : jsstr :=
  match s with
  | [] => []
  | u :: rest =>
      if Utf.is_high u then
        match rest with
        | l :: rest' =>
            if Utf.is_low l then u :: l :: quote_units rest'
            else unicode_escape u ++ quote_units rest
        | [] => unicode_escape u
        end
      else if Utf.is_low u then unicode_escape u ++ quote_units rest
      else quote_unit u ++ quote_units rest
  end.
Definition quote (s : jsstr) : jsstr := 34 :: quote_units s ++ [34].

Definition number_text (n : number) : jsstr :=
  match n with NaN | Infinity _ => js "null" | _ => Num.toString n end.

Section Serialize.
(** The third argument of [JSON.stringify] as spaces; empty for none. *)
Variable gap : jsstr.

Definition newline (indent : jsstr) : jsstr := if bool_decide (gap = []) then [] else 10 :: indent.
Definition colon : jsstr := if bool_decide (gap = []) then js ":" else js ": ".

Fixpoint serialize (indent : jsstr) (v : json) : jsstr :=
  let stepped := indent ++ gap in
  match v with
  | JNull => js "null"
  | JBool b => if b then js "true" else js "false"
  | JNumber n => number_text n
  | JString s => quote s
  | JArray [] => js "[]"
  | JArray l =>
      js "[" ++ newline stepped
        ++ Text.join (js "," ++ newline stepped) (map (serialize stepped) l)
        ++ newline indent ++ js "]"
  | JObject [] => js "{}"
  | JObject l =>
      js "{" ++ newline stepped
        ++ Text.join (js "," ++ newline stepped)
             (map (fun p => quote (fst p) ++ colon ++ serialize stepped (snd p)) l)
        ++ newline indent ++ js "}"
  end.
End Serialize.

(** [JSON.stringify(v)] and [JSON.stringify(v, null, 2)] *)
Definition stringify (v : json) : jsstr := serialize [] [] v.
Definition stringify2 (v : json) : jsstr := serialize (js "  ") [] v.

(** ** Properties of objects *)

(** An array index below [2 ^ 32 - 1], written canonically *)
Definition array_index (k : jsstr) : option Z :=
  z ← Decimal.parse k;
  if (0 <=? z) && (z <? 2 ^ 32 - 1) && bool_decide (k = Decimal.of_Z z) then Some z else None.

Fixpoint has_key (k : jsstr) (o : list (jsstr * json)) : bool :=
  match o with [] => false | (k', _) :: o => bool_decide (k = k') || has_key k o end.

Fixpoint replace_prop (k : jsstr) (v : json) (o : list (jsstr * json)) : list (jsstr * json) :=
  match o with
  | [] => []
  | (k', v') :: o => if bool_decide (k = k') then (k, v) :: o else (k', v') :: replace_prop k v o
  end.

(** Array indices come first, in ascending order. *)
Fixpoint insert_index (i : Z) (k : jsstr) (v : json) (o : list (jsstr * json)) : list (jsstr * json) :=
  match o with
  | (k', v') :: o' =>
      match array_index k' with
      | Some j => if j <? i then (k', v') :: insert_index i k v o' else (k, v) :: o
      | None => (k, v) :: o
      end
  | [] => [(k, v)]
  end.

(** [o[k] = v] on an own data property *)
Definition set_prop (k : jsstr) (v : json) (o : list (jsstr * json)) : list (jsstr * json) :=
  if has_key k o then replace_prop k v o
  else match array_index k with
       | Some i => insert_index i k v o
       | None => o ++ [(k, v)]
       end.

(** ** Parsing *)
Definition syntax_error : thrown := newError (js "Unexpected token in JSON").
Definition failure {A} : result A := Throw syntax_error.

Definition is_ws (u : Z) : bool := (u =? 32) || (u =? 9) || (u =? 10) || (u =? 13).
Fixpoint skip_ws (s : jsstr) : jsstr :=
  match s with u :: r => if is_ws u then skip_ws r else s | [] => [] end.

Definition hex_value (u : Z) : option Z :=
  if Decimal.is_digit u then Some (u - 48)
  else if (97 <=? u) && (u <=? 102) then Some (u - 87)
  else if (65 <=? u) && (u <=? 70) then Some (u - 55) else None.

(** The characters of a string after the opening quote *)
Fixpoint string_body (s : jsstr) : option (jsstr * jsstr) :=
  match s with
  | [] => None
  | u :: r =>
      if u =? 34 then Some ([], r)
      else if u =? 92 then
        match r with
        | e :: r' =>
            let simple c := '(t, r'') ← string_body r'; Some (c :: t, r'') in
            if (e =? 34) || (e =? 92) || (e =? 47) then simple e
            else if e =? 98 then simple 8 else if e =? 102 then simple 12
            else if e =? 110 then simple 10 else if e =? 114 then simple 13
            else if e =? 116 then simple 9
            else if e =? 117 then
              match r' with
              | a :: b :: c :: d :: r'' =>
                  x ← hex_value a; y ← hex_value b; z ← hex_value c; w ← hex_value d;
                  '(t, q) ← string_body r'';
                  Some (x * 4096 + y * 256 + z * 16 + w :: t, q)
              | _ => None
              end
            else None
        | [] => None
        end
      else if u <? 32 then None
      else '(t, r') ← string_body r; Some (u :: t, r')
  end.

(** A number token: [-] int frac exp, with no superfluous leading zero *)
Definition take_digits (s : jsstr) : option (jsstr * jsstr) :=
  match Num.span_digits s with ([], _) => None | p => Some p end.

Definition int_part (s : jsstr) : option (jsstr * jsstr) :=
  match s with 48 :: r => Some ([48], r) | _ => take_digits s end.

Definition frac_part (s : jsstr) : option (jsstr * jsstr) :=
  match s with
  | 46 :: r => '(ds, r) ← take_digits r; Some (46 :: ds, r)
  | _ => Some ([], s)
  end.

Definition exp_part (s : jsstr) : option (jsstr * jsstr) :=
  match s with
  | u :: r =>
      if (u =? 101) || (u =? 69) then
        match r with
        | c :: r' =>
            if (c =? 43) || (c =? 45) then '(ds, q) ← take_digits r'; Some (u :: c :: ds, q)
            else '(ds, q) ← take_digits r; Some (u :: ds, q)
        | [] => None
        end
      else Some ([], s)
  | [] => Some ([], [])
  end.

Definition sign_part (s : jsstr) : jsstr * jsstr :=
  match s with 45 :: r => ([45], r) | _ => ([], s) end.

Definition number_token (s : jsstr) : option (jsstr * jsstr) :=
  let '(sign, s) := sign_part s in
  '(i, s) ← int_part s; '(f, s) ← frac_part s; '(e, s) ← exp_part s;
  Some (sign ++ i ++ f ++ e, s).

Definition literal (word : jsstr) (v : json) (s : jsstr) : result (json * jsstr) :=
  if Text.startsWith word s then Ok (v, skipn (length word) s) else failure.

Definition of_option {A} (o : option A) : result A :=
  match o with Some a => Ok a | None => failure end.

Fixpoint value (fuel : nat) (s : jsstr) : result (json * jsstr) :=
  match fuel with
  | O => OutOfFuel
  | S f =>
      match skip_ws s with
      | [] => failure
      | u :: r =>
          if u =? 123 then
            match skip_ws r with 125 :: r' => Ok (JObject [], r') | _ => members f [] r end
          else if u =? 91 then
            match skip_ws r with 93 :: r' => Ok (JArray [], r') | _ => elements f [] r end
          else if u =? 34 then '(t, r) ← of_option (string_body r); Ok (JString t, r)
          else if u =? 110 then literal (js "null") JNull (u :: r)
          else if u =? 116 then literal (js "true") (JBool true) (u :: r)
          else if u =? 102 then literal (js "false") (JBool false) (u :: r)
          else '(t, r) ← of_option (number_token (u :: r)); Ok (JNumber (Num.of_string t), r)
      end
  end
with elements (fuel : nat) (acc : list json) (s : jsstr) : result (json * jsstr) :=
  match fuel with
  | O => OutOfFuel
  | S f =>
      '(v, r) ← value f s;
      match skip_ws r with
      | 44 :: r' => elements f (acc ++ [v]) r'
      | 93 :: r' => Ok (JArray (acc ++ [v]), r')
      | _ => failure
      end
  end
with members (fuel : nat) (acc : list (jsstr * json)) (s : jsstr) : result (json * jsstr) :=
  match fuel with
  | O => OutOfFuel
  | S f =>
      match skip_ws s with
      | 34 :: r =>
          '(k, r) ← of_option (string_body r);
          match skip_ws r with
          | 58 :: r =>
              '(v, r) ← value f r;
              match skip_ws r with
              | 44 :: r' => members f (set_prop k v acc) r'
              | 125 :: r' => Ok (JObject (set_prop k v acc), r')
              | _ => failure
              end
          | _ => failure
          end
      | _ => failure
      end
  end.

(** [JSON.parse(s)]; two levels of the grammar per character are enough. *)
Definition parse (s : jsstr) : result json :=
  '(v, r) ← value (2 * length s + 2) s;
  match skip_ws r with [] => Ok v | _ => failure end.

(** ** The parser consumes its input and terminates *)
Lemma skip_ws_length s : (length (skip_ws s) <= length s)%nat.
Proof. induction s as [|u s IH]; cbn; [done|]. destruct (is_ws u); cbn; lia. Qed.

Lemma string_body_length s t r : string_body s = Some (t, r) -> (length r < length s)%nat.
Proof.
  remember (length s) as n eqn:Hn. revert s t r Hn.
  induction (lt_wf n) as [n _ IH]. intros [|u s] t r ->; cbn [string_body]; [done|].
  assert (forall s' t' r', (length s' < length (u :: s))%nat -> string_body s' = Some (t', r') ->
            (length r' < length (u :: s))%nat) as IH'.
  { intros s' t' r' Hs' H. specialize (IH _ Hs' s' t' r' eq_refl H). lia. }
  clear IH. cbn [length] in *. intros H.
  repeat first
    [ case_match; simplify_eq; try done
    | apply bind_Some in H as (? & ? & H) ];
    simplify_eq; cbn [length] in *; try lia;
    match goal with Hb : string_body ?x = Some _ |- _ => apply IH' in Hb; cbn [length] in *; lia end.
Qed.

Lemma span_digits_app s ds r : Num.span_digits s = (ds, r) -> s = ds ++ r.
Proof.
  revert ds r; induction s as [|u s IH]; cbn; intros ds r H; [by simplify_eq|].
  destruct (Decimal.is_digit u); [|by simplify_eq].
  destruct (Num.span_digits s) as [ds' r']. simplify_eq. cbn. by rewrite (IH ds' r).
Qed.

Lemma take_digits_length s ds r : take_digits s = Some (ds, r) -> (length r < length s)%nat.
Proof.
  unfold take_digits. destruct (Num.span_digits s) as [ds' r'] eqn:E.
  apply span_digits_app in E as ->. destruct ds'; [done|]. intros. simplify_eq.
  cbn. rewrite length_app. lia.
Qed.

Lemma int_part_length s ds r : int_part s = Some (ds, r) -> (length r < length s)%nat.
Proof.
  unfold int_part. intros H.
  repeat case_match; simplify_eq; cbn; try lia; by apply take_digits_length in H.
Qed.

Lemma frac_part_length s ds r : frac_part s = Some (ds, r) -> (length r <= length s)%nat.
Proof.
  unfold frac_part. intros H.
  repeat case_match; simplify_eq; cbn; try lia.
  all: apply bind_Some in H as ([ds' r'] & E & H); simplify_eq.
  all: apply take_digits_length in E; lia.
Qed.

Lemma exp_part_length s ds r : exp_part s = Some (ds, r) -> (length r <= length s)%nat.
Proof.
  unfold exp_part. intros H.
  repeat case_match; simplify_eq; cbn; try lia.
  all: apply bind_Some in H as ([ds' r'] & E & H); simplify_eq.
  all: apply take_digits_length in E; cbn in *; lia.
Qed.

Lemma sign_part_app s sign r : sign_part s = (sign, r) -> s = sign ++ r.
Proof. unfold sign_part. intros H. repeat case_match; simplify_eq; done. Qed.

Lemma number_token_length s t r : number_token s = Some (t, r) -> (length r < length s)%nat.
Proof.
  unfold number_token. intros H.
  destruct (sign_part s) as [sign s'] eqn:E. apply sign_part_app in E as ->.
  rewrite length_app. apply bind_Some in H as ([i s1] & E1 & H).
  apply bind_Some in H as ([f s2] & E2 & H). apply bind_Some in H as ([e s3] & E3 & H).
  simplify_eq. apply int_part_length in E1. apply frac_part_length in E2.
  apply exp_part_length in E3. lia.
Qed.

Lemma literal_inv w v s v' r : literal w v s = Ok (v', r) -> (0 < length w)%nat -> (length r < length s)%nat.
Proof.
  unfold literal. destruct (Text.startsWith w s) eqn:E; [|done]. intros [= _ <-] Hw.
  apply Text.startsWith_prefix in E as [t ->]. rewrite length_skipn, length_app. lia.
Qed.

Lemma of_option_inv {A} (o : option A) a : of_option o = Ok a -> o = Some a.
Proof. by destruct o; intros [= ->]. Qed.

(** Uses every way a step of the parser can have consumed input. *)
Ltac consumed :=
  repeat match goal with
  | H : of_option _ = Ok _ |- _ => apply of_option_inv in H
  | H : string_body _ = Some _ |- _ => apply string_body_length in H
  | H : number_token _ = Some _ |- _ => apply number_token_length in H
  | H : literal _ _ _ = Ok _ |- _ => apply literal_inv in H; [|cbn; lia]
  | H : skip_ws ?s = _ :: _ |- _ =>
      let L := fresh "L" in pose proof (skip_ws_length s) as L; rewrite H in L; clear H
  end; cbn [length] in *.

Lemma parser_shrinks fuel :
  (forall s v r, value fuel s = Ok (v, r) -> (length r < length s)%nat)
  /\ (forall acc s v r, elements fuel acc s = Ok (v, r) -> (length r < length s)%nat)
  /\ (forall acc s v r, members fuel acc s = Ok (v, r) -> (length r < length s)%nat).
Proof.
  induction fuel as [|fuel (IHv & IHe & IHm)]; [done|]. split_and!.
  - intros s v r. cbn [value]. intros H.
    destruct (skip_ws s) as [|u t] eqn:E; [done|].
    repeat (case_match; simplify_eq); inv_bind; consumed; try lia;
      repeat match goal with
      | H : members _ _ _ = Ok _ |- _ => apply IHm in H
      | H : elements _ _ _ = Ok _ |- _ => apply IHe in H
      end; lia.
  - intros acc s v r. cbn [elements]. intros H. inv_bind.
    apply IHv in E. repeat (case_match; simplify_eq); consumed; try lia.
    apply IHe in H. lia.
  - intros acc s v r. cbn [members]. intros H.
    repeat (case_match; simplify_eq); inv_bind; consumed;
    repeat (case_match; simplify_eq); inv_bind; consumed;
    match goal with Hv : value _ _ = Ok _ |- _ => apply IHv in Hv end;
    repeat (case_match; simplify_eq); consumed; try lia; apply IHm in H; lia.
Qed.

Lemma of_option_returns {A} (o : option A) : returns (of_option o).
Proof. by destruct o. Qed.

Lemma literal_returns w v s : returns (literal w v s).
Proof. unfold literal. by destruct (Text.startsWith w s). Qed.

(** One level of the grammar for every [value], one for every list item. *)
Lemma parser_returns fuel :
  (forall s, (2 * length s + 1 <= fuel)%nat -> returns (value fuel s))
  /\ (forall acc s, (2 * length s + 2 <= fuel)%nat -> returns (elements fuel acc s))
  /\ (forall acc s, (2 * length s + 2 <= fuel)%nat -> returns (members fuel acc s)).
Proof.
  induction fuel as [|fuel (IHv & IHe & IHm)]; [split_and!; intros; lia|]. split_and!.
  - intros s Hf. cbn [value]. destruct (skip_ws s) as [|u t] eqn:E; [done|]. consumed.
    repeat case_match; try done; try apply literal_returns;
      try (apply bind_returns; [apply of_option_returns|by intros []]);
      try (apply IHm; lia); try (apply IHe; lia).
  - intros acc s Hf. cbn [elements]. apply bind_returns; [apply IHv; lia|].
    intros [v r] E. apply parser_shrinks in E.
    repeat case_match; try done; subst; consumed; apply IHe; lia.
  - intros acc s Hf. cbn [members]. repeat case_match; try done.
    apply bind_returns; [apply of_option_returns|]. intros [k r] E. consumed.
    repeat case_match; try done. apply bind_returns; [consumed; apply IHv; lia|].
    intros [v r'] E'. apply parser_shrinks in E'.
    repeat case_match; try done; consumed; apply IHm; lia.
Qed.

(** [JSON.parse] returns a value or throws, on every string. *)
Lemma parse_returns s : returns (parse s).
Proof.
  apply bind_returns; [apply parser_returns; lia|]. intros [v r] _. by destruct (skip_ws r).
Qed.

(** More fuel does not change a result. *)
(** The parser throws nothing but its syntax error. *)
Definition throws_syntax {A} (m : result A) : Prop := forall e, m = Throw e -> e = syntax_error.

Lemma bind_throws {A B} (m : result A) (f : A -> result B) :
  throws_syntax m -> (forall a, throws_syntax (f a)) -> throws_syntax (m ≫= f).
Proof. unfold throws_syntax. destruct m; cbn; intros Hm Hf e'; [apply Hf|intros [= <-]; by apply Hm|done]. Qed.

Lemma failure_throws {A} : throws_syntax (failure (A := A)).
Proof. by intros e [= <-]. Qed.

Lemma Ok_throws {A} (a : A) : throws_syntax (Ok a).
Proof. done. Qed.

Lemma of_option_throws {A} (o : option A) : throws_syntax (of_option o).
Proof. destruct o; [apply Ok_throws|apply failure_throws]. Qed.

Lemma literal_throws w v s : throws_syntax (literal w v s).
Proof. unfold literal. destruct (Text.startsWith w s); [apply Ok_throws|apply failure_throws]. Qed.

Lemma parser_throws fuel :
  (forall s, throws_syntax (value fuel s)) /\ (forall acc s, throws_syntax (elements fuel acc s))
  /\ (forall acc s, throws_syntax (members fuel acc s)).
Proof.
  induction fuel as [|fuel (IHv & IHe & IHm)]; [done|].
  split_and!; intros; cbn [value elements members];
    repeat first [ apply failure_throws | apply Ok_throws | apply literal_throws | apply IHe | apply IHm
                 | apply IHv | apply of_option_throws | apply bind_throws; [|intros []] | case_match ].
Qed.

Lemma parse_throws s : throws_syntax (parse s).
Proof.
  apply bind_throws; [apply parser_throws|]. intros [v r].
  destruct (skip_ws r); [apply Ok_throws|apply failure_throws].
Qed.

Lemma bind_stable {A B} (m m' : result A) (k k' : A -> result B) :
  (returns m -> m' = m) -> (forall a, m = Ok a -> returns (k a) -> k' a = k a) ->
  returns (m ≫= k) -> (m' ≫= k') = (m ≫= k).
Proof.
  intros Hm Hk Hret. destruct m as [a|e|]; [|by rewrite Hm|done].
  rewrite Hm by done. cbn in *. auto.
Qed.

Lemma parser_stable fuel :
  (forall s, returns (value fuel s) -> value (S fuel) s = value fuel s)
  /\ (forall acc s, returns (elements fuel acc s) -> elements (S fuel) acc s = elements fuel acc s)
  /\ (forall acc s, returns (members fuel acc s) -> members (S fuel) acc s = members fuel acc s).
Proof.
  induction fuel as [|fuel (IHv & IHe & IHm)]; [done|].
  remember (S fuel) as k eqn:Hk. split_and!.
  - intros s Hs. rewrite Hk in Hs |- * at 2. cbn [value] in *.
    repeat case_match; try done; auto.
  - intros acc s Hs. rewrite Hk in Hs |- * at 2. cbn [elements] in *.
    apply bind_stable; [auto| |done].
    intros [v r] _ Hr. repeat case_match; try done; auto.
  - intros acc s Hs. rewrite Hk in Hs |- * at 2. cbn [members] in *.
    repeat case_match; try done. apply bind_stable; [done| |done].
    intros [v r] _ Hr. repeat case_match; try done. apply bind_stable; [auto| |done].
    intros [v' r'] _ Hr'. repeat case_match; try done; auto.
Qed.

Lemma value_stable f f' s : (f <= f')%nat -> returns (value f s) -> value f' s = value f s.
Proof.
  induction 1 as [|f' Hf IH]; [done|]. intros Hs. rewrite <- IH by done.
  apply parser_stable. by rewrite IH.
Qed.

Lemma elements_stable f f' acc s :
  (f <= f')%nat -> returns (elements f acc s) -> elements f' acc s = elements f acc s.
Proof.
  induction 1 as [|f' Hf IH]; [done|]. intros Hs. rewrite <- IH by done.
  apply parser_stable. by rewrite IH.
Qed.

Lemma members_stable f f' acc s :
  (f <= f')%nat -> returns (members f acc s) -> members f' acc s = members f acc s.
Proof.
  induction 1 as [|f' Hf IH]; [done|]. intros Hs. rewrite <- IH by done.
  apply parser_stable. by rewrite IH.
Qed.

(** ** Printing and parsing *)

(** The values [JSON.stringify] preserves: numbers are safe integers, strings
    are code units, and the properties of an object are distinct and in
    enumeration order. *)
Definition set_all (l acc : list (jsstr * json)) : list (jsstr * json) :=
  fold_left (fun o p => set_prop (fst p) (snd p) o) l acc.

Fixpoint wf (v : json) : Prop :=
  match v with
  | JNull | JBool _ => True
  | JNumber n => exists z, n = Num.of_Z z /\ Z.abs z <= 2 ^ 53
  | JString s => Forall code_unit s
  | JArray l => foldr (fun v P => wf v /\ P) True l
  | JObject l =>
      set_all l [] = l
      /\ foldr (fun p P => (Forall code_unit (fst p) /\ wf (snd p)) /\ P) True l
  end.

Ltac Zify.zify_post_hook ::= Z.div_mod_to_equations.

Lemma hex_value_digit d : 0 <= d < 16 -> hex_value (hex_digit d) = Some d.
Proof.
  intros Hd. unfold hex_value, hex_digit, Decimal.is_digit.
  repeat case_match; try lia; f_equal; lia.
Qed.

Lemma string_body_escape u s :
  code_unit u ->
  string_body (unicode_escape u ++ s) = ('(t, q) ← string_body s; Some (u :: t, q)).
Proof.
  intros Hu. unfold code_unit in Hu. unfold unicode_escape, hex4.
  change (js "\u") with [92; 117]. cbn [app string_body Z.eqb Pos.eqb orb].
  rewrite !hex_value_digit by lia. cbn. destruct (string_body s) as [[t q]|]; cbn; [|done].
  do 3 f_equal. lia.
Qed.

Lemma string_body_plain u s :
  32 <= u -> u <> 34 -> u <> 92 ->
  string_body (u :: s) = ('(t, q) ← string_body s; Some (u :: t, q)).
Proof.
  intros. cbn [string_body]. destruct (Z.eqb_spec u 34); [done|].
  destruct (Z.eqb_spec u 92); [done|]. by destruct (Z.ltb_spec u 32); [lia|].
Qed.

Lemma string_body_unit u s :
  code_unit u -> string_body (quote_unit u ++ s) = ('(t, q) ← string_body s; Some (u :: t, q)).
Proof.
  intros Hu. unfold quote_unit.
  repeat match goal with
  | |- context [u =? ?k] => destruct (Z.eqb_spec u k) as [->|]; [reflexivity|]
  end; cbn [orb].
  destruct (Z.ltb_spec u 32); [by apply string_body_escape|]. by apply string_body_plain.
Qed.

Lemma string_body_quote (s tl : jsstr) :
  Forall code_unit s -> string_body (quote_units s ++ 34 :: tl) = Some (s, tl).
Proof.
  induction s as [|u|u v s IH IH'] using Utf.string_ind2; intros Hs; [done|..].
  - apply Forall_cons in Hs as [Hu _]. cbn [quote_units].
    destruct (Utf.is_high u), (Utf.is_low u); rewrite ?app_nil_r;
      rewrite ?string_body_escape, ?string_body_unit by done; done.
  - apply Forall_cons in Hs as [Hu Hs]. pose proof Hs as Hvs.
    apply Forall_cons in Hs as [Hv Hs]. cbn [quote_units] in *.
    destruct (Utf.is_high u) eqn:Eh; [destruct (Utf.is_low v) eqn:El|destruct (Utf.is_low u)].
    + unfold Utf.is_high, Utf.is_low in *. cbn [app].
      rewrite !string_body_plain by lia. by rewrite (IH Hs).
    + rewrite <- app_assoc, string_body_escape by done. by rewrite (IH' Hvs).
    + rewrite <- app_assoc, string_body_escape by done. by rewrite (IH' Hvs).
    + rewrite <- app_assoc, string_body_unit by done. by rewrite (IH' Hvs).
Qed.

(** What may follow a value: the end, a separator, a bracket or white space *)
Definition delimited (tl : jsstr) : Prop :=
  match tl with [] => True | u :: _ => u = 44 \/ u = 93 \/ u = 125 \/ is_ws u = true end.

Lemma delimited_not_number u tl :
  delimited (u :: tl) -> Decimal.is_digit u = false /\ u <> 46 /\ u <> 101 /\ u <> 69.
Proof. unfold delimited, is_ws, Decimal.is_digit. lia. Qed.

Lemma span_digits_all ds tl :
  forallb Decimal.is_digit ds = true -> delimited tl -> Num.span_digits (ds ++ tl) = (ds, tl).
Proof.
  intros Hds Htl. induction ds as [|d ds IH]; cbn.
  - destruct tl as [|u tl]; [done|]. cbn. by destruct (delimited_not_number u tl Htl) as [-> _].
  - apply andb_prop in Hds as [-> Hds]. by rewrite IH.
Qed.

Lemma fraction_absent tl : delimited tl -> frac_part tl = Some ([], tl) /\ exp_part tl = Some ([], tl).
Proof.
  destruct tl as [|u tl]; [done|]. intros (_ & H1 & H2 & H3)%delimited_not_number. split.
  - unfold frac_part. repeat case_match; simplify_eq; done.
  - unfold exp_part. destruct (Z.eqb_spec u 101), (Z.eqb_spec u 69); done.
Qed.

Lemma int_part_digits n tl :
  0 <= n -> delimited tl -> int_part (Decimal.digits n ++ tl) = Some (Decimal.digits n, tl).
Proof.
  intros Hn Htl. destruct (Z.eq_dec n 0) as [->|Hn']; [done|].
  destruct (Decimal.digits_head_pos n ltac:(lia)) as (d & ds & E & Hd).
  pose proof (span_digits_all (Decimal.digits n) tl (Decimal.digits_digit n Hn) Htl) as Hspan.
  unfold int_part, take_digits. rewrite E in *. cbn [app] in *.
  repeat case_match; simplify_eq; try done; lia.
Qed.

Lemma number_token_of_Z z tl :
  delimited tl -> number_token (Decimal.of_Z z ++ tl) = Some (Decimal.of_Z z, tl).
Proof.
  intros Htl. destruct (fraction_absent tl Htl) as [Hf He]. unfold number_token, Decimal.of_Z.
  destruct (Z.ltb_spec z 0) as [Hz|Hz].
  - cbn [app sign_part]. rewrite int_part_digits by (done || lia). cbn. rewrite Hf. cbn. rewrite He. cbn.
    by rewrite app_nil_r.
  - destruct (Decimal.digits_head z Hz) as (d & ds & E & Hd).
    assert (sign_part (Decimal.digits z ++ tl) = ([], Decimal.digits z ++ tl)) as ->.
    { rewrite E. cbn. repeat case_match; simplify_eq; try done; lia. }
    rewrite int_part_digits by done. cbn. rewrite Hf. cbn. rewrite He. cbn. by rewrite app_nil_r.
Qed.

Definition all_ws (w : jsstr) : Prop := forallb is_ws w = true.

Lemma skip_ws_app w s : all_ws w -> skip_ws (w ++ s) = skip_ws s.
Proof.
  unfold all_ws. induction w as [|u w IH]; cbn; [done|]. intros [-> Hw]%andb_prop. auto.
Qed.

Lemma skip_ws_head u s : is_ws u = false -> skip_ws (u :: s) = u :: s.
Proof. cbn. by intros ->. Qed.

Lemma all_ws_app a b : all_ws a -> all_ws b -> all_ws (a ++ b).
Proof. unfold all_ws. rewrite forallb_app. by intros -> ->. Qed.

Section RoundTrip.
Variable gap : jsstr.
Hypothesis gap_ws : all_ws gap.

Lemma newline_ws ind : all_ws ind -> all_ws (newline gap ind).
Proof. unfold newline. by case_bool_decide. Qed.

Lemma newline_delimited ind u tl :
  u = 93 \/ u = 125 -> delimited (newline gap ind ++ u :: tl).
Proof. unfold newline. case_bool_decide; cbn; tauto. Qed.

(** A printed value starts with a character that is neither white space nor a
    closing bracket. *)
Lemma serialize_head ind v : wf v ->
  exists u r, serialize gap ind v = u :: r /\ is_ws u = false /\ u <> 93 /\ u <> 125.
Proof.
  destruct v as [|[]|n|s|[]|[]]; intros Hwf; cbn [serialize];
    try (eexists _, _; split_and!; [reflexivity|done..]).
  destruct Hwf as (z & -> & Hz).
  assert (number_text (Num.of_Z z) = Decimal.of_Z z) as ->.
  { unfold number_text. rewrite Num.of_Z_exact by done. pose proof (Num.toString_mk z Hz).
    pose proof (Num.int_value_mk z). by destruct (Num.mk z 0). }
  unfold Decimal.of_Z. destruct (Z.ltb_spec z 0) as [|Hz0].
  - eexists _, _; split_and!; [reflexivity|done..].
  - destruct (Decimal.digits_head z Hz0) as (d & ds & -> & Hd).
    eexists _, _; split_and!; [reflexivity| |lia|lia]. unfold is_ws. lia.
Qed.

Lemma number_text_of_Z z : Z.abs z <= 2 ^ 53 -> number_text (Num.of_Z z) = Decimal.of_Z z.
Proof.
  intros Hz. unfold number_text. rewrite Num.of_Z_exact by done.
  pose proof (Num.toString_mk z Hz). pose proof (Num.int_value_mk z). by destruct (Num.mk z 0).
Qed.

(** [v] is what the parser reads from its text, wherever it stands. *)
Definition reads_back (v : json) : Prop :=
  forall ind w tl, all_ws ind -> all_ws w -> delimited tl ->
    exists f, value f (w ++ serialize gap ind v ++ tl) = Ok (v, tl).

Lemma reads_back_number n : wf (JNumber n) -> reads_back (JNumber n).
Proof.
  intros (z & -> & Hz) ind w tl Hind Hw Htl. exists 1%nat. cbn [serialize value].
  rewrite number_text_of_Z, skip_ws_app by done.
  pose proof (number_token_of_Z z tl Htl) as Htok.
  assert (exists u r, Decimal.of_Z z ++ tl = u :: r /\ (u = 45 \/ 48 <= u <= 57)) as (u & r & E & Hu).
  { unfold Decimal.of_Z. destruct (Z.ltb_spec z 0) as [|Hz0]; [cbn; eauto|].
    destruct (Decimal.digits_head z Hz0) as (d & ds & -> & Hd). cbn. eauto. }
  rewrite E in *. rewrite skip_ws_head by (unfold is_ws; lia).
  repeat match goal with |- context [u =? ?k] => destruct (Z.eqb_spec u k); [lia|] end.
  rewrite Htok. cbn. by rewrite Num.of_string_of_Z.
Qed.

Lemma elements_back ind ind0 l acc w tl :
  all_ws ind -> all_ws ind0 -> all_ws w -> Forall reads_back l -> l <> [] ->
  exists f, elements f acc
      (w ++ Text.join (js "," ++ newline gap ind) (map (serialize gap ind) l)
         ++ newline gap ind0 ++ 93 :: tl) = Ok (JArray (acc ++ l), tl).
Proof.
  intros Hind Hind0. revert acc w. induction l as [|v l IH]; intros acc w Hw Hback Hne; [done|].
  apply Forall_cons in Hback as [Hv Hback]. destruct l as [|v' l].
  - destruct (Hv ind w (newline gap ind0 ++ 93 :: tl) Hind Hw) as [f Hf];
      [apply newline_delimited; tauto|].
    exists (S f). cbn [elements map Text.join]. rewrite Hf. cbn [mbind result_bind].
    by rewrite skip_ws_app, skip_ws_head by (done || by apply newline_ws).
  - set (rest := Text.join (js "," ++ newline gap ind) (map (serialize gap ind) (v' :: l))) in *.
    destruct (Hv ind w (44 :: newline gap ind ++ rest ++ newline gap ind0 ++ 93 :: tl) Hind Hw)
      as [f1 Hf1]; [cbn; tauto|].
    destruct (IH (acc ++ [v]) (newline gap ind)) as [f2 Hf2]; [by apply newline_ws|done..|].
    exists (S (f1 `max` f2)). cbn [elements].
    change (Text.join _ (map _ (v :: v' :: l)))
      with (serialize gap ind v ++ (js "," ++ newline gap ind) ++ rest).
    rewrite <- !app_assoc. change (js "," ++ ?x) with (44 :: x).
    rewrite (value_stable f1) by (lia || by rewrite Hf1). rewrite Hf1. cbn [mbind result_bind].
    rewrite skip_ws_head by done. rewrite (elements_stable f2) by (lia || by rewrite Hf2).
    rewrite Hf2. by rewrite <- app_assoc.
Qed.

Definition colon_ws : jsstr := if bool_decide (gap = []) then [] else [32].

Lemma colon_split : colon gap = 58 :: colon_ws /\ all_ws colon_ws.
Proof. unfold colon, colon_ws. by case_bool_decide. Qed.

(** A property: its quoted key, the colon and its value *)
Lemma property_back ind k v w tl f acc :
  all_ws w -> Forall code_unit k ->
  members (S f) acc (w ++ (quote k ++ colon gap ++ serialize gap ind v) ++ tl) =
  ('(v, r) ← value f (colon_ws ++ serialize gap ind v ++ tl);
   match skip_ws r with
   | 44 :: r' => members f (set_prop k v acc) r'
   | 125 :: r' => Ok (JObject (set_prop k v acc), r')
   | _ => failure
   end).
Proof.
  intros Hw Hk. destruct colon_split as [-> Hcw].
  cbn [members]. rewrite skip_ws_app by done. unfold quote. cbn [app].
  rewrite skip_ws_head by done. rewrite <- !app_assoc. cbn [app].
  rewrite string_body_quote by done. cbn [of_option mbind result_bind].
  by rewrite skip_ws_head, <- app_assoc by done.
Qed.

Lemma members_back ind ind0 l acc w tl :
  all_ws ind -> all_ws ind0 -> all_ws w ->
  Forall (fun p => Forall code_unit (fst p) /\ reads_back (snd p)) l -> l <> [] ->
  exists f, members f acc
      (w ++ Text.join (js "," ++ newline gap ind)
              (map (fun p => quote (fst p) ++ colon gap ++ serialize gap ind (snd p)) l)
         ++ newline gap ind0 ++ 125 :: tl) = Ok (JObject (set_all l acc), tl).
Proof.
  intros Hind Hind0. revert acc w. destruct colon_split as [_ Hcw].
  induction l as [|[k v] l IH]; intros acc w Hw Hback Hne; [done|].
  apply Forall_cons in Hback as [[Hk Hv] Hback]. cbn [fst snd] in *. destruct l as [|p l].
  - destruct (Hv ind colon_ws (newline gap ind0 ++ 125 :: tl) Hind Hcw) as [f Hf];
      [apply newline_delimited; tauto|].
    exists (S f). cbn [map Text.join fst snd]. rewrite property_back by done.
    rewrite Hf. cbn [mbind result_bind].
    by rewrite skip_ws_app, skip_ws_head by (done || by apply newline_ws).
  - set (text := fun p : jsstr * json => quote (fst p) ++ colon gap ++ serialize gap ind (snd p)) in *.
    set (rest := Text.join (js "," ++ newline gap ind) (map text (p :: l))) in *.
    destruct (Hv ind colon_ws (44 :: newline gap ind ++ rest ++ newline gap ind0 ++ 125 :: tl) Hind Hcw)
      as [f1 Hf1]; [cbn; tauto|].
    destruct (IH (set_prop k v acc) (newline gap ind)) as [f2 Hf2]; [by apply newline_ws|done..|].
    exists (S (f1 `max` f2)).
    change (Text.join _ (map text ((k, v) :: p :: l)))
      with ((quote k ++ colon gap ++ serialize gap ind v) ++ (js "," ++ newline gap ind) ++ rest).
    rewrite <- (app_assoc (quote k ++ _)), property_back by done.
    rewrite <- !app_assoc. change (js "," ++ ?x) with (44 :: x).
    rewrite (value_stable f1) by (lia || by rewrite Hf1). rewrite Hf1. cbn [mbind result_bind].
    rewrite skip_ws_head by done. rewrite (members_stable f2) by (lia || by rewrite Hf2).
    by rewrite Hf2.
Qed.

(** Opens [value] on a bracket and finds the list behind it not empty. *)
Lemma value_array f w s u r :
  all_ws w -> skip_ws s = u :: r -> u <> 93 -> value (S f) (w ++ 91 :: s) = elements f [] s.
Proof.
  intros Hw Hs Hu. cbn [value]. rewrite skip_ws_app, skip_ws_head by done. cbn [Z.eqb Pos.eqb].
  rewrite Hs. repeat case_match; simplify_eq; done.
Qed.

Lemma value_object f w s u r :
  all_ws w -> skip_ws s = u :: r -> u <> 125 -> value (S f) (w ++ 123 :: s) = members f [] s.
Proof.
  intros Hw Hs Hu. cbn [value]. rewrite skip_ws_app, skip_ws_head by done. cbn [Z.eqb Pos.eqb].
  rewrite Hs. repeat case_match; simplify_eq; done.
Qed.

Lemma Forall_of_foldr {A} (P : A -> Prop) l : foldr (fun x Q => P x /\ Q) True l <-> Forall P l.
Proof. induction l as [|x l IH]; cbn; [by split|]. rewrite IH, Forall_cons. done. Qed.

Lemma join_head sep x ws : exists t, Text.join sep (x :: ws) = x ++ t.
Proof. destruct ws; cbn; [exists []; by rewrite app_nil_r|by eexists]. Qed.

Lemma reads_back_array l : Forall reads_back l -> Forall wf l -> reads_back (JArray l).
Proof.
  intros Hback Hwf ind w tl Hind Hw Htl. destruct l as [|v l].
  - exists 1%nat. cbn [value serialize]. by rewrite skip_ws_app.
  - set (st := ind ++ gap). assert (all_ws st) as Hst by by apply all_ws_app.
    destruct (elements_back st ind (v :: l) [] (newline gap st) tl) as [f Hf]; try done;
      [by apply newline_ws|].
    apply Forall_cons in Hwf as [Hv _].
    destruct (serialize_head st v Hv) as (u & r & Eu & Hws & H93 & _).
    destruct (join_head (js "," ++ newline gap st) (serialize gap st v) (map (serialize gap st) l))
      as [t Ht].
    exists (S f). cbn [serialize]. fold st. rewrite <- !app_assoc.
    change (js "[" ++ ?x) with (91 :: x). change (js "]" ++ tl) with (93 :: tl).
    erewrite value_array; [exact Hf|done| |exact H93].
    rewrite skip_ws_app by by apply newline_ws. cbn [map]. rewrite Ht, Eu. cbn [app].
    by apply skip_ws_head.
Qed.

Lemma reads_back_object l :
  set_all l [] = l -> Forall (fun p => Forall code_unit (fst p) /\ reads_back (snd p)) l ->
  reads_back (JObject l).
Proof.
  intros Hset Hback ind w tl Hind Hw Htl. destruct l as [|[k v] l].
  - exists 1%nat. cbn [value serialize]. by rewrite skip_ws_app.
  - set (st := ind ++ gap). assert (all_ws st) as Hst by by apply all_ws_app.
    destruct (members_back st ind ((k, v) :: l) [] (newline gap st) tl) as [f Hf]; try done;
      [by apply newline_ws|].
    exists (S f). cbn [serialize]. fold st. rewrite <- !app_assoc.
    change (js "{" ++ ?x) with (123 :: x). change (js "}" ++ tl) with (125 :: tl).
    rewrite Hset in Hf.
    set (text := fun p : jsstr * json => quote (fst p) ++ colon gap ++ serialize gap st (snd p)) in *.
    destruct (join_head (js "," ++ newline gap st) (text (k, v)) (map text l)) as [t Ht].
    change (text (k, v) :: map text l) with (map text ((k, v) :: l)) in Ht.
    erewrite value_object; [exact Hf|done| |].
    + rewrite skip_ws_app, Ht by by apply newline_ws. by apply skip_ws_head.
    + done.
Qed.

Lemma wf_reads_back v : wf v -> reads_back v.
Proof.
  induction v as [|b|n|s|l IH|l IH] using json_ind'; cbn [wf]; intros Hv.
  - intros ind w tl Hind Hw Htl. exists 1%nat. cbn [value serialize]. by rewrite skip_ws_app.
  - intros ind w tl Hind Hw Htl. exists 1%nat. cbn [value serialize].
    destruct b; by rewrite skip_ws_app.
  - by apply reads_back_number.
  - intros ind w tl Hind Hw Htl. exists 1%nat. cbn [value serialize].
    rewrite skip_ws_app by done. unfold quote. cbn [app]. rewrite skip_ws_head by done.
    cbn [Z.eqb Pos.eqb]. rewrite <- app_assoc. cbn [app]. by rewrite string_body_quote.
  - apply Forall_of_foldr in Hv. apply reads_back_array; [|done].
    rewrite Forall_forall in *. auto.
  - destruct Hv as [Hset Hv]. apply Forall_of_foldr in Hv. apply reads_back_object; [done|].
    rewrite Forall_forall in *. intros p Hp. split; [by apply Hv|]. apply IH; [done|by apply Hv].
Qed.

Lemma parse_serialize v : wf v -> parse (serialize gap [] v) = Ok v.
Proof.
  intros Hv. destruct (wf_reads_back v Hv [] [] []) as [f Hf]; [done..|].
  cbn [app] in Hf. rewrite app_nil_r in Hf.
  unfold parse. set (s := serialize gap [] v) in *.
  assert (value (2 * length s + 2) s = Ok (v, [])) as ->; [|done].
  destruct (Nat.le_ge_cases f (2 * length s + 2)) as [Hle|Hle].
  - by rewrite (value_stable f) by (done || by rewrite Hf).
  - transitivity (value f s); [|exact Hf]. symmetry. apply value_stable; [done|].
    apply parser_returns. lia.
Qed.
End RoundTrip.

Lemma parse_stringify v : wf v -> parse (stringify v) = Ok v.
Proof. by apply parse_serialize. Qed.

Lemma parse_stringify2 v : wf v -> parse (stringify2 v) = Ok v.
Proof. by apply parse_serialize. Qed.

(** ** The text is a well-formed string *)
Definition is_ascii (u : Z) : bool := (0 <=? u) && (u <? 128).

Lemma ascii_well_formed s : forallb is_ascii s = true -> Utf.well_formed s = true.
Proof.
  induction s as [|u s IH]; cbn; [done|]. intros [Hu Hs]%andb_prop. rewrite IH by done.
  unfold is_ascii, Utf.is_high, Utf.is_low in *.
  destruct (Z.leb_spec 55296 u); cbn; [lia|]. destruct (Z.leb_spec 56320 u); cbn; lia.
Qed.

Lemma digits_ascii n : 0 <= n -> forallb is_ascii (Decimal.digits n) = true.
Proof.
  intros Hn. pose proof (Decimal.digits_digit n Hn) as H. rewrite forallb_forall in *.
  intros u Hu. specialize (H u Hu). unfold is_ascii, Decimal.is_digit in *. lia.
Qed.

Lemma of_Z_well_formed z : Utf.well_formed (Decimal.of_Z z) = true.
Proof.
  apply ascii_well_formed. unfold Decimal.of_Z.
  destruct (Z.ltb_spec z 0); cbn; apply digits_ascii; lia.
Qed.

Lemma hex_digit_ascii d : 0 <= d < 16 -> is_ascii (hex_digit d) = true.
Proof. unfold is_ascii, hex_digit. intros. destruct (Z.ltb_spec d 10); lia. Qed.

Lemma escape_well_formed u : code_unit u -> Utf.well_formed (unicode_escape u) = true.
Proof.
  unfold code_unit. intros Hu. apply ascii_well_formed. unfold unicode_escape, hex4. cbn -[is_ascii].
  rewrite !hex_digit_ascii by lia. done.
Qed.

Lemma quote_unit_well_formed u :
  code_unit u -> Utf.is_high u = false -> Utf.is_low u = false -> Utf.well_formed (quote_unit u) = true.
Proof.
  unfold code_unit. intros Hu Hh Hl. unfold quote_unit.
  repeat match goal with |- context [if ?b then _ else _] =>
    let E := fresh "E" in destruct b eqn:E; try done end.
  - apply orb_prop in E4 as [->%Z.eqb_eq| ->%Z.eqb_eq]; done.
  - by apply escape_well_formed.
  - cbn. rewrite Hh, Hl. lia.
Qed.

Lemma quote_units_cons2 u v s :
  quote_units (u :: v :: s) =
    if Utf.is_high u then
      if Utf.is_low v then u :: v :: quote_units s else unicode_escape u ++ quote_units (v :: s)
    else if Utf.is_low u then unicode_escape u ++ quote_units (v :: s)
    else quote_unit u ++ quote_units (v :: s).
Proof. reflexivity. Qed.

Lemma quote_units_well_formed (s : jsstr) : Forall code_unit s -> Utf.well_formed (quote_units s) = true.
Proof.
  induction s as [|u|u v s IH IH'] using Utf.string_ind2; intros Hs; [done| |];
    apply Forall_cons in Hs as [Hu Hs].
  - cbn [quote_units]. destruct (Utf.is_high u) eqn:Eh; [by apply escape_well_formed|].
    destruct (Utf.is_low u) eqn:El; rewrite app_nil_r; [by apply escape_well_formed|].
    by apply quote_unit_well_formed.
  - pose proof Hs as [Hv Hs']%Forall_cons. rewrite quote_units_cons2.
    destruct (Utf.is_high u) eqn:Eh.
    + destruct (Utf.is_low v) eqn:Ev; [cbn; rewrite Eh, Ev; by apply IH|].
      apply Utf.well_formed_js_app; [by apply escape_well_formed|by apply IH'].
    + destruct (Utf.is_low u) eqn:El; (apply Utf.well_formed_js_app; [|by apply IH']);
        [by apply escape_well_formed|by apply quote_unit_well_formed].
Qed.

Lemma quote_well_formed s : Forall code_unit s -> Utf.well_formed (quote s) = true.
Proof.
  intros Hs. apply (Utf.well_formed_js_app [34]); [done|].
  by apply Utf.well_formed_js_app; [apply quote_units_well_formed|].
Qed.

Lemma join_well_formed sep ws :
  Utf.well_formed sep = true -> Forall (fun w => Utf.well_formed w = true) ws ->
  Utf.well_formed (Text.join sep ws) = true.
Proof.
  intros Hsep. induction 1 as [|w ws Hw _ IH]; [done|]. cbn. destruct ws; [done|].
  auto using Utf.well_formed_js_app.
Qed.

Lemma newline_compact ind : newline [] ind = [].
Proof. done. Qed.

Lemma stringify_well_formed v : wf v -> Utf.well_formed (stringify v) = true.
Proof.
  unfold stringify. generalize (@nil Z) at 2 as ind.
  induction v as [|b|n|s|l IH|l IH] using json_ind'; intros ind Hv; cbn [wf] in Hv.
  - done.
  - by destruct b.
  - destruct Hv as (z & -> & Hz). cbn [serialize]. rewrite number_text_of_Z by done.
    apply of_Z_well_formed.
  - by apply quote_well_formed.
  - apply Forall_of_foldr in Hv. destruct l as [|x l]; [done|].
    cbn [serialize]. rewrite !newline_compact. cbn [app].
    apply (Utf.well_formed_js_app (js "[")); [done|].
    apply Utf.well_formed_js_app; [|done]. apply join_well_formed; [done|].
    apply (Forall_map (serialize [] _)), Forall_forall. intros y Hy. rewrite Forall_forall in IH, Hv.
    by apply IH; [|apply Hv].
  - destruct Hv as [_ Hv]. apply Forall_of_foldr in Hv. destruct l as [|x l]; [done|].
    cbn [serialize]. rewrite !newline_compact. cbn [app].
    apply (Utf.well_formed_js_app (js "{")); [done|].
    apply Utf.well_formed_js_app; [|done]. apply join_well_formed; [done|].
    apply Forall_map, Forall_forall. intros y Hy. rewrite Forall_forall in IH, Hv.
    destruct (Hv y Hy) as [Hk Hw]. apply Utf.well_formed_js_app; [by apply quote_well_formed|].
    apply (Utf.well_formed_js_app (js ":")); [done|]. by apply IH.
Qed.

Lemma stringify_nonempty v : wf v -> stringify v <> [].
Proof.
  intros Hv E. pose proof (parse_stringify v Hv) as H. rewrite E in H.
  vm_compute in H. discriminate.
Qed.

End Json.
