(* ===== verification/WireFormat.v ===== *)
(** * The protobuf wire format

    Varints, tags and length-delimited payloads, as the protocol buffers encoding
    documents them, with their decoders.  The runtime interface of
    [ProtoRuntime] states what the third-party reader and writer do in these
    terms. *)

From Stdlib Require Import ZArith Lia.
From stdpp Require Import base list numbers option strings.
From S2P Require Import Prelude JsString JsNumber.

Ltac Zify.zify_post_hook ::= Z.div_mod_to_equations.

Definition blen (bs : bytes) : Z := Z.of_nat (length bs).

Lemma blen_app a b : blen (a ++ b) = blen a + blen b.
Proof. apply Zlength_app. Qed.

Lemma blen_nonneg bs : 0 <= blen bs.
Proof. unfold blen; lia. Qed.

(** [WireType] of the runtime, with the numbers the format gives them *)
Inductive WireType :=
  | Varint | Bit64 | LengthDelimited | StartGroup | EndGroup | Bit32.

#[export] Instance WireType_eq_dec : EqDecision WireType.
Proof. solve_decision. Defined.

Definition WireType_num (wt : WireType) : Z :=
  match wt with
  | Varint => 0 | Bit64 => 1 | LengthDelimited => 2
  | StartGroup => 3 | EndGroup => 4 | Bit32 => 5
  end.

Definition WireType_of_num (n : Z) : option WireType :=
  match n with
  | 0 => Some Varint | 1 => Some Bit64 | 2 => Some LengthDelimited
  | 3 => Some StartGroup | 4 => Some EndGroup | 5 => Some Bit32
  | _ => None
  end.

(** ** Varints *)
Fixpoint varint_aux (fuel : nat) (n : Z) : bytes :=
  match fuel with
  | O => []
  | S f => if n <? 128 then [n] else 128 + n mod 128 :: varint_aux f (n / 128)
  end.

(** Ten groups of seven bits hold a 64-bit value. *)
Definition varint (n : Z) : bytes := varint_aux 10 n.

Fixpoint read_varint_aux (fuel : nat) (bs : bytes) : option (Z * bytes) :=
  match fuel, bs with
  | S f, b :: r =>
      if b <? 128 then Some (b, r)
      else '(v, r) ← read_varint_aux f r; Some (b - 128 + 128 * v, r)
  | _, _ => None
  end.

Definition read_varint (bs : bytes) : option (Z * bytes) := read_varint_aux 10 bs.

Lemma read_varint_aux_varint fuel n tl :
  0 <= n < 128 ^ Z.of_nat (S fuel) ->
  read_varint_aux (S fuel) (varint_aux (S fuel) n ++ tl) = Some (n, tl).
Proof.
  revert n; induction fuel as [|fuel IH]; intros n Hn.
  - cbn. destruct (Z.ltb_spec n 128) as [H|]; [|lia]. cbn.
    by destruct (Z.ltb_spec n 128); [|lia].
  - remember (S fuel) as k. cbn [varint_aux].
    rewrite Nat2Z.inj_succ, Z.pow_succ_r in Hn by lia.
    destruct (Z.ltb_spec n 128) as [H|H]; cbn [app read_varint_aux].
    + by destruct (Z.ltb_spec n 128); [|lia].
    + destruct (Z.ltb_spec (128 + n mod 128) 128); [lia|].
      rewrite Heqk in *. rewrite IH by lia. cbn. do 2 f_equal. lia.
Qed.

Lemma read_varint_varint n tl :
  uint64 n -> read_varint (varint n ++ tl) = Some (n, tl).
Proof.
  intros Hn. apply (read_varint_aux_varint 9).
  unfold uint64 in Hn. split; [lia|]. etrans; [apply Hn|]. done.
Qed.

Lemma varint_nonempty n : varint n <> [].
Proof. unfold varint. cbn. by destruct (n <? 128). Qed.

Lemma read_varint_aux_shorter fuel bs v r :
  read_varint_aux fuel bs = Some (v, r) -> exists p, bs = p ++ r /\ p <> [].
Proof.
  revert bs v r; induction fuel as [|fuel IH]; intros [|b bs] v r; cbn; try done.
  destruct (b <? 128).
  - intros [= -> ->]. by exists [v].
  - destruct (read_varint_aux fuel bs) as [[v' r']|] eqn:E; cbn; [|done].
    intros [= <- <-]. apply IH in E as (p & -> & _). by exists (b :: p).
Qed.

(** ** Field encodings *)
Definition enc_tag (no : Z) (wt : WireType) : bytes := varint (no * 8 + WireType_num wt).
Definition enc_delimited (bs : bytes) : bytes := varint (blen bs) ++ bs.
Definition enc_string (s : jsstr) : bytes := enc_delimited (Utf.encode s).
Definition enc_bool (b : bool) : bytes := varint (if b then 1 else 0).
Definition enc_uint (z : Z) : bytes := varint z.

(** Negative numbers are sign-extended to 64 bits. *)
Definition enc_int (z : Z) : bytes := varint (z mod 2 ^ 64).

Definition to_signed (w : Z) (n : Z) : Z :=
  let m := n mod 2 ^ w in if m <? 2 ^ (w - 1) then m else m - 2 ^ w.

Lemma to_signed_int64 z : int64 z -> to_signed 64 (z mod 2 ^ 64) = z.
Proof. unfold int64, to_signed. intros. destruct (Z.ltb_spec ((z mod 2 ^ 64) mod 2 ^ 64) (2 ^ (64 - 1))); lia. Qed.

Lemma to_signed_int32 z : int32 z -> to_signed 32 (z mod 2 ^ 64) = z.
Proof. unfold int32, to_signed. intros. destruct (Z.ltb_spec ((z mod 2 ^ 64) mod 2 ^ 32) (2 ^ (32 - 1))); lia. Qed.

(** A complete payload of a wire type, as [reader.skip] returns it. *)
Definition payload (wt : WireType) (d : bytes) : Prop :=
  match wt with
  | Varint => exists n, uint64 n /\ d = varint n
  | Bit64 => length d = 8%nat
  | Bit32 => length d = 4%nat
  | LengthDelimited => exists p, blen p < 2 ^ 31 /\ d = enc_delimited p
  | StartGroup | EndGroup => False
  end.

Definition field_number (no : Z) : Prop := 1 <= no < 2 ^ 29.

Lemma enc_tag_uint64 no wt : field_number no -> uint64 (no * 8 + WireType_num wt).
Proof. unfold field_number, uint64. intros. destruct wt; cbn; lia. Qed.

Lemma enc_tag_nonempty no wt : enc_tag no wt <> [].
Proof. apply varint_nonempty. Qed.

(** Encodings are opened by their lemmas, not by simplification. *)
#[global] Arguments blen : simpl never.
#[global] Arguments varint : simpl never.
#[global] Arguments read_varint : simpl never.
#[global] Arguments enc_tag : simpl never.
#[global] Arguments enc_delimited : simpl never.
#[global] Arguments enc_string : simpl never.
#[global] Arguments enc_bool : simpl never.
#[global] Arguments enc_int : simpl never.
#[global] Arguments enc_uint : simpl never.
#[global] Arguments Utf.encode : simpl never.
#[global] Arguments Decimal.of_Z : simpl never.
#[global] Arguments Num.of_Z : simpl never.
