(* ===== verification/ProtoRuntime.v ===== *)
(** * The interface of [@protobuf-ts/runtime] and the generic codec argument

    The generated message types call a reader, a writer, an unknown-field
    handler and [reflectionMergePartial] of a third-party package.  They are the
    operations of the class [BinaryRuntime]; what the package documents about
    them is [RuntimeLaws].  The rest of the file is what all message types
    share: the read loop, the unknown-field clause, the specification of a
    message's encoding, and the lemmas that relate writing and reading one field
    or one message. *)

From Stdlib Require Import ZArith Lia.
From stdpp Require Import base list numbers option strings.
From S2P Require Import Prelude JsString JsNumber WireFormat.

(** An entry of [UnknownFieldHandler.list(message)] *)
Record UnknownField := mkUnknown {
  uf_no : Z;
  uf_wireType : WireType;
  uf_data : bytes
}.

#[export] Instance UnknownField_eq_dec : EqDecision UnknownField.
Proof. solve_decision. Defined.

(** What the reflection data of a message type says about partial objects:
    [overlay message value] has the fields of [value] that are present and the
    fields of [message] otherwise. *)
Class MessageInfo (T P : Type) := { overlay : T -> P -> T }.

Class BinaryRuntime := {
  IBinaryWriter : Type;
  IBinaryReader : Type;
  PbLong : Type;
  PbULong : Type;
  long_toString : PbLong -> jsstr;
  ulong_toString : PbULong -> jsstr;
  (* IBinaryWriter *)
  w_new : IBinaryWriter;
  w_finish : IBinaryWriter -> bytes;
  w_tag : Z -> WireType -> IBinaryWriter -> IBinaryWriter;
  w_fork : IBinaryWriter -> IBinaryWriter;
  w_join : IBinaryWriter -> result IBinaryWriter;
  w_string : jsstr -> IBinaryWriter -> result IBinaryWriter;
  w_bytes : bytes -> IBinaryWriter -> result IBinaryWriter;
  w_bool : bool -> IBinaryWriter -> result IBinaryWriter;
  w_int32 : number -> IBinaryWriter -> result IBinaryWriter;
  w_uint32 : number -> IBinaryWriter -> result IBinaryWriter;
  w_int64 : jsstr -> IBinaryWriter -> result IBinaryWriter;
  w_uint64 : jsstr -> IBinaryWriter -> result IBinaryWriter;
  (* IBinaryReader *)
  r_new : bytes -> IBinaryReader;
  r_pos : IBinaryReader -> Z;
  r_tag : IBinaryReader -> result (Z * WireType * IBinaryReader);
  r_skip : WireType -> IBinaryReader -> result (bytes * IBinaryReader);
  r_string : IBinaryReader -> result (jsstr * IBinaryReader);
  r_bytes : IBinaryReader -> result (bytes * IBinaryReader);
  r_bool : IBinaryReader -> result (bool * IBinaryReader);
  r_int32 : IBinaryReader -> result (Z * IBinaryReader);
  r_uint32 : IBinaryReader -> result (Z * IBinaryReader);
  r_int64 : IBinaryReader -> result (PbLong * IBinaryReader);
  r_uint64 : IBinaryReader -> result (PbULong * IBinaryReader);
  (* UnknownFieldHandler, on the list it keeps on the message *)
  onRead : jsstr -> list UnknownField -> Z -> WireType -> bytes -> list UnknownField;
  onWrite : jsstr -> list UnknownField -> IBinaryWriter -> result IBinaryWriter;
  reflectionMergePartial : forall {T P}, MessageInfo T P -> T -> P -> T
}.

(** [BinaryReadOptions] and [BinaryWriteOptions]: the reaction to unknown
    fields.  A handler function is modelled by its effect on the list of unknown
    fields. *)
Inductive ReadUnknownField :=
  | RUThrow
  | RUBool (b : bool)
  | RUHandler (u : jsstr -> list UnknownField -> Z -> WireType -> bytes -> list UnknownField).
Record BinaryReadOptions := { readUnknownField : ReadUnknownField }.

Inductive WriteUnknownFields `{RT : BinaryRuntime} :=
  | WUBool (b : bool)
  | WUHandler (u : jsstr -> list UnknownField -> IBinaryWriter -> result IBinaryWriter).
Record BinaryWriteOptions `{RT : BinaryRuntime} := { writeUnknownFields : WriteUnknownFields }.

Definition defaultReadOptions : BinaryReadOptions := {| readUnknownField := RUBool true |}.
Definition defaultWriteOptions `{RT : BinaryRuntime} : BinaryWriteOptions :=
  {| writeUnknownFields := WUBool true |}.

Definition enc_unknown (u : UnknownField) : bytes :=
  enc_tag (uf_no u) (uf_wireType u) ++ uf_data u.
Definition wf_unknown (u : UnknownField) : Prop :=
  field_number (uf_no u) /\ payload (uf_wireType u) (uf_data u).

(** ** What the package documents *)
Section Views.
Context {RT : BinaryRuntime}.
Variable w_view : IBinaryWriter -> list bytes * bytes.
Variable r_rest : IBinaryReader -> bytes.

(** [f] succeeds and appends [bs] to the current buffer. *)
Definition emits_with (f : IBinaryWriter -> result IBinaryWriter) (bs : bytes) : Prop :=
  forall w st cur, w_view w = (st, cur) ->
    exists w', f w = Ok w' /\ w_view w' = (st, cur ++ bs).

(** In front of [bs], [f] reads the value [a] and stops behind [bs]. *)
Definition consumes_with {A} (f : IBinaryReader -> result (A * IBinaryReader))
    (bs : bytes) (a : A) : Prop :=
  forall r tl, r_rest r = bs ++ tl ->
    exists r', f r = Ok (a, r') /\ r_rest r' = tl /\ r_pos r' = r_pos r + blen bs.
End Views.

(** A read comes back, and does not move backwards when it succeeds. *)
Definition settled `{RT : BinaryRuntime} {A} (x : result (A * IBinaryReader))
    (r : IBinaryReader) : Prop :=
  returns x /\ forall a r', x = Ok (a, r') -> r_pos r <= r_pos r'.
Definition settles `{RT : BinaryRuntime} {A}
    (f : IBinaryReader -> result (A * IBinaryReader)) : Prop := forall r, settled (f r) r.

Class RuntimeLaws (RT : BinaryRuntime) := {
  (* the forks below the current buffer, and the current buffer *)
  w_view : IBinaryWriter -> list bytes * bytes;
  (* the bytes in front of the reader *)
  r_rest : IBinaryReader -> bytes;
  law_new : w_view w_new = ([], []);
  law_finish w bs : w_view w = ([], bs) -> w_finish w = bs;
  law_w_tag no wt : field_number no -> emits_with w_view (fun w => Ok (w_tag no wt w)) (enc_tag no wt);
  law_fork w st cur : w_view w = (st, cur) -> w_view (w_fork w) = (cur :: st, []);
  law_join w st cur bs : w_view w = (cur :: st, bs) -> blen bs < 2 ^ 31 ->
    exists w', w_join w = Ok w' /\ w_view w' = (st, cur ++ enc_delimited bs);
  law_w_string s : blen (Utf.encode s) < 2 ^ 31 -> emits_with w_view (w_string s) (enc_string s);
  law_w_bytes b : blen b < 2 ^ 31 -> emits_with w_view (w_bytes b) (enc_delimited b);
  law_w_bool b : emits_with w_view (w_bool b) (enc_bool b);
  law_w_int32 z : int32 z -> emits_with w_view (w_int32 (Num.of_Z z)) (enc_int z);
  law_w_uint32 z : uint32 z -> emits_with w_view (w_uint32 (Num.of_Z z)) (enc_uint z);
  law_w_int64 z : int64 z -> emits_with w_view (w_int64 (Decimal.of_Z z)) (enc_int z);
  law_w_uint64 z : uint64 z -> emits_with w_view (w_uint64 (Decimal.of_Z z)) (enc_uint z);
  (* a number that is not printed as an integer, or is out of range, is refused *)
  law_w_int64_throws n w :
    (forall z, Decimal.parse (Num.toString n) = Some z -> ~ int64 z) ->
    exists e, w_int64 (Num.toString n) w = Throw e;
  law_w_int32_throws n w :
    (forall z, Num.int_value n = Some z -> ~ int32 z) -> exists e, w_int32 n w = Throw e;
  law_r_new bs : r_rest (r_new bs) = bs /\ r_pos (r_new bs) = 0;
  law_r_tag no wt : field_number no -> consumes_with r_rest r_tag (enc_tag no wt) (no, wt);
  law_r_string s : Utf.well_formed s = true -> blen (Utf.encode s) < 2 ^ 31 ->
    consumes_with r_rest r_string (enc_string s) s;
  law_r_bytes b : blen b < 2 ^ 31 -> consumes_with r_rest r_bytes (enc_delimited b) b;
  law_r_bool b : consumes_with r_rest r_bool (enc_bool b) b;
  law_r_int32 z : int32 z -> consumes_with r_rest r_int32 (enc_int z) z;
  law_r_uint32 z : uint32 z -> consumes_with r_rest r_uint32 (enc_uint z) z;
  law_r_int64 z : int64 z ->
    exists l, long_toString l = Decimal.of_Z z /\ consumes_with r_rest r_int64 (enc_int z) l;
  law_r_uint64 z : uint64 z ->
    exists l, ulong_toString l = Decimal.of_Z z /\ consumes_with r_rest r_uint64 (enc_uint z) l;
  law_r_skip wt d : payload wt d -> consumes_with r_rest (r_skip wt) d d;
  law_onRead t us no wt d : onRead t us no wt d = us ++ [mkUnknown no wt d];
  law_onWrite t us :
    Forall wf_unknown us -> emits_with w_view (onWrite t us) (flat_map enc_unknown us);
  law_merge T P (I : MessageInfo T P) m p : reflectionMergePartial I m p = overlay m p;
  (* progress *)
  law_tag_settles : settles r_tag;
  law_tag_moves r t r' : r_tag r = Ok (t, r') -> r_pos r < r_pos r';
  law_skip_settles wt : settles (r_skip wt);
  law_string_settles : settles r_string;
  law_bytes_settles : settles r_bytes;
  law_bool_settles : settles r_bool;
  law_int32_settles : settles r_int32;
  law_uint32_settles : settles r_uint32;
  law_int64_settles : settles r_int64;
  law_int64_moves r l r' : r_int64 r = Ok (l, r') -> r_pos r < r_pos r';
  law_uint64_settles : settles r_uint64
}.

Abbreviation emits := (emits_with w_view).
Abbreviation consumes := (consumes_with r_rest).

#[export] Hint Resolve law_skip_settles law_string_settles law_bytes_settles
  law_bool_settles law_int32_settles law_uint32_settles law_int64_settles
  law_uint64_settles : pgapp.

(** ** The clauses the generated code repeats in every message type *)
Section Clauses.
Context {RT : BinaryRuntime}.

(** The [while (reader.pos < end)] loop around the [switch] of
    [internalBinaryRead]. *)
Fixpoint readLoop {T} (fuel : nat) (switch : Z -> WireType -> T -> IBinaryReader -> result (T * IBinaryReader))
    (end_ : Z) (message : T) (reader : IBinaryReader) : result (T * IBinaryReader) :=
  match fuel with
  | O => OutOfFuel
  | S f =>
      if r_pos reader <? end_ then
        '(fieldNo, wireType, reader) ← r_tag reader;
        '(message, reader) ← switch fieldNo wireType message reader;
        readLoop f switch end_ message reader
      else Ok (message, reader)
  end.

(** Every iteration reads a tag of at least one byte, so [length]
    iterations and the final test are enough. *)
Definition loop_fuel (length : Z) : nat := S (Z.to_nat length).

(** [for (let e = ...; reader.pos < e;) field.push(read())] *)
Fixpoint pushLoop {A} (fuel : nat) (read : IBinaryReader -> result (A * IBinaryReader))
    (e : Z) (acc : list A) (reader : IBinaryReader) : result (list A * IBinaryReader) :=
  match fuel with
  | O => OutOfFuel
  | S f =>
      if r_pos reader <? e then
        '(x, reader) ← read reader;
        pushLoop f read e (acc ++ [x]) reader
      else Ok (acc, reader)
  end.

(** [reader.int64().toString()] and [reader.uint64().toString()] *)
Definition r_int64_string (reader : IBinaryReader) : result (jsstr * IBinaryReader) :=
  '(l, reader) ← r_int64 reader; Ok (long_toString l, reader).
Definition r_uint64_string (reader : IBinaryReader) : result (jsstr * IBinaryReader) :=
  '(l, reader) ← r_uint64 reader; Ok (ulong_toString l, reader).

(** The [default:] clause of the switch, on the message's unknown fields. *)
Definition readUnknown (options : BinaryReadOptions) (typeName : jsstr)
    (fieldNo : Z) (wireType : WireType) (unknown : list UnknownField)
    (reader : IBinaryReader) : result (list UnknownField * IBinaryReader) :=
  match readUnknownField options with
  | RUThrow =>
      Throw (newError (js "Unknown field " ++ Decimal.of_Z fieldNo ++ js " (wire type "
        ++ Decimal.of_Z (WireType_num wireType) ++ js ") for " ++ typeName))
  | u =>
      '(d, reader) ← r_skip wireType reader;
      Ok (match u with
          | RUBool true => onRead typeName unknown fieldNo wireType d
          | RUHandler h => h typeName unknown fieldNo wireType d
          | _ => unknown
          end, reader)
  end.

(** The unknown fields at the end of [internalBinaryWrite]. *)
Definition writeUnknown (options : BinaryWriteOptions) (typeName : jsstr)
    (unknown : list UnknownField) (writer : IBinaryWriter) : result IBinaryWriter :=
  match writeUnknownFields options with
  | WUBool true => onWrite typeName unknown writer
  | WUHandler u => u typeName unknown writer
  | WUBool false => Ok writer
  end.

(** [for (let i = 0; i < xs.length; i++) f(xs[i])] *)
Fixpoint writeEach {A} (f : A -> IBinaryWriter -> result IBinaryWriter)
    (xs : list A) (writer : IBinaryWriter) : result IBinaryWriter :=
  match xs with
  | [] => Ok writer
  | x :: xs => writer ← f x writer; writeEach f xs writer
  end.
End Clauses.

(** ** The specification of an encoding

    A message is the list of its fields, in the order of the type's field
    table.  A field that has its default value is left out. *)
Inductive wfield :=
  | FString (no : Z) (s : jsstr)
  | FBytes (no : Z) (b : bytes)
  | FBool (no : Z) (b : bool)
  | FInt32 (no : Z) (n : number)
  | FUint32 (no : Z) (n : number)
  | FInt64 (no : Z) (s : jsstr)
  | FUint64 (no : Z) (s : jsstr)
  | FMessage (no : Z) (o : option bytes)
  | FRepString (no : Z) (l : list jsstr)
  | FRepMessage (no : Z) (l : list bytes)
  | FPackedInt64 (no : Z) (l : list jsstr).

Definition dec_value (s : jsstr) : Z := default 0 (Decimal.parse s).
Definition num_value (n : number) : Z := default 0 (Num.int_value n).

Definition enc_field (f : wfield) : bytes :=
  match f with
  | FString no s => if bool_decide (s = []) then [] else enc_tag no LengthDelimited ++ enc_string s
  | FBytes no b => if bool_decide (b = []) then [] else enc_tag no LengthDelimited ++ enc_delimited b
  | FBool no b => if b then enc_tag no Varint ++ enc_bool b else []
  | FInt32 no n => if num_value n =? 0 then [] else enc_tag no Varint ++ enc_int (num_value n)
  | FUint32 no n => if num_value n =? 0 then [] else enc_tag no Varint ++ enc_uint (num_value n)
  | FInt64 no s => if dec_value s =? 0 then [] else enc_tag no Varint ++ enc_int (dec_value s)
  | FUint64 no s => if dec_value s =? 0 then [] else enc_tag no Varint ++ enc_uint (dec_value s)
  | FMessage no o => from_option (fun b => enc_tag no LengthDelimited ++ enc_delimited b) [] o
  | FRepString no l => flat_map (fun s => enc_tag no LengthDelimited ++ enc_string s) l
  | FRepMessage no l => flat_map (fun b => enc_tag no LengthDelimited ++ enc_delimited b) l
  | FPackedInt64 no l =>
      if bool_decide (l = []) then []
      else enc_tag no LengthDelimited ++ enc_delimited (flat_map (fun s => enc_int (dec_value s)) l)
  end.

(** The fields in table order, then the unknown fields. *)
Definition encode_message (fs : list wfield) (unknown : list UnknownField) : bytes :=
  foldr (fun f rest => enc_field f ++ rest) (flat_map enc_unknown unknown) fs.

(** Values that a field can carry without loss: strings without lone
    surrogates, numbers in the range of the field, and 64-bit integers as their
    decimal numeral. *)
Definition in_range (lo hi : Z) (z : Z) : bool := (lo <=? z) && (z <? hi).
Definition ok_number (lo hi : Z) (n : number) : bool :=
  in_range lo hi (num_value n) && bool_decide (n = Num.of_Z (num_value n)).
Definition ok_decimal (lo hi : Z) (s : jsstr) : bool :=
  in_range lo hi (dec_value s) && bool_decide (s = Decimal.of_Z (dec_value s)).

Definition ok_field (f : wfield) : bool :=
  match f with
  | FString _ s => Utf.well_formed s
  | FBytes _ _ | FBool _ _ | FMessage _ _ | FRepMessage _ _ => true
  | FInt32 _ n => ok_number (- 2 ^ 31) (2 ^ 31) n
  | FUint32 _ n => ok_number 0 (2 ^ 32) n
  | FInt64 _ s => ok_decimal (- 2 ^ 63) (2 ^ 63) s
  | FUint64 _ s => ok_decimal 0 (2 ^ 64) s
  | FRepString _ l => forallb Utf.well_formed l
  | FPackedInt64 _ l => forallb (ok_decimal (- 2 ^ 63) (2 ^ 63)) l
  end.

Lemma ok_number_inv lo hi n :
  ok_number lo hi n = true -> exists z, n = Num.of_Z z /\ lo <= z < hi /\ num_value n = z.
Proof.
  unfold ok_number, in_range. intros [Hr Hn]%andb_prop. apply bool_decide_eq_true in Hn.
  exists (num_value n). split_and!; [done|lia..|done].
Qed.

Lemma ok_decimal_inv lo hi s :
  ok_decimal lo hi s = true -> exists z, s = Decimal.of_Z z /\ lo <= z < hi /\ dec_value s = z.
Proof.
  unfold ok_decimal, in_range. intros [Hr Hn]%andb_prop. apply bool_decide_eq_true in Hn.
  exists (dec_value s). split_and!; [done|lia..|done].
Qed.
