(* ===== verification/Codec.v ===== *)
(** * Writing and reading one message

    The argument every message type's round trip goes through.  [codes sw wr bs
    m m'] relates the statement [wr] of [internalBinaryWrite] for one field to
    the [switch] [sw] of [internalBinaryRead]: [wr] appends [bs], and reading
    [bs] takes the message from [m] to [m'].  There is one lemma per kind of
    field; [codec] applies them in sequence. *)

From Stdlib Require Import ZArith Lia.
From stdpp Require Import base list numbers option strings sets.
From S2P Require Import Prelude JsString JsNumber WireFormat ProtoRuntime.

Create HintDb codec.

Section Codec.
Context {RT : BinaryRuntime} {L : RuntimeLaws RT}.

(** ** Emitting *)
Lemma emits_bind f g a b :
  emits f a -> emits g b -> emits (fun w => w ← f w; g w) (a ++ b).
Proof.
  intros Hf Hg w st cur Hw. destruct (Hf w st cur Hw) as (w1 & -> & H1).
  destruct (Hg w1 st (cur ++ a) H1) as (w2 & E2 & H2).
  exists w2. rewrite app_assoc. auto.
Qed.

Lemma emits_tag f no wt b : field_number no -> emits f b -> emits (fun w => f (w_tag no wt w)) (enc_tag no wt ++ b).
Proof.
  intros Hno Hf w st cur Hw. destruct (law_w_tag no wt Hno w st cur Hw) as (w1 & [= <-] & H1).
  destruct (Hf _ _ _ H1) as (w2 & E2 & H2). exists w2. rewrite app_assoc. auto.
Qed.

Lemma emits_nil : emits (fun w => Ok w) [].
Proof. intros w st cur Hw. exists w. by rewrite app_nil_r. Qed.

Lemma emits_fork f no b :
  field_number no -> blen b < 2 ^ 31 -> emits f b ->
  emits (fun w => w ← f (w_fork (w_tag no LengthDelimited w)); w_join w)
        (enc_tag no LengthDelimited ++ enc_delimited b).
Proof.
  intros Hno Hb Hf. apply (emits_tag (fun w => w ← f (w_fork w); w_join w)); [done|].
  intros w st cur Hw. apply law_fork in Hw.
  destruct (Hf _ _ _ Hw) as (w1 & -> & H1). cbn. by apply law_join.
Qed.

Lemma emits_each {A} (f : A -> IBinaryWriter -> result IBinaryWriter) (e : A -> bytes) xs :
  (forall x, x ∈ xs -> emits (f x) (e x)) -> emits (writeEach f xs) (flat_map e xs).
Proof.
  induction xs as [|x xs IH]; intros Hf; cbn; [apply emits_nil|].
  apply (emits_bind (f x) (writeEach f xs)); [apply Hf|apply IH]; set_solver.
Qed.

(** ** Consuming *)
Lemma consumes_ext {A} f g bs (a : A) :
  (forall r, f r = g r) -> consumes g bs a -> consumes f bs a.
Proof. intros Hfg Hg r tl Hr. rewrite Hfg. auto. Qed.

Lemma consumes_bind {A B} (f : IBinaryReader -> result (A * IBinaryReader)) g bs cs a (b : B) :
  consumes f bs a -> consumes (fun r => g (a, r)) cs b ->
  consumes (fun r => f r ≫= g) (bs ++ cs) b.
Proof.
  intros Hf Hg r tl Hr. rewrite <- app_assoc in Hr.
  destruct (Hf _ _ Hr) as (r1 & -> & H1 & P1). cbn.
  destruct (Hg _ _ H1) as (r2 & -> & H2 & P2). exists r2.
  split_and!; [done|done|]. rewrite blen_app. lia.
Qed.

Lemma consumes_ret {A} (a : A) : consumes (fun r => Ok (a, r)) [] a.
Proof. intros r tl Hr. exists r. split_and!; [done|done|]. change (blen []) with 0. lia. Qed.

Lemma consumes_map {A B} (f : IBinaryReader -> result (A * IBinaryReader)) (g : A -> B) bs a :
  consumes f bs a -> consumes (fun r => '(v, r) ← f r; Ok (g v, r)) bs (g a).
Proof.
  intros Hf. rewrite <- (app_nil_r bs). eapply consumes_bind; [done|]. apply consumes_ret.
Qed.

Lemma consumes_int64_string z :
  int64 z -> consumes r_int64_string (enc_int z) (Decimal.of_Z z).
Proof.
  intros Hz. destruct (law_r_int64 z Hz) as (l & <- & Hl). by apply consumes_map.
Qed.

Lemma consumes_uint64_string z :
  uint64 z -> consumes r_uint64_string (enc_uint z) (Decimal.of_Z z).
Proof.
  intros Hz. destruct (law_r_uint64 z Hz) as (l & <- & Hl). by apply consumes_map.
Qed.

Lemma loop_fuel_enough z : 0 <= z -> z < Z.of_nat (loop_fuel z).
Proof. unfold loop_fuel. lia. Qed.

(** ** Packed numbers *)
Lemma enc_int_nonempty z : 0 < blen (enc_int z).
Proof.
  pose proof (varint_nonempty (z mod 2 ^ 64)) as H. unfold enc_int, blen.
  destruct (varint _); [done|]. cbn. lia.
Qed.

Lemma pushLoop_consumes l acc fuel r tl :
  forallb (ok_decimal (- 2 ^ 63) (2 ^ 63)) l = true ->
  let bs := flat_map (fun s => enc_int (dec_value s)) l in
  r_rest r = bs ++ tl -> blen bs < Z.of_nat fuel ->
  exists r', pushLoop fuel r_int64_string (r_pos r + blen bs) acc r = Ok (acc ++ l, r')
    /\ r_rest r' = tl /\ r_pos r' = r_pos r + blen bs.
Proof.
  revert acc fuel r. induction l as [|x l IH]; intros acc fuel r Hl bs Hr Hf.
  - change (blen bs) with 0 in *. destruct fuel; [lia|]. cbn [pushLoop]. exists r.
    destruct (Z.ltb_spec (r_pos r) (r_pos r + 0)); [lia|].
    rewrite app_nil_r. split_and!; [done|done|lia].
  - apply andb_prop in Hl as [Hx Hl]. apply ok_decimal_inv in Hx as (z & -> & Hz & E).
    unfold bs in *. cbn [flat_map] in *. rewrite E in *. rewrite blen_app in *.
    pose proof (enc_int_nonempty z). pose proof (blen_nonneg (flat_map (fun s => enc_int (dec_value s)) l)).
    destruct fuel as [|fuel]; [lia|]. cbn [pushLoop].
    match goal with |- context [?a <? ?b] => destruct (Z.ltb_spec a b); [|lia] end.
    rewrite <- app_assoc in Hr.
    destruct (consumes_int64_string z Hz _ _ Hr) as (r1 & -> & Hr1 & P1). cbn [mbind result_bind].
    rewrite Z.add_assoc, <- P1.
    destruct (IH (acc ++ [Decimal.of_Z z]) fuel r1 Hl Hr1) as (r2 & -> & H2 & P2); [lia|].
    exists r2. rewrite <- app_assoc. split_and!; [done|done|lia].
Qed.

(** A packed payload behind its length, appended to the numbers read before. *)
Lemma consumes_packed {B} l acc (g : list jsstr -> B) :
  let bs := flat_map (fun s => enc_int (dec_value s)) l in
  forallb (ok_decimal (- 2 ^ 63) (2 ^ 63)) l = true -> blen bs < 2 ^ 31 ->
  consumes (fun r => '(e, r) ← r_int32 r;
              '(l, r) ← pushLoop (loop_fuel e) r_int64_string (e + r_pos r) acc r; Ok (g l, r))
    (enc_delimited bs) (g (acc ++ l)).
Proof.
  intros bs Hl Hlen. pose proof (blen_nonneg bs).
  assert (varint (blen bs) = enc_int (blen bs)) as Hv by (unfold enc_int; by rewrite Z.mod_small by lia).
  unfold enc_delimited. rewrite Hv.
  eapply consumes_bind; [apply law_r_int32; unfold int32; lia|].
  apply (consumes_map (fun r => pushLoop (loop_fuel (blen bs)) r_int64_string (blen bs + r_pos r) acc r) g).
  intros r tl Hr. rewrite Z.add_comm.
  apply (pushLoop_consumes l acc (loop_fuel (blen bs)) r tl); [done|done|].
  by apply loop_fuel_enough.
Qed.

(** ** The read loop *)
Section Loop.
Context {T : Type}.
Variable sw : Z -> WireType -> T -> IBinaryReader -> result (T * IBinaryReader).

(** [bs] is one or more complete fields that take the message from [m] to [m']. *)
Inductive reads_star : bytes -> T -> T -> Prop :=
  | reads_nil m : reads_star [] m m
  | reads_cons no wt p bs m m1 m2 :
      field_number no -> consumes (sw no wt m) p m1 -> reads_star bs m1 m2 ->
      reads_star ((enc_tag no wt ++ p) ++ bs) m m2.

Lemma reads_one no wt p m m1 :
  field_number no -> consumes (sw no wt m) p m1 -> reads_star (enc_tag no wt ++ p) m m1.
Proof. intros. rewrite <- (app_nil_r (_ ++ p)). eapply reads_cons; eauto. apply reads_nil. Qed.

Lemma reads_app a b m m1 m2 :
  reads_star a m m1 -> reads_star b m1 m2 -> reads_star (a ++ b) m m2.
Proof.
  induction 1 as [m|no wt p bs m m1 m1' Hno Hp _ IH]; intros Hb; [done|].
  rewrite <- app_assoc. eapply reads_cons; eauto.
Qed.

Lemma blen_tag no wt : 0 < blen (enc_tag no wt).
Proof.
  pose proof (enc_tag_nonempty no wt). unfold blen. destruct (enc_tag no wt); [done|].
  cbn. lia.
Qed.

Lemma readLoop_star bs m m' fuel r tl :
  reads_star bs m m' -> r_rest r = bs ++ tl -> blen bs < Z.of_nat fuel ->
  exists r', readLoop fuel sw (r_pos r + blen bs) m r = Ok (m', r')
    /\ r_rest r' = tl /\ r_pos r' = r_pos r + blen bs.
Proof.
  intros Hs. revert fuel r. induction Hs as [m|no wt p bs m m1 m2 Hno Hp _ IH];
    intros fuel r Hr Hf.
  - change (blen []) with 0 in *. destruct fuel; [lia|]. cbn [readLoop]. exists r.
    destruct (Z.ltb_spec (r_pos r) (r_pos r + 0)); [lia|]. split_and!; [done|done|lia].
  - pose proof (blen_tag no wt) as Htag. pose proof (blen_nonneg p) as Hlp.
    pose proof (blen_nonneg bs) as Hbs.
    destruct fuel as [|fuel]; [rewrite !blen_app in *; lia|]. cbn [readLoop].
    destruct (Z.ltb_spec (r_pos r) (r_pos r + blen ((enc_tag no wt ++ p) ++ bs)));
      [|rewrite !blen_app in *; lia].
    rewrite <- !app_assoc in Hr.
    destruct (law_r_tag no wt Hno _ _ Hr) as (r1 & -> & H1 & P1). cbn.
    destruct (Hp _ _ H1) as (r2 & -> & H2 & P2). cbn.
    replace (r_pos r + blen ((enc_tag no wt ++ p) ++ bs)) with (r_pos r2 + blen bs)
      by (rewrite !blen_app; lia).
    apply IH; [done|]. rewrite !blen_app in Hf. lia.
Qed.

(** ** One field: the statement of the writer and the case of the reader *)
Definition codes (wr : IBinaryWriter -> result IBinaryWriter) (bs : bytes) (m m' : T) : Prop :=
  blen bs < 2 ^ 31 -> emits wr bs /\ reads_star bs m m'.

Lemma codes_seq f g a b m m1 m2 :
  codes f a m m1 -> codes g b m1 m2 -> codes (fun w => w ← f w; g w) (a ++ b) m m2.
Proof.
  intros Hf Hg Hb. rewrite blen_app in Hb.
  pose proof (blen_nonneg a). pose proof (blen_nonneg b).
  destruct Hf as [Ef Rf]; [lia|]. destruct Hg as [Eg Rg]; [lia|].
  split; [by apply emits_bind|by eapply reads_app].
Qed.

Lemma codes_skip m : codes (fun w => Ok w) [] m m.
Proof. intros _. split; [apply emits_nil|apply reads_nil]. Qed.

(** A field that is written with its tag and read back by its case. *)
Lemma codes_tagged f no wt b m m' :
  field_number no ->
  (blen b < 2 ^ 31 -> emits f b /\ consumes (sw no wt m) b m') ->
  codes (fun w => f (w_tag no wt w)) (enc_tag no wt ++ b) m m'.
Proof.
  intros Hno Hb Hlen. rewrite blen_app in Hlen. pose proof (blen_nonneg (enc_tag no wt)).
  destruct Hb as [He Hc]; [lia|]. split; [by apply emits_tag|by apply reads_one].
Qed.

Lemma blen_delimited b : blen b <= blen (enc_delimited b).
Proof. unfold enc_delimited. rewrite blen_app. pose proof (blen_nonneg (varint (blen b))). lia. Qed.

Lemma codes_string no s m (set : jsstr -> T -> T) :
  (forall m r, sw no LengthDelimited m r = ('(v, r) ← r_string r; Ok (set v m, r))) ->
  field_number no -> ok_field (FString no s) = true -> set [] m = m ->
  codes (fun w => if negb (bool_decide (s = js ""))
                  then w_string s (w_tag no LengthDelimited w) else Ok w)
    (enc_field (FString no s)) m (set s m).
Proof.
  intros Hsw Hno Hs Hm. cbn. change (js "") with (@nil Z). case_bool_decide as E; cbn.
  - subst s. rewrite Hm. apply codes_skip.
  - apply codes_tagged; [done|]. unfold enc_string. intros Hb.
    pose proof (blen_delimited (Utf.encode s)). split; [apply law_w_string; lia|].
    eapply consumes_ext; [apply Hsw|]. apply (consumes_map r_string (fun v => set v m)).
    apply law_r_string; [done|lia].
Qed.

Lemma codes_bytes no b m (set : bytes -> T -> T) :
  (forall m r, sw no LengthDelimited m r = ('(v, r) ← r_bytes r; Ok (set v m, r))) ->
  field_number no -> set [] m = m ->
  codes (fun w => if negb (Nat.eqb (length b) 0)
                  then w_bytes b (w_tag no LengthDelimited w) else Ok w)
    (enc_field (FBytes no b)) m (set b m).
Proof.
  intros Hsw Hno Hm. cbn. case_bool_decide as E; [subst b; rewrite Hm; apply codes_skip|].
  destruct (Nat.eqb_spec (length b) 0) as [H|_]; [by apply nil_length_inv in H|].
  apply codes_tagged; [done|]. intros Hb. pose proof (blen_delimited b).
  split; [apply law_w_bytes; lia|]. eapply consumes_ext; [apply Hsw|].
  apply (consumes_map r_bytes (fun v => set v m)), law_r_bytes. lia.
Qed.

Lemma codes_bool no b m (set : bool -> T -> T) :
  (forall m r, sw no Varint m r = ('(v, r) ← r_bool r; Ok (set v m, r))) ->
  field_number no -> set false m = m ->
  codes (fun w => if negb (Bool.eqb b false) then w_bool b (w_tag no Varint w) else Ok w)
    (enc_field (FBool no b)) m (set b m).
Proof.
  intros Hsw Hno Hm. destruct b; cbn; [|rewrite Hm; apply codes_skip].
  apply codes_tagged; [done|]. intros _. split; [apply law_w_bool|].
  eapply consumes_ext; [apply Hsw|]. apply (consumes_map r_bool (fun v => set v m)), law_r_bool.
Qed.

(** The cases of the 32-bit fields, whose values are numbers. *)
Lemma codes_number (w_ : number -> IBinaryWriter -> result IBinaryWriter)
    (r_ : IBinaryReader -> result (Z * IBinaryReader)) enc lo hi no n m (set : number -> T -> T) :
  - 2 ^ 53 <= lo -> hi <= 2 ^ 53 ->
  (forall z, lo <= z < hi -> emits (w_ (Num.of_Z z)) (enc z) /\ consumes r_ (enc z) z) ->
  (forall m r, sw no Varint m r = ('(v, r) ← r_ r; Ok (set (Num.of_Z v) m, r))) ->
  field_number no -> ok_number lo hi n = true -> set (Finite 0 0) m = m ->
  codes (fun w => if negb (Num.eqb n (Finite 0 0)) then w_ n (w_tag no Varint w) else Ok w)
    (if num_value n =? 0 then [] else enc_tag no Varint ++ enc (num_value n)) m (set n m).
Proof.
  intros Hlo Hhi Hlaw Hsw Hno (z & -> & Hz & E)%ok_number_inv Hm. cbn. rewrite E.
  rewrite Num.of_Z_eqb_zero by lia. destruct (Z.eqb_spec z 0) as [->|_]; cbn.
  - change (Num.of_Z 0) with (Finite 0 0). rewrite Hm. apply codes_skip.
  - destruct (Hlaw z Hz) as [He Hc]. apply codes_tagged; [done|]. intros _. split; [done|].
    eapply consumes_ext; [apply Hsw|].
    by apply (consumes_map r_ (fun v => set (Num.of_Z v) m)).
Qed.

Lemma codes_int32 no n m (set : number -> T -> T) :
  (forall m r, sw no Varint m r = ('(v, r) ← r_int32 r; Ok (set (Num.of_Z v) m, r))) ->
  field_number no -> ok_field (FInt32 no n) = true -> set (Finite 0 0) m = m ->
  codes (fun w => if negb (Num.eqb n (Finite 0 0)) then w_int32 n (w_tag no Varint w) else Ok w)
    (enc_field (FInt32 no n)) m (set n m).
Proof.
  apply (codes_number w_int32 r_int32 enc_int); [lia..|].
  split; [by apply law_w_int32|by apply law_r_int32].
Qed.

Lemma codes_uint32 no n m (set : number -> T -> T) :
  (forall m r, sw no Varint m r = ('(v, r) ← r_uint32 r; Ok (set (Num.of_Z v) m, r))) ->
  field_number no -> ok_field (FUint32 no n) = true -> set (Finite 0 0) m = m ->
  codes (fun w => if negb (Num.eqb n (Finite 0 0)) then w_uint32 n (w_tag no Varint w) else Ok w)
    (enc_field (FUint32 no n)) m (set n m).
Proof.
  apply (codes_number w_uint32 r_uint32 enc_uint); [lia..|].
  split; [by apply law_w_uint32|by apply law_r_uint32].
Qed.

(** The cases of the 64-bit fields, whose values are decimal strings. *)
Lemma codes_decimal (w_ : jsstr -> IBinaryWriter -> result IBinaryWriter)
    (r_ : IBinaryReader -> result (jsstr * IBinaryReader)) enc lo hi no s m (set : jsstr -> T -> T) :
  (forall z, lo <= z < hi ->
     emits (w_ (Decimal.of_Z z)) (enc z) /\ consumes r_ (enc z) (Decimal.of_Z z)) ->
  (forall m r, sw no Varint m r = ('(v, r) ← r_ r; Ok (set v m, r))) ->
  field_number no -> ok_decimal lo hi s = true -> set (js "0") m = m ->
  codes (fun w => if negb (bool_decide (s = js "0")) then w_ s (w_tag no Varint w) else Ok w)
    (if dec_value s =? 0 then [] else enc_tag no Varint ++ enc (dec_value s)) m (set s m).
Proof.
  intros Hlaw Hsw Hno (z & -> & Hz & E)%ok_decimal_inv Hm. rewrite E.
  destruct (Z.eqb_spec z 0) as [->|Hne].
  - rewrite bool_decide_true by done. change (Decimal.of_Z 0) with (js "0").
    rewrite Hm. apply codes_skip.
  - rewrite bool_decide_false by by intros ?%Decimal.of_Z_zero. cbn [negb].
    destruct (Hlaw z Hz) as [He Hc]. apply codes_tagged; [done|]. intros _. split; [done|].
    eapply consumes_ext; [apply Hsw|]. by apply (consumes_map r_ (fun v => set v m)).
Qed.

Lemma codes_int64 no s m (set : jsstr -> T -> T) :
  (forall m r, sw no Varint m r = ('(v, r) ← r_int64_string r; Ok (set v m, r))) ->
  field_number no -> ok_field (FInt64 no s) = true -> set (js "0") m = m ->
  codes (fun w => if negb (bool_decide (s = js "0")) then w_int64 s (w_tag no Varint w) else Ok w)
    (enc_field (FInt64 no s)) m (set s m).
Proof.
  apply (codes_decimal w_int64 r_int64_string enc_int).
  split; [by apply law_w_int64|by apply consumes_int64_string].
Qed.

Lemma codes_uint64 no s m (set : jsstr -> T -> T) :
  (forall m r, sw no Varint m r = ('(v, r) ← r_uint64_string r; Ok (set v m, r))) ->
  field_number no -> ok_field (FUint64 no s) = true -> set (js "0") m = m ->
  codes (fun w => if negb (bool_decide (s = js "0")) then w_uint64 s (w_tag no Varint w) else Ok w)
    (enc_field (FUint64 no s)) m (set s m).
Proof.
  apply (codes_decimal w_uint64 r_uint64_string enc_uint).
  split; [by apply law_w_uint64|by apply consumes_uint64_string].
Qed.

(** ** Message fields *)

(** [wr] writes [bs], and [rd], told the length of [bs], reads the message back. *)
Definition message_codes {A} (wr : IBinaryWriter -> result IBinaryWriter)
    (rd : IBinaryReader -> Z -> result (A * IBinaryReader)) (bs : bytes) (x : A) : Prop :=
  blen bs < 2 ^ 31 -> emits wr bs /\ consumes (fun r => rd r (blen bs)) bs x.

Lemma consumes_delimited {A B} (rd : IBinaryReader -> Z -> result (A * IBinaryReader))
    (g : A -> B) bs x :
  blen bs < 2 ^ 31 -> consumes (fun r => rd r (blen bs)) bs x ->
  consumes (fun r => '(len, r) ← r_uint32 r; '(v, r) ← rd r len; Ok (g v, r))
    (enc_delimited bs) (g x).
Proof.
  intros Hb Hrd. pose proof (blen_nonneg bs).
  eapply (consumes_bind r_uint32); [apply law_r_uint32; unfold uint32; lia|].
  by apply (consumes_map (fun r => rd r (blen bs))).
Qed.

Lemma codes_message {A} no (o : option A) (wr : A -> IBinaryWriter -> result IBinaryWriter)
    (rd : IBinaryReader -> Z -> option A -> result (A * IBinaryReader)) (enc : A -> bytes)
    m (get : T -> option A) (set : option A -> T -> T) :
  (forall m r, sw no LengthDelimited m r =
     ('(len, r) ← r_uint32 r; '(v, r) ← rd r len (get m); Ok (set (Some v) m, r))) ->
  (forall x, o = Some x -> message_codes (wr x) (fun r len => rd r len None) (enc x) x) ->
  field_number no -> get m = None -> set None m = m ->
  codes (fun w => match o with
                  | Some x => w ← wr x (w_fork (w_tag no LengthDelimited w)); w_join w
                  | None => Ok w
                  end)
    (enc_field (FMessage no (enc <$> o))) m (set o m).
Proof.
  intros Hsw Hin Hno Hget Hset. destruct o as [x|]; cbn; [|rewrite Hset; apply codes_skip].
  intros Hlen. rewrite blen_app in Hlen. pose proof (blen_nonneg (enc_tag no LengthDelimited)).
  pose proof (blen_delimited (enc x)).
  destruct (Hin x eq_refl) as [He Hc]; [lia|]. split; [apply emits_fork; [done|lia|done]|].
  apply reads_one; [done|]. eapply consumes_ext; [intros r; rewrite Hsw, Hget; done|].
  by apply (consumes_delimited (fun r len => rd r len None) (fun v => set (Some v) m)); [lia|].
Qed.

(** ** Repeated fields *)
Section Repeated.
Context {A : Type} (get : T -> list A) (set : list A -> T -> T).
Hypothesis get_set : forall l m, get (set l m) = l.
Hypothesis set_set : forall l k m, set l (set k m) = set l m.

Lemma codes_repeated (wr : A -> IBinaryWriter -> result IBinaryWriter) (e : A -> bytes) l m acc :
  (forall x m, x ∈ l -> codes (wr x) (e x) m (set (get m ++ [x]) m)) ->
  get m = acc -> set acc m = m ->
  codes (writeEach wr l) (flat_map e l) m (set (acc ++ l) m).
Proof.
  revert m acc. induction l as [|x l IH]; intros m acc Hx Hget Hset; cbn.
  - rewrite app_nil_r, Hset. apply codes_skip.
  - apply (codes_seq (wr x) (writeEach wr l)) with (set (acc ++ [x]) m).
    + rewrite <- Hget. apply Hx. set_solver.
    + replace (acc ++ x :: l) with ((acc ++ [x]) ++ l) by by rewrite <- app_assoc.
      rewrite <- (set_set ((acc ++ [x]) ++ l) (acc ++ [x]) m). apply IH; [|apply get_set|apply set_set].
      intros y m' Hy. apply Hx. set_solver.
Qed.

Lemma codes_rep_message no l (wr : A -> IBinaryWriter -> result IBinaryWriter)
    (rd : IBinaryReader -> Z -> option A -> result (A * IBinaryReader)) (enc : A -> bytes) m :
  (forall m r, sw no LengthDelimited m r =
     ('(len, r) ← r_uint32 r; '(v, r) ← rd r len None; Ok (set (get m ++ [v]) m, r))) ->
  (forall x, x ∈ l -> message_codes (wr x) (fun r len => rd r len None) (enc x) x) ->
  field_number no -> get m = [] -> set [] m = m ->
  codes (writeEach (fun x w => w ← wr x (w_fork (w_tag no LengthDelimited w)); w_join w) l)
    (enc_field (FRepMessage no (enc <$> l))) m (set l m).
Proof.
  intros Hsw Hin Hno Hget Hset. cbn.
  rewrite flat_map_concat_map. change (enc <$> l) with (map enc l).
  rewrite map_map, <- flat_map_concat_map.
  apply (codes_repeated _ _ l m []); [|done|done]. intros x m' Hx Hlen.
  rewrite blen_app in Hlen. pose proof (blen_nonneg (enc_tag no LengthDelimited)).
  pose proof (blen_delimited (enc x)). destruct (Hin x Hx) as [He Hc]; [lia|].
  split; [apply emits_fork; [done|lia|done]|]. apply reads_one; [done|].
  eapply consumes_ext; [apply Hsw|].
  by apply (consumes_delimited (fun r len => rd r len None) (fun v => set (get m' ++ [v]) m')); [lia|].
Qed.
End Repeated.

Lemma codes_rep_string (get : T -> list jsstr) (set : list jsstr -> T -> T) no l m :
  (forall l m, get (set l m) = l) -> (forall l k m, set l (set k m) = set l m) ->
  (forall m r, sw no LengthDelimited m r = ('(v, r) ← r_string r; Ok (set (get m ++ [v]) m, r))) ->
  field_number no -> ok_field (FRepString no l) = true -> get m = [] -> set [] m = m ->
  codes (writeEach (fun x w => w_string x (w_tag no LengthDelimited w)) l)
    (enc_field (FRepString no l)) m (set l m).
Proof.
  intros Hgs Hss Hsw Hno Hl Hget Hset. cbn in *. rewrite forallb_forall in Hl.
  apply (codes_repeated get set Hgs Hss _ _ l m []); [|done|done].
  intros x m' Hx. apply codes_tagged; [done|]. unfold enc_string. intros Hb.
  pose proof (blen_delimited (Utf.encode x)). split; [apply law_w_string; lia|].
  eapply consumes_ext; [apply Hsw|].
  apply (consumes_map r_string (fun v => set (get m' ++ [v]) m')).
  apply law_r_string; [by apply Hl, list_elem_of_In|lia].
Qed.

(** ** Packed 64-bit integers *)
Lemma codes_packed_int64 (get : T -> list jsstr) (set : list jsstr -> T -> T) no l m :
  (forall m r, sw no LengthDelimited m r =
     ('(e, r) ← r_int32 r;
      '(l, r) ← pushLoop (loop_fuel e) r_int64_string (e + r_pos r) (get m) r;
      Ok (set l m, r))) ->
  field_number no -> ok_field (FPackedInt64 no l) = true -> get m = [] -> set [] m = m ->
  codes (fun w => if negb (Nat.eqb (length l) 0)
                  then w ← writeEach w_int64 l (w_fork (w_tag no LengthDelimited w)); w_join w
                  else Ok w)
    (enc_field (FPackedInt64 no l)) m (set l m).
Proof.
  intros Hsw Hno Hl Hget Hset. cbn. case_bool_decide as E; [subst l; rewrite Hset; apply codes_skip|].
  destruct (Nat.eqb_spec (length l) 0) as [H|_]; [by apply nil_length_inv in H|]. cbn in Hl.
  intros Hlen. rewrite blen_app in Hlen. pose proof (blen_nonneg (enc_tag no LengthDelimited)).
  set (bs := flat_map (fun s => enc_int (dec_value s)) l) in *.
  pose proof (blen_delimited bs). pose proof (blen_nonneg bs). split.
  - apply (emits_fork (writeEach w_int64 l)); [done|lia|]. apply emits_each. intros x Hx.
    rewrite forallb_forall in Hl.
    destruct (ok_decimal_inv _ _ x (Hl x (proj1 (list_elem_of_In _ _) Hx))) as (z & -> & Hz & ->).
    by apply law_w_int64.
  - apply reads_one; [done|]. eapply consumes_ext; [apply Hsw|]. rewrite Hget.
    apply (consumes_packed l [] (fun l => set l m)); [done|]. fold bs. lia.
Qed.

(** ** Unknown fields *)
Lemma codes_unknown (get : T -> list UnknownField) (set : list UnknownField -> T -> T)
    tn (last : Z) us m :
  (forall l m, get (set l m) = l) -> (forall l k m, set l (set k m) = set l m) ->
  (forall no wt m r, last < no -> sw no wt m r =
     ('(u, r) ← readUnknown defaultReadOptions tn no wt (get m) r; Ok (set u m, r))) ->
  0 <= last -> Forall (fun u => wf_unknown u /\ last < uf_no u) us -> get m = [] -> set [] m = m ->
  codes (writeUnknown defaultWriteOptions tn us) (flat_map enc_unknown us) m (set us m).
Proof.
  intros Hgs Hss Hsw Hlast Hus Hget Hset _. split.
  - apply law_onWrite. eapply Forall_impl; [done|]. by intros u [].
  - enough (forall acc m, get m = acc -> set acc m = m ->
              reads_star (flat_map enc_unknown us) m (set (acc ++ us) m)) as H
      by by apply (H [] m).
    clear m Hget Hset. induction Hus as [|u us [[Hno Hp] Hlt] _ IH]; intros acc m Hget Hset.
    + cbn. rewrite app_nil_r, Hset. apply reads_nil.
    + cbn [flat_map]. unfold enc_unknown at 1. eapply reads_cons; [done|..].
      * eapply consumes_ext; [intros r; by apply Hsw|].
        apply (consumes_map (fun r => readUnknown defaultReadOptions tn _ _ (get m) r)).
        unfold readUnknown. cbn. apply (consumes_map (r_skip _)). by apply law_r_skip.
      * rewrite law_onRead, Hget. destruct u as [no wt d]; cbn [uf_no uf_wireType uf_data].
        replace (acc ++ mkUnknown no wt d :: us) with ((acc ++ [mkUnknown no wt d]) ++ us)
          by by rewrite <- app_assoc.
        rewrite <- (Hss ((acc ++ [mkUnknown no wt d]) ++ us) (acc ++ [mkUnknown no wt d]) m).
        apply IH; [apply Hgs|apply Hss].
Qed.

(** ** The whole message *)
Lemma message_intro wr bs m0 m :
  codes wr bs m0 m ->
  message_codes wr (fun r len => readLoop (loop_fuel len) sw (r_pos r + len) m0 r) bs m.
Proof.
  intros Hc Hb. destruct (Hc Hb) as [He Hs]. split; [done|]. intros r tl Hr.
  apply (readLoop_star bs m0 m); [done|done|]. apply loop_fuel_enough, blen_nonneg.
Qed.

End Loop.

(** ** Termination *)
Lemma settled_bind {A B} (f : IBinaryReader -> result (A * IBinaryReader))
    (k : A * IBinaryReader -> result (B * IBinaryReader)) r :
  settles f -> (forall a r', settled (k (a, r')) r') -> settled (f r ≫= k) r.
Proof.
  intros Hf Hk. destruct (Hf r) as [Hret Hpos].
  destruct (f r) as [[a r1]|e|] eqn:E; [|split; [done|intros; discriminate]|done]. cbn.
  specialize (Hpos a r1 eq_refl). destruct (Hk a r1) as [Hret' Hpos']. split; [done|].
  intros b r2 E2. specialize (Hpos' b r2 E2). lia.
Qed.

Lemma settled_ok {A} (a : A) r : settled (Ok (a, r)) r.
Proof. split; [done|]. intros ? ? [= _ ->]. lia. Qed.

Lemma settled_throw {A} e r : settled (Throw e : result (A * IBinaryReader)) r.
Proof. split; [done|]. by intros. Qed.

Lemma settles_int64_string : settles r_int64_string.
Proof. intros r. apply settled_bind; [apply law_int64_settles|]. intros. apply settled_ok. Qed.

Lemma settles_uint64_string : settles r_uint64_string.
Proof. intros r. apply settled_bind; [apply law_uint64_settles|]. intros. apply settled_ok. Qed.

Lemma settles_unknown o tn no wt us : settles (readUnknown o tn no wt us).
Proof.
  intros r. unfold readUnknown. destruct (readUnknownField o);
    [apply settled_throw| |]; (apply settled_bind; [apply law_skip_settles|]; intros; apply settled_ok).
Qed.

(** The loop needs no more iterations than there are bytes up to [end]. *)
Lemma readLoop_settles {T} (sw : Z -> WireType -> T -> IBinaryReader -> result (T * IBinaryReader))
    len m :
  (forall no wt m, settles (sw no wt m)) ->
  settles (fun r => readLoop (loop_fuel len) sw (r_pos r + len) m r).
Proof.
  intros Hsw r. enough (forall fuel m r0 end_,
    (Z.to_nat (end_ - r_pos r0) < fuel)%nat -> settled (readLoop fuel sw end_ m r0) r0) as H.
  { apply H. unfold loop_fuel. lia. }
  clear m r. induction fuel as [|fuel IH]; intros m r end_ Hf; [lia|]. cbn [readLoop].
  destruct (Z.ltb_spec (r_pos r) end_); [|apply settled_ok].
  destruct (law_tag_settles r) as [Hret _].
  destruct (r_tag r) as [[[no wt] r1]|e|] eqn:E; [|apply settled_throw|done].
  apply law_tag_moves in E. cbn. destruct (Hsw no wt m r1) as [Hret1 Hpos1].
  destruct (sw no wt m r1) as [[m2 r2]|e|] eqn:E2; [|apply settled_throw|done]. cbn.
  specialize (Hpos1 _ _ eq_refl). destruct (IH m2 r2 end_) as [Hret2 Hpos2]; [lia|].
  split; [done|]. intros a r3 E3. specialize (Hpos2 _ _ E3). lia.
Qed.

(** The packed loop needs the reads to make progress. *)
Lemma pushLoop_settles {A} (read : IBinaryReader -> result (A * IBinaryReader)) e acc :
  settles read -> (forall r a r', read r = Ok (a, r') -> r_pos r < r_pos r') ->
  settles (fun r => pushLoop (loop_fuel e) read (e + r_pos r) acc r).
Proof.
  intros Hread Hmoves r. enough (forall fuel acc r0 end_,
    (Z.to_nat (end_ - r_pos r0) < fuel)%nat -> settled (pushLoop fuel read end_ acc r0) r0) as H.
  { apply H. unfold loop_fuel. lia. }
  clear acc r. induction fuel as [|fuel IH]; intros acc r end_ Hf; [lia|]. cbn [pushLoop].
  destruct (Z.ltb_spec (r_pos r) end_); [|apply settled_ok].
  destruct (Hread r) as [Hret _].
  destruct (read r) as [[x r1]|ex|] eqn:E; [|apply settled_throw|done]. cbn.
  apply Hmoves in E. destruct (IH (acc ++ [x]) r1 end_) as [Hret2 Hpos2]; [lia|].
  split; [done|]. intros a r3 E3. specialize (Hpos2 _ _ E3). lia.
Qed.

Lemma settles_packed e acc :
  settles (fun r => pushLoop (loop_fuel e) r_int64_string (e + r_pos r) acc r).
Proof.
  apply pushLoop_settles; [apply settles_int64_string|]. unfold r_int64_string.
  intros r a r' H. inv_bind. eauto using law_int64_moves.
Qed.

End Codec.

(** ** Message types

    What a generated [MessageType] subclass provides, with the specification of
    its encoding: [mt_encode] is the encoding its field table prescribes, and
    [mt_wf] says that every field holds a value its type can carry. *)
Class MessageType (T : Type) := {
  mt_typeName : jsstr;
  mt_new : T;
  mt_read : forall {RT : BinaryRuntime},
    IBinaryReader -> Z -> BinaryReadOptions -> option T -> result (T * IBinaryReader);
  mt_write : forall {RT : BinaryRuntime},
    T -> IBinaryWriter -> BinaryWriteOptions -> result IBinaryWriter;
  mt_encode : T -> bytes;
  mt_wf : T -> Prop
}.

(** The interface the RPC layer relies on: on any runtime that obeys its
    documentation, a well-formed message is written as its encoding and read
    back unchanged, and reading any input terminates. *)
Class LawfulMessage (T : Type) {M : MessageType T} := {
  mt_codes : forall {RT : BinaryRuntime} {L : RuntimeLaws RT} (m : T), mt_wf m ->
    message_codes (fun w => mt_write m w defaultWriteOptions)
      (fun r len => mt_read r len defaultReadOptions None) (mt_encode m) m;
  mt_settles : forall {RT : BinaryRuntime} {L : RuntimeLaws RT} len o target,
    settles (fun r => mt_read (T := T) r len o target)
}.

(** [MessageType.toBinary] and [MessageType.fromBinary] of the runtime's base
    class: a fresh writer and its bytes, a fresh reader over all the bytes. *)
Definition toBinary `{RT : BinaryRuntime} `{M : MessageType T} (m : T) : result bytes :=
  w ← mt_write m w_new defaultWriteOptions; Ok (w_finish w).

Definition fromBinary `{RT : BinaryRuntime} `{M : MessageType T} (bs : bytes) : result T :=
  '(m, _) ← mt_read (r_new bs) (blen bs) defaultReadOptions None; Ok m.

Section MessageFields.
Context {RT : BinaryRuntime} {L : RuntimeLaws RT} {T A : Type}.
Context {M : MessageType A} {LM : LawfulMessage A}.
Variable sw : Z -> WireType -> T -> IBinaryReader -> result (T * IBinaryReader).

Lemma codes_message_field (get : T -> option A) (set : option A -> T -> T) no o m :
  (forall m r, sw no LengthDelimited m r =
     ('(len, r) ← r_uint32 r; '(v, r) ← mt_read r len defaultReadOptions (get m);
      Ok (set (Some v) m, r))) ->
  from_option mt_wf True o -> field_number no -> get m = None -> set None m = m ->
  codes sw (fun w => match o with
              | Some x => w ← mt_write x (w_fork (w_tag no LengthDelimited w)) defaultWriteOptions;
                          w_join w
              | None => Ok w
              end)
    (enc_field (FMessage no (mt_encode <$> o))) m (set o m).
Proof.
  intros Hsw Ho. apply (codes_message sw no o (fun x w => mt_write x w defaultWriteOptions)
    (fun r len tgt => mt_read r len defaultReadOptions tgt)); [exact Hsw|].
  intros x ->. by apply mt_codes.
Qed.

Lemma codes_rep_message_field (get : T -> list A) (set : list A -> T -> T) no l m :
  (forall l m, get (set l m) = l) -> (forall l k m, set l (set k m) = set l m) ->
  (forall m r, sw no LengthDelimited m r =
     ('(len, r) ← r_uint32 r; '(v, r) ← mt_read r len defaultReadOptions None;
      Ok (set (get m ++ [v]) m, r))) ->
  Forall mt_wf l -> field_number no -> get m = [] -> set [] m = m ->
  codes sw (writeEach (fun x w => w ← mt_write x (w_fork (w_tag no LengthDelimited w))
                                        defaultWriteOptions; w_join w) l)
    (enc_field (FRepMessage no (mt_encode <$> l))) m (set l m).
Proof.
  intros Hgs Hss Hsw Hl. apply (codes_rep_message sw get set Hgs Hss no l
    (fun x w => mt_write x w defaultWriteOptions)
    (fun r len tgt => mt_read r len defaultReadOptions tgt)); [exact Hsw|].
  intros x Hx. apply mt_codes. rewrite Forall_forall in Hl. auto.
Qed.
End MessageFields.

(** Every well-formed message survives [toBinary] and [fromBinary]. *)
Lemma toBinary_encode {RT : BinaryRuntime} {L : RuntimeLaws RT} `{LM : LawfulMessage T} (m : T) :
  mt_wf m -> blen (mt_encode m) < 2 ^ 31 -> toBinary m = Ok (mt_encode m).
Proof.
  intros Hm Hlen. destruct (mt_codes m Hm Hlen) as [He _].
  destruct (He w_new [] [] law_new) as (w & E & Hw). unfold toBinary. rewrite E. cbn.
  f_equal. by apply law_finish.
Qed.

Lemma fromBinary_encode {RT : BinaryRuntime} {L : RuntimeLaws RT} `{LM : LawfulMessage T} (m : T) :
  mt_wf m -> blen (mt_encode m) < 2 ^ 31 -> fromBinary (mt_encode m) = Ok m.
Proof.
  intros Hm Hlen. destruct (mt_codes m Hm Hlen) as [_ Hc].
  destruct (law_r_new (mt_encode m)) as [Hr _].
  destruct (Hc (r_new (mt_encode m)) []) as (r & E & _); [by rewrite app_nil_r|].
  unfold fromBinary. by rewrite E.
Qed.

Lemma fromBinary_returns {RT : BinaryRuntime} {L : RuntimeLaws RT} `{LM : LawfulMessage T} (bs : bytes) :
  returns (fromBinary (T := T) bs).
Proof.
  unfold fromBinary. destruct (mt_settles (blen bs) defaultReadOptions (@None T) (r_new bs)) as [Hr _].
  apply bind_returns; [done|]. by intros [].
Qed.

#[export] Hint Resolve settles_int64_string settles_uint64_string settles_unknown settles_packed : pgapp.

(** Splits a [switch] on the field number, down to the literal cases. *)
Ltac split_number n :=
  destruct n as [|p|p];
  repeat match goal with p : positive |- context [match ?q with xI _ => _ | xO _ => _ | xH => _ end] =>
           is_var q; destruct q end.

(** Closes [settles (switch ...)]: every case is a chain of settling reads. *)
Ltac settle :=
  repeat match goal with
  | |- settled (Ok _) _ => apply settled_ok
  | |- settled (Throw _) _ => apply settled_throw
  | |- settled (if ?b then _ else _) _ => destruct b
  | |- settled (?x ≫= _) ?r =>
      match eval pattern r in x with
      | ?f _ => apply (settled_bind f); [solve [eauto with pgapp]|intros ? ?; cbn beta iota]
      end
  end.

(** Side conditions of the [codes] lemmas. *)
Ltac codec_side :=
  first [ reflexivity
        | assumption
        | lia
        | (split; lia)
        | (intros; reflexivity) ].

(** Computes the message reached so far. *)
Ltac codec_reduce :=
  lazymatch goal with |- codes _ _ _ ?m _ => let m' := eval lazy in m in change m with m' end.

(** One statement of [internalBinaryWrite], with its case of the [switch]. *)
Ltac codec_step :=
  codec_reduce; eapply codes_seq;
  [ first [ eapply codes_string | eapply codes_bytes | eapply codes_bool
          | eapply codes_int32 | eapply codes_uint32
          | eapply codes_int64 | eapply codes_uint64 ]; codec_side
  | ].

(** Opens the well-formedness of the plain fields of [m]. *)
Ltac codec_open m Hf :=
  destruct m; cbn -[ok_field] in Hf;
  repeat match type of Hf with _ && _ = true => apply andb_prop in Hf as [? Hf] end.

(** A repeated field or a message field, by the lemma for it. *)
Ltac codec_field lem := codec_reduce; eapply codes_seq; [eapply lem; codec_side|].

(** The [default:] clause of the switch [sw], for every number the type does not
    declare. *)
Tactic Notation "codec_default" reference(sw) :=
  intros no ? ? ? ?; unfold sw; split_number no; first [reflexivity | exfalso; lia].
