(* ===== verification/CommonMessages.v ===== *)
(** * Message types of [gen/pgapp/v1/common.ts]

    The shared result, capability and service-state types.  Each module is one
    generated message type: its interface, [create], [internalBinaryRead] and
    [internalBinaryWrite], the encoding its field table prescribes, and the
    proofs that the type is lawful. *)

From Stdlib Require Import ZArith Lia.
From stdpp Require Import base list numbers option strings.
From S2P Require Import Prelude JsString JsNumber WireFormat ProtoRuntime Codec.

(** ** Enum [ServiceState]: its values are numbers, and other numbers can be received. *)
Module ServiceState.
Definition UNSPECIFIED : number := Num.of_Z 0.
Definition AVAILABLE : number := Num.of_Z 1.
Definition UNAVAILABLE : number := Num.of_Z 2.
Definition DISABLED : number := Num.of_Z 3.
End ServiceState.

(** ** Message [Empty] *)
Module Empty.

(** [interface Empty], with the fields the decoder did not know *)
Record t := mk {
  unknown : list UnknownField
}.

Definition set_unknown (x : list UnknownField) (m : t) : t :=
  mk x.

Definition typeName : jsstr := js "pgapp.v1.Empty".

Definition PartialMessage := unit.
#[global] Instance info : MessageInfo t PartialMessage := {| overlay m _ := m |}.
Definition as_partial (m : t) : PartialMessage := tt.

(** The message prototype with every field at its default *)
Definition new : t :=
  mk [].
Definition create `{RT : BinaryRuntime} (value : option PartialMessage) : t :=
  match value with
  | Some value => reflectionMergePartial info new value
  | None => new
  end.

(** The cases of [internalBinaryRead] *)
Definition switch `{RT : BinaryRuntime} (options : BinaryReadOptions) (fieldNo : Z)
    (wireType : WireType) (message : t) (reader : IBinaryReader) : result (t * IBinaryReader) :=
  match fieldNo with
  | _ =>
      '(u, reader) ← readUnknown options typeName fieldNo wireType message.(unknown) reader;
      Ok (set_unknown u message, reader)
  end.

Definition internalBinaryRead `{RT : BinaryRuntime} (reader : IBinaryReader) (length : Z)
    (options : BinaryReadOptions) (target : option t) : result (t * IBinaryReader) :=
  let message := default (create None) target in
  readLoop (loop_fuel length) (switch options) (r_pos reader + length) message reader.

Definition internalBinaryWrite `{RT : BinaryRuntime} (message : t) (writer : IBinaryWriter)
    (options : BinaryWriteOptions) : result IBinaryWriter :=
  writeUnknown options typeName message.(unknown) writer.

(** The field table of the constructor, with the values of a message *)
Definition fields (m : t) : list wfield :=
  [].
Definition encode (m : t) : bytes := encode_message (fields m) m.(unknown).
Definition wf (m : t) : Prop :=
  forallb ok_field (fields m) = true
  /\ Forall (fun u => wf_unknown u /\ 0 < uf_no u) m.(unknown).

Lemma Empty_settles `{L : RuntimeLaws} len o target :
  settles (fun r => internalBinaryRead r len o target).
Proof. apply readLoop_settles. intros no wt m r. unfold switch. split_number no; settle. Qed.
#[global] Hint Resolve Empty_settles : pgapp.

Lemma Empty_codes `{L : RuntimeLaws} m : wf m ->
  message_codes (fun w => internalBinaryWrite m w defaultWriteOptions)
    (fun r len => internalBinaryRead r len defaultReadOptions None) (encode m) m.
Proof.
  intros (Hf & Hu). codec_open m Hf. apply (message_intro (switch defaultReadOptions)).
  unfold internalBinaryWrite, encode, encode_message, fields. cbn [foldr].
  codec_reduce. apply (codes_unknown _ unknown set_unknown typeName 0); 
    first [codec_side | codec_default switch].
Qed.

#[global] Instance message_type : MessageType t := {|
  mt_typeName := typeName; mt_new := new; mt_read RT := @internalBinaryRead RT;
  mt_write RT := @internalBinaryWrite RT; mt_encode := encode; mt_wf := wf |}.
#[global] Instance lawful : LawfulMessage t :=
  {| mt_codes := @Empty_codes; mt_settles := @Empty_settles |}.

End Empty.

(** ** Message [OperationResult] *)
Module OperationResult.

(** [interface OperationResult], with the fields the decoder did not know *)
Record t := mk {
  success : bool;
  unknown : list UnknownField
}.

Definition set_success (x : bool) (m : t) : t :=
  mk x m.(unknown).
Definition set_unknown (x : list UnknownField) (m : t) : t :=
  mk m.(success) x.

Definition typeName : jsstr := js "pgapp.v1.OperationResult".

(** [PartialMessage<OperationResult>] and the effect of merging one *)
Record PartialMessage := mkPartial {
  p_success : option bool
}.
#[global] Instance info : MessageInfo t PartialMessage := {|
  overlay m p := mk
    (default m.(success) p.(p_success))
    m.(unknown)
|}.
(** A complete message used as a partial one *)
Definition as_partial (m : t) : PartialMessage :=
  mkPartial (Some m.(success)).

(** The message prototype with every field at its default *)
Definition new : t :=
  mk false [].
Definition create `{RT : BinaryRuntime} (value : option PartialMessage) : t :=
  match value with
  | Some value => reflectionMergePartial info new value
  | None => new
  end.

(** The cases of [internalBinaryRead] *)
Definition switch `{RT : BinaryRuntime} (options : BinaryReadOptions) (fieldNo : Z)
    (wireType : WireType) (message : t) (reader : IBinaryReader) : result (t * IBinaryReader) :=
  match fieldNo with
  | 1 => '(v, reader) ← r_bool reader; Ok (set_success v message, reader)
  | _ =>
      '(u, reader) ← readUnknown options typeName fieldNo wireType message.(unknown) reader;
      Ok (set_unknown u message, reader)
  end.

Definition internalBinaryRead `{RT : BinaryRuntime} (reader : IBinaryReader) (length : Z)
    (options : BinaryReadOptions) (target : option t) : result (t * IBinaryReader) :=
  let message := default (create None) target in
  readLoop (loop_fuel length) (switch options) (r_pos reader + length) message reader.

Definition internalBinaryWrite `{RT : BinaryRuntime} (message : t) (writer : IBinaryWriter)
    (options : BinaryWriteOptions) : result IBinaryWriter :=
  writer ← (if negb (Bool.eqb message.(success) false)
     then w_bool message.(success) (w_tag 1 Varint writer) else Ok writer);
  writeUnknown options typeName message.(unknown) writer.

(** The field table of the constructor, with the values of a message *)
Definition fields (m : t) : list wfield :=
  [FBool 1 m.(success)].
Definition encode (m : t) : bytes := encode_message (fields m) m.(unknown).
Definition wf (m : t) : Prop :=
  forallb ok_field (fields m) = true
  /\ Forall (fun u => wf_unknown u /\ 1 < uf_no u) m.(unknown).

Lemma OperationResult_settles `{L : RuntimeLaws} len o target :
  settles (fun r => internalBinaryRead r len o target).
Proof. apply readLoop_settles. intros no wt m r. unfold switch. split_number no; settle. Qed.
#[global] Hint Resolve OperationResult_settles : pgapp.

Lemma OperationResult_codes `{L : RuntimeLaws} m : wf m ->
  message_codes (fun w => internalBinaryWrite m w defaultWriteOptions)
    (fun r len => internalBinaryRead r len defaultReadOptions None) (encode m) m.
Proof.
  intros (Hf & Hu). codec_open m Hf. apply (message_intro (switch defaultReadOptions)).
  unfold internalBinaryWrite, encode, encode_message, fields. cbn [foldr].
  codec_step.
  codec_reduce. apply (codes_unknown _ unknown set_unknown typeName 1); 
    first [codec_side | codec_default switch].
Qed.

#[global] Instance message_type : MessageType t := {|
  mt_typeName := typeName; mt_new := new; mt_read RT := @internalBinaryRead RT;
  mt_write RT := @internalBinaryWrite RT; mt_encode := encode; mt_wf := wf |}.
#[global] Instance lawful : LawfulMessage t :=
  {| mt_codes := @OperationResult_codes; mt_settles := @OperationResult_settles |}.

End OperationResult.

(** ** Message [ServiceCapability] *)
Module ServiceCapability.

(** [interface ServiceCapability], with the fields the decoder did not know *)
Record t := mk {
  name : jsstr;
  state : number;
  message_ : jsstr;
  unknown : list UnknownField
}.

Definition set_name (x : jsstr) (m : t) : t :=
  mk x m.(state) m.(message_) m.(unknown).
Definition set_state (x : number) (m : t) : t :=
  mk m.(name) x m.(message_) m.(unknown).
Definition set_message (x : jsstr) (m : t) : t :=
  mk m.(name) m.(state) x m.(unknown).
Definition set_unknown (x : list UnknownField) (m : t) : t :=
  mk m.(name) m.(state) m.(message_) x.

Definition typeName : jsstr := js "pgapp.v1.ServiceCapability".

(** [PartialMessage<ServiceCapability>] and the effect of merging one *)
Record PartialMessage := mkPartial {
  p_name : option jsstr;
  p_state : option number;
  p_message : option jsstr
}.
#[global] Instance info : MessageInfo t PartialMessage := {|
  overlay m p := mk
    (default m.(name) p.(p_name))
    (default m.(state) p.(p_state))
    (default m.(message_) p.(p_message))
    m.(unknown)
|}.
(** A complete message used as a partial one *)
Definition as_partial (m : t) : PartialMessage :=
  mkPartial (Some m.(name)) (Some m.(state)) (Some m.(message_)).

(** The message prototype with every field at its default *)
Definition new : t :=
  mk (js "") (Finite 0 0) (js "") [].
Definition create `{RT : BinaryRuntime} (value : option PartialMessage) : t :=
  match value with
  | Some value => reflectionMergePartial info new value
  | None => new
  end.

(** The cases of [internalBinaryRead] *)
Definition switch `{RT : BinaryRuntime} (options : BinaryReadOptions) (fieldNo : Z)
    (wireType : WireType) (message : t) (reader : IBinaryReader) : result (t * IBinaryReader) :=
  match fieldNo with
  | 1 => '(v, reader) ← r_string reader; Ok (set_name v message, reader)
  | 2 => '(v, reader) ← r_int32 reader; Ok (set_state (Num.of_Z v) message, reader)
  | 3 => '(v, reader) ← r_string reader; Ok (set_message v message, reader)
  | _ =>
      '(u, reader) ← readUnknown options typeName fieldNo wireType message.(unknown) reader;
      Ok (set_unknown u message, reader)
  end.

Definition internalBinaryRead `{RT : BinaryRuntime} (reader : IBinaryReader) (length : Z)
    (options : BinaryReadOptions) (target : option t) : result (t * IBinaryReader) :=
  let message := default (create None) target in
  readLoop (loop_fuel length) (switch options) (r_pos reader + length) message reader.

Definition internalBinaryWrite `{RT : BinaryRuntime} (message : t) (writer : IBinaryWriter)
    (options : BinaryWriteOptions) : result IBinaryWriter :=
  writer ← (if negb (bool_decide (message.(name) = js ""))
     then w_string message.(name) (w_tag 1 LengthDelimited writer) else Ok writer);
  writer ← (if negb (Num.eqb message.(state) (Finite 0 0))
     then w_int32 message.(state) (w_tag 2 Varint writer) else Ok writer);
  writer ← (if negb (bool_decide (message.(message_) = js ""))
     then w_string message.(message_) (w_tag 3 LengthDelimited writer) else Ok writer);
  writeUnknown options typeName message.(unknown) writer.

(** The field table of the constructor, with the values of a message *)
Definition fields (m : t) : list wfield :=
  [FString 1 m.(name);
   FInt32 2 m.(state);
   FString 3 m.(message_)].
Definition encode (m : t) : bytes := encode_message (fields m) m.(unknown).
Definition wf (m : t) : Prop :=
  forallb ok_field (fields m) = true
  /\ Forall (fun u => wf_unknown u /\ 3 < uf_no u) m.(unknown).

Lemma ServiceCapability_settles `{L : RuntimeLaws} len o target :
  settles (fun r => internalBinaryRead r len o target).
Proof. apply readLoop_settles. intros no wt m r. unfold switch. split_number no; settle. Qed.
#[global] Hint Resolve ServiceCapability_settles : pgapp.

Lemma ServiceCapability_codes `{L : RuntimeLaws} m : wf m ->
  message_codes (fun w => internalBinaryWrite m w defaultWriteOptions)
    (fun r len => internalBinaryRead r len defaultReadOptions None) (encode m) m.
Proof.
  intros (Hf & Hu). codec_open m Hf. apply (message_intro (switch defaultReadOptions)).
  unfold internalBinaryWrite, encode, encode_message, fields. cbn [foldr].
  do 3 codec_step.
  codec_reduce. apply (codes_unknown _ unknown set_unknown typeName 3); 
    first [codec_side | codec_default switch].
Qed.

#[global] Instance message_type : MessageType t := {|
  mt_typeName := typeName; mt_new := new; mt_read RT := @internalBinaryRead RT;
  mt_write RT := @internalBinaryWrite RT; mt_encode := encode; mt_wf := wf |}.
#[global] Instance lawful : LawfulMessage t :=
  {| mt_codes := @ServiceCapability_codes; mt_settles := @ServiceCapability_settles |}.

End ServiceCapability.
