(* ===== verification/HealthMessages.v ===== *)
(** * Message types of [gen/pgapp/v1/health.ts]

    The health, readiness and runtime-metrics messages.  Each module is one
    generated message type: its interface, [create], [internalBinaryRead] and
    [internalBinaryWrite], the encoding its field table prescribes, and the
    proofs that the type is lawful. *)

From Stdlib Require Import ZArith Lia.
From stdpp Require Import base list numbers option strings.
From S2P Require Import Prelude JsString JsNumber WireFormat ProtoRuntime Codec CommonMessages.

(** ** Message [HealthRequest] *)
Module HealthRequest.

(** [interface HealthRequest], with the fields the decoder did not know *)
Record t := mk {
  unknown : list UnknownField
}.

Definition set_unknown (x : list UnknownField) (m : t) : t :=
  mk x.

Definition typeName : jsstr := js "pgapp.v1.HealthRequest".

Definition PartialMessage := unit.
#[global] Instance info : MessageInfo t PartialMessage := {| overlay m _ := m |}.
Definition as_partial (m : t) : PartialMessage := tt.

(** The message prototype with every field at its default *)
Definition new : t :=
  mk [].
Definition create `{RT : BinaryRuntime} (value : option PartialMessage) : t :=
  match value with
  | Some value => reflectionMergePartial info new value
  | None => new
  end.

(** The cases of [internalBinaryRead] *)
Definition switch `{RT : BinaryRuntime} (options : BinaryReadOptions) (fieldNo : Z)
    (wireType : WireType) (message : t) (reader : IBinaryReader) : result (t * IBinaryReader) :=
  match fieldNo with
  | _ =>
      '(u, reader) ← readUnknown options typeName fieldNo wireType message.(unknown) reader;
      Ok (set_unknown u message, reader)
  end.

Definition internalBinaryRead `{RT : BinaryRuntime} (reader : IBinaryReader) (length : Z)
    (options : BinaryReadOptions) (target : option t) : result (t * IBinaryReader) :=
  let message := default (create None) target in
  readLoop (loop_fuel length) (switch options) (r_pos reader + length) message reader.

Definition internalBinaryWrite `{RT : BinaryRuntime} (message : t) (writer : IBinaryWriter)
    (options : BinaryWriteOptions) : result IBinaryWriter :=
  writeUnknown options typeName message.(unknown) writer.

(** The field table of the constructor, with the values of a message *)
Definition fields (m : t) : list wfield :=
  [].
Definition encode (m : t) : bytes := encode_message (fields m) m.(unknown).
Definition wf (m : t) : Prop :=
  forallb ok_field (fields m) = true
  /\ Forall (fun u => wf_unknown u /\ 0 < uf_no u) m.(unknown).

Lemma HealthRequest_settles `{L : RuntimeLaws} len o target :
  settles (fun r => internalBinaryRead r len o target).
Proof. apply readLoop_settles. intros no wt m r. unfold switch. split_number no; settle. Qed.
#[global] Hint Resolve HealthRequest_settles : pgapp.

Lemma HealthRequest_codes `{L : RuntimeLaws} m : wf m ->
  message_codes (fun w => internalBinaryWrite m w defaultWriteOptions)
    (fun r len => internalBinaryRead r len defaultReadOptions None) (encode m) m.
Proof.
  intros (Hf & Hu). codec_open m Hf. apply (message_intro (switch defaultReadOptions)).
  unfold internalBinaryWrite, encode, encode_message, fields. cbn [foldr].
  codec_reduce. apply (codes_unknown _ unknown set_unknown typeName 0); 
    first [codec_side | codec_default switch].
Qed.

#[global] Instance message_type : MessageType t := {|
  mt_typeName := typeName; mt_new := new; mt_read RT := @internalBinaryRead RT;
  mt_write RT := @internalBinaryWrite RT; mt_encode := encode; mt_wf := wf |}.
#[global] Instance lawful : LawfulMessage t :=
  {| mt_codes := @HealthRequest_codes; mt_settles := @HealthRequest_settles |}.

End HealthRequest.

(** ** Message [HealthResponse] *)
Module HealthResponse.

(** [interface HealthResponse], with the fields the decoder did not know *)
Record t := mk {
  live : bool;
  unknown : list UnknownField
}.

Definition set_live (x : bool) (m : t) : t :=
  mk x m.(unknown).
Definition set_unknown (x : list UnknownField) (m : t) : t :=
  mk m.(live) x.

Definition typeName : jsstr := js "pgapp.v1.HealthResponse".

(** [PartialMessage<HealthResponse>] and the effect of merging one *)
Record PartialMessage := mkPartial {
  p_live : option bool
}.
#[global] Instance info : MessageInfo t PartialMessage := {|
  overlay m p := mk
    (default m.(live) p.(p_live))
    m.(unknown)
|}.
(** A complete message used as a partial one *)
Definition as_partial (m : t) : PartialMessage :=
  mkPartial (Some m.(live)).

(** The message prototype with every field at its default *)
Definition new : t :=
  mk false [].
Definition create `{RT : BinaryRuntime} (value : option PartialMessage) : t :=
  match value with
  | Some value => reflectionMergePartial info new value
  | None => new
  end.

(** The cases of [internalBinaryRead] *)
Definition switch `{RT : BinaryRuntime} (options : BinaryReadOptions) (fieldNo : Z)
    (wireType : WireType) (message : t) (reader : IBinaryReader) : result (t * IBinaryReader) :=
  match fieldNo with
  | 1 => '(v, reader) ← r_bool reader; Ok (set_live v message, reader)
  | _ =>
      '(u, reader) ← readUnknown options typeName fieldNo wireType message.(unknown) reader;
      Ok (set_unknown u message, reader)
  end.

Definition internalBinaryRead `{RT : BinaryRuntime} (reader : IBinaryReader) (length : Z)
    (options : BinaryReadOptions) (target : option t) : result (t * IBinaryReader) :=
  let message := default (create None) target in
  readLoop (loop_fuel length) (switch options) (r_pos reader + length) message reader.

Definition internalBinaryWrite `{RT : BinaryRuntime} (message : t) (writer : IBinaryWriter)
    (options : BinaryWriteOptions) : result IBinaryWriter :=
  writer ← (if negb (Bool.eqb message.(live) false)
     then w_bool message.(live) (w_tag 1 Varint writer) else Ok writer);
  writeUnknown options typeName message.(unknown) writer.

(** The field table of the constructor, with the values of a message *)
Definition fields (m : t) : list wfield :=
  [FBool 1 m.(live)].
Definition encode (m : t) : bytes := encode_message (fields m) m.(unknown).
Definition wf (m : t) : Prop :=
  forallb ok_field (fields m) = true
  /\ Forall (fun u => wf_unknown u /\ 1 < uf_no u) m.(unknown).

Lemma HealthResponse_settles `{L : RuntimeLaws} len o target :
  settles (fun r => internalBinaryRead r len o target).
Proof. apply readLoop_settles. intros no wt m r. unfold switch. split_number no; settle. Qed.
#[global] Hint Resolve HealthResponse_settles : pgapp.

Lemma HealthResponse_codes `{L : RuntimeLaws} m : wf m ->
  message_codes (fun w => internalBinaryWrite m w defaultWriteOptions)
    (fun r len => internalBinaryRead r len defaultReadOptions None) (encode m) m.
Proof.
  intros (Hf & Hu). codec_open m Hf. apply (message_intro (switch defaultReadOptions)).
  unfold internalBinaryWrite, encode, encode_message, fields. cbn [foldr].
  codec_step.
  codec_reduce. apply (codes_unknown _ unknown set_unknown typeName 1); 
    first [codec_side | codec_default switch].
Qed.

#[global] Instance message_type : MessageType t := {|
  mt_typeName := typeName; mt_new := new; mt_read RT := @internalBinaryRead RT;
  mt_write RT := @internalBinaryWrite RT; mt_encode := encode; mt_wf := wf |}.
#[global] Instance lawful : LawfulMessage t :=
  {| mt_codes := @HealthResponse_codes; mt_settles := @HealthResponse_settles |}.

End HealthResponse.

(** ** Message [ReadinessRequest] *)
Module ReadinessRequest.

(** [interface ReadinessRequest], with the fields the decoder did not know *)
Record t := mk {
  unknown : list UnknownField
}.

Definition set_unknown (x : list UnknownField) (m : t) : t :=
  mk x.

Definition typeName : jsstr := js "pgapp.v1.ReadinessRequest".

Definition PartialMessage := unit.
#[global] Instance info : MessageInfo t PartialMessage := {| overlay m _ := m |}.
Definition as_partial (m : t) : PartialMessage := tt.

(** The message prototype with every field at its default *)
Definition new : t :=
  mk [].
Definition create `{RT : BinaryRuntime} (value : option PartialMessage) : t :=
  match value with
  | Some value => reflectionMergePartial info new value
  | None => new
  end.

(** The cases of [internalBinaryRead] *)
Definition switch `{RT : BinaryRuntime} (options : BinaryReadOptions) (fieldNo : Z)
    (wireType : WireType) (message : t) (reader : IBinaryReader) : result (t * IBinaryReader) :=
  match fieldNo with
  | _ =>
      '(u, reader) ← readUnknown options typeName fieldNo wireType message.(unknown) reader;
      Ok (set_unknown u message, reader)
  end.

Definition internalBinaryRead `{RT : BinaryRuntime} (reader : IBinaryReader) (length : Z)
    (options : BinaryReadOptions) (target : option t) : result (t * IBinaryReader) :=
  let message := default (create None) target in
  readLoop (loop_fuel length) (switch options) (r_pos reader + length) message reader.

Definition internalBinaryWrite `{RT : BinaryRuntime} (message : t) (writer : IBinaryWriter)
    (options : BinaryWriteOptions) : result IBinaryWriter :=
  writeUnknown options typeName message.(unknown) writer.

(** The field table of the constructor, with the values of a message *)
Definition fields (m : t) : list wfield :=
  [].
Definition encode (m : t) : bytes := encode_message (fields m) m.(unknown).
Definition wf (m : t) : Prop :=
  forallb ok_field (fields m) = true
  /\ Forall (fun u => wf_unknown u /\ 0 < uf_no u) m.(unknown).

Lemma ReadinessRequest_settles `{L : RuntimeLaws} len o target :
  settles (fun r => internalBinaryRead r len o target).
Proof. apply readLoop_settles. intros no wt m r. unfold switch. split_number no; settle. Qed.
#[global] Hint Resolve ReadinessRequest_settles : pgapp.

Lemma ReadinessRequest_codes `{L : RuntimeLaws} m : wf m ->
  message_codes (fun w => internalBinaryWrite m w defaultWriteOptions)
    (fun r len => internalBinaryRead r len defaultReadOptions None) (encode m) m.
Proof.
  intros (Hf & Hu). codec_open m Hf. apply (message_intro (switch defaultReadOptions)).
  unfold internalBinaryWrite, encode, encode_message, fields. cbn [foldr].
  codec_reduce. apply (codes_unknown _ unknown set_unknown typeName 0); 
    first [codec_side | codec_default switch].
Qed.

#[global] Instance message_type : MessageType t := {|
  mt_typeName := typeName; mt_new := new; mt_read RT := @internalBinaryRead RT;
  mt_write RT := @internalBinaryWrite RT; mt_encode := encode; mt_wf := wf |}.
#[global] Instance lawful : LawfulMessage t :=
  {| mt_codes := @ReadinessRequest_codes; mt_settles := @ReadinessRequest_settles |}.

End ReadinessRequest.

(** ** Message [ReadinessResponse] *)
Module ReadinessResponse.

(** [interface ReadinessResponse], with the fields the decoder did not know *)
Record t := mk {
  ready : bool;
  capabilities : list ServiceCapability.t;
  unknown : list UnknownField
}.

Definition set_ready (x : bool) (m : t) : t :=
  mk x m.(capabilities) m.(unknown).
Definition set_capabilities (x : list ServiceCapability.t) (m : t) : t :=
  mk m.(ready) x m.(unknown).
Definition set_unknown (x : list UnknownField) (m : t) : t :=
  mk m.(ready) m.(capabilities) x.

Definition typeName : jsstr := js "pgapp.v1.ReadinessResponse".

(** [PartialMessage<ReadinessResponse>] and the effect of merging one *)
Record PartialMessage := mkPartial {
  p_ready : option bool;
  p_capabilities : option (list ServiceCapability.PartialMessage)
}.
#[global] Instance info : MessageInfo t PartialMessage := {|
  overlay m p := mk
    (default m.(ready) p.(p_ready))
    (default m.(capabilities) (map (overlay ServiceCapability.new) <$> p.(p_capabilities)))
    m.(unknown)
|}.
(** A complete message used as a partial one *)
Definition as_partial (m : t) : PartialMessage :=
  mkPartial (Some m.(ready)) (Some (map ServiceCapability.as_partial m.(capabilities))).

(** The message prototype with every field at its default *)
Definition new : t :=
  mk false [] [].
Definition create `{RT : BinaryRuntime} (value : option PartialMessage) : t :=
  match value with
  | Some value => reflectionMergePartial info new value
  | None => new
  end.

(** The cases of [internalBinaryRead] *)
Definition switch `{RT : BinaryRuntime} (options : BinaryReadOptions) (fieldNo : Z)
    (wireType : WireType) (message : t) (reader : IBinaryReader) : result (t * IBinaryReader) :=
  match fieldNo with
  | 1 => '(v, reader) ← r_bool reader; Ok (set_ready v message, reader)
  | 2 =>
      '(length, reader) ← r_uint32 reader;
      '(v, reader) ← ServiceCapability.internalBinaryRead reader length options None;
      Ok (set_capabilities (message.(capabilities) ++ [v]) message, reader)
  | _ =>
      '(u, reader) ← readUnknown options typeName fieldNo wireType message.(unknown) reader;
      Ok (set_unknown u message, reader)
  end.

Definition internalBinaryRead `{RT : BinaryRuntime} (reader : IBinaryReader) (length : Z)
    (options : BinaryReadOptions) (target : option t) : result (t * IBinaryReader) :=
  let message := default (create None) target in
  readLoop (loop_fuel length) (switch options) (r_pos reader + length) message reader.

Definition internalBinaryWrite `{RT : BinaryRuntime} (message : t) (writer : IBinaryWriter)
    (options : BinaryWriteOptions) : result IBinaryWriter :=
  writer ← (if negb (Bool.eqb message.(ready) false)
     then w_bool message.(ready) (w_tag 1 Varint writer) else Ok writer);
  writer ← writeEach (fun x writer =>
      writer ← ServiceCapability.internalBinaryWrite x (w_fork (w_tag 2 LengthDelimited writer)) options;
      w_join writer) message.(capabilities) writer;
  writeUnknown options typeName message.(unknown) writer.

(** The field table of the constructor, with the values of a message *)
Definition fields (m : t) : list wfield :=
  [FBool 1 m.(ready);
   FRepMessage 2 (ServiceCapability.encode <$> m.(capabilities))].
Definition encode (m : t) : bytes := encode_message (fields m) m.(unknown).
Definition wf (m : t) : Prop :=
  forallb ok_field (fields m) = true
  /\ Forall ServiceCapability.wf m.(capabilities)
  /\ Forall (fun u => wf_unknown u /\ 2 < uf_no u) m.(unknown).

Lemma ReadinessResponse_settles `{L : RuntimeLaws} len o target :
  settles (fun r => internalBinaryRead r len o target).
Proof. apply readLoop_settles. intros no wt m r. unfold switch. split_number no; settle. Qed.
#[global] Hint Resolve ReadinessResponse_settles : pgapp.

Lemma ReadinessResponse_codes `{L : RuntimeLaws} m : wf m ->
  message_codes (fun w => internalBinaryWrite m w defaultWriteOptions)
    (fun r len => internalBinaryRead r len defaultReadOptions None) (encode m) m.
Proof.
  intros (Hf & Hs0 & Hu). codec_open m Hf. apply (message_intro (switch defaultReadOptions)).
  unfold internalBinaryWrite, encode, encode_message, fields. cbn [foldr].
  codec_step.
  codec_field (codes_rep_message_field (switch defaultReadOptions) capabilities set_capabilities).
  codec_reduce. apply (codes_unknown _ unknown set_unknown typeName 2); 
    first [codec_side | codec_default switch].
Qed.

#[global] Instance message_type : MessageType t := {|
  mt_typeName := typeName; mt_new := new; mt_read RT := @internalBinaryRead RT;
  mt_write RT := @internalBinaryWrite RT; mt_encode := encode; mt_wf := wf |}.
#[global] Instance lawful : LawfulMessage t :=
  {| mt_codes := @ReadinessResponse_codes; mt_settles := @ReadinessResponse_settles |}.

End ReadinessResponse.

(** ** Message [RuntimeMetricsRequest] *)
Module RuntimeMetricsRequest.

(** [interface RuntimeMetricsRequest], with the fields the decoder did not know *)
Record t := mk {
  unknown : list UnknownField
}.

Definition set_unknown (x : list UnknownField) (m : t) : t :=
  mk x.

Definition typeName : jsstr := js "pgapp.v1.RuntimeMetricsRequest".

Definition PartialMessage := unit.
#[global] Instance info : MessageInfo t PartialMessage := {| overlay m _ := m |}.
Definition as_partial (m : t) : PartialMessage := tt.

(** The message prototype with every field at its default *)
Definition new : t :=
  mk [].
Definition create `{RT : BinaryRuntime} (value : option PartialMessage) : t :=
  match value with
  | Some value => reflectionMergePartial info new value
  | None => new
  end.

(** The cases of [internalBinaryRead] *)
Definition switch `{RT : BinaryRuntime} (options : BinaryReadOptions) (fieldNo : Z)
    (wireType : WireType) (message : t) (reader : IBinaryReader) : result (t * IBinaryReader) :=
  match fieldNo with
  | _ =>
      '(u, reader) ← readUnknown options typeName fieldNo wireType message.(unknown) reader;
      Ok (set_unknown u message, reader)
  end.

Definition internalBinaryRead `{RT : BinaryRuntime} (reader : IBinaryReader) (length : Z)
    (options : BinaryReadOptions) (target : option t) : result (t * IBinaryReader) :=
  let message := default (create None) target in
  readLoop (loop_fuel length) (switch options) (r_pos reader + length) message reader.

Definition internalBinaryWrite `{RT : BinaryRuntime} (message : t) (writer : IBinaryWriter)
    (options : BinaryWriteOptions) : result IBinaryWriter :=
  writeUnknown options typeName message.(unknown) writer.

(** The field table of the constructor, with the values of a message *)
Definition fields (m : t) : list wfield :=
  [].
Definition encode (m : t) : bytes := encode_message (fields m) m.(unknown).
Definition wf (m : t) : Prop :=
  forallb ok_field (fields m) = true
  /\ Forall (fun u => wf_unknown u /\ 0 < uf_no u) m.(unknown).

Lemma RuntimeMetricsRequest_settles `{L : RuntimeLaws} len o target :
  settles (fun r => internalBinaryRead r len o target).
Proof. apply readLoop_settles. intros no wt m r. unfold switch. split_number no; settle. Qed.
#[global] Hint Resolve RuntimeMetricsRequest_settles : pgapp.

Lemma RuntimeMetricsRequest_codes `{L : RuntimeLaws} m : wf m ->
  message_codes (fun w => internalBinaryWrite m w defaultWriteOptions)
    (fun r len => internalBinaryRead r len defaultReadOptions None) (encode m) m.
Proof.
  intros (Hf & Hu). codec_open m Hf. apply (message_intro (switch defaultReadOptions)).
  unfold internalBinaryWrite, encode, encode_message, fields. cbn [foldr].
  codec_reduce. apply (codes_unknown _ unknown set_unknown typeName 0); 
    first [codec_side | codec_default switch].
Qed.

#[global] Instance message_type : MessageType t := {|
  mt_typeName := typeName; mt_new := new; mt_read RT := @internalBinaryRead RT;
  mt_write RT := @internalBinaryWrite RT; mt_encode := encode; mt_wf := wf |}.
#[global] Instance lawful : LawfulMessage t :=
  {| mt_codes := @RuntimeMetricsRequest_codes; mt_settles := @RuntimeMetricsRequest_settles |}.

End RuntimeMetricsRequest.

(** ** Message [MethodMetric] *)
Module MethodMetric.

(** [interface MethodMetric], with the fields the decoder did not know *)
Record t := mk {
  service : jsstr;
  method : jsstr;
  status : jsstr;
  count : jsstr;
  errors : jsstr;
  totalLatencyMillis : jsstr;
  unknown : list UnknownField
}.

Definition set_service (x : jsstr) (m : t) : t :=
  mk x m.(method) m.(status) m.(count) m.(errors) m.(totalLatencyMillis) m.(unknown).
Definition set_method (x : jsstr) (m : t) : t :=
  mk m.(service) x m.(status) m.(count) m.(errors) m.(totalLatencyMillis) m.(unknown).
Definition set_status (x : jsstr) (m : t) : t :=
  mk m.(service) m.(method) x m.(count) m.(errors) m.(totalLatencyMillis) m.(unknown).
Definition set_count (x : jsstr) (m : t) : t :=
  mk m.(service) m.(method) m.(status) x m.(errors) m.(totalLatencyMillis) m.(unknown).
Definition set_errors (x : jsstr) (m : t) : t :=
  mk m.(service) m.(method) m.(status) m.(count) x m.(totalLatencyMillis) m.(unknown).
Definition set_totalLatencyMillis (x : jsstr) (m : t) : t :=
  mk m.(service) m.(method) m.(status) m.(count) m.(errors) x m.(unknown).
Definition set_unknown (x : list UnknownField) (m : t) : t :=
  mk m.(service) m.(method) m.(status) m.(count) m.(errors) m.(totalLatencyMillis) x.

Definition typeName : jsstr := js "pgapp.v1.MethodMetric".

(** [PartialMessage<MethodMetric>] and the effect of merging one *)
Record PartialMessage := mkPartial {
  p_service : option jsstr;
  p_method : option jsstr;
  p_status : option jsstr;
  p_count : option jsstr;
  p_errors : option jsstr;
  p_totalLatencyMillis : option jsstr
}.
#[global] Instance info : MessageInfo t PartialMessage := {|
  overlay m p := mk
    (default m.(service) p.(p_service))
    (default m.(method) p.(p_method))
    (default m.(status) p.(p_status))
    (default m.(count) p.(p_count))
    (default m.(errors) p.(p_errors))
    (default m.(totalLatencyMillis) p.(p_totalLatencyMillis))
    m.(unknown)
|}.
(** A complete message used as a partial one *)
Definition as_partial (m : t) : PartialMessage :=
  mkPartial (Some m.(service)) (Some m.(method)) (Some m.(status)) (Some m.(count)) (Some m.(errors)) (Some m.(totalLatencyMillis)).

(** The message prototype with every field at its default *)
Definition new : t :=
  mk (js "") (js "") (js "") (js "0") (js "0") (js "0") [].
Definition create `{RT : BinaryRuntime} (value : option PartialMessage) : t :=
  match value with
  | Some value => reflectionMergePartial info new value
  | None => new
  end.

(** The cases of [internalBinaryRead] *)
Definition switch `{RT : BinaryRuntime} (options : BinaryReadOptions) (fieldNo : Z)
    (wireType : WireType) (message : t) (reader : IBinaryReader) : result (t * IBinaryReader) :=
  match fieldNo with
  | 1 => '(v, reader) ← r_string reader; Ok (set_service v message, reader)
  | 2 => '(v, reader) ← r_string reader; Ok (set_method v message, reader)
  | 3 => '(v, reader) ← r_string reader; Ok (set_status v message, reader)
  | 4 => '(v, reader) ← r_uint64_string reader; Ok (set_count v message, reader)
  | 5 => '(v, reader) ← r_uint64_string reader; Ok (set_errors v message, reader)
  | 6 => '(v, reader) ← r_uint64_string reader; Ok (set_totalLatencyMillis v message, reader)
  | _ =>
      '(u, reader) ← readUnknown options typeName fieldNo wireType message.(unknown) reader;
      Ok (set_unknown u message, reader)
  end.

Definition internalBinaryRead `{RT : BinaryRuntime} (reader : IBinaryReader) (length : Z)
    (options : BinaryReadOptions) (target : option t) : result (t * IBinaryReader) :=
  let message := default (create None) target in
  readLoop (loop_fuel length) (switch options) (r_pos reader + length) message reader.

Definition internalBinaryWrite `{RT : BinaryRuntime} (message : t) (writer : IBinaryWriter)
    (options : BinaryWriteOptions) : result IBinaryWriter :=
  writer ← (if negb (bool_decide (message.(service) = js ""))
     then w_string message.(service) (w_tag 1 LengthDelimited writer) else Ok writer);
  writer ← (if negb (bool_decide (message.(method) = js ""))
     then w_string message.(method) (w_tag 2 LengthDelimited writer) else Ok writer);
  writer ← (if negb (bool_decide (message.(status) = js ""))
     then w_string message.(status) (w_tag 3 LengthDelimited writer) else Ok writer);
  writer ← (if negb (bool_decide (message.(count) = js "0"))
     then w_uint64 message.(count) (w_tag 4 Varint writer) else Ok writer);
  writer ← (if negb (bool_decide (message.(errors) = js "0"))
     then w_uint64 message.(errors) (w_tag 5 Varint writer) else Ok writer);
  writer ← (if negb (bool_decide (message.(totalLatencyMillis) = js "0"))
     then w_uint64 message.(totalLatencyMillis) (w_tag 6 Varint writer) else Ok writer);
  writeUnknown options typeName message.(unknown) writer.

(** The field table of the constructor, with the values of a message *)
Definition fields (m : t) : list wfield :=
  [FString 1 m.(service);
   FString 2 m.(method);
   FString 3 m.(status);
   FUint64 4 m.(count);
   FUint64 5 m.(errors);
   FUint64 6 m.(totalLatencyMillis)].
Definition encode (m : t) : bytes := encode_message (fields m) m.(unknown).
Definition wf (m : t) : Prop :=
  forallb ok_field (fields m) = true
  /\ Forall (fun u => wf_unknown u /\ 6 < uf_no u) m.(unknown).

Lemma MethodMetric_settles `{L : RuntimeLaws} len o target :
  settles (fun r => internalBinaryRead r len o target).
Proof. apply readLoop_settles. intros no wt m r. unfold switch. split_number no; settle. Qed.
#[global] Hint Resolve MethodMetric_settles : pgapp.

Lemma MethodMetric_codes `{L : RuntimeLaws} m : wf m ->
  message_codes (fun w => internalBinaryWrite m w defaultWriteOptions)
    (fun r len => internalBinaryRead r len defaultReadOptions None) (encode m) m.
Proof.
  intros (Hf & Hu). codec_open m Hf. apply (message_intro (switch defaultReadOptions)).
  unfold internalBinaryWrite, encode, encode_message, fields. cbn [foldr].
  do 6 codec_step.
  codec_reduce. apply (codes_unknown _ unknown set_unknown typeName 6); 
    first [codec_side | codec_default switch].
Qed.

#[global] Instance message_type : MessageType t := {|
  mt_typeName := typeName; mt_new := new; mt_read RT := @internalBinaryRead RT;
  mt_write RT := @internalBinaryWrite RT; mt_encode := encode; mt_wf := wf |}.
#[global] Instance lawful : LawfulMessage t :=
  {| mt_codes := @MethodMetric_codes; mt_settles := @MethodMetric_settles |}.

End MethodMetric.

(** ** Message [PgPoolMetrics] *)
Module PgPoolMetrics.

(** [interface PgPoolMetrics], with the fields the decoder did not know *)
Record t := mk {
  size : number;
  idle : number;
  unknown : list UnknownField
}.

Definition set_size (x : number) (m : t) : t :=
  mk x m.(idle) m.(unknown).
Definition set_idle (x : number) (m : t) : t :=
  mk m.(size) x m.(unknown).
Definition set_unknown (x : list UnknownField) (m : t) : t :=
  mk m.(size) m.(idle) x.

Definition typeName : jsstr := js "pgapp.v1.PgPoolMetrics".

(** [PartialMessage<PgPoolMetrics>] and the effect of merging one *)
Record PartialMessage := mkPartial {
  p_size : option number;
  p_idle : option number
}.
#[global] Instance info : MessageInfo t PartialMessage := {|
  overlay m p := mk
    (default m.(size) p.(p_size))
    (default m.(idle) p.(p_idle))
    m.(unknown)
|}.
(** A complete message used as a partial one *)
Definition as_partial (m : t) : PartialMessage :=
  mkPartial (Some m.(size)) (Some m.(idle)).

(** The message prototype with every field at its default *)
Definition new : t :=
  mk (Finite 0 0) (Finite 0 0) [].
Definition create `{RT : BinaryRuntime} (value : option PartialMessage) : t :=
  match value with
  | Some value => reflectionMergePartial info new value
  | None => new
  end.

(** The cases of [internalBinaryRead] *)
Definition switch `{RT : BinaryRuntime} (options : BinaryReadOptions) (fieldNo : Z)
    (wireType : WireType) (message : t) (reader : IBinaryReader) : result (t * IBinaryReader) :=
  match fieldNo with
  | 1 => '(v, reader) ← r_uint32 reader; Ok (set_size (Num.of_Z v) message, reader)
  | 2 => '(v, reader) ← r_uint32 reader; Ok (set_idle (Num.of_Z v) message, reader)
  | _ =>
      '(u, reader) ← readUnknown options typeName fieldNo wireType message.(unknown) reader;
      Ok (set_unknown u message, reader)
  end.

Definition internalBinaryRead `{RT : BinaryRuntime} (reader : IBinaryReader) (length : Z)
    (options : BinaryReadOptions) (target : option t) : result (t * IBinaryReader) :=
  let message := default (create None) target in
  readLoop (loop_fuel length) (switch options) (r_pos reader + length) message reader.

Definition internalBinaryWrite `{RT : BinaryRuntime} (message : t) (writer : IBinaryWriter)
    (options : BinaryWriteOptions) : result IBinaryWriter :=
  writer ← (if negb (Num.eqb message.(size) (Finite 0 0))
     then w_uint32 message.(size) (w_tag 1 Varint writer) else Ok writer);
  writer ← (if negb (Num.eqb message.(idle) (Finite 0 0))
     then w_uint32 message.(idle) (w_tag 2 Varint writer) else Ok writer);
  writeUnknown options typeName message.(unknown) writer.

(** The field table of the constructor, with the values of a message *)
Definition fields (m : t) : list wfield :=
  [FUint32 1 m.(size);
   FUint32 2 m.(idle)].
Definition encode (m : t) : bytes := encode_message (fields m) m.(unknown).
Definition wf (m : t) : Prop :=
  forallb ok_field (fields m) = true
  /\ Forall (fun u => wf_unknown u /\ 2 < uf_no u) m.(unknown).

Lemma PgPoolMetrics_settles `{L : RuntimeLaws} len o target :
  settles (fun r => internalBinaryRead r len o target).
Proof. apply readLoop_settles. intros no wt m r. unfold switch. split_number no; settle. Qed.
#[global] Hint Resolve PgPoolMetrics_settles : pgapp.

Lemma PgPoolMetrics_codes `{L : RuntimeLaws} m : wf m ->
  message_codes (fun w => internalBinaryWrite m w defaultWriteOptions)
    (fun r len => internalBinaryRead r len defaultReadOptions None) (encode m) m.
Proof.
  intros (Hf & Hu). codec_open m Hf. apply (message_intro (switch defaultReadOptions)).
  unfold internalBinaryWrite, encode, encode_message, fields. cbn [foldr].
  do 2 codec_step.
  codec_reduce. apply (codes_unknown _ unknown set_unknown typeName 2); 
    first [codec_side | codec_default switch].
Qed.

#[global] Instance message_type : MessageType t := {|
  mt_typeName := typeName; mt_new := new; mt_read RT := @internalBinaryRead RT;
  mt_write RT := @internalBinaryWrite RT; mt_encode := encode; mt_wf := wf |}.
#[global] Instance lawful : LawfulMessage t :=
  {| mt_codes := @PgPoolMetrics_codes; mt_settles := @PgPoolMetrics_settles |}.

End PgPoolMetrics.

(** ** Message [RuntimeMetricsResponse] *)
Module RuntimeMetricsResponse.

(** [interface RuntimeMetricsResponse], with the fields the decoder did not know *)
Record t := mk {
  methods : list MethodMetric.t;
  pgPool : option PgPoolMetrics.t;
  unknown : list UnknownField
}.

Definition set_methods (x : list MethodMetric.t) (m : t) : t :=
  mk x m.(pgPool) m.(unknown).
Definition set_pgPool (x : option PgPoolMetrics.t) (m : t) : t :=
  mk m.(methods) x m.(unknown).
Definition set_unknown (x : list UnknownField) (m : t) : t :=
  mk m.(methods) m.(pgPool) x.

Definition typeName : jsstr := js "pgapp.v1.RuntimeMetricsResponse".

(** [PartialMessage<RuntimeMetricsResponse>] and the effect of merging one *)
Record PartialMessage := mkPartial {
  p_methods : option (list MethodMetric.PartialMessage);
  p_pgPool : option PgPoolMetrics.PartialMessage
}.
#[global] Instance info : MessageInfo t PartialMessage := {|
  overlay m p := mk
    (default m.(methods) (map (overlay MethodMetric.new) <$> p.(p_methods)))
    (match p.(p_pgPool) with Some q => Some (overlay (default PgPoolMetrics.new m.(pgPool)) q) | None => m.(pgPool) end)
    m.(unknown)
|}.
(** A complete message used as a partial one *)
Definition as_partial (m : t) : PartialMessage :=
  mkPartial (Some (map MethodMetric.as_partial m.(methods))) (PgPoolMetrics.as_partial <$> m.(pgPool)).

(** The message prototype with every field at its default *)
Definition new : t :=
  mk [] None [].
Definition create `{RT : BinaryRuntime} (value : option PartialMessage) : t :=
  match value with
  | Some value => reflectionMergePartial info new value
  | None => new
  end.

(** The cases of [internalBinaryRead] *)
Definition switch `{RT : BinaryRuntime} (options : BinaryReadOptions) (fieldNo : Z)
    (wireType : WireType) (message : t) (reader : IBinaryReader) : result (t * IBinaryReader) :=
  match fieldNo with
  | 1 =>
      '(length, reader) ← r_uint32 reader;
      '(v, reader) ← MethodMetric.internalBinaryRead reader length options None;
      Ok (set_methods (message.(methods) ++ [v]) message, reader)
  | 2 =>
      '(length, reader) ← r_uint32 reader;
      '(v, reader) ← PgPoolMetrics.internalBinaryRead reader length options message.(pgPool);
      Ok (set_pgPool (Some v) message, reader)
  | _ =>
      '(u, reader) ← readUnknown options typeName fieldNo wireType message.(unknown) reader;
      Ok (set_unknown u message, reader)
  end.

Definition internalBinaryRead `{RT : BinaryRuntime} (reader : IBinaryReader) (length : Z)
    (options : BinaryReadOptions) (target : option t) : result (t * IBinaryReader) :=
  let message := default (create None) target in
  readLoop (loop_fuel length) (switch options) (r_pos reader + length) message reader.

Definition internalBinaryWrite `{RT : BinaryRuntime} (message : t) (writer : IBinaryWriter)
    (options : BinaryWriteOptions) : result IBinaryWriter :=
  writer ← writeEach (fun x writer =>
      writer ← MethodMetric.internalBinaryWrite x (w_fork (w_tag 1 LengthDelimited writer)) options;
      w_join writer) message.(methods) writer;
  writer ← (match message.(pgPool) with
     | Some x =>
         writer ← PgPoolMetrics.internalBinaryWrite x (w_fork (w_tag 2 LengthDelimited writer)) options;
         w_join writer
     | None => Ok writer end);
  writeUnknown options typeName message.(unknown) writer.

(** The field table of the constructor, with the values of a message *)
Definition fields (m : t) : list wfield :=
  [FRepMessage 1 (MethodMetric.encode <$> m.(methods));
   FMessage 2 (PgPoolMetrics.encode <$> m.(pgPool))].
Definition encode (m : t) : bytes := encode_message (fields m) m.(unknown).
Definition wf (m : t) : Prop :=
  forallb ok_field (fields m) = true
  /\ Forall MethodMetric.wf m.(methods)
  /\ from_option PgPoolMetrics.wf True m.(pgPool)
  /\ Forall (fun u => wf_unknown u /\ 2 < uf_no u) m.(unknown).

Lemma RuntimeMetricsResponse_settles `{L : RuntimeLaws} len o target :
  settles (fun r => internalBinaryRead r len o target).
Proof. apply readLoop_settles. intros no wt m r. unfold switch. split_number no; settle. Qed.
#[global] Hint Resolve RuntimeMetricsResponse_settles : pgapp.

Lemma RuntimeMetricsResponse_codes `{L : RuntimeLaws} m : wf m ->
  message_codes (fun w => internalBinaryWrite m w defaultWriteOptions)
    (fun r len => internalBinaryRead r len defaultReadOptions None) (encode m) m.
Proof.
  intros (Hf & Hs0 & Hs1 & Hu). codec_open m Hf. apply (message_intro (switch defaultReadOptions)).
  unfold internalBinaryWrite, encode, encode_message, fields. cbn [foldr].
  codec_field (codes_rep_message_field (switch defaultReadOptions) methods set_methods).
  codec_field (codes_message_field (switch defaultReadOptions) pgPool set_pgPool).
  codec_reduce. apply (codes_unknown _ unknown set_unknown typeName 2); 
    first [codec_side | codec_default switch].
Qed.

#[global] Instance message_type : MessageType t := {|
  mt_typeName := typeName; mt_new := new; mt_read RT := @internalBinaryRead RT;
  mt_write RT := @internalBinaryWrite RT; mt_encode := encode; mt_wf := wf |}.
#[global] Instance lawful : LawfulMessage t :=
  {| mt_codes := @RuntimeMetricsResponse_codes; mt_settles := @RuntimeMetricsResponse_settles |}.

End RuntimeMetricsResponse.
