(* ===== verification/CacheMessages.v ===== *)
(** * Message types of [gen/pgapp/v1/cache.ts]

    The requests and responses of the cache service.  Each module is one
    generated message type: its interface, [create], [internalBinaryRead] and
    [internalBinaryWrite], the encoding its field table prescribes, and the
    proofs that the type is lawful. *)

From Stdlib Require Import ZArith Lia.
From stdpp Require Import base list numbers option strings.
From S2P Require Import Prelude JsString JsNumber WireFormat ProtoRuntime Codec CommonMessages.

(** ** Message [SetCacheRequest] *)
Module SetCacheRequest.

(** [interface SetCacheRequest], with the fields the decoder did not know *)
Record t := mk {
  namespace : jsstr;
  key : jsstr;
  value : bytes;
  ttlSeconds : jsstr;
  unknown : list UnknownField
}.

Definition set_namespace (x : jsstr) (m : t) : t :=
  mk x m.(key) m.(value) m.(ttlSeconds) m.(unknown).
Definition set_key (x : jsstr) (m : t) : t :=
  mk m.(namespace) x m.(value) m.(ttlSeconds) m.(unknown).
Definition set_value (x : bytes) (m : t) : t :=
  mk m.(namespace) m.(key) x m.(ttlSeconds) m.(unknown).
Definition set_ttlSeconds (x : jsstr) (m : t) : t :=
  mk m.(namespace) m.(key) m.(value) x m.(unknown).
Definition set_unknown (x : list UnknownField) (m : t) : t :=
  mk m.(namespace) m.(key) m.(value) m.(ttlSeconds) x.

Definition typeName : jsstr := js "pgapp.v1.SetCacheRequest".

(** [PartialMessage<SetCacheRequest>] and the effect of merging one *)
Record PartialMessage := mkPartial {
  p_namespace : option jsstr;
  p_key : option jsstr;
  p_value : option bytes;
  p_ttlSeconds : option jsstr
}.
#[global] Instance info : MessageInfo t PartialMessage := {|
  overlay m p := mk
    (default m.(namespace) p.(p_namespace))
    (default m.(key) p.(p_key))
    (default m.(value) p.(p_value))
    (default m.(ttlSeconds) p.(p_ttlSeconds))
    m.(unknown)
|}.
(** A complete message used as a partial one *)
Definition as_partial (m : t) : PartialMessage :=
  mkPartial (Some m.(namespace)) (Some m.(key)) (Some m.(value)) (Some m.(ttlSeconds)).

(** The message prototype with every field at its default *)
Definition new : t :=
  mk (js "") (js "") [] (js "0") [].
Definition create `{RT : BinaryRuntime} (value : option PartialMessage) : t :=
  match value with
  | Some value => reflectionMergePartial info new value
  | None => new
  end.

(** The cases of [internalBinaryRead] *)
Definition switch `{RT : BinaryRuntime} (options : BinaryReadOptions) (fieldNo : Z)
    (wireType : WireType) (message : t) (reader : IBinaryReader) : result (t * IBinaryReader) :=
  match fieldNo with
  | 1 => '(v, reader) ← r_string reader; Ok (set_namespace v message, reader)
  | 2 => '(v, reader) ← r_string reader; Ok (set_key v message, reader)
  | 3 => '(v, reader) ← r_bytes reader; Ok (set_value v message, reader)
  | 4 => '(v, reader) ← r_int64_string reader; Ok (set_ttlSeconds v message, reader)
  | _ =>
      '(u, reader) ← readUnknown options typeName fieldNo wireType message.(unknown) reader;
      Ok (set_unknown u message, reader)
  end.

Definition internalBinaryRead `{RT : BinaryRuntime} (reader : IBinaryReader) (length : Z)
    (options : BinaryReadOptions) (target : option t) : result (t * IBinaryReader) :=
  let message := default (create None) target in
  readLoop (loop_fuel length) (switch options) (r_pos reader + length) message reader.

Definition internalBinaryWrite `{RT : BinaryRuntime} (message : t) (writer : IBinaryWriter)
    (options : BinaryWriteOptions) : result IBinaryWriter :=
  writer ← (if negb (bool_decide (message.(namespace) = js ""))
     then w_string message.(namespace) (w_tag 1 LengthDelimited writer) else Ok writer);
  writer ← (if negb (bool_decide (message.(key) = js ""))
     then w_string message.(key) (w_tag 2 LengthDelimited writer) else Ok writer);
  writer ← (if negb (Nat.eqb (length message.(value)) 0)
     then w_bytes message.(value) (w_tag 3 LengthDelimited writer) else Ok writer);
  writer ← (if negb (bool_decide (message.(ttlSeconds) = js "0"))
     then w_int64 message.(ttlSeconds) (w_tag 4 Varint writer) else Ok writer);
  writeUnknown options typeName message.(unknown) writer.

(** The field table of the constructor, with the values of a message *)
Definition fields (m : t) : list wfield :=
  [FString 1 m.(namespace);
   FString 2 m.(key);
   FBytes 3 m.(value);
   FInt64 4 m.(ttlSeconds)].
Definition encode (m : t) : bytes := encode_message (fields m) m.(unknown).
Definition wf (m : t) : Prop :=
  forallb ok_field (fields m) = true
  /\ Forall (fun u => wf_unknown u /\ 4 < uf_no u) m.(unknown).

Lemma SetCacheRequest_settles `{L : RuntimeLaws} len o target :
  settles (fun r => internalBinaryRead r len o target).
Proof. apply readLoop_settles. intros no wt m r. unfold switch. split_number no; settle. Qed.
#[global] Hint Resolve SetCacheRequest_settles : pgapp.

Lemma SetCacheRequest_codes `{L : RuntimeLaws} m : wf m ->
  message_codes (fun w => internalBinaryWrite m w defaultWriteOptions)
    (fun r len => internalBinaryRead r len defaultReadOptions None) (encode m) m.
Proof.
  intros (Hf & Hu). codec_open m Hf. apply (message_intro (switch defaultReadOptions)).
  unfold internalBinaryWrite, encode, encode_message, fields. cbn [foldr].
  do 4 codec_step.
  codec_reduce. apply (codes_unknown _ unknown set_unknown typeName 4); 
    first [codec_side | codec_default switch].
Qed.

#[global] Instance message_type : MessageType t := {|
  mt_typeName := typeName; mt_new := new; mt_read RT := @internalBinaryRead RT;
  mt_write RT := @internalBinaryWrite RT; mt_encode := encode; mt_wf := wf |}.
#[global] Instance lawful : LawfulMessage t :=
  {| mt_codes := @SetCacheRequest_codes; mt_settles := @SetCacheRequest_settles |}.

End SetCacheRequest.

(** ** Message [GetCacheRequest] *)
Module GetCacheRequest.

(** [interface GetCacheRequest], with the fields the decoder did not know *)
Record t := mk {
  namespace : jsstr;
  key : jsstr;
  unknown : list UnknownField
}.

Definition set_namespace (x : jsstr) (m : t) : t :=
  mk x m.(key) m.(unknown).
Definition set_key (x : jsstr) (m : t) : t :=
  mk m.(namespace) x m.(unknown).
Definition set_unknown (x : list UnknownField) (m : t) : t :=
  mk m.(namespace) m.(key) x.

Definition typeName : jsstr := js "pgapp.v1.GetCacheRequest".

(** [PartialMessage<GetCacheRequest>] and the effect of merging one *)
Record PartialMessage := mkPartial {
  p_namespace : option jsstr;
  p_key : option jsstr
}.
#[global] Instance info : MessageInfo t PartialMessage := {|
  overlay m p := mk
    (default m.(namespace) p.(p_namespace))
    (default m.(key) p.(p_key))
    m.(unknown)
|}.
(** A complete message used as a partial one *)
Definition as_partial (m : t) : PartialMessage :=
  mkPartial (Some m.(namespace)) (Some m.(key)).

(** The message prototype with every field at its default *)
Definition new : t :=
  mk (js "") (js "") [].
Definition create `{RT : BinaryRuntime} (value : option PartialMessage) : t :=
  match value with
  | Some value => reflectionMergePartial info new value
  | None => new
  end.

(** The cases of [internalBinaryRead] *)
Definition switch `{RT : BinaryRuntime} (options : BinaryReadOptions) (fieldNo : Z)
    (wireType : WireType) (message : t) (reader : IBinaryReader) : result (t * IBinaryReader) :=
  match fieldNo with
  | 1 => '(v, reader) ← r_string reader; Ok (set_namespace v message, reader)
  | 2 => '(v, reader) ← r_string reader; Ok (set_key v message, reader)
  | _ =>
      '(u, reader) ← readUnknown options typeName fieldNo wireType message.(unknown) reader;
      Ok (set_unknown u message, reader)
  end.

Definition internalBinaryRead `{RT : BinaryRuntime} (reader : IBinaryReader) (length : Z)
    (options : BinaryReadOptions) (target : option t) : result (t * IBinaryReader) :=
  let message := default (create None) target in
  readLoop (loop_fuel length) (switch options) (r_pos reader + length) message reader.

Definition internalBinaryWrite `{RT : BinaryRuntime} (message : t) (writer : IBinaryWriter)
    (options : BinaryWriteOptions) : result IBinaryWriter :=
  writer ← (if negb (bool_decide (message.(namespace) = js ""))
     then w_string message.(namespace) (w_tag 1 LengthDelimited writer) else Ok writer);
  writer ← (if negb (bool_decide (message.(key) = js ""))
     then w_string message.(key) (w_tag 2 LengthDelimited writer) else Ok writer);
  writeUnknown options typeName message.(unknown) writer.

(** The field table of the constructor, with the values of a message *)
Definition fields (m : t) : list wfield :=
  [FString 1 m.(namespace);
   FString 2 m.(key)].
Definition encode (m : t) : bytes := encode_message (fields m) m.(unknown).
Definition wf (m : t) : Prop :=
  forallb ok_field (fields m) = true
  /\ Forall (fun u => wf_unknown u /\ 2 < uf_no u) m.(unknown).

Lemma GetCacheRequest_settles `{L : RuntimeLaws} len o target :
  settles (fun r => internalBinaryRead r len o target).
Proof. apply readLoop_settles. intros no wt m r. unfold switch. split_number no; settle. Qed.
#[global] Hint Resolve GetCacheRequest_settles : pgapp.

Lemma GetCacheRequest_codes `{L : RuntimeLaws} m : wf m ->
  message_codes (fun w => internalBinaryWrite m w defaultWriteOptions)
    (fun r len => internalBinaryRead r len defaultReadOptions None) (encode m) m.
Proof.
  intros (Hf & Hu). codec_open m Hf. apply (message_intro (switch defaultReadOptions)).
  unfold internalBinaryWrite, encode, encode_message, fields. cbn [foldr].
  do 2 codec_step.
  codec_reduce. apply (codes_unknown _ unknown set_unknown typeName 2); 
    first [codec_side | codec_default switch].
Qed.

#[global] Instance message_type : MessageType t := {|
  mt_typeName := typeName; mt_new := new; mt_read RT := @internalBinaryRead RT;
  mt_write RT := @internalBinaryWrite RT; mt_encode := encode; mt_wf := wf |}.
#[global] Instance lawful : LawfulMessage t :=
  {| mt_codes := @GetCacheRequest_codes; mt_settles := @GetCacheRequest_settles |}.

End GetCacheRequest.

(** ** Message [GetCacheResponse] *)
Module GetCacheResponse.

(** [interface GetCacheResponse], with the fields the decoder did not know *)
Record t := mk {
  hit : bool;
  value : bytes;
  unknown : list UnknownField
}.

Definition set_hit (x : bool) (m : t) : t :=
  mk x m.(value) m.(unknown).
Definition set_value (x : bytes) (m : t) : t :=
  mk m.(hit) x m.(unknown).
Definition set_unknown (x : list UnknownField) (m : t) : t :=
  mk m.(hit) m.(value) x.

Definition typeName : jsstr := js "pgapp.v1.GetCacheResponse".

(** [PartialMessage<GetCacheResponse>] and the effect of merging one *)
Record PartialMessage := mkPartial {
  p_hit : option bool;
  p_value : option bytes
}.
#[global] Instance info : MessageInfo t PartialMessage := {|
  overlay m p := mk
    (default m.(hit) p.(p_hit))
    (default m.(value) p.(p_value))
    m.(unknown)
|}.
(** A complete message used as a partial one *)
Definition as_partial (m : t) : PartialMessage :=
  mkPartial (Some m.(hit)) (Some m.(value)).

(** The message prototype with every field at its default *)
Definition new : t :=
  mk false [] [].
Definition create `{RT : BinaryRuntime} (value : option PartialMessage) : t :=
  match value with
  | Some value => reflectionMergePartial info new value
  | None => new
  end.

(** The cases of [internalBinaryRead] *)
Definition switch `{RT : BinaryRuntime} (options : BinaryReadOptions) (fieldNo : Z)
    (wireType : WireType) (message : t) (reader : IBinaryReader) : result (t * IBinaryReader) :=
  match fieldNo with
  | 1 => '(v, reader) ← r_bool reader; Ok (set_hit v message, reader)
  | 2 => '(v, reader) ← r_bytes reader; Ok (set_value v message, reader)
  | _ =>
      '(u, reader) ← readUnknown options typeName fieldNo wireType message.(unknown) reader;
      Ok (set_unknown u message, reader)
  end.

Definition internalBinaryRead `{RT : BinaryRuntime} (reader : IBinaryReader) (length : Z)
    (options : BinaryReadOptions) (target : option t) : result (t * IBinaryReader) :=
  let message := default (create None) target in
  readLoop (loop_fuel length) (switch options) (r_pos reader + length) message reader.

Definition internalBinaryWrite `{RT : BinaryRuntime} (message : t) (writer : IBinaryWriter)
    (options : BinaryWriteOptions) : result IBinaryWriter :=
  writer ← (if negb (Bool.eqb message.(hit) false)
     then w_bool message.(hit) (w_tag 1 Varint writer) else Ok writer);
  writer ← (if negb (Nat.eqb (length message.(value)) 0)
     then w_bytes message.(value) (w_tag 2 LengthDelimited writer) else Ok writer);
  writeUnknown options typeName message.(unknown) writer.

(** The field table of the constructor, with the values of a message *)
Definition fields (m : t) : list wfield :=
  [FBool 1 m.(hit);
   FBytes 2 m.(value)].
Definition encode (m : t) : bytes := encode_message (fields m) m.(unknown).
Definition wf (m : t) : Prop :=
  forallb ok_field (fields m) = true
  /\ Forall (fun u => wf_unknown u /\ 2 < uf_no u) m.(unknown).

Lemma GetCacheResponse_settles `{L : RuntimeLaws} len o target :
  settles (fun r => internalBinaryRead r len o target).
Proof. apply readLoop_settles. intros no wt m r. unfold switch. split_number no; settle. Qed.
#[global] Hint Resolve GetCacheResponse_settles : pgapp.

Lemma GetCacheResponse_codes `{L : RuntimeLaws} m : wf m ->
  message_codes (fun w => internalBinaryWrite m w defaultWriteOptions)
    (fun r len => internalBinaryRead r len defaultReadOptions None) (encode m) m.
Proof.
  intros (Hf & Hu). codec_open m Hf. apply (message_intro (switch defaultReadOptions)).
  unfold internalBinaryWrite, encode, encode_message, fields. cbn [foldr].
  do 2 codec_step.
  codec_reduce. apply (codes_unknown _ unknown set_unknown typeName 2); 
    first [codec_side | codec_default switch].
Qed.

#[global] Instance message_type : MessageType t := {|
  mt_typeName := typeName; mt_new := new; mt_read RT := @internalBinaryRead RT;
  mt_write RT := @internalBinaryWrite RT; mt_encode := encode; mt_wf := wf |}.
#[global] Instance lawful : LawfulMessage t :=
  {| mt_codes := @GetCacheResponse_codes; mt_settles := @GetCacheResponse_settles |}.

End GetCacheResponse.

(** ** Message [MGetCacheRequest] *)
Module MGetCacheRequest.

(** [interface MGetCacheRequest], with the fields the decoder did not know *)
Record t := mk {
  namespace : jsstr;
  keys : list jsstr;
  unknown : list UnknownField
}.

Definition set_namespace (x : jsstr) (m : t) : t :=
  mk x m.(keys) m.(unknown).
Definition set_keys (x : list jsstr) (m : t) : t :=
  mk m.(namespace) x m.(unknown).
Definition set_unknown (x : list UnknownField) (m : t) : t :=
  mk m.(namespace) m.(keys) x.

Definition typeName : jsstr := js "pgapp.v1.MGetCacheRequest".

(** [PartialMessage<MGetCacheRequest>] and the effect of merging one *)
Record PartialMessage := mkPartial {
  p_namespace : option jsstr;
  p_keys : option (list jsstr)
}.
#[global] Instance info : MessageInfo t PartialMessage := {|
  overlay m p := mk
    (default m.(namespace) p.(p_namespace))
    (default m.(keys) p.(p_keys))
    m.(unknown)
|}.
(** A complete message used as a partial one *)
Definition as_partial (m : t) : PartialMessage :=
  mkPartial (Some m.(namespace)) (Some m.(keys)).

(** The message prototype with every field at its default *)
Definition new : t :=
  mk (js "") [] [].
Definition create `{RT : BinaryRuntime} (value : option PartialMessage) : t :=
  match value with
  | Some value => reflectionMergePartial info new value
  | None => new
  end.

(** The cases of [internalBinaryRead] *)
Definition switch `{RT : BinaryRuntime} (options : BinaryReadOptions) (fieldNo : Z)
    (wireType : WireType) (message : t) (reader : IBinaryReader) : result (t * IBinaryReader) :=
  match fieldNo with
  | 1 => '(v, reader) ← r_string reader; Ok (set_namespace v message, reader)
  | 2 => '(v, reader) ← r_string reader; Ok (set_keys (message.(keys) ++ [v]) message, reader)
  | _ =>
      '(u, reader) ← readUnknown options typeName fieldNo wireType message.(unknown) reader;
      Ok (set_unknown u message, reader)
  end.

Definition internalBinaryRead `{RT : BinaryRuntime} (reader : IBinaryReader) (length : Z)
    (options : BinaryReadOptions) (target : option t) : result (t * IBinaryReader) :=
  let message := default (create None) target in
  readLoop (loop_fuel length) (switch options) (r_pos reader + length) message reader.

Definition internalBinaryWrite `{RT : BinaryRuntime} (message : t) (writer : IBinaryWriter)
    (options : BinaryWriteOptions) : result IBinaryWriter :=
  writer ← (if negb (bool_decide (message.(namespace) = js ""))
     then w_string message.(namespace) (w_tag 1 LengthDelimited writer) else Ok writer);
  writer ← writeEach (fun x writer => w_string x (w_tag 2 LengthDelimited writer)) message.(keys) writer;
  writeUnknown options typeName message.(unknown) writer.

(** The field table of the constructor, with the values of a message *)
Definition fields (m : t) : list wfield :=
  [FString 1 m.(namespace);
   FRepString 2 m.(keys)].
Definition encode (m : t) : bytes := encode_message (fields m) m.(unknown).
Definition wf (m : t) : Prop :=
  forallb ok_field (fields m) = true
  /\ Forall (fun u => wf_unknown u /\ 2 < uf_no u) m.(unknown).

Lemma MGetCacheRequest_settles `{L : RuntimeLaws} len o target :
  settles (fun r => internalBinaryRead r len o target).
Proof. apply readLoop_settles. intros no wt m r. unfold switch. split_number no; settle. Qed.
#[global] Hint Resolve MGetCacheRequest_settles : pgapp.

Lemma MGetCacheRequest_codes `{L : RuntimeLaws} m : wf m ->
  message_codes (fun w => internalBinaryWrite m w defaultWriteOptions)
    (fun r len => internalBinaryRead r len defaultReadOptions None) (encode m) m.
Proof.
  intros (Hf & Hu). codec_open m Hf. apply (message_intro (switch defaultReadOptions)).
  unfold internalBinaryWrite, encode, encode_message, fields. cbn [foldr].
  codec_step.
  codec_field (codes_rep_string (switch defaultReadOptions) keys set_keys).
  codec_reduce. apply (codes_unknown _ unknown set_unknown typeName 2); 
    first [codec_side | codec_default switch].
Qed.

#[global] Instance message_type : MessageType t := {|
  mt_typeName := typeName; mt_new := new; mt_read RT := @internalBinaryRead RT;
  mt_write RT := @internalBinaryWrite RT; mt_encode := encode; mt_wf := wf |}.
#[global] Instance lawful : LawfulMessage t :=
  {| mt_codes := @MGetCacheRequest_codes; mt_settles := @MGetCacheRequest_settles |}.

End MGetCacheRequest.

(** ** Message [CacheItem] *)
Module CacheItem.

(** [interface CacheItem], with the fields the decoder did not know *)
Record t := mk {
  key : jsstr;
  hit : bool;
  value : bytes;
  unknown : list UnknownField
}.

Definition set_key (x : jsstr) (m : t) : t :=
  mk x m.(hit) m.(value) m.(unknown).
Definition set_hit (x : bool) (m : t) : t :=
  mk m.(key) x m.(value) m.(unknown).
Definition set_value (x : bytes) (m : t) : t :=
  mk m.(key) m.(hit) x m.(unknown).
Definition set_unknown (x : list UnknownField) (m : t) : t :=
  mk m.(key) m.(hit) m.(value) x.

Definition typeName : jsstr := js "pgapp.v1.CacheItem".

(** [PartialMessage<CacheItem>] and the effect of merging one *)
Record PartialMessage := mkPartial {
  p_key : option jsstr;
  p_hit : option bool;
  p_value : option bytes
}.
#[global] Instance info : MessageInfo t PartialMessage := {|
  overlay m p := mk
    (default m.(key) p.(p_key))
    (default m.(hit) p.(p_hit))
    (default m.(value) p.(p_value))
    m.(unknown)
|}.
(** A complete message used as a partial one *)
Definition as_partial (m : t) : PartialMessage :=
  mkPartial (Some m.(key)) (Some m.(hit)) (Some m.(value)).

(** The message prototype with every field at its default *)
Definition new : t :=
  mk (js "") false [] [].
Definition create `{RT : BinaryRuntime} (value : option PartialMessage) : t :=
  match value with
  | Some value => reflectionMergePartial info new value
  | None => new
  end.

(** The cases of [internalBinaryRead] *)
Definition switch `{RT : BinaryRuntime} (options : BinaryReadOptions) (fieldNo : Z)
    (wireType : WireType) (message : t) (reader : IBinaryReader) : result (t * IBinaryReader) :=
  match fieldNo with
  | 1 => '(v, reader) ← r_string reader; Ok (set_key v message, reader)
  | 2 => '(v, reader) ← r_bool reader; Ok (set_hit v message, reader)
  | 3 => '(v, reader) ← r_bytes reader; Ok (set_value v message, reader)
  | _ =>
      '(u, reader) ← readUnknown options typeName fieldNo wireType message.(unknown) reader;
      Ok (set_unknown u message, reader)
  end.

Definition internalBinaryRead `{RT : BinaryRuntime} (reader : IBinaryReader) (length : Z)
    (options : BinaryReadOptions) (target : option t) : result (t * IBinaryReader) :=
  let message := default (create None) target in
  readLoop (loop_fuel length) (switch options) (r_pos reader + length) message reader.

Definition internalBinaryWrite `{RT : BinaryRuntime} (message : t) (writer : IBinaryWriter)
    (options : BinaryWriteOptions) : result IBinaryWriter :=
  writer ← (if negb (bool_decide (message.(key) = js ""))
     then w_string message.(key) (w_tag 1 LengthDelimited writer) else Ok writer);
  writer ← (if negb (Bool.eqb message.(hit) false)
     then w_bool message.(hit) (w_tag 2 Varint writer) else Ok writer);
  writer ← (if negb (Nat.eqb (length message.(value)) 0)
     then w_bytes message.(value) (w_tag 3 LengthDelimited writer) else Ok writer);
  writeUnknown options typeName message.(unknown) writer.

(** The field table of the constructor, with the values of a message *)
Definition fields (m : t) : list wfield :=
  [FString 1 m.(key);
   FBool 2 m.(hit);
   FBytes 3 m.(value)].
Definition encode (m : t) : bytes := encode_message (fields m) m.(unknown).
Definition wf (m : t) : Prop :=
  forallb ok_field (fields m) = true
  /\ Forall (fun u => wf_unknown u /\ 3 < uf_no u) m.(unknown).

Lemma CacheItem_settles `{L : RuntimeLaws} len o target :
  settles (fun r => internalBinaryRead r len o target).
Proof. apply readLoop_settles. intros no wt m r. unfold switch. split_number no; settle. Qed.
#[global] Hint Resolve CacheItem_settles : pgapp.

Lemma CacheItem_codes `{L : RuntimeLaws} m : wf m ->
  message_codes (fun w => internalBinaryWrite m w defaultWriteOptions)
    (fun r len => internalBinaryRead r len defaultReadOptions None) (encode m) m.
Proof.
  intros (Hf & Hu). codec_open m Hf. apply (message_intro (switch defaultReadOptions)).
  unfold internalBinaryWrite, encode, encode_message, fields. cbn [foldr].
  do 3 codec_step.
  codec_reduce. apply (codes_unknown _ unknown set_unknown typeName 3); 
    first [codec_side | codec_default switch].
Qed.

#[global] Instance message_type : MessageType t := {|
  mt_typeName := typeName; mt_new := new; mt_read RT := @internalBinaryRead RT;
  mt_write RT := @internalBinaryWrite RT; mt_encode := encode; mt_wf := wf |}.
#[global] Instance lawful : LawfulMessage t :=
  {| mt_codes := @CacheItem_codes; mt_settles := @CacheItem_settles |}.

End CacheItem.

(** ** Message [MGetCacheResponse] *)
Module MGetCacheResponse.

(** [interface MGetCacheResponse], with the fields the decoder did not know *)
Record t := mk {
  items : list CacheItem.t;
  unknown : list UnknownField
}.

Definition set_items (x : list CacheItem.t) (m : t) : t :=
  mk x m.(unknown).
Definition set_unknown (x : list UnknownField) (m : t) : t :=
  mk m.(items) x.

Definition typeName : jsstr := js "pgapp.v1.MGetCacheResponse".

(** [PartialMessage<MGetCacheResponse>] and the effect of merging one *)
Record PartialMessage := mkPartial {
  p_items : option (list CacheItem.PartialMessage)
}.
#[global] Instance info : MessageInfo t PartialMessage := {|
  overlay m p := mk
    (default m.(items) (map (overlay CacheItem.new) <$> p.(p_items)))
    m.(unknown)
|}.
(** A complete message used as a partial one *)
Definition as_partial (m : t) : PartialMessage :=
  mkPartial (Some (map CacheItem.as_partial m.(items))).

(** The message prototype with every field at its default *)
Definition new : t :=
  mk [] [].
Definition create `{RT : BinaryRuntime} (value : option PartialMessage) : t :=
  match value with
  | Some value => reflectionMergePartial info new value
  | None => new
  end.

(** The cases of [internalBinaryRead] *)
Definition switch `{RT : BinaryRuntime} (options : BinaryReadOptions) (fieldNo : Z)
    (wireType : WireType) (message : t) (reader : IBinaryReader) : result (t * IBinaryReader) :=
  match fieldNo with
  | 1 =>
      '(length, reader) ← r_uint32 reader;
      '(v, reader) ← CacheItem.internalBinaryRead reader length options None;
      Ok (set_items (message.(items) ++ [v]) message, reader)
  | _ =>
      '(u, reader) ← readUnknown options typeName fieldNo wireType message.(unknown) reader;
      Ok (set_unknown u message, reader)
  end.

Definition internalBinaryRead `{RT : BinaryRuntime} (reader : IBinaryReader) (length : Z)
    (options : BinaryReadOptions) (target : option t) : result (t * IBinaryReader) :=
  let message := default (create None) target in
  readLoop (loop_fuel length) (switch options) (r_pos reader + length) message reader.

Definition internalBinaryWrite `{RT : BinaryRuntime} (message : t) (writer : IBinaryWriter)
    (options : BinaryWriteOptions) : result IBinaryWriter :=
  writer ← writeEach (fun x writer =>
      writer ← CacheItem.internalBinaryWrite x (w_fork (w_tag 1 LengthDelimited writer)) options;
      w_join writer) message.(items) writer;
  writeUnknown options typeName message.(unknown) writer.

(** The field table of the constructor, with the values of a message *)
Definition fields (m : t) : list wfield :=
  [FRepMessage 1 (CacheItem.encode <$> m.(items))].
Definition encode (m : t) : bytes := encode_message (fields m) m.(unknown).
Definition wf (m : t) : Prop :=
  forallb ok_field (fields m) = true
  /\ Forall CacheItem.wf m.(items)
  /\ Forall (fun u => wf_unknown u /\ 1 < uf_no u) m.(unknown).

Lemma MGetCacheResponse_settles `{L : RuntimeLaws} len o target :
  settles (fun r => internalBinaryRead r len o target).
Proof. apply readLoop_settles. intros no wt m r. unfold switch. split_number no; settle. Qed.
#[global] Hint Resolve MGetCacheResponse_settles : pgapp.

Lemma MGetCacheResponse_codes `{L : RuntimeLaws} m : wf m ->
  message_codes (fun w => internalBinaryWrite m w defaultWriteOptions)
    (fun r len => internalBinaryRead r len defaultReadOptions None) (encode m) m.
Proof.
  intros (Hf & Hs0 & Hu). codec_open m Hf. apply (message_intro (switch defaultReadOptions)).
  unfold internalBinaryWrite, encode, encode_message, fields. cbn [foldr].
  codec_field (codes_rep_message_field (switch defaultReadOptions) items set_items).
  codec_reduce. apply (codes_unknown _ unknown set_unknown typeName 1); 
    first [codec_side | codec_default switch].
Qed.

#[global] Instance message_type : MessageType t := {|
  mt_typeName := typeName; mt_new := new; mt_read RT := @internalBinaryRead RT;
  mt_write RT := @internalBinaryWrite RT; mt_encode := encode; mt_wf := wf |}.
#[global] Instance lawful : LawfulMessage t :=
  {| mt_codes := @MGetCacheResponse_codes; mt_settles := @MGetCacheResponse_settles |}.

End MGetCacheResponse.

(** ** Message [DeleteCacheRequest] *)
Module DeleteCacheRequest.

(** [interface DeleteCacheRequest], with the fields the decoder did not know *)
Record t := mk {
  namespace : jsstr;
  key : jsstr;
  unknown : list UnknownField
}.

Definition set_namespace (x : jsstr) (m : t) : t :=
  mk x m.(key) m.(unknown).
Definition set_key (x : jsstr) (m : t) : t :=
  mk m.(namespace) x m.(unknown).
Definition set_unknown (x : list UnknownField) (m : t) : t :=
  mk m.(namespace) m.(key) x.

Definition typeName : jsstr := js "pgapp.v1.DeleteCacheRequest".

(** [PartialMessage<DeleteCacheRequest>] and the effect of merging one *)
Record PartialMessage := mkPartial {
  p_namespace : option jsstr;
  p_key : option jsstr
}.
#[global] Instance info : MessageInfo t PartialMessage := {|
  overlay m p := mk
    (default m.(namespace) p.(p_namespace))
    (default m.(key) p.(p_key))
    m.(unknown)
|}.
(** A complete message used as a partial one *)
Definition as_partial (m : t) : PartialMessage :=
  mkPartial (Some m.(namespace)) (Some m.(key)).

(** The message prototype with every field at its default *)
Definition new : t :=
  mk (js "") (js "") [].
Definition create `{RT : BinaryRuntime} (value : option PartialMessage) : t :=
  match value with
  | Some value => reflectionMergePartial info new value
  | None => new
  end.

(** The cases of [internalBinaryRead] *)
Definition switch `{RT : BinaryRuntime} (options : BinaryReadOptions) (fieldNo : Z)
    (wireType : WireType) (message : t) (reader : IBinaryReader) : result (t * IBinaryReader) :=
  match fieldNo with
  | 1 => '(v, reader) ← r_string reader; Ok (set_namespace v message, reader)
  | 2 => '(v, reader) ← r_string reader; Ok (set_key v message, reader)
  | _ =>
      '(u, reader) ← readUnknown options typeName fieldNo wireType message.(unknown) reader;
      Ok (set_unknown u message, reader)
  end.

Definition internalBinaryRead `{RT : BinaryRuntime} (reader : IBinaryReader) (length : Z)
    (options : BinaryReadOptions) (target : option t) : result (t * IBinaryReader) :=
  let message := default (create None) target in
  readLoop (loop_fuel length) (switch options) (r_pos reader + length) message reader.

Definition internalBinaryWrite `{RT : BinaryRuntime} (message : t) (writer : IBinaryWriter)
    (options : BinaryWriteOptions) : result IBinaryWriter :=
  writer ← (if negb (bool_decide (message.(namespace) = js ""))
     then w_string message.(namespace) (w_tag 1 LengthDelimited writer) else Ok writer);
  writer ← (if negb (bool_decide (message.(key) = js ""))
     then w_string message.(key) (w_tag 2 LengthDelimited writer) else Ok writer);
  writeUnknown options typeName message.(unknown) writer.

(** The field table of the constructor, with the values of a message *)
Definition fields (m : t) : list wfield :=
  [FString 1 m.(namespace);
   FString 2 m.(key)].
Definition encode (m : t) : bytes := encode_message (fields m) m.(unknown).
Definition wf (m : t) : Prop :=
  forallb ok_field (fields m) = true
  /\ Forall (fun u => wf_unknown u /\ 2 < uf_no u) m.(unknown).

Lemma DeleteCacheRequest_settles `{L : RuntimeLaws} len o target :
  settles (fun r => internalBinaryRead r len o target).
Proof. apply readLoop_settles. intros no wt m r. unfold switch. split_number no; settle. Qed.
#[global] Hint Resolve DeleteCacheRequest_settles : pgapp.

Lemma DeleteCacheRequest_codes `{L : RuntimeLaws} m : wf m ->
  message_codes (fun w => internalBinaryWrite m w defaultWriteOptions)
    (fun r len => internalBinaryRead r len defaultReadOptions None) (encode m) m.
Proof.
  intros (Hf & Hu). codec_open m Hf. apply (message_intro (switch defaultReadOptions)).
  unfold internalBinaryWrite, encode, encode_message, fields. cbn [foldr].
  do 2 codec_step.
  codec_reduce. apply (codes_unknown _ unknown set_unknown typeName 2); 
    first [codec_side | codec_default switch].
Qed.

#[global] Instance message_type : MessageType t := {|
  mt_typeName := typeName; mt_new := new; mt_read RT := @internalBinaryRead RT;
  mt_write RT := @internalBinaryWrite RT; mt_encode := encode; mt_wf := wf |}.
#[global] Instance lawful : LawfulMessage t :=
  {| mt_codes := @DeleteCacheRequest_codes; mt_settles := @DeleteCacheRequest_settles |}.

End DeleteCacheRequest.

(** ** Message [ExistsCacheRequest] *)
Module ExistsCacheRequest.

(** [interface ExistsCacheRequest], with the fields the decoder did not know *)
Record t := mk {
  namespace : jsstr;
  key : jsstr;
  unknown : list UnknownField
}.

Definition set_namespace (x : jsstr) (m : t) : t :=
  mk x m.(key) m.(unknown).
Definition set_key (x : jsstr) (m : t) : t :=
  mk m.(namespace) x m.(unknown).
Definition set_unknown (x : list UnknownField) (m : t) : t :=
  mk m.(namespace) m.(key) x.

Definition typeName : jsstr := js "pgapp.v1.ExistsCacheRequest".

(** [PartialMessage<ExistsCacheRequest>] and the effect of merging one *)
Record PartialMessage := mkPartial {
  p_namespace : option jsstr;
  p_key : option jsstr
}.
#[global] Instance info : MessageInfo t PartialMessage := {|
  overlay m p := mk
    (default m.(namespace) p.(p_namespace))
    (default m.(key) p.(p_key))
    m.(unknown)
|}.
(** A complete message used as a partial one *)
Definition as_partial (m : t) : PartialMessage :=
  mkPartial (Some m.(namespace)) (Some m.(key)).

(** The message prototype with every field at its default *)
Definition new : t :=
  mk (js "") (js "") [].
Definition create `{RT : BinaryRuntime} (value : option PartialMessage) : t :=
  match value with
  | Some value => reflectionMergePartial info new value
  | None => new
  end.

(** The cases of [internalBinaryRead] *)
Definition switch `{RT : BinaryRuntime} (options : BinaryReadOptions) (fieldNo : Z)
    (wireType : WireType) (message : t) (reader : IBinaryReader) : result (t * IBinaryReader) :=
  match fieldNo with
  | 1 => '(v, reader) ← r_string reader; Ok (set_namespace v message, reader)
  | 2 => '(v, reader) ← r_string reader; Ok (set_key v message, reader)
  | _ =>
      '(u, reader) ← readUnknown options typeName fieldNo wireType message.(unknown) reader;
      Ok (set_unknown u message, reader)
  end.

Definition internalBinaryRead `{RT : BinaryRuntime} (reader : IBinaryReader) (length : Z)
    (options : BinaryReadOptions) (target : option t) : result (t * IBinaryReader) :=
  let message := default (create None) target in
  readLoop (loop_fuel length) (switch options) (r_pos reader + length) message reader.

Definition internalBinaryWrite `{RT : BinaryRuntime} (message : t) (writer : IBinaryWriter)
    (options : BinaryWriteOptions) : result IBinaryWriter :=
  writer ← (if negb (bool_decide (message.(namespace) = js ""))
     then w_string message.(namespace) (w_tag 1 LengthDelimited writer) else Ok writer);
  writer ← (if negb (bool_decide (message.(key) = js ""))
     then w_string message.(key) (w_tag 2 LengthDelimited writer) else Ok writer);
  writeUnknown options typeName message.(unknown) writer.

(** The field table of the constructor, with the values of a message *)
Definition fields (m : t) : list wfield :=
  [FString 1 m.(namespace);
   FString 2 m.(key)].
Definition encode (m : t) : bytes := encode_message (fields m) m.(unknown).
Definition wf (m : t) : Prop :=
  forallb ok_field (fields m) = true
  /\ Forall (fun u => wf_unknown u /\ 2 < uf_no u) m.(unknown).

Lemma ExistsCacheRequest_settles `{L : RuntimeLaws} len o target :
  settles (fun r => internalBinaryRead r len o target).
Proof. apply readLoop_settles. intros no wt m r. unfold switch. split_number no; settle. Qed.
#[global] Hint Resolve ExistsCacheRequest_settles : pgapp.

Lemma ExistsCacheRequest_codes `{L : RuntimeLaws} m : wf m ->
  message_codes (fun w => internalBinaryWrite m w defaultWriteOptions)
    (fun r len => internalBinaryRead r len defaultReadOptions None) (encode m) m.
Proof.
  intros (Hf & Hu). codec_open m Hf. apply (message_intro (switch defaultReadOptions)).
  unfold internalBinaryWrite, encode, encode_message, fields. cbn [foldr].
  do 2 codec_step.
  codec_reduce. apply (codes_unknown _ unknown set_unknown typeName 2); 
    first [codec_side | codec_default switch].
Qed.

#[global] Instance message_type : MessageType t := {|
  mt_typeName := typeName; mt_new := new; mt_read RT := @internalBinaryRead RT;
  mt_write RT := @internalBinaryWrite RT; mt_encode := encode; mt_wf := wf |}.
#[global] Instance lawful : LawfulMessage t :=
  {| mt_codes := @ExistsCacheRequest_codes; mt_settles := @ExistsCacheRequest_settles |}.

End ExistsCacheRequest.

(** ** Message [ExistsCacheResponse] *)
Module ExistsCacheResponse.

(** [interface ExistsCacheResponse], with the fields the decoder did not know *)
Record t := mk {
  exists_ : bool;
  unknown : list UnknownField
}.

Definition set_exists (x : bool) (m : t) : t :=
  mk x m.(unknown).
Definition set_unknown (x : list UnknownField) (m : t) : t :=
  mk m.(exists_) x.

Definition typeName : jsstr := js "pgapp.v1.ExistsCacheResponse".

(** [PartialMessage<ExistsCacheResponse>] and the effect of merging one *)
Record PartialMessage := mkPartial {
  p_exists : option bool
}.
#[global] Instance info : MessageInfo t PartialMessage := {|
  overlay m p := mk
    (default m.(exists_) p.(p_exists))
    m.(unknown)
|}.
(** A complete message used as a partial one *)
Definition as_partial (m : t) : PartialMessage :=
  mkPartial (Some m.(exists_)).

(** The message prototype with every field at its default *)
Definition new : t :=
  mk false [].
Definition create `{RT : BinaryRuntime} (value : option PartialMessage) : t :=
  match value with
  | Some value => reflectionMergePartial info new value
  | None => new
  end.

(** The cases of [internalBinaryRead] *)
Definition switch `{RT : BinaryRuntime} (options : BinaryReadOptions) (fieldNo : Z)
    (wireType : WireType) (message : t) (reader : IBinaryReader) : result (t * IBinaryReader) :=
  match fieldNo with
  | 1 => '(v, reader) ← r_bool reader; Ok (set_exists v message, reader)
  | _ =>
      '(u, reader) ← readUnknown options typeName fieldNo wireType message.(unknown) reader;
      Ok (set_unknown u message, reader)
  end.

Definition internalBinaryRead `{RT : BinaryRuntime} (reader : IBinaryReader) (length : Z)
    (options : BinaryReadOptions) (target : option t) : result (t * IBinaryReader) :=
  let message := default (create None) target in
  readLoop (loop_fuel length) (switch options) (r_pos reader + length) message reader.

Definition internalBinaryWrite `{RT : BinaryRuntime} (message : t) (writer : IBinaryWriter)
    (options : BinaryWriteOptions) : result IBinaryWriter :=
  writer ← (if negb (Bool.eqb message.(exists_) false)
     then w_bool message.(exists_) (w_tag 1 Varint writer) else Ok writer);
  writeUnknown options typeName message.(unknown) writer.

(** The field table of the constructor, with the values of a message *)
Definition fields (m : t) : list wfield :=
  [FBool 1 m.(exists_)].
Definition encode (m : t) : bytes := encode_message (fields m) m.(unknown).
Definition wf (m : t) : Prop :=
  forallb ok_field (fields m) = true
  /\ Forall (fun u => wf_unknown u /\ 1 < uf_no u) m.(unknown).

Lemma ExistsCacheResponse_settles `{L : RuntimeLaws} len o target :
  settles (fun r => internalBinaryRead r len o target).
Proof. apply readLoop_settles. intros no wt m r. unfold switch. split_number no; settle. Qed.
#[global] Hint Resolve ExistsCacheResponse_settles : pgapp.

Lemma ExistsCacheResponse_codes `{L : RuntimeLaws} m : wf m ->
  message_codes (fun w => internalBinaryWrite m w defaultWriteOptions)
    (fun r len => internalBinaryRead r len defaultReadOptions None) (encode m) m.
Proof.
  intros (Hf & Hu). codec_open m Hf. apply (message_intro (switch defaultReadOptions)).
  unfold internalBinaryWrite, encode, encode_message, fields. cbn [foldr].
  codec_step.
  codec_reduce. apply (codes_unknown _ unknown set_unknown typeName 1); 
    first [codec_side | codec_default switch].
Qed.

#[global] Instance message_type : MessageType t := {|
  mt_typeName := typeName; mt_new := new; mt_read RT := @internalBinaryRead RT;
  mt_write RT := @internalBinaryWrite RT; mt_encode := encode; mt_wf := wf |}.
#[global] Instance lawful : LawfulMessage t :=
  {| mt_codes := @ExistsCacheResponse_codes; mt_settles := @ExistsCacheResponse_settles |}.

End ExistsCacheResponse.

(** ** Message [InvalidateNamespaceRequest] *)
Module InvalidateNamespaceRequest.

(** [interface InvalidateNamespaceRequest], with the fields the decoder did not know *)
Record t := mk {
  namespace : jsstr;
  unknown : list UnknownField
}.

Definition set_namespace (x : jsstr) (m : t) : t :=
  mk x m.(unknown).
Definition set_unknown (x : list UnknownField) (m : t) : t :=
  mk m.(namespace) x.

Definition typeName : jsstr := js "pgapp.v1.InvalidateNamespaceRequest".

(** [PartialMessage<InvalidateNamespaceRequest>] and the effect of merging one *)
Record PartialMessage := mkPartial {
  p_namespace : option jsstr
}.
#[global] Instance info : MessageInfo t PartialMessage := {|
  overlay m p := mk
    (default m.(namespace) p.(p_namespace))
    m.(unknown)
|}.
(** A complete message used as a partial one *)
Definition as_partial (m : t) : PartialMessage :=
  mkPartial (Some m.(namespace)).

(** The message prototype with every field at its default *)
Definition new : t :=
  mk (js "") [].
Definition create `{RT : BinaryRuntime} (value : option PartialMessage) : t :=
  match value with
  | Some value => reflectionMergePartial info new value
  | None => new
  end.

(** The cases of [internalBinaryRead] *)
Definition switch `{RT : BinaryRuntime} (options : BinaryReadOptions) (fieldNo : Z)
    (wireType : WireType) (message : t) (reader : IBinaryReader) : result (t * IBinaryReader) :=
  match fieldNo with
  | 1 => '(v, reader) ← r_string reader; Ok (set_namespace v message, reader)
  | _ =>
      '(u, reader) ← readUnknown options typeName fieldNo wireType message.(unknown) reader;
      Ok (set_unknown u message, reader)
  end.

Definition internalBinaryRead `{RT : BinaryRuntime} (reader : IBinaryReader) (length : Z)
    (options : BinaryReadOptions) (target : option t) : result (t * IBinaryReader) :=
  let message := default (create None) target in
  readLoop (loop_fuel length) (switch options) (r_pos reader + length) message reader.

Definition internalBinaryWrite `{RT : BinaryRuntime} (message : t) (writer : IBinaryWriter)
    (options : BinaryWriteOptions) : result IBinaryWriter :=
  writer ← (if negb (bool_decide (message.(namespace) = js ""))
     then w_string message.(namespace) (w_tag 1 LengthDelimited writer) else Ok writer);
  writeUnknown options typeName message.(unknown) writer.

(** The field table of the constructor, with the values of a message *)
Definition fields (m : t) : list wfield :=
  [FString 1 m.(namespace)].
Definition encode (m : t) : bytes := encode_message (fields m) m.(unknown).
Definition wf (m : t) : Prop :=
  forallb ok_field (fields m) = true
  /\ Forall (fun u => wf_unknown u /\ 1 < uf_no u) m.(unknown).

Lemma InvalidateNamespaceRequest_settles `{L : RuntimeLaws} len o target :
  settles (fun r => internalBinaryRead r len o target).
Proof. apply readLoop_settles. intros no wt m r. unfold switch. split_number no; settle. Qed.
#[global] Hint Resolve InvalidateNamespaceRequest_settles : pgapp.

Lemma InvalidateNamespaceRequest_codes `{L : RuntimeLaws} m : wf m ->
  message_codes (fun w => internalBinaryWrite m w defaultWriteOptions)
    (fun r len => internalBinaryRead r len defaultReadOptions None) (encode m) m.
Proof.
  intros (Hf & Hu). codec_open m Hf. apply (message_intro (switch defaultReadOptions)).
  unfold internalBinaryWrite, encode, encode_message, fields. cbn [foldr].
  codec_step.
  codec_reduce. apply (codes_unknown _ unknown set_unknown typeName 1); 
    first [codec_side | codec_default switch].
Qed.

#[global] Instance message_type : MessageType t := {|
  mt_typeName := typeName; mt_new := new; mt_read RT := @internalBinaryRead RT;
  mt_write RT := @internalBinaryWrite RT; mt_encode := encode; mt_wf := wf |}.
#[global] Instance lawful : LawfulMessage t :=
  {| mt_codes := @InvalidateNamespaceRequest_codes; mt_settles := @InvalidateNamespaceRequest_settles |}.

End InvalidateNamespaceRequest.

(** ** Message [CacheStatsRequest] *)
Module CacheStatsRequest.

(** [interface CacheStatsRequest], with the fields the decoder did not know *)
Record t := mk {
  unknown : list UnknownField
}.

Definition set_unknown (x : list UnknownField) (m : t) : t :=
  mk x.

Definition typeName : jsstr := js "pgapp.v1.CacheStatsRequest".

Definition PartialMessage := unit.
#[global] Instance info : MessageInfo t PartialMessage := {| overlay m _ := m |}.
Definition as_partial (m : t) : PartialMessage := tt.

(** The message prototype with every field at its default *)
Definition new : t :=
  mk [].
Definition create `{RT : BinaryRuntime} (value : option PartialMessage) : t :=
  match value with
  | Some value => reflectionMergePartial info new value
  | None => new
  end.

(** The cases of [internalBinaryRead] *)
Definition switch `{RT : BinaryRuntime} (options : BinaryReadOptions) (fieldNo : Z)
    (wireType : WireType) (message : t) (reader : IBinaryReader) : result (t * IBinaryReader) :=
  match fieldNo with
  | _ =>
      '(u, reader) ← readUnknown options typeName fieldNo wireType message.(unknown) reader;
      Ok (set_unknown u message, reader)
  end.

Definition internalBinaryRead `{RT : BinaryRuntime} (reader : IBinaryReader) (length : Z)
    (options : BinaryReadOptions) (target : option t) : result (t * IBinaryReader) :=
  let message := default (create None) target in
  readLoop (loop_fuel length) (switch options) (r_pos reader + length) message reader.

Definition internalBinaryWrite `{RT : BinaryRuntime} (message : t) (writer : IBinaryWriter)
    (options : BinaryWriteOptions) : result IBinaryWriter :=
  writeUnknown options typeName message.(unknown) writer.

(** The field table of the constructor, with the values of a message *)
Definition fields (m : t) : list wfield :=
  [].
Definition encode (m : t) : bytes := encode_message (fields m) m.(unknown).
Definition wf (m : t) : Prop :=
  forallb ok_field (fields m) = true
  /\ Forall (fun u => wf_unknown u /\ 0 < uf_no u) m.(unknown).

Lemma CacheStatsRequest_settles `{L : RuntimeLaws} len o target :
  settles (fun r => internalBinaryRead r len o target).
Proof. apply readLoop_settles. intros no wt m r. unfold switch. split_number no; settle. Qed.
#[global] Hint Resolve CacheStatsRequest_settles : pgapp.

Lemma CacheStatsRequest_codes `{L : RuntimeLaws} m : wf m ->
  message_codes (fun w => internalBinaryWrite m w defaultWriteOptions)
    (fun r len => internalBinaryRead r len defaultReadOptions None) (encode m) m.
Proof.
  intros (Hf & Hu). codec_open m Hf. apply (message_intro (switch defaultReadOptions)).
  unfold internalBinaryWrite, encode, encode_message, fields. cbn [foldr].
  codec_reduce. apply (codes_unknown _ unknown set_unknown typeName 0); 
    first [codec_side | codec_default switch].
Qed.

#[global] Instance message_type : MessageType t := {|
  mt_typeName := typeName; mt_new := new; mt_read RT := @internalBinaryRead RT;
  mt_write RT := @internalBinaryWrite RT; mt_encode := encode; mt_wf := wf |}.
#[global] Instance lawful : LawfulMessage t :=
  {| mt_codes := @CacheStatsRequest_codes; mt_settles := @CacheStatsRequest_settles |}.

End CacheStatsRequest.

(** ** Message [NamespaceUsage] *)
Module NamespaceUsage.

(** [interface NamespaceUsage], with the fields the decoder did not know *)
Record t := mk {
  namespace : jsstr;
  keyCount : jsstr;
  byteSize : jsstr;
  unknown : list UnknownField
}.

Definition set_namespace (x : jsstr) (m : t) : t :=
  mk x m.(keyCount) m.(byteSize) m.(unknown).
Definition set_keyCount (x : jsstr) (m : t) : t :=
  mk m.(namespace) x m.(byteSize) m.(unknown).
Definition set_byteSize (x : jsstr) (m : t) : t :=
  mk m.(namespace) m.(keyCount) x m.(unknown).
Definition set_unknown (x : list UnknownField) (m : t) : t :=
  mk m.(namespace) m.(keyCount) m.(byteSize) x.

Definition typeName : jsstr := js "pgapp.v1.NamespaceUsage".

(** [PartialMessage<NamespaceUsage>] and the effect of merging one *)
Record PartialMessage := mkPartial {
  p_namespace : option jsstr;
  p_keyCount : option jsstr;
  p_byteSize : option jsstr
}.
#[global] Instance info : MessageInfo t PartialMessage := {|
  overlay m p := mk
    (default m.(namespace) p.(p_namespace))
    (default m.(keyCount) p.(p_keyCount))
    (default m.(byteSize) p.(p_byteSize))
    m.(unknown)
|}.
(** A complete message used as a partial one *)
Definition as_partial (m : t) : PartialMessage :=
  mkPartial (Some m.(namespace)) (Some m.(keyCount)) (Some m.(byteSize)).

(** The message prototype with every field at its default *)
Definition new : t :=
  mk (js "") (js "0") (js "0") [].
Definition create `{RT : BinaryRuntime} (value : option PartialMessage) : t :=
  match value with
  | Some value => reflectionMergePartial info new value
  | None => new
  end.

(** The cases of [internalBinaryRead] *)
Definition switch `{RT : BinaryRuntime} (options : BinaryReadOptions) (fieldNo : Z)
    (wireType : WireType) (message : t) (reader : IBinaryReader) : result (t * IBinaryReader) :=
  match fieldNo with
  | 1 => '(v, reader) ← r_string reader; Ok (set_namespace v message, reader)
  | 2 => '(v, reader) ← r_int64_string reader; Ok (set_keyCount v message, reader)
  | 3 => '(v, reader) ← r_int64_string reader; Ok (set_byteSize v message, reader)
  | _ =>
      '(u, reader) ← readUnknown options typeName fieldNo wireType message.(unknown) reader;
      Ok (set_unknown u message, reader)
  end.

Definition internalBinaryRead `{RT : BinaryRuntime} (reader : IBinaryReader) (length : Z)
    (options : BinaryReadOptions) (target : option t) : result (t * IBinaryReader) :=
  let message := default (create None) target in
  readLoop (loop_fuel length) (switch options) (r_pos reader + length) message reader.

Definition internalBinaryWrite `{RT : BinaryRuntime} (message : t) (writer : IBinaryWriter)
    (options : BinaryWriteOptions) : result IBinaryWriter :=
  writer ← (if negb (bool_decide (message.(namespace) = js ""))
     then w_string message.(namespace) (w_tag 1 LengthDelimited writer) else Ok writer);
  writer ← (if negb (bool_decide (message.(keyCount) = js "0"))
     then w_int64 message.(keyCount) (w_tag 2 Varint writer) else Ok writer);
  writer ← (if negb (bool_decide (message.(byteSize) = js "0"))
     then w_int64 message.(byteSize) (w_tag 3 Varint writer) else Ok writer);
  writeUnknown options typeName message.(unknown) writer.

(** The field table of the constructor, with the values of a message *)
Definition fields (m : t) : list wfield :=
  [FString 1 m.(namespace);
   FInt64 2 m.(keyCount);
   FInt64 3 m.(byteSize)].
Definition encode (m : t) : bytes := encode_message (fields m) m.(unknown).
Definition wf (m : t) : Prop :=
  forallb ok_field (fields m) = true
  /\ Forall (fun u => wf_unknown u /\ 3 < uf_no u) m.(unknown).

Lemma NamespaceUsage_settles `{L : RuntimeLaws} len o target :
  settles (fun r => internalBinaryRead r len o target).
Proof. apply readLoop_settles. intros no wt m r. unfold switch. split_number no; settle. Qed.
#[global] Hint Resolve NamespaceUsage_settles : pgapp.

Lemma NamespaceUsage_codes `{L : RuntimeLaws} m : wf m ->
  message_codes (fun w => internalBinaryWrite m w defaultWriteOptions)
    (fun r len => internalBinaryRead r len defaultReadOptions None) (encode m) m.
Proof.
  intros (Hf & Hu). codec_open m Hf. apply (message_intro (switch defaultReadOptions)).
  unfold internalBinaryWrite, encode, encode_message, fields. cbn [foldr].
  do 3 codec_step.
  codec_reduce. apply (codes_unknown _ unknown set_unknown typeName 3); 
    first [codec_side | codec_default switch].
Qed.

#[global] Instance message_type : MessageType t := {|
  mt_typeName := typeName; mt_new := new; mt_read RT := @internalBinaryRead RT;
  mt_write RT := @internalBinaryWrite RT; mt_encode := encode; mt_wf := wf |}.
#[global] Instance lawful : LawfulMessage t :=
  {| mt_codes := @NamespaceUsage_codes; mt_settles := @NamespaceUsage_settles |}.

End NamespaceUsage.

(** ** Message [CacheStatsResponse] *)
Module CacheStatsResponse.

(** [interface CacheStatsResponse], with the fields the decoder did not know *)
Record t := mk {
  hits : jsstr;
  misses : jsstr;
  writes : jsstr;
  deletes : jsstr;
  evictions : jsstr;
  expiredRemovals : jsstr;
  logicalKeyCount : jsstr;
  logicalByteSize : jsstr;
  namespaceUsage : list NamespaceUsage.t;
  unknown : list UnknownField
}.

Definition set_hits (x : jsstr) (m : t) : t :=
  mk x m.(misses) m.(writes) m.(deletes) m.(evictions) m.(expiredRemovals) m.(logicalKeyCount) m.(logicalByteSize) m.(namespaceUsage) m.(unknown).
Definition set_misses (x : jsstr) (m : t) : t :=
  mk m.(hits) x m.(writes) m.(deletes) m.(evictions) m.(expiredRemovals) m.(logicalKeyCount) m.(logicalByteSize) m.(namespaceUsage) m.(unknown).
Definition set_writes (x : jsstr) (m : t) : t :=
  mk m.(hits) m.(misses) x m.(deletes) m.(evictions) m.(expiredRemovals) m.(logicalKeyCount) m.(logicalByteSize) m.(namespaceUsage) m.(unknown).
Definition set_deletes (x : jsstr) (m : t) : t :=
  mk m.(hits) m.(misses) m.(writes) x m.(evictions) m.(expiredRemovals) m.(logicalKeyCount) m.(logicalByteSize) m.(namespaceUsage) m.(unknown).
Definition set_evictions (x : jsstr) (m : t) : t :=
  mk m.(hits) m.(misses) m.(writes) m.(deletes) x m.(expiredRemovals) m.(logicalKeyCount) m.(logicalByteSize) m.(namespaceUsage) m.(unknown).
Definition set_expiredRemovals (x : jsstr) (m : t) : t :=
  mk m.(hits) m.(misses) m.(writes) m.(deletes) m.(evictions) x m.(logicalKeyCount) m.(logicalByteSize) m.(namespaceUsage) m.(unknown).
Definition set_logicalKeyCount (x : jsstr) (m : t) : t :=
  mk m.(hits) m.(misses) m.(writes) m.(deletes) m.(evictions) m.(expiredRemovals) x m.(logicalByteSize) m.(namespaceUsage) m.(unknown).
Definition set_logicalByteSize (x : jsstr) (m : t) : t :=
  mk m.(hits) m.(misses) m.(writes) m.(deletes) m.(evictions) m.(expiredRemovals) m.(logicalKeyCount) x m.(namespaceUsage) m.(unknown).
Definition set_namespaceUsage (x : list NamespaceUsage.t) (m : t) : t :=
  mk m.(hits) m.(misses) m.(writes) m.(deletes) m.(evictions) m.(expiredRemovals) m.(logicalKeyCount) m.(logicalByteSize) x m.(unknown).
Definition set_unknown (x : list UnknownField) (m : t) : t :=
  mk m.(hits) m.(misses) m.(writes) m.(deletes) m.(evictions) m.(expiredRemovals) m.(logicalKeyCount) m.(logicalByteSize) m.(namespaceUsage) x.

Definition typeName : jsstr := js "pgapp.v1.CacheStatsResponse".

(** [PartialMessage<CacheStatsResponse>] and the effect of merging one *)
Record PartialMessage := mkPartial {
  p_hits : option jsstr;
  p_misses : option jsstr;
  p_writes : option jsstr;
  p_deletes : option jsstr;
  p_evictions : option jsstr;
  p_expiredRemovals : option jsstr;
  p_logicalKeyCount : option jsstr;
  p_logicalByteSize : option jsstr;
  p_namespaceUsage : option (list NamespaceUsage.PartialMessage)
}.
#[global] Instance info : MessageInfo t PartialMessage := {|
  overlay m p := mk
    (default m.(hits) p.(p_hits))
    (default m.(misses) p.(p_misses))
    (default m.(writes) p.(p_writes))
    (default m.(deletes) p.(p_deletes))
    (default m.(evictions) p.(p_evictions))
    (default m.(expiredRemovals) p.(p_expiredRemovals))
    (default m.(logicalKeyCount) p.(p_logicalKeyCount))
    (default m.(logicalByteSize) p.(p_logicalByteSize))
    (default m.(namespaceUsage) (map (overlay NamespaceUsage.new) <$> p.(p_namespaceUsage)))
    m.(unknown)
|}.
(** A complete message used as a partial one *)
Definition as_partial (m : t) : PartialMessage :=
  mkPartial (Some m.(hits)) (Some m.(misses)) (Some m.(writes)) (Some m.(deletes)) (Some m.(evictions)) (Some m.(expiredRemovals)) (Some m.(logicalKeyCount)) (Some m.(logicalByteSize)) (Some (map NamespaceUsage.as_partial m.(namespaceUsage))).

(** The message prototype with every field at its default *)
Definition new : t :=
  mk (js "0") (js "0") (js "0") (js "0") (js "0") (js "0") (js "0") (js "0") [] [].
Definition create `{RT : BinaryRuntime} (value : option PartialMessage) : t :=
  match value with
  | Some value => reflectionMergePartial info new value
  | None => new
  end.

(** The cases of [internalBinaryRead] *)
Definition switch `{RT : BinaryRuntime} (options : BinaryReadOptions) (fieldNo : Z)
    (wireType : WireType) (message : t) (reader : IBinaryReader) : result (t * IBinaryReader) :=
  match fieldNo with
  | 1 => '(v, reader) ← r_int64_string reader; Ok (set_hits v message, reader)
  | 2 => '(v, reader) ← r_int64_string reader; Ok (set_misses v message, reader)
  | 3 => '(v, reader) ← r_int64_string reader; Ok (set_writes v message, reader)
  | 4 => '(v, reader) ← r_int64_string reader; Ok (set_deletes v message, reader)
  | 5 => '(v, reader) ← r_int64_string reader; Ok (set_evictions v message, reader)
  | 6 => '(v, reader) ← r_int64_string reader; Ok (set_expiredRemovals v message, reader)
  | 7 => '(v, reader) ← r_int64_string reader; Ok (set_logicalKeyCount v message, reader)
  | 8 => '(v, reader) ← r_int64_string reader; Ok (set_logicalByteSize v message, reader)
  | 9 =>
      '(length, reader) ← r_uint32 reader;
      '(v, reader) ← NamespaceUsage.internalBinaryRead reader length options None;
      Ok (set_namespaceUsage (message.(namespaceUsage) ++ [v]) message, reader)
  | _ =>
      '(u, reader) ← readUnknown options typeName fieldNo wireType message.(unknown) reader;
      Ok (set_unknown u message, reader)
  end.

Definition internalBinaryRead `{RT : BinaryRuntime} (reader : IBinaryReader) (length : Z)
    (options : BinaryReadOptions) (target : option t) : result (t * IBinaryReader) :=
  let message := default (create None) target in
  readLoop (loop_fuel length) (switch options) (r_pos reader + length) message reader.

Definition internalBinaryWrite `{RT : BinaryRuntime} (message : t) (writer : IBinaryWriter)
    (options : BinaryWriteOptions) : result IBinaryWriter :=
  writer ← (if negb (bool_decide (message.(hits) = js "0"))
     then w_int64 message.(hits) (w_tag 1 Varint writer) else Ok writer);
  writer ← (if negb (bool_decide (message.(misses) = js "0"))
     then w_int64 message.(misses) (w_tag 2 Varint writer) else Ok writer);
  writer ← (if negb (bool_decide (message.(writes) = js "0"))
     then w_int64 message.(writes) (w_tag 3 Varint writer) else Ok writer);
  writer ← (if negb (bool_decide (message.(deletes) = js "0"))
     then w_int64 message.(deletes) (w_tag 4 Varint writer) else Ok writer);
  writer ← (if negb (bool_decide (message.(evictions) = js "0"))
     then w_int64 message.(evictions) (w_tag 5 Varint writer) else Ok writer);
  writer ← (if negb (bool_decide (message.(expiredRemovals) = js "0"))
     then w_int64 message.(expiredRemovals) (w_tag 6 Varint writer) else Ok writer);
  writer ← (if negb (bool_decide (message.(logicalKeyCount) = js "0"))
     then w_int64 message.(logicalKeyCount) (w_tag 7 Varint writer) else Ok writer);
  writer ← (if negb (bool_decide (message.(logicalByteSize) = js "0"))
     then w_int64 message.(logicalByteSize) (w_tag 8 Varint writer) else Ok writer);
  writer ← writeEach (fun x writer =>
      writer ← NamespaceUsage.internalBinaryWrite x (w_fork (w_tag 9 LengthDelimited writer)) options;
      w_join writer) message.(namespaceUsage) writer;
  writeUnknown options typeName message.(unknown) writer.

(** The field table of the constructor, with the values of a message *)
Definition fields (m : t) : list wfield :=
  [FInt64 1 m.(hits);
   FInt64 2 m.(misses);
   FInt64 3 m.(writes);
   FInt64 4 m.(deletes);
   FInt64 5 m.(evictions);
   FInt64 6 m.(expiredRemovals);
   FInt64 7 m.(logicalKeyCount);
   FInt64 8 m.(logicalByteSize);
   FRepMessage 9 (NamespaceUsage.encode <$> m.(namespaceUsage))].
Definition encode (m : t) : bytes := encode_message (fields m) m.(unknown).
Definition wf (m : t) : Prop :=
  forallb ok_field (fields m) = true
  /\ Forall NamespaceUsage.wf m.(namespaceUsage)
  /\ Forall (fun u => wf_unknown u /\ 9 < uf_no u) m.(unknown).

Lemma CacheStatsResponse_settles `{L : RuntimeLaws} len o target :
  settles (fun r => internalBinaryRead r len o target).
Proof. apply readLoop_settles. intros no wt m r. unfold switch. split_number no; settle. Qed.
#[global] Hint Resolve CacheStatsResponse_settles : pgapp.

Lemma CacheStatsResponse_codes `{L : RuntimeLaws} m : wf m ->
  message_codes (fun w => internalBinaryWrite m w defaultWriteOptions)
    (fun r len => internalBinaryRead r len defaultReadOptions None) (encode m) m.
Proof.
  intros (Hf & Hs0 & Hu). codec_open m Hf. apply (message_intro (switch defaultReadOptions)).
  unfold internalBinaryWrite, encode, encode_message, fields. cbn [foldr].
  do 8 codec_step.
  codec_field (codes_rep_message_field (switch defaultReadOptions) namespaceUsage set_namespaceUsage).
  codec_reduce. apply (codes_unknown _ unknown set_unknown typeName 9); 
    first [codec_side | codec_default switch].
Qed.

#[global] Instance message_type : MessageType t := {|
  mt_typeName := typeName; mt_new := new; mt_read RT := @internalBinaryRead RT;
  mt_write RT := @internalBinaryWrite RT; mt_encode := encode; mt_wf := wf |}.
#[global] Instance lawful : LawfulMessage t :=
  {| mt_codes := @CacheStatsResponse_codes; mt_settles := @CacheStatsResponse_settles |}.

End CacheStatsResponse.

(** ** Message [IncrementRequest] *)
Module IncrementRequest.

(** [interface IncrementRequest], with the fields the decoder did not know *)
Record t := mk {
  namespace : jsstr;
  key : jsstr;
  delta : jsstr;
  ttlSeconds : jsstr;
  unknown : list UnknownField
}.

Definition set_namespace (x : jsstr) (m : t) : t :=
  mk x m.(key) m.(delta) m.(ttlSeconds) m.(unknown).
Definition set_key (x : jsstr) (m : t) : t :=
  mk m.(namespace) x m.(delta) m.(ttlSeconds) m.(unknown).
Definition set_delta (x : jsstr) (m : t) : t :=
  mk m.(namespace) m.(key) x m.(ttlSeconds) m.(unknown).
Definition set_ttlSeconds (x : jsstr) (m : t) : t :=
  mk m.(namespace) m.(key) m.(delta) x m.(unknown).
Definition set_unknown (x : list UnknownField) (m : t) : t :=
  mk m.(namespace) m.(key) m.(delta) m.(ttlSeconds) x.

Definition typeName : jsstr := js "pgapp.v1.IncrementRequest".

(** [PartialMessage<IncrementRequest>] and the effect of merging one *)
Record PartialMessage := mkPartial {
  p_namespace : option jsstr;
  p_key : option jsstr;
  p_delta : option jsstr;
  p_ttlSeconds : option jsstr
}.
#[global] Instance info : MessageInfo t PartialMessage := {|
  overlay m p := mk
    (default m.(namespace) p.(p_namespace))
    (default m.(key) p.(p_key))
    (default m.(delta) p.(p_delta))
    (default m.(ttlSeconds) p.(p_ttlSeconds))
    m.(unknown)
|}.
(** A complete message used as a partial one *)
Definition as_partial (m : t) : PartialMessage :=
  mkPartial (Some m.(namespace)) (Some m.(key)) (Some m.(delta)) (Some m.(ttlSeconds)).

(** The message prototype with every field at its default *)
Definition new : t :=
  mk (js "") (js "") (js "0") (js "0") [].
Definition create `{RT : BinaryRuntime} (value : option PartialMessage) : t :=
  match value with
  | Some value => reflectionMergePartial info new value
  | None => new
  end.

(** The cases of [internalBinaryRead] *)
Definition switch `{RT : BinaryRuntime} (options : BinaryReadOptions) (fieldNo : Z)
    (wireType : WireType) (message : t) (reader : IBinaryReader) : result (t * IBinaryReader) :=
  match fieldNo with
  | 1 => '(v, reader) ← r_string reader; Ok (set_namespace v message, reader)
  | 2 => '(v, reader) ← r_string reader; Ok (set_key v message, reader)
  | 3 => '(v, reader) ← r_int64_string reader; Ok (set_delta v message, reader)
  | 4 => '(v, reader) ← r_int64_string reader; Ok (set_ttlSeconds v message, reader)
  | _ =>
      '(u, reader) ← readUnknown options typeName fieldNo wireType message.(unknown) reader;
      Ok (set_unknown u message, reader)
  end.

Definition internalBinaryRead `{RT : BinaryRuntime} (reader : IBinaryReader) (length : Z)
    (options : BinaryReadOptions) (target : option t) : result (t * IBinaryReader) :=
  let message := default (create None) target in
  readLoop (loop_fuel length) (switch options) (r_pos reader + length) message reader.

Definition internalBinaryWrite `{RT : BinaryRuntime} (message : t) (writer : IBinaryWriter)
    (options : BinaryWriteOptions) : result IBinaryWriter :=
  writer ← (if negb (bool_decide (message.(namespace) = js ""))
     then w_string message.(namespace) (w_tag 1 LengthDelimited writer) else Ok writer);
  writer ← (if negb (bool_decide (message.(key) = js ""))
     then w_string message.(key) (w_tag 2 LengthDelimited writer) else Ok writer);
  writer ← (if negb (bool_decide (message.(delta) = js "0"))
     then w_int64 message.(delta) (w_tag 3 Varint writer) else Ok writer);
  writer ← (if negb (bool_decide (message.(ttlSeconds) = js "0"))
     then w_int64 message.(ttlSeconds) (w_tag 4 Varint writer) else Ok writer);
  writeUnknown options typeName message.(unknown) writer.

(** The field table of the constructor, with the values of a message *)
Definition fields (m : t) : list wfield :=
  [FString 1 m.(namespace);
   FString 2 m.(key);
   FInt64 3 m.(delta);
   FInt64 4 m.(ttlSeconds)].
Definition encode (m : t) : bytes := encode_message (fields m) m.(unknown).
Definition wf (m : t) : Prop :=
  forallb ok_field (fields m) = true
  /\ Forall (fun u => wf_unknown u /\ 4 < uf_no u) m.(unknown).

Lemma IncrementRequest_settles `{L : RuntimeLaws} len o target :
  settles (fun r => internalBinaryRead r len o target).
Proof. apply readLoop_settles. intros no wt m r. unfold switch. split_number no; settle. Qed.
#[global] Hint Resolve IncrementRequest_settles : pgapp.

Lemma IncrementRequest_codes `{L : RuntimeLaws} m : wf m ->
  message_codes (fun w => internalBinaryWrite m w defaultWriteOptions)
    (fun r len => internalBinaryRead r len defaultReadOptions None) (encode m) m.
Proof.
  intros (Hf & Hu). codec_open m Hf. apply (message_intro (switch defaultReadOptions)).
  unfold internalBinaryWrite, encode, encode_message, fields. cbn [foldr].
  do 4 codec_step.
  codec_reduce. apply (codes_unknown _ unknown set_unknown typeName 4); 
    first [codec_side | codec_default switch].
Qed.

#[global] Instance message_type : MessageType t := {|
  mt_typeName := typeName; mt_new := new; mt_read RT := @internalBinaryRead RT;
  mt_write RT := @internalBinaryWrite RT; mt_encode := encode; mt_wf := wf |}.
#[global] Instance lawful : LawfulMessage t :=
  {| mt_codes := @IncrementRequest_codes; mt_settles := @IncrementRequest_settles |}.

End IncrementRequest.

(** ** Message [IncrementResponse] *)
Module IncrementResponse.

(** [interface IncrementResponse], with the fields the decoder did not know *)
Record t := mk {
  value : jsstr;
  unknown : list UnknownField
}.

Definition set_value (x : jsstr) (m : t) : t :=
  mk x m.(unknown).
Definition set_unknown (x : list UnknownField) (m : t) : t :=
  mk m.(value) x.

Definition typeName : jsstr := js "pgapp.v1.IncrementResponse".

(** [PartialMessage<IncrementResponse>] and the effect of merging one *)
Record PartialMessage := mkPartial {
  p_value : option jsstr
}.
#[global] Instance info : MessageInfo t PartialMessage := {|
  overlay m p := mk
    (default m.(value) p.(p_value))
    m.(unknown)
|}.
(** A complete message used as a partial one *)
Definition as_partial (m : t) : PartialMessage :=
  mkPartial (Some m.(value)).

(** The message prototype with every field at its default *)
Definition new : t :=
  mk (js "0") [].
Definition create `{RT : BinaryRuntime} (value : option PartialMessage) : t :=
  match value with
  | Some value => reflectionMergePartial info new value
  | None => new
  end.

(** The cases of [internalBinaryRead] *)
Definition switch `{RT : BinaryRuntime} (options : BinaryReadOptions) (fieldNo : Z)
    (wireType : WireType) (message : t) (reader : IBinaryReader) : result (t * IBinaryReader) :=
  match fieldNo with
  | 1 => '(v, reader) ← r_int64_string reader; Ok (set_value v message, reader)
  | _ =>
      '(u, reader) ← readUnknown options typeName fieldNo wireType message.(unknown) reader;
      Ok (set_unknown u message, reader)
  end.

Definition internalBinaryRead `{RT : BinaryRuntime} (reader : IBinaryReader) (length : Z)
    (options : BinaryReadOptions) (target : option t) : result (t * IBinaryReader) :=
  let message := default (create None) target in
  readLoop (loop_fuel length) (switch options) (r_pos reader + length) message reader.

Definition internalBinaryWrite `{RT : BinaryRuntime} (message : t) (writer : IBinaryWriter)
    (options : BinaryWriteOptions) : result IBinaryWriter :=
  writer ← (if negb (bool_decide (message.(value) = js "0"))
     then w_int64 message.(value) (w_tag 1 Varint writer) else Ok writer);
  writeUnknown options typeName message.(unknown) writer.

(** The field table of the constructor, with the values of a message *)
Definition fields (m : t) : list wfield :=
  [FInt64 1 m.(value)].
Definition encode (m : t) : bytes := encode_message (fields m) m.(unknown).
Definition wf (m : t) : Prop :=
  forallb ok_field (fields m) = true
  /\ Forall (fun u => wf_unknown u /\ 1 < uf_no u) m.(unknown).

Lemma IncrementResponse_settles `{L : RuntimeLaws} len o target :
  settles (fun r => internalBinaryRead r len o target).
Proof. apply readLoop_settles. intros no wt m r. unfold switch. split_number no; settle. Qed.
#[global] Hint Resolve IncrementResponse_settles : pgapp.

Lemma IncrementResponse_codes `{L : RuntimeLaws} m : wf m ->
  message_codes (fun w => internalBinaryWrite m w defaultWriteOptions)
    (fun r len => internalBinaryRead r len defaultReadOptions None) (encode m) m.
Proof.
  intros (Hf & Hu). codec_open m Hf. apply (message_intro (switch defaultReadOptions)).
  unfold internalBinaryWrite, encode, encode_message, fields. cbn [foldr].
  codec_step.
  codec_reduce. apply (codes_unknown _ unknown set_unknown typeName 1); 
    first [codec_side | codec_default switch].
Qed.

#[global] Instance message_type : MessageType t := {|
  mt_typeName := typeName; mt_new := new; mt_read RT := @internalBinaryRead RT;
  mt_write RT := @internalBinaryWrite RT; mt_encode := encode; mt_wf := wf |}.
#[global] Instance lawful : LawfulMessage t :=
  {| mt_codes := @IncrementResponse_codes; mt_settles := @IncrementResponse_settles |}.

End IncrementResponse.

(** ** Message [DecrementRequest] *)
Module DecrementRequest.

(** [interface DecrementRequest], with the fields the decoder did not know *)
Record t := mk {
  namespace : jsstr;
  key : jsstr;
  delta : jsstr;
  ttlSeconds : jsstr;
  unknown : list UnknownField
}.

Definition set_namespace (x : jsstr) (m : t) : t :=
  mk x m.(key) m.(delta) m.(ttlSeconds) m.(unknown).
Definition set_key (x : jsstr) (m : t) : t :=
  mk m.(namespace) x m.(delta) m.(ttlSeconds) m.(unknown).
Definition set_delta (x : jsstr) (m : t) : t :=
  mk m.(namespace) m.(key) x m.(ttlSeconds) m.(unknown).
Definition set_ttlSeconds (x : jsstr) (m : t) : t :=
  mk m.(namespace) m.(key) m.(delta) x m.(unknown).
Definition set_unknown (x : list UnknownField) (m : t) : t :=
  mk m.(namespace) m.(key) m.(delta) m.(ttlSeconds) x.

Definition typeName : jsstr := js "pgapp.v1.DecrementRequest".

(** [PartialMessage<DecrementRequest>] and the effect of merging one *)
Record PartialMessage := mkPartial {
  p_namespace : option jsstr;
  p_key : option jsstr;
  p_delta : option jsstr;
  p_ttlSeconds : option jsstr
}.
#[global] Instance info : MessageInfo t PartialMessage := {|
  overlay m p := mk
    (default m.(namespace) p.(p_namespace))
    (default m.(key) p.(p_key))
    (default m.(delta) p.(p_delta))
    (default m.(ttlSeconds) p.(p_ttlSeconds))
    m.(unknown)
|}.
(** A complete message used as a partial one *)
Definition as_partial (m : t) : PartialMessage :=
  mkPartial (Some m.(namespace)) (Some m.(key)) (Some m.(delta)) (Some m.(ttlSeconds)).

(** The message prototype with every field at its default *)
Definition new : t :=
  mk (js "") (js "") (js "0") (js "0") [].
Definition create `{RT : BinaryRuntime} (value : option PartialMessage) : t :=
  match value with
  | Some value => reflectionMergePartial info new value
  | None => new
  end.

(** The cases of [internalBinaryRead] *)
Definition switch `{RT : BinaryRuntime} (options : BinaryReadOptions) (fieldNo : Z)
    (wireType : WireType) (message : t) (reader : IBinaryReader) : result (t * IBinaryReader) :=
  match fieldNo with
  | 1 => '(v, reader) ← r_string reader; Ok (set_namespace v message, reader)
  | 2 => '(v, reader) ← r_string reader; Ok (set_key v message, reader)
  | 3 => '(v, reader) ← r_int64_string reader; Ok (set_delta v message, reader)
  | 4 => '(v, reader) ← r_int64_string reader; Ok (set_ttlSeconds v message, reader)
  | _ =>
      '(u, reader) ← readUnknown options typeName fieldNo wireType message.(unknown) reader;
      Ok (set_unknown u message, reader)
  end.

Definition internalBinaryRead `{RT : BinaryRuntime} (reader : IBinaryReader) (length : Z)
    (options : BinaryReadOptions) (target : option t) : result (t * IBinaryReader) :=
  let message := default (create None) target in
  readLoop (loop_fuel length) (switch options) (r_pos reader + length) message reader.

Definition internalBinaryWrite `{RT : BinaryRuntime} (message : t) (writer : IBinaryWriter)
    (options : BinaryWriteOptions) : result IBinaryWriter :=
  writer ← (if negb (bool_decide (message.(namespace) = js ""))
     then w_string message.(namespace) (w_tag 1 LengthDelimited writer) else Ok writer);
  writer ← (if negb (bool_decide (message.(key) = js ""))
     then w_string message.(key) (w_tag 2 LengthDelimited writer) else Ok writer);
  writer ← (if negb (bool_decide (message.(delta) = js "0"))
     then w_int64 message.(delta) (w_tag 3 Varint writer) else Ok writer);
  writer ← (if negb (bool_decide (message.(ttlSeconds) = js "0"))
     then w_int64 message.(ttlSeconds) (w_tag 4 Varint writer) else Ok writer);
  writeUnknown options typeName message.(unknown) writer.

(** The field table of the constructor, with the values of a message *)
Definition fields (m : t) : list wfield :=
  [FString 1 m.(namespace);
   FString 2 m.(key);
   FInt64 3 m.(delta);
   FInt64 4 m.(ttlSeconds)].
Definition encode (m : t) : bytes := encode_message (fields m) m.(unknown).
Definition wf (m : t) : Prop :=
  forallb ok_field (fields m) = true
  /\ Forall (fun u => wf_unknown u /\ 4 < uf_no u) m.(unknown).

Lemma DecrementRequest_settles `{L : RuntimeLaws} len o target :
  settles (fun r => internalBinaryRead r len o target).
Proof. apply readLoop_settles. intros no wt m r. unfold switch. split_number no; settle. Qed.
#[global] Hint Resolve DecrementRequest_settles : pgapp.

Lemma DecrementRequest_codes `{L : RuntimeLaws} m : wf m ->
  message_codes (fun w => internalBinaryWrite m w defaultWriteOptions)
    (fun r len => internalBinaryRead r len defaultReadOptions None) (encode m) m.
Proof.
  intros (Hf & Hu). codec_open m Hf. apply (message_intro (switch defaultReadOptions)).
  unfold internalBinaryWrite, encode, encode_message, fields. cbn [foldr].
  do 4 codec_step.
  codec_reduce. apply (codes_unknown _ unknown set_unknown typeName 4); 
    first [codec_side | codec_default switch].
Qed.

#[global] Instance message_type : MessageType t := {|
  mt_typeName := typeName; mt_new := new; mt_read RT := @internalBinaryRead RT;
  mt_write RT := @internalBinaryWrite RT; mt_encode := encode; mt_wf := wf |}.
#[global] Instance lawful : LawfulMessage t :=
  {| mt_codes := @DecrementRequest_codes; mt_settles := @DecrementRequest_settles |}.

End DecrementRequest.

(** ** Message [DecrementResponse] *)
Module DecrementResponse.

(** [interface DecrementResponse], with the fields the decoder did not know *)
Record t := mk {
  value : jsstr;
  unknown : list UnknownField
}.

Definition set_value (x : jsstr) (m : t) : t :=
  mk x m.(unknown).
Definition set_unknown (x : list UnknownField) (m : t) : t :=
  mk m.(value) x.

Definition typeName : jsstr := js "pgapp.v1.DecrementResponse".

(** [PartialMessage<DecrementResponse>] and the effect of merging one *)
Record PartialMessage := mkPartial {
  p_value : option jsstr
}.
#[global] Instance info : MessageInfo t PartialMessage := {|
  overlay m p := mk
    (default m.(value) p.(p_value))
    m.(unknown)
|}.
(** A complete message used as a partial one *)
Definition as_partial (m : t) : PartialMessage :=
  mkPartial (Some m.(value)).

(** The message prototype with every field at its default *)
Definition new : t :=
  mk (js "0") [].
Definition create `{RT : BinaryRuntime} (value : option PartialMessage) : t :=
  match value with
  | Some value => reflectionMergePartial info new value
  | None => new
  end.

(** The cases of [internalBinaryRead] *)
Definition switch `{RT : BinaryRuntime} (options : BinaryReadOptions) (fieldNo : Z)
    (wireType : WireType) (message : t) (reader : IBinaryReader) : result (t * IBinaryReader) :=
  match fieldNo with
  | 1 => '(v, reader) ← r_int64_string reader; Ok (set_value v message, reader)
  | _ =>
      '(u, reader) ← readUnknown options typeName fieldNo wireType message.(unknown) reader;
      Ok (set_unknown u message, reader)
  end.

Definition internalBinaryRead `{RT : BinaryRuntime} (reader : IBinaryReader) (length : Z)
    (options : BinaryReadOptions) (target : option t) : result (t * IBinaryReader) :=
  let message := default (create None) target in
  readLoop (loop_fuel length) (switch options) (r_pos reader + length) message reader.

Definition internalBinaryWrite `{RT : BinaryRuntime} (message : t) (writer : IBinaryWriter)
    (options : BinaryWriteOptions) : result IBinaryWriter :=
  writer ← (if negb (bool_decide (message.(value) = js "0"))
     then w_int64 message.(value) (w_tag 1 Varint writer) else Ok writer);
  writeUnknown options typeName message.(unknown) writer.

(** The field table of the constructor, with the values of a message *)
Definition fields (m : t) : list wfield :=
  [FInt64 1 m.(value)].
Definition encode (m : t) : bytes := encode_message (fields m) m.(unknown).
Definition wf (m : t) : Prop :=
  forallb ok_field (fields m) = true
  /\ Forall (fun u => wf_unknown u /\ 1 < uf_no u) m.(unknown).

Lemma DecrementResponse_settles `{L : RuntimeLaws} len o target :
  settles (fun r => internalBinaryRead r len o target).
Proof. apply readLoop_settles. intros no wt m r. unfold switch. split_number no; settle. Qed.
#[global] Hint Resolve DecrementResponse_settles : pgapp.

Lemma DecrementResponse_codes `{L : RuntimeLaws} m : wf m ->
  message_codes (fun w => internalBinaryWrite m w defaultWriteOptions)
    (fun r len => internalBinaryRead r len defaultReadOptions None) (encode m) m.
Proof.
  intros (Hf & Hu). codec_open m Hf. apply (message_intro (switch defaultReadOptions)).
  unfold internalBinaryWrite, encode, encode_message, fields. cbn [foldr].
  codec_step.
  codec_reduce. apply (codes_unknown _ unknown set_unknown typeName 1); 
    first [codec_side | codec_default switch].
Qed.

#[global] Instance message_type : MessageType t := {|
  mt_typeName := typeName; mt_new := new; mt_read RT := @internalBinaryRead RT;
  mt_write RT := @internalBinaryWrite RT; mt_encode := encode; mt_wf := wf |}.
#[global] Instance lawful : LawfulMessage t :=
  {| mt_codes := @DecrementResponse_codes; mt_settles := @DecrementResponse_settles |}.

End DecrementResponse.

(** ** Message [SetNXRequest] *)
Module SetNXRequest.

(** [interface SetNXRequest], with the fields the decoder did not know *)
Record t := mk {
  namespace : jsstr;
  key : jsstr;
  value : bytes;
  ttlSeconds : jsstr;
  unknown : list UnknownField
}.

Definition set_namespace (x : jsstr) (m : t) : t :=
  mk x m.(key) m.(value) m.(ttlSeconds) m.(unknown).
Definition set_key (x : jsstr) (m : t) : t :=
  mk m.(namespace) x m.(value) m.(ttlSeconds) m.(unknown).
Definition set_value (x : bytes) (m : t) : t :=
  mk m.(namespace) m.(key) x m.(ttlSeconds) m.(unknown).
Definition set_ttlSeconds (x : jsstr) (m : t) : t :=
  mk m.(namespace) m.(key) m.(value) x m.(unknown).
Definition set_unknown (x : list UnknownField) (m : t) : t :=
  mk m.(namespace) m.(key) m.(value) m.(ttlSeconds) x.

Definition typeName : jsstr := js "pgapp.v1.SetNXRequest".

(** [PartialMessage<SetNXRequest>] and the effect of merging one *)
Record PartialMessage := mkPartial {
  p_namespace : option jsstr;
  p_key : option jsstr;
  p_value : option bytes;
  p_ttlSeconds : option jsstr
}.
#[global] Instance info : MessageInfo t PartialMessage := {|
  overlay m p := mk
    (default m.(namespace) p.(p_namespace))
    (default m.(key) p.(p_key))
    (default m.(value) p.(p_value))
    (default m.(ttlSeconds) p.(p_ttlSeconds))
    m.(unknown)
|}.
(** A complete message used as a partial one *)
Definition as_partial (m : t) : PartialMessage :=
  mkPartial (Some m.(namespace)) (Some m.(key)) (Some m.(value)) (Some m.(ttlSeconds)).

(** The message prototype with every field at its default *)
Definition new : t :=
  mk (js "") (js "") [] (js "0") [].
Definition create `{RT : BinaryRuntime} (value : option PartialMessage) : t :=
  match value with
  | Some value => reflectionMergePartial info new value
  | None => new
  end.

(** The cases of [internalBinaryRead] *)
Definition switch `{RT : BinaryRuntime} (options : BinaryReadOptions) (fieldNo : Z)
    (wireType : WireType) (message : t) (reader : IBinaryReader) : result (t * IBinaryReader) :=
  match fieldNo with
  | 1 => '(v, reader) ← r_string reader; Ok (set_namespace v message, reader)
  | 2 => '(v, reader) ← r_string reader; Ok (set_key v message, reader)
  | 3 => '(v, reader) ← r_bytes reader; Ok (set_value v message, reader)
  | 4 => '(v, reader) ← r_int64_string reader; Ok (set_ttlSeconds v message, reader)
  | _ =>
      '(u, reader) ← readUnknown options typeName fieldNo wireType message.(unknown) reader;
      Ok (set_unknown u message, reader)
  end.

Definition internalBinaryRead `{RT : BinaryRuntime} (reader : IBinaryReader) (length : Z)
    (options : BinaryReadOptions) (target : option t) : result (t * IBinaryReader) :=
  let message := default (create None) target in
  readLoop (loop_fuel length) (switch options) (r_pos reader + length) message reader.

Definition internalBinaryWrite `{RT : BinaryRuntime} (message : t) (writer : IBinaryWriter)
    (options : BinaryWriteOptions) : result IBinaryWriter :=
  writer ← (if negb (bool_decide (message.(namespace) = js ""))
     then w_string message.(namespace) (w_tag 1 LengthDelimited writer) else Ok writer);
  writer ← (if negb (bool_decide (message.(key) = js ""))
     then w_string message.(key) (w_tag 2 LengthDelimited writer) else Ok writer);
  writer ← (if negb (Nat.eqb (length message.(value)) 0)
     then w_bytes message.(value) (w_tag 3 LengthDelimited writer) else Ok writer);
  writer ← (if negb (bool_decide (message.(ttlSeconds) = js "0"))
     then w_int64 message.(ttlSeconds) (w_tag 4 Varint writer) else Ok writer);
  writeUnknown options typeName message.(unknown) writer.

(** The field table of the constructor, with the values of a message *)
Definition fields (m : t) : list wfield :=
  [FString 1 m.(namespace);
   FString 2 m.(key);
   FBytes 3 m.(value);
   FInt64 4 m.(ttlSeconds)].
Definition encode (m : t) : bytes := encode_message (fields m) m.(unknown).
Definition wf (m : t) : Prop :=
  forallb ok_field (fields m) = true
  /\ Forall (fun u => wf_unknown u /\ 4 < uf_no u) m.(unknown).

Lemma SetNXRequest_settles `{L : RuntimeLaws} len o target :
  settles (fun r => internalBinaryRead r len o target).
Proof. apply readLoop_settles. intros no wt m r. unfold switch. split_number no; settle. Qed.
#[global] Hint Resolve SetNXRequest_settles : pgapp.

Lemma SetNXRequest_codes `{L : RuntimeLaws} m : wf m ->
  message_codes (fun w => internalBinaryWrite m w defaultWriteOptions)
    (fun r len => internalBinaryRead r len defaultReadOptions None) (encode m) m.
Proof.
  intros (Hf & Hu). codec_open m Hf. apply (message_intro (switch defaultReadOptions)).
  unfold internalBinaryWrite, encode, encode_message, fields. cbn [foldr].
  do 4 codec_step.
  codec_reduce. apply (codes_unknown _ unknown set_unknown typeName 4); 
    first [codec_side | codec_default switch].
Qed.

#[global] Instance message_type : MessageType t := {|
  mt_typeName := typeName; mt_new := new; mt_read RT := @internalBinaryRead RT;
  mt_write RT := @internalBinaryWrite RT; mt_encode := encode; mt_wf := wf |}.
#[global] Instance lawful : LawfulMessage t :=
  {| mt_codes := @SetNXRequest_codes; mt_settles := @SetNXRequest_settles |}.

End SetNXRequest.

(** ** Message [SetNXResponse] *)
Module SetNXResponse.

(** [interface SetNXResponse], with the fields the decoder did not know *)
Record t := mk {
  created : bool;
  unknown : list UnknownField
}.

Definition set_created (x : bool) (m : t) : t :=
  mk x m.(unknown).
Definition set_unknown (x : list UnknownField) (m : t) : t :=
  mk m.(created) x.

Definition typeName : jsstr := js "pgapp.v1.SetNXResponse".

(** [PartialMessage<SetNXResponse>] and the effect of merging one *)
Record PartialMessage := mkPartial {
  p_created : option bool
}.
#[global] Instance info : MessageInfo t PartialMessage := {|
  overlay m p := mk
    (default m.(created) p.(p_created))
    m.(unknown)
|}.
(** A complete message used as a partial one *)
Definition as_partial (m : t) : PartialMessage :=
  mkPartial (Some m.(created)).

(** The message prototype with every field at its default *)
Definition new : t :=
  mk false [].
Definition create `{RT : BinaryRuntime} (value : option PartialMessage) : t :=
  match value with
  | Some value => reflectionMergePartial info new value
  | None => new
  end.

(** The cases of [internalBinaryRead] *)
Definition switch `{RT : BinaryRuntime} (options : BinaryReadOptions) (fieldNo : Z)
    (wireType : WireType) (message : t) (reader : IBinaryReader) : result (t * IBinaryReader) :=
  match fieldNo with
  | 1 => '(v, reader) ← r_bool reader; Ok (set_created v message, reader)
  | _ =>
      '(u, reader) ← readUnknown options typeName fieldNo wireType message.(unknown) reader;
      Ok (set_unknown u message, reader)
  end.

Definition internalBinaryRead `{RT : BinaryRuntime} (reader : IBinaryReader) (length : Z)
    (options : BinaryReadOptions) (target : option t) : result (t * IBinaryReader) :=
  let message := default (create None) target in
  readLoop (loop_fuel length) (switch options) (r_pos reader + length) message reader.

Definition internalBinaryWrite `{RT : BinaryRuntime} (message : t) (writer : IBinaryWriter)
    (options : BinaryWriteOptions) : result IBinaryWriter :=
  writer ← (if negb (Bool.eqb message.(created) false)
     then w_bool message.(created) (w_tag 1 Varint writer) else Ok writer);
  writeUnknown options typeName message.(unknown) writer.

(** The field table of the constructor, with the values of a message *)
Definition fields (m : t) : list wfield :=
  [FBool 1 m.(created)].
Definition encode (m : t) : bytes := encode_message (fields m) m.(unknown).
Definition wf (m : t) : Prop :=
  forallb ok_field (fields m) = true
  /\ Forall (fun u => wf_unknown u /\ 1 < uf_no u) m.(unknown).

Lemma SetNXResponse_settles `{L : RuntimeLaws} len o target :
  settles (fun r => internalBinaryRead r len o target).
Proof. apply readLoop_settles. intros no wt m r. unfold switch. split_number no; settle. Qed.
#[global] Hint Resolve SetNXResponse_settles : pgapp.

Lemma SetNXResponse_codes `{L : RuntimeLaws} m : wf m ->
  message_codes (fun w => internalBinaryWrite m w defaultWriteOptions)
    (fun r len => internalBinaryRead r len defaultReadOptions None) (encode m) m.
Proof.
  intros (Hf & Hu). codec_open m Hf. apply (message_intro (switch defaultReadOptions)).
  unfold internalBinaryWrite, encode, encode_message, fields. cbn [foldr].
  codec_step.
  codec_reduce. apply (codes_unknown _ unknown set_unknown typeName 1); 
    first [codec_side | codec_default switch].
Qed.

#[global] Instance message_type : MessageType t := {|
  mt_typeName := typeName; mt_new := new; mt_read RT := @internalBinaryRead RT;
  mt_write RT := @internalBinaryWrite RT; mt_encode := encode; mt_wf := wf |}.
#[global] Instance lawful : LawfulMessage t :=
  {| mt_codes := @SetNXResponse_codes; mt_settles := @SetNXResponse_settles |}.

End SetNXResponse.

(** ** Message [GetSetRequest] *)
Module GetSetRequest.

(** [interface GetSetRequest], with the fields the decoder did not know *)
Record t := mk {
  namespace : jsstr;
  key : jsstr;
  value : bytes;
  ttlSeconds : jsstr;
  unknown : list UnknownField
}.

Definition set_namespace (x : jsstr) (m : t) : t :=
  mk x m.(key) m.(value) m.(ttlSeconds) m.(unknown).
Definition set_key (x : jsstr) (m : t) : t :=
  mk m.(namespace) x m.(value) m.(ttlSeconds) m.(unknown).
Definition set_value (x : bytes) (m : t) : t :=
  mk m.(namespace) m.(key) x m.(ttlSeconds) m.(unknown).
Definition set_ttlSeconds (x : jsstr) (m : t) : t :=
  mk m.(namespace) m.(key) m.(value) x m.(unknown).
Definition set_unknown (x : list UnknownField) (m : t) : t :=
  mk m.(namespace) m.(key) m.(value) m.(ttlSeconds) x.

Definition typeName : jsstr := js "pgapp.v1.GetSetRequest".

(** [PartialMessage<GetSetRequest>] and the effect of merging one *)
Record PartialMessage := mkPartial {
  p_namespace : option jsstr;
  p_key : option jsstr;
  p_value : option bytes;
  p_ttlSeconds : option jsstr
}.
#[global] Instance info : MessageInfo t PartialMessage := {|
  overlay m p := mk
    (default m.(namespace) p.(p_namespace))
    (default m.(key) p.(p_key))
    (default m.(value) p.(p_value))
    (default m.(ttlSeconds) p.(p_ttlSeconds))
    m.(unknown)
|}.
(** A complete message used as a partial one *)
Definition as_partial (m : t) : PartialMessage :=
  mkPartial (Some m.(namespace)) (Some m.(key)) (Some m.(value)) (Some m.(ttlSeconds)).

(** The message prototype with every field at its default *)
Definition new : t :=
  mk (js "") (js "") [] (js "0") [].
Definition create `{RT : BinaryRuntime} (value : option PartialMessage) : t :=
  match value with
  | Some value => reflectionMergePartial info new value
  | None => new
  end.

(** The cases of [internalBinaryRead] *)
Definition switch `{RT : BinaryRuntime} (options : BinaryReadOptions) (fieldNo : Z)
    (wireType : WireType) (message : t) (reader : IBinaryReader) : result (t * IBinaryReader) :=
  match fieldNo with
  | 1 => '(v, reader) ← r_string reader; Ok (set_namespace v message, reader)
  | 2 => '(v, reader) ← r_string reader; Ok (set_key v message, reader)
  | 3 => '(v, reader) ← r_bytes reader; Ok (set_value v message, reader)
  | 4 => '(v, reader) ← r_int64_string reader; Ok (set_ttlSeconds v message, reader)
  | _ =>
      '(u, reader) ← readUnknown options typeName fieldNo wireType message.(unknown) reader;
      Ok (set_unknown u message, reader)
  end.

Definition internalBinaryRead `{RT : BinaryRuntime} (reader : IBinaryReader) (length : Z)
    (options : BinaryReadOptions) (target : option t) : result (t * IBinaryReader) :=
  let message := default (create None) target in
  readLoop (loop_fuel length) (switch options) (r_pos reader + length) message reader.

Definition internalBinaryWrite `{RT : BinaryRuntime} (message : t) (writer : IBinaryWriter)
    (options : BinaryWriteOptions) : result IBinaryWriter :=
  writer ← (if negb (bool_decide (message.(namespace) = js ""))
     then w_string message.(namespace) (w_tag 1 LengthDelimited writer) else Ok writer);
  writer ← (if negb (bool_decide (message.(key) = js ""))
     then w_string message.(key) (w_tag 2 LengthDelimited writer) else Ok writer);
  writer ← (if negb (Nat.eqb (length message.(value)) 0)
     then w_bytes message.(value) (w_tag 3 LengthDelimited writer) else Ok writer);
  writer ← (if negb (bool_decide (message.(ttlSeconds) = js "0"))
     then w_int64 message.(ttlSeconds) (w_tag 4 Varint writer) else Ok writer);
  writeUnknown options typeName message.(unknown) writer.

(** The field table of the constructor, with the values of a message *)
Definition fields (m : t) : list wfield :=
  [FString 1 m.(namespace);
   FString 2 m.(key);
   FBytes 3 m.(value);
   FInt64 4 m.(ttlSeconds)].
Definition encode (m : t) : bytes := encode_message (fields m) m.(unknown).
Definition wf (m : t) : Prop :=
  forallb ok_field (fields m) = true
  /\ Forall (fun u => wf_unknown u /\ 4 < uf_no u) m.(unknown).

Lemma GetSetRequest_settles `{L : RuntimeLaws} len o target :
  settles (fun r => internalBinaryRead r len o target).
Proof. apply readLoop_settles. intros no wt m r. unfold switch. split_number no; settle. Qed.
#[global] Hint Resolve GetSetRequest_settles : pgapp.

Lemma GetSetRequest_codes `{L : RuntimeLaws} m : wf m ->
  message_codes (fun w => internalBinaryWrite m w defaultWriteOptions)
    (fun r len => internalBinaryRead r len defaultReadOptions None) (encode m) m.
Proof.
  intros (Hf & Hu). codec_open m Hf. apply (message_intro (switch defaultReadOptions)).
  unfold internalBinaryWrite, encode, encode_message, fields. cbn [foldr].
  do 4 codec_step.
  codec_reduce. apply (codes_unknown _ unknown set_unknown typeName 4); 
    first [codec_side | codec_default switch].
Qed.

#[global] Instance message_type : MessageType t := {|
  mt_typeName := typeName; mt_new := new; mt_read RT := @internalBinaryRead RT;
  mt_write RT := @internalBinaryWrite RT; mt_encode := encode; mt_wf := wf |}.
#[global] Instance lawful : LawfulMessage t :=
  {| mt_codes := @GetSetRequest_codes; mt_settles := @GetSetRequest_settles |}.

End GetSetRequest.

(** ** Message [GetSetResponse] *)
Module GetSetResponse.

(** [interface GetSetResponse], with the fields the decoder did not know *)
Record t := mk {
  hit : bool;
  oldValue : bytes;
  unknown : list UnknownField
}.

Definition set_hit (x : bool) (m : t) : t :=
  mk x m.(oldValue) m.(unknown).
Definition set_oldValue (x : bytes) (m : t) : t :=
  mk m.(hit) x m.(unknown).
Definition set_unknown (x : list UnknownField) (m : t) : t :=
  mk m.(hit) m.(oldValue) x.

Definition typeName : jsstr := js "pgapp.v1.GetSetResponse".

(** [PartialMessage<GetSetResponse>] and the effect of merging one *)
Record PartialMessage := mkPartial {
  p_hit : option bool;
  p_oldValue : option bytes
}.
#[global] Instance info : MessageInfo t PartialMessage := {|
  overlay m p := mk
    (default m.(hit) p.(p_hit))
    (default m.(oldValue) p.(p_oldValue))
    m.(unknown)
|}.
(** A complete message used as a partial one *)
Definition as_partial (m : t) : PartialMessage :=
  mkPartial (Some m.(hit)) (Some m.(oldValue)).

(** The message prototype with every field at its default *)
Definition new : t :=
  mk false [] [].
Definition create `{RT : BinaryRuntime} (value : option PartialMessage) : t :=
  match value with
  | Some value => reflectionMergePartial info new value
  | None => new
  end.

(** The cases of [internalBinaryRead] *)
Definition switch `{RT : BinaryRuntime} (options : BinaryReadOptions) (fieldNo : Z)
    (wireType : WireType) (message : t) (reader : IBinaryReader) : result (t * IBinaryReader) :=
  match fieldNo with
  | 1 => '(v, reader) ← r_bool reader; Ok (set_hit v message, reader)
  | 2 => '(v, reader) ← r_bytes reader; Ok (set_oldValue v message, reader)
  | _ =>
      '(u, reader) ← readUnknown options typeName fieldNo wireType message.(unknown) reader;
      Ok (set_unknown u message, reader)
  end.

Definition internalBinaryRead `{RT : BinaryRuntime} (reader : IBinaryReader) (length : Z)
    (options : BinaryReadOptions) (target : option t) : result (t * IBinaryReader) :=
  let message := default (create None) target in
  readLoop (loop_fuel length) (switch options) (r_pos reader + length) message reader.

Definition internalBinaryWrite `{RT : BinaryRuntime} (message : t) (writer : IBinaryWriter)
    (options : BinaryWriteOptions) : result IBinaryWriter :=
  writer ← (if negb (Bool.eqb message.(hit) false)
     then w_bool message.(hit) (w_tag 1 Varint writer) else Ok writer);
  writer ← (if negb (Nat.eqb (length message.(oldValue)) 0)
     then w_bytes message.(oldValue) (w_tag 2 LengthDelimited writer) else Ok writer);
  writeUnknown options typeName message.(unknown) writer.

(** The field table of the constructor, with the values of a message *)
Definition fields (m : t) : list wfield :=
  [FBool 1 m.(hit);
   FBytes 2 m.(oldValue)].
Definition encode (m : t) : bytes := encode_message (fields m) m.(unknown).
Definition wf (m : t) : Prop :=
  forallb ok_field (fields m) = true
  /\ Forall (fun u => wf_unknown u /\ 2 < uf_no u) m.(unknown).

Lemma GetSetResponse_settles `{L : RuntimeLaws} len o target :
  settles (fun r => internalBinaryRead r len o target).
Proof. apply readLoop_settles. intros no wt m r. unfold switch. split_number no; settle. Qed.
#[global] Hint Resolve GetSetResponse_settles : pgapp.

Lemma GetSetResponse_codes `{L : RuntimeLaws} m : wf m ->
  message_codes (fun w => internalBinaryWrite m w defaultWriteOptions)
    (fun r len => internalBinaryRead r len defaultReadOptions None) (encode m) m.
Proof.
  intros (Hf & Hu). codec_open m Hf. apply (message_intro (switch defaultReadOptions)).
  unfold internalBinaryWrite, encode, encode_message, fields. cbn [foldr].
  do 2 codec_step.
  codec_reduce. apply (codes_unknown _ unknown set_unknown typeName 2); 
    first [codec_side | codec_default switch].
Qed.

#[global] Instance message_type : MessageType t := {|
  mt_typeName := typeName; mt_new := new; mt_read RT := @internalBinaryRead RT;
  mt_write RT := @internalBinaryWrite RT; mt_encode := encode; mt_wf := wf |}.
#[global] Instance lawful : LawfulMessage t :=
  {| mt_codes := @GetSetResponse_codes; mt_settles := @GetSetResponse_settles |}.

End GetSetResponse.

(** ** Message [AppendRequest] *)
Module AppendRequest.

(** [interface AppendRequest], with the fields the decoder did not know *)
Record t := mk {
  namespace : jsstr;
  key : jsstr;
  value : bytes;
  ttlSeconds : jsstr;
  unknown : list UnknownField
}.

Definition set_namespace (x : jsstr) (m : t) : t :=
  mk x m.(key) m.(value) m.(ttlSeconds) m.(unknown).
Definition set_key (x : jsstr) (m : t) : t :=
  mk m.(namespace) x m.(value) m.(ttlSeconds) m.(unknown).
Definition set_value (x : bytes) (m : t) : t :=
  mk m.(namespace) m.(key) x m.(ttlSeconds) m.(unknown).
Definition set_ttlSeconds (x : jsstr) (m : t) : t :=
  mk m.(namespace) m.(key) m.(value) x m.(unknown).
Definition set_unknown (x : list UnknownField) (m : t) : t :=
  mk m.(namespace) m.(key) m.(value) m.(ttlSeconds) x.

Definition typeName : jsstr := js "pgapp.v1.AppendRequest".

(** [PartialMessage<AppendRequest>] and the effect of merging one *)
Record PartialMessage := mkPartial {
  p_namespace : option jsstr;
  p_key : option jsstr;
  p_value : option bytes;
  p_ttlSeconds : option jsstr
}.
#[global] Instance info : MessageInfo t PartialMessage := {|
  overlay m p := mk
    (default m.(namespace) p.(p_namespace))
    (default m.(key) p.(p_key))
    (default m.(value) p.(p_value))
    (default m.(ttlSeconds) p.(p_ttlSeconds))
    m.(unknown)
|}.
(** A complete message used as a partial one *)
Definition as_partial (m : t) : PartialMessage :=
  mkPartial (Some m.(namespace)) (Some m.(key)) (Some m.(value)) (Some m.(ttlSeconds)).

(** The message prototype with every field at its default *)
Definition new : t :=
  mk (js "") (js "") [] (js "0") [].
Definition create `{RT : BinaryRuntime} (value : option PartialMessage) : t :=
  match value with
  | Some value => reflectionMergePartial info new value
  | None => new
  end.

(** The cases of [internalBinaryRead] *)
Definition switch `{RT : BinaryRuntime} (options : BinaryReadOptions) (fieldNo : Z)
    (wireType : WireType) (message : t) (reader : IBinaryReader) : result (t * IBinaryReader) :=
  match fieldNo with
  | 1 => '(v, reader) ← r_string reader; Ok (set_namespace v message, reader)
  | 2 => '(v, reader) ← r_string reader; Ok (set_key v message, reader)
  | 3 => '(v, reader) ← r_bytes reader; Ok (set_value v message, reader)
  | 4 => '(v, reader) ← r_int64_string reader; Ok (set_ttlSeconds v message, reader)
  | _ =>
      '(u, reader) ← readUnknown options typeName fieldNo wireType message.(unknown) reader;
      Ok (set_unknown u message, reader)
  end.

Definition internalBinaryRead `{RT : BinaryRuntime} (reader : IBinaryReader) (length : Z)
    (options : BinaryReadOptions) (target : option t) : result (t * IBinaryReader) :=
  let message := default (create None) target in
  readLoop (loop_fuel length) (switch options) (r_pos reader + length) message reader.

Definition internalBinaryWrite `{RT : BinaryRuntime} (message : t) (writer : IBinaryWriter)
    (options : BinaryWriteOptions) : result IBinaryWriter :=
  writer ← (if negb (bool_decide (message.(namespace) = js ""))
     then w_string message.(namespace) (w_tag 1 LengthDelimited writer) else Ok writer);
  writer ← (if negb (bool_decide (message.(key) = js ""))
     then w_string message.(key) (w_tag 2 LengthDelimited writer) else Ok writer);
  writer ← (if negb (Nat.eqb (length message.(value)) 0)
     then w_bytes message.(value) (w_tag 3 LengthDelimited writer) else Ok writer);
  writer ← (if negb (bool_decide (message.(ttlSeconds) = js "0"))
     then w_int64 message.(ttlSeconds) (w_tag 4 Varint writer) else Ok writer);
  writeUnknown options typeName message.(unknown) writer.

(** The field table of the constructor, with the values of a message *)
Definition fields (m : t) : list wfield :=
  [FString 1 m.(namespace);
   FString 2 m.(key);
   FBytes 3 m.(value);
   FInt64 4 m.(ttlSeconds)].
Definition encode (m : t) : bytes := encode_message (fields m) m.(unknown).
Definition wf (m : t) : Prop :=
  forallb ok_field (fields m) = true
  /\ Forall (fun u => wf_unknown u /\ 4 < uf_no u) m.(unknown).

Lemma AppendRequest_settles `{L : RuntimeLaws} len o target :
  settles (fun r => internalBinaryRead r len o target).
Proof. apply readLoop_settles. intros no wt m r. unfold switch. split_number no; settle. Qed.
#[global] Hint Resolve AppendRequest_settles : pgapp.

Lemma AppendRequest_codes `{L : RuntimeLaws} m : wf m ->
  message_codes (fun w => internalBinaryWrite m w defaultWriteOptions)
    (fun r len => internalBinaryRead r len defaultReadOptions None) (encode m) m.
Proof.
  intros (Hf & Hu). codec_open m Hf. apply (message_intro (switch defaultReadOptions)).
  unfold internalBinaryWrite, encode, encode_message, fields. cbn [foldr].
  do 4 codec_step.
  codec_reduce. apply (codes_unknown _ unknown set_unknown typeName 4); 
    first [codec_side | codec_default switch].
Qed.

#[global] Instance message_type : MessageType t := {|
  mt_typeName := typeName; mt_new := new; mt_read RT := @internalBinaryRead RT;
  mt_write RT := @internalBinaryWrite RT; mt_encode := encode; mt_wf := wf |}.
#[global] Instance lawful : LawfulMessage t :=
  {| mt_codes := @AppendRequest_codes; mt_settles := @AppendRequest_settles |}.

End AppendRequest.

(** ** Message [AppendResponse] *)
Module AppendResponse.

(** [interface AppendResponse], with the fields the decoder did not know *)
Record t := mk {
  length_ : jsstr;
  unknown : list UnknownField
}.

Definition set_length (x : jsstr) (m : t) : t :=
  mk x m.(unknown).
Definition set_unknown (x : list UnknownField) (m : t) : t :=
  mk m.(length_) x.

Definition typeName : jsstr := js "pgapp.v1.AppendResponse".

(** [PartialMessage<AppendResponse>] and the effect of merging one *)
Record PartialMessage := mkPartial {
  p_length : option jsstr
}.
#[global] Instance info : MessageInfo t PartialMessage := {|
  overlay m p := mk
    (default m.(length_) p.(p_length))
    m.(unknown)
|}.
(** A complete message used as a partial one *)
Definition as_partial (m : t) : PartialMessage :=
  mkPartial (Some m.(length_)).

(** The message prototype with every field at its default *)
Definition new : t :=
  mk (js "0") [].
Definition create `{RT : BinaryRuntime} (value : option PartialMessage) : t :=
  match value with
  | Some value => reflectionMergePartial info new value
  | None => new
  end.

(** The cases of [internalBinaryRead] *)
Definition switch `{RT : BinaryRuntime} (options : BinaryReadOptions) (fieldNo : Z)
    (wireType : WireType) (message : t) (reader : IBinaryReader) : result (t * IBinaryReader) :=
  match fieldNo with
  | 1 => '(v, reader) ← r_int64_string reader; Ok (set_length v message, reader)
  | _ =>
      '(u, reader) ← readUnknown options typeName fieldNo wireType message.(unknown) reader;
      Ok (set_unknown u message, reader)
  end.

Definition internalBinaryRead `{RT : BinaryRuntime} (reader : IBinaryReader) (length : Z)
    (options : BinaryReadOptions) (target : option t) : result (t * IBinaryReader) :=
  let message := default (create None) target in
  readLoop (loop_fuel length) (switch options) (r_pos reader + length) message reader.

Definition internalBinaryWrite `{RT : BinaryRuntime} (message : t) (writer : IBinaryWriter)
    (options : BinaryWriteOptions) : result IBinaryWriter :=
  writer ← (if negb (bool_decide (message.(length_) = js "0"))
     then w_int64 message.(length_) (w_tag 1 Varint writer) else Ok writer);
  writeUnknown options typeName message.(unknown) writer.

(** The field table of the constructor, with the values of a message *)
Definition fields (m : t) : list wfield :=
  [FInt64 1 m.(length_)].
Definition encode (m : t) : bytes := encode_message (fields m) m.(unknown).
Definition wf (m : t) : Prop :=
  forallb ok_field (fields m) = true
  /\ Forall (fun u => wf_unknown u /\ 1 < uf_no u) m.(unknown).

Lemma AppendResponse_settles `{L : RuntimeLaws} len o target :
  settles (fun r => internalBinaryRead r len o target).
Proof. apply readLoop_settles. intros no wt m r. unfold switch. split_number no; settle. Qed.
#[global] Hint Resolve AppendResponse_settles : pgapp.

Lemma AppendResponse_codes `{L : RuntimeLaws} m : wf m ->
  message_codes (fun w => internalBinaryWrite m w defaultWriteOptions)
    (fun r len => internalBinaryRead r len defaultReadOptions None) (encode m) m.
Proof.
  intros (Hf & Hu). codec_open m Hf. apply (message_intro (switch defaultReadOptions)).
  unfold internalBinaryWrite, encode, encode_message, fields. cbn [foldr].
  codec_step.
  codec_reduce. apply (codes_unknown _ unknown set_unknown typeName 1); 
    first [codec_side | codec_default switch].
Qed.

#[global] Instance message_type : MessageType t := {|
  mt_typeName := typeName; mt_new := new; mt_read RT := @internalBinaryRead RT;
  mt_write RT := @internalBinaryWrite RT; mt_encode := encode; mt_wf := wf |}.
#[global] Instance lawful : LawfulMessage t :=
  {| mt_codes := @AppendResponse_codes; mt_settles := @AppendResponse_settles |}.

End AppendResponse.

(** ** Message [PrependRequest] *)
Module PrependRequest.

(** [interface PrependRequest], with the fields the decoder did not know *)
Record t := mk {
  namespace : jsstr;
  key : jsstr;
  value : bytes;
  ttlSeconds : jsstr;
  unknown : list UnknownField
}.

Definition set_namespace (x : jsstr) (m : t) : t :=
  mk x m.(key) m.(value) m.(ttlSeconds) m.(unknown).
Definition set_key (x : jsstr) (m : t) : t :=
  mk m.(namespace) x m.(value) m.(ttlSeconds) m.(unknown).
Definition set_value (x : bytes) (m : t) : t :=
  mk m.(namespace) m.(key) x m.(ttlSeconds) m.(unknown).
Definition set_ttlSeconds (x : jsstr) (m : t) : t :=
  mk m.(namespace) m.(key) m.(value) x m.(unknown).
Definition set_unknown (x : list UnknownField) (m : t) : t :=
  mk m.(namespace) m.(key) m.(value) m.(ttlSeconds) x.

Definition typeName : jsstr := js "pgapp.v1.PrependRequest".

(** [PartialMessage<PrependRequest>] and the effect of merging one *)
Record PartialMessage := mkPartial {
  p_namespace : option jsstr;
  p_key : option jsstr;
  p_value : option bytes;
  p_ttlSeconds : option jsstr
}.
#[global] Instance info : MessageInfo t PartialMessage := {|
  overlay m p := mk
    (default m.(namespace) p.(p_namespace))
    (default m.(key) p.(p_key))
    (default m.(value) p.(p_value))
    (default m.(ttlSeconds) p.(p_ttlSeconds))
    m.(unknown)
|}.
(** A complete message used as a partial one *)
Definition as_partial (m : t) : PartialMessage :=
  mkPartial (Some m.(namespace)) (Some m.(key)) (Some m.(value)) (Some m.(ttlSeconds)).

(** The message prototype with every field at its default *)
Definition new : t :=
  mk (js "") (js "") [] (js "0") [].
Definition create `{RT : BinaryRuntime} (value : option PartialMessage) : t :=
  match value with
  | Some value => reflectionMergePartial info new value
  | None => new
  end.

(** The cases of [internalBinaryRead] *)
Definition switch `{RT : BinaryRuntime} (options : BinaryReadOptions) (fieldNo : Z)
    (wireType : WireType) (message : t) (reader : IBinaryReader) : result (t * IBinaryReader) :=
  match fieldNo with
  | 1 => '(v, reader) ← r_string reader; Ok (set_namespace v message, reader)
  | 2 => '(v, reader) ← r_string reader; Ok (set_key v message, reader)
  | 3 => '(v, reader) ← r_bytes reader; Ok (set_value v message, reader)
  | 4 => '(v, reader) ← r_int64_string reader; Ok (set_ttlSeconds v message, reader)
  | _ =>
      '(u, reader) ← readUnknown options typeName fieldNo wireType message.(unknown) reader;
      Ok (set_unknown u message, reader)
  end.

Definition internalBinaryRead `{RT : BinaryRuntime} (reader : IBinaryReader) (length : Z)
    (options : BinaryReadOptions) (target : option t) : result (t * IBinaryReader) :=
  let message := default (create None) target in
  readLoop (loop_fuel length) (switch options) (r_pos reader + length) message reader.

Definition internalBinaryWrite `{RT : BinaryRuntime} (message : t) (writer : IBinaryWriter)
    (options : BinaryWriteOptions) : result IBinaryWriter :=
  writer ← (if negb (bool_decide (message.(namespace) = js ""))
     then w_string message.(namespace) (w_tag 1 LengthDelimited writer) else Ok writer);
  writer ← (if negb (bool_decide (message.(key) = js ""))
     then w_string message.(key) (w_tag 2 LengthDelimited writer) else Ok writer);
  writer ← (if negb (Nat.eqb (length message.(value)) 0)
     then w_bytes message.(value) (w_tag 3 LengthDelimited writer) else Ok writer);
  writer ← (if negb (bool_decide (message.(ttlSeconds) = js "0"))
     then w_int64 message.(ttlSeconds) (w_tag 4 Varint writer) else Ok writer);
  writeUnknown options typeName message.(unknown) writer.

(** The field table of the constructor, with the values of a message *)
Definition fields (m : t) : list wfield :=
  [FString 1 m.(namespace);
   FString 2 m.(key);
   FBytes 3 m.(value);
   FInt64 4 m.(ttlSeconds)].
Definition encode (m : t) : bytes := encode_message (fields m) m.(unknown).
Definition wf (m : t) : Prop :=
  forallb ok_field (fields m) = true
  /\ Forall (fun u => wf_unknown u /\ 4 < uf_no u) m.(unknown).

Lemma PrependRequest_settles `{L : RuntimeLaws} len o target :
  settles (fun r => internalBinaryRead r len o target).
Proof. apply readLoop_settles. intros no wt m r. unfold switch. split_number no; settle. Qed.
#[global] Hint Resolve PrependRequest_settles : pgapp.

Lemma PrependRequest_codes `{L : RuntimeLaws} m : wf m ->
  message_codes (fun w => internalBinaryWrite m w defaultWriteOptions)
    (fun r len => internalBinaryRead r len defaultReadOptions None) (encode m) m.
Proof.
  intros (Hf & Hu). codec_open m Hf. apply (message_intro (switch defaultReadOptions)).
  unfold internalBinaryWrite, encode, encode_message, fields. cbn [foldr].
  do 4 codec_step.
  codec_reduce. apply (codes_unknown _ unknown set_unknown typeName 4); 
    first [codec_side | codec_default switch].
Qed.

#[global] Instance message_type : MessageType t := {|
  mt_typeName := typeName; mt_new := new; mt_read RT := @internalBinaryRead RT;
  mt_write RT := @internalBinaryWrite RT; mt_encode := encode; mt_wf := wf |}.
#[global] Instance lawful : LawfulMessage t :=
  {| mt_codes := @PrependRequest_codes; mt_settles := @PrependRequest_settles |}.

End PrependRequest.

(** ** Message [PrependResponse] *)
Module PrependResponse.

(** [interface PrependResponse], with the fields the decoder did not know *)
Record t := mk {
  length_ : jsstr;
  unknown : list UnknownField
}.

Definition set_length (x : jsstr) (m : t) : t :=
  mk x m.(unknown).
Definition set_unknown (x : list UnknownField) (m : t) : t :=
  mk m.(length_) x.

Definition typeName : jsstr := js "pgapp.v1.PrependResponse".

(** [PartialMessage<PrependResponse>] and the effect of merging one *)
Record PartialMessage := mkPartial {
  p_length : option jsstr
}.
#[global] Instance info : MessageInfo t PartialMessage := {|
  overlay m p := mk
    (default m.(length_) p.(p_length))
    m.(unknown)
|}.
(** A complete message used as a partial one *)
Definition as_partial (m : t) : PartialMessage :=
  mkPartial (Some m.(length_)).

(** The message prototype with every field at its default *)
Definition new : t :=
  mk (js "0") [].
Definition create `{RT : BinaryRuntime} (value : option PartialMessage) : t :=
  match value with
  | Some value => reflectionMergePartial info new value
  | None => new
  end.

(** The cases of [internalBinaryRead] *)
Definition switch `{RT : BinaryRuntime} (options : BinaryReadOptions) (fieldNo : Z)
    (wireType : WireType) (message : t) (reader : IBinaryReader) : result (t * IBinaryReader) :=
  match fieldNo with
  | 1 => '(v, reader) ← r_int64_string reader; Ok (set_length v message, reader)
  | _ =>
      '(u, reader) ← readUnknown options typeName fieldNo wireType message.(unknown) reader;
      Ok (set_unknown u message, reader)
  end.

Definition internalBinaryRead `{RT : BinaryRuntime} (reader : IBinaryReader) (length : Z)
    (options : BinaryReadOptions) (target : option t) : result (t * IBinaryReader) :=
  let message := default (create None) target in
  readLoop (loop_fuel length) (switch options) (r_pos reader + length) message reader.

Definition internalBinaryWrite `{RT : BinaryRuntime} (message : t) (writer : IBinaryWriter)
    (options : BinaryWriteOptions) : result IBinaryWriter :=
  writer ← (if negb (bool_decide (message.(length_) = js "0"))
     then w_int64 message.(length_) (w_tag 1 Varint writer) else Ok writer);
  writeUnknown options typeName message.(unknown) writer.

(** The field table of the constructor, with the values of a message *)
Definition fields (m : t) : list wfield :=
  [FInt64 1 m.(length_)].
Definition encode (m : t) : bytes := encode_message (fields m) m.(unknown).
Definition wf (m : t) : Prop :=
  forallb ok_field (fields m) = true
  /\ Forall (fun u => wf_unknown u /\ 1 < uf_no u) m.(unknown).

Lemma PrependResponse_settles `{L : RuntimeLaws} len o target :
  settles (fun r => internalBinaryRead r len o target).
Proof. apply readLoop_settles. intros no wt m r. unfold switch. split_number no; settle. Qed.
#[global] Hint Resolve PrependResponse_settles : pgapp.

Lemma PrependResponse_codes `{L : RuntimeLaws} m : wf m ->
  message_codes (fun w => internalBinaryWrite m w defaultWriteOptions)
    (fun r len => internalBinaryRead r len defaultReadOptions None) (encode m) m.
Proof.
  intros (Hf & Hu). codec_open m Hf. apply (message_intro (switch defaultReadOptions)).
  unfold internalBinaryWrite, encode, encode_message, fields. cbn [foldr].
  codec_step.
  codec_reduce. apply (codes_unknown _ unknown set_unknown typeName 1); 
    first [codec_side | codec_default switch].
Qed.

#[global] Instance message_type : MessageType t := {|
  mt_typeName := typeName; mt_new := new; mt_read RT := @internalBinaryRead RT;
  mt_write RT := @internalBinaryWrite RT; mt_encode := encode; mt_wf := wf |}.
#[global] Instance lawful : LawfulMessage t :=
  {| mt_codes := @PrependResponse_codes; mt_settles := @PrependResponse_settles |}.

End PrependResponse.
