(* ===== verification/MqMessages.v ===== *)
(** * Message types of [gen/pgapp/v1/mq.ts]

    The requests and responses of the queue service and its dead-letter queue.  Each module is one
    generated message type: its interface, [create], [internalBinaryRead] and
    [internalBinaryWrite], the encoding its field table prescribes, and the
    proofs that the type is lawful. *)

From Stdlib Require Import ZArith Lia.
From stdpp Require Import base list numbers option strings.
From S2P Require Import Prelude JsString JsNumber WireFormat ProtoRuntime Codec CommonMessages.

(** ** Enum [QueueStorageMode]: its values are numbers, and other numbers can be received. *)
Module QueueStorageMode.
Definition UNSPECIFIED : number := Num.of_Z 0.
Definition DURABLE : number := Num.of_Z 1.
Definition TRANSIENT : number := Num.of_Z 2.
End QueueStorageMode.

(** ** Message [CreateQueueRequest] *)
Module CreateQueueRequest.

(** [interface CreateQueueRequest], with the fields the decoder did not know *)
Record t := mk {
  queueName : jsstr;
  storageMode : number;
  unknown : list UnknownField
}.

Definition set_queueName (x : jsstr) (m : t) : t :=
  mk x m.(storageMode) m.(unknown).
Definition set_storageMode (x : number) (m : t) : t :=
  mk m.(queueName) x m.(unknown).
Definition set_unknown (x : list UnknownField) (m : t) : t :=
  mk m.(queueName) m.(storageMode) x.

Definition typeName : jsstr := js "pgapp.v1.CreateQueueRequest".

(** [PartialMessage<CreateQueueRequest>] and the effect of merging one *)
Record PartialMessage := mkPartial {
  p_queueName : option jsstr;
  p_storageMode : option number
}.
#[global] Instance info : MessageInfo t PartialMessage := {|
  overlay m p := mk
    (default m.(queueName) p.(p_queueName))
    (default m.(storageMode) p.(p_storageMode))
    m.(unknown)
|}.
(** A complete message used as a partial one *)
Definition as_partial (m : t) : PartialMessage :=
  mkPartial (Some m.(queueName)) (Some m.(storageMode)).

(** The message prototype with every field at its default *)
Definition new : t :=
  mk (js "") (Finite 0 0) [].
Definition create `{RT : BinaryRuntime} (value : option PartialMessage) : t :=
  match value with
  | Some value => reflectionMergePartial info new value
  | None => new
  end.

(** The cases of [internalBinaryRead] *)
Definition switch `{RT : BinaryRuntime} (options : BinaryReadOptions) (fieldNo : Z)
    (wireType : WireType) (message : t) (reader : IBinaryReader) : result (t * IBinaryReader) :=
  match fieldNo with
  | 1 => '(v, reader) ← r_string reader; Ok (set_queueName v message, reader)
  | 2 => '(v, reader) ← r_int32 reader; Ok (set_storageMode (Num.of_Z v) message, reader)
  | _ =>
      '(u, reader) ← readUnknown options typeName fieldNo wireType message.(unknown) reader;
      Ok (set_unknown u message, reader)
  end.

Definition internalBinaryRead `{RT : BinaryRuntime} (reader : IBinaryReader) (length : Z)
    (options : BinaryReadOptions) (target : option t) : result (t * IBinaryReader) :=
  let message := default (create None) target in
  readLoop (loop_fuel length) (switch options) (r_pos reader + length) message reader.

Definition internalBinaryWrite `{RT : BinaryRuntime} (message : t) (writer : IBinaryWriter)
    (options : BinaryWriteOptions) : result IBinaryWriter :=
  writer ← (if negb (bool_decide (message.(queueName) = js ""))
     then w_string message.(queueName) (w_tag 1 LengthDelimited writer) else Ok writer);
  writer ← (if negb (Num.eqb message.(storageMode) (Finite 0 0))
     then w_int32 message.(storageMode) (w_tag 2 Varint writer) else Ok writer);
  writeUnknown options typeName message.(unknown) writer.

(** The field table of the constructor, with the values of a message *)
Definition fields (m : t) : list wfield :=
  [FString 1 m.(queueName);
   FInt32 2 m.(storageMode)].
Definition encode (m : t) : bytes := encode_message (fields m) m.(unknown).
Definition wf (m : t) : Prop :=
  forallb ok_field (fields m) = true
  /\ Forall (fun u => wf_unknown u /\ 2 < uf_no u) m.(unknown).

Lemma CreateQueueRequest_settles `{L : RuntimeLaws} len o target :
  settles (fun r => internalBinaryRead r len o target).
Proof. apply readLoop_settles. intros no wt m r. unfold switch. split_number no; settle. Qed.
#[global] Hint Resolve CreateQueueRequest_settles : pgapp.

Lemma CreateQueueRequest_codes `{L : RuntimeLaws} m : wf m ->
  message_codes (fun w => internalBinaryWrite m w defaultWriteOptions)
    (fun r len => internalBinaryRead r len defaultReadOptions None) (encode m) m.
Proof.
  intros (Hf & Hu). codec_open m Hf. apply (message_intro (switch defaultReadOptions)).
  unfold internalBinaryWrite, encode, encode_message, fields. cbn [foldr].
  do 2 codec_step.
  codec_reduce. apply (codes_unknown _ unknown set_unknown typeName 2); 
    first [codec_side | codec_default switch].
Qed.

#[global] Instance message_type : MessageType t := {|
  mt_typeName := typeName; mt_new := new; mt_read RT := @internalBinaryRead RT;
  mt_write RT := @internalBinaryWrite RT; mt_encode := encode; mt_wf := wf |}.
#[global] Instance lawful : LawfulMessage t :=
  {| mt_codes := @CreateQueueRequest_codes; mt_settles := @CreateQueueRequest_settles |}.

End CreateQueueRequest.

(** ** Message [PurgeQueueRequest] *)
Module PurgeQueueRequest.

(** [interface PurgeQueueRequest], with the fields the decoder did not know *)
Record t := mk {
  queueName : jsstr;
  unknown : list UnknownField
}.

Definition set_queueName (x : jsstr) (m : t) : t :=
  mk x m.(unknown).
Definition set_unknown (x : list UnknownField) (m : t) : t :=
  mk m.(queueName) x.

Definition typeName : jsstr := js "pgapp.v1.PurgeQueueRequest".

(** [PartialMessage<PurgeQueueRequest>] and the effect of merging one *)
Record PartialMessage := mkPartial {
  p_queueName : option jsstr
}.
#[global] Instance info : MessageInfo t PartialMessage := {|
  overlay m p := mk
    (default m.(queueName) p.(p_queueName))
    m.(unknown)
|}.
(** A complete message used as a partial one *)
Definition as_partial (m : t) : PartialMessage :=
  mkPartial (Some m.(queueName)).

(** The message prototype with every field at its default *)
Definition new : t :=
  mk (js "") [].
Definition create `{RT : BinaryRuntime} (value : option PartialMessage) : t :=
  match value with
  | Some value => reflectionMergePartial info new value
  | None => new
  end.

(** The cases of [internalBinaryRead] *)
Definition switch `{RT : BinaryRuntime} (options : BinaryReadOptions) (fieldNo : Z)
    (wireType : WireType) (message : t) (reader : IBinaryReader) : result (t * IBinaryReader) :=
  match fieldNo with
  | 1 => '(v, reader) ← r_string reader; Ok (set_queueName v message, reader)
  | _ =>
      '(u, reader) ← readUnknown options typeName fieldNo wireType message.(unknown) reader;
      Ok (set_unknown u message, reader)
  end.

Definition internalBinaryRead `{RT : BinaryRuntime} (reader : IBinaryReader) (length : Z)
    (options : BinaryReadOptions) (target : option t) : result (t * IBinaryReader) :=
  let message := default (create None) target in
  readLoop (loop_fuel length) (switch options) (r_pos reader + length) message reader.

Definition internalBinaryWrite `{RT : BinaryRuntime} (message : t) (writer : IBinaryWriter)
    (options : BinaryWriteOptions) : result IBinaryWriter :=
  writer ← (if negb (bool_decide (message.(queueName) = js ""))
     then w_string message.(queueName) (w_tag 1 LengthDelimited writer) else Ok writer);
  writeUnknown options typeName message.(unknown) writer.

(** The field table of the constructor, with the values of a message *)
Definition fields (m : t) : list wfield :=
  [FString 1 m.(queueName)].
Definition encode (m : t) : bytes := encode_message (fields m) m.(unknown).
Definition wf (m : t) : Prop :=
  forallb ok_field (fields m) = true
  /\ Forall (fun u => wf_unknown u /\ 1 < uf_no u) m.(unknown).

Lemma PurgeQueueRequest_settles `{L : RuntimeLaws} len o target :
  settles (fun r => internalBinaryRead r len o target).
Proof. apply readLoop_settles. intros no wt m r. unfold switch. split_number no; settle. Qed.
#[global] Hint Resolve PurgeQueueRequest_settles : pgapp.

Lemma PurgeQueueRequest_codes `{L : RuntimeLaws} m : wf m ->
  message_codes (fun w => internalBinaryWrite m w defaultWriteOptions)
    (fun r len => internalBinaryRead r len defaultReadOptions None) (encode m) m.
Proof.
  intros (Hf & Hu). codec_open m Hf. apply (message_intro (switch defaultReadOptions)).
  unfold internalBinaryWrite, encode, encode_message, fields. cbn [foldr].
  codec_step.
  codec_reduce. apply (codes_unknown _ unknown set_unknown typeName 1); 
    first [codec_side | codec_default switch].
Qed.

#[global] Instance message_type : MessageType t := {|
  mt_typeName := typeName; mt_new := new; mt_read RT := @internalBinaryRead RT;
  mt_write RT := @internalBinaryWrite RT; mt_encode := encode; mt_wf := wf |}.
#[global] Instance lawful : LawfulMessage t :=
  {| mt_codes := @PurgeQueueRequest_codes; mt_settles := @PurgeQueueRequest_settles |}.

End PurgeQueueRequest.

(** ** Message [DropQueueRequest] *)
Module DropQueueRequest.

(** [interface DropQueueRequest], with the fields the decoder did not know *)
Record t := mk {
  queueName : jsstr;
  unknown : list UnknownField
}.

Definition set_queueName (x : jsstr) (m : t) : t :=
  mk x m.(unknown).
Definition set_unknown (x : list UnknownField) (m : t) : t :=
  mk m.(queueName) x.

Definition typeName : jsstr := js "pgapp.v1.DropQueueRequest".

(** [PartialMessage<DropQueueRequest>] and the effect of merging one *)
Record PartialMessage := mkPartial {
  p_queueName : option jsstr
}.
#[global] Instance info : MessageInfo t PartialMessage := {|
  overlay m p := mk
    (default m.(queueName) p.(p_queueName))
    m.(unknown)
|}.
(** A complete message used as a partial one *)
Definition as_partial (m : t) : PartialMessage :=
  mkPartial (Some m.(queueName)).

(** The message prototype with every field at its default *)
Definition new : t :=
  mk (js "") [].
Definition create `{RT : BinaryRuntime} (value : option PartialMessage) : t :=
  match value with
  | Some value => reflectionMergePartial info new value
  | None => new
  end.

(** The cases of [internalBinaryRead] *)
Definition switch `{RT : BinaryRuntime} (options : BinaryReadOptions) (fieldNo : Z)
    (wireType : WireType) (message : t) (reader : IBinaryReader) : result (t * IBinaryReader) :=
  match fieldNo with
  | 1 => '(v, reader) ← r_string reader; Ok (set_queueName v message, reader)
  | _ =>
      '(u, reader) ← readUnknown options typeName fieldNo wireType message.(unknown) reader;
      Ok (set_unknown u message, reader)
  end.

Definition internalBinaryRead `{RT : BinaryRuntime} (reader : IBinaryReader) (length : Z)
    (options : BinaryReadOptions) (target : option t) : result (t * IBinaryReader) :=
  let message := default (create None) target in
  readLoop (loop_fuel length) (switch options) (r_pos reader + length) message reader.

Definition internalBinaryWrite `{RT : BinaryRuntime} (message : t) (writer : IBinaryWriter)
    (options : BinaryWriteOptions) : result IBinaryWriter :=
  writer ← (if negb (bool_decide (message.(queueName) = js ""))
     then w_string message.(queueName) (w_tag 1 LengthDelimited writer) else Ok writer);
  writeUnknown options typeName message.(unknown) writer.

(** The field table of the constructor, with the values of a message *)
Definition fields (m : t) : list wfield :=
  [FString 1 m.(queueName)].
Definition encode (m : t) : bytes := encode_message (fields m) m.(unknown).
Definition wf (m : t) : Prop :=
  forallb ok_field (fields m) = true
  /\ Forall (fun u => wf_unknown u /\ 1 < uf_no u) m.(unknown).

Lemma DropQueueRequest_settles `{L : RuntimeLaws} len o target :
  settles (fun r => internalBinaryRead r len o target).
Proof. apply readLoop_settles. intros no wt m r. unfold switch. split_number no; settle. Qed.
#[global] Hint Resolve DropQueueRequest_settles : pgapp.

Lemma DropQueueRequest_codes `{L : RuntimeLaws} m : wf m ->
  message_codes (fun w => internalBinaryWrite m w defaultWriteOptions)
    (fun r len => internalBinaryRead r len defaultReadOptions None) (encode m) m.
Proof.
  intros (Hf & Hu). codec_open m Hf. apply (message_intro (switch defaultReadOptions)).
  unfold internalBinaryWrite, encode, encode_message, fields. cbn [foldr].
  codec_step.
  codec_reduce. apply (codes_unknown _ unknown set_unknown typeName 1); 
    first [codec_side | codec_default switch].
Qed.

#[global] Instance message_type : MessageType t := {|
  mt_typeName := typeName; mt_new := new; mt_read RT := @internalBinaryRead RT;
  mt_write RT := @internalBinaryWrite RT; mt_encode := encode; mt_wf := wf |}.
#[global] Instance lawful : LawfulMessage t :=
  {| mt_codes := @DropQueueRequest_codes; mt_settles := @DropQueueRequest_settles |}.

End DropQueueRequest.

(** ** Message [SendMessageRequest] *)
Module SendMessageRequest.

(** [interface SendMessageRequest], with the fields the decoder did not know *)
Record t := mk {
  queueName : jsstr;
  jsonPayload : jsstr;
  delaySeconds : jsstr;
  unknown : list UnknownField
}.

Definition set_queueName (x : jsstr) (m : t) : t :=
  mk x m.(jsonPayload) m.(delaySeconds) m.(unknown).
Definition set_jsonPayload (x : jsstr) (m : t) : t :=
  mk m.(queueName) x m.(delaySeconds) m.(unknown).
Definition set_delaySeconds (x : jsstr) (m : t) : t :=
  mk m.(queueName) m.(jsonPayload) x m.(unknown).
Definition set_unknown (x : list UnknownField) (m : t) : t :=
  mk m.(queueName) m.(jsonPayload) m.(delaySeconds) x.

Definition typeName : jsstr := js "pgapp.v1.SendMessageRequest".

(** [PartialMessage<SendMessageRequest>] and the effect of merging one *)
Record PartialMessage := mkPartial {
  p_queueName : option jsstr;
  p_jsonPayload : option jsstr;
  p_delaySeconds : option jsstr
}.
#[global] Instance info : MessageInfo t PartialMessage := {|
  overlay m p := mk
    (default m.(queueName) p.(p_queueName))
    (default m.(jsonPayload) p.(p_jsonPayload))
    (default m.(delaySeconds) p.(p_delaySeconds))
    m.(unknown)
|}.
(** A complete message used as a partial one *)
Definition as_partial (m : t) : PartialMessage :=
  mkPartial (Some m.(queueName)) (Some m.(jsonPayload)) (Some m.(delaySeconds)).

(** The message prototype with every field at its default *)
Definition new : t :=
  mk (js "") (js "") (js "0") [].
Definition create `{RT : BinaryRuntime} (value : option PartialMessage) : t :=
  match value with
  | Some value => reflectionMergePartial info new value
  | None => new
  end.

(** The cases of [internalBinaryRead] *)
Definition switch `{RT : BinaryRuntime} (options : BinaryReadOptions) (fieldNo : Z)
    (wireType : WireType) (message : t) (reader : IBinaryReader) : result (t * IBinaryReader) :=
  match fieldNo with
  | 1 => '(v, reader) ← r_string reader; Ok (set_queueName v message, reader)
  | 2 => '(v, reader) ← r_string reader; Ok (set_jsonPayload v message, reader)
  | 3 => '(v, reader) ← r_int64_string reader; Ok (set_delaySeconds v message, reader)
  | _ =>
      '(u, reader) ← readUnknown options typeName fieldNo wireType message.(unknown) reader;
      Ok (set_unknown u message, reader)
  end.

Definition internalBinaryRead `{RT : BinaryRuntime} (reader : IBinaryReader) (length : Z)
    (options : BinaryReadOptions) (target : option t) : result (t * IBinaryReader) :=
  let message := default (create None) target in
  readLoop (loop_fuel length) (switch options) (r_pos reader + length) message reader.

Definition internalBinaryWrite `{RT : BinaryRuntime} (message : t) (writer : IBinaryWriter)
    (options : BinaryWriteOptions) : result IBinaryWriter :=
  writer ← (if negb (bool_decide (message.(queueName) = js ""))
     then w_string message.(queueName) (w_tag 1 LengthDelimited writer) else Ok writer);
  writer ← (if negb (bool_decide (message.(jsonPayload) = js ""))
     then w_string message.(jsonPayload) (w_tag 2 LengthDelimited writer) else Ok writer);
  writer ← (if negb (bool_decide (message.(delaySeconds) = js "0"))
     then w_int64 message.(delaySeconds) (w_tag 3 Varint writer) else Ok writer);
  writeUnknown options typeName message.(unknown) writer.

(** The field table of the constructor, with the values of a message *)
Definition fields (m : t) : list wfield :=
  [FString 1 m.(queueName);
   FString 2 m.(jsonPayload);
   FInt64 3 m.(delaySeconds)].
Definition encode (m : t) : bytes := encode_message (fields m) m.(unknown).
Definition wf (m : t) : Prop :=
  forallb ok_field (fields m) = true
  /\ Forall (fun u => wf_unknown u /\ 3 < uf_no u) m.(unknown).

Lemma SendMessageRequest_settles `{L : RuntimeLaws} len o target :
  settles (fun r => internalBinaryRead r len o target).
Proof. apply readLoop_settles. intros no wt m r. unfold switch. split_number no; settle. Qed.
#[global] Hint Resolve SendMessageRequest_settles : pgapp.

Lemma SendMessageRequest_codes `{L : RuntimeLaws} m : wf m ->
  message_codes (fun w => internalBinaryWrite m w defaultWriteOptions)
    (fun r len => internalBinaryRead r len defaultReadOptions None) (encode m) m.
Proof.
  intros (Hf & Hu). codec_open m Hf. apply (message_intro (switch defaultReadOptions)).
  unfold internalBinaryWrite, encode, encode_message, fields. cbn [foldr].
  do 3 codec_step.
  codec_reduce. apply (codes_unknown _ unknown set_unknown typeName 3); 
    first [codec_side | codec_default switch].
Qed.

#[global] Instance message_type : MessageType t := {|
  mt_typeName := typeName; mt_new := new; mt_read RT := @internalBinaryRead RT;
  mt_write RT := @internalBinaryWrite RT; mt_encode := encode; mt_wf := wf |}.
#[global] Instance lawful : LawfulMessage t :=
  {| mt_codes := @SendMessageRequest_codes; mt_settles := @SendMessageRequest_settles |}.

End SendMessageRequest.

(** ** Message [SendMessageResponse] *)
Module SendMessageResponse.

(** [interface SendMessageResponse], with the fields the decoder did not know *)
Record t := mk {
  messageId : jsstr;
  unknown : list UnknownField
}.

Definition set_messageId (x : jsstr) (m : t) : t :=
  mk x m.(unknown).
Definition set_unknown (x : list UnknownField) (m : t) : t :=
  mk m.(messageId) x.

Definition typeName : jsstr := js "pgapp.v1.SendMessageResponse".

(** [PartialMessage<SendMessageResponse>] and the effect of merging one *)
Record PartialMessage := mkPartial {
  p_messageId : option jsstr
}.
#[global] Instance info : MessageInfo t PartialMessage := {|
  overlay m p := mk
    (default m.(messageId) p.(p_messageId))
    m.(unknown)
|}.
(** A complete message used as a partial one *)
Definition as_partial (m : t) : PartialMessage :=
  mkPartial (Some m.(messageId)).

(** The message prototype with every field at its default *)
Definition new : t :=
  mk (js "0") [].
Definition create `{RT : BinaryRuntime} (value : option PartialMessage) : t :=
  match value with
  | Some value => reflectionMergePartial info new value
  | None => new
  end.

(** The cases of [internalBinaryRead] *)
Definition switch `{RT : BinaryRuntime} (options : BinaryReadOptions) (fieldNo : Z)
    (wireType : WireType) (message : t) (reader : IBinaryReader) : result (t * IBinaryReader) :=
  match fieldNo with
  | 1 => '(v, reader) ← r_int64_string reader; Ok (set_messageId v message, reader)
  | _ =>
      '(u, reader) ← readUnknown options typeName fieldNo wireType message.(unknown) reader;
      Ok (set_unknown u message, reader)
  end.

Definition internalBinaryRead `{RT : BinaryRuntime} (reader : IBinaryReader) (length : Z)
    (options : BinaryReadOptions) (target : option t) : result (t * IBinaryReader) :=
  let message := default (create None) target in
  readLoop (loop_fuel length) (switch options) (r_pos reader + length) message reader.

Definition internalBinaryWrite `{RT : BinaryRuntime} (message : t) (writer : IBinaryWriter)
    (options : BinaryWriteOptions) : result IBinaryWriter :=
  writer ← (if negb (bool_decide (message.(messageId) = js "0"))
     then w_int64 message.(messageId) (w_tag 1 Varint writer) else Ok writer);
  writeUnknown options typeName message.(unknown) writer.

(** The field table of the constructor, with the values of a message *)
Definition fields (m : t) : list wfield :=
  [FInt64 1 m.(messageId)].
Definition encode (m : t) : bytes := encode_message (fields m) m.(unknown).
Definition wf (m : t) : Prop :=
  forallb ok_field (fields m) = true
  /\ Forall (fun u => wf_unknown u /\ 1 < uf_no u) m.(unknown).

Lemma SendMessageResponse_settles `{L : RuntimeLaws} len o target :
  settles (fun r => internalBinaryRead r len o target).
Proof. apply readLoop_settles. intros no wt m r. unfold switch. split_number no; settle. Qed.
#[global] Hint Resolve SendMessageResponse_settles : pgapp.

Lemma SendMessageResponse_codes `{L : RuntimeLaws} m : wf m ->
  message_codes (fun w => internalBinaryWrite m w defaultWriteOptions)
    (fun r len => internalBinaryRead r len defaultReadOptions None) (encode m) m.
Proof.
  intros (Hf & Hu). codec_open m Hf. apply (message_intro (switch defaultReadOptions)).
  unfold internalBinaryWrite, encode, encode_message, fields. cbn [foldr].
  codec_step.
  codec_reduce. apply (codes_unknown _ unknown set_unknown typeName 1); 
    first [codec_side | codec_default switch].
Qed.

#[global] Instance message_type : MessageType t := {|
  mt_typeName := typeName; mt_new := new; mt_read RT := @internalBinaryRead RT;
  mt_write RT := @internalBinaryWrite RT; mt_encode := encode; mt_wf := wf |}.
#[global] Instance lawful : LawfulMessage t :=
  {| mt_codes := @SendMessageResponse_codes; mt_settles := @SendMessageResponse_settles |}.

End SendMessageResponse.

(** ** Message [SendBatchRequest] *)
Module SendBatchRequest.

(** [interface SendBatchRequest], with the fields the decoder did not know *)
Record t := mk {
  queueName : jsstr;
  jsonPayloads : list jsstr;
  delaySeconds : jsstr;
  unknown : list UnknownField
}.

Definition set_queueName (x : jsstr) (m : t) : t :=
  mk x m.(jsonPayloads) m.(delaySeconds) m.(unknown).
Definition set_jsonPayloads (x : list jsstr) (m : t) : t :=
  mk m.(queueName) x m.(delaySeconds) m.(unknown).
Definition set_delaySeconds (x : jsstr) (m : t) : t :=
  mk m.(queueName) m.(jsonPayloads) x m.(unknown).
Definition set_unknown (x : list UnknownField) (m : t) : t :=
  mk m.(queueName) m.(jsonPayloads) m.(delaySeconds) x.

Definition typeName : jsstr := js "pgapp.v1.SendBatchRequest".

(** [PartialMessage<SendBatchRequest>] and the effect of merging one *)
Record PartialMessage := mkPartial {
  p_queueName : option jsstr;
  p_jsonPayloads : option (list jsstr);
  p_delaySeconds : option jsstr
}.
#[global] Instance info : MessageInfo t PartialMessage := {|
  overlay m p := mk
    (default m.(queueName) p.(p_queueName))
    (default m.(jsonPayloads) p.(p_jsonPayloads))
    (default m.(delaySeconds) p.(p_delaySeconds))
    m.(unknown)
|}.
(** A complete message used as a partial one *)
Definition as_partial (m : t) : PartialMessage :=
  mkPartial (Some m.(queueName)) (Some m.(jsonPayloads)) (Some m.(delaySeconds)).

(** The message prototype with every field at its default *)
Definition new : t :=
  mk (js "") [] (js "0") [].
Definition create `{RT : BinaryRuntime} (value : option PartialMessage) : t :=
  match value with
  | Some value => reflectionMergePartial info new value
  | None => new
  end.

(** The cases of [internalBinaryRead] *)
Definition switch `{RT : BinaryRuntime} (options : BinaryReadOptions) (fieldNo : Z)
    (wireType : WireType) (message : t) (reader : IBinaryReader) : result (t * IBinaryReader) :=
  match fieldNo with
  | 1 => '(v, reader) ← r_string reader; Ok (set_queueName v message, reader)
  | 2 => '(v, reader) ← r_string reader; Ok (set_jsonPayloads (message.(jsonPayloads) ++ [v]) message, reader)
  | 3 => '(v, reader) ← r_int64_string reader; Ok (set_delaySeconds v message, reader)
  | _ =>
      '(u, reader) ← readUnknown options typeName fieldNo wireType message.(unknown) reader;
      Ok (set_unknown u message, reader)
  end.

Definition internalBinaryRead `{RT : BinaryRuntime} (reader : IBinaryReader) (length : Z)
    (options : BinaryReadOptions) (target : option t) : result (t * IBinaryReader) :=
  let message := default (create None) target in
  readLoop (loop_fuel length) (switch options) (r_pos reader + length) message reader.

Definition internalBinaryWrite `{RT : BinaryRuntime} (message : t) (writer : IBinaryWriter)
    (options : BinaryWriteOptions) : result IBinaryWriter :=
  writer ← (if negb (bool_decide (message.(queueName) = js ""))
     then w_string message.(queueName) (w_tag 1 LengthDelimited writer) else Ok writer);
  writer ← writeEach (fun x writer => w_string x (w_tag 2 LengthDelimited writer)) message.(jsonPayloads) writer;
  writer ← (if negb (bool_decide (message.(delaySeconds) = js "0"))
     then w_int64 message.(delaySeconds) (w_tag 3 Varint writer) else Ok writer);
  writeUnknown options typeName message.(unknown) writer.

(** The field table of the constructor, with the values of a message *)
Definition fields (m : t) : list wfield :=
  [FString 1 m.(queueName);
   FRepString 2 m.(jsonPayloads);
   FInt64 3 m.(delaySeconds)].
Definition encode (m : t) : bytes := encode_message (fields m) m.(unknown).
Definition wf (m : t) : Prop :=
  forallb ok_field (fields m) = true
  /\ Forall (fun u => wf_unknown u /\ 3 < uf_no u) m.(unknown).

Lemma SendBatchRequest_settles `{L : RuntimeLaws} len o target :
  settles (fun r => internalBinaryRead r len o target).
Proof. apply readLoop_settles. intros no wt m r. unfold switch. split_number no; settle. Qed.
#[global] Hint Resolve SendBatchRequest_settles : pgapp.

Lemma SendBatchRequest_codes `{L : RuntimeLaws} m : wf m ->
  message_codes (fun w => internalBinaryWrite m w defaultWriteOptions)
    (fun r len => internalBinaryRead r len defaultReadOptions None) (encode m) m.
Proof.
  intros (Hf & Hu). codec_open m Hf. apply (message_intro (switch defaultReadOptions)).
  unfold internalBinaryWrite, encode, encode_message, fields. cbn [foldr].
  codec_step.
  codec_field (codes_rep_string (switch defaultReadOptions) jsonPayloads set_jsonPayloads).
  codec_step.
  codec_reduce. apply (codes_unknown _ unknown set_unknown typeName 3); 
    first [codec_side | codec_default switch].
Qed.

#[global] Instance message_type : MessageType t := {|
  mt_typeName := typeName; mt_new := new; mt_read RT := @internalBinaryRead RT;
  mt_write RT := @internalBinaryWrite RT; mt_encode := encode; mt_wf := wf |}.
#[global] Instance lawful : LawfulMessage t :=
  {| mt_codes := @SendBatchRequest_codes; mt_settles := @SendBatchRequest_settles |}.

End SendBatchRequest.

(** ** Message [SendBatchResponse] *)
Module SendBatchResponse.

(** [interface SendBatchResponse], with the fields the decoder did not know *)
Record t := mk {
  messageIds : list jsstr;
  unknown : list UnknownField
}.

Definition set_messageIds (x : list jsstr) (m : t) : t :=
  mk x m.(unknown).
Definition set_unknown (x : list UnknownField) (m : t) : t :=
  mk m.(messageIds) x.

Definition typeName : jsstr := js "pgapp.v1.SendBatchResponse".

(** [PartialMessage<SendBatchResponse>] and the effect of merging one *)
Record PartialMessage := mkPartial {
  p_messageIds : option (list jsstr)
}.
#[global] Instance info : MessageInfo t PartialMessage := {|
  overlay m p := mk
    (default m.(messageIds) p.(p_messageIds))
    m.(unknown)
|}.
(** A complete message used as a partial one *)
Definition as_partial (m : t) : PartialMessage :=
  mkPartial (Some m.(messageIds)).

(** The message prototype with every field at its default *)
Definition new : t :=
  mk [] [].
Definition create `{RT : BinaryRuntime} (value : option PartialMessage) : t :=
  match value with
  | Some value => reflectionMergePartial info new value
  | None => new
  end.

(** The cases of [internalBinaryRead] *)
Definition switch `{RT : BinaryRuntime} (options : BinaryReadOptions) (fieldNo : Z)
    (wireType : WireType) (message : t) (reader : IBinaryReader) : result (t * IBinaryReader) :=
  match fieldNo with
  | 1 =>
      if bool_decide (wireType = LengthDelimited) then
        '(e, reader) ← r_int32 reader;
        '(l, reader) ← pushLoop (loop_fuel e) r_int64_string (e + r_pos reader) message.(messageIds) reader;
        Ok (set_messageIds l message, reader)
      else
        '(v, reader) ← r_int64_string reader;
        Ok (set_messageIds (message.(messageIds) ++ [v]) message, reader)
  | _ =>
      '(u, reader) ← readUnknown options typeName fieldNo wireType message.(unknown) reader;
      Ok (set_unknown u message, reader)
  end.

Definition internalBinaryRead `{RT : BinaryRuntime} (reader : IBinaryReader) (length : Z)
    (options : BinaryReadOptions) (target : option t) : result (t * IBinaryReader) :=
  let message := default (create None) target in
  readLoop (loop_fuel length) (switch options) (r_pos reader + length) message reader.

Definition internalBinaryWrite `{RT : BinaryRuntime} (message : t) (writer : IBinaryWriter)
    (options : BinaryWriteOptions) : result IBinaryWriter :=
  writer ← (if negb (Nat.eqb (length message.(messageIds)) 0)
     then writer ← writeEach w_int64 message.(messageIds) (w_fork (w_tag 1 LengthDelimited writer));
          w_join writer
     else Ok writer);
  writeUnknown options typeName message.(unknown) writer.

(** The field table of the constructor, with the values of a message *)
Definition fields (m : t) : list wfield :=
  [FPackedInt64 1 m.(messageIds)].
Definition encode (m : t) : bytes := encode_message (fields m) m.(unknown).
Definition wf (m : t) : Prop :=
  forallb ok_field (fields m) = true
  /\ Forall (fun u => wf_unknown u /\ 1 < uf_no u) m.(unknown).

Lemma SendBatchResponse_settles `{L : RuntimeLaws} len o target :
  settles (fun r => internalBinaryRead r len o target).
Proof. apply readLoop_settles. intros no wt m r. unfold switch. split_number no; settle. Qed.
#[global] Hint Resolve SendBatchResponse_settles : pgapp.

Lemma SendBatchResponse_codes `{L : RuntimeLaws} m : wf m ->
  message_codes (fun w => internalBinaryWrite m w defaultWriteOptions)
    (fun r len => internalBinaryRead r len defaultReadOptions None) (encode m) m.
Proof.
  intros (Hf & Hu). codec_open m Hf. apply (message_intro (switch defaultReadOptions)).
  unfold internalBinaryWrite, encode, encode_message, fields. cbn [foldr].
  codec_field (codes_packed_int64 (switch defaultReadOptions) messageIds set_messageIds).
  codec_reduce. apply (codes_unknown _ unknown set_unknown typeName 1); 
    first [codec_side | codec_default switch].
Qed.

#[global] Instance message_type : MessageType t := {|
  mt_typeName := typeName; mt_new := new; mt_read RT := @internalBinaryRead RT;
  mt_write RT := @internalBinaryWrite RT; mt_encode := encode; mt_wf := wf |}.
#[global] Instance lawful : LawfulMessage t :=
  {| mt_codes := @SendBatchResponse_codes; mt_settles := @SendBatchResponse_settles |}.

End SendBatchResponse.

(** ** Message [ReadMessagesRequest] *)
Module ReadMessagesRequest.

(** [interface ReadMessagesRequest], with the fields the decoder did not know *)
Record t := mk {
  queueName : jsstr;
  quantity : number;
  visibilityTimeoutSeconds : jsstr;
  unknown : list UnknownField
}.

Definition set_queueName (x : jsstr) (m : t) : t :=
  mk x m.(quantity) m.(visibilityTimeoutSeconds) m.(unknown).
Definition set_quantity (x : number) (m : t) : t :=
  mk m.(queueName) x m.(visibilityTimeoutSeconds) m.(unknown).
Definition set_visibilityTimeoutSeconds (x : jsstr) (m : t) : t :=
  mk m.(queueName) m.(quantity) x m.(unknown).
Definition set_unknown (x : list UnknownField) (m : t) : t :=
  mk m.(queueName) m.(quantity) m.(visibilityTimeoutSeconds) x.

Definition typeName : jsstr := js "pgapp.v1.ReadMessagesRequest".

(** [PartialMessage<ReadMessagesRequest>] and the effect of merging one *)
Record PartialMessage := mkPartial {
  p_queueName : option jsstr;
  p_quantity : option number;
  p_visibilityTimeoutSeconds : option jsstr
}.
#[global] Instance info : MessageInfo t PartialMessage := {|
  overlay m p := mk
    (default m.(queueName) p.(p_queueName))
    (default m.(quantity) p.(p_quantity))
    (default m.(visibilityTimeoutSeconds) p.(p_visibilityTimeoutSeconds))
    m.(unknown)
|}.
(** A complete message used as a partial one *)
Definition as_partial (m : t) : PartialMessage :=
  mkPartial (Some m.(queueName)) (Some m.(quantity)) (Some m.(visibilityTimeoutSeconds)).

(** The message prototype with every field at its default *)
Definition new : t :=
  mk (js "") (Finite 0 0) (js "0") [].
Definition create `{RT : BinaryRuntime} (value : option PartialMessage) : t :=
  match value with
  | Some value => reflectionMergePartial info new value
  | None => new
  end.

(** The cases of [internalBinaryRead] *)
Definition switch `{RT : BinaryRuntime} (options : BinaryReadOptions) (fieldNo : Z)
    (wireType : WireType) (message : t) (reader : IBinaryReader) : result (t * IBinaryReader) :=
  match fieldNo with
  | 1 => '(v, reader) ← r_string reader; Ok (set_queueName v message, reader)
  | 2 => '(v, reader) ← r_int32 reader; Ok (set_quantity (Num.of_Z v) message, reader)
  | 3 => '(v, reader) ← r_int64_string reader; Ok (set_visibilityTimeoutSeconds v message, reader)
  | _ =>
      '(u, reader) ← readUnknown options typeName fieldNo wireType message.(unknown) reader;
      Ok (set_unknown u message, reader)
  end.

Definition internalBinaryRead `{RT : BinaryRuntime} (reader : IBinaryReader) (length : Z)
    (options : BinaryReadOptions) (target : option t) : result (t * IBinaryReader) :=
  let message := default (create None) target in
  readLoop (loop_fuel length) (switch options) (r_pos reader + length) message reader.

Definition internalBinaryWrite `{RT : BinaryRuntime} (message : t) (writer : IBinaryWriter)
    (options : BinaryWriteOptions) : result IBinaryWriter :=
  writer ← (if negb (bool_decide (message.(queueName) = js ""))
     then w_string message.(queueName) (w_tag 1 LengthDelimited writer) else Ok writer);
  writer ← (if negb (Num.eqb message.(quantity) (Finite 0 0))
     then w_int32 message.(quantity) (w_tag 2 Varint writer) else Ok writer);
  writer ← (if negb (bool_decide (message.(visibilityTimeoutSeconds) = js "0"))
     then w_int64 message.(visibilityTimeoutSeconds) (w_tag 3 Varint writer) else Ok writer);
  writeUnknown options typeName message.(unknown) writer.

(** The field table of the constructor, with the values of a message *)
Definition fields (m : t) : list wfield :=
  [FString 1 m.(queueName);
   FInt32 2 m.(quantity);
   FInt64 3 m.(visibilityTimeoutSeconds)].
Definition encode (m : t) : bytes := encode_message (fields m) m.(unknown).
Definition wf (m : t) : Prop :=
  forallb ok_field (fields m) = true
  /\ Forall (fun u => wf_unknown u /\ 3 < uf_no u) m.(unknown).

Lemma ReadMessagesRequest_settles `{L : RuntimeLaws} len o target :
  settles (fun r => internalBinaryRead r len o target).
Proof. apply readLoop_settles. intros no wt m r. unfold switch. split_number no; settle. Qed.
#[global] Hint Resolve ReadMessagesRequest_settles : pgapp.

Lemma ReadMessagesRequest_codes `{L : RuntimeLaws} m : wf m ->
  message_codes (fun w => internalBinaryWrite m w defaultWriteOptions)
    (fun r len => internalBinaryRead r len defaultReadOptions None) (encode m) m.
Proof.
  intros (Hf & Hu). codec_open m Hf. apply (message_intro (switch defaultReadOptions)).
  unfold internalBinaryWrite, encode, encode_message, fields. cbn [foldr].
  do 3 codec_step.
  codec_reduce. apply (codes_unknown _ unknown set_unknown typeName 3); 
    first [codec_side | codec_default switch].
Qed.

#[global] Instance message_type : MessageType t := {|
  mt_typeName := typeName; mt_new := new; mt_read RT := @internalBinaryRead RT;
  mt_write RT := @internalBinaryWrite RT; mt_encode := encode; mt_wf := wf |}.
#[global] Instance lawful : LawfulMessage t :=
  {| mt_codes := @ReadMessagesRequest_codes; mt_settles := @ReadMessagesRequest_settles |}.

End ReadMessagesRequest.

(** ** Message [ReadWithPollRequest] *)
Module ReadWithPollRequest.

(** [interface ReadWithPollRequest], with the fields the decoder did not know *)
Record t := mk {
  queueName : jsstr;
  quantity : number;
  visibilityTimeoutSeconds : jsstr;
  maxPollSeconds : jsstr;
  pollIntervalMillis : jsstr;
  unknown : list UnknownField
}.

Definition set_queueName (x : jsstr) (m : t) : t :=
  mk x m.(quantity) m.(visibilityTimeoutSeconds) m.(maxPollSeconds) m.(pollIntervalMillis) m.(unknown).
Definition set_quantity (x : number) (m : t) : t :=
  mk m.(queueName) x m.(visibilityTimeoutSeconds) m.(maxPollSeconds) m.(pollIntervalMillis) m.(unknown).
Definition set_visibilityTimeoutSeconds (x : jsstr) (m : t) : t :=
  mk m.(queueName) m.(quantity) x m.(maxPollSeconds) m.(pollIntervalMillis) m.(unknown).
Definition set_maxPollSeconds (x : jsstr) (m : t) : t :=
  mk m.(queueName) m.(quantity) m.(visibilityTimeoutSeconds) x m.(pollIntervalMillis) m.(unknown).
Definition set_pollIntervalMillis (x : jsstr) (m : t) : t :=
  mk m.(queueName) m.(quantity) m.(visibilityTimeoutSeconds) m.(maxPollSeconds) x m.(unknown).
Definition set_unknown (x : list UnknownField) (m : t) : t :=
  mk m.(queueName) m.(quantity) m.(visibilityTimeoutSeconds) m.(maxPollSeconds) m.(pollIntervalMillis) x.

Definition typeName : jsstr := js "pgapp.v1.ReadWithPollRequest".

(** [PartialMessage<ReadWithPollRequest>] and the effect of merging one *)
Record PartialMessage := mkPartial {
  p_queueName : option jsstr;
  p_quantity : option number;
  p_visibilityTimeoutSeconds : option jsstr;
  p_maxPollSeconds : option jsstr;
  p_pollIntervalMillis : option jsstr
}.
#[global] Instance info : MessageInfo t PartialMessage := {|
  overlay m p := mk
    (default m.(queueName) p.(p_queueName))
    (default m.(quantity) p.(p_quantity))
    (default m.(visibilityTimeoutSeconds) p.(p_visibilityTimeoutSeconds))
    (default m.(maxPollSeconds) p.(p_maxPollSeconds))
    (default m.(pollIntervalMillis) p.(p_pollIntervalMillis))
    m.(unknown)
|}.
(** A complete message used as a partial one *)
Definition as_partial (m : t) : PartialMessage :=
  mkPartial (Some m.(queueName)) (Some m.(quantity)) (Some m.(visibilityTimeoutSeconds)) (Some m.(maxPollSeconds)) (Some m.(pollIntervalMillis)).

(** The message prototype with every field at its default *)
Definition new : t :=
  mk (js "") (Finite 0 0) (js "0") (js "0") (js "0") [].
Definition create `{RT : BinaryRuntime} (value : option PartialMessage) : t :=
  match value with
  | Some value => reflectionMergePartial info new value
  | None => new
  end.

(** The cases of [internalBinaryRead] *)
Definition switch `{RT : BinaryRuntime} (options : BinaryReadOptions) (fieldNo : Z)
    (wireType : WireType) (message : t) (reader : IBinaryReader) : result (t * IBinaryReader) :=
  match fieldNo with
  | 1 => '(v, reader) ← r_string reader; Ok (set_queueName v message, reader)
  | 2 => '(v, reader) ← r_int32 reader; Ok (set_quantity (Num.of_Z v) message, reader)
  | 3 => '(v, reader) ← r_int64_string reader; Ok (set_visibilityTimeoutSeconds v message, reader)
  | 4 => '(v, reader) ← r_int64_string reader; Ok (set_maxPollSeconds v message, reader)
  | 5 => '(v, reader) ← r_int64_string reader; Ok (set_pollIntervalMillis v message, reader)
  | _ =>
      '(u, reader) ← readUnknown options typeName fieldNo wireType message.(unknown) reader;
      Ok (set_unknown u message, reader)
  end.

Definition internalBinaryRead `{RT : BinaryRuntime} (reader : IBinaryReader) (length : Z)
    (options : BinaryReadOptions) (target : option t) : result (t * IBinaryReader) :=
  let message := default (create None) target in
  readLoop (loop_fuel length) (switch options) (r_pos reader + length) message reader.

Definition internalBinaryWrite `{RT : BinaryRuntime} (message : t) (writer : IBinaryWriter)
    (options : BinaryWriteOptions) : result IBinaryWriter :=
  writer ← (if negb (bool_decide (message.(queueName) = js ""))
     then w_string message.(queueName) (w_tag 1 LengthDelimited writer) else Ok writer);
  writer ← (if negb (Num.eqb message.(quantity) (Finite 0 0))
     then w_int32 message.(quantity) (w_tag 2 Varint writer) else Ok writer);
  writer ← (if negb (bool_decide (message.(visibilityTimeoutSeconds) = js "0"))
     then w_int64 message.(visibilityTimeoutSeconds) (w_tag 3 Varint writer) else Ok writer);
  writer ← (if negb (bool_decide (message.(maxPollSeconds) = js "0"))
     then w_int64 message.(maxPollSeconds) (w_tag 4 Varint writer) else Ok writer);
  writer ← (if negb (bool_decide (message.(pollIntervalMillis) = js "0"))
     then w_int64 message.(pollIntervalMillis) (w_tag 5 Varint writer) else Ok writer);
  writeUnknown options typeName message.(unknown) writer.

(** The field table of the constructor, with the values of a message *)
Definition fields (m : t) : list wfield :=
  [FString 1 m.(queueName);
   FInt32 2 m.(quantity);
   FInt64 3 m.(visibilityTimeoutSeconds);
   FInt64 4 m.(maxPollSeconds);
   FInt64 5 m.(pollIntervalMillis)].
Definition encode (m : t) : bytes := encode_message (fields m) m.(unknown).
Definition wf (m : t) : Prop :=
  forallb ok_field (fields m) = true
  /\ Forall (fun u => wf_unknown u /\ 5 < uf_no u) m.(unknown).

Lemma ReadWithPollRequest_settles `{L : RuntimeLaws} len o target :
  settles (fun r => internalBinaryRead r len o target).
Proof. apply readLoop_settles. intros no wt m r. unfold switch. split_number no; settle. Qed.
#[global] Hint Resolve ReadWithPollRequest_settles : pgapp.

Lemma ReadWithPollRequest_codes `{L : RuntimeLaws} m : wf m ->
  message_codes (fun w => internalBinaryWrite m w defaultWriteOptions)
    (fun r len => internalBinaryRead r len defaultReadOptions None) (encode m) m.
Proof.
  intros (Hf & Hu). codec_open m Hf. apply (message_intro (switch defaultReadOptions)).
  unfold internalBinaryWrite, encode, encode_message, fields. cbn [foldr].
  do 5 codec_step.
  codec_reduce. apply (codes_unknown _ unknown set_unknown typeName 5); 
    first [codec_side | codec_default switch].
Qed.

#[global] Instance message_type : MessageType t := {|
  mt_typeName := typeName; mt_new := new; mt_read RT := @internalBinaryRead RT;
  mt_write RT := @internalBinaryWrite RT; mt_encode := encode; mt_wf := wf |}.
#[global] Instance lawful : LawfulMessage t :=
  {| mt_codes := @ReadWithPollRequest_codes; mt_settles := @ReadWithPollRequest_settles |}.

End ReadWithPollRequest.

(** ** Message [StreamReadRequest] *)
Module StreamReadRequest.

(** [interface StreamReadRequest], with the fields the decoder did not know *)
Record t := mk {
  queueName : jsstr;
  quantity : number;
  visibilityTimeoutSeconds : jsstr;
  unknown : list UnknownField
}.

Definition set_queueName (x : jsstr) (m : t) : t :=
  mk x m.(quantity) m.(visibilityTimeoutSeconds) m.(unknown).
Definition set_quantity (x : number) (m : t) : t :=
  mk m.(queueName) x m.(visibilityTimeoutSeconds) m.(unknown).
Definition set_visibilityTimeoutSeconds (x : jsstr) (m : t) : t :=
  mk m.(queueName) m.(quantity) x m.(unknown).
Definition set_unknown (x : list UnknownField) (m : t) : t :=
  mk m.(queueName) m.(quantity) m.(visibilityTimeoutSeconds) x.

Definition typeName : jsstr := js "pgapp.v1.StreamReadRequest".

(** [PartialMessage<StreamReadRequest>] and the effect of merging one *)
Record PartialMessage := mkPartial {
  p_queueName : option jsstr;
  p_quantity : option number;
  p_visibilityTimeoutSeconds : option jsstr
}.
#[global] Instance info : MessageInfo t PartialMessage := {|
  overlay m p := mk
    (default m.(queueName) p.(p_queueName))
    (default m.(quantity) p.(p_quantity))
    (default m.(visibilityTimeoutSeconds) p.(p_visibilityTimeoutSeconds))
    m.(unknown)
|}.
(** A complete message used as a partial one *)
Definition as_partial (m : t) : PartialMessage :=
  mkPartial (Some m.(queueName)) (Some m.(quantity)) (Some m.(visibilityTimeoutSeconds)).

(** The message prototype with every field at its default *)
Definition new : t :=
  mk (js "") (Finite 0 0) (js "0") [].
Definition create `{RT : BinaryRuntime} (value : option PartialMessage) : t :=
  match value with
  | Some value => reflectionMergePartial info new value
  | None => new
  end.

(** The cases of [internalBinaryRead] *)
Definition switch `{RT : BinaryRuntime} (options : BinaryReadOptions) (fieldNo : Z)
    (wireType : WireType) (message : t) (reader : IBinaryReader) : result (t * IBinaryReader) :=
  match fieldNo with
  | 1 => '(v, reader) ← r_string reader; Ok (set_queueName v message, reader)
  | 2 => '(v, reader) ← r_int32 reader; Ok (set_quantity (Num.of_Z v) message, reader)
  | 3 => '(v, reader) ← r_int64_string reader; Ok (set_visibilityTimeoutSeconds v message, reader)
  | _ =>
      '(u, reader) ← readUnknown options typeName fieldNo wireType message.(unknown) reader;
      Ok (set_unknown u message, reader)
  end.

Definition internalBinaryRead `{RT : BinaryRuntime} (reader : IBinaryReader) (length : Z)
    (options : BinaryReadOptions) (target : option t) : result (t * IBinaryReader) :=
  let message := default (create None) target in
  readLoop (loop_fuel length) (switch options) (r_pos reader + length) message reader.

Definition internalBinaryWrite `{RT : BinaryRuntime} (message : t) (writer : IBinaryWriter)
    (options : BinaryWriteOptions) : result IBinaryWriter :=
  writer ← (if negb (bool_decide (message.(queueName) = js ""))
     then w_string message.(queueName) (w_tag 1 LengthDelimited writer) else Ok writer);
  writer ← (if negb (Num.eqb message.(quantity) (Finite 0 0))
     then w_int32 message.(quantity) (w_tag 2 Varint writer) else Ok writer);
  writer ← (if negb (bool_decide (message.(visibilityTimeoutSeconds) = js "0"))
     then w_int64 message.(visibilityTimeoutSeconds) (w_tag 3 Varint writer) else Ok writer);
  writeUnknown options typeName message.(unknown) writer.

(** The field table of the constructor, with the values of a message *)
Definition fields (m : t) : list wfield :=
  [FString 1 m.(queueName);
   FInt32 2 m.(quantity);
   FInt64 3 m.(visibilityTimeoutSeconds)].
Definition encode (m : t) : bytes := encode_message (fields m) m.(unknown).
Definition wf (m : t) : Prop :=
  forallb ok_field (fields m) = true
  /\ Forall (fun u => wf_unknown u /\ 3 < uf_no u) m.(unknown).

Lemma StreamReadRequest_settles `{L : RuntimeLaws} len o target :
  settles (fun r => internalBinaryRead r len o target).
Proof. apply readLoop_settles. intros no wt m r. unfold switch. split_number no; settle. Qed.
#[global] Hint Resolve StreamReadRequest_settles : pgapp.

Lemma StreamReadRequest_codes `{L : RuntimeLaws} m : wf m ->
  message_codes (fun w => internalBinaryWrite m w defaultWriteOptions)
    (fun r len => internalBinaryRead r len defaultReadOptions None) (encode m) m.
Proof.
  intros (Hf & Hu). codec_open m Hf. apply (message_intro (switch defaultReadOptions)).
  unfold internalBinaryWrite, encode, encode_message, fields. cbn [foldr].
  do 3 codec_step.
  codec_reduce. apply (codes_unknown _ unknown set_unknown typeName 3); 
    first [codec_side | codec_default switch].
Qed.

#[global] Instance message_type : MessageType t := {|
  mt_typeName := typeName; mt_new := new; mt_read RT := @internalBinaryRead RT;
  mt_write RT := @internalBinaryWrite RT; mt_encode := encode; mt_wf := wf |}.
#[global] Instance lawful : LawfulMessage t :=
  {| mt_codes := @StreamReadRequest_codes; mt_settles := @StreamReadRequest_settles |}.

End StreamReadRequest.

(** ** Message [QueueMessage] *)
Module QueueMessage.

(** [interface QueueMessage], with the fields the decoder did not know *)
Record t := mk {
  messageId : jsstr;
  readCount : number;
  enqueuedAt : jsstr;
  visibilityTimeoutAt : jsstr;
  jsonPayload : jsstr;
  ackToken : jsstr;
  unknown : list UnknownField
}.

Definition set_messageId (x : jsstr) (m : t) : t :=
  mk x m.(readCount) m.(enqueuedAt) m.(visibilityTimeoutAt) m.(jsonPayload) m.(ackToken) m.(unknown).
Definition set_readCount (x : number) (m : t) : t :=
  mk m.(messageId) x m.(enqueuedAt) m.(visibilityTimeoutAt) m.(jsonPayload) m.(ackToken) m.(unknown).
Definition set_enqueuedAt (x : jsstr) (m : t) : t :=
  mk m.(messageId) m.(readCount) x m.(visibilityTimeoutAt) m.(jsonPayload) m.(ackToken) m.(unknown).
Definition set_visibilityTimeoutAt (x : jsstr) (m : t) : t :=
  mk m.(messageId) m.(readCount) m.(enqueuedAt) x m.(jsonPayload) m.(ackToken) m.(unknown).
Definition set_jsonPayload (x : jsstr) (m : t) : t :=
  mk m.(messageId) m.(readCount) m.(enqueuedAt) m.(visibilityTimeoutAt) x m.(ackToken) m.(unknown).
Definition set_ackToken (x : jsstr) (m : t) : t :=
  mk m.(messageId) m.(readCount) m.(enqueuedAt) m.(visibilityTimeoutAt) m.(jsonPayload) x m.(unknown).
Definition set_unknown (x : list UnknownField) (m : t) : t :=
  mk m.(messageId) m.(readCount) m.(enqueuedAt) m.(visibilityTimeoutAt) m.(jsonPayload) m.(ackToken) x.

Definition typeName : jsstr := js "pgapp.v1.QueueMessage".

(** [PartialMessage<QueueMessage>] and the effect of merging one *)
Record PartialMessage := mkPartial {
  p_messageId : option jsstr;
  p_readCount : option number;
  p_enqueuedAt : option jsstr;
  p_visibilityTimeoutAt : option jsstr;
  p_jsonPayload : option jsstr;
  p_ackToken : option jsstr
}.
#[global] Instance info : MessageInfo t PartialMessage := {|
  overlay m p := mk
    (default m.(messageId) p.(p_messageId))
    (default m.(readCount) p.(p_readCount))
    (default m.(enqueuedAt) p.(p_enqueuedAt))
    (default m.(visibilityTimeoutAt) p.(p_visibilityTimeoutAt))
    (default m.(jsonPayload) p.(p_jsonPayload))
    (default m.(ackToken) p.(p_ackToken))
    m.(unknown)
|}.
(** A complete message used as a partial one *)
Definition as_partial (m : t) : PartialMessage :=
  mkPartial (Some m.(messageId)) (Some m.(readCount)) (Some m.(enqueuedAt)) (Some m.(visibilityTimeoutAt)) (Some m.(jsonPayload)) (Some m.(ackToken)).

(** The message prototype with every field at its default *)
Definition new : t :=
  mk (js "0") (Finite 0 0) (js "") (js "") (js "") (js "") [].
Definition create `{RT : BinaryRuntime} (value : option PartialMessage) : t :=
  match value with
  | Some value => reflectionMergePartial info new value
  | None => new
  end.

(** The cases of [internalBinaryRead] *)
Definition switch `{RT : BinaryRuntime} (options : BinaryReadOptions) (fieldNo : Z)
    (wireType : WireType) (message : t) (reader : IBinaryReader) : result (t * IBinaryReader) :=
  match fieldNo with
  | 1 => '(v, reader) ← r_int64_string reader; Ok (set_messageId v message, reader)
  | 2 => '(v, reader) ← r_int32 reader; Ok (set_readCount (Num.of_Z v) message, reader)
  | 3 => '(v, reader) ← r_string reader; Ok (set_enqueuedAt v message, reader)
  | 4 => '(v, reader) ← r_string reader; Ok (set_visibilityTimeoutAt v message, reader)
  | 5 => '(v, reader) ← r_string reader; Ok (set_jsonPayload v message, reader)
  | 6 => '(v, reader) ← r_string reader; Ok (set_ackToken v message, reader)
  | _ =>
      '(u, reader) ← readUnknown options typeName fieldNo wireType message.(unknown) reader;
      Ok (set_unknown u message, reader)
  end.

Definition internalBinaryRead `{RT : BinaryRuntime} (reader : IBinaryReader) (length : Z)
    (options : BinaryReadOptions) (target : option t) : result (t * IBinaryReader) :=
  let message := default (create None) target in
  readLoop (loop_fuel length) (switch options) (r_pos reader + length) message reader.

Definition internalBinaryWrite `{RT : BinaryRuntime} (message : t) (writer : IBinaryWriter)
    (options : BinaryWriteOptions) : result IBinaryWriter :=
  writer ← (if negb (bool_decide (message.(messageId) = js "0"))
     then w_int64 message.(messageId) (w_tag 1 Varint writer) else Ok writer);
  writer ← (if negb (Num.eqb message.(readCount) (Finite 0 0))
     then w_int32 message.(readCount) (w_tag 2 Varint writer) else Ok writer);
  writer ← (if negb (bool_decide (message.(enqueuedAt) = js ""))
     then w_string message.(enqueuedAt) (w_tag 3 LengthDelimited writer) else Ok writer);
  writer ← (if negb (bool_decide (message.(visibilityTimeoutAt) = js ""))
     then w_string message.(visibilityTimeoutAt) (w_tag 4 LengthDelimited writer) else Ok writer);
  writer ← (if negb (bool_decide (message.(jsonPayload) = js ""))
     then w_string message.(jsonPayload) (w_tag 5 LengthDelimited writer) else Ok writer);
  writer ← (if negb (bool_decide (message.(ackToken) = js ""))
     then w_string message.(ackToken) (w_tag 6 LengthDelimited writer) else Ok writer);
  writeUnknown options typeName message.(unknown) writer.

(** The field table of the constructor, with the values of a message *)
Definition fields (m : t) : list wfield :=
  [FInt64 1 m.(messageId);
   FInt32 2 m.(readCount);
   FString 3 m.(enqueuedAt);
   FString 4 m.(visibilityTimeoutAt);
   FString 5 m.(jsonPayload);
   FString 6 m.(ackToken)].
Definition encode (m : t) : bytes := encode_message (fields m) m.(unknown).
Definition wf (m : t) : Prop :=
  forallb ok_field (fields m) = true
  /\ Forall (fun u => wf_unknown u /\ 6 < uf_no u) m.(unknown).

Lemma QueueMessage_settles `{L : RuntimeLaws} len o target :
  settles (fun r => internalBinaryRead r len o target).
Proof. apply readLoop_settles. intros no wt m r. unfold switch. split_number no; settle. Qed.
#[global] Hint Resolve QueueMessage_settles : pgapp.

Lemma QueueMessage_codes `{L : RuntimeLaws} m : wf m ->
  message_codes (fun w => internalBinaryWrite m w defaultWriteOptions)
    (fun r len => internalBinaryRead r len defaultReadOptions None) (encode m) m.
Proof.
  intros (Hf & Hu). codec_open m Hf. apply (message_intro (switch defaultReadOptions)).
  unfold internalBinaryWrite, encode, encode_message, fields. cbn [foldr].
  do 6 codec_step.
  codec_reduce. apply (codes_unknown _ unknown set_unknown typeName 6); 
    first [codec_side | codec_default switch].
Qed.

#[global] Instance message_type : MessageType t := {|
  mt_typeName := typeName; mt_new := new; mt_read RT := @internalBinaryRead RT;
  mt_write RT := @internalBinaryWrite RT; mt_encode := encode; mt_wf := wf |}.
#[global] Instance lawful : LawfulMessage t :=
  {| mt_codes := @QueueMessage_codes; mt_settles := @QueueMessage_settles |}.

End QueueMessage.

(** ** Message [ReadMessagesResponse] *)
Module ReadMessagesResponse.

(** [interface ReadMessagesResponse], with the fields the decoder did not know *)
Record t := mk {
  messages : list QueueMessage.t;
  unknown : list UnknownField
}.

Definition set_messages (x : list QueueMessage.t) (m : t) : t :=
  mk x m.(unknown).
Definition set_unknown (x : list UnknownField) (m : t) : t :=
  mk m.(messages) x.

Definition typeName : jsstr := js "pgapp.v1.ReadMessagesResponse".

(** [PartialMessage<ReadMessagesResponse>] and the effect of merging one *)
Record PartialMessage := mkPartial {
  p_messages : option (list QueueMessage.PartialMessage)
}.
#[global] Instance info : MessageInfo t PartialMessage := {|
  overlay m p := mk
    (default m.(messages) (map (overlay QueueMessage.new) <$> p.(p_messages)))
    m.(unknown)
|}.
(** A complete message used as a partial one *)
Definition as_partial (m : t) : PartialMessage :=
  mkPartial (Some (map QueueMessage.as_partial m.(messages))).

(** The message prototype with every field at its default *)
Definition new : t :=
  mk [] [].
Definition create `{RT : BinaryRuntime} (value : option PartialMessage) : t :=
  match value with
  | Some value => reflectionMergePartial info new value
  | None => new
  end.

(** The cases of [internalBinaryRead] *)
Definition switch `{RT : BinaryRuntime} (options : BinaryReadOptions) (fieldNo : Z)
    (wireType : WireType) (message : t) (reader : IBinaryReader) : result (t * IBinaryReader) :=
  match fieldNo with
  | 1 =>
      '(length, reader) ← r_uint32 reader;
      '(v, reader) ← QueueMessage.internalBinaryRead reader length options None;
      Ok (set_messages (message.(messages) ++ [v]) message, reader)
  | _ =>
      '(u, reader) ← readUnknown options typeName fieldNo wireType message.(unknown) reader;
      Ok (set_unknown u message, reader)
  end.

Definition internalBinaryRead `{RT : BinaryRuntime} (reader : IBinaryReader) (length : Z)
    (options : BinaryReadOptions) (target : option t) : result (t * IBinaryReader) :=
  let message := default (create None) target in
  readLoop (loop_fuel length) (switch options) (r_pos reader + length) message reader.

Definition internalBinaryWrite `{RT : BinaryRuntime} (message : t) (writer : IBinaryWriter)
    (options : BinaryWriteOptions) : result IBinaryWriter :=
  writer ← writeEach (fun x writer =>
      writer ← QueueMessage.internalBinaryWrite x (w_fork (w_tag 1 LengthDelimited writer)) options;
      w_join writer) message.(messages) writer;
  writeUnknown options typeName message.(unknown) writer.

(** The field table of the constructor, with the values of a message *)
Definition fields (m : t) : list wfield :=
  [FRepMessage 1 (QueueMessage.encode <$> m.(messages))].
Definition encode (m : t) : bytes := encode_message (fields m) m.(unknown).
Definition wf (m : t) : Prop :=
  forallb ok_field (fields m) = true
  /\ Forall QueueMessage.wf m.(messages)
  /\ Forall (fun u => wf_unknown u /\ 1 < uf_no u) m.(unknown).

Lemma ReadMessagesResponse_settles `{L : RuntimeLaws} len o target :
  settles (fun r => internalBinaryRead r len o target).
Proof. apply readLoop_settles. intros no wt m r. unfold switch. split_number no; settle. Qed.
#[global] Hint Resolve ReadMessagesResponse_settles : pgapp.

Lemma ReadMessagesResponse_codes `{L : RuntimeLaws} m : wf m ->
  message_codes (fun w => internalBinaryWrite m w defaultWriteOptions)
    (fun r len => internalBinaryRead r len defaultReadOptions None) (encode m) m.
Proof.
  intros (Hf & Hs0 & Hu). codec_open m Hf. apply (message_intro (switch defaultReadOptions)).
  unfold internalBinaryWrite, encode, encode_message, fields. cbn [foldr].
  codec_field (codes_rep_message_field (switch defaultReadOptions) messages set_messages).
  codec_reduce. apply (codes_unknown _ unknown set_unknown typeName 1); 
    first [codec_side | codec_default switch].
Qed.

#[global] Instance message_type : MessageType t := {|
  mt_typeName := typeName; mt_new := new; mt_read RT := @internalBinaryRead RT;
  mt_write RT := @internalBinaryWrite RT; mt_encode := encode; mt_wf := wf |}.
#[global] Instance lawful : LawfulMessage t :=
  {| mt_codes := @ReadMessagesResponse_codes; mt_settles := @ReadMessagesResponse_settles |}.

End ReadMessagesResponse.

(** ** Message [AckMessageRequest] *)
Module AckMessageRequest.

(** [interface AckMessageRequest], with the fields the decoder did not know *)
Record t := mk {
  queueName : jsstr;
  messageId : jsstr;
  ackToken : jsstr;
  unknown : list UnknownField
}.

Definition set_queueName (x : jsstr) (m : t) : t :=
  mk x m.(messageId) m.(ackToken) m.(unknown).
Definition set_messageId (x : jsstr) (m : t) : t :=
  mk m.(queueName) x m.(ackToken) m.(unknown).
Definition set_ackToken (x : jsstr) (m : t) : t :=
  mk m.(queueName) m.(messageId) x m.(unknown).
Definition set_unknown (x : list UnknownField) (m : t) : t :=
  mk m.(queueName) m.(messageId) m.(ackToken) x.

Definition typeName : jsstr := js "pgapp.v1.AckMessageRequest".

(** [PartialMessage<AckMessageRequest>] and the effect of merging one *)
Record PartialMessage := mkPartial {
  p_queueName : option jsstr;
  p_messageId : option jsstr;
  p_ackToken : option jsstr
}.
#[global] Instance info : MessageInfo t PartialMessage := {|
  overlay m p := mk
    (default m.(queueName) p.(p_queueName))
    (default m.(messageId) p.(p_messageId))
    (default m.(ackToken) p.(p_ackToken))
    m.(unknown)
|}.
(** A complete message used as a partial one *)
Definition as_partial (m : t) : PartialMessage :=
  mkPartial (Some m.(queueName)) (Some m.(messageId)) (Some m.(ackToken)).

(** The message prototype with every field at its default *)
Definition new : t :=
  mk (js "") (js "0") (js "") [].
Definition create `{RT : BinaryRuntime} (value : option PartialMessage) : t :=
  match value with
  | Some value => reflectionMergePartial info new value
  | None => new
  end.

(** The cases of [internalBinaryRead] *)
Definition switch `{RT : BinaryRuntime} (options : BinaryReadOptions) (fieldNo : Z)
    (wireType : WireType) (message : t) (reader : IBinaryReader) : result (t * IBinaryReader) :=
  match fieldNo with
  | 1 => '(v, reader) ← r_string reader; Ok (set_queueName v message, reader)
  | 2 => '(v, reader) ← r_int64_string reader; Ok (set_messageId v message, reader)
  | 3 => '(v, reader) ← r_string reader; Ok (set_ackToken v message, reader)
  | _ =>
      '(u, reader) ← readUnknown options typeName fieldNo wireType message.(unknown) reader;
      Ok (set_unknown u message, reader)
  end.

Definition internalBinaryRead `{RT : BinaryRuntime} (reader : IBinaryReader) (length : Z)
    (options : BinaryReadOptions) (target : option t) : result (t * IBinaryReader) :=
  let message := default (create None) target in
  readLoop (loop_fuel length) (switch options) (r_pos reader + length) message reader.

Definition internalBinaryWrite `{RT : BinaryRuntime} (message : t) (writer : IBinaryWriter)
    (options : BinaryWriteOptions) : result IBinaryWriter :=
  writer ← (if negb (bool_decide (message.(queueName) = js ""))
     then w_string message.(queueName) (w_tag 1 LengthDelimited writer) else Ok writer);
  writer ← (if negb (bool_decide (message.(messageId) = js "0"))
     then w_int64 message.(messageId) (w_tag 2 Varint writer) else Ok writer);
  writer ← (if negb (bool_decide (message.(ackToken) = js ""))
     then w_string message.(ackToken) (w_tag 3 LengthDelimited writer) else Ok writer);
  writeUnknown options typeName message.(unknown) writer.

(** The field table of the constructor, with the values of a message *)
Definition fields (m : t) : list wfield :=
  [FString 1 m.(queueName);
   FInt64 2 m.(messageId);
   FString 3 m.(ackToken)].
Definition encode (m : t) : bytes := encode_message (fields m) m.(unknown).
Definition wf (m : t) : Prop :=
  forallb ok_field (fields m) = true
  /\ Forall (fun u => wf_unknown u /\ 3 < uf_no u) m.(unknown).

Lemma AckMessageRequest_settles `{L : RuntimeLaws} len o target :
  settles (fun r => internalBinaryRead r len o target).
Proof. apply readLoop_settles. intros no wt m r. unfold switch. split_number no; settle. Qed.
#[global] Hint Resolve AckMessageRequest_settles : pgapp.

Lemma AckMessageRequest_codes `{L : RuntimeLaws} m : wf m ->
  message_codes (fun w => internalBinaryWrite m w defaultWriteOptions)
    (fun r len => internalBinaryRead r len defaultReadOptions None) (encode m) m.
Proof.
  intros (Hf & Hu). codec_open m Hf. apply (message_intro (switch defaultReadOptions)).
  unfold internalBinaryWrite, encode, encode_message, fields. cbn [foldr].
  do 3 codec_step.
  codec_reduce. apply (codes_unknown _ unknown set_unknown typeName 3); 
    first [codec_side | codec_default switch].
Qed.

#[global] Instance message_type : MessageType t := {|
  mt_typeName := typeName; mt_new := new; mt_read RT := @internalBinaryRead RT;
  mt_write RT := @internalBinaryWrite RT; mt_encode := encode; mt_wf := wf |}.
#[global] Instance lawful : LawfulMessage t :=
  {| mt_codes := @AckMessageRequest_codes; mt_settles := @AckMessageRequest_settles |}.

End AckMessageRequest.

(** ** Message [ArchiveMessageRequest] *)
Module ArchiveMessageRequest.

(** [interface ArchiveMessageRequest], with the fields the decoder did not know *)
Record t := mk {
  queueName : jsstr;
  messageId : jsstr;
  ackToken : jsstr;
  unknown : list UnknownField
}.

Definition set_queueName (x : jsstr) (m : t) : t :=
  mk x m.(messageId) m.(ackToken) m.(unknown).
Definition set_messageId (x : jsstr) (m : t) : t :=
  mk m.(queueName) x m.(ackToken) m.(unknown).
Definition set_ackToken (x : jsstr) (m : t) : t :=
  mk m.(queueName) m.(messageId) x m.(unknown).
Definition set_unknown (x : list UnknownField) (m : t) : t :=
  mk m.(queueName) m.(messageId) m.(ackToken) x.

Definition typeName : jsstr := js "pgapp.v1.ArchiveMessageRequest".

(** [PartialMessage<ArchiveMessageRequest>] and the effect of merging one *)
Record PartialMessage := mkPartial {
  p_queueName : option jsstr;
  p_messageId : option jsstr;
  p_ackToken : option jsstr
}.
#[global] Instance info : MessageInfo t PartialMessage := {|
  overlay m p := mk
    (default m.(queueName) p.(p_queueName))
    (default m.(messageId) p.(p_messageId))
    (default m.(ackToken) p.(p_ackToken))
    m.(unknown)
|}.
(** A complete message used as a partial one *)
Definition as_partial (m : t) : PartialMessage :=
  mkPartial (Some m.(queueName)) (Some m.(messageId)) (Some m.(ackToken)).

(** The message prototype with every field at its default *)
Definition new : t :=
  mk (js "") (js "0") (js "") [].
Definition create `{RT : BinaryRuntime} (value : option PartialMessage) : t :=
  match value with
  | Some value => reflectionMergePartial info new value
  | None => new
  end.

(** The cases of [internalBinaryRead] *)
Definition switch `{RT : BinaryRuntime} (options : BinaryReadOptions) (fieldNo : Z)
    (wireType : WireType) (message : t) (reader : IBinaryReader) : result (t * IBinaryReader) :=
  match fieldNo with
  | 1 => '(v, reader) ← r_string reader; Ok (set_queueName v message, reader)
  | 2 => '(v, reader) ← r_int64_string reader; Ok (set_messageId v message, reader)
  | 3 => '(v, reader) ← r_string reader; Ok (set_ackToken v message, reader)
  | _ =>
      '(u, reader) ← readUnknown options typeName fieldNo wireType message.(unknown) reader;
      Ok (set_unknown u message, reader)
  end.

Definition internalBinaryRead `{RT : BinaryRuntime} (reader : IBinaryReader) (length : Z)
    (options : BinaryReadOptions) (target : option t) : result (t * IBinaryReader) :=
  let message := default (create None) target in
  readLoop (loop_fuel length) (switch options) (r_pos reader + length) message reader.

Definition internalBinaryWrite `{RT : BinaryRuntime} (message : t) (writer : IBinaryWriter)
    (options : BinaryWriteOptions) : result IBinaryWriter :=
  writer ← (if negb (bool_decide (message.(queueName) = js ""))
     then w_string message.(queueName) (w_tag 1 LengthDelimited writer) else Ok writer);
  writer ← (if negb (bool_decide (message.(messageId) = js "0"))
     then w_int64 message.(messageId) (w_tag 2 Varint writer) else Ok writer);
  writer ← (if negb (bool_decide (message.(ackToken) = js ""))
     then w_string message.(ackToken) (w_tag 3 LengthDelimited writer) else Ok writer);
  writeUnknown options typeName message.(unknown) writer.

(** The field table of the constructor, with the values of a message *)
Definition fields (m : t) : list wfield :=
  [FString 1 m.(queueName);
   FInt64 2 m.(messageId);
   FString 3 m.(ackToken)].
Definition encode (m : t) : bytes := encode_message (fields m) m.(unknown).
Definition wf (m : t) : Prop :=
  forallb ok_field (fields m) = true
  /\ Forall (fun u => wf_unknown u /\ 3 < uf_no u) m.(unknown).

Lemma ArchiveMessageRequest_settles `{L : RuntimeLaws} len o target :
  settles (fun r => internalBinaryRead r len o target).
Proof. apply readLoop_settles. intros no wt m r. unfold switch. split_number no; settle. Qed.
#[global] Hint Resolve ArchiveMessageRequest_settles : pgapp.

Lemma ArchiveMessageRequest_codes `{L : RuntimeLaws} m : wf m ->
  message_codes (fun w => internalBinaryWrite m w defaultWriteOptions)
    (fun r len => internalBinaryRead r len defaultReadOptions None) (encode m) m.
Proof.
  intros (Hf & Hu). codec_open m Hf. apply (message_intro (switch defaultReadOptions)).
  unfold internalBinaryWrite, encode, encode_message, fields. cbn [foldr].
  do 3 codec_step.
  codec_reduce. apply (codes_unknown _ unknown set_unknown typeName 3); 
    first [codec_side | codec_default switch].
Qed.

#[global] Instance message_type : MessageType t := {|
  mt_typeName := typeName; mt_new := new; mt_read RT := @internalBinaryRead RT;
  mt_write RT := @internalBinaryWrite RT; mt_encode := encode; mt_wf := wf |}.
#[global] Instance lawful : LawfulMessage t :=
  {| mt_codes := @ArchiveMessageRequest_codes; mt_settles := @ArchiveMessageRequest_settles |}.

End ArchiveMessageRequest.

(** ** Message [SetVisibilityTimeoutRequest] *)
Module SetVisibilityTimeoutRequest.

(** [interface SetVisibilityTimeoutRequest], with the fields the decoder did not know *)
Record t := mk {
  queueName : jsstr;
  messageId : jsstr;
  visibilityTimeoutSeconds : jsstr;
  ackToken : jsstr;
  unknown : list UnknownField
}.

Definition set_queueName (x : jsstr) (m : t) : t :=
  mk x m.(messageId) m.(visibilityTimeoutSeconds) m.(ackToken) m.(unknown).
Definition set_messageId (x : jsstr) (m : t) : t :=
  mk m.(queueName) x m.(visibilityTimeoutSeconds) m.(ackToken) m.(unknown).
Definition set_visibilityTimeoutSeconds (x : jsstr) (m : t) : t :=
  mk m.(queueName) m.(messageId) x m.(ackToken) m.(unknown).
Definition set_ackToken (x : jsstr) (m : t) : t :=
  mk m.(queueName) m.(messageId) m.(visibilityTimeoutSeconds) x m.(unknown).
Definition set_unknown (x : list UnknownField) (m : t) : t :=
  mk m.(queueName) m.(messageId) m.(visibilityTimeoutSeconds) m.(ackToken) x.

Definition typeName : jsstr := js "pgapp.v1.SetVisibilityTimeoutRequest".

(** [PartialMessage<SetVisibilityTimeoutRequest>] and the effect of merging one *)
Record PartialMessage := mkPartial {
  p_queueName : option jsstr;
  p_messageId : option jsstr;
  p_visibilityTimeoutSeconds : option jsstr;
  p_ackToken : option jsstr
}.
#[global] Instance info : MessageInfo t PartialMessage := {|
  overlay m p := mk
    (default m.(queueName) p.(p_queueName))
    (default m.(messageId) p.(p_messageId))
    (default m.(visibilityTimeoutSeconds) p.(p_visibilityTimeoutSeconds))
    (default m.(ackToken) p.(p_ackToken))
    m.(unknown)
|}.
(** A complete message used as a partial one *)
Definition as_partial (m : t) : PartialMessage :=
  mkPartial (Some m.(queueName)) (Some m.(messageId)) (Some m.(visibilityTimeoutSeconds)) (Some m.(ackToken)).

(** The message prototype with every field at its default *)
Definition new : t :=
  mk (js "") (js "0") (js "0") (js "") [].
Definition create `{RT : BinaryRuntime} (value : option PartialMessage) : t :=
  match value with
  | Some value => reflectionMergePartial info new value
  | None => new
  end.

(** The cases of [internalBinaryRead] *)
Definition switch `{RT : BinaryRuntime} (options : BinaryReadOptions) (fieldNo : Z)
    (wireType : WireType) (message : t) (reader : IBinaryReader) : result (t * IBinaryReader) :=
  match fieldNo with
  | 1 => '(v, reader) ← r_string reader; Ok (set_queueName v message, reader)
  | 2 => '(v, reader) ← r_int64_string reader; Ok (set_messageId v message, reader)
  | 3 => '(v, reader) ← r_int64_string reader; Ok (set_visibilityTimeoutSeconds v message, reader)
  | 4 => '(v, reader) ← r_string reader; Ok (set_ackToken v message, reader)
  | _ =>
      '(u, reader) ← readUnknown options typeName fieldNo wireType message.(unknown) reader;
      Ok (set_unknown u message, reader)
  end.

Definition internalBinaryRead `{RT : BinaryRuntime} (reader : IBinaryReader) (length : Z)
    (options : BinaryReadOptions) (target : option t) : result (t * IBinaryReader) :=
  let message := default (create None) target in
  readLoop (loop_fuel length) (switch options) (r_pos reader + length) message reader.

Definition internalBinaryWrite `{RT : BinaryRuntime} (message : t) (writer : IBinaryWriter)
    (options : BinaryWriteOptions) : result IBinaryWriter :=
  writer ← (if negb (bool_decide (message.(queueName) = js ""))
     then w_string message.(queueName) (w_tag 1 LengthDelimited writer) else Ok writer);
  writer ← (if negb (bool_decide (message.(messageId) = js "0"))
     then w_int64 message.(messageId) (w_tag 2 Varint writer) else Ok writer);
  writer ← (if negb (bool_decide (message.(visibilityTimeoutSeconds) = js "0"))
     then w_int64 message.(visibilityTimeoutSeconds) (w_tag 3 Varint writer) else Ok writer);
  writer ← (if negb (bool_decide (message.(ackToken) = js ""))
     then w_string message.(ackToken) (w_tag 4 LengthDelimited writer) else Ok writer);
  writeUnknown options typeName message.(unknown) writer.

(** The field table of the constructor, with the values of a message *)
Definition fields (m : t) : list wfield :=
  [FString 1 m.(queueName);
   FInt64 2 m.(messageId);
   FInt64 3 m.(visibilityTimeoutSeconds);
   FString 4 m.(ackToken)].
Definition encode (m : t) : bytes := encode_message (fields m) m.(unknown).
Definition wf (m : t) : Prop :=
  forallb ok_field (fields m) = true
  /\ Forall (fun u => wf_unknown u /\ 4 < uf_no u) m.(unknown).

Lemma SetVisibilityTimeoutRequest_settles `{L : RuntimeLaws} len o target :
  settles (fun r => internalBinaryRead r len o target).
Proof. apply readLoop_settles. intros no wt m r. unfold switch. split_number no; settle. Qed.
#[global] Hint Resolve SetVisibilityTimeoutRequest_settles : pgapp.

Lemma SetVisibilityTimeoutRequest_codes `{L : RuntimeLaws} m : wf m ->
  message_codes (fun w => internalBinaryWrite m w defaultWriteOptions)
    (fun r len => internalBinaryRead r len defaultReadOptions None) (encode m) m.
Proof.
  intros (Hf & Hu). codec_open m Hf. apply (message_intro (switch defaultReadOptions)).
  unfold internalBinaryWrite, encode, encode_message, fields. cbn [foldr].
  do 4 codec_step.
  codec_reduce. apply (codes_unknown _ unknown set_unknown typeName 4); 
    first [codec_side | codec_default switch].
Qed.

#[global] Instance message_type : MessageType t := {|
  mt_typeName := typeName; mt_new := new; mt_read RT := @internalBinaryRead RT;
  mt_write RT := @internalBinaryWrite RT; mt_encode := encode; mt_wf := wf |}.
#[global] Instance lawful : LawfulMessage t :=
  {| mt_codes := @SetVisibilityTimeoutRequest_codes; mt_settles := @SetVisibilityTimeoutRequest_settles |}.

End SetVisibilityTimeoutRequest.

(** ** Message [QueueMetricsRequest] *)
Module QueueMetricsRequest.

(** [interface QueueMetricsRequest], with the fields the decoder did not know *)
Record t := mk {
  queueName : jsstr;
  unknown : list UnknownField
}.

Definition set_queueName (x : jsstr) (m : t) : t :=
  mk x m.(unknown).
Definition set_unknown (x : list UnknownField) (m : t) : t :=
  mk m.(queueName) x.

Definition typeName : jsstr := js "pgapp.v1.QueueMetricsRequest".

(** [PartialMessage<QueueMetricsRequest>] and the effect of merging one *)
Record PartialMessage := mkPartial {
  p_queueName : option jsstr
}.
#[global] Instance info : MessageInfo t PartialMessage := {|
  overlay m p := mk
    (default m.(queueName) p.(p_queueName))
    m.(unknown)
|}.
(** A complete message used as a partial one *)
Definition as_partial (m : t) : PartialMessage :=
  mkPartial (Some m.(queueName)).

(** The message prototype with every field at its default *)
Definition new : t :=
  mk (js "") [].
Definition create `{RT : BinaryRuntime} (value : option PartialMessage) : t :=
  match value with
  | Some value => reflectionMergePartial info new value
  | None => new
  end.

(** The cases of [internalBinaryRead] *)
Definition switch `{RT : BinaryRuntime} (options : BinaryReadOptions) (fieldNo : Z)
    (wireType : WireType) (message : t) (reader : IBinaryReader) : result (t * IBinaryReader) :=
  match fieldNo with
  | 1 => '(v, reader) ← r_string reader; Ok (set_queueName v message, reader)
  | _ =>
      '(u, reader) ← readUnknown options typeName fieldNo wireType message.(unknown) reader;
      Ok (set_unknown u message, reader)
  end.

Definition internalBinaryRead `{RT : BinaryRuntime} (reader : IBinaryReader) (length : Z)
    (options : BinaryReadOptions) (target : option t) : result (t * IBinaryReader) :=
  let message := default (create None) target in
  readLoop (loop_fuel length) (switch options) (r_pos reader + length) message reader.

Definition internalBinaryWrite `{RT : BinaryRuntime} (message : t) (writer : IBinaryWriter)
    (options : BinaryWriteOptions) : result IBinaryWriter :=
  writer ← (if negb (bool_decide (message.(queueName) = js ""))
     then w_string message.(queueName) (w_tag 1 LengthDelimited writer) else Ok writer);
  writeUnknown options typeName message.(unknown) writer.

(** The field table of the constructor, with the values of a message *)
Definition fields (m : t) : list wfield :=
  [FString 1 m.(queueName)].
Definition encode (m : t) : bytes := encode_message (fields m) m.(unknown).
Definition wf (m : t) : Prop :=
  forallb ok_field (fields m) = true
  /\ Forall (fun u => wf_unknown u /\ 1 < uf_no u) m.(unknown).

Lemma QueueMetricsRequest_settles `{L : RuntimeLaws} len o target :
  settles (fun r => internalBinaryRead r len o target).
Proof. apply readLoop_settles. intros no wt m r. unfold switch. split_number no; settle. Qed.
#[global] Hint Resolve QueueMetricsRequest_settles : pgapp.

Lemma QueueMetricsRequest_codes `{L : RuntimeLaws} m : wf m ->
  message_codes (fun w => internalBinaryWrite m w defaultWriteOptions)
    (fun r len => internalBinaryRead r len defaultReadOptions None) (encode m) m.
Proof.
  intros (Hf & Hu). codec_open m Hf. apply (message_intro (switch defaultReadOptions)).
  unfold internalBinaryWrite, encode, encode_message, fields. cbn [foldr].
  codec_step.
  codec_reduce. apply (codes_unknown _ unknown set_unknown typeName 1); 
    first [codec_side | codec_default switch].
Qed.

#[global] Instance message_type : MessageType t := {|
  mt_typeName := typeName; mt_new := new; mt_read RT := @internalBinaryRead RT;
  mt_write RT := @internalBinaryWrite RT; mt_encode := encode; mt_wf := wf |}.
#[global] Instance lawful : LawfulMessage t :=
  {| mt_codes := @QueueMetricsRequest_codes; mt_settles := @QueueMetricsRequest_settles |}.

End QueueMetricsRequest.

(** ** Message [QueueMetricsResponse] *)
Module QueueMetricsResponse.

(** [interface QueueMetricsResponse], with the fields the decoder did not know *)
Record t := mk {
  visibleMessageCount : jsstr;
  inFlightMessageCount : jsstr;
  oldestVisibleMessageAgeSeconds : jsstr;
  archivedMessageCount : jsstr;
  dlqMessageCount : jsstr;
  unknown : list UnknownField
}.

Definition set_visibleMessageCount (x : jsstr) (m : t) : t :=
  mk x m.(inFlightMessageCount) m.(oldestVisibleMessageAgeSeconds) m.(archivedMessageCount) m.(dlqMessageCount) m.(unknown).
Definition set_inFlightMessageCount (x : jsstr) (m : t) : t :=
  mk m.(visibleMessageCount) x m.(oldestVisibleMessageAgeSeconds) m.(archivedMessageCount) m.(dlqMessageCount) m.(unknown).
Definition set_oldestVisibleMessageAgeSeconds (x : jsstr) (m : t) : t :=
  mk m.(visibleMessageCount) m.(inFlightMessageCount) x m.(archivedMessageCount) m.(dlqMessageCount) m.(unknown).
Definition set_archivedMessageCount (x : jsstr) (m : t) : t :=
  mk m.(visibleMessageCount) m.(inFlightMessageCount) m.(oldestVisibleMessageAgeSeconds) x m.(dlqMessageCount) m.(unknown).
Definition set_dlqMessageCount (x : jsstr) (m : t) : t :=
  mk m.(visibleMessageCount) m.(inFlightMessageCount) m.(oldestVisibleMessageAgeSeconds) m.(archivedMessageCount) x m.(unknown).
Definition set_unknown (x : list UnknownField) (m : t) : t :=
  mk m.(visibleMessageCount) m.(inFlightMessageCount) m.(oldestVisibleMessageAgeSeconds) m.(archivedMessageCount) m.(dlqMessageCount) x.

Definition typeName : jsstr := js "pgapp.v1.QueueMetricsResponse".

(** [PartialMessage<QueueMetricsResponse>] and the effect of merging one *)
Record PartialMessage := mkPartial {
  p_visibleMessageCount : option jsstr;
  p_inFlightMessageCount : option jsstr;
  p_oldestVisibleMessageAgeSeconds : option jsstr;
  p_archivedMessageCount : option jsstr;
  p_dlqMessageCount : option jsstr
}.
#[global] Instance info : MessageInfo t PartialMessage := {|
  overlay m p := mk
    (default m.(visibleMessageCount) p.(p_visibleMessageCount))
    (default m.(inFlightMessageCount) p.(p_inFlightMessageCount))
    (default m.(oldestVisibleMessageAgeSeconds) p.(p_oldestVisibleMessageAgeSeconds))
    (default m.(archivedMessageCount) p.(p_archivedMessageCount))
    (default m.(dlqMessageCount) p.(p_dlqMessageCount))
    m.(unknown)
|}.
(** A complete message used as a partial one *)
Definition as_partial (m : t) : PartialMessage :=
  mkPartial (Some m.(visibleMessageCount)) (Some m.(inFlightMessageCount)) (Some m.(oldestVisibleMessageAgeSeconds)) (Some m.(archivedMessageCount)) (Some m.(dlqMessageCount)).

(** The message prototype with every field at its default *)
Definition new : t :=
  mk (js "0") (js "0") (js "0") (js "0") (js "0") [].
Definition create `{RT : BinaryRuntime} (value : option PartialMessage) : t :=
  match value with
  | Some value => reflectionMergePartial info new value
  | None => new
  end.

(** The cases of [internalBinaryRead] *)
Definition switch `{RT : BinaryRuntime} (options : BinaryReadOptions) (fieldNo : Z)
    (wireType : WireType) (message : t) (reader : IBinaryReader) : result (t * IBinaryReader) :=
  match fieldNo with
  | 1 => '(v, reader) ← r_int64_string reader; Ok (set_visibleMessageCount v message, reader)
  | 2 => '(v, reader) ← r_int64_string reader; Ok (set_inFlightMessageCount v message, reader)
  | 3 => '(v, reader) ← r_int64_string reader; Ok (set_oldestVisibleMessageAgeSeconds v message, reader)
  | 4 => '(v, reader) ← r_int64_string reader; Ok (set_archivedMessageCount v message, reader)
  | 5 => '(v, reader) ← r_int64_string reader; Ok (set_dlqMessageCount v message, reader)
  | _ =>
      '(u, reader) ← readUnknown options typeName fieldNo wireType message.(unknown) reader;
      Ok (set_unknown u message, reader)
  end.

Definition internalBinaryRead `{RT : BinaryRuntime} (reader : IBinaryReader) (length : Z)
    (options : BinaryReadOptions) (target : option t) : result (t * IBinaryReader) :=
  let message := default (create None) target in
  readLoop (loop_fuel length) (switch options) (r_pos reader + length) message reader.

Definition internalBinaryWrite `{RT : BinaryRuntime} (message : t) (writer : IBinaryWriter)
    (options : BinaryWriteOptions) : result IBinaryWriter :=
  writer ← (if negb (bool_decide (message.(visibleMessageCount) = js "0"))
     then w_int64 message.(visibleMessageCount) (w_tag 1 Varint writer) else Ok writer);
  writer ← (if negb (bool_decide (message.(inFlightMessageCount) = js "0"))
     then w_int64 message.(inFlightMessageCount) (w_tag 2 Varint writer) else Ok writer);
  writer ← (if negb (bool_decide (message.(oldestVisibleMessageAgeSeconds) = js "0"))
     then w_int64 message.(oldestVisibleMessageAgeSeconds) (w_tag 3 Varint writer) else Ok writer);
  writer ← (if negb (bool_decide (message.(archivedMessageCount) = js "0"))
     then w_int64 message.(archivedMessageCount) (w_tag 4 Varint writer) else Ok writer);
  writer ← (if negb (bool_decide (message.(dlqMessageCount) = js "0"))
     then w_int64 message.(dlqMessageCount) (w_tag 5 Varint writer) else Ok writer);
  writeUnknown options typeName message.(unknown) writer.

(** The field table of the constructor, with the values of a message *)
Definition fields (m : t) : list wfield :=
  [FInt64 1 m.(visibleMessageCount);
   FInt64 2 m.(inFlightMessageCount);
   FInt64 3 m.(oldestVisibleMessageAgeSeconds);
   FInt64 4 m.(archivedMessageCount);
   FInt64 5 m.(dlqMessageCount)].
Definition encode (m : t) : bytes := encode_message (fields m) m.(unknown).
Definition wf (m : t) : Prop :=
  forallb ok_field (fields m) = true
  /\ Forall (fun u => wf_unknown u /\ 5 < uf_no u) m.(unknown).

Lemma QueueMetricsResponse_settles `{L : RuntimeLaws} len o target :
  settles (fun r => internalBinaryRead r len o target).
Proof. apply readLoop_settles. intros no wt m r. unfold switch. split_number no; settle. Qed.
#[global] Hint Resolve QueueMetricsResponse_settles : pgapp.

Lemma QueueMetricsResponse_codes `{L : RuntimeLaws} m : wf m ->
  message_codes (fun w => internalBinaryWrite m w defaultWriteOptions)
    (fun r len => internalBinaryRead r len defaultReadOptions None) (encode m) m.
Proof.
  intros (Hf & Hu). codec_open m Hf. apply (message_intro (switch defaultReadOptions)).
  unfold internalBinaryWrite, encode, encode_message, fields. cbn [foldr].
  do 5 codec_step.
  codec_reduce. apply (codes_unknown _ unknown set_unknown typeName 5); 
    first [codec_side | codec_default switch].
Qed.

#[global] Instance message_type : MessageType t := {|
  mt_typeName := typeName; mt_new := new; mt_read RT := @internalBinaryRead RT;
  mt_write RT := @internalBinaryWrite RT; mt_encode := encode; mt_wf := wf |}.
#[global] Instance lawful : LawfulMessage t :=
  {| mt_codes := @QueueMetricsResponse_codes; mt_settles := @QueueMetricsResponse_settles |}.

End QueueMetricsResponse.

(** ** Message [DlqMessage] *)
Module DlqMessage.

(** [interface DlqMessage], with the fields the decoder did not know *)
Record t := mk {
  id : jsstr;
  originalMessageId : jsstr;
  readCount : number;
  enqueuedAt : jsstr;
  deadLetteredAt : jsstr;
  jsonPayload : jsstr;
  reason : jsstr;
  unknown : list UnknownField
}.

Definition set_id (x : jsstr) (m : t) : t :=
  mk x m.(originalMessageId) m.(readCount) m.(enqueuedAt) m.(deadLetteredAt) m.(jsonPayload) m.(reason) m.(unknown).
Definition set_originalMessageId (x : jsstr) (m : t) : t :=
  mk m.(id) x m.(readCount) m.(enqueuedAt) m.(deadLetteredAt) m.(jsonPayload) m.(reason) m.(unknown).
Definition set_readCount (x : number) (m : t) : t :=
  mk m.(id) m.(originalMessageId) x m.(enqueuedAt) m.(deadLetteredAt) m.(jsonPayload) m.(reason) m.(unknown).
Definition set_enqueuedAt (x : jsstr) (m : t) : t :=
  mk m.(id) m.(originalMessageId) m.(readCount) x m.(deadLetteredAt) m.(jsonPayload) m.(reason) m.(unknown).
Definition set_deadLetteredAt (x : jsstr) (m : t) : t :=
  mk m.(id) m.(originalMessageId) m.(readCount) m.(enqueuedAt) x m.(jsonPayload) m.(reason) m.(unknown).
Definition set_jsonPayload (x : jsstr) (m : t) : t :=
  mk m.(id) m.(originalMessageId) m.(readCount) m.(enqueuedAt) m.(deadLetteredAt) x m.(reason) m.(unknown).
Definition set_reason (x : jsstr) (m : t) : t :=
  mk m.(id) m.(originalMessageId) m.(readCount) m.(enqueuedAt) m.(deadLetteredAt) m.(jsonPayload) x m.(unknown).
Definition set_unknown (x : list UnknownField) (m : t) : t :=
  mk m.(id) m.(originalMessageId) m.(readCount) m.(enqueuedAt) m.(deadLetteredAt) m.(jsonPayload) m.(reason) x.

Definition typeName : jsstr := js "pgapp.v1.DlqMessage".

(** [PartialMessage<DlqMessage>] and the effect of merging one *)
Record PartialMessage := mkPartial {
  p_id : option jsstr;
  p_originalMessageId : option jsstr;
  p_readCount : option number;
  p_enqueuedAt : option jsstr;
  p_deadLetteredAt : option jsstr;
  p_jsonPayload : option jsstr;
  p_reason : option jsstr
}.
#[global] Instance info : MessageInfo t PartialMessage := {|
  overlay m p := mk
    (default m.(id) p.(p_id))
    (default m.(originalMessageId) p.(p_originalMessageId))
    (default m.(readCount) p.(p_readCount))
    (default m.(enqueuedAt) p.(p_enqueuedAt))
    (default m.(deadLetteredAt) p.(p_deadLetteredAt))
    (default m.(jsonPayload) p.(p_jsonPayload))
    (default m.(reason) p.(p_reason))
    m.(unknown)
|}.
(** A complete message used as a partial one *)
Definition as_partial (m : t) : PartialMessage :=
  mkPartial (Some m.(id)) (Some m.(originalMessageId)) (Some m.(readCount)) (Some m.(enqueuedAt)) (Some m.(deadLetteredAt)) (Some m.(jsonPayload)) (Some m.(reason)).

(** The message prototype with every field at its default *)
Definition new : t :=
  mk (js "0") (js "0") (Finite 0 0) (js "") (js "") (js "") (js "") [].
Definition create `{RT : BinaryRuntime} (value : option PartialMessage) : t :=
  match value with
  | Some value => reflectionMergePartial info new value
  | None => new
  end.

(** The cases of [internalBinaryRead] *)
Definition switch `{RT : BinaryRuntime} (options : BinaryReadOptions) (fieldNo : Z)
    (wireType : WireType) (message : t) (reader : IBinaryReader) : result (t * IBinaryReader) :=
  match fieldNo with
  | 1 => '(v, reader) ← r_int64_string reader; Ok (set_id v message, reader)
  | 2 => '(v, reader) ← r_int64_string reader; Ok (set_originalMessageId v message, reader)
  | 3 => '(v, reader) ← r_int32 reader; Ok (set_readCount (Num.of_Z v) message, reader)
  | 4 => '(v, reader) ← r_string reader; Ok (set_enqueuedAt v message, reader)
  | 5 => '(v, reader) ← r_string reader; Ok (set_deadLetteredAt v message, reader)
  | 6 => '(v, reader) ← r_string reader; Ok (set_jsonPayload v message, reader)
  | 7 => '(v, reader) ← r_string reader; Ok (set_reason v message, reader)
  | _ =>
      '(u, reader) ← readUnknown options typeName fieldNo wireType message.(unknown) reader;
      Ok (set_unknown u message, reader)
  end.

Definition internalBinaryRead `{RT : BinaryRuntime} (reader : IBinaryReader) (length : Z)
    (options : BinaryReadOptions) (target : option t) : result (t * IBinaryReader) :=
  let message := default (create None) target in
  readLoop (loop_fuel length) (switch options) (r_pos reader + length) message reader.

Definition internalBinaryWrite `{RT : BinaryRuntime} (message : t) (writer : IBinaryWriter)
    (options : BinaryWriteOptions) : result IBinaryWriter :=
  writer ← (if negb (bool_decide (message.(id) = js "0"))
     then w_int64 message.(id) (w_tag 1 Varint writer) else Ok writer);
  writer ← (if negb (bool_decide (message.(originalMessageId) = js "0"))
     then w_int64 message.(originalMessageId) (w_tag 2 Varint writer) else Ok writer);
  writer ← (if negb (Num.eqb message.(readCount) (Finite 0 0))
     then w_int32 message.(readCount) (w_tag 3 Varint writer) else Ok writer);
  writer ← (if negb (bool_decide (message.(enqueuedAt) = js ""))
     then w_string message.(enqueuedAt) (w_tag 4 LengthDelimited writer) else Ok writer);
  writer ← (if negb (bool_decide (message.(deadLetteredAt) = js ""))
     then w_string message.(deadLetteredAt) (w_tag 5 LengthDelimited writer) else Ok writer);
  writer ← (if negb (bool_decide (message.(jsonPayload) = js ""))
     then w_string message.(jsonPayload) (w_tag 6 LengthDelimited writer) else Ok writer);
  writer ← (if negb (bool_decide (message.(reason) = js ""))
     then w_string message.(reason) (w_tag 7 LengthDelimited writer) else Ok writer);
  writeUnknown options typeName message.(unknown) writer.

(** The field table of the constructor, with the values of a message *)
Definition fields (m : t) : list wfield :=
  [FInt64 1 m.(id);
   FInt64 2 m.(originalMessageId);
   FInt32 3 m.(readCount);
   FString 4 m.(enqueuedAt);
   FString 5 m.(deadLetteredAt);
   FString 6 m.(jsonPayload);
   FString 7 m.(reason)].
Definition encode (m : t) : bytes := encode_message (fields m) m.(unknown).
Definition wf (m : t) : Prop :=
  forallb ok_field (fields m) = true
  /\ Forall (fun u => wf_unknown u /\ 7 < uf_no u) m.(unknown).

Lemma DlqMessage_settles `{L : RuntimeLaws} len o target :
  settles (fun r => internalBinaryRead r len o target).
Proof. apply readLoop_settles. intros no wt m r. unfold switch. split_number no; settle. Qed.
#[global] Hint Resolve DlqMessage_settles : pgapp.

Lemma DlqMessage_codes `{L : RuntimeLaws} m : wf m ->
  message_codes (fun w => internalBinaryWrite m w defaultWriteOptions)
    (fun r len => internalBinaryRead r len defaultReadOptions None) (encode m) m.
Proof.
  intros (Hf & Hu). codec_open m Hf. apply (message_intro (switch defaultReadOptions)).
  unfold internalBinaryWrite, encode, encode_message, fields. cbn [foldr].
  do 7 codec_step.
  codec_reduce. apply (codes_unknown _ unknown set_unknown typeName 7); 
    first [codec_side | codec_default switch].
Qed.

#[global] Instance message_type : MessageType t := {|
  mt_typeName := typeName; mt_new := new; mt_read RT := @internalBinaryRead RT;
  mt_write RT := @internalBinaryWrite RT; mt_encode := encode; mt_wf := wf |}.
#[global] Instance lawful : LawfulMessage t :=
  {| mt_codes := @DlqMessage_codes; mt_settles := @DlqMessage_settles |}.

End DlqMessage.

(** ** Message [ListDlqMessagesRequest] *)
Module ListDlqMessagesRequest.

(** [interface ListDlqMessagesRequest], with the fields the decoder did not know *)
Record t := mk {
  queueName : jsstr;
  limit : number;
  offset : jsstr;
  unknown : list UnknownField
}.

Definition set_queueName (x : jsstr) (m : t) : t :=
  mk x m.(limit) m.(offset) m.(unknown).
Definition set_limit (x : number) (m : t) : t :=
  mk m.(queueName) x m.(offset) m.(unknown).
Definition set_offset (x : jsstr) (m : t) : t :=
  mk m.(queueName) m.(limit) x m.(unknown).
Definition set_unknown (x : list UnknownField) (m : t) : t :=
  mk m.(queueName) m.(limit) m.(offset) x.

Definition typeName : jsstr := js "pgapp.v1.ListDlqMessagesRequest".

(** [PartialMessage<ListDlqMessagesRequest>] and the effect of merging one *)
Record PartialMessage := mkPartial {
  p_queueName : option jsstr;
  p_limit : option number;
  p_offset : option jsstr
}.
#[global] Instance info : MessageInfo t PartialMessage := {|
  overlay m p := mk
    (default m.(queueName) p.(p_queueName))
    (default m.(limit) p.(p_limit))
    (default m.(offset) p.(p_offset))
    m.(unknown)
|}.
(** A complete message used as a partial one *)
Definition as_partial (m : t) : PartialMessage :=
  mkPartial (Some m.(queueName)) (Some m.(limit)) (Some m.(offset)).

(** The message prototype with every field at its default *)
Definition new : t :=
  mk (js "") (Finite 0 0) (js "0") [].
Definition create `{RT : BinaryRuntime} (value : option PartialMessage) : t :=
  match value with
  | Some value => reflectionMergePartial info new value
  | None => new
  end.

(** The cases of [internalBinaryRead] *)
Definition switch `{RT : BinaryRuntime} (options : BinaryReadOptions) (fieldNo : Z)
    (wireType : WireType) (message : t) (reader : IBinaryReader) : result (t * IBinaryReader) :=
  match fieldNo with
  | 1 => '(v, reader) ← r_string reader; Ok (set_queueName v message, reader)
  | 2 => '(v, reader) ← r_int32 reader; Ok (set_limit (Num.of_Z v) message, reader)
  | 3 => '(v, reader) ← r_int64_string reader; Ok (set_offset v message, reader)
  | _ =>
      '(u, reader) ← readUnknown options typeName fieldNo wireType message.(unknown) reader;
      Ok (set_unknown u message, reader)
  end.

Definition internalBinaryRead `{RT : BinaryRuntime} (reader : IBinaryReader) (length : Z)
    (options : BinaryReadOptions) (target : option t) : result (t * IBinaryReader) :=
  let message := default (create None) target in
  readLoop (loop_fuel length) (switch options) (r_pos reader + length) message reader.

Definition internalBinaryWrite `{RT : BinaryRuntime} (message : t) (writer : IBinaryWriter)
    (options : BinaryWriteOptions) : result IBinaryWriter :=
  writer ← (if negb (bool_decide (message.(queueName) = js ""))
     then w_string message.(queueName) (w_tag 1 LengthDelimited writer) else Ok writer);
  writer ← (if negb (Num.eqb message.(limit) (Finite 0 0))
     then w_int32 message.(limit) (w_tag 2 Varint writer) else Ok writer);
  writer ← (if negb (bool_decide (message.(offset) = js "0"))
     then w_int64 message.(offset) (w_tag 3 Varint writer) else Ok writer);
  writeUnknown options typeName message.(unknown) writer.

(** The field table of the constructor, with the values of a message *)
Definition fields (m : t) : list wfield :=
  [FString 1 m.(queueName);
   FInt32 2 m.(limit);
   FInt64 3 m.(offset)].
Definition encode (m : t) : bytes := encode_message (fields m) m.(unknown).
Definition wf (m : t) : Prop :=
  forallb ok_field (fields m) = true
  /\ Forall (fun u => wf_unknown u /\ 3 < uf_no u) m.(unknown).

Lemma ListDlqMessagesRequest_settles `{L : RuntimeLaws} len o target :
  settles (fun r => internalBinaryRead r len o target).
Proof. apply readLoop_settles. intros no wt m r. unfold switch. split_number no; settle. Qed.
#[global] Hint Resolve ListDlqMessagesRequest_settles : pgapp.

Lemma ListDlqMessagesRequest_codes `{L : RuntimeLaws} m : wf m ->
  message_codes (fun w => internalBinaryWrite m w defaultWriteOptions)
    (fun r len => internalBinaryRead r len defaultReadOptions None) (encode m) m.
Proof.
  intros (Hf & Hu). codec_open m Hf. apply (message_intro (switch defaultReadOptions)).
  unfold internalBinaryWrite, encode, encode_message, fields. cbn [foldr].
  do 3 codec_step.
  codec_reduce. apply (codes_unknown _ unknown set_unknown typeName 3); 
    first [codec_side | codec_default switch].
Qed.

#[global] Instance message_type : MessageType t := {|
  mt_typeName := typeName; mt_new := new; mt_read RT := @internalBinaryRead RT;
  mt_write RT := @internalBinaryWrite RT; mt_encode := encode; mt_wf := wf |}.
#[global] Instance lawful : LawfulMessage t :=
  {| mt_codes := @ListDlqMessagesRequest_codes; mt_settles := @ListDlqMessagesRequest_settles |}.

End ListDlqMessagesRequest.

(** ** Message [ListDlqMessagesResponse] *)
Module ListDlqMessagesResponse.

(** [interface ListDlqMessagesResponse], with the fields the decoder did not know *)
Record t := mk {
  messages : list DlqMessage.t;
  nextOffset : jsstr;
  unknown : list UnknownField
}.

Definition set_messages (x : list DlqMessage.t) (m : t) : t :=
  mk x m.(nextOffset) m.(unknown).
Definition set_nextOffset (x : jsstr) (m : t) : t :=
  mk m.(messages) x m.(unknown).
Definition set_unknown (x : list UnknownField) (m : t) : t :=
  mk m.(messages) m.(nextOffset) x.

Definition typeName : jsstr := js "pgapp.v1.ListDlqMessagesResponse".

(** [PartialMessage<ListDlqMessagesResponse>] and the effect of merging one *)
Record PartialMessage := mkPartial {
  p_messages : option (list DlqMessage.PartialMessage);
  p_nextOffset : option jsstr
}.
#[global] Instance info : MessageInfo t PartialMessage := {|
  overlay m p := mk
    (default m.(messages) (map (overlay DlqMessage.new) <$> p.(p_messages)))
    (default m.(nextOffset) p.(p_nextOffset))
    m.(unknown)
|}.
(** A complete message used as a partial one *)
Definition as_partial (m : t) : PartialMessage :=
  mkPartial (Some (map DlqMessage.as_partial m.(messages))) (Some m.(nextOffset)).

(** The message prototype with every field at its default *)
Definition new : t :=
  mk [] (js "0") [].
Definition create `{RT : BinaryRuntime} (value : option PartialMessage) : t :=
  match value with
  | Some value => reflectionMergePartial info new value
  | None => new
  end.

(** The cases of [internalBinaryRead] *)
Definition switch `{RT : BinaryRuntime} (options : BinaryReadOptions) (fieldNo : Z)
    (wireType : WireType) (message : t) (reader : IBinaryReader) : result (t * IBinaryReader) :=
  match fieldNo with
  | 1 =>
      '(length, reader) ← r_uint32 reader;
      '(v, reader) ← DlqMessage.internalBinaryRead reader length options None;
      Ok (set_messages (message.(messages) ++ [v]) message, reader)
  | 2 => '(v, reader) ← r_int64_string reader; Ok (set_nextOffset v message, reader)
  | _ =>
      '(u, reader) ← readUnknown options typeName fieldNo wireType message.(unknown) reader;
      Ok (set_unknown u message, reader)
  end.

Definition internalBinaryRead `{RT : BinaryRuntime} (reader : IBinaryReader) (length : Z)
    (options : BinaryReadOptions) (target : option t) : result (t * IBinaryReader) :=
  let message := default (create None) target in
  readLoop (loop_fuel length) (switch options) (r_pos reader + length) message reader.

Definition internalBinaryWrite `{RT : BinaryRuntime} (message : t) (writer : IBinaryWriter)
    (options : BinaryWriteOptions) : result IBinaryWriter :=
  writer ← writeEach (fun x writer =>
      writer ← DlqMessage.internalBinaryWrite x (w_fork (w_tag 1 LengthDelimited writer)) options;
      w_join writer) message.(messages) writer;
  writer ← (if negb (bool_decide (message.(nextOffset) = js "0"))
     then w_int64 message.(nextOffset) (w_tag 2 Varint writer) else Ok writer);
  writeUnknown options typeName message.(unknown) writer.

(** The field table of the constructor, with the values of a message *)
Definition fields (m : t) : list wfield :=
  [FRepMessage 1 (DlqMessage.encode <$> m.(messages));
   FInt64 2 m.(nextOffset)].
Definition encode (m : t) : bytes := encode_message (fields m) m.(unknown).
Definition wf (m : t) : Prop :=
  forallb ok_field (fields m) = true
  /\ Forall DlqMessage.wf m.(messages)
  /\ Forall (fun u => wf_unknown u /\ 2 < uf_no u) m.(unknown).

Lemma ListDlqMessagesResponse_settles `{L : RuntimeLaws} len o target :
  settles (fun r => internalBinaryRead r len o target).
Proof. apply readLoop_settles. intros no wt m r. unfold switch. split_number no; settle. Qed.
#[global] Hint Resolve ListDlqMessagesResponse_settles : pgapp.

Lemma ListDlqMessagesResponse_codes `{L : RuntimeLaws} m : wf m ->
  message_codes (fun w => internalBinaryWrite m w defaultWriteOptions)
    (fun r len => internalBinaryRead r len defaultReadOptions None) (encode m) m.
Proof.
  intros (Hf & Hs0 & Hu). codec_open m Hf. apply (message_intro (switch defaultReadOptions)).
  unfold internalBinaryWrite, encode, encode_message, fields. cbn [foldr].
  codec_field (codes_rep_message_field (switch defaultReadOptions) messages set_messages).
  codec_step.
  codec_reduce. apply (codes_unknown _ unknown set_unknown typeName 2); 
    first [codec_side | codec_default switch].
Qed.

#[global] Instance message_type : MessageType t := {|
  mt_typeName := typeName; mt_new := new; mt_read RT := @internalBinaryRead RT;
  mt_write RT := @internalBinaryWrite RT; mt_encode := encode; mt_wf := wf |}.
#[global] Instance lawful : LawfulMessage t :=
  {| mt_codes := @ListDlqMessagesResponse_codes; mt_settles := @ListDlqMessagesResponse_settles |}.

End ListDlqMessagesResponse.

(** ** Message [GetDlqMessageRequest] *)
Module GetDlqMessageRequest.

(** [interface GetDlqMessageRequest], with the fields the decoder did not know *)
Record t := mk {
  queueName : jsstr;
  originalMessageId : jsstr;
  unknown : list UnknownField
}.

Definition set_queueName (x : jsstr) (m : t) : t :=
  mk x m.(originalMessageId) m.(unknown).
Definition set_originalMessageId (x : jsstr) (m : t) : t :=
  mk m.(queueName) x m.(unknown).
Definition set_unknown (x : list UnknownField) (m : t) : t :=
  mk m.(queueName) m.(originalMessageId) x.

Definition typeName : jsstr := js "pgapp.v1.GetDlqMessageRequest".

(** [PartialMessage<GetDlqMessageRequest>] and the effect of merging one *)
Record PartialMessage := mkPartial {
  p_queueName : option jsstr;
  p_originalMessageId : option jsstr
}.
#[global] Instance info : MessageInfo t PartialMessage := {|
  overlay m p := mk
    (default m.(queueName) p.(p_queueName))
    (default m.(originalMessageId) p.(p_originalMessageId))
    m.(unknown)
|}.
(** A complete message used as a partial one *)
Definition as_partial (m : t) : PartialMessage :=
  mkPartial (Some m.(queueName)) (Some m.(originalMessageId)).

(** The message prototype with every field at its default *)
Definition new : t :=
  mk (js "") (js "0") [].
Definition create `{RT : BinaryRuntime} (value : option PartialMessage) : t :=
  match value with
  | Some value => reflectionMergePartial info new value
  | None => new
  end.

(** The cases of [internalBinaryRead] *)
Definition switch `{RT : BinaryRuntime} (options : BinaryReadOptions) (fieldNo : Z)
    (wireType : WireType) (message : t) (reader : IBinaryReader) : result (t * IBinaryReader) :=
  match fieldNo with
  | 1 => '(v, reader) ← r_string reader; Ok (set_queueName v message, reader)
  | 2 => '(v, reader) ← r_int64_string reader; Ok (set_originalMessageId v message, reader)
  | _ =>
      '(u, reader) ← readUnknown options typeName fieldNo wireType message.(unknown) reader;
      Ok (set_unknown u message, reader)
  end.

Definition internalBinaryRead `{RT : BinaryRuntime} (reader : IBinaryReader) (length : Z)
    (options : BinaryReadOptions) (target : option t) : result (t * IBinaryReader) :=
  let message := default (create None) target in
  readLoop (loop_fuel length) (switch options) (r_pos reader + length) message reader.

Definition internalBinaryWrite `{RT : BinaryRuntime} (message : t) (writer : IBinaryWriter)
    (options : BinaryWriteOptions) : result IBinaryWriter :=
  writer ← (if negb (bool_decide (message.(queueName) = js ""))
     then w_string message.(queueName) (w_tag 1 LengthDelimited writer) else Ok writer);
  writer ← (if negb (bool_decide (message.(originalMessageId) = js "0"))
     then w_int64 message.(originalMessageId) (w_tag 2 Varint writer) else Ok writer);
  writeUnknown options typeName message.(unknown) writer.

(** The field table of the constructor, with the values of a message *)
Definition fields (m : t) : list wfield :=
  [FString 1 m.(queueName);
   FInt64 2 m.(originalMessageId)].
Definition encode (m : t) : bytes := encode_message (fields m) m.(unknown).
Definition wf (m : t) : Prop :=
  forallb ok_field (fields m) = true
  /\ Forall (fun u => wf_unknown u /\ 2 < uf_no u) m.(unknown).

Lemma GetDlqMessageRequest_settles `{L : RuntimeLaws} len o target :
  settles (fun r => internalBinaryRead r len o target).
Proof. apply readLoop_settles. intros no wt m r. unfold switch. split_number no; settle. Qed.
#[global] Hint Resolve GetDlqMessageRequest_settles : pgapp.

Lemma GetDlqMessageRequest_codes `{L : RuntimeLaws} m : wf m ->
  message_codes (fun w => internalBinaryWrite m w defaultWriteOptions)
    (fun r len => internalBinaryRead r len defaultReadOptions None) (encode m) m.
Proof.
  intros (Hf & Hu). codec_open m Hf. apply (message_intro (switch defaultReadOptions)).
  unfold internalBinaryWrite, encode, encode_message, fields. cbn [foldr].
  do 2 codec_step.
  codec_reduce. apply (codes_unknown _ unknown set_unknown typeName 2); 
    first [codec_side | codec_default switch].
Qed.

#[global] Instance message_type : MessageType t := {|
  mt_typeName := typeName; mt_new := new; mt_read RT := @internalBinaryRead RT;
  mt_write RT := @internalBinaryWrite RT; mt_encode := encode; mt_wf := wf |}.
#[global] Instance lawful : LawfulMessage t :=
  {| mt_codes := @GetDlqMessageRequest_codes; mt_settles := @GetDlqMessageRequest_settles |}.

End GetDlqMessageRequest.

(** ** Message [ReprocessDlqMessageRequest] *)
Module ReprocessDlqMessageRequest.

(** [interface ReprocessDlqMessageRequest], with the fields the decoder did not know *)
Record t := mk {
  queueName : jsstr;
  originalMessageId : jsstr;
  unknown : list UnknownField
}.

Definition set_queueName (x : jsstr) (m : t) : t :=
  mk x m.(originalMessageId) m.(unknown).
Definition set_originalMessageId (x : jsstr) (m : t) : t :=
  mk m.(queueName) x m.(unknown).
Definition set_unknown (x : list UnknownField) (m : t) : t :=
  mk m.(queueName) m.(originalMessageId) x.

Definition typeName : jsstr := js "pgapp.v1.ReprocessDlqMessageRequest".

(** [PartialMessage<ReprocessDlqMessageRequest>] and the effect of merging one *)
Record PartialMessage := mkPartial {
  p_queueName : option jsstr;
  p_originalMessageId : option jsstr
}.
#[global] Instance info : MessageInfo t PartialMessage := {|
  overlay m p := mk
    (default m.(queueName) p.(p_queueName))
    (default m.(originalMessageId) p.(p_originalMessageId))
    m.(unknown)
|}.
(** A complete message used as a partial one *)
Definition as_partial (m : t) : PartialMessage :=
  mkPartial (Some m.(queueName)) (Some m.(originalMessageId)).

(** The message prototype with every field at its default *)
Definition new : t :=
  mk (js "") (js "0") [].
Definition create `{RT : BinaryRuntime} (value : option PartialMessage) : t :=
  match value with
  | Some value => reflectionMergePartial info new value
  | None => new
  end.

(** The cases of [internalBinaryRead] *)
Definition switch `{RT : BinaryRuntime} (options : BinaryReadOptions) (fieldNo : Z)
    (wireType : WireType) (message : t) (reader : IBinaryReader) : result (t * IBinaryReader) :=
  match fieldNo with
  | 1 => '(v, reader) ← r_string reader; Ok (set_queueName v message, reader)
  | 2 => '(v, reader) ← r_int64_string reader; Ok (set_originalMessageId v message, reader)
  | _ =>
      '(u, reader) ← readUnknown options typeName fieldNo wireType message.(unknown) reader;
      Ok (set_unknown u message, reader)
  end.

Definition internalBinaryRead `{RT : BinaryRuntime} (reader : IBinaryReader) (length : Z)
    (options : BinaryReadOptions) (target : option t) : result (t * IBinaryReader) :=
  let message := default (create None) target in
  readLoop (loop_fuel length) (switch options) (r_pos reader + length) message reader.

Definition internalBinaryWrite `{RT : BinaryRuntime} (message : t) (writer : IBinaryWriter)
    (options : BinaryWriteOptions) : result IBinaryWriter :=
  writer ← (if negb (bool_decide (message.(queueName) = js ""))
     then w_string message.(queueName) (w_tag 1 LengthDelimited writer) else Ok writer);
  writer ← (if negb (bool_decide (message.(originalMessageId) = js "0"))
     then w_int64 message.(originalMessageId) (w_tag 2 Varint writer) else Ok writer);
  writeUnknown options typeName message.(unknown) writer.

(** The field table of the constructor, with the values of a message *)
Definition fields (m : t) : list wfield :=
  [FString 1 m.(queueName);
   FInt64 2 m.(originalMessageId)].
Definition encode (m : t) : bytes := encode_message (fields m) m.(unknown).
Definition wf (m : t) : Prop :=
  forallb ok_field (fields m) = true
  /\ Forall (fun u => wf_unknown u /\ 2 < uf_no u) m.(unknown).

Lemma ReprocessDlqMessageRequest_settles `{L : RuntimeLaws} len o target :
  settles (fun r => internalBinaryRead r len o target).
Proof. apply readLoop_settles. intros no wt m r. unfold switch. split_number no; settle. Qed.
#[global] Hint Resolve ReprocessDlqMessageRequest_settles : pgapp.

Lemma ReprocessDlqMessageRequest_codes `{L : RuntimeLaws} m : wf m ->
  message_codes (fun w => internalBinaryWrite m w defaultWriteOptions)
    (fun r len => internalBinaryRead r len defaultReadOptions None) (encode m) m.
Proof.
  intros (Hf & Hu). codec_open m Hf. apply (message_intro (switch defaultReadOptions)).
  unfold internalBinaryWrite, encode, encode_message, fields. cbn [foldr].
  do 2 codec_step.
  codec_reduce. apply (codes_unknown _ unknown set_unknown typeName 2); 
    first [codec_side | codec_default switch].
Qed.

#[global] Instance message_type : MessageType t := {|
  mt_typeName := typeName; mt_new := new; mt_read RT := @internalBinaryRead RT;
  mt_write RT := @internalBinaryWrite RT; mt_encode := encode; mt_wf := wf |}.
#[global] Instance lawful : LawfulMessage t :=
  {| mt_codes := @ReprocessDlqMessageRequest_codes; mt_settles := @ReprocessDlqMessageRequest_settles |}.

End ReprocessDlqMessageRequest.

(** ** Message [PurgeDlqRequest] *)
Module PurgeDlqRequest.

(** [interface PurgeDlqRequest], with the fields the decoder did not know *)
Record t := mk {
  queueName : jsstr;
  unknown : list UnknownField
}.

Definition set_queueName (x : jsstr) (m : t) : t :=
  mk x m.(unknown).
Definition set_unknown (x : list UnknownField) (m : t) : t :=
  mk m.(queueName) x.

Definition typeName : jsstr := js "pgapp.v1.PurgeDlqRequest".

(** [PartialMessage<PurgeDlqRequest>] and the effect of merging one *)
Record PartialMessage := mkPartial {
  p_queueName : option jsstr
}.
#[global] Instance info : MessageInfo t PartialMessage := {|
  overlay m p := mk
    (default m.(queueName) p.(p_queueName))
    m.(unknown)
|}.
(** A complete message used as a partial one *)
Definition as_partial (m : t) : PartialMessage :=
  mkPartial (Some m.(queueName)).

(** The message prototype with every field at its default *)
Definition new : t :=
  mk (js "") [].
Definition create `{RT : BinaryRuntime} (value : option PartialMessage) : t :=
  match value with
  | Some value => reflectionMergePartial info new value
  | None => new
  end.

(** The cases of [internalBinaryRead] *)
Definition switch `{RT : BinaryRuntime} (options : BinaryReadOptions) (fieldNo : Z)
    (wireType : WireType) (message : t) (reader : IBinaryReader) : result (t * IBinaryReader) :=
  match fieldNo with
  | 1 => '(v, reader) ← r_string reader; Ok (set_queueName v message, reader)
  | _ =>
      '(u, reader) ← readUnknown options typeName fieldNo wireType message.(unknown) reader;
      Ok (set_unknown u message, reader)
  end.

Definition internalBinaryRead `{RT : BinaryRuntime} (reader : IBinaryReader) (length : Z)
    (options : BinaryReadOptions) (target : option t) : result (t * IBinaryReader) :=
  let message := default (create None) target in
  readLoop (loop_fuel length) (switch options) (r_pos reader + length) message reader.

Definition internalBinaryWrite `{RT : BinaryRuntime} (message : t) (writer : IBinaryWriter)
    (options : BinaryWriteOptions) : result IBinaryWriter :=
  writer ← (if negb (bool_decide (message.(queueName) = js ""))
     then w_string message.(queueName) (w_tag 1 LengthDelimited writer) else Ok writer);
  writeUnknown options typeName message.(unknown) writer.

(** The field table of the constructor, with the values of a message *)
Definition fields (m : t) : list wfield :=
  [FString 1 m.(queueName)].
Definition encode (m : t) : bytes := encode_message (fields m) m.(unknown).
Definition wf (m : t) : Prop :=
  forallb ok_field (fields m) = true
  /\ Forall (fun u => wf_unknown u /\ 1 < uf_no u) m.(unknown).

Lemma PurgeDlqRequest_settles `{L : RuntimeLaws} len o target :
  settles (fun r => internalBinaryRead r len o target).
Proof. apply readLoop_settles. intros no wt m r. unfold switch. split_number no; settle. Qed.
#[global] Hint Resolve PurgeDlqRequest_settles : pgapp.

Lemma PurgeDlqRequest_codes `{L : RuntimeLaws} m : wf m ->
  message_codes (fun w => internalBinaryWrite m w defaultWriteOptions)
    (fun r len => internalBinaryRead r len defaultReadOptions None) (encode m) m.
Proof.
  intros (Hf & Hu). codec_open m Hf. apply (message_intro (switch defaultReadOptions)).
  unfold internalBinaryWrite, encode, encode_message, fields. cbn [foldr].
  codec_step.
  codec_reduce. apply (codes_unknown _ unknown set_unknown typeName 1); 
    first [codec_side | codec_default switch].
Qed.

#[global] Instance message_type : MessageType t := {|
  mt_typeName := typeName; mt_new := new; mt_read RT := @internalBinaryRead RT;
  mt_write RT := @internalBinaryWrite RT; mt_encode := encode; mt_wf := wf |}.
#[global] Instance lawful : LawfulMessage t :=
  {| mt_codes := @PurgeDlqRequest_codes; mt_settles := @PurgeDlqRequest_settles |}.

End PurgeDlqRequest.
