(* ===== verification/ConfigMessages.v ===== *)
(** * Message types of [gen/pgapp/v1/config.ts]

    The requests and responses of the config center.  Each module is one
    generated message type: its interface, [create], [internalBinaryRead] and
    [internalBinaryWrite], the encoding its field table prescribes, and the
    proofs that the type is lawful. *)

From Stdlib Require Import ZArith Lia.
From stdpp Require Import base list numbers option strings.
From S2P Require Import Prelude JsString JsNumber WireFormat ProtoRuntime Codec CommonMessages.

(** ** Message [ConfigScope] *)
Module ConfigScope.

(** [interface ConfigScope], with the fields the decoder did not know *)
Record t := mk {
  appId : jsstr;
  environment : jsstr;
  cluster : jsstr;
  namespace : jsstr;
  unknown : list UnknownField
}.

Definition set_appId (x : jsstr) (m : t) : t :=
  mk x m.(environment) m.(cluster) m.(namespace) m.(unknown).
Definition set_environment (x : jsstr) (m : t) : t :=
  mk m.(appId) x m.(cluster) m.(namespace) m.(unknown).
Definition set_cluster (x : jsstr) (m : t) : t :=
  mk m.(appId) m.(environment) x m.(namespace) m.(unknown).
Definition set_namespace (x : jsstr) (m : t) : t :=
  mk m.(appId) m.(environment) m.(cluster) x m.(unknown).
Definition set_unknown (x : list UnknownField) (m : t) : t :=
  mk m.(appId) m.(environment) m.(cluster) m.(namespace) x.

Definition typeName : jsstr := js "pgapp.v1.ConfigScope".

(** [PartialMessage<ConfigScope>] and the effect of merging one *)
Record PartialMessage := mkPartial {
  p_appId : option jsstr;
  p_environment : option jsstr;
  p_cluster : option jsstr;
  p_namespace : option jsstr
}.
#[global] Instance info : MessageInfo t PartialMessage := {|
  overlay m p := mk
    (default m.(appId) p.(p_appId))
    (default m.(environment) p.(p_environment))
    (default m.(cluster) p.(p_cluster))
    (default m.(namespace) p.(p_namespace))
    m.(unknown)
|}.
(** A complete message used as a partial one *)
Definition as_partial (m : t) : PartialMessage :=
  mkPartial (Some m.(appId)) (Some m.(environment)) (Some m.(cluster)) (Some m.(namespace)).

(** The message prototype with every field at its default *)
Definition new : t :=
  mk (js "") (js "") (js "") (js "") [].
Definition create `{RT : BinaryRuntime} (value : option PartialMessage) : t :=
  match value with
  | Some value => reflectionMergePartial info new value
  | None => new
  end.

(** The cases of [internalBinaryRead] *)
Definition switch `{RT : BinaryRuntime} (options : BinaryReadOptions) (fieldNo : Z)
    (wireType : WireType) (message : t) (reader : IBinaryReader) : result (t * IBinaryReader) :=
  match fieldNo with
  | 1 => '(v, reader) ← r_string reader; Ok (set_appId v message, reader)
  | 2 => '(v, reader) ← r_string reader; Ok (set_environment v message, reader)
  | 3 => '(v, reader) ← r_string reader; Ok (set_cluster v message, reader)
  | 4 => '(v, reader) ← r_string reader; Ok (set_namespace v message, reader)
  | _ =>
      '(u, reader) ← readUnknown options typeName fieldNo wireType message.(unknown) reader;
      Ok (set_unknown u message, reader)
  end.

Definition internalBinaryRead `{RT : BinaryRuntime} (reader : IBinaryReader) (length : Z)
    (options : BinaryReadOptions) (target : option t) : result (t * IBinaryReader) :=
  let message := default (create None) target in
  readLoop (loop_fuel length) (switch options) (r_pos reader + length) message reader.

Definition internalBinaryWrite `{RT : BinaryRuntime} (message : t) (writer : IBinaryWriter)
    (options : BinaryWriteOptions) : result IBinaryWriter :=
  writer ← (if negb (bool_decide (message.(appId) = js ""))
     then w_string message.(appId) (w_tag 1 LengthDelimited writer) else Ok writer);
  writer ← (if negb (bool_decide (message.(environment) = js ""))
     then w_string message.(environment) (w_tag 2 LengthDelimited writer) else Ok writer);
  writer ← (if negb (bool_decide (message.(cluster) = js ""))
     then w_string message.(cluster) (w_tag 3 LengthDelimited writer) else Ok writer);
  writer ← (if negb (bool_decide (message.(namespace) = js ""))
     then w_string message.(namespace) (w_tag 4 LengthDelimited writer) else Ok writer);
  writeUnknown options typeName message.(unknown) writer.

(** The field table of the constructor, with the values of a message *)
Definition fields (m : t) : list wfield :=
  [FString 1 m.(appId);
   FString 2 m.(environment);
   FString 3 m.(cluster);
   FString 4 m.(namespace)].
Definition encode (m : t) : bytes := encode_message (fields m) m.(unknown).
Definition wf (m : t) : Prop :=
  forallb ok_field (fields m) = true
  /\ Forall (fun u => wf_unknown u /\ 4 < uf_no u) m.(unknown).

Lemma ConfigScope_settles `{L : RuntimeLaws} len o target :
  settles (fun r => internalBinaryRead r len o target).
Proof. apply readLoop_settles. intros no wt m r. unfold switch. split_number no; settle. Qed.
#[global] Hint Resolve ConfigScope_settles : pgapp.

Lemma ConfigScope_codes `{L : RuntimeLaws} m : wf m ->
  message_codes (fun w => internalBinaryWrite m w defaultWriteOptions)
    (fun r len => internalBinaryRead r len defaultReadOptions None) (encode m) m.
Proof.
  intros (Hf & Hu). codec_open m Hf. apply (message_intro (switch defaultReadOptions)).
  unfold internalBinaryWrite, encode, encode_message, fields. cbn [foldr].
  do 4 codec_step.
  codec_reduce. apply (codes_unknown _ unknown set_unknown typeName 4); 
    first [codec_side | codec_default switch].
Qed.

#[global] Instance message_type : MessageType t := {|
  mt_typeName := typeName; mt_new := new; mt_read RT := @internalBinaryRead RT;
  mt_write RT := @internalBinaryWrite RT; mt_encode := encode; mt_wf := wf |}.
#[global] Instance lawful : LawfulMessage t :=
  {| mt_codes := @ConfigScope_codes; mt_settles := @ConfigScope_settles |}.

End ConfigScope.

(** ** Message [ConfigItem] *)
Module ConfigItem.

(** [interface ConfigItem], with the fields the decoder did not know *)
Record t := mk {
  key : jsstr;
  jsonValue : jsstr;
  deleted : bool;
  updatedAt : jsstr;
  unknown : list UnknownField
}.

Definition set_key (x : jsstr) (m : t) : t :=
  mk x m.(jsonValue) m.(deleted) m.(updatedAt) m.(unknown).
Definition set_jsonValue (x : jsstr) (m : t) : t :=
  mk m.(key) x m.(deleted) m.(updatedAt) m.(unknown).
Definition set_deleted (x : bool) (m : t) : t :=
  mk m.(key) m.(jsonValue) x m.(updatedAt) m.(unknown).
Definition set_updatedAt (x : jsstr) (m : t) : t :=
  mk m.(key) m.(jsonValue) m.(deleted) x m.(unknown).
Definition set_unknown (x : list UnknownField) (m : t) : t :=
  mk m.(key) m.(jsonValue) m.(deleted) m.(updatedAt) x.

Definition typeName : jsstr := js "pgapp.v1.ConfigItem".

(** [PartialMessage<ConfigItem>] and the effect of merging one *)
Record PartialMessage := mkPartial {
  p_key : option jsstr;
  p_jsonValue : option jsstr;
  p_deleted : option bool;
  p_updatedAt : option jsstr
}.
#[global] Instance info : MessageInfo t PartialMessage := {|
  overlay m p := mk
    (default m.(key) p.(p_key))
    (default m.(jsonValue) p.(p_jsonValue))
    (default m.(deleted) p.(p_deleted))
    (default m.(updatedAt) p.(p_updatedAt))
    m.(unknown)
|}.
(** A complete message used as a partial one *)
Definition as_partial (m : t) : PartialMessage :=
  mkPartial (Some m.(key)) (Some m.(jsonValue)) (Some m.(deleted)) (Some m.(updatedAt)).

(** The message prototype with every field at its default *)
Definition new : t :=
  mk (js "") (js "") false (js "") [].
Definition create `{RT : BinaryRuntime} (value : option PartialMessage) : t :=
  match value with
  | Some value => reflectionMergePartial info new value
  | None => new
  end.

(** The cases of [internalBinaryRead] *)
Definition switch `{RT : BinaryRuntime} (options : BinaryReadOptions) (fieldNo : Z)
    (wireType : WireType) (message : t) (reader : IBinaryReader) : result (t * IBinaryReader) :=
  match fieldNo with
  | 1 => '(v, reader) ← r_string reader; Ok (set_key v message, reader)
  | 2 => '(v, reader) ← r_string reader; Ok (set_jsonValue v message, reader)
  | 3 => '(v, reader) ← r_bool reader; Ok (set_deleted v message, reader)
  | 4 => '(v, reader) ← r_string reader; Ok (set_updatedAt v message, reader)
  | _ =>
      '(u, reader) ← readUnknown options typeName fieldNo wireType message.(unknown) reader;
      Ok (set_unknown u message, reader)
  end.

Definition internalBinaryRead `{RT : BinaryRuntime} (reader : IBinaryReader) (length : Z)
    (options : BinaryReadOptions) (target : option t) : result (t * IBinaryReader) :=
  let message := default (create None) target in
  readLoop (loop_fuel length) (switch options) (r_pos reader + length) message reader.

Definition internalBinaryWrite `{RT : BinaryRuntime} (message : t) (writer : IBinaryWriter)
    (options : BinaryWriteOptions) : result IBinaryWriter :=
  writer ← (if negb (bool_decide (message.(key) = js ""))
     then w_string message.(key) (w_tag 1 LengthDelimited writer) else Ok writer);
  writer ← (if negb (bool_decide (message.(jsonValue) = js ""))
     then w_string message.(jsonValue) (w_tag 2 LengthDelimited writer) else Ok writer);
  writer ← (if negb (Bool.eqb message.(deleted) false)
     then w_bool message.(deleted) (w_tag 3 Varint writer) else Ok writer);
  writer ← (if negb (bool_decide (message.(updatedAt) = js ""))
     then w_string message.(updatedAt) (w_tag 4 LengthDelimited writer) else Ok writer);
  writeUnknown options typeName message.(unknown) writer.

(** The field table of the constructor, with the values of a message *)
Definition fields (m : t) : list wfield :=
  [FString 1 m.(key);
   FString 2 m.(jsonValue);
   FBool 3 m.(deleted);
   FString 4 m.(updatedAt)].
Definition encode (m : t) : bytes := encode_message (fields m) m.(unknown).
Definition wf (m : t) : Prop :=
  forallb ok_field (fields m) = true
  /\ Forall (fun u => wf_unknown u /\ 4 < uf_no u) m.(unknown).

Lemma ConfigItem_settles `{L : RuntimeLaws} len o target :
  settles (fun r => internalBinaryRead r len o target).
Proof. apply readLoop_settles. intros no wt m r. unfold switch. split_number no; settle. Qed.
#[global] Hint Resolve ConfigItem_settles : pgapp.

Lemma ConfigItem_codes `{L : RuntimeLaws} m : wf m ->
  message_codes (fun w => internalBinaryWrite m w defaultWriteOptions)
    (fun r len => internalBinaryRead r len defaultReadOptions None) (encode m) m.
Proof.
  intros (Hf & Hu). codec_open m Hf. apply (message_intro (switch defaultReadOptions)).
  unfold internalBinaryWrite, encode, encode_message, fields. cbn [foldr].
  do 4 codec_step.
  codec_reduce. apply (codes_unknown _ unknown set_unknown typeName 4); 
    first [codec_side | codec_default switch].
Qed.

#[global] Instance message_type : MessageType t := {|
  mt_typeName := typeName; mt_new := new; mt_read RT := @internalBinaryRead RT;
  mt_write RT := @internalBinaryWrite RT; mt_encode := encode; mt_wf := wf |}.
#[global] Instance lawful : LawfulMessage t :=
  {| mt_codes := @ConfigItem_codes; mt_settles := @ConfigItem_settles |}.

End ConfigItem.

(** ** Message [ConfigRelease] *)
Module ConfigRelease.

(** [interface ConfigRelease], with the fields the decoder did not know *)
Record t := mk {
  scope : option ConfigScope.t;
  revision : jsstr;
  checksum : jsstr;
  snapshotJson : jsstr;
  message_ : jsstr;
  publishedBy : jsstr;
  publishedAt : jsstr;
  unknown : list UnknownField
}.

Definition set_scope (x : option ConfigScope.t) (m : t) : t :=
  mk x m.(revision) m.(checksum) m.(snapshotJson) m.(message_) m.(publishedBy) m.(publishedAt) m.(unknown).
Definition set_revision (x : jsstr) (m : t) : t :=
  mk m.(scope) x m.(checksum) m.(snapshotJson) m.(message_) m.(publishedBy) m.(publishedAt) m.(unknown).
Definition set_checksum (x : jsstr) (m : t) : t :=
  mk m.(scope) m.(revision) x m.(snapshotJson) m.(message_) m.(publishedBy) m.(publishedAt) m.(unknown).
Definition set_snapshotJson (x : jsstr) (m : t) : t :=
  mk m.(scope) m.(revision) m.(checksum) x m.(message_) m.(publishedBy) m.(publishedAt) m.(unknown).
Definition set_message (x : jsstr) (m : t) : t :=
  mk m.(scope) m.(revision) m.(checksum) m.(snapshotJson) x m.(publishedBy) m.(publishedAt) m.(unknown).
Definition set_publishedBy (x : jsstr) (m : t) : t :=
  mk m.(scope) m.(revision) m.(checksum) m.(snapshotJson) m.(message_) x m.(publishedAt) m.(unknown).
Definition set_publishedAt (x : jsstr) (m : t) : t :=
  mk m.(scope) m.(revision) m.(checksum) m.(snapshotJson) m.(message_) m.(publishedBy) x m.(unknown).
Definition set_unknown (x : list UnknownField) (m : t) : t :=
  mk m.(scope) m.(revision) m.(checksum) m.(snapshotJson) m.(message_) m.(publishedBy) m.(publishedAt) x.

Definition typeName : jsstr := js "pgapp.v1.ConfigRelease".

(** [PartialMessage<ConfigRelease>] and the effect of merging one *)
Record PartialMessage := mkPartial {
  p_scope : option ConfigScope.PartialMessage;
  p_revision : option jsstr;
  p_checksum : option jsstr;
  p_snapshotJson : option jsstr;
  p_message : option jsstr;
  p_publishedBy : option jsstr;
  p_publishedAt : option jsstr
}.
#[global] Instance info : MessageInfo t PartialMessage := {|
  overlay m p := mk
    (match p.(p_scope) with Some q => Some (overlay (default ConfigScope.new m.(scope)) q) | None => m.(scope) end)
    (default m.(revision) p.(p_revision))
    (default m.(checksum) p.(p_checksum))
    (default m.(snapshotJson) p.(p_snapshotJson))
    (default m.(message_) p.(p_message))
    (default m.(publishedBy) p.(p_publishedBy))
    (default m.(publishedAt) p.(p_publishedAt))
    m.(unknown)
|}.
(** A complete message used as a partial one *)
Definition as_partial (m : t) : PartialMessage :=
  mkPartial (ConfigScope.as_partial <$> m.(scope)) (Some m.(revision)) (Some m.(checksum)) (Some m.(snapshotJson)) (Some m.(message_)) (Some m.(publishedBy)) (Some m.(publishedAt)).

(** The message prototype with every field at its default *)
Definition new : t :=
  mk None (js "0") (js "") (js "") (js "") (js "") (js "") [].
Definition create `{RT : BinaryRuntime} (value : option PartialMessage) : t :=
  match value with
  | Some value => reflectionMergePartial info new value
  | None => new
  end.

(** The cases of [internalBinaryRead] *)
Definition switch `{RT : BinaryRuntime} (options : BinaryReadOptions) (fieldNo : Z)
    (wireType : WireType) (message : t) (reader : IBinaryReader) : result (t * IBinaryReader) :=
  match fieldNo with
  | 1 =>
      '(length, reader) ← r_uint32 reader;
      '(v, reader) ← ConfigScope.internalBinaryRead reader length options message.(scope);
      Ok (set_scope (Some v) message, reader)
  | 2 => '(v, reader) ← r_int64_string reader; Ok (set_revision v message, reader)
  | 3 => '(v, reader) ← r_string reader; Ok (set_checksum v message, reader)
  | 4 => '(v, reader) ← r_string reader; Ok (set_snapshotJson v message, reader)
  | 5 => '(v, reader) ← r_string reader; Ok (set_message v message, reader)
  | 6 => '(v, reader) ← r_string reader; Ok (set_publishedBy v message, reader)
  | 7 => '(v, reader) ← r_string reader; Ok (set_publishedAt v message, reader)
  | _ =>
      '(u, reader) ← readUnknown options typeName fieldNo wireType message.(unknown) reader;
      Ok (set_unknown u message, reader)
  end.

Definition internalBinaryRead `{RT : BinaryRuntime} (reader : IBinaryReader) (length : Z)
    (options : BinaryReadOptions) (target : option t) : result (t * IBinaryReader) :=
  let message := default (create None) target in
  readLoop (loop_fuel length) (switch options) (r_pos reader + length) message reader.

Definition internalBinaryWrite `{RT : BinaryRuntime} (message : t) (writer : IBinaryWriter)
    (options : BinaryWriteOptions) : result IBinaryWriter :=
  writer ← (match message.(scope) with
     | Some x =>
         writer ← ConfigScope.internalBinaryWrite x (w_fork (w_tag 1 LengthDelimited writer)) options;
         w_join writer
     | None => Ok writer end);
  writer ← (if negb (bool_decide (message.(revision) = js "0"))
     then w_int64 message.(revision) (w_tag 2 Varint writer) else Ok writer);
  writer ← (if negb (bool_decide (message.(checksum) = js ""))
     then w_string message.(checksum) (w_tag 3 LengthDelimited writer) else Ok writer);
  writer ← (if negb (bool_decide (message.(snapshotJson) = js ""))
     then w_string message.(snapshotJson) (w_tag 4 LengthDelimited writer) else Ok writer);
  writer ← (if negb (bool_decide (message.(message_) = js ""))
     then w_string message.(message_) (w_tag 5 LengthDelimited writer) else Ok writer);
  writer ← (if negb (bool_decide (message.(publishedBy) = js ""))
     then w_string message.(publishedBy) (w_tag 6 LengthDelimited writer) else Ok writer);
  writer ← (if negb (bool_decide (message.(publishedAt) = js ""))
     then w_string message.(publishedAt) (w_tag 7 LengthDelimited writer) else Ok writer);
  writeUnknown options typeName message.(unknown) writer.

(** The field table of the constructor, with the values of a message *)
Definition fields (m : t) : list wfield :=
  [FMessage 1 (ConfigScope.encode <$> m.(scope));
   FInt64 2 m.(revision);
   FString 3 m.(checksum);
   FString 4 m.(snapshotJson);
   FString 5 m.(message_);
   FString 6 m.(publishedBy);
   FString 7 m.(publishedAt)].
Definition encode (m : t) : bytes := encode_message (fields m) m.(unknown).
Definition wf (m : t) : Prop :=
  forallb ok_field (fields m) = true
  /\ from_option ConfigScope.wf True m.(scope)
  /\ Forall (fun u => wf_unknown u /\ 7 < uf_no u) m.(unknown).

Lemma ConfigRelease_settles `{L : RuntimeLaws} len o target :
  settles (fun r => internalBinaryRead r len o target).
Proof. apply readLoop_settles. intros no wt m r. unfold switch. split_number no; settle. Qed.
#[global] Hint Resolve ConfigRelease_settles : pgapp.

Lemma ConfigRelease_codes `{L : RuntimeLaws} m : wf m ->
  message_codes (fun w => internalBinaryWrite m w defaultWriteOptions)
    (fun r len => internalBinaryRead r len defaultReadOptions None) (encode m) m.
Proof.
  intros (Hf & Hs0 & Hu). codec_open m Hf. apply (message_intro (switch defaultReadOptions)).
  unfold internalBinaryWrite, encode, encode_message, fields. cbn [foldr].
  codec_field (codes_message_field (switch defaultReadOptions) scope set_scope).
  do 6 codec_step.
  codec_reduce. apply (codes_unknown _ unknown set_unknown typeName 7); 
    first [codec_side | codec_default switch].
Qed.

#[global] Instance message_type : MessageType t := {|
  mt_typeName := typeName; mt_new := new; mt_read RT := @internalBinaryRead RT;
  mt_write RT := @internalBinaryWrite RT; mt_encode := encode; mt_wf := wf |}.
#[global] Instance lawful : LawfulMessage t :=
  {| mt_codes := @ConfigRelease_codes; mt_settles := @ConfigRelease_settles |}.

End ConfigRelease.

(** ** Message [ListConfigScopesRequest] *)
Module ListConfigScopesRequest.

(** [interface ListConfigScopesRequest], with the fields the decoder did not know *)
Record t := mk {
  limit : number;
  offset : jsstr;
  unknown : list UnknownField
}.

Definition set_limit (x : number) (m : t) : t :=
  mk x m.(offset) m.(unknown).
Definition set_offset (x : jsstr) (m : t) : t :=
  mk m.(limit) x m.(unknown).
Definition set_unknown (x : list UnknownField) (m : t) : t :=
  mk m.(limit) m.(offset) x.

Definition typeName : jsstr := js "pgapp.v1.ListConfigScopesRequest".

(** [PartialMessage<ListConfigScopesRequest>] and the effect of merging one *)
Record PartialMessage := mkPartial {
  p_limit : option number;
  p_offset : option jsstr
}.
#[global] Instance info : MessageInfo t PartialMessage := {|
  overlay m p := mk
    (default m.(limit) p.(p_limit))
    (default m.(offset) p.(p_offset))
    m.(unknown)
|}.
(** A complete message used as a partial one *)
Definition as_partial (m : t) : PartialMessage :=
  mkPartial (Some m.(limit)) (Some m.(offset)).

(** The message prototype with every field at its default *)
Definition new : t :=
  mk (Finite 0 0) (js "0") [].
Definition create `{RT : BinaryRuntime} (value : option PartialMessage) : t :=
  match value with
  | Some value => reflectionMergePartial info new value
  | None => new
  end.

(** The cases of [internalBinaryRead] *)
Definition switch `{RT : BinaryRuntime} (options : BinaryReadOptions) (fieldNo : Z)
    (wireType : WireType) (message : t) (reader : IBinaryReader) : result (t * IBinaryReader) :=
  match fieldNo with
  | 1 => '(v, reader) ← r_int32 reader; Ok (set_limit (Num.of_Z v) message, reader)
  | 2 => '(v, reader) ← r_int64_string reader; Ok (set_offset v message, reader)
  | _ =>
      '(u, reader) ← readUnknown options typeName fieldNo wireType message.(unknown) reader;
      Ok (set_unknown u message, reader)
  end.

Definition internalBinaryRead `{RT : BinaryRuntime} (reader : IBinaryReader) (length : Z)
    (options : BinaryReadOptions) (target : option t) : result (t * IBinaryReader) :=
  let message := default (create None) target in
  readLoop (loop_fuel length) (switch options) (r_pos reader + length) message reader.

Definition internalBinaryWrite `{RT : BinaryRuntime} (message : t) (writer : IBinaryWriter)
    (options : BinaryWriteOptions) : result IBinaryWriter :=
  writer ← (if negb (Num.eqb message.(limit) (Finite 0 0))
     then w_int32 message.(limit) (w_tag 1 Varint writer) else Ok writer);
  writer ← (if negb (bool_decide (message.(offset) = js "0"))
     then w_int64 message.(offset) (w_tag 2 Varint writer) else Ok writer);
  writeUnknown options typeName message.(unknown) writer.

(** The field table of the constructor, with the values of a message *)
Definition fields (m : t) : list wfield :=
  [FInt32 1 m.(limit);
   FInt64 2 m.(offset)].
Definition encode (m : t) : bytes := encode_message (fields m) m.(unknown).
Definition wf (m : t) : Prop :=
  forallb ok_field (fields m) = true
  /\ Forall (fun u => wf_unknown u /\ 2 < uf_no u) m.(unknown).

Lemma ListConfigScopesRequest_settles `{L : RuntimeLaws} len o target :
  settles (fun r => internalBinaryRead r len o target).
Proof. apply readLoop_settles. intros no wt m r. unfold switch. split_number no; settle. Qed.
#[global] Hint Resolve ListConfigScopesRequest_settles : pgapp.

Lemma ListConfigScopesRequest_codes `{L : RuntimeLaws} m : wf m ->
  message_codes (fun w => internalBinaryWrite m w defaultWriteOptions)
    (fun r len => internalBinaryRead r len defaultReadOptions None) (encode m) m.
Proof.
  intros (Hf & Hu). codec_open m Hf. apply (message_intro (switch defaultReadOptions)).
  unfold internalBinaryWrite, encode, encode_message, fields. cbn [foldr].
  do 2 codec_step.
  codec_reduce. apply (codes_unknown _ unknown set_unknown typeName 2); 
    first [codec_side | codec_default switch].
Qed.

#[global] Instance message_type : MessageType t := {|
  mt_typeName := typeName; mt_new := new; mt_read RT := @internalBinaryRead RT;
  mt_write RT := @internalBinaryWrite RT; mt_encode := encode; mt_wf := wf |}.
#[global] Instance lawful : LawfulMessage t :=
  {| mt_codes := @ListConfigScopesRequest_codes; mt_settles := @ListConfigScopesRequest_settles |}.

End ListConfigScopesRequest.

(** ** Message [ConfigScopeSummary] *)
Module ConfigScopeSummary.

(** [interface ConfigScopeSummary], with the fields the decoder did not know *)
Record t := mk {
  scope : option ConfigScope.t;
  currentRevision : jsstr;
  createdAt : jsstr;
  updatedAt : jsstr;
  unknown : list UnknownField
}.

Definition set_scope (x : option ConfigScope.t) (m : t) : t :=
  mk x m.(currentRevision) m.(createdAt) m.(updatedAt) m.(unknown).
Definition set_currentRevision (x : jsstr) (m : t) : t :=
  mk m.(scope) x m.(createdAt) m.(updatedAt) m.(unknown).
Definition set_createdAt (x : jsstr) (m : t) : t :=
  mk m.(scope) m.(currentRevision) x m.(updatedAt) m.(unknown).
Definition set_updatedAt (x : jsstr) (m : t) : t :=
  mk m.(scope) m.(currentRevision) m.(createdAt) x m.(unknown).
Definition set_unknown (x : list UnknownField) (m : t) : t :=
  mk m.(scope) m.(currentRevision) m.(createdAt) m.(updatedAt) x.

Definition typeName : jsstr := js "pgapp.v1.ConfigScopeSummary".

(** [PartialMessage<ConfigScopeSummary>] and the effect of merging one *)
Record PartialMessage := mkPartial {
  p_scope : option ConfigScope.PartialMessage;
  p_currentRevision : option jsstr;
  p_createdAt : option jsstr;
  p_updatedAt : option jsstr
}.
#[global] Instance info : MessageInfo t PartialMessage := {|
  overlay m p := mk
    (match p.(p_scope) with Some q => Some (overlay (default ConfigScope.new m.(scope)) q) | None => m.(scope) end)
    (default m.(currentRevision) p.(p_currentRevision))
    (default m.(createdAt) p.(p_createdAt))
    (default m.(updatedAt) p.(p_updatedAt))
    m.(unknown)
|}.
(** A complete message used as a partial one *)
Definition as_partial (m : t) : PartialMessage :=
  mkPartial (ConfigScope.as_partial <$> m.(scope)) (Some m.(currentRevision)) (Some m.(createdAt)) (Some m.(updatedAt)).

(** The message prototype with every field at its default *)
Definition new : t :=
  mk None (js "0") (js "") (js "") [].
Definition create `{RT : BinaryRuntime} (value : option PartialMessage) : t :=
  match value with
  | Some value => reflectionMergePartial info new value
  | None => new
  end.

(** The cases of [internalBinaryRead] *)
Definition switch `{RT : BinaryRuntime} (options : BinaryReadOptions) (fieldNo : Z)
    (wireType : WireType) (message : t) (reader : IBinaryReader) : result (t * IBinaryReader) :=
  match fieldNo with
  | 1 =>
      '(length, reader) ← r_uint32 reader;
      '(v, reader) ← ConfigScope.internalBinaryRead reader length options message.(scope);
      Ok (set_scope (Some v) message, reader)
  | 2 => '(v, reader) ← r_int64_string reader; Ok (set_currentRevision v message, reader)
  | 3 => '(v, reader) ← r_string reader; Ok (set_createdAt v message, reader)
  | 4 => '(v, reader) ← r_string reader; Ok (set_updatedAt v message, reader)
  | _ =>
      '(u, reader) ← readUnknown options typeName fieldNo wireType message.(unknown) reader;
      Ok (set_unknown u message, reader)
  end.

Definition internalBinaryRead `{RT : BinaryRuntime} (reader : IBinaryReader) (length : Z)
    (options : BinaryReadOptions) (target : option t) : result (t * IBinaryReader) :=
  let message := default (create None) target in
  readLoop (loop_fuel length) (switch options) (r_pos reader + length) message reader.

Definition internalBinaryWrite `{RT : BinaryRuntime} (message : t) (writer : IBinaryWriter)
    (options : BinaryWriteOptions) : result IBinaryWriter :=
  writer ← (match message.(scope) with
     | Some x =>
         writer ← ConfigScope.internalBinaryWrite x (w_fork (w_tag 1 LengthDelimited writer)) options;
         w_join writer
     | None => Ok writer end);
  writer ← (if negb (bool_decide (message.(currentRevision) = js "0"))
     then w_int64 message.(currentRevision) (w_tag 2 Varint writer) else Ok writer);
  writer ← (if negb (bool_decide (message.(createdAt) = js ""))
     then w_string message.(createdAt) (w_tag 3 LengthDelimited writer) else Ok writer);
  writer ← (if negb (bool_decide (message.(updatedAt) = js ""))
     then w_string message.(updatedAt) (w_tag 4 LengthDelimited writer) else Ok writer);
  writeUnknown options typeName message.(unknown) writer.

(** The field table of the constructor, with the values of a message *)
Definition fields (m : t) : list wfield :=
  [FMessage 1 (ConfigScope.encode <$> m.(scope));
   FInt64 2 m.(currentRevision);
   FString 3 m.(createdAt);
   FString 4 m.(updatedAt)].
Definition encode (m : t) : bytes := encode_message (fields m) m.(unknown).
Definition wf (m : t) : Prop :=
  forallb ok_field (fields m) = true
  /\ from_option ConfigScope.wf True m.(scope)
  /\ Forall (fun u => wf_unknown u /\ 4 < uf_no u) m.(unknown).

Lemma ConfigScopeSummary_settles `{L : RuntimeLaws} len o target :
  settles (fun r => internalBinaryRead r len o target).
Proof. apply readLoop_settles. intros no wt m r. unfold switch. split_number no; settle. Qed.
#[global] Hint Resolve ConfigScopeSummary_settles : pgapp.

Lemma ConfigScopeSummary_codes `{L : RuntimeLaws} m : wf m ->
  message_codes (fun w => internalBinaryWrite m w defaultWriteOptions)
    (fun r len => internalBinaryRead r len defaultReadOptions None) (encode m) m.
Proof.
  intros (Hf & Hs0 & Hu). codec_open m Hf. apply (message_intro (switch defaultReadOptions)).
  unfold internalBinaryWrite, encode, encode_message, fields. cbn [foldr].
  codec_field (codes_message_field (switch defaultReadOptions) scope set_scope).
  do 3 codec_step.
  codec_reduce. apply (codes_unknown _ unknown set_unknown typeName 4); 
    first [codec_side | codec_default switch].
Qed.

#[global] Instance message_type : MessageType t := {|
  mt_typeName := typeName; mt_new := new; mt_read RT := @internalBinaryRead RT;
  mt_write RT := @internalBinaryWrite RT; mt_encode := encode; mt_wf := wf |}.
#[global] Instance lawful : LawfulMessage t :=
  {| mt_codes := @ConfigScopeSummary_codes; mt_settles := @ConfigScopeSummary_settles |}.

End ConfigScopeSummary.

(** ** Message [ListConfigScopesResponse] *)
Module ListConfigScopesResponse.

(** [interface ListConfigScopesResponse], with the fields the decoder did not know *)
Record t := mk {
  scopes : list ConfigScopeSummary.t;
  nextOffset : jsstr;
  unknown : list UnknownField
}.

Definition set_scopes (x : list ConfigScopeSummary.t) (m : t) : t :=
  mk x m.(nextOffset) m.(unknown).
Definition set_nextOffset (x : jsstr) (m : t) : t :=
  mk m.(scopes) x m.(unknown).
Definition set_unknown (x : list UnknownField) (m : t) : t :=
  mk m.(scopes) m.(nextOffset) x.

Definition typeName : jsstr := js "pgapp.v1.ListConfigScopesResponse".

(** [PartialMessage<ListConfigScopesResponse>] and the effect of merging one *)
Record PartialMessage := mkPartial {
  p_scopes : option (list ConfigScopeSummary.PartialMessage);
  p_nextOffset : option jsstr
}.
#[global] Instance info : MessageInfo t PartialMessage := {|
  overlay m p := mk
    (default m.(scopes) (map (overlay ConfigScopeSummary.new) <$> p.(p_scopes)))
    (default m.(nextOffset) p.(p_nextOffset))
    m.(unknown)
|}.
(** A complete message used as a partial one *)
Definition as_partial (m : t) : PartialMessage :=
  mkPartial (Some (map ConfigScopeSummary.as_partial m.(scopes))) (Some m.(nextOffset)).

(** The message prototype with every field at its default *)
Definition new : t :=
  mk [] (js "0") [].
Definition create `{RT : BinaryRuntime} (value : option PartialMessage) : t :=
  match value with
  | Some value => reflectionMergePartial info new value
  | None => new
  end.

(** The cases of [internalBinaryRead] *)
Definition switch `{RT : BinaryRuntime} (options : BinaryReadOptions) (fieldNo : Z)
    (wireType : WireType) (message : t) (reader : IBinaryReader) : result (t * IBinaryReader) :=
  match fieldNo with
  | 1 =>
      '(length, reader) ← r_uint32 reader;
      '(v, reader) ← ConfigScopeSummary.internalBinaryRead reader length options None;
      Ok (set_scopes (message.(scopes) ++ [v]) message, reader)
  | 2 => '(v, reader) ← r_int64_string reader; Ok (set_nextOffset v message, reader)
  | _ =>
      '(u, reader) ← readUnknown options typeName fieldNo wireType message.(unknown) reader;
      Ok (set_unknown u message, reader)
  end.

Definition internalBinaryRead `{RT : BinaryRuntime} (reader : IBinaryReader) (length : Z)
    (options : BinaryReadOptions) (target : option t) : result (t * IBinaryReader) :=
  let message := default (create None) target in
  readLoop (loop_fuel length) (switch options) (r_pos reader + length) message reader.

Definition internalBinaryWrite `{RT : BinaryRuntime} (message : t) (writer : IBinaryWriter)
    (options : BinaryWriteOptions) : result IBinaryWriter :=
  writer ← writeEach (fun x writer =>
      writer ← ConfigScopeSummary.internalBinaryWrite x (w_fork (w_tag 1 LengthDelimited writer)) options;
      w_join writer) message.(scopes) writer;
  writer ← (if negb (bool_decide (message.(nextOffset) = js "0"))
     then w_int64 message.(nextOffset) (w_tag 2 Varint writer) else Ok writer);
  writeUnknown options typeName message.(unknown) writer.

(** The field table of the constructor, with the values of a message *)
Definition fields (m : t) : list wfield :=
  [FRepMessage 1 (ConfigScopeSummary.encode <$> m.(scopes));
   FInt64 2 m.(nextOffset)].
Definition encode (m : t) : bytes := encode_message (fields m) m.(unknown).
Definition wf (m : t) : Prop :=
  forallb ok_field (fields m) = true
  /\ Forall ConfigScopeSummary.wf m.(scopes)
  /\ Forall (fun u => wf_unknown u /\ 2 < uf_no u) m.(unknown).

Lemma ListConfigScopesResponse_settles `{L : RuntimeLaws} len o target :
  settles (fun r => internalBinaryRead r len o target).
Proof. apply readLoop_settles. intros no wt m r. unfold switch. split_number no; settle. Qed.
#[global] Hint Resolve ListConfigScopesResponse_settles : pgapp.

Lemma ListConfigScopesResponse_codes `{L : RuntimeLaws} m : wf m ->
  message_codes (fun w => internalBinaryWrite m w defaultWriteOptions)
    (fun r len => internalBinaryRead r len defaultReadOptions None) (encode m) m.
Proof.
  intros (Hf & Hs0 & Hu). codec_open m Hf. apply (message_intro (switch defaultReadOptions)).
  unfold internalBinaryWrite, encode, encode_message, fields. cbn [foldr].
  codec_field (codes_rep_message_field (switch defaultReadOptions) scopes set_scopes).
  codec_step.
  codec_reduce. apply (codes_unknown _ unknown set_unknown typeName 2); 
    first [codec_side | codec_default switch].
Qed.

#[global] Instance message_type : MessageType t := {|
  mt_typeName := typeName; mt_new := new; mt_read RT := @internalBinaryRead RT;
  mt_write RT := @internalBinaryWrite RT; mt_encode := encode; mt_wf := wf |}.
#[global] Instance lawful : LawfulMessage t :=
  {| mt_codes := @ListConfigScopesResponse_codes; mt_settles := @ListConfigScopesResponse_settles |}.

End ListConfigScopesResponse.

(** ** Message [UpsertConfigItemRequest] *)
Module UpsertConfigItemRequest.

(** [interface UpsertConfigItemRequest], with the fields the decoder did not know *)
Record t := mk {
  scope : option ConfigScope.t;
  key : jsstr;
  jsonValue : jsstr;
  unknown : list UnknownField
}.

Definition set_scope (x : option ConfigScope.t) (m : t) : t :=
  mk x m.(key) m.(jsonValue) m.(unknown).
Definition set_key (x : jsstr) (m : t) : t :=
  mk m.(scope) x m.(jsonValue) m.(unknown).
Definition set_jsonValue (x : jsstr) (m : t) : t :=
  mk m.(scope) m.(key) x m.(unknown).
Definition set_unknown (x : list UnknownField) (m : t) : t :=
  mk m.(scope) m.(key) m.(jsonValue) x.

Definition typeName : jsstr := js "pgapp.v1.UpsertConfigItemRequest".

(** [PartialMessage<UpsertConfigItemRequest>] and the effect of merging one *)
Record PartialMessage := mkPartial {
  p_scope : option ConfigScope.PartialMessage;
  p_key : option jsstr;
  p_jsonValue : option jsstr
}.
#[global] Instance info : MessageInfo t PartialMessage := {|
  overlay m p := mk
    (match p.(p_scope) with Some q => Some (overlay (default ConfigScope.new m.(scope)) q) | None => m.(scope) end)
    (default m.(key) p.(p_key))
    (default m.(jsonValue) p.(p_jsonValue))
    m.(unknown)
|}.
(** A complete message used as a partial one *)
Definition as_partial (m : t) : PartialMessage :=
  mkPartial (ConfigScope.as_partial <$> m.(scope)) (Some m.(key)) (Some m.(jsonValue)).

(** The message prototype with every field at its default *)
Definition new : t :=
  mk None (js "") (js "") [].
Definition create `{RT : BinaryRuntime} (value : option PartialMessage) : t :=
  match value with
  | Some value => reflectionMergePartial info new value
  | None => new
  end.

(** The cases of [internalBinaryRead] *)
Definition switch `{RT : BinaryRuntime} (options : BinaryReadOptions) (fieldNo : Z)
    (wireType : WireType) (message : t) (reader : IBinaryReader) : result (t * IBinaryReader) :=
  match fieldNo with
  | 1 =>
      '(length, reader) ← r_uint32 reader;
      '(v, reader) ← ConfigScope.internalBinaryRead reader length options message.(scope);
      Ok (set_scope (Some v) message, reader)
  | 2 => '(v, reader) ← r_string reader; Ok (set_key v message, reader)
  | 3 => '(v, reader) ← r_string reader; Ok (set_jsonValue v message, reader)
  | _ =>
      '(u, reader) ← readUnknown options typeName fieldNo wireType message.(unknown) reader;
      Ok (set_unknown u message, reader)
  end.

Definition internalBinaryRead `{RT : BinaryRuntime} (reader : IBinaryReader) (length : Z)
    (options : BinaryReadOptions) (target : option t) : result (t * IBinaryReader) :=
  let message := default (create None) target in
  readLoop (loop_fuel length) (switch options) (r_pos reader + length) message reader.

Definition internalBinaryWrite `{RT : BinaryRuntime} (message : t) (writer : IBinaryWriter)
    (options : BinaryWriteOptions) : result IBinaryWriter :=
  writer ← (match message.(scope) with
     | Some x =>
         writer ← ConfigScope.internalBinaryWrite x (w_fork (w_tag 1 LengthDelimited writer)) options;
         w_join writer
     | None => Ok writer end);
  writer ← (if negb (bool_decide (message.(key) = js ""))
     then w_string message.(key) (w_tag 2 LengthDelimited writer) else Ok writer);
  writer ← (if negb (bool_decide (message.(jsonValue) = js ""))
     then w_string message.(jsonValue) (w_tag 3 LengthDelimited writer) else Ok writer);
  writeUnknown options typeName message.(unknown) writer.

(** The field table of the constructor, with the values of a message *)
Definition fields (m : t) : list wfield :=
  [FMessage 1 (ConfigScope.encode <$> m.(scope));
   FString 2 m.(key);
   FString 3 m.(jsonValue)].
Definition encode (m : t) : bytes := encode_message (fields m) m.(unknown).
Definition wf (m : t) : Prop :=
  forallb ok_field (fields m) = true
  /\ from_option ConfigScope.wf True m.(scope)
  /\ Forall (fun u => wf_unknown u /\ 3 < uf_no u) m.(unknown).

Lemma UpsertConfigItemRequest_settles `{L : RuntimeLaws} len o target :
  settles (fun r => internalBinaryRead r len o target).
Proof. apply readLoop_settles. intros no wt m r. unfold switch. split_number no; settle. Qed.
#[global] Hint Resolve UpsertConfigItemRequest_settles : pgapp.

Lemma UpsertConfigItemRequest_codes `{L : RuntimeLaws} m : wf m ->
  message_codes (fun w => internalBinaryWrite m w defaultWriteOptions)
    (fun r len => internalBinaryRead r len defaultReadOptions None) (encode m) m.
Proof.
  intros (Hf & Hs0 & Hu). codec_open m Hf. apply (message_intro (switch defaultReadOptions)).
  unfold internalBinaryWrite, encode, encode_message, fields. cbn [foldr].
  codec_field (codes_message_field (switch defaultReadOptions) scope set_scope).
  do 2 codec_step.
  codec_reduce. apply (codes_unknown _ unknown set_unknown typeName 3); 
    first [codec_side | codec_default switch].
Qed.

#[global] Instance message_type : MessageType t := {|
  mt_typeName := typeName; mt_new := new; mt_read RT := @internalBinaryRead RT;
  mt_write RT := @internalBinaryWrite RT; mt_encode := encode; mt_wf := wf |}.
#[global] Instance lawful : LawfulMessage t :=
  {| mt_codes := @UpsertConfigItemRequest_codes; mt_settles := @UpsertConfigItemRequest_settles |}.

End UpsertConfigItemRequest.

(** ** Message [DeleteConfigItemRequest] *)
Module DeleteConfigItemRequest.

(** [interface DeleteConfigItemRequest], with the fields the decoder did not know *)
Record t := mk {
  scope : option ConfigScope.t;
  key : jsstr;
  unknown : list UnknownField
}.

Definition set_scope (x : option ConfigScope.t) (m : t) : t :=
  mk x m.(key) m.(unknown).
Definition set_key (x : jsstr) (m : t) : t :=
  mk m.(scope) x m.(unknown).
Definition set_unknown (x : list UnknownField) (m : t) : t :=
  mk m.(scope) m.(key) x.

Definition typeName : jsstr := js "pgapp.v1.DeleteConfigItemRequest".

(** [PartialMessage<DeleteConfigItemRequest>] and the effect of merging one *)
Record PartialMessage := mkPartial {
  p_scope : option ConfigScope.PartialMessage;
  p_key : option jsstr
}.
#[global] Instance info : MessageInfo t PartialMessage := {|
  overlay m p := mk
    (match p.(p_scope) with Some q => Some (overlay (default ConfigScope.new m.(scope)) q) | None => m.(scope) end)
    (default m.(key) p.(p_key))
    m.(unknown)
|}.
(** A complete message used as a partial one *)
Definition as_partial (m : t) : PartialMessage :=
  mkPartial (ConfigScope.as_partial <$> m.(scope)) (Some m.(key)).

(** The message prototype with every field at its default *)
Definition new : t :=
  mk None (js "") [].
Definition create `{RT : BinaryRuntime} (value : option PartialMessage) : t :=
  match value with
  | Some value => reflectionMergePartial info new value
  | None => new
  end.

(** The cases of [internalBinaryRead] *)
Definition switch `{RT : BinaryRuntime} (options : BinaryReadOptions) (fieldNo : Z)
    (wireType : WireType) (message : t) (reader : IBinaryReader) : result (t * IBinaryReader) :=
  match fieldNo with
  | 1 =>
      '(length, reader) ← r_uint32 reader;
      '(v, reader) ← ConfigScope.internalBinaryRead reader length options message.(scope);
      Ok (set_scope (Some v) message, reader)
  | 2 => '(v, reader) ← r_string reader; Ok (set_key v message, reader)
  | _ =>
      '(u, reader) ← readUnknown options typeName fieldNo wireType message.(unknown) reader;
      Ok (set_unknown u message, reader)
  end.

Definition internalBinaryRead `{RT : BinaryRuntime} (reader : IBinaryReader) (length : Z)
    (options : BinaryReadOptions) (target : option t) : result (t * IBinaryReader) :=
  let message := default (create None) target in
  readLoop (loop_fuel length) (switch options) (r_pos reader + length) message reader.

Definition internalBinaryWrite `{RT : BinaryRuntime} (message : t) (writer : IBinaryWriter)
    (options : BinaryWriteOptions) : result IBinaryWriter :=
  writer ← (match message.(scope) with
     | Some x =>
         writer ← ConfigScope.internalBinaryWrite x (w_fork (w_tag 1 LengthDelimited writer)) options;
         w_join writer
     | None => Ok writer end);
  writer ← (if negb (bool_decide (message.(key) = js ""))
     then w_string message.(key) (w_tag 2 LengthDelimited writer) else Ok writer);
  writeUnknown options typeName message.(unknown) writer.

(** The field table of the constructor, with the values of a message *)
Definition fields (m : t) : list wfield :=
  [FMessage 1 (ConfigScope.encode <$> m.(scope));
   FString 2 m.(key)].
Definition encode (m : t) : bytes := encode_message (fields m) m.(unknown).
Definition wf (m : t) : Prop :=
  forallb ok_field (fields m) = true
  /\ from_option ConfigScope.wf True m.(scope)
  /\ Forall (fun u => wf_unknown u /\ 2 < uf_no u) m.(unknown).

Lemma DeleteConfigItemRequest_settles `{L : RuntimeLaws} len o target :
  settles (fun r => internalBinaryRead r len o target).
Proof. apply readLoop_settles. intros no wt m r. unfold switch. split_number no; settle. Qed.
#[global] Hint Resolve DeleteConfigItemRequest_settles : pgapp.

Lemma DeleteConfigItemRequest_codes `{L : RuntimeLaws} m : wf m ->
  message_codes (fun w => internalBinaryWrite m w defaultWriteOptions)
    (fun r len => internalBinaryRead r len defaultReadOptions None) (encode m) m.
Proof.
  intros (Hf & Hs0 & Hu). codec_open m Hf. apply (message_intro (switch defaultReadOptions)).
  unfold internalBinaryWrite, encode, encode_message, fields. cbn [foldr].
  codec_field (codes_message_field (switch defaultReadOptions) scope set_scope).
  codec_step.
  codec_reduce. apply (codes_unknown _ unknown set_unknown typeName 2); 
    first [codec_side | codec_default switch].
Qed.

#[global] Instance message_type : MessageType t := {|
  mt_typeName := typeName; mt_new := new; mt_read RT := @internalBinaryRead RT;
  mt_write RT := @internalBinaryWrite RT; mt_encode := encode; mt_wf := wf |}.
#[global] Instance lawful : LawfulMessage t :=
  {| mt_codes := @DeleteConfigItemRequest_codes; mt_settles := @DeleteConfigItemRequest_settles |}.

End DeleteConfigItemRequest.

(** ** Message [GetConfigDraftRequest] *)
Module GetConfigDraftRequest.

(** [interface GetConfigDraftRequest], with the fields the decoder did not know *)
Record t := mk {
  scope : option ConfigScope.t;
  unknown : list UnknownField
}.

Definition set_scope (x : option ConfigScope.t) (m : t) : t :=
  mk x m.(unknown).
Definition set_unknown (x : list UnknownField) (m : t) : t :=
  mk m.(scope) x.

Definition typeName : jsstr := js "pgapp.v1.GetConfigDraftRequest".

(** [PartialMessage<GetConfigDraftRequest>] and the effect of merging one *)
Record PartialMessage := mkPartial {
  p_scope : option ConfigScope.PartialMessage
}.
#[global] Instance info : MessageInfo t PartialMessage := {|
  overlay m p := mk
    (match p.(p_scope) with Some q => Some (overlay (default ConfigScope.new m.(scope)) q) | None => m.(scope) end)
    m.(unknown)
|}.
(** A complete message used as a partial one *)
Definition as_partial (m : t) : PartialMessage :=
  mkPartial (ConfigScope.as_partial <$> m.(scope)).

(** The message prototype with every field at its default *)
Definition new : t :=
  mk None [].
Definition create `{RT : BinaryRuntime} (value : option PartialMessage) : t :=
  match value with
  | Some value => reflectionMergePartial info new value
  | None => new
  end.

(** The cases of [internalBinaryRead] *)
Definition switch `{RT : BinaryRuntime} (options : BinaryReadOptions) (fieldNo : Z)
    (wireType : WireType) (message : t) (reader : IBinaryReader) : result (t * IBinaryReader) :=
  match fieldNo with
  | 1 =>
      '(length, reader) ← r_uint32 reader;
      '(v, reader) ← ConfigScope.internalBinaryRead reader length options message.(scope);
      Ok (set_scope (Some v) message, reader)
  | _ =>
      '(u, reader) ← readUnknown options typeName fieldNo wireType message.(unknown) reader;
      Ok (set_unknown u message, reader)
  end.

Definition internalBinaryRead `{RT : BinaryRuntime} (reader : IBinaryReader) (length : Z)
    (options : BinaryReadOptions) (target : option t) : result (t * IBinaryReader) :=
  let message := default (create None) target in
  readLoop (loop_fuel length) (switch options) (r_pos reader + length) message reader.

Definition internalBinaryWrite `{RT : BinaryRuntime} (message : t) (writer : IBinaryWriter)
    (options : BinaryWriteOptions) : result IBinaryWriter :=
  writer ← (match message.(scope) with
     | Some x =>
         writer ← ConfigScope.internalBinaryWrite x (w_fork (w_tag 1 LengthDelimited writer)) options;
         w_join writer
     | None => Ok writer end);
  writeUnknown options typeName message.(unknown) writer.

(** The field table of the constructor, with the values of a message *)
Definition fields (m : t) : list wfield :=
  [FMessage 1 (ConfigScope.encode <$> m.(scope))].
Definition encode (m : t) : bytes := encode_message (fields m) m.(unknown).
Definition wf (m : t) : Prop :=
  forallb ok_field (fields m) = true
  /\ from_option ConfigScope.wf True m.(scope)
  /\ Forall (fun u => wf_unknown u /\ 1 < uf_no u) m.(unknown).

Lemma GetConfigDraftRequest_settles `{L : RuntimeLaws} len o target :
  settles (fun r => internalBinaryRead r len o target).
Proof. apply readLoop_settles. intros no wt m r. unfold switch. split_number no; settle. Qed.
#[global] Hint Resolve GetConfigDraftRequest_settles : pgapp.

Lemma GetConfigDraftRequest_codes `{L : RuntimeLaws} m : wf m ->
  message_codes (fun w => internalBinaryWrite m w defaultWriteOptions)
    (fun r len => internalBinaryRead r len defaultReadOptions None) (encode m) m.
Proof.
  intros (Hf & Hs0 & Hu). codec_open m Hf. apply (message_intro (switch defaultReadOptions)).
  unfold internalBinaryWrite, encode, encode_message, fields. cbn [foldr].
  codec_field (codes_message_field (switch defaultReadOptions) scope set_scope).
  codec_reduce. apply (codes_unknown _ unknown set_unknown typeName 1); 
    first [codec_side | codec_default switch].
Qed.

#[global] Instance message_type : MessageType t := {|
  mt_typeName := typeName; mt_new := new; mt_read RT := @internalBinaryRead RT;
  mt_write RT := @internalBinaryWrite RT; mt_encode := encode; mt_wf := wf |}.
#[global] Instance lawful : LawfulMessage t :=
  {| mt_codes := @GetConfigDraftRequest_codes; mt_settles := @GetConfigDraftRequest_settles |}.

End GetConfigDraftRequest.

(** ** Message [ConfigDraftResponse] *)
Module ConfigDraftResponse.

(** [interface ConfigDraftResponse], with the fields the decoder did not know *)
Record t := mk {
  scope : option ConfigScope.t;
  items : list ConfigItem.t;
  unknown : list UnknownField
}.

Definition set_scope (x : option ConfigScope.t) (m : t) : t :=
  mk x m.(items) m.(unknown).
Definition set_items (x : list ConfigItem.t) (m : t) : t :=
  mk m.(scope) x m.(unknown).
Definition set_unknown (x : list UnknownField) (m : t) : t :=
  mk m.(scope) m.(items) x.

Definition typeName : jsstr := js "pgapp.v1.ConfigDraftResponse".

(** [PartialMessage<ConfigDraftResponse>] and the effect of merging one *)
Record PartialMessage := mkPartial {
  p_scope : option ConfigScope.PartialMessage;
  p_items : option (list ConfigItem.PartialMessage)
}.
#[global] Instance info : MessageInfo t PartialMessage := {|
  overlay m p := mk
    (match p.(p_scope) with Some q => Some (overlay (default ConfigScope.new m.(scope)) q) | None => m.(scope) end)
    (default m.(items) (map (overlay ConfigItem.new) <$> p.(p_items)))
    m.(unknown)
|}.
(** A complete message used as a partial one *)
Definition as_partial (m : t) : PartialMessage :=
  mkPartial (ConfigScope.as_partial <$> m.(scope)) (Some (map ConfigItem.as_partial m.(items))).

(** The message prototype with every field at its default *)
Definition new : t :=
  mk None [] [].
Definition create `{RT : BinaryRuntime} (value : option PartialMessage) : t :=
  match value with
  | Some value => reflectionMergePartial info new value
  | None => new
  end.

(** The cases of [internalBinaryRead] *)
Definition switch `{RT : BinaryRuntime} (options : BinaryReadOptions) (fieldNo : Z)
    (wireType : WireType) (message : t) (reader : IBinaryReader) : result (t * IBinaryReader) :=
  match fieldNo with
  | 1 =>
      '(length, reader) ← r_uint32 reader;
      '(v, reader) ← ConfigScope.internalBinaryRead reader length options message.(scope);
      Ok (set_scope (Some v) message, reader)
  | 2 =>
      '(length, reader) ← r_uint32 reader;
      '(v, reader) ← ConfigItem.internalBinaryRead reader length options None;
      Ok (set_items (message.(items) ++ [v]) message, reader)
  | _ =>
      '(u, reader) ← readUnknown options typeName fieldNo wireType message.(unknown) reader;
      Ok (set_unknown u message, reader)
  end.

Definition internalBinaryRead `{RT : BinaryRuntime} (reader : IBinaryReader) (length : Z)
    (options : BinaryReadOptions) (target : option t) : result (t * IBinaryReader) :=
  let message := default (create None) target in
  readLoop (loop_fuel length) (switch options) (r_pos reader + length) message reader.

Definition internalBinaryWrite `{RT : BinaryRuntime} (message : t) (writer : IBinaryWriter)
    (options : BinaryWriteOptions) : result IBinaryWriter :=
  writer ← (match message.(scope) with
     | Some x =>
         writer ← ConfigScope.internalBinaryWrite x (w_fork (w_tag 1 LengthDelimited writer)) options;
         w_join writer
     | None => Ok writer end);
  writer ← writeEach (fun x writer =>
      writer ← ConfigItem.internalBinaryWrite x (w_fork (w_tag 2 LengthDelimited writer)) options;
      w_join writer) message.(items) writer;
  writeUnknown options typeName message.(unknown) writer.

(** The field table of the constructor, with the values of a message *)
Definition fields (m : t) : list wfield :=
  [FMessage 1 (ConfigScope.encode <$> m.(scope));
   FRepMessage 2 (ConfigItem.encode <$> m.(items))].
Definition encode (m : t) : bytes := encode_message (fields m) m.(unknown).
Definition wf (m : t) : Prop :=
  forallb ok_field (fields m) = true
  /\ from_option ConfigScope.wf True m.(scope)
  /\ Forall ConfigItem.wf m.(items)
  /\ Forall (fun u => wf_unknown u /\ 2 < uf_no u) m.(unknown).

Lemma ConfigDraftResponse_settles `{L : RuntimeLaws} len o target :
  settles (fun r => internalBinaryRead r len o target).
Proof. apply readLoop_settles. intros no wt m r. unfold switch. split_number no; settle. Qed.
#[global] Hint Resolve ConfigDraftResponse_settles : pgapp.

Lemma ConfigDraftResponse_codes `{L : RuntimeLaws} m : wf m ->
  message_codes (fun w => internalBinaryWrite m w defaultWriteOptions)
    (fun r len => internalBinaryRead r len defaultReadOptions None) (encode m) m.
Proof.
  intros (Hf & Hs0 & Hs1 & Hu). codec_open m Hf. apply (message_intro (switch defaultReadOptions)).
  unfold internalBinaryWrite, encode, encode_message, fields. cbn [foldr].
  codec_field (codes_message_field (switch defaultReadOptions) scope set_scope).
  codec_field (codes_rep_message_field (switch defaultReadOptions) items set_items).
  codec_reduce. apply (codes_unknown _ unknown set_unknown typeName 2); 
    first [codec_side | codec_default switch].
Qed.

#[global] Instance message_type : MessageType t := {|
  mt_typeName := typeName; mt_new := new; mt_read RT := @internalBinaryRead RT;
  mt_write RT := @internalBinaryWrite RT; mt_encode := encode; mt_wf := wf |}.
#[global] Instance lawful : LawfulMessage t :=
  {| mt_codes := @ConfigDraftResponse_codes; mt_settles := @ConfigDraftResponse_settles |}.

End ConfigDraftResponse.

(** ** Message [PublishConfigRequest] *)
Module PublishConfigRequest.

(** [interface PublishConfigRequest], with the fields the decoder did not know *)
Record t := mk {
  scope : option ConfigScope.t;
  message_ : jsstr;
  publishedBy : jsstr;
  unknown : list UnknownField
}.

Definition set_scope (x : option ConfigScope.t) (m : t) : t :=
  mk x m.(message_) m.(publishedBy) m.(unknown).
Definition set_message (x : jsstr) (m : t) : t :=
  mk m.(scope) x m.(publishedBy) m.(unknown).
Definition set_publishedBy (x : jsstr) (m : t) : t :=
  mk m.(scope) m.(message_) x m.(unknown).
Definition set_unknown (x : list UnknownField) (m : t) : t :=
  mk m.(scope) m.(message_) m.(publishedBy) x.

Definition typeName : jsstr := js "pgapp.v1.PublishConfigRequest".

(** [PartialMessage<PublishConfigRequest>] and the effect of merging one *)
Record PartialMessage := mkPartial {
  p_scope : option ConfigScope.PartialMessage;
  p_message : option jsstr;
  p_publishedBy : option jsstr
}.
#[global] Instance info : MessageInfo t PartialMessage := {|
  overlay m p := mk
    (match p.(p_scope) with Some q => Some (overlay (default ConfigScope.new m.(scope)) q) | None => m.(scope) end)
    (default m.(message_) p.(p_message))
    (default m.(publishedBy) p.(p_publishedBy))
    m.(unknown)
|}.
(** A complete message used as a partial one *)
Definition as_partial (m : t) : PartialMessage :=
  mkPartial (ConfigScope.as_partial <$> m.(scope)) (Some m.(message_)) (Some m.(publishedBy)).

(** The message prototype with every field at its default *)
Definition new : t :=
  mk None (js "") (js "") [].
Definition create `{RT : BinaryRuntime} (value : option PartialMessage) : t :=
  match value with
  | Some value => reflectionMergePartial info new value
  | None => new
  end.

(** The cases of [internalBinaryRead] *)
Definition switch `{RT : BinaryRuntime} (options : BinaryReadOptions) (fieldNo : Z)
    (wireType : WireType) (message : t) (reader : IBinaryReader) : result (t * IBinaryReader) :=
  match fieldNo with
  | 1 =>
      '(length, reader) ← r_uint32 reader;
      '(v, reader) ← ConfigScope.internalBinaryRead reader length options message.(scope);
      Ok (set_scope (Some v) message, reader)
  | 2 => '(v, reader) ← r_string reader; Ok (set_message v message, reader)
  | 3 => '(v, reader) ← r_string reader; Ok (set_publishedBy v message, reader)
  | _ =>
      '(u, reader) ← readUnknown options typeName fieldNo wireType message.(unknown) reader;
      Ok (set_unknown u message, reader)
  end.

Definition internalBinaryRead `{RT : BinaryRuntime} (reader : IBinaryReader) (length : Z)
    (options : BinaryReadOptions) (target : option t) : result (t * IBinaryReader) :=
  let message := default (create None) target in
  readLoop (loop_fuel length) (switch options) (r_pos reader + length) message reader.

Definition internalBinaryWrite `{RT : BinaryRuntime} (message : t) (writer : IBinaryWriter)
    (options : BinaryWriteOptions) : result IBinaryWriter :=
  writer ← (match message.(scope) with
     | Some x =>
         writer ← ConfigScope.internalBinaryWrite x (w_fork (w_tag 1 LengthDelimited writer)) options;
         w_join writer
     | None => Ok writer end);
  writer ← (if negb (bool_decide (message.(message_) = js ""))
     then w_string message.(message_) (w_tag 2 LengthDelimited writer) else Ok writer);
  writer ← (if negb (bool_decide (message.(publishedBy) = js ""))
     then w_string message.(publishedBy) (w_tag 3 LengthDelimited writer) else Ok writer);
  writeUnknown options typeName message.(unknown) writer.

(** The field table of the constructor, with the values of a message *)
Definition fields (m : t) : list wfield :=
  [FMessage 1 (ConfigScope.encode <$> m.(scope));
   FString 2 m.(message_);
   FString 3 m.(publishedBy)].
Definition encode (m : t) : bytes := encode_message (fields m) m.(unknown).
Definition wf (m : t) : Prop :=
  forallb ok_field (fields m) = true
  /\ from_option ConfigScope.wf True m.(scope)
  /\ Forall (fun u => wf_unknown u /\ 3 < uf_no u) m.(unknown).

Lemma PublishConfigRequest_settles `{L : RuntimeLaws} len o target :
  settles (fun r => internalBinaryRead r len o target).
Proof. apply readLoop_settles. intros no wt m r. unfold switch. split_number no; settle. Qed.
#[global] Hint Resolve PublishConfigRequest_settles : pgapp.

Lemma PublishConfigRequest_codes `{L : RuntimeLaws} m : wf m ->
  message_codes (fun w => internalBinaryWrite m w defaultWriteOptions)
    (fun r len => internalBinaryRead r len defaultReadOptions None) (encode m) m.
Proof.
  intros (Hf & Hs0 & Hu). codec_open m Hf. apply (message_intro (switch defaultReadOptions)).
  unfold internalBinaryWrite, encode, encode_message, fields. cbn [foldr].
  codec_field (codes_message_field (switch defaultReadOptions) scope set_scope).
  do 2 codec_step.
  codec_reduce. apply (codes_unknown _ unknown set_unknown typeName 3); 
    first [codec_side | codec_default switch].
Qed.

#[global] Instance message_type : MessageType t := {|
  mt_typeName := typeName; mt_new := new; mt_read RT := @internalBinaryRead RT;
  mt_write RT := @internalBinaryWrite RT; mt_encode := encode; mt_wf := wf |}.
#[global] Instance lawful : LawfulMessage t :=
  {| mt_codes := @PublishConfigRequest_codes; mt_settles := @PublishConfigRequest_settles |}.

End PublishConfigRequest.

(** ** Message [GetConfigReleaseRequest] *)
Module GetConfigReleaseRequest.

(** [interface GetConfigReleaseRequest], with the fields the decoder did not know *)
Record t := mk {
  scope : option ConfigScope.t;
  revision : jsstr;
  unknown : list UnknownField
}.

Definition set_scope (x : option ConfigScope.t) (m : t) : t :=
  mk x m.(revision) m.(unknown).
Definition set_revision (x : jsstr) (m : t) : t :=
  mk m.(scope) x m.(unknown).
Definition set_unknown (x : list UnknownField) (m : t) : t :=
  mk m.(scope) m.(revision) x.

Definition typeName : jsstr := js "pgapp.v1.GetConfigReleaseRequest".

(** [PartialMessage<GetConfigReleaseRequest>] and the effect of merging one *)
Record PartialMessage := mkPartial {
  p_scope : option ConfigScope.PartialMessage;
  p_revision : option jsstr
}.
#[global] Instance info : MessageInfo t PartialMessage := {|
  overlay m p := mk
    (match p.(p_scope) with Some q => Some (overlay (default ConfigScope.new m.(scope)) q) | None => m.(scope) end)
    (default m.(revision) p.(p_revision))
    m.(unknown)
|}.
(** A complete message used as a partial one *)
Definition as_partial (m : t) : PartialMessage :=
  mkPartial (ConfigScope.as_partial <$> m.(scope)) (Some m.(revision)).

(** The message prototype with every field at its default *)
Definition new : t :=
  mk None (js "0") [].
Definition create `{RT : BinaryRuntime} (value : option PartialMessage) : t :=
  match value with
  | Some value => reflectionMergePartial info new value
  | None => new
  end.

(** The cases of [internalBinaryRead] *)
Definition switch `{RT : BinaryRuntime} (options : BinaryReadOptions) (fieldNo : Z)
    (wireType : WireType) (message : t) (reader : IBinaryReader) : result (t * IBinaryReader) :=
  match fieldNo with
  | 1 =>
      '(length, reader) ← r_uint32 reader;
      '(v, reader) ← ConfigScope.internalBinaryRead reader length options message.(scope);
      Ok (set_scope (Some v) message, reader)
  | 2 => '(v, reader) ← r_int64_string reader; Ok (set_revision v message, reader)
  | _ =>
      '(u, reader) ← readUnknown options typeName fieldNo wireType message.(unknown) reader;
      Ok (set_unknown u message, reader)
  end.

Definition internalBinaryRead `{RT : BinaryRuntime} (reader : IBinaryReader) (length : Z)
    (options : BinaryReadOptions) (target : option t) : result (t * IBinaryReader) :=
  let message := default (create None) target in
  readLoop (loop_fuel length) (switch options) (r_pos reader + length) message reader.

Definition internalBinaryWrite `{RT : BinaryRuntime} (message : t) (writer : IBinaryWriter)
    (options : BinaryWriteOptions) : result IBinaryWriter :=
  writer ← (match message.(scope) with
     | Some x =>
         writer ← ConfigScope.internalBinaryWrite x (w_fork (w_tag 1 LengthDelimited writer)) options;
         w_join writer
     | None => Ok writer end);
  writer ← (if negb (bool_decide (message.(revision) = js "0"))
     then w_int64 message.(revision) (w_tag 2 Varint writer) else Ok writer);
  writeUnknown options typeName message.(unknown) writer.

(** The field table of the constructor, with the values of a message *)
Definition fields (m : t) : list wfield :=
  [FMessage 1 (ConfigScope.encode <$> m.(scope));
   FInt64 2 m.(revision)].
Definition encode (m : t) : bytes := encode_message (fields m) m.(unknown).
Definition wf (m : t) : Prop :=
  forallb ok_field (fields m) = true
  /\ from_option ConfigScope.wf True m.(scope)
  /\ Forall (fun u => wf_unknown u /\ 2 < uf_no u) m.(unknown).

Lemma GetConfigReleaseRequest_settles `{L : RuntimeLaws} len o target :
  settles (fun r => internalBinaryRead r len o target).
Proof. apply readLoop_settles. intros no wt m r. unfold switch. split_number no; settle. Qed.
#[global] Hint Resolve GetConfigReleaseRequest_settles : pgapp.

Lemma GetConfigReleaseRequest_codes `{L : RuntimeLaws} m : wf m ->
  message_codes (fun w => internalBinaryWrite m w defaultWriteOptions)
    (fun r len => internalBinaryRead r len defaultReadOptions None) (encode m) m.
Proof.
  intros (Hf & Hs0 & Hu). codec_open m Hf. apply (message_intro (switch defaultReadOptions)).
  unfold internalBinaryWrite, encode, encode_message, fields. cbn [foldr].
  codec_field (codes_message_field (switch defaultReadOptions) scope set_scope).
  codec_step.
  codec_reduce. apply (codes_unknown _ unknown set_unknown typeName 2); 
    first [codec_side | codec_default switch].
Qed.

#[global] Instance message_type : MessageType t := {|
  mt_typeName := typeName; mt_new := new; mt_read RT := @internalBinaryRead RT;
  mt_write RT := @internalBinaryWrite RT; mt_encode := encode; mt_wf := wf |}.
#[global] Instance lawful : LawfulMessage t :=
  {| mt_codes := @GetConfigReleaseRequest_codes; mt_settles := @GetConfigReleaseRequest_settles |}.

End GetConfigReleaseRequest.

(** ** Message [ListConfigReleasesRequest] *)
Module ListConfigReleasesRequest.

(** [interface ListConfigReleasesRequest], with the fields the decoder did not know *)
Record t := mk {
  scope : option ConfigScope.t;
  limit : number;
  offset : jsstr;
  unknown : list UnknownField
}.

Definition set_scope (x : option ConfigScope.t) (m : t) : t :=
  mk x m.(limit) m.(offset) m.(unknown).
Definition set_limit (x : number) (m : t) : t :=
  mk m.(scope) x m.(offset) m.(unknown).
Definition set_offset (x : jsstr) (m : t) : t :=
  mk m.(scope) m.(limit) x m.(unknown).
Definition set_unknown (x : list UnknownField) (m : t) : t :=
  mk m.(scope) m.(limit) m.(offset) x.

Definition typeName : jsstr := js "pgapp.v1.ListConfigReleasesRequest".

(** [PartialMessage<ListConfigReleasesRequest>] and the effect of merging one *)
Record PartialMessage := mkPartial {
  p_scope : option ConfigScope.PartialMessage;
  p_limit : option number;
  p_offset : option jsstr
}.
#[global] Instance info : MessageInfo t PartialMessage := {|
  overlay m p := mk
    (match p.(p_scope) with Some q => Some (overlay (default ConfigScope.new m.(scope)) q) | None => m.(scope) end)
    (default m.(limit) p.(p_limit))
    (default m.(offset) p.(p_offset))
    m.(unknown)
|}.
(** A complete message used as a partial one *)
Definition as_partial (m : t) : PartialMessage :=
  mkPartial (ConfigScope.as_partial <$> m.(scope)) (Some m.(limit)) (Some m.(offset)).

(** The message prototype with every field at its default *)
Definition new : t :=
  mk None (Finite 0 0) (js "0") [].
Definition create `{RT : BinaryRuntime} (value : option PartialMessage) : t :=
  match value with
  | Some value => reflectionMergePartial info new value
  | None => new
  end.

(** The cases of [internalBinaryRead] *)
Definition switch `{RT : BinaryRuntime} (options : BinaryReadOptions) (fieldNo : Z)
    (wireType : WireType) (message : t) (reader : IBinaryReader) : result (t * IBinaryReader) :=
  match fieldNo with
  | 1 =>
      '(length, reader) ← r_uint32 reader;
      '(v, reader) ← ConfigScope.internalBinaryRead reader length options message.(scope);
      Ok (set_scope (Some v) message, reader)
  | 2 => '(v, reader) ← r_int32 reader; Ok (set_limit (Num.of_Z v) message, reader)
  | 3 => '(v, reader) ← r_int64_string reader; Ok (set_offset v message, reader)
  | _ =>
      '(u, reader) ← readUnknown options typeName fieldNo wireType message.(unknown) reader;
      Ok (set_unknown u message, reader)
  end.

Definition internalBinaryRead `{RT : BinaryRuntime} (reader : IBinaryReader) (length : Z)
    (options : BinaryReadOptions) (target : option t) : result (t * IBinaryReader) :=
  let message := default (create None) target in
  readLoop (loop_fuel length) (switch options) (r_pos reader + length) message reader.

Definition internalBinaryWrite `{RT : BinaryRuntime} (message : t) (writer : IBinaryWriter)
    (options : BinaryWriteOptions) : result IBinaryWriter :=
  writer ← (match message.(scope) with
     | Some x =>
         writer ← ConfigScope.internalBinaryWrite x (w_fork (w_tag 1 LengthDelimited writer)) options;
         w_join writer
     | None => Ok writer end);
  writer ← (if negb (Num.eqb message.(limit) (Finite 0 0))
     then w_int32 message.(limit) (w_tag 2 Varint writer) else Ok writer);
  writer ← (if negb (bool_decide (message.(offset) = js "0"))
     then w_int64 message.(offset) (w_tag 3 Varint writer) else Ok writer);
  writeUnknown options typeName message.(unknown) writer.

(** The field table of the constructor, with the values of a message *)
Definition fields (m : t) : list wfield :=
  [FMessage 1 (ConfigScope.encode <$> m.(scope));
   FInt32 2 m.(limit);
   FInt64 3 m.(offset)].
Definition encode (m : t) : bytes := encode_message (fields m) m.(unknown).
Definition wf (m : t) : Prop :=
  forallb ok_field (fields m) = true
  /\ from_option ConfigScope.wf True m.(scope)
  /\ Forall (fun u => wf_unknown u /\ 3 < uf_no u) m.(unknown).

Lemma ListConfigReleasesRequest_settles `{L : RuntimeLaws} len o target :
  settles (fun r => internalBinaryRead r len o target).
Proof. apply readLoop_settles. intros no wt m r. unfold switch. split_number no; settle. Qed.
#[global] Hint Resolve ListConfigReleasesRequest_settles : pgapp.

Lemma ListConfigReleasesRequest_codes `{L : RuntimeLaws} m : wf m ->
  message_codes (fun w => internalBinaryWrite m w defaultWriteOptions)
    (fun r len => internalBinaryRead r len defaultReadOptions None) (encode m) m.
Proof.
  intros (Hf & Hs0 & Hu). codec_open m Hf. apply (message_intro (switch defaultReadOptions)).
  unfold internalBinaryWrite, encode, encode_message, fields. cbn [foldr].
  codec_field (codes_message_field (switch defaultReadOptions) scope set_scope).
  do 2 codec_step.
  codec_reduce. apply (codes_unknown _ unknown set_unknown typeName 3); 
    first [codec_side | codec_default switch].
Qed.

#[global] Instance message_type : MessageType t := {|
  mt_typeName := typeName; mt_new := new; mt_read RT := @internalBinaryRead RT;
  mt_write RT := @internalBinaryWrite RT; mt_encode := encode; mt_wf := wf |}.
#[global] Instance lawful : LawfulMessage t :=
  {| mt_codes := @ListConfigReleasesRequest_codes; mt_settles := @ListConfigReleasesRequest_settles |}.

End ListConfigReleasesRequest.

(** ** Message [ListConfigReleasesResponse] *)
Module ListConfigReleasesResponse.

(** [interface ListConfigReleasesResponse], with the fields the decoder did not know *)
Record t := mk {
  releases : list ConfigRelease.t;
  nextOffset : jsstr;
  unknown : list UnknownField
}.

Definition set_releases (x : list ConfigRelease.t) (m : t) : t :=
  mk x m.(nextOffset) m.(unknown).
Definition set_nextOffset (x : jsstr) (m : t) : t :=
  mk m.(releases) x m.(unknown).
Definition set_unknown (x : list UnknownField) (m : t) : t :=
  mk m.(releases) m.(nextOffset) x.

Definition typeName : jsstr := js "pgapp.v1.ListConfigReleasesResponse".

(** [PartialMessage<ListConfigReleasesResponse>] and the effect of merging one *)
Record PartialMessage := mkPartial {
  p_releases : option (list ConfigRelease.PartialMessage);
  p_nextOffset : option jsstr
}.
#[global] Instance info : MessageInfo t PartialMessage := {|
  overlay m p := mk
    (default m.(releases) (map (overlay ConfigRelease.new) <$> p.(p_releases)))
    (default m.(nextOffset) p.(p_nextOffset))
    m.(unknown)
|}.
(** A complete message used as a partial one *)
Definition as_partial (m : t) : PartialMessage :=
  mkPartial (Some (map ConfigRelease.as_partial m.(releases))) (Some m.(nextOffset)).

(** The message prototype with every field at its default *)
Definition new : t :=
  mk [] (js "0") [].
Definition create `{RT : BinaryRuntime} (value : option PartialMessage) : t :=
  match value with
  | Some value => reflectionMergePartial info new value
  | None => new
  end.

(** The cases of [internalBinaryRead] *)
Definition switch `{RT : BinaryRuntime} (options : BinaryReadOptions) (fieldNo : Z)
    (wireType : WireType) (message : t) (reader : IBinaryReader) : result (t * IBinaryReader) :=
  match fieldNo with
  | 1 =>
      '(length, reader) ← r_uint32 reader;
      '(v, reader) ← ConfigRelease.internalBinaryRead reader length options None;
      Ok (set_releases (message.(releases) ++ [v]) message, reader)
  | 2 => '(v, reader) ← r_int64_string reader; Ok (set_nextOffset v message, reader)
  | _ =>
      '(u, reader) ← readUnknown options typeName fieldNo wireType message.(unknown) reader;
      Ok (set_unknown u message, reader)
  end.

Definition internalBinaryRead `{RT : BinaryRuntime} (reader : IBinaryReader) (length : Z)
    (options : BinaryReadOptions) (target : option t) : result (t * IBinaryReader) :=
  let message := default (create None) target in
  readLoop (loop_fuel length) (switch options) (r_pos reader + length) message reader.

Definition internalBinaryWrite `{RT : BinaryRuntime} (message : t) (writer : IBinaryWriter)
    (options : BinaryWriteOptions) : result IBinaryWriter :=
  writer ← writeEach (fun x writer =>
      writer ← ConfigRelease.internalBinaryWrite x (w_fork (w_tag 1 LengthDelimited writer)) options;
      w_join writer) message.(releases) writer;
  writer ← (if negb (bool_decide (message.(nextOffset) = js "0"))
     then w_int64 message.(nextOffset) (w_tag 2 Varint writer) else Ok writer);
  writeUnknown options typeName message.(unknown) writer.

(** The field table of the constructor, with the values of a message *)
Definition fields (m : t) : list wfield :=
  [FRepMessage 1 (ConfigRelease.encode <$> m.(releases));
   FInt64 2 m.(nextOffset)].
Definition encode (m : t) : bytes := encode_message (fields m) m.(unknown).
Definition wf (m : t) : Prop :=
  forallb ok_field (fields m) = true
  /\ Forall ConfigRelease.wf m.(releases)
  /\ Forall (fun u => wf_unknown u /\ 2 < uf_no u) m.(unknown).

Lemma ListConfigReleasesResponse_settles `{L : RuntimeLaws} len o target :
  settles (fun r => internalBinaryRead r len o target).
Proof. apply readLoop_settles. intros no wt m r. unfold switch. split_number no; settle. Qed.
#[global] Hint Resolve ListConfigReleasesResponse_settles : pgapp.

Lemma ListConfigReleasesResponse_codes `{L : RuntimeLaws} m : wf m ->
  message_codes (fun w => internalBinaryWrite m w defaultWriteOptions)
    (fun r len => internalBinaryRead r len defaultReadOptions None) (encode m) m.
Proof.
  intros (Hf & Hs0 & Hu). codec_open m Hf. apply (message_intro (switch defaultReadOptions)).
  unfold internalBinaryWrite, encode, encode_message, fields. cbn [foldr].
  codec_field (codes_rep_message_field (switch defaultReadOptions) releases set_releases).
  codec_step.
  codec_reduce. apply (codes_unknown _ unknown set_unknown typeName 2); 
    first [codec_side | codec_default switch].
Qed.

#[global] Instance message_type : MessageType t := {|
  mt_typeName := typeName; mt_new := new; mt_read RT := @internalBinaryRead RT;
  mt_write RT := @internalBinaryWrite RT; mt_encode := encode; mt_wf := wf |}.
#[global] Instance lawful : LawfulMessage t :=
  {| mt_codes := @ListConfigReleasesResponse_codes; mt_settles := @ListConfigReleasesResponse_settles |}.

End ListConfigReleasesResponse.

(** ** Message [WatchConfigRequest] *)
Module WatchConfigRequest.

(** [interface WatchConfigRequest], with the fields the decoder did not know *)
Record t := mk {
  scope : option ConfigScope.t;
  knownRevision : jsstr;
  timeoutSeconds : jsstr;
  unknown : list UnknownField
}.

Definition set_scope (x : option ConfigScope.t) (m : t) : t :=
  mk x m.(knownRevision) m.(timeoutSeconds) m.(unknown).
Definition set_knownRevision (x : jsstr) (m : t) : t :=
  mk m.(scope) x m.(timeoutSeconds) m.(unknown).
Definition set_timeoutSeconds (x : jsstr) (m : t) : t :=
  mk m.(scope) m.(knownRevision) x m.(unknown).
Definition set_unknown (x : list UnknownField) (m : t) : t :=
  mk m.(scope) m.(knownRevision) m.(timeoutSeconds) x.

Definition typeName : jsstr := js "pgapp.v1.WatchConfigRequest".

(** [PartialMessage<WatchConfigRequest>] and the effect of merging one *)
Record PartialMessage := mkPartial {
  p_scope : option ConfigScope.PartialMessage;
  p_knownRevision : option jsstr;
  p_timeoutSeconds : option jsstr
}.
#[global] Instance info : MessageInfo t PartialMessage := {|
  overlay m p := mk
    (match p.(p_scope) with Some q => Some (overlay (default ConfigScope.new m.(scope)) q) | None => m.(scope) end)
    (default m.(knownRevision) p.(p_knownRevision))
    (default m.(timeoutSeconds) p.(p_timeoutSeconds))
    m.(unknown)
|}.
(** A complete message used as a partial one *)
Definition as_partial (m : t) : PartialMessage :=
  mkPartial (ConfigScope.as_partial <$> m.(scope)) (Some m.(knownRevision)) (Some m.(timeoutSeconds)).

(** The message prototype with every field at its default *)
Definition new : t :=
  mk None (js "0") (js "0") [].
Definition create `{RT : BinaryRuntime} (value : option PartialMessage) : t :=
  match value with
  | Some value => reflectionMergePartial info new value
  | None => new
  end.

(** The cases of [internalBinaryRead] *)
Definition switch `{RT : BinaryRuntime} (options : BinaryReadOptions) (fieldNo : Z)
    (wireType : WireType) (message : t) (reader : IBinaryReader) : result (t * IBinaryReader) :=
  match fieldNo with
  | 1 =>
      '(length, reader) ← r_uint32 reader;
      '(v, reader) ← ConfigScope.internalBinaryRead reader length options message.(scope);
      Ok (set_scope (Some v) message, reader)
  | 2 => '(v, reader) ← r_int64_string reader; Ok (set_knownRevision v message, reader)
  | 3 => '(v, reader) ← r_int64_string reader; Ok (set_timeoutSeconds v message, reader)
  | _ =>
      '(u, reader) ← readUnknown options typeName fieldNo wireType message.(unknown) reader;
      Ok (set_unknown u message, reader)
  end.

Definition internalBinaryRead `{RT : BinaryRuntime} (reader : IBinaryReader) (length : Z)
    (options : BinaryReadOptions) (target : option t) : result (t * IBinaryReader) :=
  let message := default (create None) target in
  readLoop (loop_fuel length) (switch options) (r_pos reader + length) message reader.

Definition internalBinaryWrite `{RT : BinaryRuntime} (message : t) (writer : IBinaryWriter)
    (options : BinaryWriteOptions) : result IBinaryWriter :=
  writer ← (match message.(scope) with
     | Some x =>
         writer ← ConfigScope.internalBinaryWrite x (w_fork (w_tag 1 LengthDelimited writer)) options;
         w_join writer
     | None => Ok writer end);
  writer ← (if negb (bool_decide (message.(knownRevision) = js "0"))
     then w_int64 message.(knownRevision) (w_tag 2 Varint writer) else Ok writer);
  writer ← (if negb (bool_decide (message.(timeoutSeconds) = js "0"))
     then w_int64 message.(timeoutSeconds) (w_tag 3 Varint writer) else Ok writer);
  writeUnknown options typeName message.(unknown) writer.

(** The field table of the constructor, with the values of a message *)
Definition fields (m : t) : list wfield :=
  [FMessage 1 (ConfigScope.encode <$> m.(scope));
   FInt64 2 m.(knownRevision);
   FInt64 3 m.(timeoutSeconds)].
Definition encode (m : t) : bytes := encode_message (fields m) m.(unknown).
Definition wf (m : t) : Prop :=
  forallb ok_field (fields m) = true
  /\ from_option ConfigScope.wf True m.(scope)
  /\ Forall (fun u => wf_unknown u /\ 3 < uf_no u) m.(unknown).

Lemma WatchConfigRequest_settles `{L : RuntimeLaws} len o target :
  settles (fun r => internalBinaryRead r len o target).
Proof. apply readLoop_settles. intros no wt m r. unfold switch. split_number no; settle. Qed.
#[global] Hint Resolve WatchConfigRequest_settles : pgapp.

Lemma WatchConfigRequest_codes `{L : RuntimeLaws} m : wf m ->
  message_codes (fun w => internalBinaryWrite m w defaultWriteOptions)
    (fun r len => internalBinaryRead r len defaultReadOptions None) (encode m) m.
Proof.
  intros (Hf & Hs0 & Hu). codec_open m Hf. apply (message_intro (switch defaultReadOptions)).
  unfold internalBinaryWrite, encode, encode_message, fields. cbn [foldr].
  codec_field (codes_message_field (switch defaultReadOptions) scope set_scope).
  do 2 codec_step.
  codec_reduce. apply (codes_unknown _ unknown set_unknown typeName 3); 
    first [codec_side | codec_default switch].
Qed.

#[global] Instance message_type : MessageType t := {|
  mt_typeName := typeName; mt_new := new; mt_read RT := @internalBinaryRead RT;
  mt_write RT := @internalBinaryWrite RT; mt_encode := encode; mt_wf := wf |}.
#[global] Instance lawful : LawfulMessage t :=
  {| mt_codes := @WatchConfigRequest_codes; mt_settles := @WatchConfigRequest_settles |}.

End WatchConfigRequest.

(** ** Message [WatchConfigResponse] *)
Module WatchConfigResponse.

(** [interface WatchConfigResponse], with the fields the decoder did not know *)
Record t := mk {
  changed : bool;
  latestRevision : jsstr;
  release : option ConfigRelease.t;
  unknown : list UnknownField
}.

Definition set_changed (x : bool) (m : t) : t :=
  mk x m.(latestRevision) m.(release) m.(unknown).
Definition set_latestRevision (x : jsstr) (m : t) : t :=
  mk m.(changed) x m.(release) m.(unknown).
Definition set_release (x : option ConfigRelease.t) (m : t) : t :=
  mk m.(changed) m.(latestRevision) x m.(unknown).
Definition set_unknown (x : list UnknownField) (m : t) : t :=
  mk m.(changed) m.(latestRevision) m.(release) x.

Definition typeName : jsstr := js "pgapp.v1.WatchConfigResponse".

(** [PartialMessage<WatchConfigResponse>] and the effect of merging one *)
Record PartialMessage := mkPartial {
  p_changed : option bool;
  p_latestRevision : option jsstr;
  p_release : option ConfigRelease.PartialMessage
}.
#[global] Instance info : MessageInfo t PartialMessage := {|
  overlay m p := mk
    (default m.(changed) p.(p_changed))
    (default m.(latestRevision) p.(p_latestRevision))
    (match p.(p_release) with Some q => Some (overlay (default ConfigRelease.new m.(release)) q) | None => m.(release) end)
    m.(unknown)
|}.
(** A complete message used as a partial one *)
Definition as_partial (m : t) : PartialMessage :=
  mkPartial (Some m.(changed)) (Some m.(latestRevision)) (ConfigRelease.as_partial <$> m.(release)).

(** The message prototype with every field at its default *)
Definition new : t :=
  mk false (js "0") None [].
Definition create `{RT : BinaryRuntime} (value : option PartialMessage) : t :=
  match value with
  | Some value => reflectionMergePartial info new value
  | None => new
  end.

(** The cases of [internalBinaryRead] *)
Definition switch `{RT : BinaryRuntime} (options : BinaryReadOptions) (fieldNo : Z)
    (wireType : WireType) (message : t) (reader : IBinaryReader) : result (t * IBinaryReader) :=
  match fieldNo with
  | 1 => '(v, reader) ← r_bool reader; Ok (set_changed v message, reader)
  | 2 => '(v, reader) ← r_int64_string reader; Ok (set_latestRevision v message, reader)
  | 3 =>
      '(length, reader) ← r_uint32 reader;
      '(v, reader) ← ConfigRelease.internalBinaryRead reader length options message.(release);
      Ok (set_release (Some v) message, reader)
  | _ =>
      '(u, reader) ← readUnknown options typeName fieldNo wireType message.(unknown) reader;
      Ok (set_unknown u message, reader)
  end.

Definition internalBinaryRead `{RT : BinaryRuntime} (reader : IBinaryReader) (length : Z)
    (options : BinaryReadOptions) (target : option t) : result (t * IBinaryReader) :=
  let message := default (create None) target in
  readLoop (loop_fuel length) (switch options) (r_pos reader + length) message reader.

Definition internalBinaryWrite `{RT : BinaryRuntime} (message : t) (writer : IBinaryWriter)
    (options : BinaryWriteOptions) : result IBinaryWriter :=
  writer ← (if negb (Bool.eqb message.(changed) false)
     then w_bool message.(changed) (w_tag 1 Varint writer) else Ok writer);
  writer ← (if negb (bool_decide (message.(latestRevision) = js "0"))
     then w_int64 message.(latestRevision) (w_tag 2 Varint writer) else Ok writer);
  writer ← (match message.(release) with
     | Some x =>
         writer ← ConfigRelease.internalBinaryWrite x (w_fork (w_tag 3 LengthDelimited writer)) options;
         w_join writer
     | None => Ok writer end);
  writeUnknown options typeName message.(unknown) writer.

(** The field table of the constructor, with the values of a message *)
Definition fields (m : t) : list wfield :=
  [FBool 1 m.(changed);
   FInt64 2 m.(latestRevision);
   FMessage 3 (ConfigRelease.encode <$> m.(release))].
Definition encode (m : t) : bytes := encode_message (fields m) m.(unknown).
Definition wf (m : t) : Prop :=
  forallb ok_field (fields m) = true
  /\ from_option ConfigRelease.wf True m.(release)
  /\ Forall (fun u => wf_unknown u /\ 3 < uf_no u) m.(unknown).

Lemma WatchConfigResponse_settles `{L : RuntimeLaws} len o target :
  settles (fun r => internalBinaryRead r len o target).
Proof. apply readLoop_settles. intros no wt m r. unfold switch. split_number no; settle. Qed.
#[global] Hint Resolve WatchConfigResponse_settles : pgapp.

Lemma WatchConfigResponse_codes `{L : RuntimeLaws} m : wf m ->
  message_codes (fun w => internalBinaryWrite m w defaultWriteOptions)
    (fun r len => internalBinaryRead r len defaultReadOptions None) (encode m) m.
Proof.
  intros (Hf & Hs0 & Hu). codec_open m Hf. apply (message_intro (switch defaultReadOptions)).
  unfold internalBinaryWrite, encode, encode_message, fields. cbn [foldr].
  do 2 codec_step.
  codec_field (codes_message_field (switch defaultReadOptions) release set_release).
  codec_reduce. apply (codes_unknown _ unknown set_unknown typeName 3); 
    first [codec_side | codec_default switch].
Qed.

#[global] Instance message_type : MessageType t := {|
  mt_typeName := typeName; mt_new := new; mt_read RT := @internalBinaryRead RT;
  mt_write RT := @internalBinaryWrite RT; mt_encode := encode; mt_wf := wf |}.
#[global] Instance lawful : LawfulMessage t :=
  {| mt_codes := @WatchConfigResponse_codes; mt_settles := @WatchConfigResponse_settles |}.

End WatchConfigResponse.

(** ** Message [SetConfigSchemaRequest] *)
Module SetConfigSchemaRequest.

(** [interface SetConfigSchemaRequest], with the fields the decoder did not know *)
Record t := mk {
  scope : option ConfigScope.t;
  jsonSchema : jsstr;
  unknown : list UnknownField
}.

Definition set_scope (x : option ConfigScope.t) (m : t) : t :=
  mk x m.(jsonSchema) m.(unknown).
Definition set_jsonSchema (x : jsstr) (m : t) : t :=
  mk m.(scope) x m.(unknown).
Definition set_unknown (x : list UnknownField) (m : t) : t :=
  mk m.(scope) m.(jsonSchema) x.

Definition typeName : jsstr := js "pgapp.v1.SetConfigSchemaRequest".

(** [PartialMessage<SetConfigSchemaRequest>] and the effect of merging one *)
Record PartialMessage := mkPartial {
  p_scope : option ConfigScope.PartialMessage;
  p_jsonSchema : option jsstr
}.
#[global] Instance info : MessageInfo t PartialMessage := {|
  overlay m p := mk
    (match p.(p_scope) with Some q => Some (overlay (default ConfigScope.new m.(scope)) q) | None => m.(scope) end)
    (default m.(jsonSchema) p.(p_jsonSchema))
    m.(unknown)
|}.
(** A complete message used as a partial one *)
Definition as_partial (m : t) : PartialMessage :=
  mkPartial (ConfigScope.as_partial <$> m.(scope)) (Some m.(jsonSchema)).

(** The message prototype with every field at its default *)
Definition new : t :=
  mk None (js "") [].
Definition create `{RT : BinaryRuntime} (value : option PartialMessage) : t :=
  match value with
  | Some value => reflectionMergePartial info new value
  | None => new
  end.

(** The cases of [internalBinaryRead] *)
Definition switch `{RT : BinaryRuntime} (options : BinaryReadOptions) (fieldNo : Z)
    (wireType : WireType) (message : t) (reader : IBinaryReader) : result (t * IBinaryReader) :=
  match fieldNo with
  | 1 =>
      '(length, reader) ← r_uint32 reader;
      '(v, reader) ← ConfigScope.internalBinaryRead reader length options message.(scope);
      Ok (set_scope (Some v) message, reader)
  | 2 => '(v, reader) ← r_string reader; Ok (set_jsonSchema v message, reader)
  | _ =>
      '(u, reader) ← readUnknown options typeName fieldNo wireType message.(unknown) reader;
      Ok (set_unknown u message, reader)
  end.

Definition internalBinaryRead `{RT : BinaryRuntime} (reader : IBinaryReader) (length : Z)
    (options : BinaryReadOptions) (target : option t) : result (t * IBinaryReader) :=
  let message := default (create None) target in
  readLoop (loop_fuel length) (switch options) (r_pos reader + length) message reader.

Definition internalBinaryWrite `{RT : BinaryRuntime} (message : t) (writer : IBinaryWriter)
    (options : BinaryWriteOptions) : result IBinaryWriter :=
  writer ← (match message.(scope) with
     | Some x =>
         writer ← ConfigScope.internalBinaryWrite x (w_fork (w_tag 1 LengthDelimited writer)) options;
         w_join writer
     | None => Ok writer end);
  writer ← (if negb (bool_decide (message.(jsonSchema) = js ""))
     then w_string message.(jsonSchema) (w_tag 2 LengthDelimited writer) else Ok writer);
  writeUnknown options typeName message.(unknown) writer.

(** The field table of the constructor, with the values of a message *)
Definition fields (m : t) : list wfield :=
  [FMessage 1 (ConfigScope.encode <$> m.(scope));
   FString 2 m.(jsonSchema)].
Definition encode (m : t) : bytes := encode_message (fields m) m.(unknown).
Definition wf (m : t) : Prop :=
  forallb ok_field (fields m) = true
  /\ from_option ConfigScope.wf True m.(scope)
  /\ Forall (fun u => wf_unknown u /\ 2 < uf_no u) m.(unknown).

Lemma SetConfigSchemaRequest_settles `{L : RuntimeLaws} len o target :
  settles (fun r => internalBinaryRead r len o target).
Proof. apply readLoop_settles. intros no wt m r. unfold switch. split_number no; settle. Qed.
#[global] Hint Resolve SetConfigSchemaRequest_settles : pgapp.

Lemma SetConfigSchemaRequest_codes `{L : RuntimeLaws} m : wf m ->
  message_codes (fun w => internalBinaryWrite m w defaultWriteOptions)
    (fun r len => internalBinaryRead r len defaultReadOptions None) (encode m) m.
Proof.
  intros (Hf & Hs0 & Hu). codec_open m Hf. apply (message_intro (switch defaultReadOptions)).
  unfold internalBinaryWrite, encode, encode_message, fields. cbn [foldr].
  codec_field (codes_message_field (switch defaultReadOptions) scope set_scope).
  codec_step.
  codec_reduce. apply (codes_unknown _ unknown set_unknown typeName 2); 
    first [codec_side | codec_default switch].
Qed.

#[global] Instance message_type : MessageType t := {|
  mt_typeName := typeName; mt_new := new; mt_read RT := @internalBinaryRead RT;
  mt_write RT := @internalBinaryWrite RT; mt_encode := encode; mt_wf := wf |}.
#[global] Instance lawful : LawfulMessage t :=
  {| mt_codes := @SetConfigSchemaRequest_codes; mt_settles := @SetConfigSchemaRequest_settles |}.

End SetConfigSchemaRequest.

(** ** Message [GetConfigSchemaRequest] *)
Module GetConfigSchemaRequest.

(** [interface GetConfigSchemaRequest], with the fields the decoder did not know *)
Record t := mk {
  scope : option ConfigScope.t;
  unknown : list UnknownField
}.

Definition set_scope (x : option ConfigScope.t) (m : t) : t :=
  mk x m.(unknown).
Definition set_unknown (x : list UnknownField) (m : t) : t :=
  mk m.(scope) x.

Definition typeName : jsstr := js "pgapp.v1.GetConfigSchemaRequest".

(** [PartialMessage<GetConfigSchemaRequest>] and the effect of merging one *)
Record PartialMessage := mkPartial {
  p_scope : option ConfigScope.PartialMessage
}.
#[global] Instance info : MessageInfo t PartialMessage := {|
  overlay m p := mk
    (match p.(p_scope) with Some q => Some (overlay (default ConfigScope.new m.(scope)) q) | None => m.(scope) end)
    m.(unknown)
|}.
(** A complete message used as a partial one *)
Definition as_partial (m : t) : PartialMessage :=
  mkPartial (ConfigScope.as_partial <$> m.(scope)).

(** The message prototype with every field at its default *)
Definition new : t :=
  mk None [].
Definition create `{RT : BinaryRuntime} (value : option PartialMessage) : t :=
  match value with
  | Some value => reflectionMergePartial info new value
  | None => new
  end.

(** The cases of [internalBinaryRead] *)
Definition switch `{RT : BinaryRuntime} (options : BinaryReadOptions) (fieldNo : Z)
    (wireType : WireType) (message : t) (reader : IBinaryReader) : result (t * IBinaryReader) :=
  match fieldNo with
  | 1 =>
      '(length, reader) ← r_uint32 reader;
      '(v, reader) ← ConfigScope.internalBinaryRead reader length options message.(scope);
      Ok (set_scope (Some v) message, reader)
  | _ =>
      '(u, reader) ← readUnknown options typeName fieldNo wireType message.(unknown) reader;
      Ok (set_unknown u message, reader)
  end.

Definition internalBinaryRead `{RT : BinaryRuntime} (reader : IBinaryReader) (length : Z)
    (options : BinaryReadOptions) (target : option t) : result (t * IBinaryReader) :=
  let message := default (create None) target in
  readLoop (loop_fuel length) (switch options) (r_pos reader + length) message reader.

Definition internalBinaryWrite `{RT : BinaryRuntime} (message : t) (writer : IBinaryWriter)
    (options : BinaryWriteOptions) : result IBinaryWriter :=
  writer ← (match message.(scope) with
     | Some x =>
         writer ← ConfigScope.internalBinaryWrite x (w_fork (w_tag 1 LengthDelimited writer)) options;
         w_join writer
     | None => Ok writer end);
  writeUnknown options typeName message.(unknown) writer.

(** The field table of the constructor, with the values of a message *)
Definition fields (m : t) : list wfield :=
  [FMessage 1 (ConfigScope.encode <$> m.(scope))].
Definition encode (m : t) : bytes := encode_message (fields m) m.(unknown).
Definition wf (m : t) : Prop :=
  forallb ok_field (fields m) = true
  /\ from_option ConfigScope.wf True m.(scope)
  /\ Forall (fun u => wf_unknown u /\ 1 < uf_no u) m.(unknown).

Lemma GetConfigSchemaRequest_settles `{L : RuntimeLaws} len o target :
  settles (fun r => internalBinaryRead r len o target).
Proof. apply readLoop_settles. intros no wt m r. unfold switch. split_number no; settle. Qed.
#[global] Hint Resolve GetConfigSchemaRequest_settles : pgapp.

Lemma GetConfigSchemaRequest_codes `{L : RuntimeLaws} m : wf m ->
  message_codes (fun w => internalBinaryWrite m w defaultWriteOptions)
    (fun r len => internalBinaryRead r len defaultReadOptions None) (encode m) m.
Proof.
  intros (Hf & Hs0 & Hu). codec_open m Hf. apply (message_intro (switch defaultReadOptions)).
  unfold internalBinaryWrite, encode, encode_message, fields. cbn [foldr].
  codec_field (codes_message_field (switch defaultReadOptions) scope set_scope).
  codec_reduce. apply (codes_unknown _ unknown set_unknown typeName 1); 
    first [codec_side | codec_default switch].
Qed.

#[global] Instance message_type : MessageType t := {|
  mt_typeName := typeName; mt_new := new; mt_read RT := @internalBinaryRead RT;
  mt_write RT := @internalBinaryWrite RT; mt_encode := encode; mt_wf := wf |}.
#[global] Instance lawful : LawfulMessage t :=
  {| mt_codes := @GetConfigSchemaRequest_codes; mt_settles := @GetConfigSchemaRequest_settles |}.

End GetConfigSchemaRequest.

(** ** Message [ConfigSchemaResponse] *)
Module ConfigSchemaResponse.

(** [interface ConfigSchemaResponse], with the fields the decoder did not know *)
Record t := mk {
  scope : option ConfigScope.t;
  hasSchema : bool;
  jsonSchema : jsstr;
  unknown : list UnknownField
}.

Definition set_scope (x : option ConfigScope.t) (m : t) : t :=
  mk x m.(hasSchema) m.(jsonSchema) m.(unknown).
Definition set_hasSchema (x : bool) (m : t) : t :=
  mk m.(scope) x m.(jsonSchema) m.(unknown).
Definition set_jsonSchema (x : jsstr) (m : t) : t :=
  mk m.(scope) m.(hasSchema) x m.(unknown).
Definition set_unknown (x : list UnknownField) (m : t) : t :=
  mk m.(scope) m.(hasSchema) m.(jsonSchema) x.

Definition typeName : jsstr := js "pgapp.v1.ConfigSchemaResponse".

(** [PartialMessage<ConfigSchemaResponse>] and the effect of merging one *)
Record PartialMessage := mkPartial {
  p_scope : option ConfigScope.PartialMessage;
  p_hasSchema : option bool;
  p_jsonSchema : option jsstr
}.
#[global] Instance info : MessageInfo t PartialMessage := {|
  overlay m p := mk
    (match p.(p_scope) with Some q => Some (overlay (default ConfigScope.new m.(scope)) q) | None => m.(scope) end)
    (default m.(hasSchema) p.(p_hasSchema))
    (default m.(jsonSchema) p.(p_jsonSchema))
    m.(unknown)
|}.
(** A complete message used as a partial one *)
Definition as_partial (m : t) : PartialMessage :=
  mkPartial (ConfigScope.as_partial <$> m.(scope)) (Some m.(hasSchema)) (Some m.(jsonSchema)).

(** The message prototype with every field at its default *)
Definition new : t :=
  mk None false (js "") [].
Definition create `{RT : BinaryRuntime} (value : option PartialMessage) : t :=
  match value with
  | Some value => reflectionMergePartial info new value
  | None => new
  end.

(** The cases of [internalBinaryRead] *)
Definition switch `{RT : BinaryRuntime} (options : BinaryReadOptions) (fieldNo : Z)
    (wireType : WireType) (message : t) (reader : IBinaryReader) : result (t * IBinaryReader) :=
  match fieldNo with
  | 1 =>
      '(length, reader) ← r_uint32 reader;
      '(v, reader) ← ConfigScope.internalBinaryRead reader length options message.(scope);
      Ok (set_scope (Some v) message, reader)
  | 2 => '(v, reader) ← r_bool reader; Ok (set_hasSchema v message, reader)
  | 3 => '(v, reader) ← r_string reader; Ok (set_jsonSchema v message, reader)
  | _ =>
      '(u, reader) ← readUnknown options typeName fieldNo wireType message.(unknown) reader;
      Ok (set_unknown u message, reader)
  end.

Definition internalBinaryRead `{RT : BinaryRuntime} (reader : IBinaryReader) (length : Z)
    (options : BinaryReadOptions) (target : option t) : result (t * IBinaryReader) :=
  let message := default (create None) target in
  readLoop (loop_fuel length) (switch options) (r_pos reader + length) message reader.

Definition internalBinaryWrite `{RT : BinaryRuntime} (message : t) (writer : IBinaryWriter)
    (options : BinaryWriteOptions) : result IBinaryWriter :=
  writer ← (match message.(scope) with
     | Some x =>
         writer ← ConfigScope.internalBinaryWrite x (w_fork (w_tag 1 LengthDelimited writer)) options;
         w_join writer
     | None => Ok writer end);
  writer ← (if negb (Bool.eqb message.(hasSchema) false)
     then w_bool message.(hasSchema) (w_tag 2 Varint writer) else Ok writer);
  writer ← (if negb (bool_decide (message.(jsonSchema) = js ""))
     then w_string message.(jsonSchema) (w_tag 3 LengthDelimited writer) else Ok writer);
  writeUnknown options typeName message.(unknown) writer.

(** The field table of the constructor, with the values of a message *)
Definition fields (m : t) : list wfield :=
  [FMessage 1 (ConfigScope.encode <$> m.(scope));
   FBool 2 m.(hasSchema);
   FString 3 m.(jsonSchema)].
Definition encode (m : t) : bytes := encode_message (fields m) m.(unknown).
Definition wf (m : t) : Prop :=
  forallb ok_field (fields m) = true
  /\ from_option ConfigScope.wf True m.(scope)
  /\ Forall (fun u => wf_unknown u /\ 3 < uf_no u) m.(unknown).

Lemma ConfigSchemaResponse_settles `{L : RuntimeLaws} len o target :
  settles (fun r => internalBinaryRead r len o target).
Proof. apply readLoop_settles. intros no wt m r. unfold switch. split_number no; settle. Qed.
#[global] Hint Resolve ConfigSchemaResponse_settles : pgapp.

Lemma ConfigSchemaResponse_codes `{L : RuntimeLaws} m : wf m ->
  message_codes (fun w => internalBinaryWrite m w defaultWriteOptions)
    (fun r len => internalBinaryRead r len defaultReadOptions None) (encode m) m.
Proof.
  intros (Hf & Hs0 & Hu). codec_open m Hf. apply (message_intro (switch defaultReadOptions)).
  unfold internalBinaryWrite, encode, encode_message, fields. cbn [foldr].
  codec_field (codes_message_field (switch defaultReadOptions) scope set_scope).
  do 2 codec_step.
  codec_reduce. apply (codes_unknown _ unknown set_unknown typeName 3); 
    first [codec_side | codec_default switch].
Qed.

#[global] Instance message_type : MessageType t := {|
  mt_typeName := typeName; mt_new := new; mt_read RT := @internalBinaryRead RT;
  mt_write RT := @internalBinaryWrite RT; mt_encode := encode; mt_wf := wf |}.
#[global] Instance lawful : LawfulMessage t :=
  {| mt_codes := @ConfigSchemaResponse_codes; mt_settles := @ConfigSchemaResponse_settles |}.

End ConfigSchemaResponse.
