(* ===== verification/ReferenceRuntime.v ===== *)
(** * A runtime that obeys the documentation

    A concrete reader and writer over byte lists, following the wire format.  It
    shows that [RuntimeLaws] can be satisfied, and it lets the witnesses run the
    generated code on concrete messages. *)

From Stdlib Require Import ZArith Lia.
From stdpp Require Import base list numbers option strings.
From S2P Require Import Prelude JsString JsNumber WireFormat ProtoRuntime Codec.

Ltac Zify.zify_post_hook ::= Z.div_mod_to_equations.

(** ** Parsers *)
Definition parser (A : Type) := bytes -> option (A * bytes).

Definition p_map {A B} (g : A -> option B) (p : parser A) : parser B := fun bs =>
  '(a, tl) ← p bs; b ← g a; Some (b, tl).

Definition p_take (n : Z) : parser bytes := fun bs =>
  if (0 <=? n) && (n <=? blen bs) then Some (firstn (Z.to_nat n) bs, skipn (Z.to_nat n) bs)
  else None.

Definition p_tag : parser (Z * WireType) :=
  p_map (fun v => if 8 <=? v then pair (v / 8) <$> WireType_of_num (v mod 8) else None) read_varint.
Definition p_delimited : parser bytes := fun bs =>
  '(n, tl) ← read_varint bs; p_take (n mod 2 ^ 32) tl.
Definition p_string : parser jsstr := p_map Utf.decode p_delimited.
Definition p_bool : parser bool := p_map (fun v => Some (negb (v =? 0))) read_varint.
Definition p_int32 : parser Z := p_map (fun v => Some (to_signed 32 v)) read_varint.
Definition p_uint32 : parser Z := p_map (fun v => Some (v mod 2 ^ 32)) read_varint.
Definition p_int64 : parser Z := p_map (fun v => Some (to_signed 64 v)) read_varint.
Definition p_uint64 : parser Z := p_map (fun v => Some (v mod 2 ^ 64)) read_varint.

(** The bytes a parser consumed *)
Definition p_raw {A} (p : parser A) : parser bytes := fun bs =>
  '(_, tl) ← p bs; Some (firstn (length bs - length tl) bs, tl).

Definition p_skip (wt : WireType) : parser bytes :=
  match wt with
  | Varint => p_raw read_varint
  | Bit64 => p_take 8
  | Bit32 => p_take 4
  | LengthDelimited => p_raw p_delimited
  | StartGroup | EndGroup => fun _ => None
  end.

(** ** The runtime *)
Record rdr := mkRdr { rd_pos : Z; rd_rest : bytes }.
Definition wtr := (list bytes * bytes)%type.

Definition run_parser {A} (p : parser A) (r : rdr) : result (A * rdr) :=
  match p (rd_rest r) with
  | Some (a, tl) => Ok (a, mkRdr (rd_pos r + (blen (rd_rest r) - blen tl)) tl)
  | None => Throw (newError (js "premature EOF"))
  end.

Definition put (bs : bytes) (w : wtr) : wtr := (fst w, snd w ++ bs).
Definition put_number (lo hi : Z) (enc : Z -> bytes) (o : option Z) (w : wtr) : result wtr :=
  match o with
  | Some z => if in_range lo hi z then Ok (put (enc z) w) else Throw (newError (js "invalid number"))
  | None => Throw (newError (js "invalid number"))
  end.

#[export] Instance reference_runtime : BinaryRuntime := {|
  IBinaryWriter := wtr;
  IBinaryReader := rdr;
  PbLong := Z;
  PbULong := Z;
  long_toString := Decimal.of_Z;
  ulong_toString := Decimal.of_Z;
  w_new := ([], []);
  w_finish := snd;
  w_tag no wt := put (enc_tag no wt);
  w_fork w := (snd w :: fst w, []);
  w_join w := match fst w with
              | cur :: st => Ok (st, cur ++ enc_delimited (snd w))
              | [] => Throw (newError (js "Invalid state, fork stack empty"))
              end;
  w_string s w := Ok (put (enc_string s) w);
  w_bytes b w := Ok (put (enc_delimited b) w);
  w_bool b w := Ok (put (enc_bool b) w);
  w_int32 n := put_number (- 2 ^ 31) (2 ^ 31) enc_int (Num.int_value n);
  w_uint32 n := put_number 0 (2 ^ 32) enc_uint (Num.int_value n);
  w_int64 s := put_number (- 2 ^ 63) (2 ^ 63) enc_int (Decimal.parse s);
  w_uint64 s := put_number 0 (2 ^ 64) enc_uint (Decimal.parse s);
  r_new bs := mkRdr 0 bs;
  r_pos := rd_pos;
  r_tag := run_parser p_tag;
  r_skip wt := run_parser (p_skip wt);
  r_string := run_parser p_string;
  r_bytes := run_parser p_delimited;
  r_bool := run_parser p_bool;
  r_int32 := run_parser p_int32;
  r_uint32 := run_parser p_uint32;
  r_int64 := run_parser p_int64;
  r_uint64 := run_parser p_uint64;
  onRead _ us no wt d := us ++ [mkUnknown no wt d];
  onWrite _ us w := Ok (put (flat_map enc_unknown us) w);
  reflectionMergePartial T P I := @overlay T P I
|}.

(** ** What the parsers do *)
Definition parses {A} (p : parser A) (bs : bytes) (a : A) : Prop :=
  forall tl, p (bs ++ tl) = Some (a, tl).

(** The rest is a suffix; [k] bytes at least are consumed. *)
Definition shrinks {A} (k : Z) (p : parser A) : Prop :=
  forall bs a tl, p bs = Some (a, tl) -> blen tl + k <= blen bs.

Lemma parses_varint n : uint64 n -> parses read_varint (varint n) n.
Proof. intros H tl. by apply read_varint_varint. Qed.

Lemma parses_map {A B} (g : A -> option B) p bs a b :
  parses p bs a -> g a = Some b -> parses (p_map g p) bs b.
Proof. intros Hp Hg tl. unfold p_map. rewrite Hp. cbn. by rewrite Hg. Qed.

Lemma parses_take n bs : blen bs = n -> parses (p_take n) bs bs.
Proof.
  intros <- tl. unfold p_take. pose proof (blen_nonneg bs). pose proof (blen_nonneg tl).
  rewrite blen_app. destruct (_ && _) eqn:E; [|lia]. unfold blen. rewrite Nat2Z.id.
  by rewrite firstn_length_app, skipn_length_app.
Qed.

Lemma parses_delimited b : blen b < 2 ^ 31 -> parses p_delimited (enc_delimited b) b.
Proof.
  intros Hb tl. pose proof (blen_nonneg b). unfold p_delimited, enc_delimited.
  rewrite <- app_assoc, read_varint_varint by (unfold uint64; lia). cbn.
  rewrite Z.mod_small by lia. by apply parses_take.
Qed.

Lemma parses_raw {A} (p : parser A) bs a : parses p bs a -> parses (p_raw p) bs bs.
Proof.
  intros Hp tl. unfold p_raw. rewrite Hp. cbn. do 2 f_equal.
  rewrite length_app. replace (length bs + length tl - length tl)%nat with (length bs) by lia.
  apply firstn_length_app.
Qed.

Lemma parses_tag no wt : field_number no -> parses p_tag (enc_tag no wt) (no, wt).
Proof.
  intros Hno. eapply parses_map; [by apply parses_varint, enc_tag_uint64|].
  unfold field_number in Hno.
  assert (0 <= WireType_num wt < 8) by (destruct wt; cbn; lia).
  destruct (Z.leb_spec 8 (no * 8 + WireType_num wt)); [|lia].
  replace ((no * 8 + WireType_num wt) / 8) with no by lia.
  replace ((no * 8 + WireType_num wt) mod 8) with (WireType_num wt) by lia. by destruct wt.
Qed.

Lemma parses_enc_int (g : Z -> Z) z :
  g (z mod 2 ^ 64) = z -> parses (p_map (fun v => Some (g v)) read_varint) (enc_int z) z.
Proof.
  intros Hg. eapply parses_map; [apply parses_varint; unfold uint64; lia|]. by rewrite Hg.
Qed.

Lemma parses_enc_uint w z :
  0 <= w <= 64 -> 0 <= z < 2 ^ w ->
  parses (p_map (fun v => Some (v mod 2 ^ w)) read_varint) (enc_uint z) z.
Proof.
  intros Hw Hz. assert (2 ^ w <= 2 ^ 64) by (apply Z.pow_le_mono_r; lia).
  eapply parses_map; [apply parses_varint; unfold uint64; lia|]. by rewrite Z.mod_small.
Qed.

Lemma parses_skip wt d : payload wt d -> parses (p_skip wt) d d.
Proof.
  destruct wt; cbn; try done.
  - intros (n & Hn & ->). by eapply parses_raw, parses_varint.
  - intros Hd. apply parses_take. unfold blen. by rewrite Hd.
  - intros (p & Hp & ->). by eapply parses_raw, parses_delimited.
  - intros Hd. apply parses_take. unfold blen. by rewrite Hd.
Qed.

Lemma shrinks_varint : shrinks 1 read_varint.
Proof.
  intros bs v tl H. apply read_varint_aux_shorter in H as (p & -> & Hp).
  rewrite blen_app. destruct p; [done|]. unfold blen. cbn [length]. lia.
Qed.

Lemma shrinks_map {A B} k (g : A -> option B) p : shrinks k p -> shrinks k (p_map g p).
Proof.
  intros Hp bs b tl. unfold p_map. destruct (p bs) as [[a tl']|] eqn:E; cbn; [|done].
  destruct (g a); cbn; [|done]. intros [= _ <-]. eauto.
Qed.

Lemma shrinks_take n : shrinks 0 (p_take n).
Proof.
  intros bs a tl. unfold p_take. destruct (_ && _) eqn:E; [|done]. intros [= _ <-].
  unfold blen. rewrite length_skipn. lia.
Qed.

Lemma shrinks_delimited : shrinks 1 p_delimited.
Proof.
  intros bs a tl. unfold p_delimited. destruct (read_varint bs) as [[n tl']|] eqn:E; cbn; [|done].
  intros Ht. apply shrinks_varint in E. apply shrinks_take in Ht. lia.
Qed.

Lemma shrinks_weaken {A} k k' (p : parser A) : k' <= k -> shrinks k p -> shrinks k' p.
Proof. intros Hk Hp bs a tl H. apply Hp in H. lia. Qed.

Lemma shrinks_raw {A} k (p : parser A) : shrinks k p -> shrinks k (p_raw p).
Proof.
  intros Hp bs b tl. unfold p_raw. destruct (p bs) as [[a tl']|] eqn:E; cbn; [|done].
  intros [= _ <-]. eauto.
Qed.

Lemma shrinks_skip wt : shrinks 0 (p_skip wt).
Proof.
  destruct wt; cbn; try done; try apply shrinks_take;
    apply (shrinks_weaken 1); try lia; apply shrinks_raw;
    [apply shrinks_varint|apply shrinks_delimited].
Qed.

Create HintDb shrinks.
#[local] Hint Resolve shrinks_varint shrinks_map shrinks_delimited : shrinks.

(** ** The laws *)
Lemma run_consumes {A} (p : parser A) bs a :
  parses p bs a -> consumes_with (RT := reference_runtime) rd_rest (run_parser p) bs a.
Proof.
  intros Hp r tl Hr. unfold run_parser. rewrite Hr, Hp. eexists. split_and!; [done|done|].
  cbn. rewrite blen_app. lia.
Qed.

Lemma run_moves {A} k (p : parser A) r a r' :
  shrinks k p -> run_parser p r = Ok (a, r') -> rd_pos r + k <= rd_pos r'.
Proof.
  intros Hp. unfold run_parser. destruct (p (rd_rest r)) as [[b tl]|] eqn:E; [|done].
  intros [= _ <-]. cbn. apply Hp in E. lia.
Qed.

Lemma run_settles {A} k (p : parser A) : 0 <= k -> shrinks k p -> settles (RT := reference_runtime) (run_parser p).
Proof.
  intros Hk Hp r. split.
  - unfold run_parser, returns. by destruct (p (rd_rest r)) as [[]|].
  - intros a r' H. apply (run_moves k) in H; [cbn; lia|done].
Qed.

Lemma put_emits bs : emits_with (RT := reference_runtime) (fun w => w) (fun w => Ok (put bs w)) bs.
Proof. intros w st cur ->. by exists (st, cur ++ bs). Qed.

Lemma put_number_emits lo hi enc o z :
  o = Some z -> lo <= z < hi -> emits_with (RT := reference_runtime) (fun w => w) (put_number lo hi enc o) (enc z).
Proof.
  intros -> Hz. unfold put_number, in_range. destruct (_ && _) eqn:E; [apply put_emits|lia].
Qed.

Lemma put_number_throws lo hi enc o w :
  (forall z, o = Some z -> ~ lo <= z < hi) -> exists e, put_number lo hi enc o w = Throw e.
Proof.
  intros Ho. unfold put_number, in_range. destruct o as [z|]; [|eauto].
  destruct (_ && _) eqn:E; [|eauto]. exfalso. apply (Ho z); [done|lia].
Qed.

#[export] Instance reference_laws : RuntimeLaws reference_runtime.
Proof.
  refine {| w_view := fun w : @IBinaryWriter reference_runtime => w;
            r_rest := fun r : @IBinaryReader reference_runtime => rd_rest r |}; cbn;
    try (intros; apply put_emits);
    try (intros; eapply run_consumes);
    try (eapply (run_settles 0); [lia|]; eapply (shrinks_weaken 1); [lia|]; eauto with shrinks).
  all: try done.
  - by intros w bs ->.
  - by intros w st cur ->.
  - intros w st cur bs -> _. by exists (st, cur ++ enc_delimited bs).
  - intros z Hz. apply put_number_emits; [|done].
    apply Num.int_value_of_Z. unfold int32 in Hz. lia.
  - intros z Hz. apply put_number_emits; [|done].
    apply Num.int_value_of_Z. unfold uint32 in Hz. lia.
  - intros z Hz. apply put_number_emits; [apply Decimal.parse_of_Z|done].
  - intros z Hz. apply put_number_emits; [apply Decimal.parse_of_Z|done].
  - intros n w H. by apply put_number_throws.
  - intros n w H. by apply put_number_throws.
  - by apply parses_tag.
  - eapply parses_map; [by apply parses_delimited|by apply Utf.decode_encode].
  - by apply parses_delimited.
  - eapply parses_map; [apply parses_varint; unfold uint64; by destruct b|]. by destruct b.
  - by apply (parses_enc_int (to_signed 32)), to_signed_int32.
  - by apply (parses_enc_uint 32).
  - intros z Hz. exists z. split; [done|]. apply run_consumes.
    by apply (parses_enc_int (to_signed 64)), to_signed_int64.
  - intros z Hz. exists z. split; [done|]. apply run_consumes. by apply (parses_enc_uint 64).
  - by apply parses_skip.
  - intros r t r' H. apply (run_moves 1) in H; [lia|]. eauto with shrinks.
  - intros wt. apply (run_settles 0); [lia|apply shrinks_skip].
  - intros r l r' H. apply (run_moves 1) in H; [lia|]. eauto with shrinks.
Defined.
