(* ===== verification/MessageTheorems.v ===== *)
(** * Theorems on the message types

    The registry of the message types of the five [.proto] packages, and what
    holds of all of them: encoding and decoding are inverse, decoding terminates
    on every input, default values take no space on the wire, and fields a type
    does not know pass through it. *)

From Stdlib Require Import ZArith Lia.
From stdpp Require Import base list numbers option strings.
From S2P Require Import Prelude JsString JsNumber WireFormat ProtoRuntime Codec ReferenceRuntime.
From S2P Require Import CommonMessages HealthMessages CacheMessages MqMessages ConfigMessages.

(** ** The registry *)
Record message_kind := Kind { mk_T : Type; mk_M : MessageType mk_T }.
#[export] Existing Instance mk_M.
Arguments Kind _ {_}.

Definition common_messages : list message_kind := [
  Kind Empty.t;
  Kind OperationResult.t;
  Kind ServiceCapability.t
].

Definition health_messages : list message_kind := [
  Kind HealthRequest.t;
  Kind HealthResponse.t;
  Kind ReadinessRequest.t;
  Kind ReadinessResponse.t;
  Kind RuntimeMetricsRequest.t;
  Kind MethodMetric.t;
  Kind PgPoolMetrics.t;
  Kind RuntimeMetricsResponse.t
].

Definition cache_messages : list message_kind := [
  Kind SetCacheRequest.t;
  Kind GetCacheRequest.t;
  Kind GetCacheResponse.t;
  Kind MGetCacheRequest.t;
  Kind CacheItem.t;
  Kind MGetCacheResponse.t;
  Kind DeleteCacheRequest.t;
  Kind ExistsCacheRequest.t;
  Kind ExistsCacheResponse.t;
  Kind InvalidateNamespaceRequest.t;
  Kind CacheStatsRequest.t;
  Kind NamespaceUsage.t;
  Kind CacheStatsResponse.t;
  Kind IncrementRequest.t;
  Kind IncrementResponse.t;
  Kind DecrementRequest.t;
  Kind DecrementResponse.t;
  Kind SetNXRequest.t;
  Kind SetNXResponse.t;
  Kind GetSetRequest.t;
  Kind GetSetResponse.t;
  Kind AppendRequest.t;
  Kind AppendResponse.t;
  Kind PrependRequest.t;
  Kind PrependResponse.t
].

Definition mq_messages : list message_kind := [
  Kind CreateQueueRequest.t;
  Kind PurgeQueueRequest.t;
  Kind DropQueueRequest.t;
  Kind SendMessageRequest.t;
  Kind SendMessageResponse.t;
  Kind SendBatchRequest.t;
  Kind SendBatchResponse.t;
  Kind ReadMessagesRequest.t;
  Kind ReadWithPollRequest.t;
  Kind StreamReadRequest.t;
  Kind QueueMessage.t;
  Kind ReadMessagesResponse.t;
  Kind AckMessageRequest.t;
  Kind ArchiveMessageRequest.t;
  Kind SetVisibilityTimeoutRequest.t;
  Kind QueueMetricsRequest.t;
  Kind QueueMetricsResponse.t;
  Kind DlqMessage.t;
  Kind ListDlqMessagesRequest.t;
  Kind ListDlqMessagesResponse.t;
  Kind GetDlqMessageRequest.t;
  Kind ReprocessDlqMessageRequest.t;
  Kind PurgeDlqRequest.t
].

Definition config_messages : list message_kind := [
  Kind ConfigScope.t;
  Kind ConfigItem.t;
  Kind ConfigRelease.t;
  Kind ListConfigScopesRequest.t;
  Kind ConfigScopeSummary.t;
  Kind ListConfigScopesResponse.t;
  Kind UpsertConfigItemRequest.t;
  Kind DeleteConfigItemRequest.t;
  Kind GetConfigDraftRequest.t;
  Kind ConfigDraftResponse.t;
  Kind PublishConfigRequest.t;
  Kind GetConfigReleaseRequest.t;
  Kind ListConfigReleasesRequest.t;
  Kind ListConfigReleasesResponse.t;
  Kind WatchConfigRequest.t;
  Kind WatchConfigResponse.t;
  Kind SetConfigSchemaRequest.t;
  Kind GetConfigSchemaRequest.t;
  Kind ConfigSchemaResponse.t
].

Definition all_messages : list message_kind :=
  common_messages ++ health_messages ++ cache_messages ++ mq_messages ++ config_messages.
(** What a message type must offer to be sent and received: it is written as the
    encoding its field table prescribes, and the encoding is read back as it. *)
Definition survives (RT : BinaryRuntime) (k : message_kind) : Prop :=
  forall m : mk_T k, mt_wf m -> blen (mt_encode m) < 2 ^ 31 ->
    toBinary m = Ok (mt_encode m) /\ fromBinary (mt_encode m) = Ok m.

Definition decodes_every_input (RT : BinaryRuntime) (k : message_kind) : Prop :=
  forall bs, returns (fromBinary (T := mk_T k) bs).

Definition default_is_empty (RT : BinaryRuntime) (k : message_kind) : Prop :=
  toBinary (mt_new (T := mk_T k)) = Ok [] /\ fromBinary [] = Ok (mt_new (T := mk_T k)).

Section Generic.
Context {RT : BinaryRuntime} {L : RuntimeLaws RT}.

Lemma kind_survives T `{LM : LawfulMessage T} : survives RT (Kind T).
Proof. intros m Hm Hlen. split; [by apply toBinary_encode|by apply fromBinary_encode]. Qed.

Lemma kind_decodes T `{LM : LawfulMessage T} : decodes_every_input RT (Kind T).
Proof. intros bs. apply (fromBinary_returns (T := T)). Qed.

Lemma kind_default T `{LM : LawfulMessage T} :
  mt_wf (mt_new (T := T)) -> mt_encode (mt_new (T := T)) = [] -> default_is_empty RT (Kind T).
Proof.
  intros Hwf He. destruct (kind_survives T mt_new Hwf) as [H1 H2]; cbn in *; rewrite He in *;
    [done|]. by split.
Qed.
End Generic.

#[export] Hint Resolve kind_survives kind_decodes : pgapp.

(** Proves a property of every type of a registry from its lemma for one type. *)
Ltac each_kind := repeat (apply Forall_nil_2 || apply Forall_cons_2); eauto with pgapp typeclass_instances.

Lemma Forall_at {A} (P : A -> Prop) l i x : Forall P l -> l !! i = Some x -> P x.
Proof. intros H Hi. by eapply Forall_lookup_1. Qed.

(** C4: On any runtime that behaves as documented, each of the 25 message types
    of the cache service writes a well-formed message of less than 2 GiB as the
    encoding its field table prescribes, and reads that encoding back as the
    same message. *)
Theorem cache_messages_roundtrip (RT : BinaryRuntime) (L : RuntimeLaws RT) :
  Forall (survives RT) cache_messages.
Proof. each_kind. Qed.

(** C5: The same for the 23 message types of the queue service, whose payload
    lists, packed message ids and nested messages are included. *)
Theorem mq_messages_roundtrip (RT : BinaryRuntime) (L : RuntimeLaws RT) :
  Forall (survives RT) mq_messages.
Proof. each_kind. Qed.

(** C6: The same for the 19 message types of the config service, where scopes and
    releases are nested messages. *)
Theorem config_messages_roundtrip (RT : BinaryRuntime) (L : RuntimeLaws RT) :
  Forall (survives RT) config_messages.
Proof. each_kind. Qed.

(** C7: The same for the message types of the health service and the types all
    services share. *)
Theorem health_messages_roundtrip (RT : BinaryRuntime) (L : RuntimeLaws RT) :
  Forall (survives RT) (common_messages ++ health_messages).
Proof. each_kind. Qed.

(** C16: Reading any bytes as any of the 78 message types comes back, with a message
    or with an exception: the loops of [internalBinaryRead] always terminate. *)
Theorem reading_terminates (RT : BinaryRuntime) (L : RuntimeLaws RT) :
  Forall (decodes_every_input RT) all_messages.
Proof. each_kind. Qed.

(** C19: The message [create()] returns, with every field at its default, takes no
    bytes, and no bytes are read as that message, for every type. *)
Theorem default_messages_are_empty (RT : BinaryRuntime) (L : RuntimeLaws RT) :
  Forall (default_is_empty RT) all_messages.
Proof.
  repeat (apply Forall_nil_2 || apply Forall_cons_2); 
    match goal with |- default_is_empty _ (Kind ?T) => refine (kind_default T _ eq_refl) end;
    repeat first [constructor | vm_compute; reflexivity].
Qed.

(** ** Fields a type does not know *)

(** A field as the unknown fields a decoder makes of it *)
Definition as_unknown (f : wfield) : list UnknownField :=
  match f with
  | FString no s => if bool_decide (s = []) then [] else [mkUnknown no LengthDelimited (enc_string s)]
  | FBytes no b => if bool_decide (b = []) then [] else [mkUnknown no LengthDelimited (enc_delimited b)]
  | FBool no b => if b then [mkUnknown no Varint (enc_bool b)] else []
  | FInt32 no n => if num_value n =? 0 then [] else [mkUnknown no Varint (enc_int (num_value n))]
  | FUint32 no n => if num_value n =? 0 then [] else [mkUnknown no Varint (enc_uint (num_value n))]
  | FInt64 no s => if dec_value s =? 0 then [] else [mkUnknown no Varint (enc_int (dec_value s))]
  | FUint64 no s => if dec_value s =? 0 then [] else [mkUnknown no Varint (enc_uint (dec_value s))]
  | FMessage no o => from_option (fun b => [mkUnknown no LengthDelimited (enc_delimited b)]) [] o
  | FRepString no l => map (fun s => mkUnknown no LengthDelimited (enc_string s)) l
  | FRepMessage no l => map (fun b => mkUnknown no LengthDelimited (enc_delimited b)) l
  | FPackedInt64 no l =>
      if bool_decide (l = []) then []
      else [mkUnknown no LengthDelimited (enc_delimited (flat_map (fun s => enc_int (dec_value s)) l))]
  end.

Definition field_no (f : wfield) : Z :=
  match f with
  | FString no _ | FBytes no _ | FBool no _ | FInt32 no _ | FUint32 no _ | FInt64 no _
  | FUint64 no _ | FMessage no _ | FRepString no _ | FRepMessage no _ | FPackedInt64 no _ => no
  end.

Lemma as_unknown_enc f : flat_map enc_unknown (as_unknown f) = enc_field f.
Proof.
  destruct f as [| | | | | | |no [b|]| | |]; cbn; repeat case_match; cbn; unfold enc_unknown; cbn; rewrite ?app_nil_r; try done;
    rewrite !flat_map_concat_map, map_map; done.
Qed.

Lemma payload_delimited b d : d = enc_delimited b -> blen d < 2 ^ 31 -> payload LengthDelimited d.
Proof. intros -> H. exists b. pose proof (blen_delimited b). split; [lia|done]. Qed.

Lemma payload_int z : payload Varint (enc_int z).
Proof. exists (z mod 2 ^ 64). split; [|done]. unfold uint64. lia. Qed.

(** The payloads of a field's unknown fields are part of its encoding. *)
Lemma enc_unknown_part u us : u ∈ us -> blen (uf_data u) <= blen (flat_map enc_unknown us).
Proof.
  induction us as [|v us IH]; [by intros ?%not_elem_of_nil|]. cbn. unfold enc_unknown at 1. rewrite !blen_app.
  pose proof (blen_nonneg (enc_tag (uf_no v) (uf_wireType v))).
  pose proof (blen_nonneg (uf_data v)). pose proof (blen_nonneg (flat_map enc_unknown us)).
  intros [->|Hu]%elem_of_cons; [lia|]. specialize (IH Hu). lia.
Qed.

Lemma as_unknown_payload f u :
  ok_field f = true -> u ∈ as_unknown f -> blen (uf_data u) < 2 ^ 31 ->
  uf_no u = field_no f /\ payload (uf_wireType u) (uf_data u).
Proof.
  destruct f as [no s|no b|no b|no n|no n|no s|no s|no [b|]|no l|no l|no l]; cbn -[payload enc_bool];
    intros Hok Hu Hlen; repeat case_match; try (by apply not_elem_of_nil in Hu);
    try (apply list_elem_of_singleton in Hu; subst u; cbn -[payload enc_bool] in * );
    try (apply list_elem_of_fmap in Hu as (x & -> & Hx); cbn -[payload] in * );
    (split; [done|]); eauto using payload_delimited, payload_int.
  - exists 1. split; [unfold uint64; lia|done].
  - apply ok_number_inv in Hok as (z & _ & Hz & E). exists (num_value n). unfold uint64. split; [lia|done].
  - apply ok_decimal_inv in Hok as (z & _ & Hz & E). exists (dec_value s). unfold uint64. split; [lia|done].
Qed.

Lemma as_unknown_wf last f :
  ok_field f = true -> field_number (field_no f) -> last < field_no f -> blen (enc_field f) < 2 ^ 31 ->
  Forall (fun u => wf_unknown u /\ last < uf_no u) (as_unknown f).
Proof.
  intros Hok Hno Hlast Hlen. apply Forall_forall. intros u Hu.
  rewrite <- as_unknown_enc in Hlen. pose proof (enc_unknown_part u _ Hu).
  destruct (as_unknown_payload f u Hok Hu) as [Eu Hp]; [lia|].
  unfold wf_unknown. by rewrite Eu.
Qed.

(** The request a decoder of [GetCacheRequest] makes of a [SetCacheRequest] *)
Definition get_of_set (m : SetCacheRequest.t) : GetCacheRequest.t :=
  GetCacheRequest.mk (SetCacheRequest.namespace m) (SetCacheRequest.key m)
    (as_unknown (FBytes 3 (SetCacheRequest.value m))
     ++ as_unknown (FInt64 4 (SetCacheRequest.ttlSeconds m)) ++ SetCacheRequest.unknown m).

Lemma get_of_set_encode m : mt_encode (get_of_set m) = mt_encode m.
Proof.
  destruct m as [ns k v ttl us]. cbn -[as_unknown enc_field flat_map].
  unfold GetCacheRequest.encode, SetCacheRequest.encode, encode_message. cbn -[as_unknown enc_field flat_map].
  by rewrite !flat_map_app, !as_unknown_enc.
Qed.

Lemma get_of_set_wf m : mt_wf m -> blen (mt_encode m) < 2 ^ 31 -> mt_wf (get_of_set m).
Proof.
  intros [Hf Hu] Hlen. rewrite <- get_of_set_encode in Hlen. codec_open m Hf.
  cbn -[as_unknown enc_field flat_map] in Hlen.
  unfold GetCacheRequest.encode, encode_message in Hlen. cbn -[as_unknown enc_field flat_map] in Hlen.
  rewrite !flat_map_app, !as_unknown_enc, !blen_app in Hlen.
  repeat match type of Hlen with context [blen ?x] =>
    lazymatch goal with _ : 0 <= blen x |- _ => fail | _ => pose proof (blen_nonneg x) end end.
  split; [cbn -[ok_field]; by rewrite !andb_true_iff|].
  cbn -[as_unknown enc_field] in *. rewrite !Forall_app.
  split_and!; try (apply as_unknown_wf; [done|cbn; unfold field_number; lia|cbn; lia|lia]).
  eapply Forall_impl; [exact Hu|]. cbn. intros u [Hwf Hno]. split; [done|lia].
Qed.

(** C17: A decoder that knows fewer fields loses nothing.  The bytes of any
    [SetCacheRequest], read as a [GetCacheRequest], which has only its first two
    fields, give a message with the same namespace and key whose bytes are again
    those of the [SetCacheRequest]. *)
Theorem unknown_fields_pass_through (RT : BinaryRuntime) (L : RuntimeLaws RT) (m : SetCacheRequest.t) :
  mt_wf m -> blen (mt_encode m) < 2 ^ 31 ->
  exists g : GetCacheRequest.t,
    fromBinary (mt_encode m) = Ok g
    /\ GetCacheRequest.namespace g = SetCacheRequest.namespace m
    /\ GetCacheRequest.key g = SetCacheRequest.key m
    /\ toBinary g = Ok (mt_encode m).
Proof.
  intros Hm Hlen. exists (get_of_set m). pose proof (get_of_set_wf m Hm Hlen) as Hg.
  rewrite <- get_of_set_encode in *.
  split_and!; [by apply fromBinary_encode|done|done|by apply toBinary_encode].
Qed.

(** ** Repeated numbers, packed and unpacked *)

(** Message ids as a peer may send them: one per field, or several packed into
    one field. *)
Inductive id_chunk :=
  | Unpacked (id : jsstr)
  | Packed (ids : list jsstr).
Definition chunk_ids (c : id_chunk) : list jsstr :=
  match c with Unpacked id => [id] | Packed ids => ids end.
Definition enc_chunk (c : id_chunk) : bytes :=
  match c with
  | Unpacked id => enc_tag 1 Varint ++ enc_int (dec_value id)
  | Packed ids => enc_tag 1 LengthDelimited
                    ++ enc_delimited (flat_map (fun s => enc_int (dec_value s)) ids)
  end.

Lemma chunks_read (RT : BinaryRuntime) (L : RuntimeLaws RT) (cs : list id_chunk) acc us :
  forallb (ok_decimal (- 2 ^ 63) (2 ^ 63)) (flat_map chunk_ids cs) = true ->
  blen (flat_map enc_chunk cs) < 2 ^ 31 ->
  reads_star (SendBatchResponse.switch defaultReadOptions) (flat_map enc_chunk cs)
    (SendBatchResponse.mk acc us) (SendBatchResponse.mk (acc ++ flat_map chunk_ids cs) us).
Proof.
  revert acc. induction cs as [|c cs IH]; intros acc Hok Hlen; cbn [flat_map] in *.
  { rewrite app_nil_r. apply reads_nil. }
  rewrite forallb_app in Hok. apply andb_prop in Hok as [Hc Hcs].
  rewrite blen_app in Hlen. pose proof (blen_nonneg (flat_map enc_chunk cs)).
  pose proof (blen_nonneg (enc_chunk c)).
  rewrite app_assoc. eapply reads_app; [|apply IH; [done|lia]]. destruct c as [id|ids]; cbn in *.
  - rewrite andb_true_r in Hc. apply ok_decimal_inv in Hc as (z & -> & Hz & ->).
    apply reads_one; [by unfold field_number|]. cbn.
    apply (consumes_map r_int64_string (fun v => SendBatchResponse.mk (acc ++ [v]) us)).
    by apply consumes_int64_string.
  - rewrite blen_app in *. pose proof (blen_nonneg (enc_tag 1 LengthDelimited)).
    set (bs := flat_map _ ids) in *. pose proof (blen_delimited bs).
    apply reads_one; [by unfold field_number|]. cbn.
    apply (consumes_packed ids acc (fun l => SendBatchResponse.mk l us)); [done|]. fold bs. lia.
Qed.

(** C18: The ids of [SendBatchResponse] are read in their order however the sender
    splits them into packed and unpacked fields. *)
Theorem batch_ids_packed_or_not (RT : BinaryRuntime) (L : RuntimeLaws RT) (cs : list id_chunk) :
  forallb (ok_decimal (- 2 ^ 63) (2 ^ 63)) (flat_map chunk_ids cs) = true ->
  blen (flat_map enc_chunk cs) < 2 ^ 31 ->
  fromBinary (flat_map enc_chunk cs) = Ok (SendBatchResponse.mk (flat_map chunk_ids cs) []).
Proof.
  intros Hok Hlen. pose proof (chunks_read RT L cs [] [] Hok Hlen) as Hs.
  set (bs := flat_map enc_chunk cs) in *. destruct (law_r_new bs) as [Hr _].
  destruct (readLoop_star _ bs _ _ (loop_fuel (blen bs)) (r_new bs) [] Hs) as (r & E & _);
    [by rewrite app_nil_r|apply loop_fuel_enough, blen_nonneg|].
  unfold fromBinary. cbn -[readLoop]. unfold SendBatchResponse.internalBinaryRead.
  cbn -[readLoop]. unfold SendBatchResponse.new. by rewrite E.
Qed.

(** ** The modes of the unknown-field clauses *)

(** C20: The [default:] clause obeys the read options.  In front of a complete
    payload of an unknown field: "throw" raises an error that names the field,
    its wire type and the message type; the other modes step over the payload and
    keep it ([true]), drop it ([false]) or hand it to the handler. *)
Theorem unknown_field_modes (RT : BinaryRuntime) (L : RuntimeLaws RT) tn no wt us d r tl o :
  payload wt d -> r_rest r = d ++ tl ->
  match readUnknownField o with
  | RUThrow =>
      readUnknown o tn no wt us r =
        Throw (newError (js "Unknown field " ++ Decimal.of_Z no ++ js " (wire type "
          ++ Decimal.of_Z (WireType_num wt) ++ js ") for " ++ tn))
  | mode => exists r', r_rest r' = tl /\
      readUnknown o tn no wt us r = Ok (match mode with
        | RUBool true => us ++ [mkUnknown no wt d]
        | RUHandler h => h tn us no wt d
        | _ => us
        end, r')
  end.
Proof.
  intros Hp Hr. unfold readUnknown. destruct (readUnknownField o) as [|[]|h] eqn:E; [done|..];
    destruct (law_r_skip wt d Hp r tl Hr) as (r' & -> & Hr' & _); exists r'; cbn;
    rewrite ?law_onRead; done.
Qed.

(** ** Witnesses *)
Definition sample_set : SetCacheRequest.t :=
  SetCacheRequest.mk (js "app") (js "user:1") [1; 2; 255] (js "60") [mkUnknown 9 Varint [42]].

Lemma sample_set_wf : mt_wf sample_set.
Proof.
  split; [by vm_compute|]. apply Forall_cons_2; [|constructor].
  split; [|done]. split; [by unfold field_number|]. exists 42. by unfold uint64.
Qed.

(** The bytes of the sample request, as the wire format prescribes them *)
Definition sample_set_bytes : bytes :=
  [10; 3; 97; 112; 112; 18; 6; 117; 115; 101; 114; 58; 49; 26; 3; 1; 2; 255; 32; 60; 72; 42].

Lemma cache_messages_roundtrip_witness :
  toBinary (RT := reference_runtime) sample_set = Ok sample_set_bytes
  /\ fromBinary (RT := reference_runtime) sample_set_bytes = Ok sample_set.
Proof.
  exact (Forall_at _ _ 0 (Kind SetCacheRequest.t)
    (cache_messages_roundtrip reference_runtime reference_laws) eq_refl sample_set
    sample_set_wf eq_refl).
Defined.

Definition sample_batch : SendBatchResponse.t :=
  SendBatchResponse.mk [js "7"; js "-1"; js "9223372036854775807"] [].

Lemma mq_messages_roundtrip_witness :
  toBinary (RT := reference_runtime) sample_batch = Ok (mt_encode sample_batch)
  /\ fromBinary (RT := reference_runtime) (mt_encode sample_batch) = Ok sample_batch.
Proof.
  refine (Forall_at _ _ 6 (Kind SendBatchResponse.t)
    (mq_messages_roundtrip reference_runtime reference_laws) eq_refl sample_batch _ _);
    [split; [by vm_compute|constructor]|by vm_compute].
Defined.

Definition sample_release : ConfigRelease.t :=
  ConfigRelease.mk (Some (ConfigScope.mk (js "app") (js "prod") (js "default") (js "main") []))
    (js "3") (js "c0ffee") (js "{}") (js "first") (js "ops") (js "2024-01-01T00:00:00Z") [].

Lemma config_messages_roundtrip_witness :
  toBinary (RT := reference_runtime) sample_release = Ok (mt_encode sample_release)
  /\ fromBinary (RT := reference_runtime) (mt_encode sample_release) = Ok sample_release.
Proof.
  refine (Forall_at _ _ 2 (Kind ConfigRelease.t)
    (config_messages_roundtrip reference_runtime reference_laws) eq_refl sample_release _ _);
    [repeat first [constructor|by vm_compute]|by vm_compute].
Defined.

Lemma health_messages_roundtrip_witness :
  let m := ServiceCapability.mk (js "cache") (Num.of_Z 2) (js "ok") [] in
  toBinary (RT := reference_runtime) m = Ok [10; 5; 99; 97; 99; 104; 101; 16; 2; 26; 2; 111; 107]
  /\ fromBinary (RT := reference_runtime) [10; 5; 99; 97; 99; 104; 101; 16; 2; 26; 2; 111; 107] = Ok m.
Proof.
  refine (Forall_at _ _ 2 (Kind ServiceCapability.t)
    (health_messages_roundtrip reference_runtime reference_laws) eq_refl
    (ServiceCapability.mk (js "cache") (Num.of_Z 2) (js "ok") []) _ _);
    [split; [by vm_compute|constructor]|by vm_compute].
Defined.

Lemma reading_terminates_witness :
  returns (fromBinary (RT := reference_runtime) (T := OperationResult.t) [8; 255; 255]).
Proof.
  exact (Forall_at _ _ 1 (Kind OperationResult.t)
    (reading_terminates reference_runtime reference_laws) eq_refl [8; 255; 255]).
Defined.

Lemma default_messages_are_empty_witness :
  toBinary (RT := reference_runtime) SetCacheRequest.new = Ok []
  /\ fromBinary (RT := reference_runtime) [] = Ok SetCacheRequest.new.
Proof.
  exact (Forall_at _ _ 11 (Kind SetCacheRequest.t)
    (default_messages_are_empty reference_runtime reference_laws) eq_refl).
Defined.

Lemma unknown_fields_pass_through_witness :
  exists g : GetCacheRequest.t,
    fromBinary (RT := reference_runtime) sample_set_bytes = Ok g
    /\ GetCacheRequest.namespace g = js "app" /\ GetCacheRequest.key g = js "user:1"
    /\ toBinary (RT := reference_runtime) g = Ok sample_set_bytes.
Proof.
  exact (unknown_fields_pass_through reference_runtime reference_laws sample_set sample_set_wf eq_refl).
Defined.

Lemma batch_ids_packed_or_not_witness :
  fromBinary (RT := reference_runtime) [8; 5; 10; 2; 6; 7; 8; 8]
  = Ok (SendBatchResponse.mk [js "5"; js "6"; js "7"; js "8"] []).
Proof.
  refine (batch_ids_packed_or_not reference_runtime reference_laws
    [Unpacked (js "5"); Packed [js "6"; js "7"]; Unpacked (js "8")] _ _); by vm_compute.
Defined.

Lemma unknown_field_modes_witness :
  readUnknown (RT := reference_runtime) {| readUnknownField := RUThrow |} (js "pgapp.v1.Empty")
    4 Varint [] (mkRdr 0 [7; 8])
  = Throw (newError (js "Unknown field 4 (wire type 0) for pgapp.v1.Empty")).
Proof.
  refine (unknown_field_modes reference_runtime reference_laws (js "pgapp.v1.Empty") 4 Varint []
    [7] (mkRdr 0 [7; 8]) [8] {| readUnknownField := RUThrow |} _ eq_refl).
  exists 7. by unfold uint64.
Defined.
