(* ===== verification/Rpc.v ===== *)
(** * The interface of the RPC runtime

    [ServiceType], [RpcOptions], [stackIntercept] and the transport come from
    [@protobuf-ts/runtime-rpc] and [@protobuf-ts/grpc-transport].  The class
    [RpcTransport] has their operations; [TransportLaws] states that a unary call
    whose metadata gRPC admits sends the serialized request to the path of the
    method, with that metadata, and comes back with the deserialized response or
    with the error of a status that is not OK.  The far end (network and server,
    deadlines included) is a function on a state of its own. *)

From Stdlib Require Import ZArith Lia.
From stdpp Require Import base list numbers option strings.
From S2P Require Import Prelude JsString JsNumber WireFormat ProtoRuntime Codec.

(** ** Service descriptions *)
Record MethodInfo := mkMethod {
  mi_service : jsstr;
  mi_name : jsstr;
  mi_serverStreaming : bool;
  mi_I : jsstr;
  mi_O : jsstr
}.

Record ServiceType := mkService {
  st_typeName : jsstr;
  st_methods : list MethodInfo
}.

(** [{ name, I, O }] and [{ name, serverStreaming: true, I, O }] in the argument
    of [new ServiceType(typeName, methods)], which adds the service to each. *)
Definition unary_method (I O : Type) `{MI : MessageType I} `{MO : MessageType O} (name : jsstr)
    (service : jsstr) : MethodInfo :=
  mkMethod service name false (mt_typeName (T := I)) (mt_typeName (T := O)).
Definition streaming_method (I O : Type) `{MI : MessageType I} `{MO : MessageType O} (name : jsstr)
    (service : jsstr) : MethodInfo :=
  mkMethod service name true (mt_typeName (T := I)) (mt_typeName (T := O)).

Definition newServiceType (typeName : jsstr) (methods : list (jsstr -> MethodInfo)) : ServiceType :=
  mkService typeName (map (fun m => m typeName) methods).

(** [service.methods[i]]; an index outside the table has no method. *)
Definition no_method : MethodInfo := mkMethod [] [] false [] [].
Definition method_at (s : ServiceType) (i : nat) : MethodInfo := nth i (st_methods s) no_method.

(** The path of a method on the wire *)
Definition method_path (m : MethodInfo) : jsstr :=
  js "/" ++ mi_service m ++ js "/" ++ mi_name m.

(** ** Calls *)
Record RpcOptions := mkRpcOptions {
  meta : list (jsstr * jsstr);
  timeout : option number
}.

(** How far a response stream has come: more may follow, it is complete, or it
    failed. *)
Inductive stream_end :=
  | Pending
  | Completed
  | Failed (e : thrown).

(** A computation on the state of the far end *)
Definition remote (W A : Type) : Type := W -> result A * W.

#[export] Instance remote_ret W : MRet (remote W) := fun A a w => (Ok a, w).
#[export] Instance remote_bind W : MBind (remote W) := fun A B f m w =>
  match m w with
  | (Ok a, w) => f a w
  | (Throw e, w) => (Throw e, w)
  | (OutOfFuel, w) => (OutOfFuel, w)
  end.

#[export] Instance remote_fmap W : FMap (remote W) := fun A B f m => a ← m; mret (f a).

Class RpcTransport (W : Type) := {
  Transport : Type;
  (* new GrpcTransport({ host, channelCredentials }) *)
  newGrpcTransport : jsstr -> Transport;
  mergeOptions : Transport -> RpcOptions -> RpcOptions;
  (* stackIntercept("unary", ...), awaited *)
  stackIntercept_unary : forall {RT : BinaryRuntime} {I O : Type}
    {MI : MessageType I} {MO : MessageType O},
    Transport -> MethodInfo -> RpcOptions -> I -> remote W O;
  (* stackIntercept("serverStreaming", ...): the responses so far *)
  stackIntercept_serverStreaming : forall {RT : BinaryRuntime} {I O : Type}
    {MI : MessageType I} {MO : MessageType O},
    Transport -> MethodInfo -> RpcOptions -> I -> remote W (list O * stream_end)
}.

(** A status that is not OK: the name of its code and its message *)
Record GrpcFailure := mkFailure { gf_code : jsstr; gf_message : jsstr }.

(** [RpcError] of the RPC runtime: an [Error] whose [code] is the name of the
    status.  Its message is a string, so its string conversion is not used. *)
Definition rpcError (f : GrpcFailure) : thrown :=
  ThrownObject (error_of (js "RpcError") (gf_message f) (PString (gf_code f))).

(** The far end (network and server).  A unary call maps path, metadata and
    request bytes to a failure or response bytes; a streaming call to the responses
    sent so far and, when the stream has ended, its failure or success. *)
Record far_end (W : Type) := mkFarEnd {
  fe_unary : jsstr -> list (jsstr * jsstr) -> bytes -> W -> (GrpcFailure + bytes) * W;
  fe_stream : jsstr -> list (jsstr * jsstr) -> bytes -> W ->
    (list bytes * option (option GrpcFailure)) * W
}.
Arguments fe_unary {W} _ _ _ _ _.
Arguments fe_stream {W} _ _ _ _ _.

Definition stream_end_of (o : option (option GrpcFailure)) : stream_end :=
  match o with
  | None => Pending
  | Some None => Completed
  | Some (Some f) => Failed (rpcError f)
  end.

(** ** Metadata

    gRPC admits keys of lower-case letters, digits and three marks (a key that ends
    in [-bin] has bytes for its value) and values of printable ASCII; white space
    around a value may be stripped on the way, so a value that arrives as it is
    has none. *)
Definition legal_key_unit (u : Z) : bool :=
  ((97 <=? u) && (u <=? 122)) || ((48 <=? u) && (u <=? 57)) || (u =? 95) || (u =? 45) || (u =? 46).
Definition legal_key (k : jsstr) : bool :=
  negb (bool_decide (k = [])) && forallb legal_key_unit k
  && negb (bool_decide (skipn (length k - 4) k = js "-bin")).
Definition legal_value (v : jsstr) : bool :=
  forallb (fun u => (32 <=? u) && (u <=? 126)) v
  && negb (hd 0 v =? 32) && negb (List.last v 0 =? 32).
Definition legal_metadata (md : list (jsstr * jsstr)) : bool :=
  forallb (fun p => legal_key (fst p) && legal_value (snd p)) md.

(** The method describes a unary call from [I] to [O]. *)
Definition unary_typed (I O : Type) `{MI : MessageType I} `{MO : MessageType O} (m : MethodInfo) : Prop :=
  mi_serverStreaming m = false /\ mi_I m = mt_typeName (T := I) /\ mi_O m = mt_typeName (T := O).

Definition streaming_typed (I O : Type) `{MI : MessageType I} `{MO : MessageType O} (m : MethodInfo) : Prop :=
  mi_serverStreaming m = true /\ mi_I m = mt_typeName (T := I) /\ mi_O m = mt_typeName (T := O).

Class TransportLaws {W} (TR : RpcTransport W) (server : far_end W) := {
  law_mergeOptions t o : mergeOptions t o = o;
  (* the far end answers with an encoding of [r] *)
  law_unary (RT : BinaryRuntime) (I O : Type) (MI : MessageType I) (MO : MessageType O)
      (t : Transport) m o (i : I) bs w rs (r : O) w' :
    unary_typed I O m -> legal_metadata (meta o) = true -> toBinary i = Ok bs ->
    fe_unary server (method_path m) (meta o) bs w = (inr rs, w') -> fromBinary rs = Ok r ->
    stackIntercept_unary (O := O) t m o i w = (Ok r, w');
  (* the far end, or the network, ends the call with a status that is not OK *)
  law_unary_failure (RT : BinaryRuntime) (I O : Type) (MI : MessageType I) (MO : MessageType O)
      (t : Transport) m o (i : I) bs w f w' :
    unary_typed I O m -> legal_metadata (meta o) = true -> toBinary i = Ok bs ->
    fe_unary server (method_path m) (meta o) bs w = (inl f, w') ->
    stackIntercept_unary (O := O) t m o i w = (Throw (rpcError f), w');
  (* a request that cannot be serialized never leaves the client: the call ends with
     the status INTERNAL *)
  law_unary_unserializable (RT : BinaryRuntime) (I O : Type) (MI : MessageType I)
      (MO : MessageType O) (t : Transport) m o (i : I) e w :
    unary_typed I O m -> legal_metadata (meta o) = true -> toBinary i = Throw e ->
    exists msg, stackIntercept_unary (O := O) t m o i w
      = (Throw (rpcError (mkFailure (js "INTERNAL") msg)), w);
  (* the responses that arrived, in their order, and the end of the stream *)
  law_stream (RT : BinaryRuntime) (I O : Type) (MI : MessageType I) (MO : MessageType O)
      (t : Transport) m o (i : I) bs w rs (ms : list O) end_ w' :
    streaming_typed I O m -> legal_metadata (meta o) = true -> toBinary i = Ok bs ->
    fe_stream server (method_path m) (meta o) bs w = ((rs, end_), w') ->
    Forall2 (fun r x => fromBinary r = Ok x) rs ms ->
    stackIntercept_serverStreaming (O := O) t m o i w = (Ok (ms, stream_end_of end_), w')
}.

(** Decodes responses up to the first that cannot be decoded. *)
Fixpoint decode_stream {RT : BinaryRuntime} {O : Type} {MO : MessageType O} (rs : list bytes)
    (end_ : stream_end) : list O * stream_end :=
  match rs with
  | [] => ([], end_)
  | r :: rs =>
      match fromBinary r with
      | Ok x => let '(xs, e) := decode_stream rs end_ in (x :: xs, e)
      | Throw _ => ([], Failed (rpcError (mkFailure (js "INTERNAL") (js "Response message parsing error"))))
      | OutOfFuel => ([], Pending)
      end
  end.

Lemma decode_stream_all {RT : BinaryRuntime} {O} {MO : MessageType O} rs (ms : list O) end_ :
  Forall2 (fun r x => fromBinary r = Ok x) rs ms -> decode_stream rs end_ = (ms, end_).
Proof. induction 1 as [|r x rs ms H _ IH]; cbn; [done|]. by rewrite H, IH. Qed.

(** A transport that obeys its documentation, for every far end *)
Definition internal (msg : string) : thrown := rpcError (mkFailure (js "INTERNAL") (js msg)).
Definition illegal_metadata : thrown := newError (js "Metadata string value contains illegal characters").

Definition reference_transport {W} (server : far_end W) : RpcTransport W := {|
  Transport := unit;
  newGrpcTransport _ := tt;
  mergeOptions _ o := o;
  stackIntercept_unary RT I O MI MO _ m o i w :=
    if negb (legal_metadata (meta o)) then (Throw illegal_metadata, w)
    else match toBinary i with
         | Ok bs =>
             match fe_unary server (method_path m) (meta o) bs w with
             | (inr rs, w') => (try_catch (fromBinary rs) (fun _ =>
                 Throw (internal "Response message parsing error")), w')
             | (inl f, w') => (Throw (rpcError f), w')
             end
         | Throw _ => (Throw (internal "Request message serialization failure"), w)
         | OutOfFuel => (OutOfFuel, w)
         end;
  stackIntercept_serverStreaming RT I O MI MO _ m o i w :=
    if negb (legal_metadata (meta o)) then (Throw illegal_metadata, w)
    else match toBinary i with
         | Ok bs =>
             let '((rs, end_), w') := fe_stream server (method_path m) (meta o) bs w in
             (Ok (decode_stream rs (stream_end_of end_)), w')
         | Throw _ => (Throw (internal "Request message serialization failure"), w)
         | OutOfFuel => (OutOfFuel, w)
         end
|}.

#[export] Instance reference_transport_laws {W} (server : far_end W) :
  TransportLaws (reference_transport server) server.
Proof.
  constructor.
  - done.
  - intros * _ Hmd H Hs Hr. cbn -[method_path legal_metadata]. by rewrite Hmd, H, Hs, Hr.
  - intros * _ Hmd H Hs. cbn -[method_path legal_metadata]. by rewrite Hmd, H, Hs.
  - intros * _ Hmd H. cbn -[legal_metadata]. rewrite Hmd, H. by eexists.
  - intros * _ Hmd H Hs Hd. cbn -[method_path legal_metadata]. rewrite Hmd, H, Hs.
    by rewrite (decode_stream_all rs ms).
Qed.

(** One unary call whose request is well formed and whose far end answers with
    the encoding of a response. *)
Lemma unary_delivers {W} {TR : RpcTransport W} {server} {TL : TransportLaws TR server}
    {RT : BinaryRuntime} {L : RuntimeLaws RT}
    {I O} `{LI : LawfulMessage I} `{LO : LawfulMessage O} t m o (i : I) (r : O) w w' :
  unary_typed I O m -> legal_metadata (meta o) = true ->
  mt_wf i -> blen (mt_encode i) < 2 ^ 31 -> mt_wf r -> blen (mt_encode r) < 2 ^ 31 ->
  fe_unary server (method_path m) (meta o) (mt_encode i) w = (inr (mt_encode r), w') ->
  stackIntercept_unary t m o i w = (Ok r, w').
Proof.
  intros Hm Hmd Hi Hil Hr Hrl Hs.
  by apply (law_unary _ I O _ _ t m o i (mt_encode i) w (mt_encode r) r w');
    [..|apply toBinary_encode| |apply fromBinary_encode].
Qed.

Lemma unary_fails {W} {TR : RpcTransport W} {server} {TL : TransportLaws TR server}
    {RT : BinaryRuntime} {L : RuntimeLaws RT}
    {I O} `{LI : LawfulMessage I} `{MO : MessageType O} t m o (i : I) f w w' :
  unary_typed I O m -> legal_metadata (meta o) = true -> mt_wf i -> blen (mt_encode i) < 2 ^ 31 ->
  fe_unary server (method_path m) (meta o) (mt_encode i) w = (inl f, w') ->
  stackIntercept_unary (O := O) t m o i w = (Throw (rpcError f), w').
Proof.
  intros Hm Hmd Hi Hil Hs.
  by apply (law_unary_failure _ I O _ _ t m o i (mt_encode i) w f w'); [..|apply toBinary_encode|].
Qed.
