(* ===== verification/Services.v ===== *)
(** * Service tables and generated clients

    The [ServiceType] constants of [gen/pgapp/v1/*.ts] and the client classes of
    [gen/pgapp/v1/*.client.ts].  A client method looks its description up by
    index and hands it to [stackIntercept] with the options and the request. *)

From Stdlib Require Import ZArith Lia.
From stdpp Require Import base list numbers option strings.
From S2P Require Import Prelude JsString JsNumber WireFormat ProtoRuntime Codec Rpc.
From S2P Require Import CommonMessages HealthMessages CacheMessages MqMessages ConfigMessages.

(** ** [HealthService] *)
Definition HealthService : ServiceType := newServiceType (js "pgapp.v1.HealthService") [
  unary_method HealthRequest.t HealthResponse.t (js "GetHealth");
  unary_method ReadinessRequest.t ReadinessResponse.t (js "GetReadiness");
  unary_method RuntimeMetricsRequest.t RuntimeMetricsResponse.t (js "GetRuntimeMetrics")
].

(** [class HealthServiceClient], for a transport over far-end states [W] *)
Module HealthServiceClient.
Section Client.
Context {W : Type} {TR : RpcTransport W} {RT : BinaryRuntime}.
Variable _transport : Transport.

Definition getHealth (input : HealthRequest.t) (options : RpcOptions) : remote W HealthResponse.t :=
  let method := method_at HealthService 0 in
  let opt := mergeOptions _transport options in
  stackIntercept_unary _transport method opt input.
Definition getReadiness (input : ReadinessRequest.t) (options : RpcOptions) : remote W ReadinessResponse.t :=
  let method := method_at HealthService 1 in
  let opt := mergeOptions _transport options in
  stackIntercept_unary _transport method opt input.
Definition getRuntimeMetrics (input : RuntimeMetricsRequest.t) (options : RpcOptions) : remote W RuntimeMetricsResponse.t :=
  let method := method_at HealthService 2 in
  let opt := mergeOptions _transport options in
  stackIntercept_unary _transport method opt input.

End Client.
End HealthServiceClient.

(** ** [CacheService] *)
Definition CacheService : ServiceType := newServiceType (js "pgapp.v1.CacheService") [
  unary_method SetCacheRequest.t OperationResult.t (js "Set");
  unary_method GetCacheRequest.t GetCacheResponse.t (js "Get");
  unary_method MGetCacheRequest.t MGetCacheResponse.t (js "MGet");
  unary_method DeleteCacheRequest.t OperationResult.t (js "Delete");
  unary_method ExistsCacheRequest.t ExistsCacheResponse.t (js "Exists");
  unary_method InvalidateNamespaceRequest.t OperationResult.t (js "InvalidateNamespace");
  unary_method CacheStatsRequest.t CacheStatsResponse.t (js "Stats");
  unary_method IncrementRequest.t IncrementResponse.t (js "Increment");
  unary_method DecrementRequest.t DecrementResponse.t (js "Decrement");
  unary_method SetNXRequest.t SetNXResponse.t (js "SetNX");
  unary_method GetSetRequest.t GetSetResponse.t (js "GetSet");
  unary_method AppendRequest.t AppendResponse.t (js "Append");
  unary_method PrependRequest.t PrependResponse.t (js "Prepend")
].

(** [class CacheServiceClient], for a transport over far-end states [W] *)
Module CacheServiceClient.
Section Client.
Context {W : Type} {TR : RpcTransport W} {RT : BinaryRuntime}.
Variable _transport : Transport.

Definition set (input : SetCacheRequest.t) (options : RpcOptions) : remote W OperationResult.t :=
  let method := method_at CacheService 0 in
  let opt := mergeOptions _transport options in
  stackIntercept_unary _transport method opt input.
Definition get (input : GetCacheRequest.t) (options : RpcOptions) : remote W GetCacheResponse.t :=
  let method := method_at CacheService 1 in
  let opt := mergeOptions _transport options in
  stackIntercept_unary _transport method opt input.
Definition mGet (input : MGetCacheRequest.t) (options : RpcOptions) : remote W MGetCacheResponse.t :=
  let method := method_at CacheService 2 in
  let opt := mergeOptions _transport options in
  stackIntercept_unary _transport method opt input.
Definition delete (input : DeleteCacheRequest.t) (options : RpcOptions) : remote W OperationResult.t :=
  let method := method_at CacheService 3 in
  let opt := mergeOptions _transport options in
  stackIntercept_unary _transport method opt input.
Definition exists_ (input : ExistsCacheRequest.t) (options : RpcOptions) : remote W ExistsCacheResponse.t :=
  let method := method_at CacheService 4 in
  let opt := mergeOptions _transport options in
  stackIntercept_unary _transport method opt input.
Definition invalidateNamespace (input : InvalidateNamespaceRequest.t) (options : RpcOptions) : remote W OperationResult.t :=
  let method := method_at CacheService 5 in
  let opt := mergeOptions _transport options in
  stackIntercept_unary _transport method opt input.
Definition stats (input : CacheStatsRequest.t) (options : RpcOptions) : remote W CacheStatsResponse.t :=
  let method := method_at CacheService 6 in
  let opt := mergeOptions _transport options in
  stackIntercept_unary _transport method opt input.
Definition increment (input : IncrementRequest.t) (options : RpcOptions) : remote W IncrementResponse.t :=
  let method := method_at CacheService 7 in
  let opt := mergeOptions _transport options in
  stackIntercept_unary _transport method opt input.
Definition decrement (input : DecrementRequest.t) (options : RpcOptions) : remote W DecrementResponse.t :=
  let method := method_at CacheService 8 in
  let opt := mergeOptions _transport options in
  stackIntercept_unary _transport method opt input.
Definition setNX (input : SetNXRequest.t) (options : RpcOptions) : remote W SetNXResponse.t :=
  let method := method_at CacheService 9 in
  let opt := mergeOptions _transport options in
  stackIntercept_unary _transport method opt input.
Definition getSet (input : GetSetRequest.t) (options : RpcOptions) : remote W GetSetResponse.t :=
  let method := method_at CacheService 10 in
  let opt := mergeOptions _transport options in
  stackIntercept_unary _transport method opt input.
Definition append (input : AppendRequest.t) (options : RpcOptions) : remote W AppendResponse.t :=
  let method := method_at CacheService 11 in
  let opt := mergeOptions _transport options in
  stackIntercept_unary _transport method opt input.
Definition prepend (input : PrependRequest.t) (options : RpcOptions) : remote W PrependResponse.t :=
  let method := method_at CacheService 12 in
  let opt := mergeOptions _transport options in
  stackIntercept_unary _transport method opt input.

End Client.
End CacheServiceClient.

(** ** [MQService] *)
Definition MQService : ServiceType := newServiceType (js "pgapp.v1.MQService") [
  unary_method CreateQueueRequest.t OperationResult.t (js "CreateQueue");
  unary_method PurgeQueueRequest.t OperationResult.t (js "PurgeQueue");
  unary_method DropQueueRequest.t OperationResult.t (js "DropQueue");
  unary_method SendMessageRequest.t SendMessageResponse.t (js "Send");
  unary_method SendBatchRequest.t SendBatchResponse.t (js "SendBatch");
  unary_method ReadMessagesRequest.t ReadMessagesResponse.t (js "Read");
  unary_method ReadWithPollRequest.t ReadMessagesResponse.t (js "ReadWithPoll");
  unary_method AckMessageRequest.t OperationResult.t (js "Ack");
  unary_method ArchiveMessageRequest.t OperationResult.t (js "Archive");
  unary_method SetVisibilityTimeoutRequest.t OperationResult.t (js "SetVisibilityTimeout");
  unary_method QueueMetricsRequest.t QueueMetricsResponse.t (js "Metrics");
  unary_method ListDlqMessagesRequest.t ListDlqMessagesResponse.t (js "ListDlqMessages");
  unary_method GetDlqMessageRequest.t DlqMessage.t (js "GetDlqMessage");
  unary_method ReprocessDlqMessageRequest.t OperationResult.t (js "ReprocessDlqMessage");
  unary_method PurgeDlqRequest.t OperationResult.t (js "PurgeDlq");
  streaming_method StreamReadRequest.t ReadMessagesResponse.t (js "StreamRead")
].

(** [class MQServiceClient], for a transport over far-end states [W] *)
Module MQServiceClient.
Section Client.
Context {W : Type} {TR : RpcTransport W} {RT : BinaryRuntime}.
Variable _transport : Transport.

Definition createQueue (input : CreateQueueRequest.t) (options : RpcOptions) : remote W OperationResult.t :=
  let method := method_at MQService 0 in
  let opt := mergeOptions _transport options in
  stackIntercept_unary _transport method opt input.
Definition purgeQueue (input : PurgeQueueRequest.t) (options : RpcOptions) : remote W OperationResult.t :=
  let method := method_at MQService 1 in
  let opt := mergeOptions _transport options in
  stackIntercept_unary _transport method opt input.
Definition dropQueue (input : DropQueueRequest.t) (options : RpcOptions) : remote W OperationResult.t :=
  let method := method_at MQService 2 in
  let opt := mergeOptions _transport options in
  stackIntercept_unary _transport method opt input.
Definition send (input : SendMessageRequest.t) (options : RpcOptions) : remote W SendMessageResponse.t :=
  let method := method_at MQService 3 in
  let opt := mergeOptions _transport options in
  stackIntercept_unary _transport method opt input.
Definition sendBatch (input : SendBatchRequest.t) (options : RpcOptions) : remote W SendBatchResponse.t :=
  let method := method_at MQService 4 in
  let opt := mergeOptions _transport options in
  stackIntercept_unary _transport method opt input.
Definition read (input : ReadMessagesRequest.t) (options : RpcOptions) : remote W ReadMessagesResponse.t :=
  let method := method_at MQService 5 in
  let opt := mergeOptions _transport options in
  stackIntercept_unary _transport method opt input.
Definition readWithPoll (input : ReadWithPollRequest.t) (options : RpcOptions) : remote W ReadMessagesResponse.t :=
  let method := method_at MQService 6 in
  let opt := mergeOptions _transport options in
  stackIntercept_unary _transport method opt input.
Definition ack (input : AckMessageRequest.t) (options : RpcOptions) : remote W OperationResult.t :=
  let method := method_at MQService 7 in
  let opt := mergeOptions _transport options in
  stackIntercept_unary _transport method opt input.
Definition archive (input : ArchiveMessageRequest.t) (options : RpcOptions) : remote W OperationResult.t :=
  let method := method_at MQService 8 in
  let opt := mergeOptions _transport options in
  stackIntercept_unary _transport method opt input.
Definition setVisibilityTimeout (input : SetVisibilityTimeoutRequest.t) (options : RpcOptions) : remote W OperationResult.t :=
  let method := method_at MQService 9 in
  let opt := mergeOptions _transport options in
  stackIntercept_unary _transport method opt input.
Definition metrics (input : QueueMetricsRequest.t) (options : RpcOptions) : remote W QueueMetricsResponse.t :=
  let method := method_at MQService 10 in
  let opt := mergeOptions _transport options in
  stackIntercept_unary _transport method opt input.
Definition listDlqMessages (input : ListDlqMessagesRequest.t) (options : RpcOptions) : remote W ListDlqMessagesResponse.t :=
  let method := method_at MQService 11 in
  let opt := mergeOptions _transport options in
  stackIntercept_unary _transport method opt input.
Definition getDlqMessage (input : GetDlqMessageRequest.t) (options : RpcOptions) : remote W DlqMessage.t :=
  let method := method_at MQService 12 in
  let opt := mergeOptions _transport options in
  stackIntercept_unary _transport method opt input.
Definition reprocessDlqMessage (input : ReprocessDlqMessageRequest.t) (options : RpcOptions) : remote W OperationResult.t :=
  let method := method_at MQService 13 in
  let opt := mergeOptions _transport options in
  stackIntercept_unary _transport method opt input.
Definition purgeDlq (input : PurgeDlqRequest.t) (options : RpcOptions) : remote W OperationResult.t :=
  let method := method_at MQService 14 in
  let opt := mergeOptions _transport options in
  stackIntercept_unary _transport method opt input.
Definition streamRead (input : StreamReadRequest.t) (options : RpcOptions) : remote W (list ReadMessagesResponse.t * stream_end) :=
  let method := method_at MQService 15 in
  let opt := mergeOptions _transport options in
  stackIntercept_serverStreaming _transport method opt input.

End Client.
End MQServiceClient.

(** ** [ConfigService] *)
Definition ConfigService : ServiceType := newServiceType (js "pgapp.v1.ConfigService") [
  unary_method ListConfigScopesRequest.t ListConfigScopesResponse.t (js "ListScopes");
  unary_method UpsertConfigItemRequest.t OperationResult.t (js "UpsertItem");
  unary_method DeleteConfigItemRequest.t OperationResult.t (js "DeleteItem");
  unary_method GetConfigDraftRequest.t ConfigDraftResponse.t (js "GetDraft");
  unary_method PublishConfigRequest.t ConfigRelease.t (js "Publish");
  unary_method GetConfigReleaseRequest.t ConfigRelease.t (js "GetRelease");
  unary_method ListConfigReleasesRequest.t ListConfigReleasesResponse.t (js "ListReleases");
  unary_method WatchConfigRequest.t WatchConfigResponse.t (js "Watch");
  unary_method SetConfigSchemaRequest.t OperationResult.t (js "SetSchema");
  unary_method GetConfigSchemaRequest.t ConfigSchemaResponse.t (js "GetSchema")
].

(** [class ConfigServiceClient], for a transport over far-end states [W] *)
Module ConfigServiceClient.
Section Client.
Context {W : Type} {TR : RpcTransport W} {RT : BinaryRuntime}.
Variable _transport : Transport.

Definition listScopes (input : ListConfigScopesRequest.t) (options : RpcOptions) : remote W ListConfigScopesResponse.t :=
  let method := method_at ConfigService 0 in
  let opt := mergeOptions _transport options in
  stackIntercept_unary _transport method opt input.
Definition upsertItem (input : UpsertConfigItemRequest.t) (options : RpcOptions) : remote W OperationResult.t :=
  let method := method_at ConfigService 1 in
  let opt := mergeOptions _transport options in
  stackIntercept_unary _transport method opt input.
Definition deleteItem (input : DeleteConfigItemRequest.t) (options : RpcOptions) : remote W OperationResult.t :=
  let method := method_at ConfigService 2 in
  let opt := mergeOptions _transport options in
  stackIntercept_unary _transport method opt input.
Definition getDraft (input : GetConfigDraftRequest.t) (options : RpcOptions) : remote W ConfigDraftResponse.t :=
  let method := method_at ConfigService 3 in
  let opt := mergeOptions _transport options in
  stackIntercept_unary _transport method opt input.
Definition publish (input : PublishConfigRequest.t) (options : RpcOptions) : remote W ConfigRelease.t :=
  let method := method_at ConfigService 4 in
  let opt := mergeOptions _transport options in
  stackIntercept_unary _transport method opt input.
Definition getRelease (input : GetConfigReleaseRequest.t) (options : RpcOptions) : remote W ConfigRelease.t :=
  let method := method_at ConfigService 5 in
  let opt := mergeOptions _transport options in
  stackIntercept_unary _transport method opt input.
Definition listReleases (input : ListConfigReleasesRequest.t) (options : RpcOptions) : remote W ListConfigReleasesResponse.t :=
  let method := method_at ConfigService 6 in
  let opt := mergeOptions _transport options in
  stackIntercept_unary _transport method opt input.
Definition watch (input : WatchConfigRequest.t) (options : RpcOptions) : remote W WatchConfigResponse.t :=
  let method := method_at ConfigService 7 in
  let opt := mergeOptions _transport options in
  stackIntercept_unary _transport method opt input.
Definition setSchema (input : SetConfigSchemaRequest.t) (options : RpcOptions) : remote W OperationResult.t :=
  let method := method_at ConfigService 8 in
  let opt := mergeOptions _transport options in
  stackIntercept_unary _transport method opt input.
Definition getSchema (input : GetConfigSchemaRequest.t) (options : RpcOptions) : remote W ConfigSchemaResponse.t :=
  let method := method_at ConfigService 9 in
  let opt := mergeOptions _transport options in
  stackIntercept_unary _transport method opt input.

End Client.
End ConfigServiceClient.

(** ** Bindings *)

(** [lowerCamelCase] of a method name: the client's name for it. *)
Definition localName (s : jsstr) : jsstr :=
  match s with
  | u :: r => (if (65 <=? u) && (u <=? 90) then u + 32 else u) :: r
  | [] => []
  end.

(** The client method called [local] is a unary call of the service's method of
    that name, with the request and response types of the client method. *)
Definition binds_unary {W} {TR : RpcTransport W} {RT : BinaryRuntime} {I O : Type}
    {MI : MessageType I} {MO : MessageType O} (s : ServiceType) (t : Transport)
    (local : jsstr) (f : I -> RpcOptions -> remote W O) : Prop :=
  exists m, m ∈ st_methods s /\ localName (mi_name m) = local /\ unary_typed I O m
    /\ forall i o, f i o = stackIntercept_unary t m (mergeOptions t o) i.

Definition binds_streaming {W} {TR : RpcTransport W} {RT : BinaryRuntime} {I O : Type}
    {MI : MessageType I} {MO : MessageType O} (s : ServiceType) (t : Transport)
    (local : jsstr) (f : I -> RpcOptions -> remote W (list O * stream_end)) : Prop :=
  exists m, m ∈ st_methods s /\ localName (mi_name m) = local
    /\ streaming_typed I O m
    /\ forall i o, f i o = stackIntercept_serverStreaming t m (mergeOptions t o) i.

Lemma method_at_elem s i : (i < length (st_methods s))%nat -> method_at s i ∈ st_methods s.
Proof. intros H. apply list_elem_of_In. by apply nth_In. Qed.

(** Proves a binding from the index the client method uses. *)
Ltac bind_at s i :=
  exists (method_at s i); split; [apply method_at_elem; cbn; lia|]; repeat split; reflexivity.

Lemma HealthService_methods_distinct : NoDup (map mi_name (st_methods HealthService)).
Proof. by apply (bool_decide_unpack _). Qed.

Lemma CacheService_methods_distinct : NoDup (map mi_name (st_methods CacheService)).
Proof. by apply (bool_decide_unpack _). Qed.

Lemma MQService_methods_distinct : NoDup (map mi_name (st_methods MQService)).
Proof. by apply (bool_decide_unpack _). Qed.

Lemma ConfigService_methods_distinct : NoDup (map mi_name (st_methods ConfigService)).
Proof. by apply (bool_decide_unpack _). Qed.
