(* ===== verification/Sdk.v ===== *)
(** * The TypeScript SDK

    [sdk/typescript/src/index.ts]: the error class, the client with its options,
    and the cache, queue and config clients.  A method is a computation on the
    state of the far end: it builds a request, calls the generated client and
    turns the response or the error into what the caller sees. *)

From Stdlib Require Import ZArith Lia.
From stdpp Require Import base list numbers option strings.
From S2P Require Import Prelude JsString JsNumber Json WireFormat ProtoRuntime Codec Rpc.
From S2P Require Import CommonMessages CacheMessages MqMessages ConfigMessages Services.

(** ** Errors *)
Module PGAppError.

(** [new PGAppError(message, code)] *)
Definition new (message : jsstr) (code : propval) : errobj :=
  error_of (js "PGAppError") message code.

(** A string conversion that throws, throws in the code that asks for it. *)
Definition converted (asString : thrown + jsstr) : result jsstr :=
  match asString with inr s => Ok s | inl e => Throw e end.

(** The string the [Error] constructor makes of its message *)
Definition message_text (v : propval) : result jsstr :=
  match v with
  | PUndefined => Ok (js "")
  | PString s => Ok s
  | PNumber z => Ok (Decimal.of_Z z)
  | POther asString => converted asString
  end.

(** [PGAppError.from(error)].  The first test reads a property, which throws on
    [null] and [undefined]; [String(error)] and the constructor convert values
    that can refuse. *)
Definition from (error : thrown) : result errobj :=
  match error with
  | ThrownNullish asString =>
      Throw (TypeErrorOf (js "Cannot read properties of " ++ asString ++ js " (reading 'message')"))
  | ThrownObject o =>
      match eo_message o with
      | PString message => Ok (new message (eo_code o))
      | other =>
          text ← (if eo_isError o then message_text other else converted (eo_asString o));
          Ok (new text PUndefined)
      end
  | ThrownPrimitive s => Ok (new s PUndefined)
  end.

(** [throw PGAppError.from(error)] *)
Definition rethrow (error : thrown) : thrown :=
  match from error with
  | Ok o => ThrownObject o
  | Throw e => e
  | OutOfFuel => error
  end.

End PGAppError.

(** [wrap(fn)] of the three clients *)
Definition wrap {W A} (fn : remote W A) : remote W A := fun w =>
  match fn w with
  | (Throw error, w) => (Throw (PGAppError.rethrow error), w)
  | r => r
  end.

(** ** The client *)
Record Credentials := mkCredentials { cred_key : jsstr; cred_secret : jsstr }.

Record PGAppClientOptions := mkOptions {
  opt_timeoutMs : option number;
  opt_credentials : option Credentials
}.

(** A value to store: [Uint8Array | string] *)
Inductive BytesOrString :=
  | VBytes (b : bytes)
  | VString (s : jsstr).

Definition encodeBytes (value : BytesOrString) : bytes :=
  match value with
  | VString s => Utf.encode s
  | VBytes b => b
  end.

(** [String(n)] of an argument with a default *)
Definition StringOr (n : option number) (d : Z) : jsstr :=
  Num.toString (default (Num.of_Z d) n).

Module PGAppClient.
Section Client.
Context {W : Type} {TR : RpcTransport W}.

(** The fields of the class; the three sub-clients share the transport. *)
Record t := mk {
  endpoint : jsstr;
  timeoutMs : option number;
  credentials : option Credentials;
  transport : Transport
}.

(** The constructor *)
Definition new (endpoint : option jsstr) (options : option PGAppClientOptions) : t :=
  let endpoint := default (js "127.0.0.1:50051") endpoint in
  let options := default (mkOptions None None) options in
  {| endpoint := endpoint;
     timeoutMs := opt_timeoutMs options;
     credentials := opt_credentials options;
     transport := newGrpcTransport endpoint |}.

Definition rpcOptions (this : t) : RpcOptions :=
  let meta := match credentials this with
              | Some c => [(js "x-pgapp-key", cred_key c); (js "x-pgapp-secret", cred_secret c)]
              | None => []
              end in
  {| meta := meta; timeout := timeoutMs this |}.
End Client.
End PGAppClient.

(** ** The cache client *)
Module CacheClient.
Section Client.
Context {W : Type} {TR : RpcTransport W} {RT : BinaryRuntime}.
Variable client : PGAppClient.t.

#[local] Abbreviation inner f := (f (PGAppClient.transport client)).
#[local] Abbreviation options := (PGAppClient.rpcOptions client).

Definition set (namespace key : jsstr) (value : BytesOrString) (ttlSeconds : option number) : remote W bool :=
  wrap (response ← inner CacheServiceClient.set
          (SetCacheRequest.create (Some (SetCacheRequest.mkPartial
             (Some namespace) (Some key) (Some (encodeBytes value)) (Some (StringOr ttlSeconds 0)))))
          options;
        mret (OperationResult.success response)).

Definition get (namespace key : jsstr) : remote W (option bytes) :=
  wrap (response ← inner CacheServiceClient.get
          (GetCacheRequest.create (Some (GetCacheRequest.mkPartial (Some namespace) (Some key)))) options;
        mret (if GetCacheResponse.hit response then Some (GetCacheResponse.value response) else None)).

Definition mget (namespace : jsstr) (keys : list jsstr) : remote W (list CacheItem.t) :=
  wrap (response ← inner CacheServiceClient.mGet
          (MGetCacheRequest.create (Some (MGetCacheRequest.mkPartial (Some namespace) (Some keys)))) options;
        mret (MGetCacheResponse.items response)).

Definition delete (namespace key : jsstr) : remote W bool :=
  wrap (response ← inner CacheServiceClient.delete
          (DeleteCacheRequest.create (Some (DeleteCacheRequest.mkPartial (Some namespace) (Some key)))) options;
        mret (OperationResult.success response)).

Definition exists_ (namespace key : jsstr) : remote W bool :=
  wrap (response ← inner CacheServiceClient.exists_
          (ExistsCacheRequest.create (Some (ExistsCacheRequest.mkPartial (Some namespace) (Some key)))) options;
        mret (ExistsCacheResponse.exists_ response)).

Definition invalidateNamespace (namespace : jsstr) : remote W bool :=
  wrap (response ← inner CacheServiceClient.invalidateNamespace
          (InvalidateNamespaceRequest.create (Some (InvalidateNamespaceRequest.mkPartial (Some namespace)))) options;
        mret (OperationResult.success response)).

Definition stats : remote W CacheStatsResponse.t :=
  wrap (response ← inner CacheServiceClient.stats (CacheStatsRequest.create None) options;
        mret response).

Definition increment (namespace key : jsstr) (delta ttlSeconds : option number) : remote W number :=
  wrap (response ← inner CacheServiceClient.increment
          (IncrementRequest.create (Some (IncrementRequest.mkPartial
             (Some namespace) (Some key) (Some (StringOr delta 1)) (Some (StringOr ttlSeconds 0))))) options;
        mret (Num.of_string (IncrementResponse.value response))).

Definition decrement (namespace key : jsstr) (delta ttlSeconds : option number) : remote W number :=
  wrap (response ← inner CacheServiceClient.decrement
          (DecrementRequest.create (Some (DecrementRequest.mkPartial
             (Some namespace) (Some key) (Some (StringOr delta 1)) (Some (StringOr ttlSeconds 0))))) options;
        mret (Num.of_string (DecrementResponse.value response))).

Definition setNX (namespace key : jsstr) (value : BytesOrString) (ttlSeconds : option number) : remote W bool :=
  wrap (response ← inner CacheServiceClient.setNX
          (SetNXRequest.create (Some (SetNXRequest.mkPartial
             (Some namespace) (Some key) (Some (encodeBytes value)) (Some (StringOr ttlSeconds 0))))) options;
        mret (SetNXResponse.created response)).

Definition getSet (namespace key : jsstr) (value : BytesOrString) (ttlSeconds : option number) : remote W (option bytes) :=
  wrap (response ← inner CacheServiceClient.getSet
          (GetSetRequest.create (Some (GetSetRequest.mkPartial
             (Some namespace) (Some key) (Some (encodeBytes value)) (Some (StringOr ttlSeconds 0))))) options;
        mret (if GetSetResponse.hit response then Some (GetSetResponse.oldValue response) else None)).

Definition append (namespace key : jsstr) (value : BytesOrString) (ttlSeconds : option number) : remote W number :=
  wrap (response ← inner CacheServiceClient.append
          (AppendRequest.create (Some (AppendRequest.mkPartial
             (Some namespace) (Some key) (Some (encodeBytes value)) (Some (StringOr ttlSeconds 0))))) options;
        mret (Num.of_string (AppendResponse.length_ response))).

Definition prepend (namespace key : jsstr) (value : BytesOrString) (ttlSeconds : option number) : remote W number :=
  wrap (response ← inner CacheServiceClient.prepend
          (PrependRequest.create (Some (PrependRequest.mkPartial
             (Some namespace) (Some key) (Some (encodeBytes value)) (Some (StringOr ttlSeconds 0))))) options;
        mret (Num.of_string (PrependResponse.length_ response))).
End Client.
End CacheClient.

(** ** The queue client *)
Module MQClient.
Section Client.
Context {W : Type} {TR : RpcTransport W} {RT : BinaryRuntime}.
Variable client : PGAppClient.t.

#[local] Abbreviation inner f := (f (PGAppClient.transport client)).
#[local] Abbreviation options := (PGAppClient.rpcOptions client).

Definition createQueue (queueName : jsstr) (storageMode : option number) : remote W bool :=
  wrap (response ← inner MQServiceClient.createQueue
          (CreateQueueRequest.create (Some (CreateQueueRequest.mkPartial
             (Some queueName) (Some (default QueueStorageMode.DURABLE storageMode))))) options;
        mret (OperationResult.success response)).

Definition purgeQueue (queueName : jsstr) : remote W bool :=
  wrap (response ← inner MQServiceClient.purgeQueue
          (PurgeQueueRequest.create (Some (PurgeQueueRequest.mkPartial (Some queueName)))) options;
        mret (OperationResult.success response)).

Definition dropQueue (queueName : jsstr) : remote W bool :=
  wrap (response ← inner MQServiceClient.dropQueue
          (DropQueueRequest.create (Some (DropQueueRequest.mkPartial (Some queueName)))) options;
        mret (OperationResult.success response)).

Definition sendJson (queueName : jsstr) (payload : json) (delaySeconds : option number) : remote W number :=
  wrap (response ← inner MQServiceClient.send
          (SendMessageRequest.create (Some (SendMessageRequest.mkPartial
             (Some queueName) (Some (Json.stringify payload)) (Some (StringOr delaySeconds 0))))) options;
        mret (Num.of_string (SendMessageResponse.messageId response))).

Definition sendBatchJson (queueName : jsstr) (payloads : list json) (delaySeconds : option number)
    : remote W (list number) :=
  wrap (response ← inner MQServiceClient.sendBatch
          (SendBatchRequest.create (Some (SendBatchRequest.mkPartial
             (Some queueName) (Some (map Json.stringify payloads)) (Some (StringOr delaySeconds 0))))) options;
        mret (map Num.of_string (SendBatchResponse.messageIds response))).

Definition read (queueName : jsstr) (quantity visibilityTimeoutSeconds : option number)
    : remote W (list QueueMessage.t) :=
  wrap (response ← inner MQServiceClient.read
          (ReadMessagesRequest.create (Some (ReadMessagesRequest.mkPartial
             (Some queueName) (Some (default (Num.of_Z 1) quantity))
             (Some (StringOr visibilityTimeoutSeconds 30))))) options;
        mret (ReadMessagesResponse.messages response)).

Definition readWithPoll (queueName : jsstr)
    (quantity visibilityTimeoutSeconds maxPollSeconds pollIntervalMillis : option number)
    : remote W (list QueueMessage.t) :=
  wrap (response ← inner MQServiceClient.readWithPoll
          (ReadWithPollRequest.create (Some (ReadWithPollRequest.mkPartial
             (Some queueName) (Some (default (Num.of_Z 1) quantity))
             (Some (StringOr visibilityTimeoutSeconds 30))
             (Some (StringOr maxPollSeconds 10))
             (Some (StringOr pollIntervalMillis 100))))) options;
        mret (ReadMessagesResponse.messages response)).

Definition ack (queueName : jsstr) (messageId : number) (ackToken : jsstr) : remote W bool :=
  wrap (response ← inner MQServiceClient.ack
          (AckMessageRequest.create (Some (AckMessageRequest.mkPartial
             (Some queueName) (Some (Num.toString messageId)) (Some ackToken)))) options;
        mret (OperationResult.success response)).

Definition archive (queueName : jsstr) (messageId : number) (ackToken : jsstr) : remote W bool :=
  wrap (response ← inner MQServiceClient.archive
          (ArchiveMessageRequest.create (Some (ArchiveMessageRequest.mkPartial
             (Some queueName) (Some (Num.toString messageId)) (Some ackToken)))) options;
        mret (OperationResult.success response)).

Definition setVisibilityTimeout (queueName : jsstr) (messageId : number) (ackToken : jsstr)
    (visibilityTimeoutSeconds : number) : remote W bool :=
  wrap (response ← inner MQServiceClient.setVisibilityTimeout
          (SetVisibilityTimeoutRequest.create (Some (SetVisibilityTimeoutRequest.mkPartial
             (Some queueName) (Some (Num.toString messageId))
             (Some (Num.toString visibilityTimeoutSeconds)) (Some ackToken)))) options;
        mret (OperationResult.success response)).

Definition metrics (queueName : jsstr) : remote W QueueMetricsResponse.t :=
  wrap (response ← inner MQServiceClient.metrics
          (QueueMetricsRequest.create (Some (QueueMetricsRequest.mkPartial (Some queueName)))) options;
        mret response).

Definition listDlqMessages (queueName : jsstr) (limit offset : option number)
    : remote W (list DlqMessage.t) :=
  wrap (response ← inner MQServiceClient.listDlqMessages
          (ListDlqMessagesRequest.create (Some (ListDlqMessagesRequest.mkPartial
             (Some queueName) (Some (default (Num.of_Z 100) limit)) (Some (StringOr offset 0))))) options;
        mret (ListDlqMessagesResponse.messages response)).

Definition getDlqMessage (queueName : jsstr) (originalMessageId : number) : remote W DlqMessage.t :=
  wrap (response ← inner MQServiceClient.getDlqMessage
          (GetDlqMessageRequest.create (Some (GetDlqMessageRequest.mkPartial
             (Some queueName) (Some (Num.toString originalMessageId))))) options;
        mret response).

Definition reprocessDlqMessage (queueName : jsstr) (originalMessageId : number) : remote W bool :=
  wrap (response ← inner MQServiceClient.reprocessDlqMessage
          (ReprocessDlqMessageRequest.create (Some (ReprocessDlqMessageRequest.mkPartial
             (Some queueName) (Some (Num.toString originalMessageId))))) options;
        mret (OperationResult.success response)).

Definition purgeDlq (queueName : jsstr) : remote W bool :=
  wrap (response ← inner MQServiceClient.purgeDlq
          (PurgeDlqRequest.create (Some (PurgeDlqRequest.mkPartial (Some queueName)))) options;
        mret (OperationResult.success response)).

(** [options] of [streamRead] *)
Record StreamOptions := mkStreamOptions {
  so_quantity : option number;
  so_visibilityTimeoutSeconds : option number
}.

(** The async generator, consumed to where the response stream has come: what
    it yielded, in order, and how it ended. *)
Definition streamRead (queueName : jsstr) (options_ : option StreamOptions)
    : remote W (list QueueMessage.t * stream_end) := fun w =>
  let options_ := default (mkStreamOptions None None) options_ in
  let request := StreamReadRequest.create (Some (StreamReadRequest.mkPartial
        (Some queueName) (Some (default (Num.of_Z 1) (so_quantity options_)))
        (Some (StringOr (so_visibilityTimeoutSeconds options_) 30)))) in
  match inner MQServiceClient.streamRead request options w with
  | (Ok (responses, end_), w) =>
      (Ok (flat_map ReadMessagesResponse.messages responses,
           match end_ with
           | Failed error => Failed (PGAppError.rethrow error)
           | _ => end_
           end), w)
  | (Throw error, w) => (Ok ([], Failed (PGAppError.rethrow error)), w)
  | (OutOfFuel, w) => (OutOfFuel, w)
  end.
End Client.
End MQClient.

(** ** The config client *)
Record ConfigReleaseSnapshot := mkSnapshot {
  crs_scope : option ConfigScope.t;
  crs_revision : number;
  crs_checksum : jsstr;
  crs_snapshot : json;
  crs_message : jsstr;
  crs_publishedBy : jsstr;
  crs_publishedAt : jsstr
}.

Record ConfigWatchResult := mkWatchResult {
  cwr_changed : bool;
  cwr_latestRevision : number;
  cwr_release : option ConfigReleaseSnapshot
}.

(** [release.snapshotJson || "{}"]: the empty string is falsy. *)
Definition releaseSnapshot (release : ConfigRelease.t) : result ConfigReleaseSnapshot :=
  let text := ConfigRelease.snapshotJson release in
  snapshot ← Json.parse (if bool_decide (text = []) then js "{}" else text);
  Ok {| crs_scope := ConfigRelease.scope release;
        crs_revision := Num.of_string (ConfigRelease.revision release);
        crs_checksum := ConfigRelease.checksum release;
        crs_snapshot := snapshot;
        crs_message := ConfigRelease.message_ release;
        crs_publishedBy := ConfigRelease.publishedBy release;
        crs_publishedAt := ConfigRelease.publishedAt release |}.

(** Local code inside a remote computation *)
Definition local {W A} (r : result A) : remote W A := fun w => (r, w).

Module ConfigClient.
Section Client.
Context {W : Type} {TR : RpcTransport W} {RT : BinaryRuntime}.
Variable client : PGAppClient.t.

#[local] Abbreviation inner f := (f (PGAppClient.transport client)).
#[local] Abbreviation options := (PGAppClient.rpcOptions client).

Definition scope (appId environment cluster namespace : jsstr) : ConfigScope.t :=
  ConfigScope.create (Some (ConfigScope.mkPartial
    (Some appId) (Some environment) (Some cluster) (Some namespace))).

Definition getRelease (scope : ConfigScope.t) (revision : number) : remote W ConfigReleaseSnapshot :=
  wrap (response ← inner ConfigServiceClient.getRelease
          (GetConfigReleaseRequest.create (Some (GetConfigReleaseRequest.mkPartial
             (Some (ConfigScope.as_partial scope)) (Some (Num.toString revision))))) options;
        local (releaseSnapshot response)).

Definition getLatestRelease (scope : ConfigScope.t) : remote W ConfigReleaseSnapshot :=
  getRelease scope (Num.of_Z 0).

Definition watch (scope : ConfigScope.t) (knownRevision timeoutSeconds : number)
    : remote W ConfigWatchResult :=
  wrap (response ← inner ConfigServiceClient.watch
          (WatchConfigRequest.create (Some (WatchConfigRequest.mkPartial
             (Some (ConfigScope.as_partial scope)) (Some (Num.toString knownRevision))
             (Some (Num.toString timeoutSeconds))))) options;
        release ← match WatchConfigResponse.release response with
                  | Some release => Some <$> local (releaseSnapshot release)
                  | None => mret None
                  end;
        mret {| cwr_changed := WatchConfigResponse.changed response;
                cwr_latestRevision := Num.of_string (WatchConfigResponse.latestRevision response);
                cwr_release := release |}).
End Client.
End ConfigClient.
