(* ===== verification/Contracts.v ===== *)
(** * Service contracts

    What a far end promises to the SDK: a handler per method, at the path of the
    method, on the encodings of well-formed requests and responses.  The theorems on
    the SDK are proved against these interfaces; [reference_far_end] provides
    them for given handlers. *)

From Stdlib Require Import ZArith Lia.
From stdpp Require Import base list numbers option strings.
From S2P Require Import Prelude JsString JsNumber Json WireFormat ProtoRuntime Codec ReferenceRuntime Rpc.
From S2P Require Import CommonMessages CacheMessages MqMessages ConfigMessages Services Sdk.

(** ** Handlers *)

(** A service method: metadata and request to a failure or a response, and the new
    state of the far end. *)
Definition handler (W I O : Type) : Type :=
  list (jsstr * jsstr) -> I -> W -> (GrpcFailure + O) * W.

(** A message that fits a gRPC frame and whose fields hold values of their types *)
Definition sendable `{M : MessageType T} (m : T) : Prop := mt_wf m /\ blen (mt_encode m) < 2 ^ 31.

(** At [path], the far end does what [h] does. *)
Definition answers {W I O} {MI : MessageType I} {MO : MessageType O} (server : far_end W)
    (path : jsstr) (h : handler W I O) : Prop :=
  forall md (q : I) w, sendable q ->
    match h md q w with
    | (inr r, w') => sendable r /\ fe_unary server path md (mt_encode q) w = (inr (mt_encode r), w')
    | (inl f, w') => fe_unary server path md (mt_encode q) w = (inl f, w')
    end.

(** The cache service, and that a far end provides it at the paths of the
    protocol definition *)
Record CacheContract (W : Type) := {
  cc_set : handler W SetCacheRequest.t OperationResult.t;
  cc_get : handler W GetCacheRequest.t GetCacheResponse.t;
  cc_mGet : handler W MGetCacheRequest.t MGetCacheResponse.t;
  cc_delete : handler W DeleteCacheRequest.t OperationResult.t;
  cc_exists : handler W ExistsCacheRequest.t ExistsCacheResponse.t;
  cc_invalidateNamespace : handler W InvalidateNamespaceRequest.t OperationResult.t;
  cc_stats : handler W CacheStatsRequest.t CacheStatsResponse.t;
  cc_increment : handler W IncrementRequest.t IncrementResponse.t;
  cc_decrement : handler W DecrementRequest.t DecrementResponse.t;
  cc_setNX : handler W SetNXRequest.t SetNXResponse.t;
  cc_getSet : handler W GetSetRequest.t GetSetResponse.t;
  cc_append : handler W AppendRequest.t AppendResponse.t;
  cc_prepend : handler W PrependRequest.t PrependResponse.t
}.
Arguments cc_set {W} _.
Arguments cc_get {W} _.
Arguments cc_mGet {W} _.
Arguments cc_delete {W} _.
Arguments cc_exists {W} _.
Arguments cc_invalidateNamespace {W} _.
Arguments cc_stats {W} _.
Arguments cc_increment {W} _.
Arguments cc_decrement {W} _.
Arguments cc_setNX {W} _.
Arguments cc_getSet {W} _.
Arguments cc_append {W} _.
Arguments cc_prepend {W} _.

Class ServesCache {W} (server : far_end W) (c : CacheContract W) : Prop := {
  serves_cc_set : answers server (js "/pgapp.v1.CacheService/Set") (cc_set c);
  serves_cc_get : answers server (js "/pgapp.v1.CacheService/Get") (cc_get c);
  serves_cc_mGet : answers server (js "/pgapp.v1.CacheService/MGet") (cc_mGet c);
  serves_cc_delete : answers server (js "/pgapp.v1.CacheService/Delete") (cc_delete c);
  serves_cc_exists : answers server (js "/pgapp.v1.CacheService/Exists") (cc_exists c);
  serves_cc_invalidateNamespace : answers server (js "/pgapp.v1.CacheService/InvalidateNamespace") (cc_invalidateNamespace c);
  serves_cc_stats : answers server (js "/pgapp.v1.CacheService/Stats") (cc_stats c);
  serves_cc_increment : answers server (js "/pgapp.v1.CacheService/Increment") (cc_increment c);
  serves_cc_decrement : answers server (js "/pgapp.v1.CacheService/Decrement") (cc_decrement c);
  serves_cc_setNX : answers server (js "/pgapp.v1.CacheService/SetNX") (cc_setNX c);
  serves_cc_getSet : answers server (js "/pgapp.v1.CacheService/GetSet") (cc_getSet c);
  serves_cc_append : answers server (js "/pgapp.v1.CacheService/Append") (cc_append c);
  serves_cc_prepend : answers server (js "/pgapp.v1.CacheService/Prepend") (cc_prepend c)
}.
#[export] Hint Resolve serves_cc_set serves_cc_get serves_cc_mGet serves_cc_delete serves_cc_exists serves_cc_invalidateNamespace serves_cc_stats serves_cc_increment serves_cc_decrement serves_cc_setNX serves_cc_getSet serves_cc_append serves_cc_prepend : pgapp.

(** The queue service, and that a far end provides it at the paths of the
    protocol definition *)
Record MQContract (W : Type) := {
  qc_createQueue : handler W CreateQueueRequest.t OperationResult.t;
  qc_purgeQueue : handler W PurgeQueueRequest.t OperationResult.t;
  qc_dropQueue : handler W DropQueueRequest.t OperationResult.t;
  qc_send : handler W SendMessageRequest.t SendMessageResponse.t;
  qc_sendBatch : handler W SendBatchRequest.t SendBatchResponse.t;
  qc_read : handler W ReadMessagesRequest.t ReadMessagesResponse.t;
  qc_readWithPoll : handler W ReadWithPollRequest.t ReadMessagesResponse.t;
  qc_ack : handler W AckMessageRequest.t OperationResult.t;
  qc_archive : handler W ArchiveMessageRequest.t OperationResult.t;
  qc_setVisibilityTimeout : handler W SetVisibilityTimeoutRequest.t OperationResult.t;
  qc_metrics : handler W QueueMetricsRequest.t QueueMetricsResponse.t;
  qc_listDlqMessages : handler W ListDlqMessagesRequest.t ListDlqMessagesResponse.t;
  qc_getDlqMessage : handler W GetDlqMessageRequest.t DlqMessage.t;
  qc_reprocessDlqMessage : handler W ReprocessDlqMessageRequest.t OperationResult.t;
  qc_purgeDlq : handler W PurgeDlqRequest.t OperationResult.t
}.
Arguments qc_createQueue {W} _.
Arguments qc_purgeQueue {W} _.
Arguments qc_dropQueue {W} _.
Arguments qc_send {W} _.
Arguments qc_sendBatch {W} _.
Arguments qc_read {W} _.
Arguments qc_readWithPoll {W} _.
Arguments qc_ack {W} _.
Arguments qc_archive {W} _.
Arguments qc_setVisibilityTimeout {W} _.
Arguments qc_metrics {W} _.
Arguments qc_listDlqMessages {W} _.
Arguments qc_getDlqMessage {W} _.
Arguments qc_reprocessDlqMessage {W} _.
Arguments qc_purgeDlq {W} _.

Class ServesMQ {W} (server : far_end W) (c : MQContract W) : Prop := {
  serves_qc_createQueue : answers server (js "/pgapp.v1.MQService/CreateQueue") (qc_createQueue c);
  serves_qc_purgeQueue : answers server (js "/pgapp.v1.MQService/PurgeQueue") (qc_purgeQueue c);
  serves_qc_dropQueue : answers server (js "/pgapp.v1.MQService/DropQueue") (qc_dropQueue c);
  serves_qc_send : answers server (js "/pgapp.v1.MQService/Send") (qc_send c);
  serves_qc_sendBatch : answers server (js "/pgapp.v1.MQService/SendBatch") (qc_sendBatch c);
  serves_qc_read : answers server (js "/pgapp.v1.MQService/Read") (qc_read c);
  serves_qc_readWithPoll : answers server (js "/pgapp.v1.MQService/ReadWithPoll") (qc_readWithPoll c);
  serves_qc_ack : answers server (js "/pgapp.v1.MQService/Ack") (qc_ack c);
  serves_qc_archive : answers server (js "/pgapp.v1.MQService/Archive") (qc_archive c);
  serves_qc_setVisibilityTimeout : answers server (js "/pgapp.v1.MQService/SetVisibilityTimeout") (qc_setVisibilityTimeout c);
  serves_qc_metrics : answers server (js "/pgapp.v1.MQService/Metrics") (qc_metrics c);
  serves_qc_listDlqMessages : answers server (js "/pgapp.v1.MQService/ListDlqMessages") (qc_listDlqMessages c);
  serves_qc_getDlqMessage : answers server (js "/pgapp.v1.MQService/GetDlqMessage") (qc_getDlqMessage c);
  serves_qc_reprocessDlqMessage : answers server (js "/pgapp.v1.MQService/ReprocessDlqMessage") (qc_reprocessDlqMessage c);
  serves_qc_purgeDlq : answers server (js "/pgapp.v1.MQService/PurgeDlq") (qc_purgeDlq c)
}.
#[export] Hint Resolve serves_qc_createQueue serves_qc_purgeQueue serves_qc_dropQueue serves_qc_send serves_qc_sendBatch serves_qc_read serves_qc_readWithPoll serves_qc_ack serves_qc_archive serves_qc_setVisibilityTimeout serves_qc_metrics serves_qc_listDlqMessages serves_qc_getDlqMessage serves_qc_reprocessDlqMessage serves_qc_purgeDlq : pgapp.

(** The config service, and that a far end provides it at the paths of the
    protocol definition *)
Record ConfigContract (W : Type) := {
  gc_getRelease : handler W GetConfigReleaseRequest.t ConfigRelease.t;
  gc_watch : handler W WatchConfigRequest.t WatchConfigResponse.t
}.
Arguments gc_getRelease {W} _.
Arguments gc_watch {W} _.

Class ServesConfig {W} (server : far_end W) (c : ConfigContract W) : Prop := {
  serves_gc_getRelease : answers server (js "/pgapp.v1.ConfigService/GetRelease") (gc_getRelease c);
  serves_gc_watch : answers server (js "/pgapp.v1.ConfigService/Watch") (gc_watch c)
}.
#[export] Hint Resolve serves_gc_getRelease serves_gc_watch : pgapp.

(** The streaming method of the queue service *)
Definition stream_handler (W I O : Type) : Type :=
  list (jsstr * jsstr) -> I -> W -> (list O * option (option GrpcFailure)) * W.

Definition streams {W I O} {MI : MessageType I} {MO : MessageType O} (server : far_end W)
    (path : jsstr) (h : stream_handler W I O) : Prop :=
  forall md (q : I) w, sendable q ->
    let '((rs, end_), w') := h md q w in
    Forall sendable rs
    /\ fe_stream server path md (mt_encode q) w = ((map mt_encode rs, end_), w').

(** ** A call of the SDK against a handler *)

(** What the caller of an SDK method sees: the view [g] of the response, or a
    [PGAppError] with the message and the code of the failed call or with the
    message of the exception [g] raised. *)
Definition outcome {W O A} (g : O -> result A) (x : (GrpcFailure + O) * W) : result A * W :=
  match x with
  | (inr r, w) => (try_catch (g r) (fun e => Throw (PGAppError.rethrow e)), w)
  | (inl f, w) => (Throw (ThrownObject (PGAppError.new (gf_message f) (PString (gf_code f)))), w)
  end.

(** The metadata a client owes the service: its key and its secret, or nothing *)
Definition sent_metadata {W} {TR : RpcTransport W} (client : PGAppClient.t) : list (jsstr * jsstr) :=
  match PGAppClient.credentials client with
  | Some c => [(js "x-pgapp-key", cred_key c); (js "x-pgapp-secret", cred_secret c)]
  | None => []
  end.

(** Credentials gRPC admits and carries unchanged; none are. *)
Definition presentable (c : option Credentials) : bool :=
  match c with
  | Some c => legal_value (cred_key c) && legal_value (cred_secret c)
  | None => true
  end.

Lemma presentable_legal {W} {TR : RpcTransport W} (client : PGAppClient.t) :
  presentable (PGAppClient.credentials client) = true ->
  legal_metadata (meta (PGAppClient.rpcOptions client)) = true.
Proof.
  unfold PGAppClient.rpcOptions. destruct (PGAppClient.credentials client) as [c|]; [|done].
  cbn -[legal_key legal_value js]. intros [-> ->]%andb_true_iff. done.
Qed.

Section Calls.
Context {W : Type} {TR : RpcTransport W} {server : far_end W} {TL : TransportLaws TR server}.
Context {RT : BinaryRuntime} {L : RuntimeLaws RT}.

Lemma call_refines {I O A} `{LI : LawfulMessage I} `{LO : LawfulMessage O} (client : PGAppClient.t)
    (m : MethodInfo) path (h : handler W I O) (k : O -> remote W A) (g : O -> result A) (q : I) w :
  presentable (PGAppClient.credentials client) = true ->
  unary_typed I O m -> method_path m = path -> answers server path h -> sendable q ->
  (forall r w, k r w = (g r, w)) ->
  wrap (response ← stackIntercept_unary (PGAppClient.transport client) m
          (mergeOptions (PGAppClient.transport client) (PGAppClient.rpcOptions client)) q;
        k response) w
  = outcome g (h (sent_metadata client) q w).
Proof.
  intros Hcred Hm <- Hh [Hq Hlen] Hk. specialize (Hh (sent_metadata client) q w (conj Hq Hlen)).
  pose proof (presentable_legal client Hcred) as Hmd.
  rewrite law_mergeOptions. unfold wrap, mbind, remote_bind.
  destruct (h _ q w) as [[f|r] w'].
  - by rewrite (unary_fails _ _ _ _ f w w') by done.
  - destruct Hh as [[Hr Hrlen] Hs]. rewrite (unary_delivers _ _ _ _ r w w') by done.
    rewrite Hk. cbn. by destruct (g r).
Qed.

(** The same for a response that is viewed without failing *)
Lemma call_refines_ret {I O A} `{LI : LawfulMessage I} `{LO : LawfulMessage O} (client : PGAppClient.t)
    (m : MethodInfo) path (h : handler W I O) (g : O -> A) (q : I) w :
  presentable (PGAppClient.credentials client) = true ->
  unary_typed I O m -> method_path m = path -> answers server path h -> sendable q ->
  wrap (response ← stackIntercept_unary (PGAppClient.transport client) m
          (mergeOptions (PGAppClient.transport client) (PGAppClient.rpcOptions client)) q;
        mret (g response)) w
  = outcome (fun r => Ok (g r)) (h (sent_metadata client) q w).
Proof. intros. by apply (call_refines client m path h (fun r => mret (g r)) (fun r => Ok (g r))). Qed.
End Calls.

(** ** A far end for given handlers *)
Section Reference.
Context {W : Type}.

Definition unimplemented : GrpcFailure := mkFailure (js "UNIMPLEMENTED") (js "unknown method").
Definition undecodable : GrpcFailure := mkFailure (js "INTERNAL") (js "request cannot be decoded").

Definition route : Type := jsstr * (list (jsstr * jsstr) -> bytes -> W -> (GrpcFailure + bytes) * W).

Definition route_for {I O} {MI : MessageType I} {MO : MessageType O} (path : jsstr)
    (h : handler W I O) : route :=
  (path, fun md bs w =>
     match fromBinary (RT := reference_runtime) bs with
     | Ok q => match h md q w with
               | (inr r, w') => (inr (mt_encode r), w')
               | (inl f, w') => (inl f, w')
               end
     | _ => (inl undecodable, w)
     end).

Fixpoint dispatch (routes : list route) (path : jsstr) (md : list (jsstr * jsstr)) (bs : bytes) (w : W)
    : (GrpcFailure + bytes) * W :=
  match routes with
  | [] => (inl unimplemented, w)
  | (p, f) :: routes => if bool_decide (path = p) then f md bs w else dispatch routes path md bs w
  end.

Definition reference_far_end (routes : list route)
    (stream : jsstr -> list (jsstr * jsstr) -> bytes -> W -> (list bytes * option (option GrpcFailure)) * W)
    : far_end W := mkFarEnd W (dispatch routes) stream.

Lemma dispatch_answers {I O} `{LI : LawfulMessage I} `{LO : LawfulMessage O} routes stream path
    (h : handler W I O) :
  (forall md bs w, dispatch routes path md bs w = snd (route_for path h) md bs w) ->
  (forall md q w r w', h md q w = (inr r, w') -> sendable r) ->
  answers (reference_far_end routes stream) path h.
Proof.
  intros Hd Hr md q w [Hq Hlen]. cbn [fe_unary reference_far_end]. rewrite Hd. cbn [snd route_for].
  rewrite (fromBinary_encode (L := reference_laws) q Hq Hlen).
  destruct (h md q w) as [[f|r] w'] eqn:E; [done|]. split; [by eapply Hr|done].
Qed.
End Reference.
