(* ===== verification/SdkTheorems.v ===== *)
(** * Theorems on the SDK

    The clients against the service contracts, for any transport and runtime that
    behave as documented. *)

From Stdlib Require Import ZArith Lia.
From stdpp Require Import base list numbers option strings.
From S2P Require Import Prelude JsString JsNumber Json WireFormat ProtoRuntime Codec ReferenceRuntime Rpc.
From S2P Require Import CommonMessages HealthMessages CacheMessages MqMessages ConfigMessages Services Sdk Contracts.

(** Unfolds an SDK method and its generated client to the call of the transport,
    computes the request and applies the refinement of a call. *)
Tactic Notation "sdk_call" reference(f) reference(g) reference(c) :=
  intros; unfold f, g, c; rewrite ?law_merge;
  eapply call_refines_ret;
  [assumption|by repeat split| |solve [eauto with pgapp]|first [assumption|by repeat constructor]]; reflexivity.

Section Clients.
Context {W : Type} {TR : RpcTransport W} {server : far_end W} {TL : TransportLaws TR server}.
Context {RT : BinaryRuntime} {L : RuntimeLaws RT}.
Variable client : PGAppClient.t.
Hypothesis Hcred : presentable (PGAppClient.credentials client) = true.
#[local] Abbreviation md := (sent_metadata client).

(** C1: The cache client refines the cache service.  Over a far end that serves a
    contract, each method with sendable arguments does what the handler of its method
    does on the request with those arguments, under the key and the secret of the
    client's credentials: the far end goes to the handler's state, and the caller
    sees the method's view of the response or a [PGAppError] with the status'
    message and code.  [get] and [getSet] give [null] exactly on a miss; [mget] hands
    out the items of the response as they are, so the item of a miss has the bytes
    of the response and not the [null] its specification asks for. *)
Theorem cache_client_refines (c : CacheContract W) (H : ServesCache server c) :
  (forall ns k v ttl w, let q := SetCacheRequest.mk ns k (encodeBytes v) (StringOr ttl 0) [] in
     sendable q -> CacheClient.set client ns k v ttl w =
       outcome (fun r => Ok (OperationResult.success r)) (cc_set c md q w))
  /\ (forall ns k w, let q := GetCacheRequest.mk ns k [] in
     sendable q -> CacheClient.get client ns k w =
       outcome (fun r => Ok (if GetCacheResponse.hit r then Some (GetCacheResponse.value r) else None))
         (cc_get c md q w))
  /\ (forall ns ks w, let q := MGetCacheRequest.mk ns ks [] in
     sendable q -> CacheClient.mget client ns ks w =
       outcome (fun r => Ok (MGetCacheResponse.items r)) (cc_mGet c md q w))
  /\ (forall ns k w, let q := DeleteCacheRequest.mk ns k [] in
     sendable q -> CacheClient.delete client ns k w =
       outcome (fun r => Ok (OperationResult.success r)) (cc_delete c md q w))
  /\ (forall ns k w, let q := ExistsCacheRequest.mk ns k [] in
     sendable q -> CacheClient.exists_ client ns k w =
       outcome (fun r => Ok (ExistsCacheResponse.exists_ r)) (cc_exists c md q w))
  /\ (forall ns w, let q := InvalidateNamespaceRequest.mk ns [] in
     sendable q -> CacheClient.invalidateNamespace client ns w =
       outcome (fun r => Ok (OperationResult.success r)) (cc_invalidateNamespace c md q w))
  /\ (forall w, CacheClient.stats client w =
       outcome (fun r => Ok r) (cc_stats c md (CacheStatsRequest.mk []) w))
  /\ (forall ns k delta ttl w, let q := IncrementRequest.mk ns k (StringOr delta 1) (StringOr ttl 0) [] in
     sendable q -> CacheClient.increment client ns k delta ttl w =
       outcome (fun r => Ok (Num.of_string (IncrementResponse.value r))) (cc_increment c md q w))
  /\ (forall ns k delta ttl w, let q := DecrementRequest.mk ns k (StringOr delta 1) (StringOr ttl 0) [] in
     sendable q -> CacheClient.decrement client ns k delta ttl w =
       outcome (fun r => Ok (Num.of_string (DecrementResponse.value r))) (cc_decrement c md q w))
  /\ (forall ns k v ttl w, let q := SetNXRequest.mk ns k (encodeBytes v) (StringOr ttl 0) [] in
     sendable q -> CacheClient.setNX client ns k v ttl w =
       outcome (fun r => Ok (SetNXResponse.created r)) (cc_setNX c md q w))
  /\ (forall ns k v ttl w, let q := GetSetRequest.mk ns k (encodeBytes v) (StringOr ttl 0) [] in
     sendable q -> CacheClient.getSet client ns k v ttl w =
       outcome (fun r => Ok (if GetSetResponse.hit r then Some (GetSetResponse.oldValue r) else None))
         (cc_getSet c md q w))
  /\ (forall ns k v ttl w, let q := AppendRequest.mk ns k (encodeBytes v) (StringOr ttl 0) [] in
     sendable q -> CacheClient.append client ns k v ttl w =
       outcome (fun r => Ok (Num.of_string (AppendResponse.length_ r))) (cc_append c md q w))
  /\ (forall ns k v ttl w, let q := PrependRequest.mk ns k (encodeBytes v) (StringOr ttl 0) [] in
     sendable q -> CacheClient.prepend client ns k v ttl w =
       outcome (fun r => Ok (Num.of_string (PrependResponse.length_ r))) (cc_prepend c md q w)).
Proof.
  split_and!.
  - sdk_call CacheClient.set CacheServiceClient.set SetCacheRequest.create.
  - sdk_call CacheClient.get CacheServiceClient.get GetCacheRequest.create.
  - sdk_call CacheClient.mget CacheServiceClient.mGet MGetCacheRequest.create.
  - sdk_call CacheClient.delete CacheServiceClient.delete DeleteCacheRequest.create.
  - sdk_call CacheClient.exists_ CacheServiceClient.exists_ ExistsCacheRequest.create.
  - sdk_call CacheClient.invalidateNamespace CacheServiceClient.invalidateNamespace
      InvalidateNamespaceRequest.create.
  - sdk_call CacheClient.stats CacheServiceClient.stats CacheStatsRequest.create.
  - sdk_call CacheClient.increment CacheServiceClient.increment IncrementRequest.create.
  - sdk_call CacheClient.decrement CacheServiceClient.decrement DecrementRequest.create.
  - sdk_call CacheClient.setNX CacheServiceClient.setNX SetNXRequest.create.
  - sdk_call CacheClient.getSet CacheServiceClient.getSet GetSetRequest.create.
  - sdk_call CacheClient.append CacheServiceClient.append AppendRequest.create.
  - sdk_call CacheClient.prepend CacheServiceClient.prepend PrependRequest.create.
Qed.

(** C2: The queue client refines the queue service, in the same sense, for its
    fifteen unary methods: arguments left out have the defaults of the signatures,
    payloads are sent as the JSON text of the values, and the ids of sent messages
    come back as numbers.  [read] and [readWithPoll] hand out the messages of the
    response as they are: the payload is the text [jsonPayload], not the parsed value
    its specification asks for, and the id is a decimal string. *)
Theorem mq_client_refines (c : MQContract W) (H : ServesMQ server c) :
  (forall qn mode w, let q := CreateQueueRequest.mk qn (default (Num.of_Z 1) mode) [] in
     sendable q -> MQClient.createQueue client qn mode w =
       outcome (fun r => Ok (OperationResult.success r)) (qc_createQueue c md q w))
  /\ (forall qn w, let q := PurgeQueueRequest.mk qn [] in
     sendable q -> MQClient.purgeQueue client qn w =
       outcome (fun r => Ok (OperationResult.success r)) (qc_purgeQueue c md q w))
  /\ (forall qn w, let q := DropQueueRequest.mk qn [] in
     sendable q -> MQClient.dropQueue client qn w =
       outcome (fun r => Ok (OperationResult.success r)) (qc_dropQueue c md q w))
  /\ (forall qn payload delay w,
     let q := SendMessageRequest.mk qn (Json.stringify payload) (StringOr delay 0) [] in
     sendable q -> MQClient.sendJson client qn payload delay w =
       outcome (fun r => Ok (Num.of_string (SendMessageResponse.messageId r))) (qc_send c md q w))
  /\ (forall qn payloads delay w,
     let q := SendBatchRequest.mk qn (map Json.stringify payloads) (StringOr delay 0) [] in
     sendable q -> MQClient.sendBatchJson client qn payloads delay w =
       outcome (fun r => Ok (map Num.of_string (SendBatchResponse.messageIds r))) (qc_sendBatch c md q w))
  /\ (forall qn n vt w,
     let q := ReadMessagesRequest.mk qn (default (Num.of_Z 1) n) (StringOr vt 30) [] in
     sendable q -> MQClient.read client qn n vt w =
       outcome (fun r => Ok (ReadMessagesResponse.messages r)) (qc_read c md q w))
  /\ (forall qn n vt maxPoll interval w,
     let q := ReadWithPollRequest.mk qn (default (Num.of_Z 1) n) (StringOr vt 30)
                (StringOr maxPoll 10) (StringOr interval 100) [] in
     sendable q -> MQClient.readWithPoll client qn n vt maxPoll interval w =
       outcome (fun r => Ok (ReadMessagesResponse.messages r)) (qc_readWithPoll c md q w))
  /\ (forall qn id token w, let q := AckMessageRequest.mk qn (Num.toString id) token [] in
     sendable q -> MQClient.ack client qn id token w =
       outcome (fun r => Ok (OperationResult.success r)) (qc_ack c md q w))
  /\ (forall qn id token w, let q := ArchiveMessageRequest.mk qn (Num.toString id) token [] in
     sendable q -> MQClient.archive client qn id token w =
       outcome (fun r => Ok (OperationResult.success r)) (qc_archive c md q w))
  /\ (forall qn id token vt w,
     let q := SetVisibilityTimeoutRequest.mk qn (Num.toString id) (Num.toString vt) token [] in
     sendable q -> MQClient.setVisibilityTimeout client qn id token vt w =
       outcome (fun r => Ok (OperationResult.success r)) (qc_setVisibilityTimeout c md q w))
  /\ (forall qn w, let q := QueueMetricsRequest.mk qn [] in
     sendable q -> MQClient.metrics client qn w = outcome (fun r => Ok r) (qc_metrics c md q w))
  /\ (forall qn limit offset w,
     let q := ListDlqMessagesRequest.mk qn (default (Num.of_Z 100) limit) (StringOr offset 0) [] in
     sendable q -> MQClient.listDlqMessages client qn limit offset w =
       outcome (fun r => Ok (ListDlqMessagesResponse.messages r)) (qc_listDlqMessages c md q w))
  /\ (forall qn id w, let q := GetDlqMessageRequest.mk qn (Num.toString id) [] in
     sendable q -> MQClient.getDlqMessage client qn id w =
       outcome (fun r => Ok r) (qc_getDlqMessage c md q w))
  /\ (forall qn id w, let q := ReprocessDlqMessageRequest.mk qn (Num.toString id) [] in
     sendable q -> MQClient.reprocessDlqMessage client qn id w =
       outcome (fun r => Ok (OperationResult.success r)) (qc_reprocessDlqMessage c md q w))
  /\ (forall qn w, let q := PurgeDlqRequest.mk qn [] in
     sendable q -> MQClient.purgeDlq client qn w =
       outcome (fun r => Ok (OperationResult.success r)) (qc_purgeDlq c md q w)).
Proof.
  split_and!.
  - sdk_call MQClient.createQueue MQServiceClient.createQueue CreateQueueRequest.create.
  - sdk_call MQClient.purgeQueue MQServiceClient.purgeQueue PurgeQueueRequest.create.
  - sdk_call MQClient.dropQueue MQServiceClient.dropQueue DropQueueRequest.create.
  - sdk_call MQClient.sendJson MQServiceClient.send SendMessageRequest.create.
  - sdk_call MQClient.sendBatchJson MQServiceClient.sendBatch SendBatchRequest.create.
  - sdk_call MQClient.read MQServiceClient.read ReadMessagesRequest.create.
  - sdk_call MQClient.readWithPoll MQServiceClient.readWithPoll ReadWithPollRequest.create.
  - sdk_call MQClient.ack MQServiceClient.ack AckMessageRequest.create.
  - sdk_call MQClient.archive MQServiceClient.archive ArchiveMessageRequest.create.
  - sdk_call MQClient.setVisibilityTimeout MQServiceClient.setVisibilityTimeout
      SetVisibilityTimeoutRequest.create.
  - sdk_call MQClient.metrics MQServiceClient.metrics QueueMetricsRequest.create.
  - sdk_call MQClient.listDlqMessages MQServiceClient.listDlqMessages ListDlqMessagesRequest.create.
  - sdk_call MQClient.getDlqMessage MQServiceClient.getDlqMessage GetDlqMessageRequest.create.
  - sdk_call MQClient.reprocessDlqMessage MQServiceClient.reprocessDlqMessage
      ReprocessDlqMessageRequest.create.
  - sdk_call MQClient.purgeDlq MQServiceClient.purgeDlq PurgeDlqRequest.create.
Qed.

(** What [watch] makes of a response *)
Definition watch_view (r : WatchConfigResponse.t) : result ConfigWatchResult :=
  release ← match WatchConfigResponse.release r with
            | Some release => snapshot ← releaseSnapshot release; Ok (Some snapshot)
            | None => Ok None
            end;
  Ok {| cwr_changed := WatchConfigResponse.changed r;
        cwr_latestRevision := Num.of_string (WatchConfigResponse.latestRevision r);
        cwr_release := release |}.

(** A scope the client can address: the decoder's leftovers are not copied. *)
Definition plain_scope (s : ConfigScope.t) : Prop := ConfigScope.unknown s = [].

(** C3: The config client refines the config service: [getRelease] asks for the
    given revision, [getLatestRelease] for revision 0, [watch] for changes after the
    known revision, always for the scope it was given; the caller sees the
    release with its snapshot parsed, or a [PGAppError], also when the
    snapshot is not JSON. *)
Theorem config_client_refines (c : ConfigContract W) (H : ServesConfig server c) (s : ConfigScope.t) :
  plain_scope s ->
  (forall revision w, let q := GetConfigReleaseRequest.mk (Some s) (Num.toString revision) [] in
     sendable q -> ConfigClient.getRelease client s revision w =
       outcome releaseSnapshot (gc_getRelease c md q w))
  /\ (forall w, let q := GetConfigReleaseRequest.mk (Some s) (js "0") [] in
     sendable q -> ConfigClient.getLatestRelease client s w =
       outcome releaseSnapshot (gc_getRelease c md q w))
  /\ (forall known seconds w,
     let q := WatchConfigRequest.mk (Some s) (Num.toString known) (Num.toString seconds) [] in
     sendable q -> ConfigClient.watch client s known seconds w =
       outcome watch_view (gc_watch c md q w)).
Proof.
  destruct s as [app env cluster ns us]. unfold plain_scope. cbn. intros ->.
  assert (forall revision w,
    let q := GetConfigReleaseRequest.mk (Some (ConfigScope.mk app env cluster ns []))
               (Num.toString revision) [] in
    sendable q -> ConfigClient.getRelease client (ConfigScope.mk app env cluster ns []) revision w =
      outcome releaseSnapshot (gc_getRelease c md q w)) as Hget.
  { intros revision w q Hq.
    unfold ConfigClient.getRelease, ConfigServiceClient.getRelease, GetConfigReleaseRequest.create.
    rewrite law_merge. by eapply call_refines; [done|repeat split| |apply serves_gc_getRelease|..]. }
  split_and!; [exact Hget|intros w; apply (Hget (Num.of_Z 0))|].
  intros known seconds w Hq.
  unfold ConfigClient.watch, ConfigServiceClient.watch, WatchConfigRequest.create. rewrite law_merge.
  eapply call_refines; [done|by repeat split| |apply serves_gc_watch|done|]; [done|].
  intros r w'. unfold watch_view. destruct (WatchConfigResponse.release r) as [x|]; [|done].
  cbn -[releaseSnapshot]. unfold local, fmap, remote_fmap, mbind, remote_bind.
  by destruct (releaseSnapshot x).
Qed.

Lemma decode_all (rs : list ReadMessagesResponse.t) :
  Forall sendable rs -> Forall2 (fun b x => fromBinary b = Ok x) (map mt_encode rs) rs.
Proof.
  induction 1 as [|r rs [Hr Hlen] _ IH]; constructor; [|done]. by apply fromBinary_encode.
Qed.

(** C9: [streamRead] yields the messages of the responses in the order they
    arrive, response by response, and ends as the stream does: it completes, it
    waits for more, or it throws a [PGAppError] with the status of the stream,
    after all messages that arrived before. *)
Theorem stream_read_yields (h : stream_handler W StreamReadRequest.t ReadMessagesResponse.t)
    (H : streams server (js "/pgapp.v1.MQService/StreamRead") h) qn options_ w :
  let o := default (MQClient.mkStreamOptions None None) options_ in
  let q := StreamReadRequest.mk qn (default (Num.of_Z 1) (MQClient.so_quantity o))
             (StringOr (MQClient.so_visibilityTimeoutSeconds o) 30) [] in
  sendable q ->
  MQClient.streamRead client qn options_ w =
    let '((rs, end_), w') := h md q w in
    (Ok (flat_map ReadMessagesResponse.messages rs,
         match end_ with
         | None => Pending
         | Some None => Completed
         | Some (Some f) => Failed (ThrownObject
             (PGAppError.new (gf_message f) (PString (gf_code f))))
         end), w').
Proof.
  intros o q [Hq Hlen]. specialize (H md q w (conj Hq Hlen)).
  destruct (h md q w) as [[rs end_] w']. destruct H as [Hrs Hs].
  unfold MQClient.streamRead, MQServiceClient.streamRead, StreamReadRequest.create.
  rewrite law_merge, law_mergeOptions.
  rewrite (law_stream _ _ _ _ _ _ _ _ q (mt_encode q) w (map mt_encode rs) rs end_ w');
    [by destruct end_ as [[]|]|by repeat split|by apply presentable_legal|by apply toBinary_encode|done|by apply decode_all].
Qed.

Lemma emits_string_field no s :
  field_number no -> blen (Utf.encode s) < 2 ^ 31 ->
  exists bs, emits (fun w => if negb (bool_decide (s = js ""))
                             then w_string s (w_tag no LengthDelimited w) else Ok w) bs.
Proof.
  intros Hno Hs. destruct (bool_decide (s = js "")); cbn; [eexists; apply emits_nil|].
  eexists. apply emits_tag; [done|]. by apply law_w_string.
Qed.

(** A call whose request cannot be serialized *)
Lemma call_unserializable {I O A} {MI : MessageType I} {MO : MessageType O} m (q : I)
    (k : O -> remote W A) e w :
  unary_typed I O m -> toBinary q = Throw e ->
  exists msg, wrap (response ← stackIntercept_unary (PGAppClient.transport client) m
          (mergeOptions (PGAppClient.transport client) (PGAppClient.rpcOptions client)) q;
        k response) w
    = (Throw (ThrownObject (PGAppError.new msg (PString (js "INTERNAL")))), w).
Proof.
  intros Hm He. rewrite law_mergeOptions. unfold wrap, mbind, remote_bind.
  destruct (law_unary_unserializable RT I O MI MO (PGAppClient.transport client) m
    (PGAppClient.rpcOptions client) q e w Hm (presentable_legal client Hcred) He) as [msg ->].
  by exists msg.
Qed.

Lemma increment_unserializable ns k delta ttl :
  blen (Utf.encode ns) < 2 ^ 31 -> blen (Utf.encode k) < 2 ^ 31 ->
  (forall z, Decimal.parse (Num.toString delta) = Some z -> ~ int64 z) ->
  exists e, toBinary (IncrementRequest.mk ns k (Num.toString delta) ttl []) = Throw e.
Proof.
  intros Hns Hk Hd. destruct (emits_string_field 1 ns ltac:(by unfold field_number) Hns) as [b1 H1].
  destruct (emits_string_field 2 k ltac:(by unfold field_number) Hk) as [b2 H2].
  assert (Num.toString delta <> js "0") as Hne.
  { intros E. apply (Hd 0); [by rewrite E|]. unfold int64. lia. }
  unfold toBinary. cbn -[js]. unfold IncrementRequest.internalBinaryWrite. cbn -[js].
  destruct (H1 w_new [] [] law_new) as (w1 & -> & V1). cbn -[js].
  destruct (H2 w1 _ _ V1) as (w2 & -> & V2). cbn -[js].
  rewrite (bool_decide_false (Num.toString delta = _)) by done. cbn -[js].
  destruct (law_w_int64_throws delta (w_tag 3 Varint w2) Hd) as [e ->]. by exists e.
Qed.

(** C14: A delta that is not an integer of 64 bits ([1.5], [NaN], [1e300]) never
    reaches the service: the request cannot be serialized, [increment] rejects with a
    [PGAppError] whose code is INTERNAL, and the far end is as before. *)
Theorem increment_rejects_non_integers ns k delta ttl w :
  blen (Utf.encode ns) < 2 ^ 31 -> blen (Utf.encode k) < 2 ^ 31 ->
  (forall z, Decimal.parse (Num.toString delta) = Some z -> ~ int64 z) ->
  exists msg, CacheClient.increment client ns k (Some delta) ttl w
    = (Throw (ThrownObject (PGAppError.new msg (PString (js "INTERNAL")))), w).
Proof.
  intros Hns Hk Hd. unfold CacheClient.increment, CacheServiceClient.increment, IncrementRequest.create.
  rewrite law_merge.
  destruct (increment_unserializable ns k delta (StringOr ttl 0) Hns Hk Hd) as [e He].
  by apply call_unserializable with e; [repeat split|].
Qed.

(** The calls that the theorems on single operations share *)
Lemma send_call (c : MQContract W) (H : ServesMQ server c) qn payload delay w :
  let q := SendMessageRequest.mk qn (Json.stringify payload) (StringOr delay 0) [] in
  sendable q -> MQClient.sendJson client qn payload delay w =
    outcome (fun r => Ok (Num.of_string (SendMessageResponse.messageId r))) (qc_send c md q w).
Proof. sdk_call MQClient.sendJson MQServiceClient.send SendMessageRequest.create. Qed.

Lemma ack_call (c : MQContract W) (H : ServesMQ server c) qn id token w :
  let q := AckMessageRequest.mk qn (Num.toString id) token [] in
  sendable q -> MQClient.ack client qn id token w =
    outcome (fun r => Ok (OperationResult.success r)) (qc_ack c md q w).
Proof. sdk_call MQClient.ack MQServiceClient.ack AckMessageRequest.create. Qed.

Lemma safe_decimal z : Z.abs z <= 2 ^ 53 ->
  ok_decimal (- 2 ^ 63) (2 ^ 63) (Num.toString (Num.of_Z z)) = true.
Proof.
  intros Hz. rewrite Num.toString_of_Z by done. unfold ok_decimal, dec_value.
  rewrite Decimal.parse_of_Z. cbn -[Decimal.of_Z]. rewrite bool_decide_true by done.
  unfold in_range. lia.
Qed.

(** C10: A JSON payload reaches the service intact.  For every payload of safe
    integers, strings (lone surrogates included), arrays and objects, and a
    delay that is a safe integer, [sendJson] hands the service a text that
    [JSON.parse] turns back into the payload, and resolves to the id in the
    response. *)
Theorem json_payload_reaches_service (c : MQContract W) (H : ServesMQ server c) qn payload delay w :
  Utf.well_formed qn = true -> Json.wf payload -> Z.abs delay <= 2 ^ 53 ->
  let q := SendMessageRequest.mk qn (Json.stringify payload) (Num.toString (Num.of_Z delay)) [] in
  blen (mt_encode q) < 2 ^ 31 ->
  Json.parse (SendMessageRequest.jsonPayload q) = Ok payload
  /\ MQClient.sendJson client qn payload (Some (Num.of_Z delay)) w =
       outcome (fun r => Ok (Num.of_string (SendMessageResponse.messageId r))) (qc_send c md q w).
Proof.
  intros Hqn Hp Hd q Hlen. split; [by apply Json.parse_stringify|].
  apply (send_call c H qn payload (Some (Num.of_Z delay)) w). split; [|done]. split; [|constructor].
  change (Utf.well_formed qn && (Utf.well_formed (Json.stringify payload)
    && (ok_decimal (- 2 ^ 63) (2 ^ 63) (Num.toString (Num.of_Z delay)) && true)) = true).
  by rewrite Hqn, Json.stringify_well_formed, safe_decimal by done.
Qed.

(** C11: The id [sendJson] resolves to addresses the message it was given for: when
    the service assigns an id of magnitude at most 2^53, acknowledging with the
    number the SDK returned sends exactly that id. *)
Theorem sent_id_is_acknowledged (c : MQContract W) (H : ServesMQ server c) qn payload delay w id us w1 :
  Z.abs id <= 2 ^ 53 ->
  let q := SendMessageRequest.mk qn (Json.stringify payload) (StringOr delay 0) [] in
  sendable q -> qc_send c md q w = (inr (SendMessageResponse.mk (Decimal.of_Z id) us), w1) ->
  exists n, MQClient.sendJson client qn payload delay w = (Ok n, w1)
    /\ forall token w2, let a := AckMessageRequest.mk qn (Decimal.of_Z id) token [] in
       sendable a -> MQClient.ack client qn n token w2 =
         outcome (fun r => Ok (OperationResult.success r)) (qc_ack c md a w2).
Proof.
  intros Hid q Hq Hs. exists (Num.of_string (Decimal.of_Z id)). split.
  - unfold q in Hs. by rewrite (send_call c H) by done; rewrite Hs.
  - intros token w2. rewrite Num.of_string_of_Z, <- (Num.toString_of_Z id Hid).
    apply (ack_call c H).
Qed.

(** C12: Beyond 2^53 the SDK confuses ids.  When the service assigns an odd id between
    2^53 and 2^54 - 1, [sendJson] resolves to a number that stands for a neighbour of
    that id: acknowledging with it asks the service to acknowledge the message
    with the neighbouring id instead of the one that was sent. *)
Theorem large_id_acknowledges_another (c : MQContract W) (H : ServesMQ server c)
    qn payload delay w id us w1 :
  Z.Odd id -> 2 ^ 53 < id < 2 ^ 54 - 1 ->
  let q := SendMessageRequest.mk qn (Json.stringify payload) (StringOr delay 0) [] in
  sendable q -> qc_send c md q w = (inr (SendMessageResponse.mk (Decimal.of_Z id) us), w1) ->
  exists n other, MQClient.sendJson client qn payload delay w = (Ok n, w1)
    /\ Z.abs (other - id) = 1
    /\ forall token w2, let a := AckMessageRequest.mk qn (Decimal.of_Z other) token [] in
       sendable a -> MQClient.ack client qn n token w2 =
         outcome (fun r => Ok (OperationResult.success r)) (qc_ack c md a w2).
Proof.
  intros Hodd Hid q Hq Hs. destruct (Num.of_Z_odd id Hid Hodd) as (other & Heven & Hother & Hd & E).
  exists (Num.of_Z other), other. split; [|split; [done|]].
  - unfold q in Hs. rewrite (send_call c H) by done. rewrite Hs. cbn -[Num.of_string].
    by rewrite Num.of_string_of_Z, E.
  - intros token w2. rewrite <- (Num.toString_even other Hother Heven). apply (ack_call c H).
Qed.
End Clients.

(** ** Errors *)

(** An [Error] named [PGAppError], as its string conversion shows, with this message
    and this code *)
Definition is_PGAppError (e : thrown) (message : jsstr) (code : propval) : Prop :=
  exists o, e = ThrownObject o /\ eo_isError o = true
    /\ eo_message o = PString message /\ eo_code o = code
    /\ eo_asString o = inr (match message with
                            | [] => js "PGAppError"
                            | _ => js "PGAppError: " ++ message
                            end).

(** The error for a value that is converted to a string: with that string, or what
    the conversion throws *)
Definition rejected_with (e' : thrown) (asString : thrown + jsstr) : Prop :=
  match asString with
  | inr s => is_PGAppError e' s PUndefined
  | inl x => e' = x
  end.

(** What a caller of the SDK owes to a thrown [e]: a [PGAppError] that keeps a message
    that is a string, with the code, and otherwise has the string conversion of
    the message of an error, or of the value, and no code. *)
Definition rejected_as (e e' : thrown) : Prop :=
  match e with
  | ThrownObject o =>
      match eo_message o, eo_isError o with
      | PString message, _ => is_PGAppError e' message (eo_code o)
      | _, false => rejected_with e' (eo_asString o)
      | PUndefined, true => is_PGAppError e' [] PUndefined
      | PNumber z, true => is_PGAppError e' (Decimal.of_Z z) PUndefined
      | POther asString, true => rejected_with e' asString
      end
  | ThrownPrimitive s => is_PGAppError e' s PUndefined
  | ThrownNullish _ => exists message, e' = TypeErrorOf message
  end.

(** C13: [wrap] changes nothing but rejections: a resolved call keeps its value and the
    far end its state.  Of a thrown value the caller gets a [PGAppError] that keeps
    the message and the code of an error with a string for a message; another
    error, object or primitive becomes one with the converted string and no code.
    Two kinds of values escape: [null] and [undefined] end in the [TypeError] of
    reading a property of them, and an object whose string conversion throws ends in
    what that throws. *)
Theorem wrap_rejects_with_PGAppError {W A} (fn : remote W A) w :
  match fn w with
  | (Throw e, w') => exists e', wrap fn w = (Throw e', w') /\ rejected_as e e'
  | r => wrap fn w = r
  end.
Proof.
  unfold wrap. destruct (fn w) as [[a|e|] w']; [done| |done]. eexists. split; [done|].
  unfold PGAppError.rethrow, PGAppError.from, rejected_as, rejected_with, is_PGAppError.
  destruct e as [o|s|s]; [|by eexists..].
  destruct (eo_message o) as [|m|z|[x|m]], (eo_isError o); cbn; try (by eexists);
    destruct (eo_asString o); by try eexists.
Qed.

(** ** Releases *)

(** C15: A published snapshot is read as it was written: whatever text the service
    stored, [releaseSnapshot] returns a value or throws; from the JSON text of a
    value it makes that value, from an absent text the empty object, and any other
    text is rejected.  The scope, the checksum, the message, the publisher and the date
    are those of the release, and the revision is exact up to 2^53. *)
Theorem release_snapshot_faithful (r : ConfigRelease.t) :
  let snapshot revision v := mkSnapshot (ConfigRelease.scope r) revision (ConfigRelease.checksum r) v
    (ConfigRelease.message_ r) (ConfigRelease.publishedBy r) (ConfigRelease.publishedAt r) in
  returns (releaseSnapshot r)
  /\ (forall v z, Json.wf v -> Z.abs z <= 2 ^ 53 ->
        ConfigRelease.snapshotJson r = Json.stringify v -> ConfigRelease.revision r = Decimal.of_Z z ->
        exists n, releaseSnapshot r = Ok (snapshot n v) /\ Num.int_value n = Some z)
  /\ (ConfigRelease.snapshotJson r = [] ->
        releaseSnapshot r = Ok (snapshot (Num.of_string (ConfigRelease.revision r)) (JObject [])))
  /\ (forall e, ConfigRelease.snapshotJson r <> [] ->
        Json.parse (ConfigRelease.snapshotJson r) = Throw e -> releaseSnapshot r = Throw e).
Proof.
  unfold releaseSnapshot. split_and!.
  - apply bind_returns; [apply Json.parse_returns|done].
  - intros v z Hv Hz -> ->. rewrite bool_decide_false by by apply Json.stringify_nonempty.
    rewrite Json.parse_stringify by done. eexists. split; [done|].
    by rewrite Num.of_string_of_Z, Num.int_value_of_Z.
  - by intros ->.
  - intros e He Hp. rewrite bool_decide_false by done. by rewrite Hp.
Qed.

(** ** Generated clients *)
Section Bindings.
Context {W : Type} {TR : RpcTransport W} {RT : BinaryRuntime}.
Variable t : Transport.

(** C21: Each method of the generated cache client calls the method of the service
    that has its name, with its request and response types: the indices of the
    client agree with the order of the service table. *)
Theorem cache_client_bindings :
  binds_unary CacheService t (js "set") (CacheServiceClient.set t)
  /\ binds_unary CacheService t (js "get") (CacheServiceClient.get t)
  /\ binds_unary CacheService t (js "mGet") (CacheServiceClient.mGet t)
  /\ binds_unary CacheService t (js "delete") (CacheServiceClient.delete t)
  /\ binds_unary CacheService t (js "exists") (CacheServiceClient.exists_ t)
  /\ binds_unary CacheService t (js "invalidateNamespace") (CacheServiceClient.invalidateNamespace t)
  /\ binds_unary CacheService t (js "stats") (CacheServiceClient.stats t)
  /\ binds_unary CacheService t (js "increment") (CacheServiceClient.increment t)
  /\ binds_unary CacheService t (js "decrement") (CacheServiceClient.decrement t)
  /\ binds_unary CacheService t (js "setNX") (CacheServiceClient.setNX t)
  /\ binds_unary CacheService t (js "getSet") (CacheServiceClient.getSet t)
  /\ binds_unary CacheService t (js "append") (CacheServiceClient.append t)
  /\ binds_unary CacheService t (js "prepend") (CacheServiceClient.prepend t)
  /\ NoDup (map mi_name (st_methods CacheService)).
Proof.
  split_and!;
    [bind_at CacheService 0%nat|bind_at CacheService 1%nat|bind_at CacheService 2%nat
    |bind_at CacheService 3%nat|bind_at CacheService 4%nat|bind_at CacheService 5%nat
    |bind_at CacheService 6%nat|bind_at CacheService 7%nat|bind_at CacheService 8%nat
    |bind_at CacheService 9%nat|bind_at CacheService 10%nat|bind_at CacheService 11%nat
    |bind_at CacheService 12%nat|apply CacheService_methods_distinct].
Qed.

(** C22: The same for the generated queue client, with its one streaming method. *)
Theorem mq_client_bindings :
  binds_unary MQService t (js "createQueue") (MQServiceClient.createQueue t)
  /\ binds_unary MQService t (js "purgeQueue") (MQServiceClient.purgeQueue t)
  /\ binds_unary MQService t (js "dropQueue") (MQServiceClient.dropQueue t)
  /\ binds_unary MQService t (js "send") (MQServiceClient.send t)
  /\ binds_unary MQService t (js "sendBatch") (MQServiceClient.sendBatch t)
  /\ binds_unary MQService t (js "read") (MQServiceClient.read t)
  /\ binds_unary MQService t (js "readWithPoll") (MQServiceClient.readWithPoll t)
  /\ binds_unary MQService t (js "ack") (MQServiceClient.ack t)
  /\ binds_unary MQService t (js "archive") (MQServiceClient.archive t)
  /\ binds_unary MQService t (js "setVisibilityTimeout") (MQServiceClient.setVisibilityTimeout t)
  /\ binds_unary MQService t (js "metrics") (MQServiceClient.metrics t)
  /\ binds_unary MQService t (js "listDlqMessages") (MQServiceClient.listDlqMessages t)
  /\ binds_unary MQService t (js "getDlqMessage") (MQServiceClient.getDlqMessage t)
  /\ binds_unary MQService t (js "reprocessDlqMessage") (MQServiceClient.reprocessDlqMessage t)
  /\ binds_unary MQService t (js "purgeDlq") (MQServiceClient.purgeDlq t)
  /\ binds_streaming MQService t (js "streamRead") (MQServiceClient.streamRead t)
  /\ NoDup (map mi_name (st_methods MQService)).
Proof.
  split_and!;
    [bind_at MQService 0%nat|bind_at MQService 1%nat|bind_at MQService 2%nat
    |bind_at MQService 3%nat|bind_at MQService 4%nat|bind_at MQService 5%nat
    |bind_at MQService 6%nat|bind_at MQService 7%nat|bind_at MQService 8%nat
    |bind_at MQService 9%nat|bind_at MQService 10%nat|bind_at MQService 11%nat
    |bind_at MQService 12%nat|bind_at MQService 13%nat|bind_at MQService 14%nat
    |bind_at MQService 15%nat|apply MQService_methods_distinct].
Qed.

(** C23: The same for the generated config and health clients. *)
Theorem config_health_client_bindings :
  binds_unary ConfigService t (js "listScopes") (ConfigServiceClient.listScopes t)
  /\ binds_unary ConfigService t (js "upsertItem") (ConfigServiceClient.upsertItem t)
  /\ binds_unary ConfigService t (js "deleteItem") (ConfigServiceClient.deleteItem t)
  /\ binds_unary ConfigService t (js "getDraft") (ConfigServiceClient.getDraft t)
  /\ binds_unary ConfigService t (js "publish") (ConfigServiceClient.publish t)
  /\ binds_unary ConfigService t (js "getRelease") (ConfigServiceClient.getRelease t)
  /\ binds_unary ConfigService t (js "listReleases") (ConfigServiceClient.listReleases t)
  /\ binds_unary ConfigService t (js "watch") (ConfigServiceClient.watch t)
  /\ binds_unary ConfigService t (js "setSchema") (ConfigServiceClient.setSchema t)
  /\ binds_unary ConfigService t (js "getSchema") (ConfigServiceClient.getSchema t)
  /\ binds_unary HealthService t (js "getHealth") (HealthServiceClient.getHealth t)
  /\ binds_unary HealthService t (js "getReadiness") (HealthServiceClient.getReadiness t)
  /\ binds_unary HealthService t (js "getRuntimeMetrics") (HealthServiceClient.getRuntimeMetrics t)
  /\ NoDup (map mi_name (st_methods ConfigService))
  /\ NoDup (map mi_name (st_methods HealthService)).
Proof.
  split_and!;
    [bind_at ConfigService 0%nat|bind_at ConfigService 1%nat|bind_at ConfigService 2%nat
    |bind_at ConfigService 3%nat|bind_at ConfigService 4%nat|bind_at ConfigService 5%nat
    |bind_at ConfigService 6%nat|bind_at ConfigService 7%nat|bind_at ConfigService 8%nat
    |bind_at ConfigService 9%nat|bind_at HealthService 0%nat|bind_at HealthService 1%nat
    |bind_at HealthService 2%nat|apply ConfigService_methods_distinct
    |apply HealthService_methods_distinct].
Qed.
End Bindings.
