(* ===== verification/SdkWitnesses.v ===== *)
(** * Witnesses of the SDK theorems

    An in-memory far end, and the theorems applied to a client of it: their
    hypotheses hold together, and the calls evaluate. *)

From Stdlib Require Import ZArith Lia.
From stdpp Require Import base list numbers option strings.
From S2P Require Import Prelude JsString JsNumber Json WireFormat ProtoRuntime Codec ReferenceRuntime Rpc.
From S2P Require Import CommonMessages CacheMessages MqMessages ConfigMessages Services Sdk Contracts SdkTheorems.

(** ** A far end with a store of cache values *)
Definition store : Type := list ((jsstr * jsstr) * bytes).

Definition constant {I O : Type} (r : O) : handler store I O := fun _ _ w => (inr r, w).
Definition denied : GrpcFailure := mkFailure (js "UNAUTHENTICATED") (js "missing credentials").

(** The credentials this far end accepts *)
Definition accepted : list (jsstr * jsstr) := [(js "x-pgapp-key", js "id"); (js "x-pgapp-secret", js "s3cret")].

Definition store_set : handler store SetCacheRequest.t OperationResult.t := fun md q w =>
  if bool_decide (md = accepted)
  then (inr (OperationResult.mk true []),
        ((SetCacheRequest.namespace q, SetCacheRequest.key q), SetCacheRequest.value q) :: w)
  else (inl denied, w).

(** Messages of the queue [big] have large ids; the store records what was
    acknowledged. *)
Definition store_send : handler store SendMessageRequest.t SendMessageResponse.t := fun _ q w =>
  (inr (if bool_decide (SendMessageRequest.queueName q = js "big")
        then SendMessageResponse.mk (js "9007199254740993") [] else SendMessageResponse.mk (js "7") []), w).
Definition store_ack : handler store AckMessageRequest.t OperationResult.t := fun _ q w =>
  (inr (OperationResult.mk true []),
   ((AckMessageRequest.queueName q, AckMessageRequest.messageId q), []) :: w).

Fixpoint store_find (k : jsstr * jsstr) (w : store) : option bytes :=
  match w with
  | [] => None
  | (k', v) :: w => if bool_decide (k = k') then Some v else store_find k w
  end.

Definition too_large : GrpcFailure := mkFailure (js "RESOURCE_EXHAUSTED") (js "message too large").

Definition store_get : handler store GetCacheRequest.t GetCacheResponse.t := fun _ q w =>
  let r := match store_find (GetCacheRequest.namespace q, GetCacheRequest.key q) w with
           | Some v => GetCacheResponse.mk true v []
           | None => GetCacheResponse.mk false [] []
           end in
  (if blen (mt_encode r) <? 2 ^ 31 then inr r else inl too_large, w).

Definition sample_cache : CacheContract store := {|
  cc_set := store_set;
  cc_get := store_get;
  cc_mGet := constant MGetCacheResponse.new;
  cc_delete := constant OperationResult.new;
  cc_exists := constant ExistsCacheResponse.new;
  cc_invalidateNamespace := constant OperationResult.new;
  cc_stats := constant CacheStatsResponse.new;
  cc_increment := constant IncrementResponse.new;
  cc_decrement := constant DecrementResponse.new;
  cc_setNX := constant SetNXResponse.new;
  cc_getSet := constant GetSetResponse.new;
  cc_append := constant AppendResponse.new;
  cc_prepend := constant PrependResponse.new
|}.
Definition sample_mq : MQContract store := {|
  qc_createQueue := constant OperationResult.new;
  qc_purgeQueue := constant OperationResult.new;
  qc_dropQueue := constant OperationResult.new;
  qc_send := store_send;
  qc_sendBatch := constant SendBatchResponse.new;
  qc_read := constant ReadMessagesResponse.new;
  qc_readWithPoll := constant ReadMessagesResponse.new;
  qc_ack := store_ack;
  qc_archive := constant OperationResult.new;
  qc_setVisibilityTimeout := constant OperationResult.new;
  qc_metrics := constant QueueMetricsResponse.new;
  qc_listDlqMessages := constant ListDlqMessagesResponse.new;
  qc_getDlqMessage := constant DlqMessage.new;
  qc_reprocessDlqMessage := constant OperationResult.new;
  qc_purgeDlq := constant OperationResult.new
|}.
Definition served_release : ConfigRelease.t :=
  ConfigRelease.mk (Some (ConfigScope.mk (js "app") (js "prod") (js "main") (js "ns") []))
    (js "3") (js "c0ffee") (js "[1,2]") (js "first") (js "ops") (js "2024-01-01") [].
Definition sample_config : ConfigContract store := {|
  gc_getRelease := constant served_release;
  gc_watch := constant (WatchConfigResponse.mk true (js "3") (Some served_release) [])
|}.
Definition sample_stream : stream_handler store StreamReadRequest.t ReadMessagesResponse.t :=
  fun _ _ w => (([ReadMessagesResponse.mk [QueueMessage.new; QueueMessage.new] [];
                  ReadMessagesResponse.mk [] []; ReadMessagesResponse.mk [QueueMessage.new] []],
                 Some (Some denied)), w).

Definition sample_routes : list route :=
  [route_for (js "/pgapp.v1.CacheService/Set") (cc_set sample_cache);
   route_for (js "/pgapp.v1.CacheService/Get") (cc_get sample_cache);
   route_for (js "/pgapp.v1.CacheService/MGet") (cc_mGet sample_cache);
   route_for (js "/pgapp.v1.CacheService/Delete") (cc_delete sample_cache);
   route_for (js "/pgapp.v1.CacheService/Exists") (cc_exists sample_cache);
   route_for (js "/pgapp.v1.CacheService/InvalidateNamespace") (cc_invalidateNamespace sample_cache);
   route_for (js "/pgapp.v1.CacheService/Stats") (cc_stats sample_cache);
   route_for (js "/pgapp.v1.CacheService/Increment") (cc_increment sample_cache);
   route_for (js "/pgapp.v1.CacheService/Decrement") (cc_decrement sample_cache);
   route_for (js "/pgapp.v1.CacheService/SetNX") (cc_setNX sample_cache);
   route_for (js "/pgapp.v1.CacheService/GetSet") (cc_getSet sample_cache);
   route_for (js "/pgapp.v1.CacheService/Append") (cc_append sample_cache);
   route_for (js "/pgapp.v1.CacheService/Prepend") (cc_prepend sample_cache);
   route_for (js "/pgapp.v1.MQService/CreateQueue") (qc_createQueue sample_mq);
   route_for (js "/pgapp.v1.MQService/PurgeQueue") (qc_purgeQueue sample_mq);
   route_for (js "/pgapp.v1.MQService/DropQueue") (qc_dropQueue sample_mq);
   route_for (js "/pgapp.v1.MQService/Send") (qc_send sample_mq);
   route_for (js "/pgapp.v1.MQService/SendBatch") (qc_sendBatch sample_mq);
   route_for (js "/pgapp.v1.MQService/Read") (qc_read sample_mq);
   route_for (js "/pgapp.v1.MQService/ReadWithPoll") (qc_readWithPoll sample_mq);
   route_for (js "/pgapp.v1.MQService/Ack") (qc_ack sample_mq);
   route_for (js "/pgapp.v1.MQService/Archive") (qc_archive sample_mq);
   route_for (js "/pgapp.v1.MQService/SetVisibilityTimeout") (qc_setVisibilityTimeout sample_mq);
   route_for (js "/pgapp.v1.MQService/Metrics") (qc_metrics sample_mq);
   route_for (js "/pgapp.v1.MQService/ListDlqMessages") (qc_listDlqMessages sample_mq);
   route_for (js "/pgapp.v1.MQService/GetDlqMessage") (qc_getDlqMessage sample_mq);
   route_for (js "/pgapp.v1.MQService/ReprocessDlqMessage") (qc_reprocessDlqMessage sample_mq);
   route_for (js "/pgapp.v1.MQService/PurgeDlq") (qc_purgeDlq sample_mq);
   route_for (js "/pgapp.v1.ConfigService/GetRelease") (gc_getRelease sample_config);
   route_for (js "/pgapp.v1.ConfigService/Watch") (gc_watch sample_config)].
Definition sample_server : far_end store :=
  reference_far_end sample_routes (fun p md bs w =>
    let '((rs, e), w') := sample_stream md StreamReadRequest.new w in ((map mt_encode rs, e), w')).

(** The constant messages are sendable. *)
Ltac sample_sendable := split; [repeat first [constructor | by vm_compute] | by vm_compute].

(** A handler of the samples answers at its path. *)
Ltac sample_answers :=
  apply dispatch_answers; [reflexivity | intros ? ? ? ? ? [= <- <-]; sample_sendable].

#[export] Instance sample_serves_cache : ServesCache sample_server sample_cache.
Proof.
  constructor; try sample_answers.
  - apply dispatch_answers; [reflexivity|]. intros md q w r w'. cbn [cc_set sample_cache]. unfold store_set.
    case_bool_decide; intros E; [|done]. injection E as <- <-. sample_sendable.
  - apply dispatch_answers; [reflexivity|]. intros md q w r w'. cbn [cc_get sample_cache]. unfold store_get.
    set (x := match store_find _ w with Some _ => _ | None => _ end).
    destruct (Z.ltb_spec (blen (mt_encode x)) (2 ^ 31)); intros [= <- <-]. split; [|done].
    unfold x. destruct (store_find _ w); split; repeat first [constructor | by vm_compute].
Qed.

#[export] Instance sample_serves_mq : ServesMQ sample_server sample_mq.
Proof.
  constructor; [sample_answers|sample_answers|sample_answers| |sample_answers..].
  apply dispatch_answers; [reflexivity|]. intros md q w r w'. cbn [qc_send sample_mq]. unfold store_send. case_bool_decide; intros [= <- <-]; sample_sendable.
Qed.

#[export] Instance sample_serves_config : ServesConfig sample_server sample_config.
Proof. constructor; sample_answers. Qed.

Lemma sample_streams : streams sample_server (js "/pgapp.v1.MQService/StreamRead") sample_stream.
Proof. intros md q w _. split; [repeat constructor; by vm_compute|done]. Qed.

#[export] Instance sample_transport : RpcTransport store := reference_transport sample_server.
#[export] Instance sample_runtime : BinaryRuntime := reference_runtime.
Definition sample_client : PGAppClient.t :=
  PGAppClient.new None (Some (mkOptions None (Some (mkCredentials (js "id") (js "s3cret"))))).
Definition anonymous_client : PGAppClient.t := PGAppClient.new None None.
Definition sample_store : store := [((js "app", js "greeting"), [104; 105])].

(** ** The theorems at this client *)
Lemma cache_client_refines_witness :
  CacheClient.set sample_client (js "app") (js "k") (VString (js "v")) None sample_store
    = (Ok true, ((js "app", js "k"), [118]) :: sample_store)
  /\ CacheClient.get sample_client (js "app") (js "greeting") sample_store
    = (Ok (Some [104; 105]), sample_store)
  /\ CacheClient.get sample_client (js "app") (js "absent") sample_store = (Ok None, sample_store)
  /\ CacheClient.set anonymous_client (js "app") (js "k") (VString (js "v")) None sample_store
    = (Throw (ThrownObject (PGAppError.new (js "missing credentials") (PString (js "UNAUTHENTICATED")))),
       sample_store).
Proof.
  destruct (cache_client_refines (server := sample_server) (L := reference_laws) anonymous_client
    eq_refl sample_cache sample_serves_cache) as (Hanon & _).
  destruct (cache_client_refines (server := sample_server) (L := reference_laws) sample_client
    eq_refl sample_cache sample_serves_cache) as (Hset & Hget & _).
  split_and!.
  - rewrite Hset; [by vm_compute|sample_sendable].
  - rewrite Hget; [by vm_compute|sample_sendable].
  - rewrite Hget; [by vm_compute|sample_sendable].
  - rewrite Hanon; [by vm_compute|sample_sendable].
Defined.

Lemma mq_client_refines_witness :
  MQClient.sendJson sample_client (js "jobs") (JObject [(js "a", JNumber (Num.of_Z 1))]) None sample_store
    = (Ok (Num.of_Z 7), sample_store)
  /\ MQClient.createQueue sample_client (js "jobs") None sample_store = (Ok false, sample_store).
Proof.
  destruct (mq_client_refines (server := sample_server) (L := reference_laws) sample_client
    eq_refl sample_mq sample_serves_mq) as (Hcreate & _ & _ & Hsend & _).
  split.
  - rewrite Hsend; [by vm_compute|sample_sendable].
  - rewrite Hcreate; [by vm_compute|sample_sendable].
Defined.

Lemma config_client_refines_witness :
  exists s, ConfigClient.getLatestRelease sample_client (ConfigScope.mk (js "app") (js "prod") (js "main") (js "ns") [])
      sample_store = (Ok s, sample_store)
    /\ crs_snapshot s = JArray [JNumber (Num.of_Z 1); JNumber (Num.of_Z 2)] /\ crs_revision s = Num.of_Z 3.
Proof.
  destruct (config_client_refines (server := sample_server) (L := reference_laws) sample_client
    eq_refl sample_config sample_serves_config (ConfigScope.mk (js "app") (js "prod") (js "main") (js "ns") [])
    eq_refl) as (_ & Hlatest & _).
  eexists. split; [rewrite Hlatest; [by vm_compute|sample_sendable]|]. by vm_compute.
Defined.

Lemma stream_read_yields_witness :
  MQClient.streamRead sample_client (js "jobs") None sample_store =
    (Ok ([QueueMessage.new; QueueMessage.new; QueueMessage.new],
         Failed (ThrownObject (PGAppError.new (js "missing credentials")
                                 (PString (js "UNAUTHENTICATED"))))), sample_store).
Proof.
  refine (eq_trans (stream_read_yields (server := sample_server) (L := reference_laws) sample_client
    eq_refl sample_stream sample_streams (js "jobs") None sample_store _) _); [sample_sendable|by vm_compute].
Defined.

Lemma increment_rejects_non_integers_witness :
  exists msg, CacheClient.increment sample_client (js "app") (js "n") (Some (Finite 3 (-1))) None sample_store
    = (Throw (ThrownObject (PGAppError.new msg (PString (js "INTERNAL")))), sample_store).
Proof.
  apply (increment_rejects_non_integers (server := sample_server) (L := reference_laws) sample_client
    eq_refl (js "app") (js "n") (Finite 3 (-1)) None sample_store); [by vm_compute..|].
  intros z Hz. vm_compute in Hz. discriminate.
Defined.

Lemma json_payload_reaches_service_witness :
  Json.parse (js "[55296]") = Ok (JArray [JNumber (Num.of_Z 55296)])
  /\ MQClient.sendJson sample_client (js "jobs") (JArray [JNumber (Num.of_Z 55296)])
       (Some (Num.of_Z 5)) sample_store = (Ok (Num.of_Z 7), sample_store).
Proof.
  apply (json_payload_reaches_service (server := sample_server) (L := reference_laws) sample_client
    eq_refl sample_mq sample_serves_mq (js "jobs") (JArray [JNumber (Num.of_Z 55296)]) 5 sample_store);
    [by vm_compute| |lia|by vm_compute].
  split; [|done]. by exists 55296.
Defined.

Lemma sent_id_is_acknowledged_witness :
  exists n, MQClient.sendJson sample_client (js "jobs") JNull None sample_store = (Ok n, sample_store)
    /\ MQClient.ack sample_client (js "jobs") n (js "t") sample_store
       = (Ok true, ((js "jobs", js "7"), []) :: sample_store).
Proof.
  destruct (sent_id_is_acknowledged (server := sample_server) (L := reference_laws) sample_client
    eq_refl sample_mq sample_serves_mq (js "jobs") JNull None sample_store 7 [] sample_store)
    as (n & Hsend & Hack); [lia|sample_sendable|by vm_compute|].
  exists n. split; [exact Hsend|]. rewrite Hack; [by vm_compute|sample_sendable].
Defined.

(** The service assigned 2^53 + 1 and is asked to acknowledge a neighbour. *)
Lemma large_id_acknowledges_another_witness :
  exists n other, MQClient.sendJson sample_client (js "big") JNull None sample_store = (Ok n, sample_store)
    /\ Z.abs (other - 9007199254740993) = 1
    /\ MQClient.ack sample_client (js "big") n (js "t") sample_store
       = (Ok true, ((js "big", Decimal.of_Z other), []) :: sample_store).
Proof.
  destruct (large_id_acknowledges_another (server := sample_server) (L := reference_laws) sample_client
    eq_refl sample_mq sample_serves_mq (js "big") JNull None sample_store 9007199254740993 [] sample_store)
    as (n & other & Hsend & Hd & Hack); [by exists 4503599627370496|lia|sample_sendable|by vm_compute|].
  exists n, other. split; [exact Hsend|]. split; [exact Hd|].
  assert (other = 9007199254740992 \/ other = 9007199254740994) as [-> | ->] by lia;
    (rewrite Hack; [by vm_compute|sample_sendable]).
Defined.

Lemma release_snapshot_faithful_witness :
  exists n, releaseSnapshot served_release
      = Ok (mkSnapshot (ConfigRelease.scope served_release) n (js "c0ffee")
          (JArray [JNumber (Num.of_Z 1); JNumber (Num.of_Z 2)]) (js "first") (js "ops") (js "2024-01-01"))
    /\ Num.int_value n = Some 3.
Proof.
  destruct (release_snapshot_faithful served_release) as (_ & H & _).
  apply (H (JArray [JNumber (Num.of_Z 1); JNumber (Num.of_Z 2)]) 3); [|lia|by vm_compute..].
  split; [by exists 1|]. split; [by exists 2|done].
Defined.
