(* ===== verification/AdminApi.v ===== *)
(** * The admin console's access to the Admin API

    The request functions and the pure helpers of [apps/admin-ui/src/App.tsx].
    [fetch] is the browser's, a parameter; the session storage holds the token. *)

From Stdlib Require Import ZArith Lia.
From stdpp Require Import base list numbers option strings.
From S2P Require Import Prelude JsString JsNumber Json Rpc.

(** ** What the browser provides *)
Record RequestInit := mkInit {
  ri_method : option jsstr;
  ri_headers : list (jsstr * jsstr);
  ri_body : option jsstr
}.
Definition no_init : RequestInit := mkInit None [] None.

Record Response := mkResponse { rs_status : Z; rs_text : jsstr }.
(** [response.ok]: a status from 200 to 299 *)
Definition rs_ok (r : Response) : bool := (200 <=? rs_status r) && (rs_status r <=? 299).

Class Browser (W : Type) := {
  (* the promise of fetch(path, init), awaited until it settles: a response, or
     a rejection.  A request that never settles keeps its caller waiting; it has no
     result here. *)
  fetch : jsstr -> RequestInit -> W -> (thrown + Response) * W
}.

(** ** Reading JSON values as objects *)
Fixpoint find_prop (k : jsstr) (o : list (jsstr * json)) : option json :=
  match o with
  | [] => None
  | (k', v) :: o => if bool_decide (k = k') then Some v else find_prop k o
  end.

(** [v.k] of a parsed value, for a name no built-in prototype has; [None] is
    [undefined]. *)
Definition get_prop (k : jsstr) (v : json) : result (option json) :=
  match v with
  | JNull => Throw (TypeErrorOf (js "Cannot read properties of null"))
  | JObject o => Ok (find_prop k o)
  | _ => Ok None
  end.

(** [l.map(f)] for a function that can throw *)
Section Collect.
Context {A B : Type} (f : A -> result B).
Fixpoint collect (l : list A) : result (list B) :=
  match l with
  | [] => Ok []
  | x :: l => y ← f x; ys ← collect l; Ok (y :: ys)
  end.
End Collect.

(** [String(v)] and [`${v}`] of a parsed value.  An own property [toString] hides the
    method of the prototype, and no other conversion gives a primitive. *)
Fixpoint String_of (v : json) : result jsstr :=
  match v with
  | JNull => Ok (js "null")
  | JBool b => Ok (if b then js "true" else js "false")
  | JNumber n => Ok (Num.toString n)
  | JString s => Ok s
  | JArray l =>
      ws ← collect (fun x => match x with JNull => Ok [] | _ => String_of x end) l;
      Ok (Text.join (js ",") ws)
  | JObject o =>
      match find_prop (js "toString") o with
      | Some _ => Throw (TypeErrorOf (js "Cannot convert object to primitive value"))
      | None => Ok (js "[object Object]")
      end
  end.

(** [undefined] as well *)
Definition String_of_optional (v : option json) : result jsstr :=
  match v with Some v => String_of v | None => Ok (js "undefined") end.

(** ** Requests *)

(** [o[k] = v] on a headers object, and [{ ...a, ...b }] *)
Fixpoint set_header (k v : jsstr) (o : list (jsstr * jsstr)) : list (jsstr * jsstr) :=
  match o with
  | [] => [(k, v)]
  | (k', v') :: o => if bool_decide (k = k') then (k, v) :: o else (k', v') :: set_header k v o
  end.
Definition spread (a b : list (jsstr * jsstr)) : list (jsstr * jsstr) :=
  fold_left (fun o p => set_header (fst p) (snd p) o) b a.

(** A string is truthy when it is not empty. *)
Definition truthy (s : option jsstr) : option jsstr :=
  match s with Some (u :: r) => Some (u :: r) | _ => None end.

(** The message of an error is a string in all code that runs here; a value that is
    not is kept as its string conversion, if it has one. *)
Definition errorMessage (error : thrown) : jsstr :=
  match error with
  | ThrownObject o =>
      if eo_isError o then
        match eo_message o with
        | PString s => s
        | PUndefined => js "undefined"
        | PNumber z => Decimal.of_Z z
        | POther (inr s) => s
        | POther (inl _) => js ""
        end
      else js "Unknown error"
  | _ => js "Unknown error"
  end.

(** The message of a response that is not OK: the [message] of its body unless
    that is absent or [null] or the body is not JSON. *)
Definition failure_message (response : Response) : result jsstr :=
  let message := js "Request failed with " ++ Decimal.of_Z (rs_status response) in
  match body ← Json.parse (rs_text response); get_prop (js "message") body with
  | Ok (Some JNull) | Ok None => Ok message
  | Ok (Some m) => String_of m
  | Throw _ => Ok message
  | OutOfFuel => OutOfFuel
  end.

(** What [fetchJson] makes of the outcome of [fetch] *)
Definition responseJson (outcome : thrown + Response) : result json :=
  match outcome with
  | inl _ => Throw (newError (js "Admin API unavailable"))
  | inr response =>
      if negb (rs_ok response)
      then message ← failure_message response; Throw (newError message)
      else Json.parse (rs_text response)
  end.

Section Api.
Context {W : Type} {B : Browser W}.
(** [window.sessionStorage.getItem("pgapp_admin_token")] *)
Variable token : option jsstr.

Definition fetchJson (path : jsstr) (init : RequestInit) : remote W json := fun w =>
  let headers := [(js "Accept", js "application/json")] in
  let headers := match truthy token with
                 | Some token => set_header (js "Authorization") (js "Bearer " ++ token) headers
                 | None => headers
                 end in
  let '(outcome, w) := fetch path {| ri_method := ri_method init;
                                     ri_headers := spread headers (ri_headers init);
                                     ri_body := ri_body init |} w in
  (responseJson outcome, w).

Definition sendJson (path method : jsstr) (body : json) : remote W json :=
  fetchJson path {| ri_method := Some method;
                    ri_headers := [(js "Content-Type", js "application/json")];
                    ri_body := Some (Json.stringify body) |}.

Definition postAction (path : jsstr) : remote W json :=
  fetchJson path {| ri_method := Some (js "POST"); ri_headers := []; ri_body := None |}.

Definition deleteAction (path : jsstr) : remote W json :=
  fetchJson path {| ri_method := Some (js "DELETE"); ri_headers := []; ri_body := None |}.
End Api.

(** ** Config scopes *)
Record ConfigScope := mkScope {
  app_id : jsstr;
  environment : jsstr;
  cluster : jsstr;
  namespace : jsstr
}.
#[export] Instance ConfigScope_eq_dec : EqDecision ConfigScope.
Proof. solve_decision. Defined.

(** A scope in the body of a request *)
Definition scope_json (s : ConfigScope) : json :=
  JObject [(js "app_id", JString (app_id s)); (js "environment", JString (environment s));
           (js "cluster", JString (cluster s)); (js "namespace", JString (namespace s))].

(** The serializer of [URLSearchParams]: the UTF-8 bytes, percent-encoded but for
    letters, digits and four marks, with [+] for the space. *)
Definition hex_upper (n : Z) : Z := if n <? 10 then 48 + n else 55 + n.
Definition form_plain (b : Z) : bool :=
  ((48 <=? b) && (b <=? 57)) || ((65 <=? b) && (b <=? 90)) || ((97 <=? b) && (b <=? 122))
  || (b =? 42) || (b =? 45) || (b =? 46) || (b =? 95).
Definition form_byte (b : Z) : jsstr :=
  if b =? 32 then [43] else if form_plain b then [b] else [37; hex_upper (b / 16); hex_upper (b mod 16)].
Definition form_string (s : jsstr) : jsstr := flat_map form_byte (Utf.encode s).
Definition form_pair (p : jsstr * jsstr) : jsstr := form_string (fst p) ++ js "=" ++ form_string (snd p).
Definition URLSearchParams_toString (ps : list (jsstr * jsstr)) : jsstr :=
  Text.join (js "&") (map form_pair ps).

Definition scopeQuery (scope : ConfigScope) : jsstr :=
  URLSearchParams_toString [(js "app_id", app_id scope); (js "environment", environment scope);
                            (js "cluster", cluster scope); (js "namespace", namespace scope)].

Definition scopeId (scope : ConfigScope) : jsstr :=
  app_id scope ++ js "/" ++ environment scope ++ js "/" ++ cluster scope ++ js "/" ++ namespace scope.

Definition compactJson (value : json) : jsstr := Json.stringify value.

(** ** Metrics *)
Record MethodMetric := mkMetric {
  mm_service : jsstr;
  mm_method : jsstr;
  mm_status : jsstr;
  mm_count : number;
  mm_errors : number;
  mm_total_latency_millis : number
}.

Definition sumErrors (methods : list MethodMetric) : number :=
  fold_left (fun total metric => Num.add total (mm_errors metric)) methods (Num.of_Z 0).
