(* ===== verification/AdminApiTheorems.v ===== *)
(** * Theorems on the admin console's requests and helpers *)

From Stdlib Require Import ZArith Lia.
From stdpp Require Import base list numbers option strings.
From S2P Require Import Prelude JsString JsNumber Json Rpc AdminApi.

Ltac Zify.zify_post_hook ::= Z.div_mod_to_equations.
#[local] Arguments js : simpl never.
#[local] Arguments Json.parse : simpl never.
#[local] Arguments failure_message : simpl never.

(** ** Query strings

    The parser of [application/x-www-form-urlencoded], which a server applies to a
    query: the specification [scopeQuery] is measured against. *)
Fixpoint form_decode (s : jsstr) : bytes :=
  match s with
  | [] => []
  | u :: r =>
      if u =? 43 then 32 :: form_decode r
      else if u =? 37 then
        match r with
        | h :: l :: r' =>
            match Json.hex_value h, Json.hex_value l with
            | Some a, Some b => a * 16 + b :: form_decode r'
            | _, _ => u :: form_decode r
            end
        | _ => u :: form_decode r
        end
      else u :: form_decode r
  end.

Fixpoint cut (sep : Z) (s : jsstr) : jsstr * jsstr :=
  match s with
  | [] => ([], [])
  | u :: r => if u =? sep then ([], r) else let '(a, b) := cut sep r in (u :: a, b)
  end.

Definition form_value (s : jsstr) : option jsstr := Utf.decode (form_decode s).
Definition form_field (piece : jsstr) : option jsstr * option jsstr :=
  let '(n, v) := cut 61 piece in (form_value n, form_value v).
Definition form_parse (s : jsstr) : list (option jsstr * option jsstr) :=
  map form_field (filter (fun p => p <> []) (Text.split 38 s)).

Lemma hex_value_upper d : 0 <= d < 16 -> Json.hex_value (hex_upper d) = Some d.
Proof.
  unfold hex_upper, Json.hex_value, Decimal.is_digit. intros Hd.
  destruct (Z.ltb_spec d 10).
  - replace ((48 <=? 48 + d) && (48 + d <=? 57)) with true by lia. f_equal. lia.
  - replace ((48 <=? 55 + d) && (55 + d <=? 57)) with false by lia.
    replace ((97 <=? 55 + d) && (55 + d <=? 102)) with false by lia.
    replace ((65 <=? 55 + d) && (55 + d <=? 70)) with true by lia. f_equal. lia.
Qed.

Lemma form_decode_byte b tl : is_byte b -> form_decode (form_byte b ++ tl) = b :: form_decode tl.
Proof.
  unfold is_byte, form_byte. intros Hb. destruct (Z.eqb_spec b 32) as [->|Hs]; [done|].
  destruct (form_plain b) eqn:E; cbn [app form_decode].
  - unfold form_plain in E. destruct (Z.eqb_spec b 43); [lia|]. by destruct (Z.eqb_spec b 37); [lia|].
  - cbn [Z.eqb Pos.eqb]. rewrite !hex_value_upper by lia. f_equal. lia.
Qed.

Lemma form_decode_bytes bs : Forall is_byte bs -> form_decode (flat_map form_byte bs) = bs.
Proof.
  induction 1 as [|b bs Hb _ IH]; cbn [flat_map]; [done|]. by rewrite form_decode_byte, IH.
Qed.

Lemma encode_bytes s : Utf.well_formed s = true -> Forall is_byte (Utf.encode s).
Proof.
  intros Hs. pose proof (Utf.code_points_scalar s Hs) as Hc. unfold Utf.encode.
  induction Hc as [|c cs [Hc _] _ IH]; cbn; [constructor|].
  apply Forall_app. split; [by apply Utf.utf8_of_bytes|done].
Qed.

Lemma form_value_string s : Utf.well_formed s = true -> form_value (form_string s) = Some s.
Proof.
  intros Hs. unfold form_value, form_string.
  rewrite form_decode_bytes by by apply encode_bytes. by apply Utf.decode_encode.
Qed.

(** The characters that separate fields do not occur in an encoded string. *)
Lemma form_byte_no_separator b u : is_byte b -> u ∈ form_byte b -> u <> 38 /\ u <> 61.
Proof.
  unfold is_byte, form_byte, form_plain, hex_upper. intros Hb Hu.
  repeat match type of Hu with context [if ?c then _ else _] => destruct c eqn:? end;
    rewrite ?elem_of_cons, ?list_elem_of_singleton in Hu;
    repeat destruct Hu as [->|Hu]; try (by apply not_elem_of_nil in Hu); lia.
Qed.

Lemma form_string_no_separator s u :
  Utf.well_formed s = true -> u ∈ form_string s -> u <> 38 /\ u <> 61.
Proof.
  intros Hs Hu. pose proof (encode_bytes s Hs) as Hb. unfold form_string in Hu.
  apply list_elem_of_In, in_flat_map in Hu as (b & Hb' & Hu).
  rewrite Forall_forall in Hb. apply (form_byte_no_separator b); [|by apply list_elem_of_In].
  by apply Hb, list_elem_of_In.
Qed.

Lemma cut_app sep a b : sep ∉ a -> cut sep (a ++ sep :: b) = (a, b).
Proof.
  induction a as [|u a IH]; cbn; [by rewrite Z.eqb_refl|]. rewrite not_elem_of_cons. intros [Hu Ha].
  destruct (Z.eqb_spec u sep); [done|]. by rewrite IH.
Qed.

Lemma split_last sep a : sep ∉ a -> Text.split sep a = [a].
Proof.
  induction a as [|u a IH]; cbn; [done|]. rewrite not_elem_of_cons. intros [Hu Ha].
  rewrite IH by done. by destruct (Z.eqb_spec u sep).
Qed.

Lemma split_app sep a b : sep ∉ a -> Text.split sep (a ++ sep :: b) = a :: Text.split sep b.
Proof.
  induction a as [|u a IH]; cbn [app Text.split].
  - intros _. destruct (Text.split sep b) eqn:E; [by apply Text.split_nonempty in E|].
    by rewrite Z.eqb_refl.
  - rewrite not_elem_of_cons. intros [Hu Ha]. rewrite IH by done. by destruct (Z.eqb_spec u sep).
Qed.

Definition pair_wf (p : jsstr * jsstr) : Prop :=
  Utf.well_formed (fst p) = true /\ Utf.well_formed (snd p) = true.

Lemma form_pair_field p : pair_wf p -> form_field (form_pair p) = (Some (fst p), Some (snd p)).
Proof.
  intros [Hn Hv]. unfold form_field, form_pair. change (js "=") with [61]. cbn [app].
  rewrite cut_app by (intros H; by apply (form_string_no_separator (fst p)) in H as [_ H]).
  by rewrite !form_value_string.
Qed.

Lemma form_pair_no_amp p : pair_wf p -> 38 ∉ form_pair p.
Proof.
  intros [Hn Hv] [H|[H|H]%elem_of_app]%elem_of_app.
  - by apply (form_string_no_separator (fst p)) in H as [H _].
  - by apply list_elem_of_singleton in H.
  - by apply (form_string_no_separator (snd p)) in H as [H _].
Qed.

Lemma form_pair_nonempty p : form_pair p <> [].
Proof. unfold form_pair. intros H%app_eq_nil. destruct H as [_ H]. done. Qed.

Lemma split_pairs ps : ps <> [] -> Forall pair_wf ps ->
  Text.split 38 (URLSearchParams_toString ps) = map form_pair ps.
Proof.
  unfold URLSearchParams_toString. intros Hne. induction 1 as [|p ps Hp Hps IH]; [done|].
  pose proof (form_pair_no_amp p Hp). destruct ps as [|p' ps]; cbn [map Text.join].
  - by apply split_last.
  - change (js "&" ++ ?x) with (38 :: x). rewrite split_app by done. f_equal. by apply IH.
Qed.

Lemma form_parse_pairs ps : ps <> [] -> Forall pair_wf ps ->
  form_parse (URLSearchParams_toString ps) = map (fun p => (Some (fst p), Some (snd p))) ps.
Proof.
  intros Hne Hps. unfold form_parse. rewrite split_pairs by done. clear Hne.
  induction Hps as [|p ps Hp _ IH]; [done|]. cbn [map]. rewrite filter_cons_True by apply form_pair_nonempty.
  cbn [map]. rewrite form_pair_field by done. f_equal. exact IH.
Qed.

Definition scope_wf (s : ConfigScope) : Prop :=
  forallb Utf.well_formed [app_id s; environment s; cluster s; namespace s] = true.

(** C28: The query of a scope carries the scope: a form parser reads the four names
    with the four components back from [scopeQuery], whatever characters they have,
    so different scopes have different queries. *)
Theorem scope_query_roundtrip (s : ConfigScope) :
  scope_wf s ->
  form_parse (scopeQuery s) =
    [(Some (js "app_id"), Some (app_id s)); (Some (js "environment"), Some (environment s));
     (Some (js "cluster"), Some (cluster s)); (Some (js "namespace"), Some (namespace s))].
Proof.
  unfold scope_wf. cbn [forallb]. rewrite !andb_true_iff. intros (H1 & H2 & H3 & H4 & _).
  apply form_parse_pairs; [done|]. by repeat constructor.
Qed.

Lemma scope_query_roundtrip_witness :
  let s := mkScope (js "a&b") (js "pro d") (js "100%") (js "x=y") in
  form_parse (scopeQuery s) =
    [(Some (js "app_id"), Some (js "a&b")); (Some (js "environment"), Some (js "pro d"));
     (Some (js "cluster"), Some (js "100%")); (Some (js "namespace"), Some (js "x=y"))].
Proof. exact (scope_query_roundtrip (mkScope (js "a&b") (js "pro d") (js "100%") (js "x=y")) eq_refl). Defined.

(** ** Scope ids *)
Definition no_slash (s : jsstr) : Prop := 47 ∉ s.

Lemma slash_cancel a b c d : no_slash a -> no_slash c -> a ++ 47 :: b = c ++ 47 :: d -> a = c /\ b = d.
Proof.
  intros Ha Hc H. apply (f_equal (cut 47)) in H. rewrite !cut_app in H by done. by injection H.
Qed.

Lemma scopeId_injective s s' :
  no_slash (app_id s) -> no_slash (environment s) -> no_slash (cluster s) ->
  no_slash (app_id s') -> no_slash (environment s') -> no_slash (cluster s') ->
  scopeId s = scopeId s' -> s = s'.
Proof.
  destruct s as [a b c d], s' as [a' b' c' d']. cbn. intros Ha Hb Hc Ha' Hb' Hc' H.
  apply (slash_cancel a _ a') in H as [-> H]; [|done..].
  apply (slash_cancel b _ b') in H as [-> H]; [|done..].
  apply (slash_cancel c _ c') in H as [-> H]; [|done..]. by subst.
Qed.

(** ** Requests *)
Lemma collect_returns {A B} (f : A -> result B) l :
  Forall (fun x => returns (f x)) l -> returns (collect f l).
Proof.
  induction 1 as [|x l Hx _ IH]; [done|]. cbn. apply bind_returns; [done|]. intros y _.
  by apply bind_returns.
Qed.

Lemma collect_throws {A B} (f : A -> result B) l e :
  collect f l = Throw e -> exists x, x ∈ l /\ f x = Throw e.
Proof.
  induction l as [|x l IH]; cbn; [done|]. destruct (f x) as [y|e'|] eqn:E; cbn; [|..|done].
  - destruct (collect f l); cbn; try done. intros H. destruct (IH H) as (z & Hz & Ez).
    exists z. split; [by apply elem_of_cons; right|done].
  - intros [= <-]. exists x. split; [by apply elem_of_cons; left|done].
Qed.

Lemma String_of_returns v : returns (String_of v).
Proof.
  induction v as [|b|n|s|l IH|l IH] using json_ind'; try done; cbn.
  - apply bind_returns; [|done]. apply collect_returns. eapply Forall_impl; [exact IH|]. by intros [].
  - by destruct (find_prop _ l).
Qed.

Lemma String_of_throws v e : String_of v = Throw e -> exists m, e = TypeErrorOf m.
Proof.
  revert e. induction v as [|b|n|s|l IH|l IH] using json_ind'; cbn; try done; intros e.
  - destruct (collect _ l) eqn:E; cbn; try done. intros [= <-].
    apply collect_throws in E as (x & Hx & E). rewrite Forall_forall in IH.
    apply (IH x Hx). by destruct x.
  - destruct (find_prop _ l); [|done]. intros [= <-]. eauto.
Qed.

(** An [Error] object, whose message [errorMessage] shows *)
Definition is_Error (e : thrown) : Prop := exists o, e = ThrownObject o /\ eo_isError o = true.

Lemma failure_message_settles r :
  match failure_message r with Ok _ => True | Throw e => is_Error e | OutOfFuel => False end.
Proof.
  unfold failure_message. destruct (Json.parse (rs_text r)) as [v|e|] eqn:E; cbn -[get_prop];
    [|done|by apply (Json.parse_returns (rs_text r))].
  destruct (get_prop (js "message") v) as [[m|]|e|] eqn:Em; [|done|done|by destruct v].
  assert (match String_of m with Ok _ => True | Throw e => is_Error e | OutOfFuel => False end) as H.
  { destruct (String_of m) eqn:Es; [done| |by apply (String_of_returns m)].
    apply String_of_throws in Es as [msg ->]. by eexists. }
  by destruct m.
Qed.

(** C31: Once the browser's [fetch] has settled, every request of the console settles,
    with parsed JSON or with an [Error] whose message the console shows: [fetchJson]
    never waits in a loop of its own and never rejects with anything else. *)
Theorem api_calls_settle {W} {B : Browser W} token path init w :
  match fst (fetchJson token path init w) with
  | Ok _ => True
  | Throw e => is_Error e
  | OutOfFuel => False
  end.
Proof.
  unfold fetchJson. destruct (fetch _ _ w) as [o w']. cbn. destruct o as [e|r]; cbn; [by eexists|].
  destruct (rs_ok r); cbn.
  - destruct (Json.parse (rs_text r)) as [v|e|] eqn:E; [done| |by apply (Json.parse_returns (rs_text r))].
    apply Json.parse_throws in E as ->. by eexists.
  - pose proof (failure_message_settles r) as H.
    destruct (failure_message r); cbn; [by eexists|done..].
Qed.

Lemma set_authorization v :
  set_header (js "Authorization") v [(js "Accept", js "application/json")]
  = [(js "Accept", js "application/json"); (js "Authorization", v)].
Proof. reflexivity. Qed.

(** C32: What the console shows for a failed request: "Admin API unavailable" when
    [fetch] rejects, the server's [message] when an error response has one, and
    the status otherwise, also when the body is not JSON. *)
Theorem api_error_messages {W} {B : Browser W} token path init w o w' :
  fetch path {| ri_method := ri_method init;
                ri_headers := spread (match truthy token with
                  | Some t => [(js "Accept", js "application/json"); (js "Authorization", js "Bearer " ++ t)]
                  | None => [(js "Accept", js "application/json")] end) (ri_headers init);
                ri_body := ri_body init |} w = (o, w') ->
  (forall e, o = inl e ->
     fetchJson token path init w = (Throw (newError (js "Admin API unavailable")), w'))
  /\ (forall r v m, o = inr r -> rs_ok r = false -> Json.parse (rs_text r) = Ok (JObject v) ->
        find_prop (js "message") v = Some (JString m) ->
        fetchJson token path init w = (Throw (newError m), w'))
  /\ (forall r, o = inr r -> rs_ok r = false ->
        (forall v, Json.parse (rs_text r) = Ok v -> get_prop (js "message") v = Ok None) ->
        fetchJson token path init w =
          (Throw (newError (js "Request failed with " ++ Decimal.of_Z (rs_status r))), w'))
  /\ (forall r v, o = inr r -> rs_ok r = true -> Json.parse (rs_text r) = Ok v ->
        fetchJson token path init w = (Ok v, w')).
Proof.
  intros Hf. assert (fetchJson token path init w = (responseJson o, w')) as ->.
  { unfold fetchJson. cbv zeta. destruct token as [[|u t]|]; cbn [truthy] in *;
      rewrite ?set_authorization; destruct (fetch _ _ w) as [o1 w1] eqn:E;
      first [by injection Hf as -> -> | by pose proof (eq_trans (eq_sym E) Hf) as [= -> ->]]. }
  split_and!.
  - by intros e ->.
  - intros r v m -> Hok Hv Hm. cbn. rewrite Hok. cbn. unfold failure_message. rewrite Hv. cbn.
    by rewrite Hm.
  - intros r -> Hok Hv. cbn. rewrite Hok. cbn. unfold failure_message.
    pose proof (Json.parse_returns (rs_text r)) as Hr.
    destruct (Json.parse (rs_text r)) as [v|e|]; cbn -[get_prop]; [|done|done]. by rewrite (Hv v).
  - intros r v -> Hok Hv. cbn. rewrite Hok. cbn. by rewrite Hv.
Qed.

(** ** Metrics *)
Fixpoint sumZ (zs : list Z) : Z := match zs with [] => 0 | z :: zs => z + sumZ zs end.

Lemma sum_nonneg zs : Forall (fun z => 0 <= z) zs -> 0 <= sumZ zs.
Proof. induction 1; cbn in *; lia. Qed.

Lemma sumZ_permutation zs zs' : zs ≡ₚ zs' -> sumZ zs = sumZ zs'.
Proof. induction 1; cbn; lia. Qed.

Lemma sum_errors_from methods zs total :
  map mm_errors methods = map Num.of_Z zs -> Forall (fun z => 0 <= z) zs -> 0 <= total ->
  total + sumZ zs <= 2 ^ 53 ->
  fold_left (fun t m => Num.add t (mm_errors m)) methods (Num.of_Z total) = Num.of_Z (total + sumZ zs).
Proof.
  revert zs total. induction methods as [|m ms IH]; intros [|z zs] total E Hz Ht Hs; cbn in *;
    try discriminate; [f_equal; lia|].
  apply Forall_cons in Hz as [Hz Hzs]. injection E as Em Ems. pose proof (sum_nonneg zs Hzs).
  rewrite Em, Num.add_of_Z by lia. rewrite (IH zs) by (done || lia). f_equal. lia.
Qed.

(** C33: The error count of the overview is the exact sum of the methods' error
    counts, in any order, as long as the sum is at most 2^53. *)
Theorem sum_errors_exact methods zs :
  map mm_errors methods = map Num.of_Z zs -> Forall (fun z => 0 <= z) zs -> sumZ zs <= 2 ^ 53 ->
  sumErrors methods = Num.of_Z (sumZ zs) /\ Num.int_value (sumErrors methods) = Some (sumZ zs)
  /\ (forall methods', methods ≡ₚ methods' -> sumErrors methods' = sumErrors methods).
Proof.
  intros E Hz Hs. pose proof (sum_nonneg zs Hz).
  assert (forall ms zs, map mm_errors ms = map Num.of_Z zs -> Forall (fun z => 0 <= z) zs ->
            sumZ zs <= 2 ^ 53 -> sumErrors ms = Num.of_Z (sumZ zs)) as Hsum.
  { intros ms zs' E' Hz' Hs'. by rewrite <- (Z.add_0_l (sumZ zs')), <- (sum_errors_from ms zs' 0). }
  rewrite (Hsum methods zs E Hz Hs). split_and!; [done|apply Num.int_value_of_Z; lia|].
  intros ms' Hp. apply (Permutation_map mm_errors) in Hp. rewrite E in Hp.
  symmetry in Hp. apply Permutation_map_inv in Hp as (zs' & E' & Hp').
  assert (sumZ zs' = sumZ zs) as Es by (symmetry; by apply sumZ_permutation).
  rewrite <- Es. apply Hsum; [done| |by rewrite Es]. by rewrite <- Hp'.
Qed.

(** ** Witnesses *)
#[local] Instance sample_browser : Browser Z := {|
  fetch path init w :=
    (if bool_decide (path = js "/missing")
     then inr (mkResponse 404 (Json.stringify (JObject [(js "message", JString (js "no such page"))])))
     else inr (mkResponse 200 (js "[1]")), w + 1) |}.

Lemma api_error_messages_witness :
  fetchJson (Some (js "t")) (js "/missing") no_init 0 = (Throw (newError (js "no such page")), 1).
Proof.
  destruct (api_error_messages (B := sample_browser) (Some (js "t")) (js "/missing") no_init 0
    (inr (mkResponse 404 (Json.stringify (JObject [(js "message", JString (js "no such page"))])))) 1 eq_refl)
    as (_ & H & _).
  exact (H _ [(js "message", JString (js "no such page"))] (js "no such page")
    eq_refl eq_refl eq_refl eq_refl).
Defined.

Lemma sum_errors_exact_witness :
  let m n := mkMetric (js "cache") (js "Get") (js "ok") (Num.of_Z 10) (Num.of_Z n) (Num.of_Z 3) in
  sumErrors [m 2; m 5; m 0] = Num.of_Z 7.
Proof.
  intros m. refine (proj1 (sum_errors_exact [m 2; m 5; m 0] [2; 5; 0] eq_refl _ _));
    [repeat constructor; lia|cbn; lia].
Defined.
