(* ===== verification/AdminState.v ===== *)
(** * Loading data in the admin console

    [useAsyncData] of [apps/admin-ui/src/App.tsx] as a state machine.  React runs
    the effect when a dependency changes, after the cleanup of the previous run,
    and the cleanup alone on unmount; promises settle in any order.  The hook keeps
    one [cancelled] variable per run of the effect. *)

From Stdlib Require Import ZArith Lia.
From stdpp Require Import base list numbers option strings.
From S2P Require Import Prelude JsString Json AdminApi.

Inductive LoadState (T : Type) :=
  | loading
  | error (message : jsstr)
  | ready (data : T).
Arguments loading {T}.
Arguments error {T} _.
Arguments ready {T} _.

(** One run of the effect: its [cancelled] variable, and whether its promise is
    still to settle. *)
Record effect := mkEffect { ef_cancelled : bool; ef_pending : bool }.

Section Hook.
Context {T : Type}.

Record hook := mkHook {
  hk_state : LoadState T;
  hk_effects : list effect;
  hk_mounted : bool
}.

(** [useState({ status: "loading" })], before the first effect *)
Definition initial : hook := mkHook loading [] true.

Definition cancel (e : effect) : effect := mkEffect true (ef_pending e).
Definition settle_effect (e : effect) : effect := mkEffect (ef_cancelled e) false.

(** The cleanup of the latest effect *)
Definition cleanup (effects : list effect) : list effect :=
  alter cancel (pred (length effects)) effects.

(** The body of the effect, after the cleanup of the previous one *)
Definition runEffect (enabled : bool) (h : hook) : hook :=
  let effects := cleanup (hk_effects h) in
  if enabled
  then mkHook loading (effects ++ [mkEffect false true]) (hk_mounted h)
  else mkHook (error (js "Admin token required")) (effects ++ [mkEffect false false]) (hk_mounted h).

(** The callbacks of [then] and [catch] of the [i]-th run *)
Definition setUnlessCancelled (i : nat) (s : LoadState T) (h : hook) : hook :=
  let cancelled := from_option ef_cancelled true (hk_effects h !! i) in
  mkHook (if negb cancelled then s else hk_state h) (alter settle_effect i (hk_effects h)) (hk_mounted h).
Definition onResolve (i : nat) (data : T) (h : hook) : hook := setUnlessCancelled i (ready data) h.
Definition onReject (i : nat) (e : thrown) (h : hook) : hook :=
  setUnlessCancelled i (error (errorMessage e)) h.

Definition unmount (h : hook) : hook := mkHook (hk_state h) (cleanup (hk_effects h)) false.

(** ** Steps *)
Inductive event :=
  | Run (enabled : bool)
  | Resolve (i : nat) (data : T)
  | Reject (i : nat) (e : thrown)
  | Unmount.

Definition pending (i : nat) (h : hook) : Prop :=
  exists e, hk_effects h !! i = Some e /\ ef_pending e = true.

Inductive step : hook -> event -> hook -> Prop :=
  | step_run h enabled : hk_mounted h = true -> step h (Run enabled) (runEffect enabled h)
  | step_resolve h i data : pending i h -> step h (Resolve i data) (onResolve i data h)
  | step_reject h i e : pending i h -> step h (Reject i e) (onReject i e h)
  | step_unmount h : hk_mounted h = true -> step h Unmount (unmount h).

Inductive steps : hook -> list event -> hook -> Prop :=
  | steps_nil h : steps h [] h
  | steps_cons h ev h' evs h'' : step h ev h' -> steps h' evs h'' -> steps h (ev :: evs) h''.

Lemma steps_app h evs evs' h'' :
  steps h (evs ++ evs') h'' -> exists h', steps h evs h' /\ steps h' evs' h''.
Proof.
  revert h. induction evs as [|ev evs IH]; intros h; cbn; [eauto using steps_nil|].
  intros H. inversion H as [|? ? h1 ? ? Hs Hr]; subst.
  apply IH in Hr as (h' & H1 & H2). eauto using steps_cons.
Qed.

(** ** The invariant: only the latest run can still set the state. *)
Definition stale (effects : list effect) : Prop :=
  forall i e, effects !! i = Some e -> (S i < length effects)%nat -> ef_cancelled e = true.
Definition all_cancelled (effects : list effect) : Prop :=
  forall i e, effects !! i = Some e -> ef_cancelled e = true.
Definition inv (h : hook) : Prop :=
  stale (hk_effects h) /\ (hk_mounted h = false -> all_cancelled (hk_effects h)).

Lemma length_cleanup es : length (cleanup es) = length es.
Proof. apply length_alter. Qed.

Lemma cleanup_cancels es : stale es -> all_cancelled (cleanup es).
Proof.
  intros Hs i e. unfold cleanup. destruct (decide (i = pred (length es))) as [->|Hne].
  - rewrite list_lookup_alter_eq. destruct (es !! _); cbn; [by intros [= <-]|done].
  - rewrite list_lookup_alter_ne by done. intros Hi. pose proof (lookup_lt_Some _ _ _ Hi).
    apply (Hs i); [done|lia].
Qed.

Lemma settle_cancelled (i j : nat) (es : list effect) e :
  alter settle_effect i es !! j = Some e ->
  exists e', es !! j = Some e' /\ ef_cancelled e' = ef_cancelled e.
Proof.
  destruct (decide (i = j)) as [->|Hne].
  - rewrite list_lookup_alter_eq. destruct (es !! j) as [e'|]; cbn; [intros [= <-]; eauto|done].
  - rewrite list_lookup_alter_ne by done. eauto.
Qed.

Lemma set_inv i s h : inv h -> inv (setUnlessCancelled i s h).
Proof.
  intros [Hs Hm]. split; cbn.
  - intros j e Hj Hlt. rewrite length_alter in Hlt.
    apply settle_cancelled in Hj as (e' & Hj & <-). by apply (Hs j).
  - intros Hu j e Hj. apply settle_cancelled in Hj as (e' & Hj & <-). by apply (Hm Hu j).
Qed.

Lemma step_inv h ev h' : inv h -> step h ev h' -> inv h'.
Proof.
  intros Hinv Hstep. destruct Hstep as [h enabled Hm|h i data _|h i e _|h Hm];
    [|by apply set_inv|by apply set_inv|].
  - destruct Hinv as [Hs _]. pose proof (cleanup_cancels _ Hs) as Hc.
    assert (forall p, inv (mkHook (hk_state h) (cleanup (hk_effects h) ++ [mkEffect false p]) true)) as H.
    { intros p. split; cbn; [|done]. intros i e Hi Hlt. rewrite length_app in Hlt. cbn in Hlt.
      rewrite lookup_app_l in Hi by lia. by apply (Hc i). }
    unfold runEffect. destruct enabled; rewrite Hm; [apply (H true)|apply (H false)].
  - destruct Hinv as [Hs _]. pose proof (cleanup_cancels _ Hs) as Hc.
    split; cbn; [intros i e Hi _; by apply (Hc i)|intros _; exact Hc].
Qed.

Lemma steps_inv h evs h' : inv h -> steps h evs h' -> inv h'.
Proof. intros Hi Hs. induction Hs; eauto using step_inv. Qed.

Lemma initial_inv : inv initial.
Proof. split; [by intros i e ?|done]. Qed.

(** ** What is shown *)
Definition is_run (ev : event) : bool := match ev with Run _ => true | _ => false end.

(** How many runs a trace has; runs are numbered from 0. *)
Definition runs (evs : list event) : nat := length (List.filter is_run evs).

(** What the [n]-th run shows after the events that follow it, up to the next run:
    its own result once it settled while mounted, and otherwise "loading". *)
Fixpoint shown (n : nat) (evs : list event) : LoadState T :=
  match evs with
  | Resolve i data :: evs => if Nat.eqb i n then ready data else shown n evs
  | Reject i e :: evs => if Nat.eqb i n then error (errorMessage e) else shown n evs
  | Unmount :: _ => loading
  | Run _ :: evs => shown n evs
  | [] => loading
  end.

Lemma length_effects h ev h' :
  step h ev h' -> length (hk_effects h') = (runs [ev] + length (hk_effects h))%nat.
Proof.
  intros Hs. destruct Hs as [h [] _|h i data _|h i e _|h _]; cbn;
    rewrite ?length_app, ?length_cleanup, ?length_alter; cbn; lia.
Qed.

Lemma length_effects_steps h evs h' :
  steps h evs h' -> length (hk_effects h') = (runs evs + length (hk_effects h))%nat.
Proof.
  induction 1 as [|h ev h1 evs h2 Hs _ IH]; [done|]. rewrite IH, (length_effects _ _ _ Hs).
  unfold runs. cbn. destruct (is_run ev); cbn; lia.
Qed.

(** An effect that is cancelled, or has settled, no longer changes the state. *)
Definition silent (h : hook) : Prop :=
  forall i e, hk_effects h !! i = Some e -> ef_cancelled e = true \/ ef_pending e = false.

Lemma set_silent i s h : silent h -> pending i h ->
  hk_state (setUnlessCancelled i s h) = hk_state h /\ silent (setUnlessCancelled i s h).
Proof.
  intros Hq (e & He & Hp). split.
  - cbn. rewrite He. cbn. destruct (Hq i e He) as [->| H]; [done|congruence].
  - intros j e'. cbn. destruct (decide (i = j)) as [->|Hne].
    + rewrite list_lookup_alter_eq, He. cbn. intros [= <-]. by right.
    + rewrite list_lookup_alter_ne by done. apply Hq.
Qed.

Lemma silent_steps h evs h' :
  steps h evs h' -> silent h -> forallb (fun ev => negb (is_run ev)) evs = true ->
  hk_state h' = hk_state h.
Proof.
  induction 1 as [|h ev h1 evs h2 Hs _ IH]; [done|]. cbn. intros Hq [Hev Hevs]%andb_prop.
  destruct Hs as [h enabled _|h i data Hp|h i e Hp|h _]; [done|..].
  - destruct (set_silent i (ready data) h Hq Hp) as [E Hq']. by rewrite IH.
  - destruct (set_silent i (error (errorMessage e)) h Hq Hp) as [E Hq']. by rewrite IH.
  - rewrite IH; [done| |done]. intros i e. cbn. unfold cleanup.
    destruct (decide (pred (length (hk_effects h)) = i)) as [<-|Hne].
    + rewrite list_lookup_alter_eq. destruct (_ !! _); cbn; [intros [= <-]; by left|done].
    + rewrite list_lookup_alter_ne by done. apply Hq.
Qed.

(** The [n]-th run is the latest, and its promise has not settled. *)
Record awaiting (n : nat) (h : hook) : Prop := {
  aw_stale : stale (hk_effects h);
  aw_latest : length (hk_effects h) = S n;
  aw_effect : hk_effects h !! n = Some (mkEffect false true);
  aw_state : hk_state h = loading
}.

Lemma awaiting_settles n s h : awaiting n h ->
  hk_state (setUnlessCancelled n s h) = s /\ silent (setUnlessCancelled n s h).
Proof.
  intros [Hs Hl He _]. cbn. rewrite He. split; [done|]. intros j e. cbn.
  destruct (decide (n = j)) as [<-|Hne].
  - rewrite list_lookup_alter_eq, He. cbn. intros [= <-]. by right.
  - rewrite list_lookup_alter_ne by done. intros Hj. left. apply (Hs j); [done|].
    pose proof (lookup_lt_Some _ _ _ Hj). lia.
Qed.

Lemma awaiting_other n i s h : awaiting n h -> pending i h -> i <> n ->
  awaiting n (setUnlessCancelled i s h).
Proof.
  intros [Hs Hl He Hst] (e & Hi & Hp) Hne. pose proof (lookup_lt_Some _ _ _ Hi).
  assert (ef_cancelled e = true) as Hc by (apply (Hs i); [done|lia]).
  split; cbn; rewrite ?length_alter, ?list_lookup_alter_ne, ?Hi by done; cbn; rewrite ?Hc; try done.
  intros j e' Hj Hlt. rewrite length_alter in Hlt. apply settle_cancelled in Hj as (e'' & Hj & <-).
  by apply (Hs j).
Qed.

Lemma awaiting_shown n h evs h' :
  steps h evs h' -> awaiting n h -> forallb (fun ev => negb (is_run ev)) evs = true ->
  hk_state h' = shown n evs.
Proof.
  induction 1 as [h|h ev h1 evs h2 Hs Hr IH]; [by intros []|]. cbn [forallb]. intros Ha [Hev Hevs]%andb_prop.
  destruct Hs as [h enabled _|h i data Hp|h i e Hp|h _]; [done|..]; cbn [shown].
  - destruct (Nat.eqb_spec i n) as [->|Hne]; [|by apply IH; [apply awaiting_other|]].
    destruct (awaiting_settles n (ready data) h Ha) as [E Hq].
    by rewrite (silent_steps _ _ _ Hr Hq Hevs).
  - destruct (Nat.eqb_spec i n) as [->|Hne]; [|by apply IH; [apply awaiting_other|]].
    destruct (awaiting_settles n (error (errorMessage e)) h Ha) as [E Hq].
    by rewrite (silent_steps _ _ _ Hr Hq Hevs).
  - destruct Ha as [Hst _ _ Hl]. rewrite (silent_steps _ _ _ Hr) by
      (try done; intros i e Hi; left; by apply (cleanup_cancels _ Hst i)). exact Hl.
Qed.

Lemma run_awaits h : inv h -> awaiting (length (hk_effects h)) (runEffect true h).
Proof.
  intros [Hs Hm]. pose proof (cleanup_cancels _ Hs) as Hc. split; cbn.
  - intros i e Hi Hlt. rewrite length_app in Hlt. cbn in Hlt. rewrite lookup_app_l in Hi by lia.
    by apply (Hc i).
  - rewrite length_app, length_cleanup. cbn. lia.
  - rewrite lookup_app_r by (rewrite length_cleanup; lia). by rewrite length_cleanup, Nat.sub_diag.
  - done.
Qed.

Lemma disabled_silent h : inv h -> silent (runEffect false h).
Proof.
  intros [Hs _] i e. cbn. pose proof (cleanup_cancels _ Hs) as Hc.
  intros [Hi|[_ Hi]]%lookup_app_Some; [left; by apply (Hc i)|].
  apply list_lookup_singleton_Some in Hi as [_ <-]. by right.
Qed.
End Hook.
Arguments hook : clear implicits.
Arguments event : clear implicits.

(** C8: [useAsyncData] never shows stale data.  In every history of runs of the
    effect (a run per change of its dependencies), settled promises in any order
    and unmounting, the hook shows the result of the latest run, "loading" until its
    promise settles, and "Admin token required" when it ran disabled; results of
    earlier runs and results after unmounting are ignored. *)
Theorem no_stale_data (T : Type) (before after : list (event T)) enabled h :
  steps initial (before ++ Run enabled :: after) h ->
  forallb (fun ev => negb (is_run ev)) after = true ->
  hk_state h = if enabled then shown (runs before) after else error (js "Admin token required").
Proof.
  intros (h1 & H1 & H2)%steps_app Hafter. pose proof (steps_inv _ _ _ initial_inv H1) as Hinv.
  pose proof (length_effects_steps _ _ _ H1) as Hlen. cbn in Hlen. rewrite Nat.add_0_r in Hlen.
  inversion H2 as [|? ? h2 ? ? Hs Hr]; subst. inversion Hs; subst. destruct enabled.
  - rewrite <- Hlen. apply (awaiting_shown _ _ _ _ Hr); [by apply run_awaits|done].
  - by rewrite (silent_steps _ _ _ Hr (disabled_silent _ Hinv) Hafter).
Qed.

(** Two runs; the promise of the first settles after that of the second. *)
Lemma no_stale_data_witness :
  exists h : hook Z,
    steps initial [Run true; Run true; Resolve 1 20; Resolve 0 10] h /\ hk_state h = ready 20.
Proof.
  eexists. refine ((fun H => conj H (no_stale_data Z [Run true] [Resolve 1 20; Resolve 0 10] true _ H eq_refl)) _).
  repeat (eapply steps_cons; [constructor; first [reflexivity|eexists; split; reflexivity]|]).
  apply steps_nil.
Defined.
