(* ===== verification/AdminViews.v ===== *)
(** * The views of the admin console

    The state and the event handlers of the components of
    [apps/admin-ui/src/App.tsx].  A handler is a function on the component's state
    and the state [W] of the far end; the token is what the session storage
    holds when it runs.  A state variable that is set twice in one handler has its
    last value; the value in between is what the user sees while the request
    runs. *)

From Stdlib Require Import ZArith Lia.
From stdpp Require Import base list numbers option strings.
From S2P Require Import Prelude JsString JsNumber Json Rpc AdminApi AdminState.

(** ** The application and its token *)
Inductive View := overview | cache | mq | config | logs | clients.
#[export] Instance View_eq_dec : EqDecision View.
Proof. solve_decision. Defined.

Definition navItems : list (View * jsstr) :=
  [(overview, js "Overview"); (cache, js "Cache"); (mq, js "MQ"); (config, js "Config");
   (logs, js "Logs"); (clients, js "Clients")].

Module App.
(** The state of [App], and the item "pgapp_admin_token" of the session storage *)
Record t := mk { view : View; tokenReady : bool; storage : option jsstr }.

(** The first render *)
Definition init (storage : option jsstr) : t :=
  mk overview (match truthy storage with Some _ => true | None => false end) storage.

Definition setView (v : View) (a : t) : t := mk v (tokenReady a) (storage a).

(** The component below the page head *)
Inductive content := ShowTokenPrompt | ShowView (v : View).
Definition body (a : t) : content := if tokenReady a then ShowView (view a) else ShowTokenPrompt.

(** [onSubmit] of [TokenPrompt], with [onSave] of [App] *)
Definition submitToken (value : jsstr) (a : t) : t :=
  match Text.trim value with
  | [] => a
  | trimmed => mk (view a) true (Some trimmed)
  end.

(** The effect of [useAsyncData] for the overview: enabled by [tokenReady] *)
Definition overviewRequest {W} {B : Browser W} (a : t) : remote W json :=
  fetchJson (storage a) (js "/api/admin/overview") no_init.
End App.

(** ** Pages *)
Record Page (T : Type) := mkPage {
  items : list T;
  limit : Z;
  offset : Z;
  next_offset : option Z
}.
Arguments mkPage {T} _ _ _ _.
Arguments items {T} _.

(** ** Queues *)
Record QueueSummary := mkQueue {
  qs_name : jsstr;
  qs_visible : number;
  qs_in_flight : number;
  qs_archived : number
}.

Module MqView.
Section View.
Context {W : Type} {B : Browser W}.
Variable token : option jsstr.

(** [queues.status === "ready" ? queues.data.items[0]?.name : undefined] *)
Definition selectedQueue (queues : LoadState (Page QueueSummary)) : option jsstr :=
  match queues with
  | ready page => qs_name <$> head (items page)
  | _ => None
  end.

Definition empty_page : json :=
  JObject [(js "items", JArray []); (js "limit", JNumber (Num.of_Z 50));
           (js "offset", JNumber (Num.of_Z 0)); (js "next_offset", JNull)].

Definition queue_path (q rest : jsstr) : jsstr := js "/api/admin/mq/queues/" ++ q ++ rest.

(** The factories of the two tables of the selected queue *)
Definition loadMessages (selectedQueue : option jsstr) : remote W json :=
  match truthy selectedQueue with
  | None => mret empty_page
  | Some q => fetchJson token (queue_path q (js "/messages?limit=50&offset=0")) no_init
  end.
Definition loadDlq (selectedQueue : option jsstr) : remote W json :=
  match truthy selectedQueue with
  | None => mret empty_page
  | Some q => fetchJson token (queue_path q (js "/dlq?limit=50&offset=0")) no_init
  end.

Definition reprocessDlq (selectedQueue : option jsstr) (messageId : number) (feedback : jsstr) (w : W)
    : jsstr * W :=
  match truthy selectedQueue with
  | None => (feedback, w)
  | Some q =>
      match postAction token (queue_path q (js "/dlq/" ++ Num.toString messageId ++ js "/reprocess")) w with
      | (Ok _, w) => (js "Reprocessed " ++ Num.toString messageId, w)
      | (Throw err, w) => (errorMessage err, w)
      | (OutOfFuel, w) => ([], w)
      end
  end.

Definition purgeDlq (selectedQueue : option jsstr) (feedback : jsstr) (w : W) : jsstr * W :=
  match truthy selectedQueue with
  | None => (feedback, w)
  | Some q =>
      let '(r, w) := postAction token (queue_path q (js "/dlq/purge")) w in
      match result ← r; count ← get_prop (js "deleted_count") result; String_of_optional count with
      | Ok count => (js "Purged " ++ count, w)
      | Throw err => (errorMessage err, w)
      | OutOfFuel => ([], w)
      end
  end.
End View.
End MqView.

(** ** Config *)
Record ConfigScopeSummary := mkSummary { cs_scope : ConfigScope; cs_current_revision : number }.

Module ConfigView.
(** The scope whose details are shown *)
Definition selected (scopes : list ConfigScopeSummary) (selectedScopeId : jsstr) : option ConfigScope :=
  match List.find (fun item => bool_decide (scopeId (cs_scope item) = selectedScopeId)) scopes with
  | Some item => Some (cs_scope item)
  | None => cs_scope <$> head scopes
  end.

(** [onClick] of the row of a scope in [ScopeList] *)
Definition onSelect (item : ConfigScopeSummary) : jsstr := scopeId (cs_scope item).
End ConfigView.

Record ConfigDraftItem := mkDraftItem {
  di_key : jsstr;
  di_value : json;
  di_deleted : bool;
  di_updated_at : jsstr
}.
Record ConfigDraft := mkDraft { cd_scope : ConfigScope; cd_items : list ConfigDraftItem }.
Record ConfigSchemaResponse := mkSchema {
  cs_schema_scope : ConfigScope;
  has_schema : bool;
  schema : json
}.

Module ConfigDetails.
Record t := mk {
  selectedKey : jsstr;
  jsonValue : jsstr;
  schemaValue : jsstr;
  feedback : jsstr
}.
(** ["{\n}"] *)
Definition empty_object : jsstr := [123; 10; 125].
Definition initial : t := mk (js "") empty_object empty_object (js "").
Definition setFeedback (f : jsstr) (s : t) : t := mk (selectedKey s) (jsonValue s) (schemaValue s) f.
Definition setEditor (k v : jsstr) (s : t) : t := mk k v (schemaValue s) (feedback s).
Definition setSchemaValue (v : jsstr) (s : t) : t := mk (selectedKey s) (jsonValue s) v (feedback s).

(** [onChange] of the key and the value; that of the schema is [setSchemaValue]. *)
Definition editKey (k : jsstr) (s : t) : t := setEditor k (jsonValue s) s.
Definition editValue (v : jsstr) (s : t) : t := setEditor (selectedKey s) v s.

(** The effect on the draft: the first item that is not deleted, or the first *)
Definition draftEffect (draft : LoadState ConfigDraft) (s : t) : t :=
  match draft with
  | ready data =>
      let first := match List.find (fun item => negb (di_deleted item)) (cd_items data) with
                   | Some item => Some item
                   | None => head (cd_items data)
                   end in
      match first with
      | None => setEditor (js "") empty_object s
      | Some first => setEditor (di_key first) (Json.stringify2 (di_value first)) s
      end
  | _ => s
  end.

Definition schemaEffect (response : LoadState ConfigSchemaResponse) (s : t) : t :=
  match response with
  | ready data => setSchemaValue (if has_schema data then Json.stringify2 (schema data) else empty_object) s
  | _ => s
  end.

Section Handlers.
Context {W : Type} {B : Browser W}.
Variable token : option jsstr.
Variable scope : ConfigScope.

(** The body of the request of [saveItem] *)
Definition item_body (key : jsstr) (value : json) : json :=
  JObject [(js "scope", scope_json scope); (js "key", JString key); (js "value", value)].

(** [try { await request; onSuccess } catch (error) { setFeedback(errorMessage(error)) }] *)
Definition attempt (request : remote W json) (onSuccess : t -> t) (s : t) (w : W) : t * W :=
  match request w with
  | (Ok _, w) => (onSuccess s, w)
  | (Throw err, w) => (setFeedback (errorMessage err) s, w)
  | (OutOfFuel, w) => (s, w)
  end.

Definition saveItem (s : t) (w : W) : t * W :=
  let s := setFeedback (js "") s in
  match Json.parse (jsonValue s) with
  | Throw _ => (setFeedback (js "Invalid JSON") s, w)
  | OutOfFuel => (s, w)
  | Ok parsed =>
      match Text.trim (selectedKey s) with
      | [] => (setFeedback (js "Key required") s, w)
      | key => attempt (sendJson token (js "/api/admin/config/items") (js "PUT") (item_body key parsed))
                 (setFeedback (js "Draft saved")) s w
      end
  end.

Definition saveSchema (s : t) (w : W) : t * W :=
  let s := setFeedback (js "") s in
  match Json.parse (schemaValue s) with
  | Throw _ => (setFeedback (js "Invalid JSON Schema") s, w)
  | OutOfFuel => (s, w)
  | Ok parsed =>
      attempt (sendJson token (js "/api/admin/config/schema") (js "PUT")
                 (JObject [(js "scope", scope_json scope); (js "schema", parsed)]))
        (setFeedback (js "Schema saved")) s w
  end.

Definition removeSchema (s : t) (w : W) : t * W :=
  let s := setFeedback (js "") s in
  attempt (deleteAction token (js "/api/admin/config/schema?" ++ scopeQuery scope))
    (fun s => setFeedback (js "Schema removed") (setSchemaValue empty_object s)) s w.

Definition publish (s : t) (w : W) : t * W :=
  let s := setFeedback (js "") s in
  attempt (sendJson token (js "/api/admin/config/releases") (js "POST")
             (JObject [(js "scope", scope_json scope); (js "message", JString (js "Admin UI publish"));
                       (js "published_by", JString (js "admin-ui"))]))
    (setFeedback (js "Release published")) s w.
End Handlers.
End ConfigDetails.

(** ** Client credentials *)
Module ClientsView.
(** [secret] is set from a response, so it can be any parsed value. *)
Record t := mk {
  clientKey : jsstr;
  roles : jsstr;
  secret : option json;
  feedback : jsstr
}.
Definition no_secret : option json := Some (JString []).
Definition initial : t := mk (js "") (js "") no_secret (js "").
Definition setFeedback (f : jsstr) (s : t) : t := mk (clientKey s) (roles s) (secret s) f.
Definition setSecret (x : option json) (s : t) : t := mk (clientKey s) (roles s) x (feedback s).

(** [onChange] of the two inputs *)
Definition editClientKey (k : jsstr) (s : t) : t := mk k (roles s) (secret s) (feedback s).
Definition editRoles (r : jsstr) (s : t) : t := mk (clientKey s) r (secret s) (feedback s).

(** [roles.split(",").map((role) => role.trim()).filter(Boolean)] *)
Definition role_list (roles : jsstr) : list jsstr :=
  filter (fun r => r <> []) (map Text.trim (Text.split 44 roles)).

Section Handlers.
Context {W : Type} {B : Browser W}.
Variable token : option jsstr.

(** What [createClient] and [rotateClient] do with the response: the secret is
    shown before the message is formatted. *)
Definition showCreated (prefix : jsstr) (created : json) (s : t) : t :=
  match x ← get_prop (js "secret") created; k ← get_prop (js "client_key") created; Ok (x, k) with
  | Ok (x, k) =>
      let s := setSecret x s in
      match String_of_optional k with
      | Ok k => setFeedback (prefix ++ k) s
      | Throw err => setFeedback (errorMessage err) s
      | OutOfFuel => s
      end
  | Throw err => setFeedback (errorMessage err) s
  | OutOfFuel => s
  end.

Definition create_body (key : jsstr) (rs : jsstr) : json :=
  JObject [(js "client_key", JString key); (js "roles", JArray (map JString (role_list rs)))].

Definition createClient (s : t) (w : W) : t * W :=
  let s := setSecret no_secret (setFeedback (js "") s) in
  match Text.trim (clientKey s) with
  | [] => (setFeedback (js "Client key required") s, w)
  | key =>
      match sendJson token (js "/api/admin/clients") (js "POST") (create_body key (roles s)) w with
      | (Ok created, w) => (showCreated (js "Created ") created s, w)
      | (Throw err, w) => (setFeedback (errorMessage err) s, w)
      | (OutOfFuel, w) => (s, w)
      end
  end.

Definition rotateClient (clientKey : jsstr) (s : t) (w : W) : t * W :=
  let s := setSecret no_secret (setFeedback (js "") s) in
  match postAction token (js "/api/admin/clients/" ++ clientKey ++ js "/rotate") w with
  | (Ok rotated, w) => (showCreated (js "Rotated ") rotated s, w)
  | (Throw err, w) => (setFeedback (errorMessage err) s, w)
  | (OutOfFuel, w) => (s, w)
  end.

Definition deactivateClient (clientKey : jsstr) (s : t) (w : W) : t * W :=
  let s := setFeedback (js "") s in
  match postAction token (js "/api/admin/clients/" ++ clientKey ++ js "/deactivate") w with
  | (Ok _, w) => (setFeedback (js "Deactivated " ++ clientKey) s, w)
  | (Throw err, w) => (setFeedback (errorMessage err) s, w)
  | (OutOfFuel, w) => (s, w)
  end.
End Handlers.
End ClientsView.
