(* ===== verification/AdminViewTheorems.v ===== *)
(** * Theorems on the views of the admin console *)

From Stdlib Require Import ZArith Lia.
From stdpp Require Import base list numbers option strings.
From S2P Require Import Prelude JsString JsNumber Json Rpc AdminApi AdminState AdminViews AdminApiTheorems.

#[local] Arguments js : simpl never.
#[local] Arguments Json.parse : simpl never.
#[local] Arguments Json.stringify : simpl never.

(** ** The token *)

(** C27: The console asks for a token until it has one, and then sends it: a blank
    value changes nothing; any other value is stored without surrounding white
    space, opens the views, and is the bearer token of the requests that follow. *)
Theorem token_opens_console {W} {B : Browser W} (value : jsstr) (a : App.t) :
  let a' := App.submitToken value a in
  (Text.trim value = [] -> a' = a)
  /\ (Text.trim value <> [] ->
        App.body a' = App.ShowView (App.view a)
        /\ App.storage a' = Some (Text.trim value)
        /\ App.tokenReady (App.init (App.storage a')) = true
        /\ forall path w, fetchJson (App.storage a') path no_init w =
             let '(outcome, w) := fetch path {| ri_method := None;
               ri_headers := [(js "Accept", js "application/json");
                              (js "Authorization", js "Bearer " ++ Text.trim value)];
               ri_body := None |} w in
             (responseJson outcome, w)).
Proof.
  unfold App.submitToken. destruct (Text.trim value) as [|u t]; split; try done.
Qed.

(** ** Scopes *)
Definition slash_free (s : ConfigScope) : Prop :=
  no_slash (app_id s) /\ no_slash (environment s) /\ no_slash (cluster s).

Lemma find_scope items id s :
  (forall item, item ∈ items -> scopeId (cs_scope item) = id -> cs_scope item = s) ->
  (exists item, item ∈ items /\ scopeId (cs_scope item) = id) ->
  ConfigView.selected items id = Some s.
Proof.
  intros Hall (item & Hin & Hid). unfold ConfigView.selected.
  destruct (List.find _ items) as [found|] eqn:E.
  - apply find_some in E as [Hf Hb]. apply bool_decide_eq_true in Hb. f_equal.
    apply Hall; [by apply list_elem_of_In|done].
  - pose proof (find_none _ _ E item (proj1 (list_elem_of_In _ _) Hin)) as Hb. cbn in Hb.
    by rewrite bool_decide_true in Hb.
Qed.

(** C29: Selecting a scope in the list shows that scope.  The server allows no slash
    in the components, and then the row that was clicked is the scope whose
    draft, schema and releases are loaded, however long the list is. *)
Theorem selected_scope_is_shown (items : list ConfigScopeSummary) (item : ConfigScopeSummary) :
  Forall (fun i => slash_free (cs_scope i)) items -> item ∈ items ->
  ConfigView.selected items (ConfigView.onSelect item) = Some (cs_scope item).
Proof.
  intros Hfree Hin. rewrite Forall_forall in Hfree. destruct (Hfree item Hin) as (H1 & H2 & H3).
  apply find_scope; [|by exists item]. intros other Ho Hid.
  destruct (Hfree other Ho) as (H1' & H2' & H3'). by apply scopeId_injective.
Qed.


(** ** Requests with a JSON body *)

(** The request the Admin API is owed: a method, the token as a bearer token
    unless it is empty, and the JSON text of the body *)
Definition json_request (token : option jsstr) (method text : jsstr) : RequestInit :=
  mkInit (Some method)
    ((js "Accept", js "application/json")
     :: match token with Some (u :: r) => [(js "Authorization", js "Bearer " ++ u :: r)] | _ => [] end
     ++ [(js "Content-Type", js "application/json")])
    (Some text).

Lemma sendJson_request {W} {B : Browser W} token path method body w :
  sendJson token path method body w =
    let '(outcome, w') := fetch path (json_request token method (Json.stringify body)) w in
    (responseJson outcome, w').
Proof. by destruct token as [[|u r]|]. Qed.

(** The body of a request that saves [value] under [key] *)
Definition saved_item (scope : ConfigScope) (key : jsstr) (value : json) : json :=
  JObject [(js "scope", JObject [(js "app_id", JString (app_id scope));
                                 (js "environment", JString (environment scope));
                                 (js "cluster", JString (cluster scope));
                                 (js "namespace", JString (namespace scope))]);
           (js "key", JString key);
           (js "value", value)].

(** ** The editors *)

(** C25: Saving is guarded.  [saveItem] sends nothing when the editor does not hold
    JSON or the key is blank, and says so; otherwise it sends one PUT with the token
    whose body is the JSON text of an object with the four components of the
    scope, the trimmed key and the parsed value, and reports the outcome.  The
    editors keep their contents in every case. *)
Theorem save_item_guarded {W} {B : Browser W} token scope (s : ConfigDetails.t) w :
  let '(s', w') := ConfigDetails.saveItem token scope s w in
  ConfigDetails.selectedKey s' = ConfigDetails.selectedKey s
  /\ ConfigDetails.jsonValue s' = ConfigDetails.jsonValue s
  /\ ConfigDetails.schemaValue s' = ConfigDetails.schemaValue s
  /\ match Json.parse (ConfigDetails.jsonValue s) with
     | Ok v =>
         let key := Text.trim (ConfigDetails.selectedKey s) in
         if bool_decide (key = [])
         then ConfigDetails.feedback s' = js "Key required" /\ w' = w
         else
           let '(outcome, w1) := fetch (js "/api/admin/config/items")
             (json_request token (js "PUT") (Json.stringify (saved_item scope key v))) w in
           w' = w1 /\ ConfigDetails.feedback s' =
             match responseJson outcome with
             | Ok _ => js "Draft saved" | Throw e => errorMessage e | OutOfFuel => js ""
             end
     | _ => ConfigDetails.feedback s' = js "Invalid JSON" /\ w' = w
     end.
Proof.
  unfold ConfigDetails.saveItem. cbn [ConfigDetails.setFeedback ConfigDetails.jsonValue ConfigDetails.selectedKey].
  pose proof (Json.parse_returns (ConfigDetails.jsonValue s)) as Hret.
  destruct (Json.parse (ConfigDetails.jsonValue s)) as [v|e|]; [|done|done].
  destruct (Text.trim (ConfigDetails.selectedKey s)) as [|u t]; [done|].
  cbn zeta. rewrite bool_decide_false by done. unfold ConfigDetails.attempt.
  rewrite sendJson_request. change (ConfigDetails.item_body scope (u :: t) v) with (saved_item scope (u :: t) v).
  destruct (fetch _ _ w) as [o w']. by destruct (responseJson o).
Qed.

(** Text made of UTF-16 code units, as every string is *)
Definition scope_text (scope : ConfigScope) : Prop :=
  Forall code_unit (app_id scope) /\ Forall code_unit (environment scope)
  /\ Forall code_unit (cluster scope) /\ Forall code_unit (namespace scope).

Lemma saved_item_wf scope key value :
  scope_text scope -> Forall code_unit key -> Json.wf value -> Json.wf (saved_item scope key value).
Proof.
  intros (Ha & He & Hc & Hn) Hk Hv. cbn.
  split_and!; try done; apply js_code_units.
Qed.

(** C24: Opening a draft and saving it does not change it: after the draft is loaded,
    the editor holds the first item that is not deleted, and [saveItem] sends one PUT
    whose body a JSON parser reads as an object with the scope, the key of the item
    (without white space around it) and the very value of the item. *)
Theorem unedited_item_is_sent_back {W} {B : Browser W} token scope data item s w :
  List.find (fun i => negb (di_deleted i)) (cd_items data) = Some item ->
  scope_text scope -> Forall code_unit (di_key item) ->
  Json.wf (di_value item) -> Text.trim (di_key item) <> [] ->
  let loaded := ConfigDetails.draftEffect (ready data) s in
  exists text,
    Json.parse text = Ok (saved_item scope (Text.trim (di_key item)) (di_value item))
    /\ snd (ConfigDetails.saveItem token scope loaded w)
       = snd (fetch (js "/api/admin/config/items") (json_request token (js "PUT") text) w).
Proof.
  intros Hf Hs Hu Hv Hk. eexists. split.
  - apply Json.parse_stringify, saved_item_wf; [done|by apply Text.trim_forall|done].
  - unfold ConfigDetails.draftEffect. rewrite Hf.
    unfold ConfigDetails.saveItem. cbn [ConfigDetails.setFeedback ConfigDetails.setEditor
      ConfigDetails.jsonValue ConfigDetails.selectedKey].
    rewrite Json.parse_stringify2 by done. destruct (Text.trim (di_key item)) as [|u t]; [done|].
    unfold ConfigDetails.attempt. rewrite sendJson_request.
    change (ConfigDetails.item_body scope (u :: t) (di_value item)) with (saved_item scope (u :: t) (di_value item)).
    destruct (fetch _ _ w) as [o w']. by destruct (responseJson o).
Qed.

(** ** Client credentials *)

(** The role a part of the input names, if it is not blank *)
Definition named_role (part : jsstr) : option jsstr :=
  match Text.trim part with [] => None | role => Some role end.

Lemma role_list_named roles : ClientsView.role_list roles = omap named_role (Text.split 44 roles).
Proof.
  unfold ClientsView.role_list. induction (Text.split 44 roles) as [|p ps IH]; [done|].
  cbn [map]. rewrite filter_cons. cbn. unfold named_role at 1. rewrite <- IH.
  destruct (Text.trim p); by case_decide.
Qed.

(** C26: Creating a client sends nothing for a blank key.  Otherwise it sends one POST with
    the token whose body is the JSON text of an object with the trimmed key and the
    roles: the parts of the input between its commas, in order, trimmed and without
    the blank ones.  A secret is on screen afterwards only if this request
    succeeded: no secret of an earlier request survives a failed one. *)
Theorem create_client_request {W} {B : Browser W} token (s : ClientsView.t) w :
  let '(s', w') := ClientsView.createClient token s w in
  let key := Text.trim (ClientsView.clientKey s) in
  if bool_decide (key = [])
  then w' = w /\ ClientsView.secret s' = ClientsView.no_secret
       /\ ClientsView.feedback s' = js "Client key required"
  else exists parts, Forall (fun p => 44 ∉ p) parts /\ parts <> []
    /\ ClientsView.roles s = Text.join (js ",") parts
    /\ let body := JObject [(js "client_key", JString key);
                            (js "roles", JArray (map JString (omap named_role parts)))] in
       let '(outcome, w1) := fetch (js "/api/admin/clients")
         (json_request token (js "POST") (Json.stringify body)) w in
       w' = w1 /\ match responseJson outcome with
                  | Throw e => ClientsView.secret s' = ClientsView.no_secret
                               /\ ClientsView.feedback s' = errorMessage e
                  | Ok created =>
                      forall o x k, created = JObject o -> find_prop (js "secret") o = Some x ->
                        find_prop (js "client_key") o = Some (JString k) ->
                        ClientsView.secret s' = Some x /\ ClientsView.feedback s' = js "Created " ++ k
                  | OutOfFuel => True
                  end.
Proof.
  unfold ClientsView.createClient.
  cbn [ClientsView.setSecret ClientsView.setFeedback ClientsView.clientKey ClientsView.roles].
  destruct (Text.trim (ClientsView.clientKey s)) as [|u t]; [done|].
  rewrite sendJson_request. unfold ClientsView.create_body. rewrite role_list_named.
  destruct (fetch _ _ w) as [outcome w1] eqn:E.
  destruct (responseJson outcome) as [created|e|] eqn:Er; rewrite bool_decide_false by done;
    exists (Text.split 44 (ClientsView.roles s)); (split; [apply Text.split_free|]);
    (split; [apply Text.split_nonempty|]); (split; [symmetry; apply (Text.join_split 44)|]);
    cbn zeta; rewrite E, Er; [|done|done].
  split; [done|]. intros o x k -> Hx Hk. unfold ClientsView.showCreated. cbn. by rewrite Hx, Hk.
Qed.

(** ** Witnesses *)
(** A far end that answers every request with [{}] and counts the requests *)
#[local] Instance counting_browser : Browser Z := {|
  fetch path init w := (inr (mkResponse 200 (js "{}")), w + 1) |}.

Lemma token_opens_console_witness :
  let a' := App.submitToken (js " s3cret ") (App.init None) in
  App.body a' = App.ShowView overview /\ App.storage a' = Some (js "s3cret").
Proof.
  destruct (token_opens_console (B := counting_browser) (js " s3cret ") (App.init None)) as [_ H].
  destruct H as (H1 & H2 & _); [by vm_compute|]. split; [exact H1|exact H2].
Defined.

Definition scope_a : ConfigScope := mkScope (js "shop") (js "prod") (js "main") (js "web").
Definition scope_b : ConfigScope := mkScope (js "shop") (js "prod") (js "main") (js "api").

Lemma selected_scope_is_shown_witness :
  let items := [mkSummary scope_a (Num.of_Z 1); mkSummary scope_b (Num.of_Z 4)] in
  ConfigView.selected items (ConfigView.onSelect (mkSummary scope_b (Num.of_Z 4))) = Some scope_b.
Proof.
  apply (selected_scope_is_shown [mkSummary scope_a (Num.of_Z 1); mkSummary scope_b (Num.of_Z 4)]
    (mkSummary scope_b (Num.of_Z 4))).
  - repeat (apply Forall_cons_2; [split_and!; apply (bool_decide_unpack _); by vm_compute|]).
    apply Forall_nil_2.
  - apply elem_of_cons; right. by apply list_elem_of_singleton.
Defined.

(** A far end that answers every request with [{}] and records the requests *)
#[local] Instance recording_browser : Browser (list (jsstr * RequestInit)) := {|
  fetch path init w := (inr (mkResponse 200 (js "{}")), (path, init) :: w) |}.

Definition no_json : ConfigDetails.t := ConfigDetails.mk (js "retries") (js "{oops") (js "") (js "").
Definition edited : ConfigDetails.t := ConfigDetails.mk (js " retries ") (js "3.5") (js "") (js "").

Lemma save_item_guarded_witness :
  snd (ConfigDetails.saveItem None scope_a no_json []) = []
  /\ snd (ConfigDetails.saveItem None scope_a edited [])
     = [(js "/api/admin/config/items", json_request None (js "PUT")
          (Json.stringify (saved_item scope_a (js "retries") (JNumber (Finite 7 (-1))))))].
Proof.
  split.
  - pose proof (save_item_guarded None scope_a no_json []) as H. vm_compute in H |- *. tauto.
  - pose proof (save_item_guarded None scope_a edited []) as H. vm_compute in H |- *. tauto.
Defined.

Lemma unedited_item_is_sent_back_witness :
  let item := mkDraftItem (js "retries") (JNumber (Num.of_Z 3)) false (js "now") in
  exists text, Json.parse text = Ok (saved_item scope_a (js "retries") (JNumber (Num.of_Z 3)))
    /\ snd (ConfigDetails.saveItem None scope_a
          (ConfigDetails.draftEffect (ready (mkDraft scope_a [item])) ConfigDetails.initial) [])
       = [(js "/api/admin/config/items", json_request None (js "PUT") text)].
Proof.
  intros item.
  destruct (unedited_item_is_sent_back None scope_a (mkDraft scope_a [item]) item ConfigDetails.initial [])
    as (text & Ht & Hw); [reflexivity| |by apply (bool_decide_unpack _)|by exists 3|by vm_compute|].
  - split_and!; by apply (bool_decide_unpack _).
  - exists text. split; [exact Ht|exact Hw].
Defined.

Lemma create_client_request_witness :
  exists parts, js " cache, ,mq " = Text.join (js ",") parts
    /\ snd (ClientsView.createClient (Some (js "t"))
          (ClientsView.mk (js " svc") (js " cache, ,mq ") ClientsView.no_secret (js "")) [])
       = [(js "/api/admin/clients", json_request (Some (js "t")) (js "POST")
            (Json.stringify (JObject [(js "client_key", JString (js "svc"));
                                      (js "roles", JArray (map JString (omap named_role parts)))])))].
Proof.
  pose proof (create_client_request (Some (js "t"))
    (ClientsView.mk (js " svc") (js " cache, ,mq ") ClientsView.no_secret (js "")) []) as H.
  destruct (ClientsView.createClient _ _ _) as [s' w'].
  destruct H as (parts & _ & _ & Hroles & Hw & _). by exists parts.
Defined.
