(* ===== verification/AdminRender.v ===== *)
(** * What the admin console renders

    The elements the components of [apps/admin-ui/src/App.tsx] return, for given
    state and data.  An element has its tag (or the name of an icon component), its
    string attributes, the handler it triggers, and its children; numbers and
    strings are text.  Keys and numeric sizes of icons are left out. *)

From Stdlib Require Import ZArith Lia.
From stdpp Require Import base list numbers option strings.
From S2P Require Import Prelude JsString JsNumber Json AdminApi AdminState AdminViews.

(** ** Elements *)

(** The handlers an element can trigger *)
Inductive action :=
  | SetView (v : View)
  | SubmitToken
  | EditToken
  | PurgeDlq
  | ReprocessDlq (messageId : number)
  | SelectScope (id : jsstr)
  | SaveItem
  | Publish
  | EditKey
  | EditValue
  | SaveSchema
  | RemoveSchema
  | EditSchema
  | CreateClient
  | EditClientKey
  | EditRoles
  | RotateClient (key : jsstr)
  | DeactivateClient (key : jsstr).

Inductive element :=
  | Txt (s : jsstr)
  | El (tag : jsstr) (attrs : list (jsstr * jsstr)) (handler : option action) (children : list element).

Definition el (tag : jsstr) (className : jsstr) (children : list element) : element :=
  El tag [(js "className", className)] None children.
Definition plain (tag : jsstr) (children : list element) : element := El tag [] None children.
Definition icon (name : jsstr) : element := El name [] None [].
Definition num (n : number) : element := Txt (Num.toString n).
Definition button (className label : jsstr) (a : action) (children : list element) : element :=
  El (js "button") [(js "type", js "button"); (js "className", className); (js "aria-label", label)]
    (Some a) children.
Definition panel (children : list element) : element := el (js "section") (js "panel") children.
Definition heading (title : jsstr) (more : list element) : element :=
  el (js "div") (js "panel-heading") (plain (js "h2") [Txt title] :: more).

(** [{text && <p className=...>{text}</p>}] *)
Definition unless_empty (text : jsstr) (e : element) : list element :=
  match text with [] => [] | _ => [e] end.

(** ** Tables and messages *)
Definition StateMessage {T} (state : LoadState T) : element :=
  match state with
  | error message => el (js "p") (js "state error") [Txt message]
  | _ => el (js "p") (js "state") [Txt (js "Loading")]
  end.

Definition DataTable (columns : list jsstr) (rows : list (list element)) (empty : jsstr) : element :=
  match rows with
  | [] => el (js "p") (js "empty") [Txt empty]
  | _ =>
      el (js "div") (js "table-wrap")
        [plain (js "table")
          [plain (js "thead") [plain (js "tr") (map (fun c => plain (js "th") [Txt c]) columns)];
           plain (js "tbody")
             (map (fun row => plain (js "tr") (map (fun cell => plain (js "td") [cell]) row)) rows)]]
  end.

Definition AsyncTable {T} (state : LoadState (Page T)) (columns : list jsstr)
    (mapRow : T -> list element) (empty : jsstr) : element :=
  match state with
  | ready data => DataTable columns (map mapRow (items data)) empty
  | _ => StateMessage state
  end.

Definition Metric (title value detail iconName : jsstr) : element :=
  el (js "div") (js "metric")
    [el (js "div") (js "metric-icon") [icon iconName];
     plain (js "div") [plain (js "span") [Txt title]; plain (js "strong") [Txt value];
                       plain (js "small") [Txt detail]]].

Definition StatusPill (state : jsstr) : element :=
  el (js "span") (js "status-pill " ++ if bool_decide (state = js "ready") then js "good" else js "")
    [Txt state].

(** ** Overview *)
Record PgPool := mkPool { pool_size : number; pool_idle : number }.
Record CacheSummary := mkCacheSummary {
  hits : number;
  misses : number;
  writes : number;
  deletes : number;
  evictions : number;
  expired_removals : number;
  logical_key_count : number;
  logical_byte_size : number
}.
Record MqSummary := mkMqSummary {
  queue_count : number;
  visible_message_count : number;
  in_flight_message_count : number;
  archived_message_count : number
}.
Record Overview := mkOverview {
  server_state : jsstr;
  ov_ready : bool;
  runtime_metrics : list MethodMetric;
  pg_pool : PgPool;
  cache_summary : CacheSummary;
  mq_summary : MqSummary
}.

Definition OverviewView (state : LoadState Overview) : element :=
  match state with
  | ready data =>
      el (js "div") (js "stack")
        [El (js "section") [(js "className", js "metric-grid"); (js "aria-label", js "Overview metrics")] None
           [Metric (js "PG Pool") (Num.toString (pool_idle (pg_pool data)) ++ js "/" ++ Num.toString (pool_size (pg_pool data)))
              (js "idle / size") (js "Database");
            Metric (js "Cache keys") (Num.toString (logical_key_count (cache_summary data)))
              (Num.toString (logical_byte_size (cache_summary data)) ++ js " bytes") (js "Activity");
            Metric (js "MQ queues") (Num.toString (queue_count (mq_summary data)))
              (Num.toString (visible_message_count (mq_summary data)) ++ js " visible") (js "MessageSquareText");
            Metric (js "Errors") (Num.toString (sumErrors (runtime_metrics data)))
              (Num.toString (Num.of_Z (Z.of_nat (length (runtime_metrics data)))) ++ js " methods") (js "Clock")];
         panel
           [heading (js "Runtime") [];
            DataTable [js "service"; js "method"; js "status"; js "count"; js "errors"]
              (map (fun metric => [Txt (mm_service metric); Txt (mm_method metric); Txt (mm_status metric);
                                   num (mm_count metric); num (mm_errors metric)]) (runtime_metrics data))
              (js "No request metrics")]]
  | _ => StateMessage state
  end.

(** ** Cache *)
Record CacheNamespace := mkNamespace { cn_name : jsstr; cn_key_count : number; cn_byte_size : number }.
Record CacheEntry := mkEntry {
  ce_namespace : jsstr;
  ce_key : jsstr;
  ce_size_bytes : number;
  ce_value_preview : jsstr;
  ce_value_encoding : jsstr;
  ce_access_count : number
}.

Definition CacheView (namespaces : LoadState (Page CacheNamespace)) (entries : LoadState (Page CacheEntry))
    : element :=
  el (js "div") (js "split")
    [panel
       [heading (js "Namespaces") [];
        AsyncTable namespaces [js "namespace"; js "keys"; js "bytes"]
          (fun row => [Txt (cn_name row); num (cn_key_count row); num (cn_byte_size row)])
          (js "No namespaces")];
     panel
       [heading (js "Entries") [];
        AsyncTable entries [js "namespace"; js "key"; js "bytes"; js "encoding"; js "preview"]
          (fun row => [Txt (ce_namespace row); Txt (ce_key row); num (ce_size_bytes row);
                       Txt (ce_value_encoding row); Txt (ce_value_preview row)])
          (js "No entries")]].

(** ** Queues *)
Record QueueMessage := mkQueueMessage {
  qm_queue_name : jsstr;
  qm_message_id : number;
  qm_read_count : number;
  qm_payload_preview : jsstr
}.
Record DlqMessage := mkDlqMessage {
  dm_id : number;
  dm_original_message_id : number;
  dm_read_count : number;
  dm_enqueued_at : jsstr;
  dm_dead_lettered_at : jsstr;
  dm_payload : json;
  dm_reason : jsstr
}.

Definition dlqRow (message : DlqMessage) : list element :=
  [num (dm_original_message_id message); num (dm_read_count message); Txt (dm_reason message);
   Txt (compactJson (dm_payload message));
   button (js "icon-button") (js "Reprocess DLQ message " ++ Num.toString (dm_original_message_id message))
     (ReprocessDlq (dm_original_message_id message))
     [icon (js "RefreshCcw"); plain (js "span") [Txt (js "Reprocess")]]].

Definition mqFeedbackClass (feedback : jsstr) : jsstr :=
  if Text.includes (js "failed") feedback
  then js "state error compact panel-feedback" else js "state compact panel-feedback".

Definition MqPanel (queues : LoadState (Page QueueSummary)) (messages : LoadState (Page QueueMessage))
    (dlq : LoadState (Page DlqMessage)) (feedback : jsstr) : element :=
  let selectedQueue := truthy (MqView.selectedQueue queues) in
  el (js "div") (js "stack")
    [el (js "div") (js "split")
       [panel
          [heading (js "Queues") [];
           AsyncTable queues [js "queue"; js "visible"; js "in-flight"; js "archived"]
             (fun row => [Txt (qs_name row); num (qs_visible row); num (qs_in_flight row); num (qs_archived row)])
             (js "No queues")];
        panel
          [heading (js "Messages") [];
           AsyncTable messages [js "id"; js "queue"; js "reads"; js "payload"]
             (fun row => [num (qm_message_id row); Txt (qm_queue_name row); num (qm_read_count row);
                          Txt (qm_payload_preview row)])
             (js "No messages")]];
     panel
       (heading (js "Dead letters")
          match selectedQueue with
          | Some q => [button (js "icon-button") (js "Purge DLQ for " ++ q) PurgeDlq
                         [icon (js "RefreshCcw"); plain (js "span") [Txt (js "Purge")]]]
          | None => []
          end
        :: match dlq with
           | ready data =>
               DataTable [js "original id"; js "reads"; js "reason"; js "payload"; js "action"]
                 (map dlqRow (items data)) (js "No dead letters")
           | _ => StateMessage dlq
           end
        :: unless_empty feedback (el (js "p") (mqFeedbackClass feedback) [Txt feedback]))].

(** ** Config *)
Definition scopeRow (selected : jsstr) (item : ConfigScopeSummary) : element :=
  let id := scopeId (cs_scope item) in
  button (if bool_decide (id = selected) then js "scope-row active" else js "scope-row")
    (js "Select scope " ++ app_id (cs_scope item)) (SelectScope id)
    [plain (js "strong") [Txt (app_id (cs_scope item))];
     plain (js "span") [Txt (environment (cs_scope item))];
     plain (js "span") [Txt (cluster (cs_scope item))];
     plain (js "span") [Txt (namespace (cs_scope item))];
     plain (js "small") [Txt (js "Revision "); num (cs_current_revision item)]].

Definition ScopeList (scopes : list ConfigScopeSummary) (selected : jsstr) : element :=
  match scopes with
  | [] => el (js "p") (js "empty") [Txt (js "No config scopes")]
  | _ => el (js "div") (js "scope-list") (map (scopeRow selected) scopes)
  end.

Record ConfigRelease := mkRelease {
  rl_scope : ConfigScope;
  rl_revision : number;
  rl_checksum : jsstr;
  rl_snapshot : json;
  rl_message : jsstr;
  rl_published_by : jsstr;
  rl_published_at : jsstr
}.

(** [s.toLowerCase()] on the letters of ASCII.  No other character has a lower
    case with a letter of "invalid" that could complete the word. *)
Definition asciiLower (s : jsstr) : jsstr :=
  map (fun u => if (65 <=? u) && (u <=? 90) then u + 32 else u) s.

Definition configFeedbackClass (feedback : jsstr) : jsstr :=
  if Text.includes (js "invalid") (asciiLower feedback) || Text.includes (js "rejected") feedback
  then js "state error compact" else js "state compact".

Definition labelled (title : jsstr) (field : element) : element :=
  plain (js "label") [plain (js "span") [Txt title]; field].
Definition textarea (label value : jsstr) (a : action) : element :=
  El (js "textarea") [(js "aria-label", label); (js "value", value); (js "spellCheck", js "false")] (Some a) [].

Definition ConfigPanels (draft : LoadState ConfigDraft) (releases : LoadState (Page ConfigRelease))
    (schema_ : LoadState ConfigSchemaResponse) (s : ConfigDetails.t) : element :=
  el (js "div") (js "config-detail")
    [panel
       [heading (js "Draft items") [];
        match draft with
        | ready data =>
            DataTable [js "key"; js "state"; js "value"]
              (map (fun item => [Txt (di_key item);
                                 Txt (if di_deleted item then js "deleted" else js "active");
                                 Txt (if di_deleted item then js "" else compactJson (di_value item))])
                 (cd_items data))
              (js "No draft items")
        | _ => StateMessage draft
        end];
     panel
       [heading (js "JSON editor")
          [el (js "div") (js "toolbar")
             [button (js "icon-button") (js "Save config item") SaveItem
                [icon (js "Save"); plain (js "span") [Txt (js "Save")]];
              button (js "icon-button primary") (js "Publish config release") Publish
                [icon (js "Rocket"); plain (js "span") [Txt (js "Publish")]]]];
        el (js "div") (js "editor-body")
          (labelled (js "Key")
             (El (js "input") [(js "value", ConfigDetails.selectedKey s)] (Some EditKey) [])
           :: labelled (js "Value")
                (textarea (js "Config JSON value") (ConfigDetails.jsonValue s) EditValue)
           :: unless_empty (ConfigDetails.feedback s)
                (el (js "p") (configFeedbackClass (ConfigDetails.feedback s))
                   [Txt (ConfigDetails.feedback s)]))];
     panel
       [heading (js "JSON Schema")
          [el (js "div") (js "toolbar")
             [button (js "icon-button") (js "Save config schema") SaveSchema
                [icon (js "Save"); plain (js "span") [Txt (js "Save")]];
              button (js "icon-button") (js "Remove config schema") RemoveSchema
                [icon (js "RefreshCcw"); plain (js "span") [Txt (js "Remove")]]]];
        match schema_ with
        | ready _ =>
            el (js "div") (js "editor-body")
              [labelled (js "Schema")
                 (textarea (js "Config JSON schema") (ConfigDetails.schemaValue s) EditSchema)]
        | _ => StateMessage schema_
        end];
     panel
       [heading (js "Release history") [icon (js "Braces")];
        match releases with
        | ready data =>
            DataTable [js "revision"; js "checksum"; js "message"; js "snapshot"]
              (map (fun r => [Txt (js "Revision " ++ Num.toString (rl_revision r)); Txt (rl_checksum r);
                              Txt (rl_message r); Txt (compactJson (rl_snapshot r))]) (items data))
              (js "No releases")
        | _ => StateMessage releases
        end]].

(** [ConfigView]; [details] renders [ConfigDetails] for a scope. *)
Definition ConfigLayout (scopes : LoadState (Page ConfigScopeSummary)) (selectedScopeId : jsstr)
    (details : ConfigScope -> element) : element :=
  match scopes with
  | ready data =>
      match ConfigView.selected (items data) selectedScopeId with
      | None => panel [heading (js "Scopes") []; el (js "p") (js "empty") [Txt (js "No config scopes")]]
      | Some selected =>
          el (js "div") (js "config-layout")
            [panel [heading (js "Scopes") []; ScopeList (items data) (scopeId selected)]; details selected]
      end
  | _ => StateMessage scopes
  end.

(** ** Logs *)
Record LogEvent := mkLogEvent {
  le_id : number;
  le_level : jsstr;
  le_target : jsstr;
  le_message : jsstr;
  le_request_id : option jsstr
}.

Definition LogsView (logs : LoadState (Page LogEvent)) : element :=
  panel
    [heading (js "Events") [];
     AsyncTable logs [js "level"; js "target"; js "message"; js "request"]
       (fun row => [Txt (le_level row); Txt (le_target row); Txt (le_message row);
                    Txt (default (js "") (le_request_id row))])
       (js "No logs")].

(** ** Clients *)
Record ClientCredential := mkCredential {
  cr_id : number;
  cr_client_key : jsstr;
  cr_active : bool;
  cr_roles : list jsstr;
  cr_created_at : jsstr;
  cr_updated_at : jsstr
}.
Record AdminSession := mkSession { as_request_id : jsstr; as_path : jsstr; as_last_seen_at : jsstr }.
Record ClientActivity := mkActivity {
  ca_items : list ClientCredential;
  ca_admin_sessions : list AdminSession;
  ca_api_activity : list MethodMetric
}.

Definition credentialRow (credential : ClientCredential) : list element :=
  [Txt (cr_client_key credential);
   Txt (if cr_active credential then js "active" else js "inactive");
   Txt (Text.join (js ", ") (cr_roles credential));
   Txt (cr_updated_at credential);
   el (js "div") (js "row-actions")
     [button (js "icon-button") (js "Rotate " ++ cr_client_key credential)
        (RotateClient (cr_client_key credential))
        [icon (js "RefreshCcw"); plain (js "span") [Txt (js "Rotate")]];
      button (js "icon-button") (js "Deactivate " ++ cr_client_key credential)
        (DeactivateClient (cr_client_key credential))
        [icon (js "ShieldCheck"); plain (js "span") [Txt (js "Deactivate")]]]].

Definition clientsFeedbackClass (feedback : jsstr) : jsstr :=
  if Text.includes (js "required") feedback then js "state error compact" else js "state compact".

(** [secret && ...] for a secret of its declared type, a string *)
Definition secretOutput (secret : option json) : list element :=
  match secret with
  | Some (JString s) => unless_empty s (el (js "p") (js "state compact secret-output") [Txt s])
  | _ => []
  end.

Definition input (label value : jsstr) (a : action) : element :=
  El (js "input") [(js "aria-label", label); (js "value", value)] (Some a) [].

Definition ClientsPanels (state : LoadState ClientActivity) (s : ClientsView.t) : element :=
  match state with
  | ready data =>
      el (js "div") (js "stack")
        [panel
           [heading (js "Client credentials")
              [button (js "icon-button primary") (js "Create client credential") CreateClient
                 [icon (js "Save"); plain (js "span") [Txt (js "Create")]]];
            el (js "div") (js "editor-body client-form")
              (labelled (js "Key") (input (js "New client key") (ClientsView.clientKey s) EditClientKey)
               :: labelled (js "Roles") (input (js "New client roles") (ClientsView.roles s) EditRoles)
               :: secretOutput (ClientsView.secret s)
               ++ unless_empty (ClientsView.feedback s)
                    (el (js "p") (clientsFeedbackClass (ClientsView.feedback s))
                       [Txt (ClientsView.feedback s)]));
            DataTable [js "key"; js "active"; js "roles"; js "updated"; js "actions"]
              (map credentialRow (ca_items data)) (js "No client credentials")];
         el (js "div") (js "split")
           [panel
              [heading (js "Admin sessions") [];
               DataTable [js "request"; js "path"; js "last seen"]
                 (map (fun x => [Txt (as_request_id x); Txt (as_path x); Txt (as_last_seen_at x)])
                    (ca_admin_sessions data))
                 (js "No admin sessions")];
            panel
              [heading (js "API activity") [];
               DataTable [js "service"; js "method"; js "status"; js "count"]
                 (map (fun metric => [Txt (mm_service metric); Txt (mm_method metric); Txt (mm_status metric);
                                      num (mm_count metric)]) (ca_api_activity data))
                 (js "No API activity")]]]
  | _ => StateMessage state
  end.

(** ** The shell *)
Definition titleFor (view : View) : jsstr :=
  match view with
  | overview => js "PGApp Console"
  | cache => js "Cache"
  | mq => js "MQ"
  | config => js "Config"
  | logs => js "Logs"
  | clients => js "Clients"
  end.

Definition descriptionFor (view : View) : jsstr :=
  match view with
  | overview => js "A PostgreSQL-backed operational surface for service health, traffic, and storage state."
  | cache => js "Inspect namespace usage and cached entry previews without mutating runtime data."
  | mq => js "Review queues and message previews while preserving delivery and acknowledgement state."
  | config => js "Manage scoped JSON drafts, publish immutable releases, and inspect release history."
  | logs => js "Trace persisted admin and service events from the server-side PostgreSQL log store."
  | clients => js "Observe Admin sessions and API method activity across SDK and console traffic."
  end.

Definition TokenPrompt (value : jsstr) : element :=
  el (js "section") (js "panel token-panel")
    [heading (js "Admin token") [];
     El (js "form") [(js "className", js "token-form")] (Some SubmitToken)
       [El (js "input") [(js "aria-label", js "Admin token"); (js "autoComplete", js "off");
                         (js "type", js "password"); (js "value", value)] (Some EditToken) [];
        El (js "button") [(js "type", js "submit")] None [Txt (js "Save")]]].

(** The icons of [navItems] *)
Definition navIcon (view : View) : jsstr :=
  match view with
  | overview => js "LayoutDashboard"
  | cache => js "Database"
  | mq => js "MessageSquareText"
  | config => js "Settings2"
  | logs => js "FileText"
  | clients => js "UsersRound"
  end.

Definition navButton (view : View) (item : View * jsstr) : element :=
  button (if bool_decide (view = fst item) then js "nav-button active" else js "nav-button") (snd item)
    (SetView (fst item)) [icon (navIcon (fst item)); plain (js "span") [Txt (snd item)]].

(** [App], with the token typed so far and the views' elements *)
Definition renderApp (a : App.t) (overviewState : LoadState Overview) (tokenValue : jsstr)
    (viewElement : View -> element) : element :=
  el (js "main") (js "app-shell")
    [el (js "aside") (js "sidebar")
       [el (js "div") (js "brand")
          [el (js "div") (js "brand-mark") [icon (js "Server")];
           el (js "div") (js "brand-copy")
             [plain (js "span") [Txt (js "pgapp Admin")]; plain (js "small") [Txt (js "PostgreSQL-first ops")]]];
        El (js "nav") [(js "className", js "nav-list"); (js "aria-label", js "Admin sections")] None
          (map (navButton (App.view a)) navItems);
        el (js "div") (js "sidebar-note")
          [plain (js "strong") [Txt (js "PG-first control plane")];
           plain (js "span") [Txt (js "Cache, MQ, Config, logs, and client activity backed by PostgreSQL.")]]];
     el (js "section") (js "workspace")
       [el (js "header") (js "topbar")
          [el (js "label") (js "global-search")
             [icon (js "Search");
              El (js "input") [(js "aria-label", js "Search admin resources"); (js "type", js "search");
                               (js "placeholder", js "Search Cache, MQ, Config, logs...")] None []];
           el (js "div") (js "top-actions")
             [El (js "span") [(js "className", js "icon-status"); (js "aria-label", js "Admin token stored")] None
                [icon (js "ShieldCheck")];
              StatusPill (match overviewState with ready data => server_state data | _ => js "loading" end)]];
        el (js "div") (js "page")
          [el (js "header") (js "page-head")
             [plain (js "div")
                [el (js "p") (js "eyebrow") [Txt (js "local admin")];
                 plain (js "h1") [Txt (titleFor (App.view a))];
                 el (js "p") (js "head-desc") [Txt (descriptionFor (App.view a))]]];
           match App.body a with
           | App.ShowTokenPrompt => TokenPrompt tokenValue
           | App.ShowView v => viewElement v
           end]]].
