(* ===== verification/AdminRenderTheorems.v ===== *)
(** * Theorems on what the admin console renders *)

From Stdlib Require Import ZArith Lia.
From stdpp Require Import base list numbers option strings.
From S2P Require Import Prelude JsString JsNumber Json AdminApi AdminState AdminViews AdminRender.

#[local] Arguments js : simpl never.
#[local] Arguments button : simpl never.
#[local] Arguments bool_decide : simpl never.

(** ** The handlers on screen *)
Fixpoint actions (e : element) : list action :=
  match e with
  | Txt _ => []
  | El _ _ handler children =>
      match handler with Some a => [a] | None => [] end ++ flat_map actions children
  end.

Lemma actions_button c l a cs : actions (button c l a cs) = a :: flat_map actions cs.
Proof. done. Qed.

Lemma actions_state {T} (s : LoadState T) : actions (StateMessage s) = [].
Proof. by destruct s. Qed.

Lemma flat_map_nil {A B} (f : A -> list B) l : (forall x, x ∈ l -> f x = []) -> flat_map f l = [].
Proof.
  induction l as [|x l IH]; cbn; intros H; [done|].
  rewrite H by (apply elem_of_cons; by left). apply IH. intros y Hy. apply H, elem_of_cons. by right.
Qed.

Lemma flat_map_map {A B C} (f : A -> B) (g : B -> list C) l :
  flat_map g (map f l) = flat_map (fun x => g (f x)) l.
Proof. induction l; cbn; congruence. Qed.

Lemma DataTable_rows columns rows empty :
  rows <> [] ->
  DataTable columns rows empty =
    el (js "div") (js "table-wrap")
      [plain (js "table")
        [plain (js "thead") [plain (js "tr") (map (fun c => plain (js "th") [Txt c]) columns)];
         plain (js "tbody")
           (map (fun row => plain (js "tr") (map (fun cell => plain (js "td") [cell]) row)) rows)]].
Proof. by destruct rows. Qed.

(** A table has the handlers of its cells, row by row. *)
Lemma actions_table columns rows empty :
  actions (DataTable columns rows empty) = flat_map (flat_map actions) rows.
Proof.
  destruct (decide (rows = [])) as [->|Hne]; [done|].
  assert (flat_map actions (map (fun c => plain (js "th") [Txt c]) columns) = []) as Hth.
  { rewrite flat_map_map. by apply flat_map_nil. }
  assert (forall r, flat_map actions (map (fun cell => plain (js "td") [cell]) r) = flat_map actions r) as Htd.
  { intros r. rewrite flat_map_map. apply flat_map_ext. intros c. cbn. by rewrite app_nil_r. }
  rewrite DataTable_rows by done. cbn -[map]. rewrite Hth. cbn -[map].
  rewrite !app_nil_r, flat_map_map. apply flat_map_ext. intros r. cbn -[map]. apply Htd.
Qed.

Lemma actions_async {T} (state : LoadState (Page T)) columns mapRow empty :
  (forall row, flat_map actions (mapRow row) = []) ->
  actions (AsyncTable state columns mapRow empty) = [].
Proof.
  intros H. destruct state as [|m|data]; [done|done|]. cbn [AsyncTable]. rewrite actions_table, flat_map_map.
  by apply flat_map_nil.
Qed.

Lemma actions_unless text e : actions e = [] -> flat_map actions (unless_empty text e) = [].
Proof. intros H. destruct text; cbn; [done|]. by rewrite H. Qed.

(** C36: The overview, cache and logs views only show: no element of them triggers a
    handler, whatever data they have.  So they offer nothing that changes the cache,
    as they must not, but neither the search, filters and pagination of cache entries
    nor the filters of logs that the specification of the console asks for. *)
Theorem read_only_views overviewState namespaces entries events :
  actions (OverviewView overviewState) = []
  /\ actions (CacheView namespaces entries) = []
  /\ actions (LogsView events) = [].
Proof.
  split_and!.
  - destruct overviewState as [|m|data]; [done|done|]. cbn -[DataTable]. rewrite actions_table, flat_map_map.
    rewrite !app_nil_r. by apply flat_map_nil.
  - cbn -[AsyncTable]. by rewrite !actions_async.
  - cbn -[AsyncTable]. by rewrite actions_async.
Qed.

(** C35: The queue view offers what can be done: purging when a queue is selected, and
    for every dead letter, in the order shown, reprocessing the message with
    its own original id; nothing else. *)
Theorem queue_view_actions queues messages dlq feedback :
  actions (MqPanel queues messages dlq feedback) =
    match truthy (MqView.selectedQueue queues) with Some _ => [PurgeDlq] | None => [] end
    ++ match dlq with
       | ready data => map (fun m => ReprocessDlq (dm_original_message_id m)) (items data)
       | _ => []
       end.
Proof.
  unfold MqPanel. cbn -[AsyncTable DataTable StateMessage truthy MqView.selectedQueue unless_empty].
  rewrite !actions_async by done. cbn -[DataTable StateMessage truthy MqView.selectedQueue unless_empty].
  rewrite actions_unless, !app_nil_r by done. f_equal; [by destruct (truthy _)|].
  destruct dlq as [|m|data]; [done|done|]. rewrite actions_table, flat_map_map.
  induction (items data) as [|x l IH]; cbn -[dlqRow]; [done|]. by rewrite IH.
Qed.

(** C34: Nothing of the console is on screen without a token: then the only handlers are
    those of the navigation and of the token form, whatever the views would
    render; with a token the handlers are those of the navigation and of the
    current view. *)
Theorem token_gates_views a overviewState tokenValue viewElement :
  actions (renderApp a overviewState tokenValue viewElement) =
    map SetView [overview; cache; mq; config; logs; clients]
    ++ if App.tokenReady a then actions (viewElement (App.view a)) else [SubmitToken; EditToken].
Proof.
  unfold renderApp. cbn -[StatusPill]. unfold App.body.
  destruct (App.tokenReady a); cbn; by rewrite ?app_nil_r.
Qed.

(** ** The shape of tables *)
Definition width (e : element) : nat := match e with El _ _ _ cs => length cs | Txt _ => 0 end.

(** A head of one row, and a body whose rows are as wide as the head *)
Definition table_ok (children : list element) : bool :=
  match children with
  | [El _ _ _ [head]; El _ _ _ body] => forallb (fun row => Nat.eqb (width row) (width head)) body
  | _ => false
  end.

Fixpoint rectangular (e : element) : bool :=
  match e with
  | Txt _ => true
  | El tag _ _ children =>
      (if bool_decide (tag = js "table") then table_ok children else true) && forallb rectangular children
  end.

Lemma rectangular_el tag attrs handler cs :
  tag <> js "table" -> rectangular (El tag attrs handler cs) = forallb rectangular cs.
Proof. intros H. cbn. by rewrite bool_decide_false. Qed.

Lemma forallb_intro {A} (f : A -> bool) l : (forall x, x ∈ l -> f x = true) -> forallb f l = true.
Proof. intros H. apply forallb_forall. intros x Hx. by apply H, list_elem_of_In. Qed.

Lemma forallb_map_intro {A B} (f : B -> bool) (g : A -> B) l :
  (forall x, x ∈ l -> f (g x) = true) -> forallb f (map g l) = true.
Proof.
  intros H. apply forallb_intro. intros y (x & -> & Hx)%list_elem_of_fmap. by apply H.
Qed.

Lemma rectangular_table columns rows empty :
  (forall row, row ∈ rows -> length row = length columns /\ forallb rectangular row = true) ->
  rectangular (DataTable columns rows empty) = true.
Proof.
  intros H. destruct (decide (rows = [])) as [->|Hne]; [by vm_compute|].
  rewrite DataTable_rows by done. unfold el, plain at 1.
  rewrite rectangular_el by done. cbn -[map rectangular]. rewrite andb_true_r.
  cbn -[map]. rewrite bool_decide_true by done. rewrite !bool_decide_false by done. cbn -[map].
  rewrite !andb_true_r. apply andb_true_iff; split; [|apply andb_true_iff; split].
  - apply forallb_map_intro. intros r Hr. cbn -[map]. rewrite !length_map.
    apply Nat.eqb_eq, H, Hr.
  - apply forallb_map_intro. intros c _. cbn. by rewrite bool_decide_false.
  - apply forallb_map_intro. intros r Hr. cbn -[map]. rewrite bool_decide_false by done. cbn -[map].
    apply forallb_map_intro. intros cell Hc. cbn. rewrite bool_decide_false by done. cbn.
    rewrite andb_true_r. destruct (H r Hr) as [_ Hf]. rewrite forallb_forall in Hf.
    by apply Hf, list_elem_of_In.
Qed.

Lemma rectangular_async {T} (state : LoadState (Page T)) columns mapRow empty :
  (forall row, length (mapRow row) = length columns /\ forallb rectangular (mapRow row) = true) ->
  rectangular (AsyncTable state columns mapRow empty) = true.
Proof.
  intros H. destruct state as [|m|data]; [by vm_compute| |].
  - cbn. by rewrite bool_decide_false.
  - apply rectangular_table. intros row (x & -> & _)%list_elem_of_fmap. apply H.
Qed.

Lemma rectangular_state {T} (s : LoadState T) : rectangular (StateMessage s) = true.
Proof. destruct s; cbn; by rewrite bool_decide_false. Qed.

Lemma rectangular_unless text e : rectangular e = true -> forallb rectangular (unless_empty text e) = true.
Proof. intros H. destruct text; cbn; [done|]. by rewrite H. Qed.

Lemma rectangular_rows {A} columns (f : A -> list element) l empty :
  (forall x, length (f x) = length columns /\ forallb rectangular (f x) = true) ->
  rectangular (DataTable columns (map f l) empty) = true.
Proof. intros H. apply rectangular_table. intros row (x & -> & _)%list_elem_of_fmap. apply H. Qed.

(** Opens the elements that are not tables. *)
Ltac open_elements :=
  repeat first
    [ progress unfold Metric, heading, panel, labelled, textarea, input, button, icon, el, plain, num
    | rewrite rectangular_el by done
    | progress cbn [forallb app flat_map map]
    | rewrite andb_true_r
    | rewrite rectangular_state
    | rewrite rectangular_async by (intros; split; reflexivity)
    | rewrite rectangular_rows by first [assumption | intros; split; reflexivity]
    | rewrite rectangular_unless by (by rewrite rectangular_el)
    | rewrite forallb_app
    | done ].

(** C37: Every table of the console is well formed: in every view and for all data,
    each row has a cell for each column. *)
Theorem tables_are_rectangular :
  (forall state, rectangular (OverviewView state) = true)
  /\ (forall namespaces entries, rectangular (CacheView namespaces entries) = true)
  /\ (forall queues messages dlq feedback, rectangular (MqPanel queues messages dlq feedback) = true)
  /\ (forall draft releases schema s, rectangular (ConfigPanels draft releases schema s) = true)
  /\ (forall events, rectangular (LogsView events) = true)
  /\ (forall state s, rectangular (ClientsPanels state s) = true).
Proof.
  assert (forall x, length (dlqRow x) = 5%nat /\ forallb rectangular (dlqRow x) = true) as Hdlq.
  { intros x. split; [done|]. unfold dlqRow. by open_elements. }
  assert (forall x, length (credentialRow x) = 5%nat /\ forallb rectangular (credentialRow x) = true) as Hcred.
  { intros x. split; [done|]. unfold credentialRow. by open_elements. }
  assert (forall x, forallb rectangular (secretOutput x) = true) as Hsecret.
  { intros [[| | |s| |]|]; try done. unfold secretOutput. by apply rectangular_unless, rectangular_el. }
  split_and!.
  - intros [|m|data]; [apply rectangular_state..|]. unfold OverviewView. by open_elements.
  - intros. unfold CacheView. by open_elements.
  - intros. unfold MqPanel. open_elements.
    destruct (truthy _), dlq as [|m|data]; open_elements; by rewrite ?rectangular_rows.
  - intros [] [] [] s; unfold ConfigPanels; by open_elements.
  - intros. unfold LogsView. by open_elements.
  - intros [|m|data] s; [apply rectangular_state..|]. unfold ClientsPanels. open_elements.
    rewrite Hsecret. by open_elements.
Qed.

(** ** Feedback *)

(** C38: The views recognise errors by words of their text, and miss the most common
    ones: when the Admin API cannot be reached, purging a queue, publishing a release
    and creating a client all report "Admin API unavailable", and none of the
    three reports has the style of an error. *)
Theorem unreachable_api_not_styled_as_error {W} {B : Browser W} token scope details form q w :
  (forall path init w, exists e w', fetch path init w = (inl e, w')) ->
  truthy q <> None -> Text.trim (ClientsView.clientKey form) <> [] ->
  let purged := fst (MqView.purgeDlq token q (js "") w) in
  let published := ConfigDetails.feedback (fst (ConfigDetails.publish token scope details w)) in
  let created := ClientsView.feedback (fst (ClientsView.createClient token form w)) in
  purged = js "Admin API unavailable" /\ published = purged /\ created = purged
  /\ mqFeedbackClass purged = js "state compact panel-feedback"
  /\ configFeedbackClass published = js "state compact"
  /\ clientsFeedbackClass created = js "state compact".
Proof.
  intros Hf Hq Hk.
  assert (forall path init w, exists w', fetchJson token path init w
            = (Throw (newError (js "Admin API unavailable")), w')) as Hfail.
  { intros path init w0. unfold fetchJson. cbv zeta.
    destruct (Hf path {| ri_method := ri_method init;
      ri_headers := spread (match truthy token with
        | Some t => set_header (js "Authorization") (js "Bearer " ++ t) [(js "Accept", js "application/json")]
        | None => [(js "Accept", js "application/json")] end) (ri_headers init);
      ri_body := ri_body init |} w0) as (e & w' & ->). by eexists. }
  assert (fst (MqView.purgeDlq token q (js "") w) = js "Admin API unavailable") as E1.
  { unfold MqView.purgeDlq. destruct (truthy q) as [x|]; [|done]. unfold postAction.
    by edestruct Hfail as [w' ->]. }
  assert (ConfigDetails.feedback (fst (ConfigDetails.publish token scope details w))
          = js "Admin API unavailable") as E2.
  { unfold ConfigDetails.publish, ConfigDetails.attempt, sendJson. by edestruct Hfail as [w' ->]. }
  assert (ClientsView.feedback (fst (ClientsView.createClient token form w))
          = js "Admin API unavailable") as E3.
  { unfold ClientsView.createClient. cbn [ClientsView.setSecret ClientsView.setFeedback ClientsView.clientKey].
    destruct (Text.trim (ClientsView.clientKey form)) as [|u t]; [done|]. unfold sendJson.
    by edestruct Hfail as [w' ->]. }
  cbv zeta. rewrite E1, E2, E3. split_and!; by vm_compute.
Qed.

(** ** Witnesses *)
#[local] Instance offline : Browser unit := {| fetch _ _ w := (inl (newError (js "Failed to fetch")), w) |}.

Lemma unreachable_api_not_styled_as_error_witness :
  fst (MqView.purgeDlq None (Some (js "jobs")) (js "") tt) = js "Admin API unavailable"
  /\ mqFeedbackClass (js "Admin API unavailable") = js "state compact panel-feedback".
Proof.
  destruct (unreachable_api_not_styled_as_error (B := offline) None
    (mkScope (js "a") (js "b") (js "c") (js "d")) ConfigDetails.initial
    (ClientsView.mk (js "svc") (js "") ClientsView.no_secret (js "")) (Some (js "jobs")) tt)
    as (H1 & _ & _ & H4 & _); [by eexists _, _|by vm_compute|by vm_compute|].
  split; [exact H1|]. by rewrite <- H1 at 1.
Defined.
